(* ===== verification/_CoqProject ===== *)
-Q . S2P
Prelude.v
Layout.v
Sys.v
Libc.v
Argp.v
Tsq.v
TsqListener.v
TsqSound.v
TsqTalker.v
TsqStream.v
TsqSteady.v
TsqProcess.v
Txrx.v
TxrxOptions.v
Afpkt.v
Afxdp.v
TxrxMain.v
TxrxLink.v
TxrxProcess.v
XdpLink.v
XdpMemory.v
XdpProcess.v
Opcua.v
OpcuaDatasource.v
OpcuaConfig.v
OpcuaJson.v
OpcuaThreads.v
OpcuaLayout.v
OpcuaServer.v
OpcuaRoundTrip.v
OpcuaProcess.v
OpcuaTrip.v
