(* ===== verification/Prelude.v ===== *)
(** * IOTG TSN reference software: verification library

    The repository holds three programs that measure and demonstrate
    time-sensitive networking on Linux, in C:

    - tsq (src/src/tsq.c): two talkers send the time stamps that their PTP
      devices record for one electric pulse; a listener aligns the samples by
      second and logs the difference of their nanoseconds;
    - txrx-tsn (txrx.c, txrx-afpkt.c, txrx-afxdp.c): sends numbered,
      time-stamped packets at a fixed interval through an AF_PACKET or AF_XDP
      socket, and receives, filters and logs them;
    - opcua-server (opcua-tsn/): publishes and subscribes numbered,
      time-stamped samples with open62541, in one direction or on a round trip,
      from a configuration in JSON.

    They share no code.  Each is modelled as written, and its environment (the
    kernel, libbpf, json-c, open62541) is a parameter.

    ** How code is modelled

    [Sys]: a program is a computation on its globals and on the trace of the
    calls it has made, newest first.  What a call returns is decided by an
    oracle, a function of the trace (the classes [tsq_os], [txrx_os], [ua_os]),
    so a theorem that quantifies over the oracle covers every behaviour of the
    environment; what a theorem relies on beyond that is a named hypothesis, and
    its witness instantiates the oracle.  A run ends in [Done], [Exited] (exit
    with that status), [Undefined] (behaviour undefined in C: a NULL pointer, an
    index out of range, an unchecked allocation that failed) or [NoFuel].
    Signals and changes of shared flags by other threads are what the calls
    [Observe] report, wherever the code reads the flag.  [Prelude] has
    C integers as [Z] with their wrap-around ([u16], [i32], [u64], ...) and byte
    buffers; [Layout] the offsets and sizes of C structures; [Libc] and [Argp]
    the parts of the C library that matter (strtol, atoi, sscanf with %hhx,
    timespec; argp, which turns a command line into calls of a program's
    parser).

    Processes and threads are composed by what passes between them.  Each runs
    against an oracle of its own; a theorem about several of them assumes of the
    medium what it promises (TCP hands over bytes in order, in pieces of any size;
    Ethernet may lose packets but keeps their order; the message queue is first in
    first out), and so holds for every interleaving.

    Loops over data are structural; loops that wait for the environment take
    fuel.  Where the number of rounds is bounded by the program (frames to
    send, carries of normalize()) the theorems show that one unit per round, and
    one more, is enough; where it is bounded by the environment (a signal that
    stops a loop, the end of a file) the hypothesis gives a bound on the number
    of calls and fuel above it is enough, since each round makes a call.

    ** Files

    - [Tsq]: globals, error(), options, the [payload] and its encoding,
      validation, ready flags; the signal flag and its mutex as a step relation.
      Properties: every spelling of acceptable options gives the settings they
      denote, everything else ends with its exit code; exactly when
      get_signal() or a handler hangs (handlers of different signals may interrupt
      one another).
    - [TsqListener]: listener() by [listener_serve], [listener_loop],
      [listener_round], [listener_slot] and [compare_slots].  Properties: the
      comparison implements [align], and the listener ends after a signal.
    - [TsqSound]: the listener against any peers.  Property: every line is numbered
      and is the difference of two valid samples of one second, each read from its
      connection.
    - [TsqTalker]: talker() and main(); samples are numbered, handshake and
      samples reach the listener.
    - [TsqStream]: the listener over TCP streams of messages of 256 bytes, which
      it reads up to 255 bytes at a time.  The listener does not look at how much a
      read has delivered; as long as no read ends inside the 24 bytes of a payload
      ([orderly]; what happens otherwise: short_read_is_stored in TsqListener), what
      is logged has arrived, and what arrives in step is logged or waits for its
      partner.
    - [TsqSteady]: the whole listener when nothing goes wrong.  Property: talkers
      one second apart are logged by half.
    - [TsqProcess]: main() of the listener and of the talkers.  Property: from
      their command lines on, every line of the data file is the difference of two
      samples that the two talkers sent in the same second, in order and none used
      twice; talkers that keep in step are logged completely, in whatever order
      their messages arrive.
    - [Txrx]: options, globals, packet layout, template, clock helpers.
      Properties: accepted options are well formed, layout of the template.
    - [TxrxOptions]: what a command line of txrx-tsn asks for.  Property: every
      spelling of acceptable options gives the settings they denote.
    - [Afpkt]: the AF_PACKET sockets, send threads and receiver.  Properties:
      the schedule of wake-ups, launch times, numbers and time stamps;
      the receiver reads what was sent and filters the rest; no descriptor leaks.
    - [Afxdp]: packet memory ([store], [load]), rings, send and receive.
      Properties: the same schedule, the ledger of outstanding packets, set-up,
      the filter of the receiver.
    - [TxrxMain]: copies of log files, receive loops, main().
    - [TxrxLink]: a transmit thread and a receive loop over AF_PACKET: one line
      per packet that arrives; the loop ends by itself, unless the last packet is
      lost.
    - [TxrxProcess]: main() of a sender and of a receiver.  Property: from their
      command lines on, what the receiver has printed when it ends.
    - [XdpLink]: a sender and a receiver over AF_XDP, on two machines; nothing is
      received into the sender's memory meanwhile.  Property: what a full ring does
      to the oldest frame.
    - [XdpMemory]: the sender when its kernel receives packets into the same memory,
      between the rounds of the thread.  Properties: how long frames stay as they
      are, and what a reception destroys.
    - [XdpProcess]: main() of a sender and of a receiver over AF_XDP.  Property:
      from their command lines on, the receiver prints one line per frame that
      arrives (but for number 0), and ends by itself when one of the last eleven
      does.
    - [Opcua]: configuration records, globals and calls of the server.
    - [OpcuaConfig]: json_helper.c and opcua_common.c.  json-c's functions for
      objects are only specified on objects, and a copy of a string may fail.
      Properties: only configurations within the bounds that the code checks are
      accepted; failure leaks nothing; release is complete.
    - [OpcuaJson]: what a JSON document says.  Property: parseArgs() returns exactly
      the server that the document describes, if it is within the limits.
    - [OpcuaDatasource]: the data source callbacks.  Properties: numbering of
      samples, contents of log lines, forwarding on the round trip, and that a
      closed file is not used again.
    - [OpcuaThreads]: normalize(), the publisher's and subscriber's thread, the
      registration hook.  Properties: schedules without drift; the thread table.
    - [OpcuaLayout]: opcua_custom.h's copies of private structures of the library.
      Property: what the registration hook reads of a writer group and of a
      reader group.
    - [OpcuaServer]: opcua_publish.c, opcua_subscribe.c and
      multicallback_server.c.  open62541 may call the registration hook during
      any call ([library]).  Properties: data sources, transport layers and XDP
      modes; one thread is started, and waited for, per publisher and subscriber.
      What the hook reads of a reader group as its identifier is a parameter
      ([os_register]; [OpcuaLayout] says where it reads); [registers_on_activation]
      assumes it to be no identifier of a writer group.
    - [OpcuaRoundTrip]: the four callbacks of a round trip, one step of each.
      Property: the return publisher implements an abstract forwarder, which judges
      whatever the queue delivers.
    - [OpcuaProcess]: main() from the command line to its end, with the callbacks
      that the threads run in between.  Property: the configuration and the output
      files are released exactly once, and at no moment more often than acquired; of
      the blocks allocated through open62541 exactly the fields and target variables
      of the subscribers are never freed.
    - [OpcuaTrip]: main() of the two servers of a round trip, with the callbacks
      of each in any order on shared globals.  Properties: from the configuration
      files on, every line of the log belongs to one sample that was sent, in
      order; nothing is missing when the network and the queue lose nothing and B
      forwards as often as samples arrive.

    Within a file, definitions carry the names of the C functions, fields and
    constants; a function that is too long for one definition is split at its
    loops.  Definitions that follow a "Specification" heading, and those named
    [demo_...] for the witnesses, model no code.

    ** Not modelled

    Messages on stderr and, where they carry no result, on stdout; the texts of
    argp's help; names and masks that are passed to open62541 unchanged; failures
    of UA_Server_new(); the interleaving of the server's threads below the level
    of one callback (a thread sees other threads through the shared flags and the
    message queue only); printf() of a string that could not be copied (a NULL for
    %s); memory that stdio allocates.  The differences of two time stamps of the
    listener, on which an overflow is undefined in C, are computed modulo 2^64, as
    the compilers' code for the target does;
    the shell, Python and JSON files; the patches of third-party libraries. *)

From stdpp Require Export base list list_numbers option strings gmap.
From Stdlib Require Export ZArith Lia Ascii Sorting.Sorted.
From coqutil Require Export Datatypes.RecordSetters.
Export DoubleBraceUpdate.

#[global] Arguments constant {E} newValue _ /.


(** ** Scope and notations of the development *)

Declare Scope tsn_scope.
Delimit Scope tsn_scope with tsn.

(** ** Machine integers

    A [w]-bit C integer is a [Z]; the conversions that C performs when a
    value is stored in an object of the type are written out. *)

Definition wrapU (w : Z) (z : Z) : Z := z mod 2 ^ w.

Definition wrapS (w : Z) (z : Z) : Z := (z + 2 ^ (w - 1)) mod 2 ^ w - 2 ^ (w - 1).

Abbreviation u8 := (wrapU 8).
Abbreviation u16 := (wrapU 16).
Abbreviation u32 := (wrapU 32).
Abbreviation u64 := (wrapU 64).
Abbreviation i32 := (wrapS 32).
Abbreviation i64 := (wrapS 64).

Definition INT_MAX : Z := 2 ^ 31 - 1.
Definition INT_MIN : Z := - 2 ^ 31.
Definition LONG_MAX : Z := 2 ^ 63 - 1.
Definition LONG_MIN : Z := - 2 ^ 63.

(** ** Bytes and byte buffers

    A byte is a [Z] between 0 and 255; a C object that the program copies
    with [memcpy] or sends on the wire is the list of its bytes in memory
    order.  The targets are little-endian (x86). *)

Definition is_byte (b : Z) : Prop := (0 <= b < 256)%Z.

Fixpoint le_encode (n : nat) (z : Z) : list Z :=
  match n with
  | O => []
  | S n => (z mod 256)%Z :: le_encode n (z / 256)%Z
  end.

Fixpoint le_decode (bs : list Z) : Z :=
  match bs with
  | [] => 0%Z
  | b :: bs => (b + 256 * le_decode bs)%Z
  end.

(** [htons] on a little-endian machine: the two bytes of a 16-bit value in
    network order, as they lie in memory. *)
Definition be16 (z : Z) : list Z := [(z / 256) mod 256; z mod 256]%Z.

(** [memcpy (buf + off, bs, length bs)] and the read of [n] bytes at [off].
    Both are only used inside the buffer; the components prove that. *)
Definition write_at (buf : list Z) (off : nat) (bs : list Z) : list Z :=
  take off buf ++ bs ++ drop (off + length bs) buf.

Definition read_at (buf : list Z) (off n : nat) : list Z :=
  take n (drop off buf).

(** The C string stored in a buffer: the bytes before the first NUL. *)
Fixpoint cstr (buf : list Z) : list Z :=
  match buf with
  | [] => []
  | b :: buf => if (b =? 0)%Z then [] else b :: cstr buf
  end.

Definition bytes_of_string (s : string) : list Z :=
  map (λ a, Z.of_N (Ascii.N_of_ascii a)) (String.list_ascii_of_string s).

(** ** Tactics of the development *)

(** [lia] with the division and modulo of the machine integers made visible. *)
Ltac zsolve := unfold is_byte, INT_MAX, INT_MIN, LONG_MAX, LONG_MIN in *;
  Z.to_euclidean_division_equations; lia.

(** Split every boolean test of an [if] in the goal, keeping the tests as
    (in)equations. *)
Ltac btest :=
  repeat match goal with
  | |- context [if ?b then _ else _] => destruct b eqn:?
  end.

(** Turn boolean (in)equations of the context into arithmetic ones. *)
Ltac bool_to_prop :=
  repeat match goal with
  | H : (_ && _)%bool = true |- _ => apply andb_prop in H; destruct H
  | H : (_ || _)%bool = false |- _ => apply orb_false_elim in H; destruct H
  | H : negb _ = true |- _ => apply negb_true_iff in H
  | H : negb _ = false |- _ => apply negb_false_iff in H
  | H : (_ =? _)%Z = true |- _ => apply Z.eqb_eq in H
  | H : (_ =? _)%Z = false |- _ => apply Z.eqb_neq in H
  | H : (_ <? _)%Z = true |- _ => apply Z.ltb_lt in H
  | H : (_ <? _)%Z = false |- _ => apply Z.ltb_ge in H
  | H : (_ <=? _)%Z = true |- _ => apply Z.leb_le in H
  | H : (_ <=? _)%Z = false |- _ => apply Z.leb_gt in H
  | H : (_ >? _)%Z = true |- _ => rewrite Z.gtb_ltb in H; apply Z.ltb_lt in H
  | H : (_ >? _)%Z = false |- _ => rewrite Z.gtb_ltb in H; apply Z.ltb_ge in H
  | H : (_ >=? _)%Z = true |- _ => rewrite Z.geb_leb in H; apply Z.leb_le in H
  | H : (_ >=? _)%Z = false |- _ => rewrite Z.geb_leb in H; apply Z.leb_gt in H
  end.

Create HintDb tsn.
Create Rewrite HintDb tsn_len.

(** ** Machine integer lemmas *)

Lemma wrapU_small w z : (0 <= z < 2 ^ w)%Z → wrapU w z = z.
Proof. intros. by apply Z.mod_small. Qed.

Lemma wrapU_range w z : (0 <= w)%Z → (0 <= wrapU w z < 2 ^ w)%Z.
Proof. intros. apply Z.mod_pos_bound. by apply Z.pow_pos_nonneg. Qed.

Lemma wrapU_idemp w z : wrapU w (wrapU w z) = wrapU w z.
Proof. apply Zmod_mod. Qed.

Lemma wrapS_small w z :
  (0 < w)%Z → (- 2 ^ (w - 1) <= z < 2 ^ (w - 1))%Z → wrapS w z = z.
Proof.
  intros Hw Hz. unfold wrapS.
  assert (2 ^ w = 2 * 2 ^ (w - 1))%Z as E
    by (rewrite <- Z.pow_succ_r by lia; f_equal; lia).
  rewrite Z.mod_small; lia.
Qed.

Lemma wrapS_range w z :
  (0 < w)%Z → (- 2 ^ (w - 1) <= wrapS w z < 2 ^ (w - 1))%Z.
Proof.
  intros Hw. unfold wrapS.
  assert (2 ^ w = 2 * 2 ^ (w - 1))%Z as E
    by (rewrite <- Z.pow_succ_r by lia; f_equal; lia).
  pose proof (Z.mod_pos_bound (z + 2 ^ (w - 1)) (2 ^ w)
                ltac:(apply Z.pow_pos_nonneg; lia)). lia.
Qed.

(** The low [w] bits determine the signed reading. *)
Lemma wrapS_wrapU w z : (0 < w)%Z → wrapS w (wrapU w z) = wrapS w z.
Proof.
  intros. unfold wrapS, wrapU. by rewrite Zplus_mod_idemp_l.
Qed.

Lemma wrapU_wrapS w z : (0 < w)%Z → wrapU w (wrapS w z) = wrapU w z.
Proof.
  intros. unfold wrapS, wrapU.
  rewrite <- (Zminus_mod_idemp_r _ (2 ^ (w - 1))), Zminus_mod_idemp_l.
  rewrite Zminus_mod_idemp_r. f_equal. lia.
Qed.

Lemma wrapS_add_l w a b : (0 < w)%Z → wrapS w (wrapS w a + b) = wrapS w (a + b).
Proof.
  intros. unfold wrapS at 1 3. f_equal.
  replace (wrapS w a + b + 2 ^ (w - 1))%Z
    with (wrapS w a + (b + 2 ^ (w - 1)))%Z by lia.
  replace (a + b + 2 ^ (w - 1))%Z with (a + (b + 2 ^ (w - 1)))%Z by lia.
  rewrite <- Zplus_mod_idemp_l. fold (wrapU w (wrapS w a)).
  rewrite wrapU_wrapS by done. apply Zplus_mod_idemp_l.
Qed.

Lemma u64_add_l a b : u64 (u64 a + b) = u64 (a + b).
Proof. apply Zplus_mod_idemp_l. Qed.

Lemma u64_add_r a b : u64 (a + u64 b) = u64 (a + b).
Proof. apply Zplus_mod_idemp_r. Qed.

Lemma u64_sub_l a b : u64 (u64 a - b) = u64 (a - b).
Proof. apply Zminus_mod_idemp_l. Qed.

(** ** Byte lemmas *)

Lemma length_le_encode n z : length (le_encode n z) = n.
Proof. revert z; induction n; intros; simpl; auto. Qed.

Lemma take_le_encode k n z : k ≤ n → take k (le_encode n z) = le_encode k z.
Proof.
  revert n z. induction k as [|k IH]; intros [|n] z Hk; try done; [lia|].
  cbn [le_encode take]. f_equal. apply IH. lia.
Qed.

(** The low bytes, and zeros for the others. *)
Lemma le_encode_mod k m z :
  le_encode (k + m) (z mod 2 ^ (8 * Z.of_nat k)) = le_encode k z ++ replicate m 0%Z.
Proof.
  revert z. induction k as [|k IH]; intros z.
  - change (2 ^ (8 * Z.of_nat 0))%Z with 1%Z. rewrite Z.mod_1_r. cbn [Nat.add app le_encode].
    induction m as [|m IH]; [done|]. cbn [le_encode replicate].
    change (0 mod 256)%Z with 0%Z. change (0 / 256)%Z with 0%Z. by rewrite IH.
  - replace (2 ^ (8 * Z.of_nat (S k)))%Z with (256 * 2 ^ (8 * Z.of_nat k))%Z
      by (change 256%Z with (2 ^ 8)%Z; rewrite <- Z.pow_add_r by lia; f_equal; lia).
    cbn [Nat.add le_encode app]. rewrite <- IH. rewrite Z.rem_mul_r by lia. f_equal.
    + rewrite (Z.mul_comm 256), Z.mod_add by lia. by rewrite Z.mod_mod by lia.
    + f_equal. rewrite (Z.mul_comm 256), Z.div_add by lia.
      rewrite (Z.div_small (z mod 256)); [lia|apply Z.mod_pos_bound; lia].
Qed.

Lemma le_encode_bytes n z : Forall is_byte (le_encode n z).
Proof.
  revert z; induction n; intros; simpl; constructor; auto.
  unfold is_byte. apply Z.mod_pos_bound. lia.
Qed.

Lemma le_decode_encode n z :
  le_decode (le_encode n z) = wrapU (8 * Z.of_nat n) z.
Proof.
  unfold wrapU. revert z; induction n as [|n IH]; intros z; cbn [le_encode le_decode].
  - by rewrite Z.mod_1_r.
  - rewrite IH.
    replace (8 * Z.of_nat (S n))%Z with (8 + 8 * Z.of_nat n)%Z by lia.
    rewrite Z.pow_add_r by lia. change (2 ^ 8)%Z with 256%Z.
    rewrite Z.rem_mul_r by (try apply Z.pow_pos_nonneg; lia). lia.
Qed.

Lemma le_decode_bound bs :
  Forall is_byte bs → (0 <= le_decode bs < 2 ^ (8 * Z.of_nat (length bs)))%Z.
Proof.
  induction 1 as [|b bs Hb _ IH]; [simpl; lia|].
  cbn [le_decode length].
  replace (8 * Z.of_nat (S (length bs)))%Z with (8 + 8 * Z.of_nat (length bs))%Z by lia.
  rewrite Z.pow_add_r by lia. change (2 ^ 8)%Z with 256%Z. unfold is_byte in Hb. lia.
Qed.

Lemma length_write_at buf off bs :
  off + length bs ≤ length buf → length (write_at buf off bs) = length buf.
Proof.
  intros. unfold write_at. rewrite !length_app, length_take, length_drop. lia.
Qed.

Lemma read_write_same buf off bs n :
  off ≤ length buf → n = length bs → read_at (write_at buf off bs) off n = bs.
Proof.
  intros ? ->. unfold read_at, write_at.
  rewrite drop_app_length' by (rewrite length_take; lia).
  by rewrite take_app_length.
Qed.

Lemma read_write_before buf off bs off' n :
  off' + n ≤ off → off ≤ length buf →
  read_at (write_at buf off bs) off' n = read_at buf off' n.
Proof.
  intros. unfold read_at, write_at.
  rewrite drop_app_le by (rewrite length_take; lia).
  rewrite take_app_le by (rewrite length_drop, length_take; lia).
  rewrite !take_drop_commute, take_take. do 2 f_equal. lia.
Qed.

Lemma read_write_after buf off bs off' n :
  off + length bs ≤ off' → off ≤ length buf →
  read_at (write_at buf off bs) off' n = read_at buf off' n.
Proof.
  intros. unfold read_at, write_at.
  rewrite drop_app_ge by (rewrite length_take; lia).
  rewrite drop_app_ge by (rewrite length_take; lia).
  rewrite drop_drop, length_take. f_equal. f_equal. lia.
Qed.

Lemma length_read_at buf off n :
  off + n ≤ length buf → length (read_at buf off n) = n.
Proof. intros. unfold read_at. rewrite length_take, length_drop. lia. Qed.

Lemma read_at_app_r l1 l2 off n :
  length l1 ≤ off → read_at (l1 ++ l2) off n = read_at l2 (off - length l1) n.
Proof. intros. unfold read_at. by rewrite drop_app_ge. Qed.

Lemma read_at_head l1 l2 n : length l1 = n → read_at (l1 ++ l2) 0 n = l1.
Proof. intros <-. unfold read_at. by rewrite drop_0, take_app_length. Qed.

Lemma read_at_skip l1 l2 k off n :
  length l1 = k → read_at (l1 ++ l2) (k + off) n = read_at l2 off n.
Proof. intros <-. rewrite read_at_app_r by lia. f_equal. lia. Qed.

Lemma read_at_take l k off n :
  off + n ≤ k → read_at (take k l) off n = read_at l off n.
Proof.
  intros. unfold read_at.
  rewrite !take_drop_commute, take_take. do 2 f_equal. lia.
Qed.

Lemma read_at_drop l k off n : read_at (drop k l) off n = read_at l (k + off) n.
Proof. unfold read_at. by rewrite drop_drop. Qed.

(** ** Sublist lemmas *)

Lemma sublist_fmap {A B} (f : A → B) l1 l2 :
  l1 `sublist_of` l2 → (f <$> l1) `sublist_of` (f <$> l2).
Proof. induction 1; simpl; by constructor. Qed.

Lemma sublist_fmap_inv {A B} (f : A → B) `{!Inj (=) (=) f} l1 l2 :
  (f <$> l1) `sublist_of` (f <$> l2) → l1 `sublist_of` l2.
Proof.
  revert l1. induction l2 as [|y l2 IH]; intros l1.
  - cbn [fmap list_fmap]. intros H%sublist_nil_r. by destruct l1.
  - cbn [fmap list_fmap]. intros [H|(k & E & H)]%sublist_cons_r.
    + apply sublist_cons, IH, H.
    + destruct l1 as [|x l1]; [done|]. simplify_list_eq. by apply sublist_skip, IH.
Qed.

Lemma sublist_filter_mono {A} (P : A → Prop) `{!∀ x, Decision (P x)} l1 l2 :
  l1 `sublist_of` l2 → filter P l1 `sublist_of` filter P l2.
Proof.
  induction 1 as [|x l1 l2 _ IH|x l1 l2 _ IH]; [done|..];
    rewrite !filter_cons; case_decide; by try constructor.
Qed.

Lemma Forall_sublist {A} (P : A → Prop) l1 l2 :
  l1 `sublist_of` l2 → Forall P l2 → Forall P l1.
Proof. induction 1; inversion 1; subst; auto. Qed.

Lemma prefix_take_le {A} (l : list A) n m : n ≤ m → take n l `prefix_of` take m l.
Proof. intros H. rewrite <- (Nat.min_l n m H), <- take_take. apply prefix_take. Qed.

Lemma prefix_of_sublist {A} (l1 l2 : list A) : l1 `prefix_of` l2 → l1 `sublist_of` l2.
Proof. intros [k ->]. by apply sublist_inserts_r. Qed.

(** ** Increasing lists *)

Lemma StronglySorted_sublist {A} (R : A → A → Prop) l1 l2 :
  l1 `sublist_of` l2 → StronglySorted R l2 → StronglySorted R l1.
Proof.
  induction 1 as [|x l1 l2 H IH|x l1 l2 _ IH]; intros Hs; [done|..];
    apply StronglySorted_inv in Hs as [Hs Hx]; [|by apply IH].
  constructor; [by apply IH|]. by eapply Forall_sublist.
Qed.

Lemma StronglySorted_seqZ m n : StronglySorted Z.lt (seqZ m n).
Proof.
  destruct (Z_le_gt_dec 0 n) as [Hn|Hn]; [|rewrite seqZ_nil by lia; constructor].
  revert m. pattern n. apply natlike_ind; [constructor| |done].
  intros k Hk IH m. rewrite seqZ_cons, Z.pred_succ by lia. constructor; [apply IH|].
  apply Forall_forall. intros x Hx%elem_of_seqZ. lia.
Qed.

Lemma sublist_same_length {A} (l1 l2 : list A) :
  l1 `sublist_of` l2 → length l1 = length l2 → l1 = l2.
Proof.
  induction 1 as [|x l1 l2 H IH|x l1 l2 H%sublist_length IH]; simpl; [done|intros; f_equal; auto|lia].
Qed.

Lemma sorted_snoc_lt ns (n : Z) : StronglySorted Z.lt (ns ++ [n]) → Forall (λ m, (m < n)%Z) ns.
Proof.
  induction ns as [|m ns IH]; [done|]. intros [Hs Hm]%StronglySorted_inv.
  constructor; [|by apply IH]. by apply Forall_app in Hm as [_ [? _]%Forall_cons].
Qed.

Lemma prefix_drop_cons {A} (x : A) rest k l :
  x :: rest `prefix_of` drop k l → l !! k = Some x ∧ rest `prefix_of` drop (S k) l.
Proof.
  intros [t E]. split.
  - by rewrite <- (Nat.add_0_r k), <- lookup_drop, E.
  - exists t. replace (S k) with (k + 1)%nat by lia. by rewrite <- drop_drop, E.
Qed.

(** The last value of a list of options. *)
Lemma omap_last_split {A} (l : list (option A)) x :
  last (omap id l) = Some x → ∃ pre tail, l = pre ++ Some x :: tail ∧ omap id l = omap id pre ++ [x].
Proof.
  induction l as [|[y|] l IH] using rev_ind; [done|..]; rewrite omap_app; simpl.
  - rewrite last_snoc. intros [= ->]. by exists l, [].
  - rewrite app_nil_r. intros (pre & tail & -> & E)%IH. exists pre, (tail ++ [None]).
    split; [by rewrite <- app_assoc|done].
Qed.

(** Two lists related element by element: what is left out of one is left out
    of the other. *)
Lemma Forall2_sublist {A B} (R : A → B → Prop) l1 l2 k2 :
  l1 `sublist_of` l2 → Forall2 R l2 k2 →
  ∃ k1, k1 `sublist_of` k2 ∧ Forall2 R l1 k1.
Proof.
  intros H. revert k2. induction H as [|x l1 l2 _ IH|x l1 l2 _ IH]; intros k2 HR.
  - exists []. inversion HR. auto.
  - apply Forall2_cons_inv_l in HR as (y & k & Hxy & HR & ->).
    destruct (IH k HR) as (k1 & Hs & H1). exists (y :: k1). split; [by apply sublist_skip|by constructor].
  - apply Forall2_cons_inv_l in HR as (y & k & _ & HR & ->).
    destruct (IH k HR) as (k1 & Hs & H1). exists k1. split; [by apply sublist_cons|done].
Qed.

#[export] Hint Rewrite length_le_encode @length_take @length_drop @length_app @length_replicate : tsn_len.
#[export] Hint Resolve le_encode_bytes : tsn.
