(* ===== verification/Layout.v ===== *)
(** * Layout of C structures (x86-64 System V ABI)

    The programs cast buffers to structures and structures to other structures.
    A layout is a size and an alignment; a structure puts each member at the
    next offset its alignment allows and pads its end; a union overlays its
    members; a packed structure has no padding.  The layouts of third-party types
    are parameters of the structures that contain them. *)

From S2P Require Import Prelude.

Local Open Scope Z_scope.

(** ** Layouts *)

Record layout : Type := mk_layout { ly_size : Z; ly_align : Z }.

(** [n] rounded up to a multiple of [a]. *)
Definition align_up (n a : Z) : Z := (n + a - 1) / a * a.

Abbreviation members := (list (string * layout)).

(** The offset of every member when the first one may start at [pos], and
    where the last one ends. *)
Fixpoint place (pos : Z) (ms : members) : list (string * Z * layout) * Z :=
  match ms with
  | [] => ([], pos)
  | (name, ly) :: ms =>
      let off := align_up pos (ly_align ly) in
      let '(placed, end_) := place (off + ly_size ly) ms in
      ((name, off, ly) :: placed, end_)
  end.

Definition max_align (ms : members) : Z := foldr (λ m a, Z.max (ly_align m.2) a) 1 ms.

Definition struct (ms : members) : layout :=
  mk_layout (align_up (place 0 ms).2 (max_align ms)) (max_align ms).

Definition union (ms : members) : layout :=
  mk_layout (align_up (foldr (λ m n, Z.max (ly_size m.2) n) 0 ms) (max_align ms)) (max_align ms).

(** [__attribute__ ((packed))]. *)
Definition pack (ms : members) : members := map (λ m, (m.1, mk_layout (ly_size m.2) 1)) ms.

Definition array (n : Z) (ly : layout) : layout := mk_layout (n * ly_size ly) (ly_align ly).

(** offsetof(): the first member of that name. *)
Fixpoint find_member (name : string) (placed : list (string * Z * layout)) : option (Z * layout) :=
  match placed with
  | [] => None
  | (n, off, ly) :: placed =>
      if decide (n = name) then Some (off, ly) else find_member name placed
  end.

Definition offset_of (name : string) (ms : members) : option Z :=
  fst <$> find_member name (place 0 ms).1.

(** ** The types of the language *)

Definition c_byte : layout := mk_layout 1 1.
Definition c_short : layout := mk_layout 2 2.
Definition c_int : layout := mk_layout 4 4.
Definition c_long : layout := mk_layout 8 8.
Definition c_pointer : layout := mk_layout 8 8.

(** A layout as the ABI has them: the alignment is positive, and the size a
    multiple of it, so that elements of an array are aligned. *)
Definition wf_layout (ly : layout) : Prop :=
  0 < ly_align ly ∧ 0 <= ly_size ly ∧ (ly_align ly | ly_size ly).

Definition wf_members (ms : members) : Prop := Forall (λ m : string * layout, wf_layout m.2) ms.

(** Members one behind the other, each aligned. *)
Fixpoint in_order (pos end_ : Z) (placed : list (string * Z * layout)) : Prop :=
  match placed with
  | [] => pos <= end_
  | (_, off, ly) :: placed =>
      pos <= off ∧ (ly_align ly | off) ∧ in_order (off + ly_size ly) end_ placed
  end.

(** ** Lemmas *)

Lemma align_up_spec n a :
  0 < a → n <= align_up n a < n + a ∧ (a | align_up n a).
Proof. intros Ha. unfold align_up. split; [zsolve|apply Z.divide_factor_r]. Qed.

Lemma align_up_id n a : 0 < a → (a | n) → align_up n a = n.
Proof.
  intros Ha [k ->]. unfold align_up. f_equal.
  replace (k * a + a - 1) with (a - 1 + k * a) by lia.
  rewrite Z.div_add by lia. rewrite Z.div_small by lia. lia.
Qed.

Lemma align_up_one n : align_up n 1 = n.
Proof. apply align_up_id; [lia|]. exists n. lia. Qed.

Lemma max_align_pos ms : 0 < max_align ms.
Proof. induction ms; simpl; lia. Qed.

Lemma find_member_cons name pos n ly ms :
  find_member name (place pos ((n, ly) :: ms)).1
  = let off := align_up pos (ly_align ly) in
    if decide (n = name) then Some (off, ly)
    else find_member name (place (off + ly_size ly) ms).1.
Proof. cbn [place]. by destruct (place _ ms). Qed.

Lemma find_member_lookup name placed off ly :
  find_member name placed = Some (off, ly) → ∃ i, placed !! i = Some (name, off, ly).
Proof.
  induction placed as [|[[n o] l] placed IH]; [done|]. simpl. case_decide as E.
  - intros [=]; subst. by exists O.
  - intros H. destruct (IH H) as [i Hi]. by exists (S i).
Qed.

Lemma place_end_cons pos n ly ms :
  (place pos ((n, ly) :: ms)).2 = (place (align_up pos (ly_align ly) + ly_size ly) ms).2.
Proof. cbn [place]. by destruct (place _ ms). Qed.

Lemma place_in_order pos ms :
  wf_members ms → in_order pos (place pos ms).2 (place pos ms).1.
Proof.
  revert pos. induction ms as [|[name ly] ms IH]; intros pos Hwf; simpl; [lia|].
  apply Forall_cons in Hwf as [(Ha & Hs & _) Hwf]. cbn [snd] in *.
  specialize (IH (align_up pos (ly_align ly) + ly_size ly) Hwf).
  destruct (place _ ms) as [placed end_]. simpl.
  destruct (align_up_spec pos (ly_align ly) Ha) as [[? _] ?]. auto.
Qed.

Lemma in_order_end pos end_ placed :
  Forall (λ m, 0 <= ly_size m.2) placed → in_order pos end_ placed → pos <= end_.
Proof.
  intros H. revert pos. induction H as [|[[n off] ly] placed Hs _ IH]; intros pos; simpl; [done|].
  intros (? & _ & H%IH). simpl in *. lia.
Qed.

Lemma place_members pos ms : (λ m, (m.1.1, m.2)) <$> (place pos ms).1 = ms.
Proof.
  revert pos. induction ms as [|[name ly] ms IH]; intros pos; [done|]. cbn [place].
  specialize (IH (align_up pos (ly_align ly) + ly_size ly)). destruct (place _ ms). cbn [fst] in *.
  by rewrite fmap_cons, IH.
Qed.

(** Two members do not overlap, and the first one starts behind [pos]. *)
Lemma in_order_lookup pos end_ placed i n off ly :
  Forall (λ m, 0 <= ly_size m.2) placed → in_order pos end_ placed →
  placed !! i = Some (n, off, ly) →
  pos <= off ∧ (ly_align ly | off) ∧ off + ly_size ly <= end_ ∧
  ∀ j n' off' ly', (i < j)%nat → placed !! j = Some (n', off', ly') → off + ly_size ly <= off'.
Proof.
  intros H. revert pos i n off ly.
  induction H as [|[[m o] l] placed Hs Hall IH]; intros pos i n off ly; [done|].
  simpl. intros (H1 & H2 & H3). simpl in Hs. destruct i as [|i]; simpl.
  - intros [=]; subst. split; [done|]. split; [done|].
    split; [by eapply in_order_end|]. intros [|j] n' off' ly' Hj Hl; [lia|].
    by destruct (IH _ _ _ _ _ H3 Hl) as [? _].
  - intros Hl. destruct (IH _ _ _ _ _ H3 Hl) as (? & ? & ? & Hj). split; [lia|]. split; [done|].
    split; [done|]. intros [|j] n' off' ly' Hij Hl'; [lia|]. eapply Hj; [|exact Hl']. lia.
Qed.

Lemma place_sizes pos ms : wf_members ms → Forall (λ m, 0 <= ly_size m.2) (place pos ms).1.
Proof.
  intros Hwf. pose proof (place_members pos ms) as E. unfold wf_members in Hwf. rewrite <- E in Hwf.
  rewrite Forall_fmap in Hwf. eapply Forall_impl; [exact Hwf|]. by intros ? (_ & ? & _).
Qed.

Lemma wf_struct ms : wf_members ms → wf_layout (struct ms).
Proof.
  intros Hwf.
  pose proof (max_align_pos ms) as Ha. 
  pose proof (in_order_end _ _ _ (place_sizes 0 ms Hwf) (place_in_order 0 ms Hwf)) as He.
  destruct (align_up_spec (place 0 ms).2 (max_align ms) Ha) as [[Hup _] Hdiv].
  split; [done|]. split; [simpl; lia|done].
Qed.

Lemma wf_union ms : wf_members ms → wf_layout (union ms).
Proof.
  intros Hwf. pose proof (max_align_pos ms) as Ha.
  assert (0 <= foldr (λ m n, Z.max (ly_size m.2) n) 0 ms) as Hn by (clear; induction ms; simpl; lia).
  destruct (align_up_spec (foldr (λ m n, Z.max (ly_size m.2) n) 0 ms) (max_align ms) Ha)
    as [[Hup _] Hdiv].
  split; [done|]. split; [simpl; lia|done].
Qed.

Lemma wf_c_types : Forall wf_layout [c_byte; c_short; c_int; c_long; c_pointer].
Proof. repeat constructor; simpl; try lia; exists 1; reflexivity. Qed.

(** The members are aligned, lie within the structure one behind the other and do
    not overlap. *)
Lemma place_sound ms :
  wf_members ms → ∀ i n off ly, (place 0 ms).1 !! i = Some (n, off, ly) →
    0 <= off ∧ (ly_align ly | off) ∧ off + ly_size ly <= ly_size (struct ms) ∧
    ∀ j n' off' ly', (i < j)%nat → (place 0 ms).1 !! j = Some (n', off', ly') →
      off + ly_size ly <= off'.
Proof.
  intros Hwf i n off ly Hl.
  destruct (in_order_lookup _ _ _ _ _ _ _ (place_sizes 0 ms Hwf) (place_in_order 0 ms Hwf) Hl)
    as (? & ? & ? & ?).
  destruct (align_up_spec (place 0 ms).2 (max_align ms) (max_align_pos ms)) as [[Hup _] _].
  split; [done|]. split; [done|]. split; [simpl; lia|done].
Qed.
