(* ===== verification/Sys.v ===== *)
(** * Execution of C code against an operating system

    The programs are sequences of computations and of calls to code outside
    the repository (kernel, C library, libbpf, open62541).  A computation
    runs on a state with the program's globals and the trace of the calls
    made so far (newest first); what a call returns is decided by an oracle
    that sees the whole trace, so a theorem that quantifies over the oracle
    holds for every behaviour of the environment.  [G] is the type of the
    globals, [C] the alphabet of calls; every program instantiates both. *)

From S2P Require Import Prelude.

(** ** Outcomes, states and the monad *)

Inductive outcome (A : Type) : Type :=
| Done (a : A)            (* normal return *)
| Exited (code : Z)       (* the process called exit(code) *)
| Undefined               (* the code reached undefined behaviour *)
| NoFuel.                 (* the loop bound of the model was exhausted *)
Arguments Done {A} _.
Arguments Exited {A} _.
Arguments Undefined {A}.
Arguments NoFuel {A}.

Record st (G C : Type) : Type := mkSt { glob : G; trace : list C }.
Arguments mkSt {G C} _ _.
Arguments glob {G C} _.
Arguments trace {G C} _.

Definition M (G C A : Type) : Type := st G C → outcome A * st G C.

#[export] Instance M_ret {G C} : MRet (M G C) := λ _ a s, (Done a, s).

#[export] Instance M_bind {G C} : MBind (M G C) := λ _ _ k m s,
  match m s with
  | (Done a, s') => k a s'
  | (Exited c, s') => (Exited c, s')
  | (Undefined, s') => (Undefined, s')
  | (NoFuel, s') => (NoFuel, s')
  end.

Section ops.
Context {G C : Type}.

(** [exit(code)]. *)
Definition exit_ {A} (code : Z) : M G C A := λ s, (Exited code, s).

(** Undefined behaviour reached. *)
Definition undefined {A} : M G C A := λ s, (Undefined, s).

Definition no_fuel {A} : M G C A := λ s, (NoFuel, s).

Definition get : M G C G := λ s, (Done (glob s), s).

Definition modify (f : G → G) : M G C unit :=
  λ s, (Done tt, mkSt (f (glob s)) (trace s)).

(** A call whose result the program uses: the oracle answers from the
    trace that ends with the call itself. *)
Definition ask {X} (c : C) (answer : list C → X) : M G C X :=
  λ s, let tr := c :: trace s in (Done (answer tr), mkSt (glob s) tr).

(** A call whose result the program ignores. *)
Definition tell (c : C) : M G C unit := ask c (λ _, tt).

Definition when (b : bool) (m : M G C unit) : M G C unit :=
  if b then m else mret tt.

(** A loop of the program: [inl] goes round again, [inr] leaves it. *)
Fixpoint loop {S R : Type} (fuel : nat) (body : S → M G C (S + R)) (x : S)
  : M G C R :=
  match fuel with
  | O => no_fuel
  | Datatypes.S fuel =>
      r ← body x;
      match r with
      | inl x' => loop fuel body x'
      | inr y => mret y
      end
  end.

(** A [for] loop over the elements of a list, with an accumulator. *)
Fixpoint for_each {A S : Type} (l : list A) (body : A → S → M G C S) (x : S)
  : M G C S :=
  match l with
  | [] => mret x
  | a :: l => x' ← body a x; for_each l body x'
  end.
End ops.

(** ** Reasoning principles

    [wp m Q s]: running [m] from [s] ends in an outcome and a state that
    satisfy [Q]. *)

Definition wp {G C A} (m : M G C A) (Q : outcome A → st G C → Prop)
  (s : st G C) : Prop := Q (m s).1 (m s).2.

(** The postcondition of a non-normal outcome carried past a bind. *)
Definition abrupt {A B} (o : outcome A) (dflt : outcome B) : outcome B :=
  match o with
  | Done _ => dflt
  | Exited c => Exited c
  | Undefined => Undefined
  | NoFuel => NoFuel
  end.

(** The trace of [s'] adds calls to that of [s], all in [K]; or any calls. *)
Definition extends_by {G C} (K : C → Prop) (s s' : st G C) : Prop :=
  ∃ new, trace s' = new ++ trace s ∧ Forall K new.

Abbreviation extends := (extends_by (λ _, True)).

Definition is_done {A} (o : outcome A) : bool :=
  match o with Done _ => true | _ => false end.

Section wp.
Context {G C : Type}.
Implicit Type s : st G C.

Lemma wp_bind {A B} (m : M G C A) (k : A → M G C B) Q s :
  wp m (λ o s', match o with
                | Done a => wp (k a) Q s'
                | _ => Q (abrupt o NoFuel) s'
                end) s →
  wp (m ≫= k) Q s.
Proof.
  unfold wp, mbind, M_bind. by destruct (m s) as [[] ?].
Qed.

Lemma wp_bind_inv {A B} (m : M G C A) (k : A → M G C B) Q s :
  wp (m ≫= k) Q s →
  wp m (λ o s', match o with
                | Done a => wp (k a) Q s'
                | _ => Q (abrupt o NoFuel) s'
                end) s.
Proof.
  unfold wp, mbind, M_bind. by destruct (m s) as [[] ?].
Qed.

Lemma wp_mono {A} (m : M G C A) (Q Q' : outcome A → st G C → Prop) s :
  wp m Q s → (∀ o s', Q o s' → Q' o s') → wp m Q' s.
Proof. unfold wp. eauto. Qed.

Lemma wp_same_run {A} (m m' : M G C A) (Q : outcome A → st G C → Prop) s :
  m s = m' s → wp m' Q s → wp m Q s.
Proof. intros E. unfold wp. by rewrite E. Qed.

Lemma wp_conj {A} (m : M G C A) (Q Q' : outcome A → st G C → Prop) s :
  wp m Q s → wp m Q' s → wp m (λ o s', Q o s' ∧ Q' o s') s.
Proof. unfold wp. auto. Qed.

(** Invariant rule for [loop]: [I] holds at every loop head, [Q] of every
    way out, running out of fuel included. *)
Lemma wp_loop {S R} (I : S → st G C → Prop) (Q : outcome R → st G C → Prop)
  (body : S → M G C (S + R)) fuel x s :
  (∀ x s, I x s →
     wp (body x) (λ o s', match o with
                          | Done (inl x') => I x' s'
                          | Done (inr y) => Q (Done y) s'
                          | _ => Q (abrupt o NoFuel) s'
                          end) s) →
  (∀ x s, I x s → Q NoFuel s) →
  I x s → wp (loop fuel body x) Q s.
Proof.
  intros Hb Hn. revert x s. induction fuel as [|fuel IH]; intros x s HI.
  - unfold wp. simpl. eauto.
  - simpl. apply wp_bind. eapply wp_mono; [by apply Hb|].
    intros [[x'|y]| | |] s'; simpl; auto.
Qed.

(** A loop with a measure that decreases on every round needs no more
    fuel than the measure: it does not end in [NoFuel] by itself. *)
Lemma wp_loop_measure {S R} (I : S → st G C → Prop) (μ : S → st G C → nat)
  (body : S → M G C (S + R)) (Q : outcome R → st G C → Prop) fuel x s :
  (∀ x s, I x s →
     wp (body x) (λ o s', match o with
                          | Done (inl x') => I x' s' ∧ μ x' s' < μ x s
                          | Done (inr y) => Q (Done y) s'
                          | _ => Q (abrupt o NoFuel) s'
                          end) s) →
  I x s → μ x s < fuel → wp (loop fuel body x) Q s.
Proof.
  intros Hb. revert x s. induction fuel as [|fuel IH]; intros x s HI Hμ; [lia|].
  simpl. apply wp_bind. eapply wp_mono; [by apply Hb|].
  intros [[x'|y]| | |] s'; simpl; auto.
  intros [HI' Hlt]. apply IH; [done|lia].
Qed.

(** Invariant rule for [for_each]: the invariant sees how many elements
    are done. *)
Lemma wp_for_each {A S} (I : nat → S → st G C → Prop)
  (Q : outcome S → st G C → Prop) (l : list A) (body : A → S → M G C S) i x s :
  (∀ j a x s, l !! j = Some a → I (i + j) x s →
     wp (body a x) (λ o s', match o with
                            | Done x' => I (Datatypes.S (i + j)) x' s'
                            | _ => Q (abrupt o NoFuel) s'
                            end) s) →
  (∀ x s, I (i + length l) x s → Q (Done x) s) →
  I i x s → wp (for_each l body x) Q s.
Proof.
  revert i x s. induction l as [|a l IH]; intros i x s Hb Hd HI; simpl.
  - unfold wp. simpl. apply Hd. by rewrite Nat.add_0_r.
  - apply wp_bind. specialize (Hb 0 a) as Hb0. rewrite Nat.add_0_r in Hb0.
    eapply wp_mono; [by apply Hb0|].
    intros [x'| | |] s'; simpl; auto. intros HI'.
    apply (IH (Datatypes.S i)); [| |done].
    + intros j b y t Hj. specialize (Hb (Datatypes.S j) b y t Hj).
      by rewrite Nat.add_succ_r in Hb.
    + intros y t. specialize (Hd y t). simpl in Hd.
      by rewrite Nat.add_succ_r in Hd.
Qed.

Lemma wp_ret {A} (a : A) Q s : Q (Done a) s → wp (mret a) Q s.
Proof. done. Qed.

Lemma wp_ask {X} c (f : list C → X) Q s :
  Q (Done (f (c :: trace s))) (mkSt (glob s) (c :: trace s)) → wp (ask c f) Q s.
Proof. done. Qed.

Lemma extends_refl K s : extends_by K s s.
Proof. by exists []. Qed.

Lemma extends_trans K s1 s2 s3 : extends_by K s1 s2 → extends_by K s2 s3 → extends_by K s1 s3.
Proof.
  intros (n1 & H1 & F1) (n2 & H2 & F2). exists (n2 ++ n1).
  split; [by rewrite H2, H1, app_assoc|by apply Forall_app_2].
Qed.
End wp.

#[export] Hint Resolve extends_refl : tsn.

(** A run of a program is partially correct for [Q] when it satisfies it on a
    normal return. *)
Definition on_done {G C A} (m : M G C A) (Q : A → st G C → Prop) (s : st G C) :=
  wp m (λ out s', match out with Done a => Q a s' | _ => True end) s.

Lemma on_done_bind {G C A B} (m : M G C A) (k : A → M G C B) Q s :
  on_done m (λ a s', on_done (k a) Q s') s → on_done (m ≫= k) Q s.
Proof.
  unfold on_done, wp, mbind, M_bind. by destruct (m s) as [[] ?].
Qed.

Lemma on_done_any {G C A} (m : M G C A) s : on_done m (λ _ _, True) s.
Proof. unfold on_done, wp. by destruct (m s).1. Qed.

Lemma on_done_skip {G C A B} (m : M G C A) (k : A → M G C B) Q s :
  (∀ a s', on_done (k a) Q s') → on_done (m ≫= k) Q s.
Proof.
  intros H. apply on_done_bind. unfold on_done at 1, wp. destruct (m s) as [[] ?]; simpl; auto.
Qed.

(** The calls that a program adds are all in [K]; with [K] true, calls are only
    ever added to the trace. *)
Definition adds {G C A} (K : C → Prop) (m : M G C A) : Prop := ∀ s, extends_by K s (m s).2.

Abbreviation grows := (adds (λ _, True)).

Section adds.
Context {G C : Type} (K : C → Prop).

Lemma adds_bind {A B} (m : M G C A) (k : A → M G C B) :
  adds K m → (∀ a, adds K (k a)) → adds K (m ≫= k).
Proof.
  intros Hm Hk s. specialize (Hm s). unfold mbind, M_bind.
  destruct (m s) as [[a|c| |] s']; simpl in *; [|done..].
  eapply extends_trans; [exact Hm|apply Hk].
Qed.

Lemma adds_ret {A} (a : A) : adds (G:=G) K (mret a).
Proof. intros s. apply extends_refl. Qed.

Lemma adds_get : adds (G:=G) K get.
Proof. intros s. apply extends_refl. Qed.

Lemma adds_modify f : adds (G:=G) K (modify f).
Proof. intros s. by exists []. Qed.

Lemma adds_exit {A} c : adds (G:=G) (A:=A) K (exit_ c).
Proof. intros s. apply extends_refl. Qed.

Lemma adds_undefined {A} : adds (G:=G) (A:=A) K undefined.
Proof. intros s. apply extends_refl. Qed.

Lemma adds_ask {X} c (f : list C → X) : K c → adds (G:=G) K (ask c f).
Proof. intros Hc s. exists [c]. by repeat constructor. Qed.

Lemma adds_tell c : K c → adds (G:=G) K (tell c).
Proof. intros Hc s. exists [c]. by repeat constructor. Qed.

Lemma adds_when b (m : M G C unit) : adds K m → adds K (when b m).
Proof. intros Hm. destruct b; [done|]. intros s. apply extends_refl. Qed.

Lemma adds_loop {S R} (body : S → M G C (S + R)) fuel x :
  (∀ x, adds K (body x)) → adds K (loop fuel body x).
Proof.
  intros Hb. revert x. induction fuel as [|fuel IH]; intros x; simpl.
  - intros s. apply extends_refl.
  - apply adds_bind; [done|]. intros [x'|y]; [apply IH|apply adds_ret].
Qed.

Lemma adds_for_each {A S} (l : list A) (body : A → S → M G C S) x :
  (∀ a x, adds K (body a x)) → adds K (for_each l body x).
Proof.
  intros Hb. revert x. induction l as [|a l IH]; intros x; simpl; [apply adds_ret|].
  apply adds_bind; [done|]. intros x'. apply IH.
Qed.

Lemma adds_weaken {A} (K' : C → Prop) (m : M G C A) :
  (∀ c, K c → K' c) → adds K m → adds K' m.
Proof.
  intros HK Hm s. destruct (Hm s) as (new & E & F). exists new. split; [done|].
  by eapply Forall_impl.
Qed.

(** A postcondition may speak of the calls added. *)
Lemma wp_adds {A} (m : M G C A) (Q : outcome A → st G C → Prop) s :
  adds K m → wp m (λ o s', extends_by K s s' → Q o s') s → wp m Q s.
Proof. intros Hm H. unfold wp in *. apply H, Hm. Qed.
End adds.

Create HintDb grows.
#[export] Hint Resolve adds_ret adds_get adds_modify adds_exit adds_undefined : grows.
#[export] Hint Extern 1 (adds _ (ask _ _)) => apply adds_ask; exact I : grows.
#[export] Hint Extern 1 (adds _ (tell _)) => apply adds_tell; exact I : grows.

(** [adds K m] for the programs of the development, where membership in [K] of
    each call is found by computation. *)
Ltac grow :=
  repeat first
    [ solve [auto with grows]
    | apply adds_bind; [|intros]
    | apply adds_when
    | apply adds_loop; intros
    | apply adds_for_each; intros
    | case_match ].

(** A program whose calls are all in [K] and that leaves [f] of the globals
    alone, however it ends. *)
Definition confined {G C A X} (K : C → Prop) (f : G → X) (m : M G C A) : Prop := ∀ s,
  extends_by K s (m s).2 ∧ f (glob (m s).2) = f (glob s).

Section confined.
Context {G C X : Type} (K : C → Prop) (f : G → X).

Lemma confined_bind {A B} (m : M G C A) (k : A → M G C B) :
  confined K f m → (∀ a, confined K f (k a)) → confined K f (m ≫= k).
Proof.
  intros Hm Hk s. specialize (Hm s). unfold mbind, M_bind.
  destruct (m s) as [[a|c| |] s']; simpl in *; [|done..].
  destruct (Hk a s') as [H1 H2], Hm as [H3 H4].
  split; [by eapply extends_trans|congruence].
Qed.

Lemma confined_ret {A} (a : A) : confined K f (mret a).
Proof. intros s. split; [apply extends_refl|done]. Qed.

Lemma confined_get : confined K f get.
Proof. intros s. split; [apply extends_refl|done]. Qed.

Lemma confined_exit {A} c : confined K f (exit_ c : M G C A).
Proof. intros s. split; [apply extends_refl|done]. Qed.

Lemma confined_undefined {A} : confined K f (undefined : M G C A).
Proof. intros s. split; [apply extends_refl|done]. Qed.

Lemma confined_modify u : (∀ g, f (u g) = f g) → confined K f (modify u).
Proof. intros Hu s. split; [by exists []|]. apply Hu. Qed.

Lemma confined_ask {Y} c (g : list C → Y) : K c → confined K f (ask c g).
Proof. intros Hc s. split; [|done]. exists [c]. split; [done|]. by constructor. Qed.

Lemma confined_when b (m : M G C unit) : confined K f m → confined K f (when b m).
Proof. intros Hm. destruct b; [done|apply confined_ret]. Qed.

Lemma confined_loop {S R} (body : S → M G C (S + R)) fuel x :
  (∀ x, confined K f (body x)) → confined K f (loop fuel body x).
Proof.
  intros Hb. revert x. induction fuel as [|fuel IH]; intros x; simpl.
  - intros s. split; [apply extends_refl|done].
  - apply confined_bind; [done|]. intros [x'|y]; [apply IH|apply confined_ret].
Qed.

Lemma confined_for_each {A S} (l : list A) (body : A → S → M G C S) x :
  (∀ a x, confined K f (body a x)) → confined K f (for_each l body x).
Proof.
  intros Hb. revert x. induction l as [|a l IH]; intros x; simpl; [apply confined_ret|].
  by apply confined_bind.
Qed.

Lemma confined_weaken {A Y} (K' : C → Prop) (f' : G → Y) (m : M G C A) :
  (∀ c, K c → K' c) → (∀ g g', f g = f g' → f' g = f' g') → confined K f m → confined K' f' m.
Proof.
  intros HK Hf Hm s. destruct (Hm s) as [(new & E & F) Hs]. split; [|by apply Hf].
  exists new. split; [done|]. by eapply Forall_impl.
Qed.

Lemma wp_confined {A} (m : M G C A) (Q : outcome A → st G C → Prop) s :
  confined K f m →
  wp m (λ o s', extends_by K s s' → f (glob s') = f (glob s) → Q o s') s → wp m Q s.
Proof. intros Hm H. destruct (Hm s) as [H1 H2]. unfold wp in *. by apply H. Qed.

Lemma wp_confined_only {A} (m : M G C A) (Q : outcome A → st G C → Prop) s :
  confined K f m →
  (∀ o s', extends_by K s s' → f (glob s') = f (glob s) → Q o s') → wp m Q s.
Proof. intros Hm HQ. destruct (Hm s) as [H1 H2]. unfold wp. by apply HQ. Qed.
End confined.

Create HintDb confined.
#[export] Hint Resolve confined_ret confined_get confined_exit confined_undefined : confined.

(** [confined K f m] for straight-line code and loops. *)
Ltac confine :=
  repeat first
    [ solve [auto with confined]
    | apply confined_bind; [|intros]
    | apply confined_ask; by split
    | apply confined_modify; by intros []
    | apply confined_when
    | apply confined_for_each; intros
    | apply confined_loop; intros
    | case_match ].

(** One step of symbolic execution: a bind is taken apart, a primitive is
    run. *)
Ltac wp_step :=
  match goal with
  | |- wp (mbind _ _) _ _ => apply wp_bind
  | |- wp (mret _) _ _ => apply wp_ret
  | |- wp (ask _ _) _ _ => apply wp_ask
  | |- wp (tell _) _ _ => apply wp_ask
  | |- wp get _ _ => unfold get, wp; simpl
  | |- wp (modify _) _ _ => unfold modify, wp; simpl
  | |- wp (exit_ _) _ _ => unfold exit_, wp; simpl
  | |- wp undefined _ _ => unfold undefined, wp; simpl
  | |- wp (when ?b _) _ _ => unfold when; destruct b eqn:?
  | |- wp (if ?b then _ else _) _ _ => destruct b eqn:?
  | |- wp (match ?x with _ => _ end) _ _ => destruct x eqn:?
  end; cbn beta iota.

Ltac wp_steps := repeat wp_step.

(** The calls that a concrete trace adds to an older one. *)
Ltac new_calls tr old :=
  lazymatch tr with
  | old => lazymatch type of old with ?T => constr:(@nil _ : T) end
  | ?c :: ?tr' => let r := new_calls tr' old in constr:(c :: r)
  end.

(** Choose those calls in a goal [∃ new, c1 :: ... :: old = new ++ old ∧ _]. *)
Ltac exists_new_calls :=
  lazymatch goal with
  | |- ∃ new, ?tr = new ++ ?old ∧ _ =>
      let n := new_calls tr old in exists n; split; [reflexivity|]
  end.

(** Run straight-line code: unfold the monad and split every test of it. *)
Ltac run_code :=
  unfold wp, mbind, M_bind, mret, M_ret, tell, ask, get, modify, exit_, undefined,
    when; simpl;
  repeat (case_match; simpl in *; simplify_eq).
