(* ===== verification/Libc.v ===== *)
(** * C library conversions the programs rely on

    [strtol], [atoi], [printf("%d")], [sscanf("%hhx")] and [struct timespec],
    as ISO C and POSIX define them, for the uses the sources make of them.
    A C string is the list of its bytes, without the final NUL. *)

From S2P Require Import Prelude.

Local Open Scope Z_scope.

(** ** Character classes *)

Definition is_space (b : Z) : bool := (b =? 32) || ((9 <=? b) && (b <=? 13)).
Definition is_digit (b : Z) : bool := (48 <=? b) && (b <=? 57).

Definition hex_value (b : Z) : option Z :=
  if (48 <=? b) && (b <=? 57) then Some (b - 48)
  else if (97 <=? b) && (b <=? 102) then Some (b - 87)
  else if (65 <=? b) && (b <=? 70) then Some (b - 55)
  else None.

(** ** strtol and atoi *)

Fixpoint skip_spaces (s : list Z) : list Z :=
  match s with
  | b :: s' => if is_space b then skip_spaces s' else s
  | [] => []
  end.

(** Optional sign: is it a minus, and what follows. *)
Definition scan_sign (s : list Z) : bool * list Z :=
  match s with
  | b :: s' => if b =? 45 then (true, s') else if b =? 43 then (false, s') else (false, s)
  | [] => (false, [])
  end.

Fixpoint scan_digits (acc : Z) (s : list Z) : Z * list Z :=
  match s with
  | b :: s' => if is_digit b then scan_digits (acc * 10 + (b - 48)) s' else (acc, s)
  | [] => (acc, [])
  end.

Definition ERANGE : Z := 34.

(** What [strtol(s, &end, 10)] delivers: the value, the [errno] it sets (0
    when it leaves it alone) and how many bytes precede [end]. *)
Record strtol_result : Type :=
  { st_value : Z; st_errno : Z; st_consumed : nat }.

Definition strtol (s : list Z) : strtol_result :=
  let (neg, s1) := scan_sign (skip_spaces s) in
  match s1 with
  | b :: _ =>
      if is_digit b then
        let (v, rest) := scan_digits 0 s1 in
        let used := (length s - length rest)%nat in
        let v := if neg then - v else v in
        if v >? LONG_MAX then Build_strtol_result LONG_MAX ERANGE used
        else if v <? LONG_MIN then Build_strtol_result LONG_MIN ERANGE used
        else Build_strtol_result v 0 used
      else Build_strtol_result 0 0 0
  | [] => Build_strtol_result 0 0 0
  end.

Definition atoi (s : list Z) : Z := i32 (st_value (strtol s)).

(** ** Decimal output *)

Fixpoint dec_aux (fuel : nat) (z : Z) (acc : list Z) : list Z :=
  match fuel with
  | O => acc
  | S fuel =>
      if z <? 10 then (48 + z) :: acc
      else dec_aux fuel (z / 10) ((48 + z mod 10) :: acc)
  end.

(** [%d], [%ld]: twenty digits hold every 64-bit value. *)
Definition print_dec (z : Z) : list Z :=
  if z <? 0 then 45 :: dec_aux 20 (- z) [] else dec_aux 20 z [].

(** ** sscanf("%hhx:...") *)

Fixpoint scan_hex_digits (acc : Z) (s : list Z) : Z * list Z :=
  match s with
  | b :: s' =>
      match hex_value b with
      | Some d => scan_hex_digits (acc * 16 + d) s'
      | None => (acc, s)
      end
  | [] => (acc, [])
  end.

(** One [%hhx]: white space, a sign, an optional 0x prefix, hexadecimal
    digits; the value saturates at ULONG_MAX and is stored in an
    [unsigned char]. *)
Definition scan_hhx (s : list Z) : option (Z * list Z) :=
  let (neg, s1) := scan_sign (skip_spaces s) in
  let s2 := match s1 with
            | 48 :: 120 :: r => r
            | 48 :: 88 :: r => r
            | _ => s1
            end in
  match s2 with
  | b :: _ =>
      match hex_value b with
      | Some _ =>
          let (v, rest) := scan_hex_digits 0 s2 in
          let v := Z.min v (2 ^ 64 - 1) in
          Some (u8 (if neg then - v else v), rest)
      | None => None
      end
  | [] => None
  end.

(** [n] fields separated by colons; the result is the number of fields that
    were assigned and their values. *)
Fixpoint scan_hhx_colon (n : nat) (s : list Z) : list Z :=
  match n with
  | O => []
  | S n =>
      match scan_hhx s with
      | None => []
      | Some (v, rest) =>
          v :: match n, rest with
               | O, _ => []
               | S _, 58 :: rest' => scan_hhx_colon n rest'
               | S _, _ => []
               end
      end
  end.

Definition hex_digit (d : Z) : Z := if d <? 10 then 48 + d else 87 + d.
Definition hex_byte (b : Z) : list Z := [hex_digit (b / 16); hex_digit (b mod 16)].

(** Bytes written as two hexadecimal digits, joined with colons. *)
Fixpoint print_mac (bs : list Z) : list Z :=
  match bs with
  | [] => []
  | [b] => hex_byte b
  | b :: bs => hex_byte b ++ 58 :: print_mac bs
  end.

(** ** Time *)

Record timespec : Type := mk_timespec { tv_sec : Z; tv_nsec : Z }.

Definition timespec_ok (t : timespec) : Prop :=
  0 <= tv_sec t /\ 0 <= tv_nsec t < 1000000000.

(** The instant a [timespec] stands for, in nanoseconds. *)
Definition ns_of (t : timespec) : Z := tv_sec t * 1000000000 + tv_nsec t.

(** ** Specification of the numerals strtol reads to the end *)

Definition digits_value (ds : list Z) : Z :=
  foldl (λ acc b, acc * 10 + (b - 48)) 0 ds.

Definition numeral (s : list Z) (v : Z) : Prop :=
  ∃ ws sign ds,
    s = ws ++ sign ++ ds ∧ Forall (λ b, is_space b = true) ws ∧
    (sign = [] ∨ sign = [43] ∨ sign = [45]) ∧ ds ≠ [] ∧
    Forall (λ b, is_digit b = true) ds ∧
    v = if decide (sign = [45]) then - digits_value ds else digits_value ds.

(** ** Lemmas *)

(** A string of digits is a numeral. *)
Lemma numeral_digits s :
  s ≠ [] → forallb is_digit s = true → numeral s (digits_value s).
Proof.
  intros Hne Hd. exists [], [], s. split; [done|]. split; [done|]. split; [by left|].
  split; [done|]. split; [|by case_decide].
  apply List.forallb_forall in Hd || rewrite List.forallb_forall in Hd.
  apply Forall_forall. intros b Hb. apply Hd. by apply list_elem_of_In.
Qed.

Lemma is_digit_not_sign b : is_digit b = true → (b =? 45) = false ∧ (b =? 43) = false.
Proof. unfold is_digit. intros. bool_to_prop. lia. Qed.

Lemma is_digit_not_space b : is_digit b = true → is_space b = false.
Proof. unfold is_digit, is_space. intros. bool_to_prop. lia. Qed.

Lemma skip_spaces_split s :
  ∃ ws, s = ws ++ skip_spaces s ∧ Forall (λ b, is_space b = true) ws.
Proof.
  induction s as [|b s (ws & E & H)]; [by exists []|]. simpl.
  destruct (is_space b) eqn:Eb.
  - exists (b :: ws). simpl. by rewrite <- E; auto.
  - by exists [].
Qed.

Lemma skip_spaces_app ws s :
  Forall (λ b, is_space b = true) ws → skip_spaces (ws ++ s) = skip_spaces s.
Proof. induction 1 as [|b ws Hb _ IH]; simpl; [done|]. by rewrite Hb. Qed.

Lemma scan_digits_split acc s :
  ∃ ds, s = ds ++ (scan_digits acc s).2 ∧ Forall (λ b, is_digit b = true) ds ∧
    (scan_digits acc s).1 = foldl (λ a b, a * 10 + (b - 48)) acc ds.
Proof.
  revert acc. induction s as [|b s IH]; intros acc; [by exists []|]. simpl.
  destruct (is_digit b) eqn:Eb.
  - destruct (IH (acc * 10 + (b - 48))) as (ds & E & H & V).
    exists (b :: ds). simpl. split; [by f_equal|]. split; [by constructor|done].
  - by exists [].
Qed.

Lemma scan_digits_all acc ds :
  Forall (λ b, is_digit b = true) ds →
  scan_digits acc ds = (foldl (λ a b, a * 10 + (b - 48)) acc ds, []).
Proof.
  intros H. revert acc. induction H as [|b ds Hb _ IH]; intros acc; simpl; [done|].
  by rewrite Hb.
Qed.

Lemma digits_value_nonneg ds :
  Forall (λ b, is_digit b = true) ds → 0 <= digits_value ds.
Proof.
  unfold digits_value. intros H. cut (∀ a, 0 <= a → 0 <= foldl (λ a b, a * 10 + (b - 48)) a ds).
  { intros C. by apply C. }
  induction H as [|b ds Hb _ IH]; intros a Ha; simpl; [done|].
  apply IH. unfold is_digit in Hb. bool_to_prop. lia.
Qed.

(** An optional sign is what scan_sign() takes off. *)
Lemma scan_sign_split s ds neg :
  scan_sign s = (neg, ds) → ds ≠ [] →
  ∃ sign, s = sign ++ ds ∧ (sign = [] ∨ sign = [43] ∨ sign = [45]) ∧
          neg = bool_decide (sign = [45]).
Proof.
  unfold scan_sign. intros E Hne. destruct s as [|c r]; [by injection E as _ <-|].
  destruct (c =? 45) eqn:E45; [|destruct (c =? 43) eqn:E43]; bool_to_prop; injection E as <- <-.
  - exists [45]. subst c. auto.
  - exists [43]. subst c. auto.
  - exists []. auto.
Qed.

Lemma signed_value (sign : list Z) (v : Z) :
  (if bool_decide (sign = [45]) then - v else v) = if decide (sign = [45]) then - v else v.
Proof. by destruct (decide (sign = [45])); [rewrite bool_decide_true|rewrite bool_decide_false]. Qed.

(** A numeral in range is read whole. *)
Lemma strtol_numeral s v :
  numeral s v → LONG_MIN <= v <= LONG_MAX →
  st_value (strtol s) = v ∧ st_errno (strtol s) = 0 ∧ st_consumed (strtol s) = length s.
Proof.
  intros (ws & sign & ds & -> & Hws & Hsign & Hne & Hds & Hv) Hr.
  destruct ds as [|b ds]; [done|]. pose proof (Forall_inv Hds) as Hb. simpl in Hb.
  destruct (is_digit_not_sign b Hb) as [H45 H43].
  pose proof (is_digit_not_space b Hb) as Hsp.
  pose proof (scan_digits_all 0 (b :: ds) Hds) as Hall.
  unfold strtol. rewrite skip_spaces_app by done.
  assert (scan_sign (skip_spaces (sign ++ b :: ds))
          = (bool_decide (sign = [45]), b :: ds)) as ->.
  { destruct Hsign as [-> | [-> | -> ]]; simpl; rewrite ?Hsp; simpl; by rewrite ?H45, ?H43. }
  rewrite Hb, Hall. change (foldl _ 0 (b :: ds)) with (digits_value (b :: ds)).
  rewrite signed_value, <- Hv.
  destruct (v >? LONG_MAX) eqn:?; [bool_to_prop; lia|].
  destruct (v <? LONG_MIN) eqn:?; [bool_to_prop; lia|]. simpl. split; [done|]. split; [done|]. lia.
Qed.

(** [strtol] reads a whole string with no error exactly when the string is
    empty or a numeral whose value fits in a [long]. *)
Lemma strtol_whole s v :
  (st_value (strtol s) = v ∧ st_errno (strtol s) = 0 ∧
   st_consumed (strtol s) = length s) ↔
  (s = [] ∧ v = 0) ∨ (numeral s v ∧ LONG_MIN <= v <= LONG_MAX).
Proof.
  split; [|by intros [[-> ->]|[H Hr]]; [|apply strtol_numeral]].
  destruct (skip_spaces_split s) as (ws & Es & Hws). unfold strtol.
  destruct (scan_sign (skip_spaces s)) as [neg s1] eqn:Esign.
  destruct s1 as [|b s1]; [simpl; intros (<- & _ & ?); left; by destruct s|].
  destruct (is_digit b) eqn:Eb; [|simpl; intros (<- & _ & ?); left; by destruct s].
  apply scan_sign_split in Esign as (sign & Ess & Hsign & ->); [|done].
  destruct (scan_digits 0 (b :: s1)) as [v0 rest] eqn:Ed.
  destruct (scan_digits_split 0 (b :: s1)) as (ds & E1 & Hds & Hv).
  rewrite Ed in E1, Hv. simpl in E1, Hv. rewrite signed_value.
  destruct (_ >? LONG_MAX) eqn:Hmax; [by intros (_ & ? & _)|].
  destruct (_ <? LONG_MIN) eqn:Hmin; [by intros (_ & ? & _)|].
  simpl. intros (<- & _ & Hlen). bool_to_prop. right. split; [|lia].
  assert (rest = []) as ->.
  { destruct s; [by destruct sign|]. destruct rest; [done|]. simpl in *. lia. }
  rewrite app_nil_r in E1. exists ws, sign, ds. rewrite Es at 1. rewrite Ess, E1.
  do 3 (split; [done|]). split; [by destruct ds|]. split; [done|]. by rewrite Hv.
Qed.

Lemma dec_aux_scan fuel z acc :
  0 <= z < 10 ^ Z.of_nat fuel → (fuel ≠ 0)%nat →
  scan_digits 0 (dec_aux fuel z acc) = scan_digits z acc.
Proof.
  revert z acc. induction fuel as [|fuel IH]; intros z acc Hz Hf; [done|].
  cbn [dec_aux]. destruct (z <? 10) eqn:Hlt; bool_to_prop.
  - cbn [scan_digits]. replace (is_digit (48 + z)) with true
      by (symmetry; unfold is_digit; apply andb_true_intro; lia).
    f_equal. lia.
  - destruct fuel as [|fuel]; [change (10 ^ Z.of_nat 1) with 10 in Hz; lia|].
    rewrite IH; [|split; [apply Z.div_pos; lia|]|done].
    + cbn [scan_digits]. replace (is_digit (48 + z mod 10)) with true
        by (symmetry; unfold is_digit; apply andb_true_intro;
            pose proof (Z.mod_pos_bound z 10); lia).
      f_equal. pose proof (Z.div_mod z 10). lia.
    + apply Z.div_lt_upper_bound; [lia|].
      replace (10 * 10 ^ Z.of_nat (S fuel)) with (10 ^ Z.of_nat (S (S fuel)))
        by (rewrite <- Z.pow_succ_r by lia; f_equal; lia). lia.
Qed.

Lemma dec_aux_head fuel z acc :
  0 <= z → (fuel ≠ 0)%nat → ∃ b r, dec_aux fuel z acc = b :: r ∧
    (z < 10 ^ Z.of_nat fuel → is_digit b = true).
Proof.
  revert z acc. induction fuel as [|fuel IH]; intros z acc Hz Hf; [done|].
  cbn [dec_aux]. destruct (z <? 10) eqn:Hlt; bool_to_prop.
  - eexists _, _. split; [done|]. intros _. unfold is_digit. apply andb_true_intro. lia.
  - destruct fuel as [|fuel].
    + eexists _, _. split; [done|]. change (10 ^ Z.of_nat 1) with 10. lia.
    + destruct (IH (z / 10) ((48 + z mod 10) :: acc)) as (b & r & E & Hd);
        [apply Z.div_pos; lia|done|].
      exists b, r. split; [done|]. intros Hlt'. apply Hd.
      apply Z.div_lt_upper_bound; [lia|].
      rewrite <- Z.pow_succ_r by lia. by replace (Z.succ (Z.of_nat (S fuel)))
        with (Z.of_nat (S (S fuel))) by lia.
Qed.

(** [atoi] reads back what [%d] printed, whatever follows that is not a
    digit. *)
Lemma atoi_print_dec z rest :
  0 <= z <= INT_MAX →
  (match rest with b :: _ => is_digit b = false | [] => True end) →
  atoi (print_dec z ++ rest) = z.
Proof.
  intros Hz Hrest. unfold print_dec.
  destruct (z <? 0) eqn:?; [bool_to_prop; lia|].
  assert (dec_aux 20 z [] ++ rest = dec_aux 20 z rest) as ->.
  { generalize 20%nat as n, z as y. clear. intros n.
    assert (∀ y acc, dec_aux n y acc ++ rest = dec_aux n y (acc ++ rest)) as H.
    { induction n as [|n IH]; intros y acc; simpl; [done|].
      destruct (y <? 10); [done|]. by rewrite IH. }
    intros y. by rewrite H. }
  destruct (dec_aux_head 20 z rest) as (b & r & E & Hb); [lia|done|].
  specialize (Hb ltac:(unfold INT_MAX in Hz; lia)).
  pose proof (dec_aux_scan 20 z rest ltac:(unfold INT_MAX in Hz; lia) ltac:(done)) as Hscan.
  rewrite E in *. destruct (is_digit_not_sign b Hb) as [H45 H43].
  unfold atoi, strtol. cbn [skip_spaces]. rewrite (is_digit_not_space b Hb).
  unfold scan_sign. rewrite H45, H43, Hb, Hscan.
  assert (scan_digits z rest = (z, rest)) as ->.
  { destruct rest as [|c rest]; [done|]. simpl. by rewrite Hrest. }
  unfold INT_MAX, LONG_MAX, LONG_MIN in *.
  btest; bool_to_prop; simpl; try lia. apply wrapS_small; lia.
Qed.

Lemma hex_byte_value b :
  0 <= b < 256 →
  ∃ h l, hex_byte b = [hex_digit h; hex_digit l] ∧ b = h * 16 + l ∧
    hex_value (hex_digit h) = Some h ∧ hex_value (hex_digit l) = Some l ∧
    0 <= h < 16 ∧ 0 <= l < 16.
Proof.
  intros Hb. exists (b / 16), (b mod 16).
  assert (0 <= b / 16 < 16) by (split; [apply Z.div_pos|apply Z.div_lt_upper_bound]; lia).
  assert (0 <= b mod 16 < 16) by (apply Z.mod_pos_bound; lia).
  assert (∀ d, 0 <= d < 16 → hex_value (hex_digit d) = Some d) as Hd.
  { intros d Hd. unfold hex_digit, hex_value.
    destruct (d <? 10) eqn:?; bool_to_prop; btest; bool_to_prop; try (f_equal; lia);
      repeat match goal with H : (_ && _)%bool = false |- _ => apply andb_false_iff in H end;
      bool_to_prop; lia. }
  split; [done|]. split; [pose proof (Z.div_mod b 16); lia|]. auto.
Qed.

Lemma scan_hhx_byte b rest :
  0 <= b < 256 →
  (match rest with c :: _ => hex_value c = None | [] => True end) →
  scan_hhx (hex_byte b ++ rest) = Some (b, rest).
Proof.
  intros Hb Hrest.
  destruct (hex_byte_value b Hb) as (h & l & -> & Hv & Hh & Hl & Hhr & Hlr).
  unfold scan_hhx. cbn [app skip_spaces].
  assert (is_space (hex_digit h) = false ∧ (hex_digit h =? 45) = false
          ∧ (hex_digit h =? 43) = false ∧ hex_digit l ≠ 120 ∧ hex_digit l ≠ 88)
    as (-> & H45 & H43 & Hx & HX).
  { unfold is_space, hex_digit. destruct (h <? 10) eqn:?, (l <? 10) eqn:?;
      bool_to_prop; lia. }
  cbn [scan_sign]. rewrite H45, H43.
  assert ((match hex_digit h :: hex_digit l :: rest with
           | 48 :: 120 :: r => r | 48 :: 88 :: r => r
           | _ => hex_digit h :: hex_digit l :: rest end)
          = hex_digit h :: hex_digit l :: rest) as ->.
  { destruct (decide (hex_digit h = 48)) as [->|]; [|by repeat case_match].
    by repeat case_match. }
  rewrite Hh. cbn [scan_hex_digits]. rewrite Hh, Hl.
  assert (scan_hex_digits ((0 * 16 + h) * 16 + l) rest = ((0 * 16 + h) * 16 + l, rest)) as ->.
  { destruct rest as [|c rest]; [done|]. simpl. by rewrite Hrest. }
  rewrite Z.min_l by lia. rewrite wrapU_small by lia. do 2 f_equal. lia.
Qed.

(** [sscanf] with colon-separated [%hhx] fields reads back a printed
    hardware address. *)
Lemma scan_print_mac bs :
  Forall is_byte bs → scan_hhx_colon (length bs) (print_mac bs) = bs.
Proof.
  induction 1 as [|b bs Hb Hbs IH]; [done|].
  destruct bs as [|c bs].
  - cbn [print_mac length scan_hhx_colon]. rewrite <- (app_nil_r (hex_byte b)).
    by rewrite scan_hhx_byte.
  - change (print_mac (b :: c :: bs)) with (hex_byte b ++ 58 :: print_mac (c :: bs)).
    cbn [length scan_hhx_colon]. rewrite scan_hhx_byte by done. by f_equal.
Qed.
