(* ===== verification/Argp.v ===== *)
(** * Command lines: argp_parse() of the C library

    tsq and txrx-tsn describe their options in a table ([struct argp_option])
    and hand it, with a parser callback, to argp_parse(&argp, argc, argv, 0, 0,
    &opt).  This file models what the sources use of it, as the GNU C library
    documents it (flags 0, POSIXLY_CORRECT not set): clusters of short options,
    an argument attached to its option or in the next word, long options
    abbreviated to a unique prefix, "--", operands anywhere.  The callback runs
    for each option in turn; help ends the process with 0 and a word that is no
    option of the table, or an operand, with 64.  The text of the help messages
    is not modelled. *)

From S2P Require Import Prelude Sys Libc.

Local Open Scope Z_scope.

(** ** Option tables *)

(** A row of the table; a row without a name and a key is the heading of a
    group.  The documentation strings and the flags (all 0) are left out. *)
Record argp_option : Type := mk_option {
  opt_name : option string;
  opt_key : option Ascii.ascii;
  opt_arg : option string       (* the name of the argument, if there is one *)
}.

Definition row (n : string) (k : Ascii.ascii) (a : option string) : argp_option :=
  mk_option (Some n) (Some k) a.

Definition heading : argp_option := mk_option None None None.

Definition word : Type := list Z.

Definition byte_of (k : Ascii.ascii) : Z := Z.of_N (Ascii.N_of_ascii k).

Definition ARGP_ERR_UNKNOWN : Z := 7.   (* E2BIG, <argp.h> *)
Definition EX_USAGE : Z := 64.          (* argp_err_exit_status *)

(** What an option stands for: a call of the callback, with an argument or
    without; help; or an option of argp itself that the callback never sees. *)
Inductive meaning : Type :=
| User (k : Ascii.ascii) (takes : bool)
| Help
| Own (takes : bool).

#[global] Instance meaning_eq_dec : EqDecision meaning.
Proof. solve_decision. Defined.

Definition takes (o : argp_option) : bool :=
  match opt_arg o with Some _ => true | None => false end.

(** ** Options in the table *)

Fixpoint short_option (table : list argp_option) (b : Z) : option meaning :=
  match table with
  | [] => if b =? 63 then Some Help else None                          (* -? *)
  | o :: table =>
      match opt_key o with
      | Some k => if byte_of k =? b then Some (User k (takes o)) else short_option table b
      | None => short_option table b
      end
  end.

(** The long options, those that argp adds last. *)
Definition long_options (table : list argp_option) : list (word * meaning) :=
  omap (λ o, match opt_name o, opt_key o with
             | Some n, Some k => Some (bytes_of_string n, User k (takes o))
             | _, _ => None
             end) table ++
  [(bytes_of_string "help", Help); (bytes_of_string "program-name", Own true);
   (bytes_of_string "usage", Help); (bytes_of_string "HANG", Own false)].

(** [is_prefix n m]: [m] starts with [n]. *)
Fixpoint is_prefix (n m : word) : bool :=
  match n, m with
  | [], _ => true
  | b :: n, c :: m => (b =? c) && is_prefix n m
  | _ :: _, [] => false
  end.

(** The option with this very name, or the only one that starts with it. *)
Definition long_option (table : list argp_option) (n : word) : option meaning :=
  match List.find (λ p, bool_decide (p.1 = n)) (long_options table) with
  | Some p => Some p.2
  | None =>
      match List.filter (λ p, is_prefix n p.1) (long_options table) with
      | [p] => Some p.2
      | _ => None
      end
  end.

(** ** Words of the command line *)

(** An option for the callback: its key and its argument (NULL without). *)
Definition found : Type := Ascii.ascii * option word.

(** How a command line ends: all its words are read, and these were operands;
    a request for help; or a word that argp does not accept. *)
Inductive ending : Type :=
| Parsed (operands : list word)
| Help_given
| Usage_error.

(** What one word does. *)
Inductive action : Type :=
| Options (l : list found)
| Needs_arg (l : list found) (k : option Ascii.ascii)  (* the next word is its argument *)
| Stop (l : list found) (e : ending)
| Operand
| Terminator.

(** The option [m] whose argument, if any, is [v]. *)
Definition one_option (m : option meaning) (v : option word) : action :=
  match m, v with
  | Some (User k true), Some v => Options [(k, Some v)]
  | Some (User k true), None => Needs_arg [] (Some k)
  | Some (User k false), None => Options [(k, None)]
  | Some Help, None => Stop [] Help_given
  | Some (Own true), Some _ | Some (Own false), _ => Options []
  | Some (Own true), None => Needs_arg [] None
  | _, _ => Stop [] Usage_error
  end.

(** One option seen before those of the rest of the word. *)
Definition after (f : found) (a : action) : action :=
  match a with
  | Options l => Options (f :: l)
  | Needs_arg l k => Needs_arg (f :: l) k
  | Stop l e => Stop (f :: l) e
  | Operand | Terminator => a
  end.

(** The letters behind a single dash: what follows an option with an argument
    is its argument. *)
Fixpoint cluster (table : list argp_option) (letters : word) : action :=
  match letters with
  | [] => Options []
  | b :: rest =>
      match short_option table b with
      | Some (User k false) => after (k, None) (cluster table rest)
      | Some (User k true) =>
          match rest with [] => Needs_arg [] (Some k) | _ => Options [(k, Some rest)] end
      | Some Help => Stop [] Help_given
      | _ => Stop [] Usage_error
      end
  end.

(** [name=value], split at the first equals sign. *)
Fixpoint split_eq (w : word) : word * option word :=
  match w with
  | [] => ([], None)
  | b :: w =>
      if b =? 61 then ([], Some w)
      else let (n, v) := split_eq w in (b :: n, v)
  end.

Definition read_word (table : list argp_option) (w : word) : action :=
  match w with
  | b :: rest =>
      if negb (b =? 45) then Operand else
      match rest with
      | [] => Operand
      | c :: long =>
          if negb (c =? 45) then cluster table rest else
          match long with
          | [] => Terminator
          | _ => let (n, v) := split_eq long in one_option (long_option table n) v
          end
      end
  | [] => Operand
  end.

Definition prepend (l : list found) (r : list found * ending) : list found * ending :=
  (l ++ r.1, r.2).

Definition keep_operand (w : word) (r : list found * ending) : list found * ending :=
  (r.1, match r.2 with Parsed ops => Parsed (w :: ops) | e => e end).

Definition deliver (k : option Ascii.ascii) (a : word) : list found :=
  match k with Some k => [(k, Some a)] | None => [] end.

(** The options of a command line (without the program's name), in order. *)
Fixpoint getopt (table : list argp_option) (argv : list word) : list found * ending :=
  match argv with
  | [] => ([], Parsed [])
  | w :: argv =>
      match read_word table w with
      | Options l => prepend l (getopt table argv)
      | Needs_arg l k =>
          match argv with
          | [] => (l, Usage_error)
          | a :: argv => prepend (l ++ deliver k a) (getopt table argv)
          end
      | Stop l e => (l, e)
      | Operand => keep_operand w (getopt table argv)
      | Terminator => ([], Parsed argv)
      end
  end.

(** ** argp_parse *)

(** [struct argp]: the table and the callback. *)
Record struct_argp (G C O : Type) : Type := mk_argp {
  argp_options : list argp_option;
  argp_parser : Ascii.ascii → option word → O → M G C (O * Z)
}.
Arguments mk_argp {G C O} _ _.
Arguments argp_options {G C O} _.
Arguments argp_parser {G C O} _.

(** argp_parse(): the callback runs for every option in turn, before the words
    after it are looked at; argp ends the process when the callback does not
    know an option, on help, on an unknown option and on operands. *)
Definition argp_parse {G C O : Type} (argp : struct_argp G C O)
    (argv : list word) (o : O) : M G C O :=
  let '(opts, e) := getopt (argp_options argp) argv in
  o ← for_each opts (λ '(k, a) o,
        r ← argp_parser argp k a o;
        if (r.2 =? 0) then mret r.1 else exit_ EX_USAGE) o;
  match e with
  | Parsed [] => mret o
  | Help_given => exit_ 0
  | _ => exit_ EX_USAGE
  end.

(** What the callback does with a pointer to the argument: it must not be NULL
    where the C library reads through it. *)
Definition deref {G C : Type} (a : option word) : M G C word :=
  match a with Some w => mret w | None => undefined end.

(** ** Specification: how options are written

    [spells table fs ws]: the words [ws] are a way to write the options [fs]. *)

(** Flags that a single dash introduces together. *)
Definition flag (table : list argp_option) (k : Ascii.ascii) : Prop :=
  short_option table (byte_of k) = Some (User k false).

Definition dashes (n : word) : word := 45 :: 45 :: n.

Definition no_eq (n : word) : Prop := Forall (λ b, b ≠ 61) n.

Definition flags (ks : list Ascii.ascii) : list found := map (λ k, (k, None)) ks.

Inductive spells (table : list argp_option) : list found → list word → Prop :=
| spells_flags k ks :
    byte_of k ≠ 45 → Forall (flag table) (k :: ks) →
    spells table (flags (k :: ks)) [45 :: map byte_of (k :: ks)]
| spells_attached ks k a :
    (∀ b w, map byte_of ks ++ byte_of k :: a = b :: w → b ≠ 45) →
    Forall (flag table) ks → short_option table (byte_of k) = Some (User k true) → a ≠ [] →
    spells table (flags ks ++ [(k, Some a)]) [45 :: map byte_of ks ++ byte_of k :: a]
| spells_separate ks k a :
    (∀ b w, map byte_of ks ++ [byte_of k] = b :: w → b ≠ 45) →
    Forall (flag table) ks → short_option table (byte_of k) = Some (User k true) →
    spells table (flags ks ++ [(k, Some a)]) [45 :: map byte_of ks ++ [byte_of k]; a]
| spells_long_flag n k :
    n ≠ [] → no_eq n → long_option table n = Some (User k false) →
    spells table [(k, None)] [dashes n]
| spells_long_eq n k a :
    n ≠ [] → no_eq n → long_option table n = Some (User k true) →
    spells table [(k, Some a)] [dashes (n ++ 61 :: a)]
| spells_long n k a :
    n ≠ [] → no_eq n → long_option table n = Some (User k true) →
    spells table [(k, Some a)] [dashes n; a].

(** The row of the table that an option comes from. *)
Definition option_of (table : list argp_option) (f : found) : Prop :=
  ∃ r, r ∈ table ∧ opt_key r = Some f.1 ∧ takes r = bool_decide (is_Some f.2).

(** What options set, the last of a kind deciding: [given k v] reads the flag [k]
    as [v], the others read the argument of [k]. *)
Definition last_value {X} (read : found → option X) (d : X) (fs : list found) : X :=
  foldl (λ x f, from_option id x (read f)) d fs.

Definition given {X} (k : Ascii.ascii) (v : X) (f : found) : option X :=
  if bool_decide (f.1 = k) then Some v else None.

Definition text_of (k : Ascii.ascii) (f : found) : option word :=
  if bool_decide (f.1 = k) then f.2 else None.

Definition number_of (k : Ascii.ascii) (f : found) : option Z :=
  (λ a, st_value (strtol a)) <$> text_of k f.

(** ** Lemmas *)

(** One option more overrides those before it. *)
Lemma last_value_snoc {X} (read : found → option X) d fs f :
  last_value read d (fs ++ [f]) = from_option id (last_value read d fs) (read f).
Proof. unfold last_value. by rewrite foldl_app. Qed.

Lemma split_eq_no_eq n : no_eq n → split_eq n = (n, None).
Proof.
  induction 1 as [|b n Hb _ IH]; [done|]. simpl. rewrite IH.
  by destruct (Z.eqb_spec b 61).
Qed.

Lemma split_eq_app n a : no_eq n → split_eq (n ++ 61 :: a) = (n, Some a).
Proof.
  induction 1 as [|b n Hb _ IH]; [done|]. simpl. rewrite IH.
  by destruct (Z.eqb_spec b 61).
Qed.

(** The options of an action, put in front. *)
Definition afters (fs : list found) (a : action) : action := foldr after a fs.

Lemma cluster_flags table ks letters :
  Forall (flag table) ks →
  cluster table (map byte_of ks ++ letters) = afters (flags ks) (cluster table letters).
Proof.
  induction 1 as [|k ks Hk _ IH]; [done|]. simpl. rewrite Hk. by rewrite IH.
Qed.

Lemma afters_options fs l : afters fs (Options l) = Options (fs ++ l).
Proof. induction fs as [|f fs IH]; [done|]. simpl. by rewrite IH. Qed.

Lemma afters_needs fs l k : afters fs (Needs_arg l k) = Needs_arg (fs ++ l) k.
Proof. induction fs as [|f fs IH]; [done|]. simpl. by rewrite IH. Qed.

(** A word with one dash is a cluster. *)
Lemma read_word_short table w :
  w ≠ [] → (∀ b w', w = b :: w' → b ≠ 45) → read_word table (45 :: w) = cluster table w.
Proof.
  intros Hw Hb. destruct w as [|c w]; [done|]. unfold read_word.
  rewrite Z.eqb_refl. cbn [negb]. destruct (Z.eqb_spec c 45); [|done]. by destruct (Hb c w).
Qed.

Lemma read_word_long table n :
  n ≠ [] → read_word table (dashes n) = let (n, v) := split_eq n in one_option (long_option table n) v.
Proof. intros Hn. unfold read_word, dashes. simpl. by destruct n. Qed.

Lemma prepend_app l l' r : prepend l (prepend l' r) = prepend (l ++ l') r.
Proof. unfold prepend. simpl. by rewrite app_assoc. Qed.

(** One option, however it is written, is read as itself. *)
Lemma getopt_spells table fs ws argv :
  spells table fs ws → getopt table (ws ++ argv) = prepend fs (getopt table argv).
Proof.
  assert (∀ (u : word) b, u ++ [b] ≠ []) as Hne by (by intros [] ?).
  destruct 1 as [k ks Hk Hf|ks k a Hd Hf Hk Ha|ks k a Hd Hf Hk|n k Hn He Hl|n k a Hn He Hl
    |n k a Hn He Hl]; cbn [app getopt].
  - rewrite read_word_short; [|done|intros ? ? [= <- _]; done].
    rewrite <- (app_nil_r (map byte_of (k :: ks))), cluster_flags by done.
    cbn [cluster]. by rewrite afters_options, app_nil_r.
  - rewrite read_word_short; [|by destruct ks|exact Hd].
    rewrite cluster_flags by done. cbn [cluster]. rewrite Hk. destruct a; [done|].
    by rewrite afters_options.
  - rewrite read_word_short; [|by destruct ks|exact Hd].
    rewrite cluster_flags by done. cbn [cluster]. rewrite Hk.
    by rewrite afters_needs, app_nil_r.
  - rewrite read_word_long by done. rewrite split_eq_no_eq by done. by rewrite Hl.
  - rewrite read_word_long by (by destruct n). rewrite split_eq_app by done. by rewrite Hl.
  - rewrite read_word_long by done. rewrite split_eq_no_eq by done. by rewrite Hl.
Qed.

Lemma getopt_all_spelled table fss wss argv :
  Forall2 (spells table) fss wss →
  getopt table (concat wss ++ argv) = prepend (concat fss) (getopt table argv).
Proof.
  induction 1 as [|fs ws fss wss H _ IH]; [simpl; by destruct (getopt table argv)|].
  cbn [concat]. rewrite <- app_assoc, (getopt_spells _ _ _ _ H), IH. apply prepend_app.
Qed.

(** Every option that is found is in the table, with an argument exactly when
    the table asks for one. *)
Lemma short_option_in table b k t :
  short_option table b = Some (User k t) →
  ∃ r, r ∈ table ∧ opt_key r = Some k ∧ takes r = t.
Proof.
  induction table as [|o table IH]; simpl; [by case_match|].
  destruct (opt_key o) as [k'|] eqn:Ek.
  - case_match; [|intros H'; destruct (IH H') as (r & ? & ?); exists r; split; [by right|done]].
    intros [= -> <-]. exists o. split; [by left|done].
  - intros H'. destruct (IH H') as (r & ? & ?). exists r. split; [by right|done].
Qed.

Lemma long_options_in table n k t :
  (n, User k t) ∈ long_options table → ∃ r, r ∈ table ∧ opt_key r = Some k ∧ takes r = t.
Proof.
  unfold long_options. rewrite elem_of_app. intros [H|H]; [|repeat (apply elem_of_cons in H as [[=]|H]); by apply elem_of_nil in H].
  apply list_elem_of_omap in H as (o & Ho & E). exists o. split; [done|].
  destruct (opt_name o), (opt_key o); by simplify_eq.
Qed.

Lemma long_option_in table n k t :
  long_option table n = Some (User k t) → ∃ r, r ∈ table ∧ opt_key r = Some k ∧ takes r = t.
Proof.
  unfold long_option. destruct (List.find _ _) as [[n' m]|] eqn:E.
  - intros [= ->]. apply List.find_some in E as [E _].
    eapply long_options_in. by apply list_elem_of_In.
  - destruct (List.filter _ _) as [|[n' m] [|]] eqn:E'; try done. intros [= ->].
    assert (List.In (n', User k t) (List.filter (λ p, is_prefix n p.1) (long_options table)))
      as Hin by (rewrite E'; by left).
    apply List.filter_In in Hin as [Hin _]. eapply long_options_in. by apply list_elem_of_In.
Qed.

Lemma one_option_in table (n : word) v :
  match one_option (long_option table n) v with
  | Options l => Forall (option_of table) l
  | Needs_arg l k => l = [] ∧ (∀ k', k = Some k' → ∀ a, option_of table (k', Some a))
  | Stop l _ => l = []
  | _ => False
  end.
Proof.
  unfold one_option. pose proof (long_option_in table n) as H.
  destruct (long_option table n) as [[k [|]| |[|]]|], v; try done;
    try (by constructor); try (by split).
  - constructor; [|done]. exact (H _ _ eq_refl).
  - split; [done|]. intros ? [= <-] a. exact (H _ _ eq_refl).
  - constructor; [|done]. exact (H _ _ eq_refl).
Qed.

Lemma cluster_in table w :
  match cluster table w with
  | Options l => Forall (option_of table) l
  | Needs_arg l k => Forall (option_of table) l ∧
                     (∀ k', k = Some k' → ∀ a, option_of table (k', Some a))
  | Stop l _ => Forall (option_of table) l
  | _ => False
  end.
Proof.
  induction w as [|b w IH]; simpl; [done|].
  pose proof (short_option_in table b) as H.
  destruct (short_option table b) as [[k [|]| |]|]; try done.
  - destruct w.
    + split; [done|]. intros ? [= <-] a. exact (H _ _ eq_refl).
    + constructor; [|done]. exact (H _ _ eq_refl).
  - assert (option_of table (k, None)) by exact (H _ _ eq_refl).
    destruct (cluster table w); simpl; try done; [by constructor| |by constructor].
    destruct IH. split; [by constructor|done].
Qed.

Lemma read_word_in table w :
  match read_word table w with
  | Options l | Stop l _ => Forall (option_of table) l
  | Needs_arg l k => Forall (option_of table) l ∧
                     (∀ k', k = Some k' → ∀ a, option_of table (k', Some a))
  | _ => True
  end.
Proof.
  destruct w as [|b [|c long]]; unfold read_word; [done|by destruct (negb _)|].
  destruct (negb (b =? 45)); [done|]. destruct (negb (c =? 45)).
  - pose proof (cluster_in table (c :: long)) as H.
    by destruct (cluster table (c :: long)).
  - destruct long as [|d long]; [done|].
    destruct (split_eq (d :: long)) as [n v]. pose proof (one_option_in table n v) as H.
    destruct (one_option _ _); try done; [|by subst].
    destruct H as [-> H]. by split.
Qed.

Lemma getopt_in table argv : Forall (option_of table) (getopt table argv).1.
Proof.
  remember (length argv) as n eqn:En.
  revert argv En. induction (lt_wf n) as [n _ IH]; intros [|w argv] ->; [done|].
  cbn [getopt]. pose proof (read_word_in table w) as H.
  destruct (read_word table w) as [l|l k|l e| |].
  - apply Forall_app; split; [done|]. eapply IH; [|done]. simpl. lia.
  - destruct H as [Hl Hk], argv as [|a argv]; [done|].
    unfold prepend; cbn [fst]; rewrite !Forall_app. split; [split; [done|]|].
    + destruct k as [k|]; simpl; [|done]. constructor; [|done]. by apply Hk.
    + eapply IH; [|done]. simpl. lia.
  - done.
  - simpl. eapply IH; [|done]. simpl. lia.
  - done.
Qed.

(** Rule for argp_parse(): the invariant sees the options read so far; the
    callback is only given options of the table, and must know them all. *)
Lemma wp_argp_parse {G C O} (I : list found → O → st G C → Prop)
    (Q : outcome O → st G C → Prop) table parser argv o s :
  (∀ fs k a o s, option_of table (k, a) → (k, a) ∈ (getopt table argv).1 → I fs o s →
     wp (parser k a o)
        (λ out s', match out with
                   | Done (o', e) => e = 0 ∧ I (fs ++ [(k, a)]) o' s'
                   | _ => Q (abrupt out NoFuel) s'
                   end) s) →
  (∀ o s, I (getopt table argv).1 o s →
     match (getopt table argv).2 with
     | Parsed [] => Q (Done o) s
     | Help_given => Q (Exited 0) s
     | _ => Q (Exited EX_USAGE) s
     end) →
  I [] o s → wp (argp_parse (mk_argp table parser) argv o) Q s.
Proof.
  intros Hp Hend HI. unfold argp_parse. cbn [argp_options argp_parser]. pose proof (getopt_in table argv) as Hin.
  destruct (getopt table argv) as [opts e]. simpl in Hin, Hend. apply wp_bind.
  apply (wp_for_each (λ i o s, I (take i opts) o s) _ _ _ 0%nat).
  - intros j [k a] x t Hj HIj. cbn [Nat.add] in *. apply wp_bind.
    eapply wp_mono; [apply (Hp (take j opts)); [| |done]|].
    { eapply Forall_lookup_1; [exact Hin|exact Hj]. }
    { by eapply list_elem_of_lookup_2. }
    intros [[o' e']| | |] t'; cbn [abrupt]; auto.
    intros [-> HI']. cbn [snd fst]. apply wp_ret. by rewrite (take_S_r _ _ _ Hj).
  - intros x t HIx. cbn [Nat.add] in *. rewrite firstn_all in HIx.
    specialize (Hend x t HIx). by destruct e as [[|]| |].
  - done.
Qed.

(** A command line that writes options of the table in allowed ways, each one
    accepted by the callback, is read to the end. *)
Lemma argp_parse_spelled {G C O} (I : list found → O → st G C → Prop) (ok : found → Prop)
    table parser fss wss o s :
  (∀ fs k a o s, option_of table (k, a) → ok (k, a) → I fs o s →
     ∃ o' s', parser k a o s = (Done (o', 0), s') ∧ I (fs ++ [(k, a)]) o' s') →
  Forall2 (spells table) fss wss → Forall ok (concat fss) → I [] o s →
  ∃ o' s', argp_parse (mk_argp table parser) (concat wss) o s = (Done o', s') ∧
           I (concat fss) o' s'.
Proof.
  intros Hp Hsp Hok HI.
  assert (getopt table (concat wss) = (concat fss, Parsed [])) as Eg.
  { rewrite <- (app_nil_r (concat wss)), (getopt_all_spelled _ fss) by done.
    unfold prepend. simpl. by rewrite app_nil_r. }
  enough (wp (argp_parse (mk_argp table parser) (concat wss) o)
            (λ out s', ∃ o', out = Done o' ∧ I (concat fss) o' s') s) as H.
  { unfold wp in H. destruct (argp_parse _ _ o s) as [out s']. cbn [fst snd] in H.
    destruct H as (o' & -> & H).
    by exists o', s'. }
  apply (wp_argp_parse I); [|by rewrite Eg; intros o1 s1 H; exists o1|done].
  rewrite Eg. intros fs k a o1 s1 Hin Hk H1.
  destruct (Hp fs k a o1 s1 Hin (proj1 (Forall_forall _ _) Hok _ Hk) H1) as (o2 & s2 & E & H2).
  unfold wp. by rewrite E.
Qed.
