(* ===== verification/Tsq.v ===== *)
(** * TSQ: data, options and shared helpers (src/src/tsq.c)

    The payload exchanged by talkers and listener and its layout in memory,
    the command line options, the signal flag behind its mutex, the error
    exit, and the small table helpers of the listener. *)

From S2P Require Import Prelude Layout Sys Libc Argp.

Local Open Scope Z_scope.

(** ** Constants *)

Definition BUFFER_SIZE : nat := 256.
Definition CLIENT_COUNT : nat := 2.
#[global] Arguments BUFFER_SIZE : simpl never.
Definition DEFAULT_LISTENER_OUTFILE : list Z := bytes_of_string "tsq-listener-data.txt".
Definition MODE_LISTENER : Z := 1.
Definition MODE_TALKER : Z := 2.

(** ** The calls TSQ makes *)

Inductive call : Type :=
| Lock | Unlock                                   (* pthread_mutex_(un)lock *)
| Fopen (path : list Z) | Fflush (fp : Z) | Fclose (fp : Z)
| Fprintf (rounds secs_error nsecs_error : Z)     (* one line of the data file *)
| Socket | Bind (fd : Z) (ip port : list Z) | Listen (fd backlog : Z)
| Getsockname (fd : Z) | Accept (fd : Z) | Connect (fd : Z) (ip port : list Z)
| Read (fd : Z) (count : nat) | Write (fd : Z) (buf : list Z) | Close (fd : Z)
| Select (nfds : Z) (fds : list Z)
| Open (path : list Z) | Poll (fd timeout : Z).

(** The environment.  Every answer may depend on all the calls made so far.
    - [os_signals]: the signals whose handler ran before the mutex was taken;
    - [os_read]: [None] for a negative result, else the bytes the peer has
      for the caller, of which [read] delivers at most [count];
    - [os_select]: its result, [errno], and the descriptors left in the set;
    - [os_read_extts]: result of the read of one PTP event, and its time;
    - [os_extts_size]: [sizeof (struct ptp_extts_event)];
    - [uninit]: indeterminate contents of automatic variables. *)
Class tsq_os : Type := {
  os_signals : list call → list Z;
  os_fopen : list call → Z;
  os_socket : list call → Z;
  os_bind : list call → Z;
  os_getsockname : list call → Z;
  os_accept : list call → Z;
  os_connect : list call → Z;
  os_read : list call → option (list Z);
  os_write : list call → Z;
  os_select : list call → Z * Z * (Z → bool);
  os_open : list call → Z;
  os_poll : list call → Z;
  os_read_extts : list call → Z * (Z * Z);
  os_extts_size : Z;
  uninit : nat → Z
}.

(** ** Globals *)

Record tsq_glob : Type := mk_tsq_glob {
  halt_sig : Z;
  glob_fp : Z;         (* FILE pointer, 0 for NULL *)
  glob_sockfd : Z;
  glob_ptpfd : Z
}.

Definition set_halt_sig v g := mk_tsq_glob v (glob_fp g) (glob_sockfd g) (glob_ptpfd g).
Definition set_glob_fp v g := mk_tsq_glob (halt_sig g) v (glob_sockfd g) (glob_ptpfd g).
Definition set_glob_sockfd v g := mk_tsq_glob (halt_sig g) (glob_fp g) v (glob_ptpfd g).
Definition set_glob_ptpfd v g := mk_tsq_glob (halt_sig g) (glob_fp g) (glob_sockfd g) v.

Abbreviation T := (M tsq_glob call).

(** [error(msg, ...)]: close what the globals say is open, then exit(1). *)
Definition error {A} : T A :=
  g ← get;
  when (negb (glob_sockfd g =? 0)) (tell (Close (glob_sockfd g)));;
  when (negb (glob_fp g =? 0)) (tell (Fclose (glob_fp g)));;
  when (negb (glob_ptpfd g =? 0)) (tell (Close (glob_ptpfd g)));;
  exit_ 1.

(** [sigint_handler(signum)]: the write it makes to the shared variable. *)
Definition sigint_handler (signum : Z) (g : tsq_glob) : tsq_glob :=
  set_halt_sig signum g.

(** [get_signal()]: the handlers that ran before the lock was taken have
    written [halt_sig]; it is then read under the lock. *)
Definition get_signal `{!tsq_os} : T Z :=
  sigs ← ask Lock os_signals;
  modify (λ g, foldl (λ g s, sigint_handler s g) g sigs);;
  g ← get;
  tell Unlock;;
  mret (halt_sig g).

(** ** Payload *)

Record payload : Type := mk_payload { uid : Z; seq : Z; secs : Z; nsecs : Z }.

#[export] Instance payload_eq_dec : EqDecision payload.
Proof. solve_decision. Defined.

Definition zero_payload : payload := mk_payload 0 0 0 0.

Definition payload_members : members :=
  [("uid", c_int); ("seq", c_int); ("secs", c_long); ("nsecs", c_long)]%string.

(** 24 bytes, no padding. *)
Definition sizeof_payload : nat := 24.

Definition encode_payload (p : payload) : list Z :=
  le_encode 4 (uid p) ++ le_encode 4 (seq p) ++ le_encode 8 (secs p)
  ++ le_encode 8 (nsecs p).

Definition decode_payload (buf : list Z) : payload :=
  mk_payload (i32 (le_decode (read_at buf 0 4))) (i32 (le_decode (read_at buf 4 4)))
             (i64 (le_decode (read_at buf 8 8))) (i64 (le_decode (read_at buf 16 8))).

(** The buffer a talker sends: zeroed, then the payload copied to its front. *)
Definition send_buff (p : payload) : list Z :=
  write_at (replicate BUFFER_SIZE 0) 0 (encode_payload p).

(** The values the C types of the fields can hold. *)
Definition payload_ok (p : payload) : Prop :=
  INT_MIN <= uid p <= INT_MAX ∧ INT_MIN <= seq p <= INT_MAX ∧
  LONG_MIN <= secs p <= LONG_MAX ∧ LONG_MIN <= nsecs p <= LONG_MAX.

(** [validate_payload(pl, cli_ids, client_num)]. *)
Definition validate_payload (pl : payload) (cli_ids : list Z) (client_num : nat) : bool :=
  if negb (uid pl =? 0) && negb (secs pl =? 0) && negb (nsecs pl =? 0) then
    existsb (λ id, id =? uid pl) (take client_num cli_ids)
  else false.

(** [data_ready(flags, size)]. *)
Fixpoint data_ready (flags : list bool) (size : nat) : bool :=
  match size, flags with
  | O, _ => true
  | S _, [] => false
  | S size, b :: flags => if b then data_ready flags size else false
  end.

(** [reset_data_ready(flags, size)]. *)
Fixpoint reset_data_ready (flags : list bool) (size : nat) : list bool :=
  match size, flags with
  | O, _ => flags
  | S _, [] => []
  | S size, _ :: flags => false :: reset_data_ready flags size
  end.

(** ** Options *)

Record opt : Type := mk_opt {
  verbose : Z;
  mode : Z;
  server_ip : option (list Z);   (* not initialised by main *)
  port : Z;
  output_file : list Z;
  opt_uid : Z;
  device : list Z;
  timeout : Z
}.

(** The defaults main() stores before argp runs. *)
Definition default_opt : opt :=
  mk_opt 0 0 None 5678 DEFAULT_LISTENER_OUTFILE 1234 [] 1100.

Definition options : list argp_option := [
  (* Shared *)
  row "talker" "T" None;
  row "listener" "L" None;
  row "verbose" "v" None;
  row "ip" "i" (Some "ADDR"%string);
  row "port" "p" (Some "PORT"%string);
  (* Listener-specific *)
  row "output" "o" (Some "FILE"%string);
  (* Talker-specific *)
  row "device" "d" (Some "FILE"%string);
  row "uid" "u" (Some "COUNT"%string);
  row "timeout" "t" (Some "MSEC"%string)
].

(** The numeric tests of [parser]: the value must be at least [lo], at most
    [hi], and the whole argument must have been read. *)
Definition bad_number (r : strtol_result) (arg : list Z) (lo hi : Z) : bool :=
  negb (st_errno r =? 0) || (st_value r <=? 0) || (st_value r <? lo)
  || (st_value r >? hi) || negb (st_consumed r =? length arg)%nat.

(** [parser(key, arg, state)]: new options and the returned error.  A string
    option is copied as a pointer; the program has no use for a NULL there, so
    the copy is not modelled for one ([deref]). *)
Definition parser (key : Ascii.ascii) (arg : option word) (o : opt) : T (opt * Z) :=
  match key with
  | "v"%char => mret (mk_opt 1 (mode o) (server_ip o) (port o) (output_file o)
                        (opt_uid o) (device o) (timeout o), 0)
  | "T"%char => mret (mk_opt (verbose o) MODE_TALKER (server_ip o) (port o)
                        (output_file o) (opt_uid o) (device o) (timeout o), 0)
  | "L"%char => mret (mk_opt (verbose o) MODE_LISTENER (server_ip o) (port o)
                        (output_file o) (opt_uid o) (device o) (timeout o), 0)
  | "i"%char => mret (mk_opt (verbose o) (mode o) arg (port o)
                        (output_file o) (opt_uid o) (device o) (timeout o), 0)
  | "p"%char =>
      arg ← deref arg;
      let r := strtol arg in
      if bad_number r arg 999 9999 then error
      else mret (mk_opt (verbose o) (mode o) (server_ip o) (st_value r)
                   (output_file o) (opt_uid o) (device o) (timeout o), 0)
  | "o"%char =>
      arg ← deref arg;
      mret (mk_opt (verbose o) (mode o) (server_ip o) (port o) arg
              (opt_uid o) (device o) (timeout o), 0)
  | "u"%char =>
      arg ← deref arg;
      let r := strtol arg in
      if bad_number r arg 999 9999 then error
      else mret (mk_opt (verbose o) (mode o) (server_ip o) (port o)
                   (output_file o) (st_value r) (device o) (timeout o), 0)
  | "d"%char =>
      arg ← deref arg;
      mret (mk_opt (verbose o) (mode o) (server_ip o) (port o)
              (output_file o) (opt_uid o) arg (timeout o), 0)
  | "t"%char =>
      arg ← deref arg;
      let r := strtol arg in
      if bad_number r arg 1 2000 then error
      else mret (mk_opt (verbose o) (mode o) (server_ip o) (port o)
                   (output_file o) (opt_uid o) (device o) (st_value r), 0)
  | _ => mret (o, ARGP_ERR_UNKNOWN)
  end.

Definition argp : struct_argp tsq_glob call opt := mk_argp options parser.

(** Options the rest of the program may rely on. *)
Definition opt_ok (o : opt) : Prop :=
  999 <= port o <= 9999 ∧ 999 <= opt_uid o <= 9999 ∧ 1 <= timeout o <= 2000 ∧
  (mode o = 0 ∨ mode o = MODE_TALKER ∨ mode o = MODE_LISTENER).

(** Specification: the options of a command line give these settings, the last
    of a kind deciding. *)
Definition settings (fs : list found) : opt :=
  mk_opt
    (last_value (given "v" 1) 0 fs)
    (last_value (λ f, if bool_decide (f.1 = "T"%char) then Some MODE_TALKER
                      else if bool_decide (f.1 = "L"%char) then Some MODE_LISTENER
                      else None) 0 fs)
    (last_value (λ f, if bool_decide (f.1 = "i"%char) then Some f.2 else None) None fs)
    (last_value (number_of "p") 5678 fs)
    (last_value (text_of "o") DEFAULT_LISTENER_OUTFILE fs)
    (last_value (number_of "u") 1234 fs)
    (last_value (text_of "d") [] fs)
    (last_value (number_of "t") 1100 fs).

(** ** The signal flag and its mutex, step by step

    [get_signal] takes the mutex, reads halt_sig and gives the mutex back;
    [sigint_handler] takes the same mutex to set halt_sig.  main() installs the
    handler for three signals.  A signal interrupts whatever runs between any two
    of its steps, be it the thread or the handler of another signal, and its
    handler runs to its end before what it has interrupted goes on; only a signal
    whose own handler has not returned is held back. *)

Inductive pc : Type := Outside | Waiting | Holding | Accessed | Released.

Definition SIGINT : Z := 2.
Definition SIGABRT : Z := 6.
Definition SIGTERM : Z := 15.
Definition handled : list Z := [SIGINT; SIGTERM; SIGABRT].

Record sig_conf : Type := mk_sig_conf {
  mutex : bool;              (* is it taken? *)
  flag : Z;                  (* halt_sig *)
  reader : pc;               (* get_signal *)
  temp : Z;
  handlers : list (pc * Z)   (* the handlers that run, the innermost first *)
}.

(** A step of what runs: the innermost handler, or the thread. *)
Inductive thread_step : sig_conf → sig_conf → Prop :=
| reader_call m f t :
    thread_step (mk_sig_conf m f Outside t []) (mk_sig_conf m f Waiting t [])
| reader_lock f t :
    thread_step (mk_sig_conf false f Waiting t []) (mk_sig_conf true f Holding t [])
| reader_read m f t :
    thread_step (mk_sig_conf m f Holding t []) (mk_sig_conf m f Accessed f [])
| reader_unlock m f t :
    thread_step (mk_sig_conf m f Accessed t []) (mk_sig_conf false f Released t [])
| reader_return m f t :
    thread_step (mk_sig_conf m f Released t []) (mk_sig_conf m f Outside t [])
| handler_lock f r t n hs :
    thread_step (mk_sig_conf false f r t ((Waiting, n) :: hs))
                (mk_sig_conf true f r t ((Holding, n) :: hs))
| handler_write m f r t n hs :
    thread_step (mk_sig_conf m f r t ((Holding, n) :: hs))
                (mk_sig_conf m n r t ((Accessed, n) :: hs))
| handler_unlock m f r t n hs :
    thread_step (mk_sig_conf m f r t ((Accessed, n) :: hs))
                (mk_sig_conf false f r t ((Released, n) :: hs))
| handler_return m f r t n hs :
    thread_step (mk_sig_conf m f r t ((Released, n) :: hs)) (mk_sig_conf m f r t hs).

Inductive sig_step : sig_conf → sig_conf → Prop :=
| thread_runs c c' : thread_step c c' → sig_step c c'
| signal_arrives m f r t n hs :
    n ∈ handled → n ∉ hs.*2 →
    sig_step (mk_sig_conf m f r t hs) (mk_sig_conf m f r t ((Waiting, n) :: hs)).

Definition sig_init : sig_conf := mk_sig_conf false 0 Outside 0 [].

(** Between lock and unlock. *)
Definition owns (p : pc) : bool :=
  match p with Holding | Accessed => true | _ => false end.

Definition owners (ps : list pc) : nat := length (List.filter owns ps).

(** A handler waits for the mutex that the thread, or a handler, that it has
    interrupted holds. *)
Definition interrupted_owner (c : sig_conf) : Prop :=
  ∃ n hs, handlers c = (Waiting, n) :: hs ∧ (0 < owners (reader c :: hs.*1))%nat.

(** ** Lemmas: payload layout *)

(** The size and the offsets the model uses are those of the structure. *)
Theorem payload_layout :
  struct payload_members = mk_layout (Z.of_nat sizeof_payload) 8 ∧
  omap (λ n, offset_of n payload_members) ["uid"; "seq"; "secs"; "nsecs"]%string = [0; 4; 8; 16].
Proof. split; reflexivity. Qed.

Lemma length_encode_payload p : length (encode_payload p) = sizeof_payload.
Proof. unfold encode_payload. by autorewrite with tsn_len. Qed.

Lemma encode_payload_bytes p : Forall is_byte (encode_payload p).
Proof. unfold encode_payload. repeat apply Forall_app_2; auto with tsn. Qed.

Lemma decode_signed n w z :
  (0 < w)%Z → w = 8 * Z.of_nat n → - 2 ^ (w - 1) <= z < 2 ^ (w - 1) →
  wrapS w (le_decode (le_encode n z)) = z.
Proof.
  intros ? -> ?. rewrite le_decode_encode, wrapS_wrapU by done. by apply wrapS_small.
Qed.

(** What a talker encodes, the listener decodes, wherever the bytes are
    followed by padding. *)
Lemma decode_encode_payload p rest :
  payload_ok p → decode_payload (encode_payload p ++ rest) = p.
Proof.
  intros (? & ? & ? & ?). unfold decode_payload, encode_payload.
  unfold INT_MIN, INT_MAX, LONG_MIN, LONG_MAX in *. rewrite <- !app_assoc.
  rewrite read_at_head by apply length_le_encode.
  rewrite (read_at_skip _ _ 4 0 4) by apply length_le_encode.
  rewrite read_at_head by apply length_le_encode.
  rewrite (read_at_skip _ _ 4 4 8), (read_at_skip _ _ 4 0 8) by apply length_le_encode.
  rewrite read_at_head by apply length_le_encode.
  rewrite (read_at_skip _ _ 4 12 8), (read_at_skip _ _ 4 8 8), (read_at_skip _ _ 8 0 8)
    by apply length_le_encode.
  rewrite read_at_head by apply length_le_encode.
  rewrite !decode_signed by lia. by destruct p.
Qed.

Lemma send_buff_eq p :
  send_buff p = encode_payload p ++ replicate (BUFFER_SIZE - sizeof_payload) 0.
Proof.
  unfold send_buff, write_at. rewrite take_0, length_encode_payload. simpl.
  done.
Qed.

Lemma length_send_buff p : length (send_buff p) = BUFFER_SIZE.
Proof. rewrite send_buff_eq, length_app, length_encode_payload. done. Qed.

Lemma decode_in_range buf : payload_ok (decode_payload buf).
Proof.
  unfold payload_ok, decode_payload, INT_MIN, INT_MAX, LONG_MIN, LONG_MAX; simpl.
  repeat match goal with |- context [wrapS ?w ?z] =>
    pose proof (wrapS_range w z ltac:(lia)); generalize dependent (wrapS w z); intros end.
  lia.
Qed.

Lemma validate_payload_spec pl ids n :
  validate_payload pl ids n = true ↔
  uid pl ≠ 0 ∧ secs pl ≠ 0 ∧ nsecs pl ≠ 0 ∧ uid pl ∈ take n ids.
Proof.
  unfold validate_payload.
  destruct (uid pl =? 0) eqn:?, (secs pl =? 0) eqn:?, (nsecs pl =? 0) eqn:?;
    simpl; bool_to_prop; try (split; [done|intros (? & ? & ? & ?); congruence]).
  rewrite existsb_exists. setoid_rewrite Z.eqb_eq. setoid_rewrite <- list_elem_of_In.
  split; [intros (x & Hx & ->); auto|intros (_ & _ & _ & ?); eauto].
Qed.

Lemma data_ready_spec flags n :
  data_ready flags n = true ↔ ∀ i, (i < n)%nat → flags !! i = Some true.
Proof.
  revert n. induction flags as [|b flags IH]; intros [|n]; simpl.
  - split; [intros _ i ?; lia|done].
  - split; [done|]. intros H. specialize (H 0%nat ltac:(lia)). done.
  - split; [intros _ i ?; lia|done].
  - destruct b.
    + rewrite IH. split.
      * intros H [|i] Hi; [done|]. apply H. lia.
      * intros H i Hi. apply (H (S i)). lia.
    + split; [done|]. intros H. by specialize (H 0%nat ltac:(lia)).
Qed.

Lemma reset_data_ready_spec flags n i :
  reset_data_ready flags n !! i =
  if decide (i < n)%nat then (λ _, false) <$> flags !! i else flags !! i.
Proof.
  revert n i. induction flags as [|b flags IH]; intros [|n] i; simpl.
  - by destruct (decide (i < 0)%nat).
  - by destruct (decide (i < S n)%nat).
  - by destruct (decide (i < 0)%nat); [lia|].
  - destruct i as [|i]; simpl; [done|]. rewrite IH.
    destruct (decide (i < n)%nat), (decide (S i < S n)%nat); try lia; done.
Qed.

(** ** Lemmas: error and get_signal *)

(** What [error] closes, oldest first. *)
Definition error_calls (g : tsq_glob) : list call :=
  (if glob_sockfd g =? 0 then [] else [Close (glob_sockfd g)])
  ++ (if glob_fp g =? 0 then [] else [Fclose (glob_fp g)])
  ++ (if glob_ptpfd g =? 0 then [] else [Close (glob_ptpfd g)]).

Lemma error_run {A} s :
  @error A s = (Exited 1, mkSt (glob s) (rev (error_calls (glob s)) ++ trace s)).
Proof.
  unfold error, error_calls, when, mbind, M_bind, get, mret, M_ret.
  destruct s as [g tr]; simpl.
  by destruct (glob_sockfd g =? 0), (glob_fp g =? 0), (glob_ptpfd g =? 0).
Qed.

Lemma wp_error {A} (Q : outcome A → st tsq_glob call → Prop) s :
  Q (Exited 1) (mkSt (glob s) (rev (error_calls (glob s)) ++ trace s)) →
  wp error Q s.
Proof. unfold wp. by rewrite error_run. Qed.

(** The last signal delivered is the one that is seen. *)
Definition halt_after (h : Z) (sigs : list Z) : Z := List.last sigs h.

Lemma sigint_fold sigs g :
  foldl (λ g s, sigint_handler s g) g sigs
  = set_halt_sig (halt_after (halt_sig g) sigs) g.
Proof.
  unfold halt_after. revert g. induction sigs as [|x sigs IH]; intros g; simpl; [by destruct g|].
  rewrite IH. unfold sigint_handler, set_halt_sig; simpl.
  destruct sigs as [|y sigs]; simpl; [done|]. f_equal.
  clear. revert y. induction sigs as [|z sigs IH]; intros y; simpl; [done|]. by apply IH.
Qed.

Lemma wp_get_signal `{!tsq_os} Q s :
  (let h := halt_after (halt_sig (glob s)) (os_signals (Lock :: trace s)) in
   Q (Done h) (mkSt (set_halt_sig h (glob s)) (Unlock :: Lock :: trace s))) →
  wp get_signal Q s.
Proof.
  intros HQ. unfold wp, get_signal, mbind, M_bind, ask, modify, get, tell, mret, M_ret. simpl.
  by rewrite sigint_fold.
Qed.

(** ** Theorems: options *)

Lemma bad_number_false arg lo hi :
  1 <= lo → hi <= LONG_MAX →
  bad_number (strtol arg) arg lo hi = false ↔
  numeral arg (st_value (strtol arg)) ∧ lo <= st_value (strtol arg) <= hi.
Proof.
  intros Hlo Hhi. unfold bad_number.
  destruct (strtol_whole arg (st_value (strtol arg))) as [H1 H2].
  split.
  - intros H. bool_to_prop. apply Nat.eqb_eq in H0.
    destruct H1 as [[? ?]|[? ?]]; [done|lia|]. split; [done|lia].
  - intros [Hn Hr]. destruct H2 as (_ & -> & ->).
    { right. unfold LONG_MIN in *. split; [done|]. lia. }
    rewrite Nat.eqb_refl. simpl.
    rewrite !orb_false_iff. rewrite Z.gtb_ltb. lia.
Qed.

(** A numeral within the bounds passes the test and is read as its value. *)
Lemma good_number arg v lo hi :
  numeral arg v → 0 < lo <= v → v <= hi <= LONG_MAX →
  bad_number (strtol arg) arg lo hi = false ∧ st_value (strtol arg) = v.
Proof.
  intros Hn Hlo Hhi.
  destruct (proj2 (strtol_whole arg v)) as (Ev & Ee & Ec);
    [right; unfold LONG_MIN; split; [done|lia]|].
  split; [|done]. apply bad_number_false; [lia|lia|]. rewrite Ev. split; [done|lia].
Qed.

(** An option of the table: the parser knows it, and never reads through NULL. *)
Lemma parser_ok key arg o s :
  option_of options (key, arg) → opt_ok o →
  wp (parser key arg o)
     (λ out _, match out with
               | Done (o', e) => e = 0 ∧ opt_ok o'
               | Exited c => c = 1
               | _ => False
               end) s.
Proof.
  intros (r & Hr & Hk & Ht) (Hp & Hu & Hm & Hmode). cbn [fst snd] in *.
  repeat (apply elem_of_cons in Hr as [->|Hr]); [..|by apply elem_of_nil in Hr];
    cbn in Hk, Ht; injection Hk as <-; destruct arg as [arg|]; try done; unfold parser; cbn [deref];
    wp_steps; try (by apply wp_error);
    try match goal with H : bad_number _ _ _ _ = false |- _ =>
         apply bad_number_false in H; [|lia|unfold LONG_MAX; lia] end;
    repeat split; simpl; try lia; unfold MODE_TALKER, MODE_LISTENER; auto.
Qed.

(** What the parser makes of an option of the table, when it goes on. *)
Lemma parser_settings key arg fs s :
  option_of options (key, arg) →
  wp (parser key arg (settings fs))
     (λ out _, ∀ r, out = Done r → r.1 = settings (fs ++ [(key, arg)])) s.
Proof.
  intros (r & Hr & Hk & Ht). cbn [fst snd] in *.
  unfold settings. rewrite !last_value_snoc.
  repeat (apply elem_of_cons in Hr as [->|Hr]); [..|by apply elem_of_nil in Hr];
    cbn in Hk, Ht; injection Hk as <-; destruct arg as [arg|]; try done; unfold parser; cbn [deref];
    wp_steps; try (by apply wp_error); try (by intros ? [= <-]).
Qed.

(** What main() goes on with; parsing makes no calls. *)
Lemma parser_same_state key arg o s :
  wp (parser key arg o) (λ out s', match out with Done _ => s' = s | _ => True end) s.
Proof. unfold parser, deref, error. run_code; done. Qed.

Lemma settings_run argv s :
  wp (argp_parse argp argv default_opt)
     (λ out s', match out with Done o => opt_ok o ∧ s' = s | _ => True end) s.
Proof.
  apply (wp_argp_parse (λ _ o t, opt_ok o ∧ t = s)).
  - intros _ k a o t Hin _ [Ho ->].
    eapply wp_mono; [apply (wp_conj _ _ _ _ (parser_ok k a o s Hin Ho) (parser_same_state k a o s))|].
    intros [[o' e]|c| |] t'; simpl; tauto.
  - intros o t Ho. by destruct (getopt options argv) as [fs [[|]| |]].
  - split; [|done]. unfold opt_ok, default_opt; simpl. lia.
Qed.

(** Whatever the command line, TSQ either stops (with 1 from the parser
    on a number that is out of bounds, with 64 from argp on a word that is no
    option, with 0 on a request for help) or goes on with the settings that the
    last option of each kind gives, with a port and a UID in 999..9999, a
    timeout in 1..2000 ms and a mode it knows.  The parser knows every option of
    the table and never reads through a NULL argument. *)
Theorem argp_parse_bounds argv s :
  wp (argp_parse argp argv default_opt)
     (λ out _, match out with
               | Done o => opt_ok o ∧ (getopt options argv).2 = Parsed [] ∧
                           o = settings (getopt options argv).1
               | Exited c => c = 1 ∨ (c = 0 ∧ (getopt options argv).2 = Help_given) ∨
                             (c = EX_USAGE ∧ (getopt options argv).2 ≠ Parsed [])
               | _ => False
               end) s.
Proof.
  apply (wp_argp_parse (λ fs o _, o = settings fs ∧ opt_ok o)).
  - intros fs k a o t Hin _ [-> Ho]. pose proof (parser_ok k a _ t Hin Ho) as H.
    pose proof (parser_settings k a fs t Hin) as Hs. unfold wp in *.
    destruct (parser k a (settings fs) t) as [[[o' e]|c| |] t']; simpl in *; try done.
    + destruct H as [-> H]. split; [done|]. split; [by apply (Hs _ eq_refl)|done].
    + by left.
  - intros o t [-> Ho]. destruct (getopt options argv) as [fs [[|]| |]]; simpl; auto.
  - split; [done|]. unfold opt_ok, default_opt; simpl. lia.
Qed.

(** The options that the parser does not refuse: the numbers are decimal
    numerals within the documented bounds. *)
Definition acceptable (f : found) : Prop :=
  match f with
  | ("p"%char, Some a) | ("u"%char, Some a) => ∃ v, numeral a v ∧ 999 <= v <= 9999
  | ("t"%char, Some a) => ∃ v, numeral a v ∧ 1 <= v <= 2000
  | _ => True
  end.

Lemma parser_accepts key arg o s :
  option_of options (key, arg) → acceptable (key, arg) →
  ∃ o', parser key arg o s = (Done (o', 0), s).
Proof.
  intros (r & Hr & Hk & Ht) Ha. cbn [fst snd] in *.
  repeat (apply elem_of_cons in Hr as [->|Hr]); [..|by apply elem_of_nil in Hr];
    cbn in Hk, Ht; injection Hk as <-; destruct arg as [arg|]; try done; try (by eexists);
    destruct Ha as (v & Hn & Hv); unfold parser; cbn [deref]; unfold mbind, M_bind, mret, M_ret;
    [destruct (good_number arg v 999 9999) as [-> _]|
     destruct (good_number arg v 999 9999) as [-> _]|
     destruct (good_number arg v 1 2000) as [-> _]]; try done; try (by eexists);
    unfold LONG_MAX; lia.
Qed.

(** C15: a command line that writes options of the table, each in any of the ways
    that are allowed (short or long, abbreviated, clustered, the argument
    attached or in a word of its own), with numbers in their bounds, gives
    exactly the settings that those options denote, and no call is made. *)
Theorem command_line_roundtrip fss wss s :
  Forall2 (spells options) fss wss → Forall acceptable (concat fss) →
  argp_parse argp (concat wss) default_opt s = (Done (settings (concat fss)), s).
Proof.
  intros Hsp Hacc.
  destruct (argp_parse_spelled (λ fs o t, o = settings fs ∧ t = s) acceptable options parser
    fss wss default_opt s) as (o & t & E & -> & ->); [|done..|exact E].
  intros fs k a o t Hin Hok [-> ->].
  destruct (parser_accepts k a (settings fs) s Hin Hok) as [o' E]. exists o', s.
  split; [done|]. split; [|done]. pose proof (parser_settings k a fs s Hin) as Hs.
  unfold wp in Hs. rewrite E in Hs. by apply (Hs _ eq_refl).
Qed.

(** The port option is accepted exactly for a decimal numeral (white
    space and a sign allowed in front, nothing after) whose value lies in
    999..9999; then only the port changes and nothing is called.  Every
    other argument ends the program with exit code 1. *)
Theorem parser_port_accepts arg o s :
  (∀ v, numeral arg v → 999 <= v <= 9999 →
     parser "p"%char (Some arg) o s
     = (Done (mk_opt (verbose o) (mode o) (server_ip o) v (output_file o)
                (opt_uid o) (device o) (timeout o), 0), s)) ∧
  ((∀ v, numeral arg v → ~ 999 <= v <= 9999) →
     (parser "p"%char (Some arg) o s).1 = Exited 1).
Proof.
  change (parser "p"%char (Some arg) o s) with
    ((if bad_number (strtol arg) arg 999 9999 then error
      else mret (mk_opt (verbose o) (mode o) (server_ip o) (st_value (strtol arg))
                   (output_file o) (opt_uid o) (device o) (timeout o), 0)) s).
  split.
  - intros v Hn Hv. destruct (good_number arg v 999 9999) as [-> ->]; [done|lia|unfold LONG_MAX; lia|].
    done.
  - intros Hno. destruct (bad_number (strtol arg) arg 999 9999) eqn:Hb.
    + by rewrite error_run.
    + apply bad_number_false in Hb; [|lia|unfold LONG_MAX; lia].
      destruct Hb as [Hn Hr]. exfalso. by apply (Hno _ Hn).
Qed.

(** ** Theorems: the signal flag *)

Lemma owners_cons p ps : owners (p :: ps) = (Nat.b2n (owns p) + owners ps)%nat.
Proof. unfold owners. simpl. by destruct (owns p). Qed.

(** The mutex is taken exactly when one of the thread and the handlers is
    between lock and unlock, and there is one at most. *)
Definition sig_inv (c : sig_conf) : Prop :=
  owners (reader c :: (handlers c).*1) = Nat.b2n (mutex c) ∧ Outside ∉ (handlers c).*1.

Lemma sig_inv_step c c' : sig_step c c' → sig_inv c → sig_inv c'.
Proof.
  unfold sig_inv. intros [? ? []|m f r t n hs _ _]; cbn [reader handlers mutex fst fmap list_fmap];
    rewrite ?owners_cons, ?not_elem_of_cons; cbn [owns Nat.b2n]; intros [Hown Hout];
    (split; [try destruct m; simpl in *; lia|naive_solver]).
Qed.

Lemma sig_inv_reachable c : rtc sig_step sig_init c → sig_inv c.
Proof.
  assert (sig_inv sig_init) as Hi by (split; [done|apply not_elem_of_nil]). revert Hi.
  generalize sig_init. induction 2; eauto using sig_inv_step.
Qed.

(** What runs then has to wait. *)
Lemma interrupted_owner_blocks c c' : sig_inv c → interrupted_owner c → ¬ thread_step c c'.
Proof.
  intros [Hi _] (n & hs & E & Ho) Hs. destruct Hs; simplify_eq/=.
  rewrite !owners_cons in *. simpl in *. lia.
Qed.

(** Once the owner of the mutex is interrupted, no handler ends, and nobody sets
    or reads halt_sig any more. *)
Lemma interrupted_owner_stays c c' :
  rtc sig_step c c' → sig_inv c → interrupted_owner c →
  sig_inv c' ∧ interrupted_owner c' ∧ flag c' = flag c ∧ temp c' = temp c.
Proof.
  induction 1 as [c|c c1 c' Hs _ IH]; [done|]. intros Hi Ho.
  pose proof (sig_inv_step _ _ Hs Hi) as Hi1.
  assert (interrupted_owner c1 ∧ flag c1 = flag c ∧ temp c1 = temp c) as (Ho1 & <- & <-); [|by apply IH].
  destruct Hs as [c c1 Ht|m f r t n' hs' _ _]; [by destruct (interrupted_owner_blocks c c1 Hi Ho)|].
  destruct Ho as (n & hs & E & Ho). split; [|done]. exists n', hs'. split; [done|]. simplify_eq/=.
  rewrite !owners_cons in *. simpl in *. lia.
Qed.

(** C32: on every interleaving of get_signal with the handlers of SIGINT, SIGTERM
    and SIGABRT, which may interrupt one another, at most one of them is between
    lock and unlock at a time; and the program cannot run on exactly when a
    handler waits for the mutex that what it has interrupted holds, be it
    get_signal or the handler of another signal.  From then on it never runs
    again: whatever signals follow, halt_sig is neither set nor read. *)
Theorem get_signal_stuck_iff c :
  rtc sig_step sig_init c →
  (owners (reader c :: (handlers c).*1) <= 1)%nat ∧
  ((∀ c', ¬ thread_step c c') ↔ interrupted_owner c) ∧
  (interrupted_owner c → ∀ c', rtc sig_step c c' →
     flag c' = flag c ∧ temp c' = temp c ∧ ∀ c'', ¬ thread_step c' c'').
Proof.
  intros Hr. apply sig_inv_reachable in Hr as Hi.
  split; [destruct Hi as [-> _]; destruct (mutex c); simpl; lia|]. split; [split|].
  - intros Hno. destruct Hi as [Hi Hout]. destruct c as [m f r t [|[p n] hs]]; simpl in *.
    + exfalso. destruct r; try (by eapply Hno; constructor).
      destruct m; [done|]. by eapply Hno; constructor.
    + rewrite not_elem_of_cons in Hout. destruct p; try (exfalso; by eapply Hno; constructor); [tauto|].
      destruct m; [|exfalso; by eapply Hno; constructor]. exists n, hs. split; [done|].
      rewrite !owners_cons in *. simpl in *. unfold fmap. lia.
  - intros Ho c'. by apply interrupted_owner_blocks.
  - intros Ho c' Hc. destruct (interrupted_owner_stays c c' Hc Hi Ho) as (Hi' & Ho' & -> & ->).
    do 2 (split; [done|]). intros c''. by apply interrupted_owner_blocks.
Qed.

(** Such a configuration is reachable: a signal that arrives while get_signal
    reads halt_sig stops the program for good, with the flag unset. *)
Theorem get_signal_can_deadlock signum :
  signum ∈ handled →
  ∃ c, rtc sig_step sig_init c ∧ flag c = 0 ∧ interrupted_owner c.
Proof.
  intros Hs. exists (mk_sig_conf true 0 Holding 0 [(Waiting, signum)]). split; [|split; [done|]].
  - eapply rtc_l; [apply thread_runs, reader_call|]. eapply rtc_l; [apply thread_runs, reader_lock|].
    apply rtc_once. apply signal_arrives; [done|apply not_elem_of_nil].
  - exists signum, []. split; [done|]. by apply Nat.ltb_lt.
Qed.

(** So does a second signal that interrupts the handler of the first. *)
Theorem two_signals_can_deadlock n n' :
  n ∈ handled → n' ∈ handled → n ≠ n' →
  ∃ c, rtc sig_step sig_init c ∧ reader c = Outside ∧ interrupted_owner c.
Proof.
  intros Hn Hn' Hne. exists (mk_sig_conf true 0 Outside 0 [(Waiting, n'); (Holding, n)]).
  split; [|split; [done|]].
  - eapply rtc_l; [apply (signal_arrives _ _ _ _ n); [done|apply not_elem_of_nil]|].
    eapply rtc_l; [apply thread_runs, handler_lock|].
    apply rtc_once, signal_arrives; [done|]. by intros ->%list_elem_of_singleton.
  - exists n', [(Holding, n)]. split; [done|]. by apply Nat.ltb_lt.
Qed.

Lemma get_signal_stuck_iff_witness :
  let c := mk_sig_conf true 0 Outside 0 [(Waiting, SIGTERM); (Holding, SIGINT)] in
  rtc sig_step sig_init c ∧ ∀ c', ¬ thread_step c c'.
Proof.
  assert (rtc sig_step sig_init
    (mk_sig_conf true 0 Outside 0 [(Waiting, SIGTERM); (Holding, SIGINT)])) as Hr.
  { eapply rtc_l; [apply (signal_arrives _ _ _ _ SIGINT); [by apply list_elem_of_here|apply not_elem_of_nil]|].
    eapply rtc_l; [apply thread_runs, handler_lock|].
    apply rtc_once, signal_arrives; [by apply list_elem_of_further, list_elem_of_here|].
    by intros ?%list_elem_of_singleton. }
  split; [exact Hr|]. apply (proj2 (proj1 (proj2 (get_signal_stuck_iff _ Hr)))).
  exists SIGTERM, [(Holding, SIGINT)]. split; [done|]. by apply Nat.ltb_lt.
Defined.

(** tsq -Ti 192.1.2.3 --port=5678 --dev /dev/ptp1 -u4321 *)
Lemma command_line_roundtrip_witness :
  argp_parse argp
    (concat [[bytes_of_string "-Ti"; bytes_of_string "192.1.2.3"];
             [bytes_of_string "--port=5678"]; [bytes_of_string "--dev"; bytes_of_string "/dev/ptp1"];
             [bytes_of_string "-u4321"]]) default_opt (mkSt (mk_tsq_glob 0 0 0 (-1)) [])
  = (Done (mk_opt 0 MODE_TALKER (Some (bytes_of_string "192.1.2.3")) 5678
             DEFAULT_LISTENER_OUTFILE 4321 (bytes_of_string "/dev/ptp1") 1100),
     mkSt (mk_tsq_glob 0 0 0 (-1)) []).
Proof.
  apply (command_line_roundtrip
    [flags ["T"%char] ++ [("i"%char, Some (bytes_of_string "192.1.2.3"))];
     [("p"%char, Some (bytes_of_string "5678"))];
     [("d"%char, Some (bytes_of_string "/dev/ptp1"))];
     flags [] ++ [("u"%char, Some (bytes_of_string "4321"))]]).
  - repeat apply Forall2_cons_2; [..|apply Forall2_nil_2].
    + apply (spells_separate options ["T"%char] "i"%char); [|by repeat constructor|done].
      by intros b w [= <- _].
    + apply (spells_long_eq options (bytes_of_string "port")); [done|by repeat constructor|done].
    + apply (spells_long options (bytes_of_string "dev")); [done|by repeat constructor|done].
    + apply (spells_attached options [] "u"%char); [|done..]. by intros b w [= <- _].
  - cbn -[bytes_of_string]. repeat apply Forall_cons_2; try done; try exact I.
    + exists 5678. split; [by apply (numeral_digits (bytes_of_string "5678"))|done].
    + exists 4321. split; [by apply (numeral_digits (bytes_of_string "4321"))|done].
Defined.
