(* ===== verification/TsqListener.v ===== *)
(** * TSQ listener (listener() of src/src/tsq.c)

    Accepts two talkers, tells them to start, then repeatedly waits with
    select(), reads a payload from each readable talker, and compares the two
    timestamps once both are available.  The pure part of one slot and of one
    comparison are definitions of their own, so that the effectful loop and
    the reference semantics of the alignment share them. *)

From S2P Require Import Prelude Sys Libc Tsq.

Local Open Scope Z_scope.

Definition EINTR : Z := 4.

(** ** State of the listening loop *)

Record lstate : Type := mk_lstate {
  cli_ids : list Z;
  cli_conns : list Z;
  cli_data : list payload;
  pl_valid_flag : list bool;
  skip_slot : bool;
  keep_data_slot : Z;
  keep_data : payload;
  rounds : Z
}.

(** The state when the listening loop starts: the tables are cleared. *)
Definition listener_start (ids conns : list Z) : lstate :=
  mk_lstate ids conns (replicate CLIENT_COUNT zero_payload)
            (replicate CLIENT_COUNT false) false 0 zero_payload 0.

(** cli_data[i] = p; pl_valid_flag[i] = true. *)
Definition store_slot (i : nat) (p : payload) (l : lstate) : lstate :=
  mk_lstate (cli_ids l) (cli_conns l) (<[i:=p]> (cli_data l))
            (<[i:=true]> (pl_valid_flag l)) (skip_slot l) (keep_data_slot l)
            (keep_data l) (rounds l).

(** What the loop over the slots does with the [data] that read() delivered
    for slot [i]: a kept slot gets the kept payload whatever was read, any
    other slot the payload at the front of the buffer when it is valid. *)
Definition slot_update (i : nat) (data : list Z) (l : lstate) : lstate :=
  let recv_buff := write_at (replicate BUFFER_SIZE 0) 0 data in
  if skip_slot l && (keep_data_slot l =? Z.of_nat i) then
    store_slot i (keep_data l) l
  else if (0 <? length data)%nat then
    let temp_data := decode_payload recv_buff in
    if validate_payload temp_data (cli_ids l) CLIENT_COUNT
    then store_slot i temp_data l
    else l
  else l.

Definition slot_data (l : lstate) (i : nat) : payload :=
  nth i (cli_data l) zero_payload.

(** The comparison of the two timestamps: the new state and the line that
    goes to the data file, if any. *)
Definition compare_update (l : lstate) : lstate * option (Z * Z * Z) :=
  let t0 := slot_data l 0 in
  let t1 := slot_data l 1 in
  let secs_error := i64 (secs t0 - secs t1) in
  let nsecs_error := i64 (nsecs t0 - nsecs t1) in
  let done_ skip slot keep r :=
    mk_lstate (cli_ids l) (cli_conns l) (replicate CLIENT_COUNT zero_payload)
              (reset_data_ready (pl_valid_flag l) CLIENT_COUNT) skip slot keep r in
  if secs_error =? 1 then (done_ true 0 t0 (rounds l), None)
  else if secs_error =? -1 then (done_ true 1 t1 (rounds l), None)
  else if secs_error =? 0 then
    (done_ false (keep_data_slot l) zero_payload (i32 (rounds l + 1)),
     Some (rounds l, secs_error, nsecs_error))
  else (done_ false (keep_data_slot l) zero_payload (rounds l), None).

Definition compare_slots (l : lstate) : lstate * option (Z * Z * Z) :=
  if data_ready (pl_valid_flag l) CLIENT_COUNT then compare_update l else (l, None).

Section listener.
Context {OS : tsq_os}.

(** One slot of the loop over the clients. *)
Definition listener_slot (isset : Z → bool) (i : nat) (l : lstate) : T lstate :=
  let connfd := nth i (cli_conns l) 0 in
  if isset connfd then
    halt ← get_signal;
    if negb (halt =? 0) then error else
    r ← ask (Read connfd (BUFFER_SIZE - 1)) os_read;
    match r with
    | None => error
    | Some data => mret (slot_update i (take (BUFFER_SIZE - 1) data) l)
    end
  else mret l.

(** The descriptors select() waits for, and its first argument. *)
Definition max_sd (conns : list Z) : Z :=
  foldl (λ m fd, if m <? fd then fd else m) 0 (take CLIENT_COUNT conns).

(** One round of [while (get_signal() == 0) {...}]. *)
Definition listener_round (l : lstate) : T (lstate + lstate) :=
  halt ← get_signal;
  if negb (halt =? 0) then mret (inr l) else
  g ← get;
  tell (Fflush (glob_fp g));;
  let fds := take CLIENT_COUNT (cli_conns l) in
  a ← ask (Select (max_sd (cli_conns l) + 1) fds) os_select;
  let '(activity, errno, ready) := a in
  if (activity <? 0) && negb (errno =? EINTR) then error else
  (* on an error the sets are left as they were *)
  let isset fd := bool_decide (fd ∈ fds) && ((activity <? 0) || ready fd) in
  l ← for_each (List.seq 0 CLIENT_COUNT) (listener_slot isset) l;
  let '(l', line) := compare_slots l in
  match line with
  | Some (r, s, n) => tell (Fprintf r s n)
  | None => mret tt
  end;;
  mret (inl l').

Definition listener_loop (fuel : nat) (l : lstate) : T lstate :=
  loop fuel listener_round l.

(** State of the accept loop: connections so far, their ids and sockets. *)
Definition accept_round (x : nat * (list Z * list Z))
  : T (nat * (list Z * list Z) + list Z * list Z) :=
  let '(i, (ids, conns)) := x in
  if (CLIENT_COUNT <=? i)%nat then mret (inr (ids, conns)) else
  halt ← get_signal;
  if negb (halt =? 0) then mret (inr (ids, conns)) else
  g ← get;
  connfd ← ask (Accept (glob_sockfd g)) os_accept;
  if connfd <? 0 then mret (inl (i, (ids, conns))) else
  r ← ask (Read connfd (BUFFER_SIZE - 1)) os_read;
  match r with
  | None => tell (Close connfd);; error
  | Some data =>
      let recv_buff :=
        write_at (replicate BUFFER_SIZE 0) 0 (take (BUFFER_SIZE - 1) data) in
      mret (inl (S i, (<[i := atoi (cstr recv_buff)]> ids, <[i := connfd]> conns)))
  end.

(** The buffer that carries the start command: all of it is written. *)
Definition start_buff : list Z :=
  write_at (replicate BUFFER_SIZE 0) 0 (bytes_of_string "start" ++ [10]).

Definition send_start (conns : list Z) : T unit :=
  for_each (List.seq 0 CLIENT_COUNT) (λ i _,
    n ← ask (Write (nth i conns 0) start_buff) os_write;
    if n <? 0 then error else mret tt) tt.

(** htons(port), or 0 for port 0. *)
Definition sin_port (p : Z) : list Z := if p =? 0 then [0; 0] else be16 (u16 p).

(** From the first accept() to the end of listener(). *)
Definition listener_serve (fuel : nat) : T unit :=
  c ← loop fuel accept_round
        (0%nat, (map (λ i, uninit i) (List.seq 0 CLIENT_COUNT), replicate CLIENT_COUNT 0));
  let '(ids, conns) := c in
  send_start conns;;
  _ ← listener_loop fuel (listener_start ids conns);
  g ← get;
  tell (Close (glob_sockfd g));;
  tell (Fclose (glob_fp g)).

Definition listener (fuel : nat) (o : opt) : T unit :=
  fp ← ask (Fopen (output_file o)) os_fopen;
  modify (set_glob_fp fp);;
  if fp =? 0 then error else
  sockfd ← ask Socket os_socket;
  modify (set_glob_sockfd sockfd);;
  if sockfd <? 0 then error else
  match server_ip o with
  | None => undefined                  (* inet_addr of a wild pointer *)
  | Some ip =>
      b ← ask (Bind sockfd ip (sin_port (port o))) os_bind;
      if b <? 0 then error else
      tell (Listen sockfd 2);;
      n ← ask (Getsockname sockfd) os_getsockname;
      if n =? -1 then error else
      listener_serve fuel
  end.
End listener.

(** ** Reference semantics of the alignment

    What the comment in listener() describes, on one pair of samples. *)

Inductive verdict : Type :=
| HoldFirst           (* sample 0 is one second newer: keep it *)
| HoldSecond          (* sample 1 is one second newer: keep it *)
| Aligned (delta : Z) (* same second: the difference in nanoseconds *)
| Misaligned.

Definition align (t0 t1 : payload) : verdict :=
  if decide (secs t0 - secs t1 = 1) then HoldFirst
  else if decide (secs t0 - secs t1 = -1) then HoldSecond
  else if decide (secs t0 - secs t1 = 0) then Aligned (nsecs t0 - nsecs t1)
  else Misaligned.

(** The lines of the data file in the order they were written. *)
Definition data_lines (tr : list call) : list (Z * Z * Z) :=
  omap (λ c, match c with Fprintf r s n => Some (r, s, n) | _ => None end) (rev tr).

(** One round in which both talkers deliver [d0] and [d1]. *)
Definition both_round (d0 d1 : list Z) (l : lstate) : lstate * option (Z * Z * Z) :=
  compare_slots (slot_update 1 d1 (slot_update 0 d0 l)).

(** A message is 256 bytes long and a read takes at most 255: a listener that
    keeps up sees every message in two rounds, the second of which delivers the
    last byte of the padding only. *)
Definition message_head (p : payload) : list Z := take (BUFFER_SIZE - 1) (send_buff p).
Definition message_tail (p : payload) : list Z := drop (BUFFER_SIZE - 1) (send_buff p).

Fixpoint both_rounds (ps : list (payload * payload)) (l : lstate)
  : lstate * list (Z * Z * Z) :=
  match ps with
  | [] => (l, [])
  | (p0, p1) :: ps =>
      let '(l1, line1) := both_round (message_head p0) (message_head p1) l in
      let '(l2, line2) := both_round (message_tail p0) (message_tail p1) l1 in
      let '(l3, lines) := both_rounds ps l2 in
      (l3, option_list line1 ++ option_list line2 ++ lines)
  end.

(** A sample the listener may compare: its fields are in range and it passed
    the validation against the ids of the connected talkers. *)
Definition valid_sample (ids : list Z) (p : payload) : Prop :=
  payload_ok p ∧ validate_payload p ids CLIENT_COUNT = true.

(** Invariant of the loop state. *)
Record linv (ids : list Z) (l : lstate) : Prop := {
  linv_ids : cli_ids l = ids;
  linv_data : length (cli_data l) = CLIENT_COUNT;
  linv_flags : length (pl_valid_flag l) = CLIENT_COUNT;
  linv_valid : ∀ i, pl_valid_flag l !! i = Some true → valid_sample ids (slot_data l i);
  linv_keep : skip_slot l = true → valid_sample ids (keep_data l)
}.

(** ** Lemmas: slots *)

Lemma slot_data_store i p l j :
  (i < length (cli_data l))%nat →
  slot_data (store_slot i p l) j = if decide (i = j) then p else slot_data l j.
Proof.
  intros Hi. unfold slot_data, store_slot; simpl. rewrite !nth_lookup.
  destruct (decide (i = j)) as [->|].
  - by rewrite list_lookup_insert_eq.
  - by rewrite list_lookup_insert_ne.
Qed.

Lemma store_slot_linv ids i p l :
  (i < CLIENT_COUNT)%nat → linv ids l → valid_sample ids p → linv ids (store_slot i p l).
Proof.
  intros Hi [Hids Hd Hf Hv Hk] Hp. split; simpl; rewrite ?length_insert; auto.
  intros j Hj. rewrite slot_data_store by lia. destruct (decide (i = j)) as [->|]; [done|].
  apply Hv. by rewrite list_lookup_insert_ne in Hj.
Qed.

Lemma slot_update_linv ids i data l :
  (i < CLIENT_COUNT)%nat → linv ids l → linv ids (slot_update i data l).
Proof.
  intros Hi Hl. unfold slot_update. destruct Hl as [Hids Hd Hf Hv Hk] eqn:E.
  destruct (skip_slot l && (keep_data_slot l =? Z.of_nat i)) eqn:Hs.
  - bool_to_prop. apply store_slot_linv; auto.
  - case_match; [|done]. case_match; [|done].
    apply store_slot_linv; [done|done|]. rewrite <- Hids.
    split; [apply decode_in_range|done].
Qed.

Lemma slot_update_rounds i data l : rounds (slot_update i data l) = rounds l.
Proof. unfold slot_update. by repeat case_match. Qed.

Lemma slot_update_frame i data l :
  cli_ids (slot_update i data l) = cli_ids l ∧
  cli_conns (slot_update i data l) = cli_conns l.
Proof. unfold slot_update. by repeat case_match. Qed.

(** ** Lemmas: comparison *)

Lemma compare_slots_linv ids l : linv ids l → linv ids (compare_slots l).1.
Proof.
  intros [Hids Hd Hf Hv Hk]. unfold compare_slots.
  destruct (data_ready _ _) eqn:Hr; [|done].
  assert (∀ i, (i < 2)%nat → valid_sample ids (slot_data l i)) as Hs.
  { intros i Hi. apply Hv. by apply (proj1 (data_ready_spec _ _) Hr). }
  assert (∀ i, reset_data_ready (pl_valid_flag l) CLIENT_COUNT !! i ≠ Some true) as Hfl.
  { intros i. rewrite reset_data_ready_spec. destruct (decide (i < CLIENT_COUNT)%nat).
    - by destruct (pl_valid_flag l !! i).
    - rewrite lookup_ge_None_2 by lia. done. }
  assert (length (reset_data_ready (pl_valid_flag l) CLIENT_COUNT) = CLIENT_COUNT) as Hlen.
  { destruct (pl_valid_flag l) as [|? [|? []]]; done. }
  unfold compare_update. repeat case_match; simpl; split; simpl; try done.
  all: try (intros i Hi; by destruct (Hfl i)).
  all: intros _; apply Hs; lia.
Qed.

Lemma compare_slots_line ids l l' r x n :
  linv ids l → compare_slots l = (l', Some (r, x, n)) →
  r = rounds l ∧ rounds l' = i32 (rounds l + 1) ∧ x = 0 ∧
  let p0 := slot_data l 0 in let p1 := slot_data l 1 in
  valid_sample ids p0 ∧ valid_sample ids p1 ∧ secs p0 = secs p1 ∧
  n = i64 (nsecs p0 - nsecs p1).
Proof.
  intros [Hids Hd Hf Hv Hk]. unfold compare_slots.
  destruct (data_ready _ _) eqn:Hr; [|done].
  unfold compare_update. repeat case_match; try done. intros [=]; subst; simpl.
  bool_to_prop. split; [done|]. split; [done|]. split; [done|].
  assert (∀ i, (i < 2)%nat → valid_sample (cli_ids l) (slot_data l i)) as Hs.
  { intros i Hi. apply Hv. by apply (proj1 (data_ready_spec _ _) Hr). }
  split; [apply Hs; lia|]. split; [apply Hs; lia|]. split; [|done].
  destruct (Hs 0%nat ltac:(lia)) as [(_ & _ & Hb0 & _) _].
  destruct (Hs 1%nat ltac:(lia)) as [(_ & _ & Hb1 & _) _].
  unfold LONG_MIN, LONG_MAX in *.
  match goal with H : i64 _ = 0 |- _ => unfold wrapS in H end.
  pose proof (Z.div_mod (secs (slot_data l 0) - secs (slot_data l 1) + 2 ^ (64 - 1)) (2 ^ 64)).
  lia.
Qed.

Lemma compare_slots_no_line l l' :
  compare_slots l = (l', None) → rounds l' = rounds l.
Proof.
  unfold compare_slots, compare_update. repeat case_match; intros; simplify_eq; done.
Qed.

(** ** Lemmas: the data file *)

Lemma data_lines_cons c tr :
  data_lines (c :: tr) = data_lines tr ++ data_lines [c].
Proof. unfold data_lines. simpl. by rewrite omap_app. Qed.

Lemma data_lines_error g tr : data_lines (rev (error_calls g) ++ tr) = data_lines tr.
Proof.
  unfold error_calls, data_lines. rewrite rev_app_distr, rev_involutive, omap_app.
  rewrite <- (app_nil_r (omap _ (rev tr))) at 2. f_equal.
  by destruct (glob_sockfd g =? 0), (glob_fp g =? 0), (glob_ptpfd g =? 0).
Qed.

(** ** Lemmas: running the listener *)

Lemma data_lines_cons_none c tr :
  data_lines [c] = [] → data_lines (c :: tr) = data_lines tr.
Proof. intros E. by rewrite data_lines_cons, E, app_nil_r. Qed.

(** The trace grew and the data file did not change. *)
Definition quiet (t t' : list call) : Prop :=
  data_lines t' = data_lines t ∧ (length t ≤ length t')%nat.

Lemma quiet_refl t : quiet t t.
Proof. done. Qed.

Lemma quiet_cons c t t' : data_lines [c] = [] → quiet t t' → quiet t (c :: t').
Proof. intros Hc [Hq Hl]. split; simpl; [by rewrite data_lines_cons_none|lia]. Qed.

Lemma quiet_error g t t' : quiet t t' → quiet t (rev (error_calls g) ++ t').
Proof.
  intros [Hq Hl]. split; simpl; [by rewrite data_lines_error|rewrite length_app; lia].
Qed.

Lemma quiet_trans t1 t2 t3 : quiet t1 t2 → quiet t2 t3 → quiet t1 t3.
Proof. intros [H1 L1] [H2 L2]. split; [congruence|lia]. Qed.

#[local] Hint Resolve quiet_refl quiet_error : tsn.
#[local] Hint Extern 2 (quiet _ (_ :: _)) => (apply quiet_cons; [reflexivity|]) : tsn.

Section listener_proofs.
Context {OS : tsq_os}.

Lemma get_signal_quiet s :
  wp get_signal (λ o s', ∃ h, o = Done h ∧ quiet (trace s) (trace s') ∧ glob s' = set_halt_sig h (glob s)) s.
Proof.
  apply wp_get_signal. cbv zeta. eexists. split; [done|]. split; [|done].
  simpl. auto with tsn.
Qed.

Lemma listener_slot_wp ids isset i l s :
  (i < CLIENT_COUNT)%nat → linv ids l →
  wp (listener_slot isset i l)
     (λ o s', quiet (trace s) (trace s') ∧
        match o with
        | Done l' => linv ids l' ∧ rounds l' = rounds l
        | Exited c => c = 1
        | _ => False
        end) s.
Proof.
  intros Hi Hl. unfold listener_slot. cbv zeta.
  destruct (isset _); [|apply wp_ret; auto with tsn].
  apply wp_bind. eapply wp_mono; [apply get_signal_quiet|].
  intros o s1 (h & -> & Hq & _). destruct (negb (h =? 0)).
  - apply wp_error. simpl. auto with tsn.
  - wp_steps; [|apply wp_error; simpl; auto 6 with tsn].
    split; [simpl; auto with tsn|]. split; [by apply slot_update_linv|].
    apply slot_update_rounds.
Qed.

Lemma slots_wp ids isset l s :
  linv ids l →
  wp (for_each (List.seq 0 CLIENT_COUNT) (listener_slot isset) l)
     (λ o s', quiet (trace s) (trace s') ∧
        match o with
        | Done l' => linv ids l' ∧ rounds l' = rounds l
        | Exited c => c = 1
        | _ => False
        end) s.
Proof.
  intros Hl.
  apply (wp_for_each (λ _ l' s', quiet (trace s) (trace s') ∧ linv ids l' ∧ rounds l' = rounds l)
           _ _ _ 0%nat); [|done|done].
  intros j a l' s' Hj (Hq & Hl' & Hr). apply lookup_seq in Hj as [-> Hj].
  eapply wp_mono; [by apply listener_slot_wp|].
  intros [l''| | |] s'' [Hq' H']; simpl.
  - destruct H' as [? ?]. split; [by eapply quiet_trans|]. split; [done|congruence].
  - split; [by eapply quiet_trans|done].
  - done.
  - done.
Qed.

End listener_proofs.

Lemma linv_start ids conns : linv ids (listener_start ids conns).
Proof.
  split; try done. intros i Hi. simpl in Hi. by destruct i as [|[|i]].
Qed.

(** ** Lemmas: after a signal *)

Section halted.
Context {OS : tsq_os}.

(** The numbers of signals are positive. *)
Definition signals_count : Prop := ∀ tr, Forall (λ x, x ≠ 0) (os_signals tr).

Lemma halt_after_nonzero h tr : signals_count → h ≠ 0 → halt_after h (os_signals tr) ≠ 0.
Proof.
  intros Hsig Hh. pose proof (Hsig tr) as Hs. unfold halt_after. revert Hh Hs.
  generalize (os_signals tr). intros sigs Hh Hs. induction sigs as [|x sigs _] using rev_ind; [done|].
  rewrite last_last. by apply Forall_app in Hs as [_ Hx%Forall_inv].
Qed.

(** The loop ends before its first round. *)
Lemma halted_loop_wp fuel l s (Q : outcome lstate → st tsq_glob call → Prop) :
  signals_count → halt_sig (glob s) ≠ 0 → Q NoFuel s →
  (∀ g, Q (Done l) (mkSt g (Unlock :: Lock :: trace s))) →
  wp (listener_loop fuel l) Q s.
Proof.
  intros Hsig Hh H1 H2. destruct fuel as [|fuel]; [done|]. unfold listener_loop. cbn [loop].
  apply wp_bind. unfold listener_round. apply wp_bind, wp_get_signal. cbv zeta.
  destruct (negb (_ =? 0)) eqn:E; [by do 2 apply wp_ret|].
  apply negb_false_iff, Z.eqb_eq in E. by apply halt_after_nonzero in E.
Qed.
End halted.

(** ** Theorems: the comparison against its reference *)

Lemma compare_slots_ready l :
  data_ready (pl_valid_flag l) CLIENT_COUNT = true → compare_slots l = compare_update l.
Proof. intros H. unfold compare_slots. by rewrite H. Qed.

(** C29: when both samples are there and their differences do not overflow, one
    comparison does what the reference says: it keeps the newer sample of a
    pair that is one second apart, logs the nanosecond difference of an
    aligned pair, and drops every other pair; the table is cleared in all
    cases. *)
Theorem compare_follows_align l :
  data_ready (pl_valid_flag l) CLIENT_COUNT = true →
  LONG_MIN <= secs (slot_data l 0) - secs (slot_data l 1) <= LONG_MAX →
  LONG_MIN <= nsecs (slot_data l 0) - nsecs (slot_data l 1) <= LONG_MAX →
  let t0 := slot_data l 0 in
  let t1 := slot_data l 1 in
  let '(l', line) := compare_slots l in
  cli_data l' = [zero_payload; zero_payload] ∧
  (∀ i, (i < CLIENT_COUNT)%nat → pl_valid_flag l' !! i = Some false) ∧
  match align t0 t1 with
  | HoldFirst => skip_slot l' = true ∧ keep_data_slot l' = 0 ∧ keep_data l' = t0 ∧
                 rounds l' = rounds l ∧ line = None
  | HoldSecond => skip_slot l' = true ∧ keep_data_slot l' = 1 ∧ keep_data l' = t1 ∧
                  rounds l' = rounds l ∧ line = None
  | Aligned d => skip_slot l' = false ∧ keep_data l' = zero_payload ∧
                 rounds l' = i32 (rounds l + 1) ∧ line = Some (rounds l, 0, d)
  | Misaligned => skip_slot l' = false ∧ keep_data l' = zero_payload ∧
                  rounds l' = rounds l ∧ line = None
  end.
Proof.
  intros Hr Hs Hn. cbv zeta. rewrite (compare_slots_ready l Hr).
  assert (∀ i, (i < CLIENT_COUNT)%nat →
            reset_data_ready (pl_valid_flag l) CLIENT_COUNT !! i = Some false) as Hf.
  { intros i Hi. rewrite reset_data_ready_spec. rewrite decide_True by done.
    by rewrite (proj1 (data_ready_spec _ _) Hr i Hi). }
  unfold compare_update, align. unfold LONG_MIN, LONG_MAX in *.
  rewrite !(wrapS_small 64) by lia.
  repeat (case_decide; [|]); btest; bool_to_prop; try lia; simpl; auto 8.
  replace (secs (slot_data l 0) - secs (slot_data l 1)) with 0 by lia. auto 8.
Qed.

(** ** Lemmas: two talkers that answer every round *)

Definition idle ids conns slot keep r : lstate :=
  mk_lstate ids conns [zero_payload; zero_payload] [false; false] false slot keep r.

Definition held ids conns slot keep r : lstate :=
  mk_lstate ids conns [zero_payload; zero_payload] [false; false] true slot keep r.

(** After the padding: the slot that is held has been filled with the sample
    kept. *)
Definition held_first ids conns keep r : lstate :=
  mk_lstate ids conns [keep; zero_payload] [true; false] true 0 keep r.

Lemma recv_buff_send_buff p :
  payload_ok p →
  decode_payload (write_at (replicate BUFFER_SIZE 0) 0 (take (BUFFER_SIZE - 1) (send_buff p))) = p.
Proof.
  intros Hp. rewrite send_buff_eq, take_app, take_ge
    by (rewrite length_encode_payload; unfold sizeof_payload, BUFFER_SIZE; lia).
  unfold write_at. rewrite take_0. cbn [app]. rewrite <- app_assoc.
  by apply decode_encode_payload.
Qed.

Lemma slot_update_send i p l :
  valid_sample (cli_ids l) p →
  slot_update i (take (BUFFER_SIZE - 1) (send_buff p)) l =
  store_slot i (if skip_slot l && (keep_data_slot l =? Z.of_nat i) then keep_data l else p) l.
Proof.
  intros [Hp Hv]. unfold slot_update. rewrite (recv_buff_send_buff p Hp), Hv.
  rewrite length_take, length_send_buff. by destruct (skip_slot l && _).
Qed.

(** A sample that a talker sends is stored unchanged by the listener,
    provided its UID is one of the two the listener knows and the slot is not
    being held: encoding, the 255-byte read and decoding lose nothing. *)
Theorem sample_reaches_listener i p l :
  payload_ok p → uid p ≠ 0 → secs p ≠ 0 → nsecs p ≠ 0 →
  uid p ∈ take CLIENT_COUNT (cli_ids l) → skip_slot l = false →
  slot_update i (take (BUFFER_SIZE - 1) (send_buff p)) l = store_slot i p l.
Proof.
  intros Hp Hu Hs Hn Hid Hk. rewrite slot_update_send, Hk; [done|].
  split; [done|]. by apply validate_payload_spec.
Qed.

(** The listener does not check how much of a payload a read has delivered: a read
    that ends inside the nanoseconds, which TCP allows, passes for a sample whose
    nanoseconds lack their high bytes. *)
Theorem short_read_is_stored i p l k :
  payload_ok p → uid p ≠ 0 → secs p ≠ 0 → uid p ∈ take CLIENT_COUNT (cli_ids l) →
  skip_slot l = false → (0 < k < 8)%nat → nsecs p mod 2 ^ (8 * Z.of_nat k) ≠ 0 →
  slot_update i (take (16 + k) (send_buff p)) l
  = store_slot i (mk_payload (uid p) (seq p) (secs p) (nsecs p mod 2 ^ (8 * Z.of_nat k))) l.
Proof.
  intros Hp Hu Hs Hid Hk Hk8 Hn. set (q := mk_payload _ _ _ _).
  pose proof (Z.mod_pos_bound (nsecs p) (2 ^ (8 * Z.of_nat k)) ltac:(lia)) as Hm.
  assert (2 ^ (8 * Z.of_nat k) <= 2 ^ 56) as H56 by (apply Z.pow_le_mono_r; lia).
  assert (payload_ok q) as Hq.
  { destruct Hp as (H1 & H2 & H3 & _). do 3 (split; [done|]).
    unfold q, LONG_MIN, LONG_MAX. cbn [nsecs]. lia. }
  set (head := le_encode 4 (uid p) ++ le_encode 4 (seq p) ++ le_encode 8 (secs p)).
  assert (length head = 16%nat) as Hh by (unfold head; by autorewrite with tsn_len).
  assert (∀ r, encode_payload r = le_encode 4 (uid r) ++ le_encode 4 (seq r) ++ le_encode 8 (secs r)
    ++ le_encode 8 (nsecs r)) as Henc by done.
  assert (take (16 + k) (send_buff p) = head ++ le_encode k (nsecs p)) as ->.
  { rewrite send_buff_eq, take_app_le. 2: { rewrite length_encode_payload. unfold sizeof_payload. lia. }
    rewrite Henc, !(app_assoc _ _ (le_encode 8 (nsecs p))). fold head.
    rewrite <- Hh at 1. rewrite take_app_add. f_equal. apply take_le_encode. lia. }
  assert (write_at (replicate BUFFER_SIZE 0) 0 (head ++ le_encode k (nsecs p))
    = encode_payload q ++ replicate (BUFFER_SIZE - sizeof_payload) 0) as Ew.
  { unfold write_at. rewrite take_0, drop_replicate, length_app, Hh, length_le_encode. cbn [app].
    assert (le_encode 8 (nsecs q) = le_encode k (nsecs p) ++ replicate (8 - k) 0) as En.
    { rewrite <- le_encode_mod. f_equal; lia. }
    rewrite Henc, En. cbn [q uid seq secs]. unfold head. rewrite <- !app_assoc, <- replicate_add.
    do 5 f_equal. unfold sizeof_payload, BUFFER_SIZE. lia. }
  unfold slot_update. rewrite Hk, Ew, decode_encode_payload, length_app, Hh by done.
  cbn [andb]. rewrite (proj2 (validate_payload_spec q (cli_ids l) CLIENT_COUNT)); [done|].
  by split_and!.
Qed.

Lemma compare_update_aligned ids conns p0 p1 sk slot keep r :
  secs p0 = secs p1 →
  compare_update (mk_lstate ids conns [p0; p1] [true; true] sk slot keep r)
  = (idle ids conns slot zero_payload (i32 (r + 1)), Some (r, 0, i64 (nsecs p0 - nsecs p1))).
Proof. intros E. unfold compare_update. cbn [slot_data nth cli_data]. by rewrite E, Z.sub_diag. Qed.

Lemma compare_update_ahead ids conns p0 p1 sk slot keep r :
  secs p0 = secs p1 + 1 →
  compare_update (mk_lstate ids conns [p0; p1] [true; true] sk slot keep r)
  = (held ids conns 0 p0 r, None).
Proof.
  intros E. unfold compare_update. cbn [slot_data nth cli_data].
  by replace (secs p0 - secs p1) with 1 by lia.
Qed.

Lemma slot_update_tail i p l :
  slot_update i (message_tail p) l
  = if skip_slot l && (keep_data_slot l =? Z.of_nat i) then store_slot i (keep_data l) l else l.
Proof.
  unfold message_tail. rewrite send_buff_eq, drop_app_ge
    by (rewrite length_encode_payload; unfold sizeof_payload, BUFFER_SIZE; lia).
  rewrite length_encode_payload. unfold slot_update. by destruct (_ && _).
Qed.

Lemma both_round_head_idle ids conns slot keep r p0 p1 :
  valid_sample ids p0 → valid_sample ids p1 →
  both_round (message_head p0) (message_head p1) (idle ids conns slot keep r) =
  compare_update (mk_lstate ids conns [p0; p1] [true; true] false slot keep r).
Proof.
  intros H0 H1. unfold both_round, message_head. rewrite (slot_update_send 0) by done.
  by rewrite slot_update_send by done.
Qed.

Lemma both_round_head_held ids conns keep r p0 p1 :
  valid_sample ids p0 → valid_sample ids p1 →
  both_round (message_head p0) (message_head p1) (held_first ids conns keep r) =
  compare_update (mk_lstate ids conns [keep; p1] [true; true] true 0 keep r).
Proof.
  intros H0 H1. unfold both_round, message_head. rewrite (slot_update_send 0) by done.
  by rewrite slot_update_send by done.
Qed.

Lemma both_round_tail_idle ids conns slot keep r p0 p1 :
  both_round (message_tail p0) (message_tail p1) (idle ids conns slot keep r)
  = (idle ids conns slot keep r, None).
Proof. unfold both_round. by rewrite !slot_update_tail. Qed.

Lemma both_round_tail_held ids conns keep r p0 p1 :
  both_round (message_tail p0) (message_tail p1) (held ids conns 0 keep r)
  = (held_first ids conns keep r, None).
Proof. unfold both_round. by rewrite !slot_update_tail. Qed.

Definition pairs (a b : nat → payload) (k n : nat) : list (payload * payload) :=
  map (λ j, (a j, b j)) (List.seq k n).

Lemma skew_two_rounds ids conns slot keep r p0 p1 q0 q1 :
  valid_sample ids p0 → valid_sample ids p1 → valid_sample ids q0 → valid_sample ids q1 →
  secs p0 = secs p1 + 1 → secs q1 = secs p0 →
  both_rounds [(p0, p1); (q0, q1)] (idle ids conns slot keep r) =
  (idle ids conns 0 zero_payload (i32 (r + 1)), [(r, 0, i64 (nsecs p0 - nsecs q1))]).
Proof.
  intros Hp0 Hp1 Hq0 Hq1 Hs Hq. cbn [both_rounds].
  rewrite both_round_head_idle, compare_update_ahead by done.
  rewrite both_round_tail_held, both_round_head_held, compare_update_aligned by done.
  by rewrite both_round_tail_idle.
Qed.

Lemma both_rounds_app ps qs l :
  both_rounds (ps ++ qs) l =
  let '(l1, o1) := both_rounds ps l in
  let '(l2, o2) := both_rounds qs l1 in (l2, o1 ++ o2).
Proof.
  revert l. induction ps as [|[p0 p1] ps IH]; intros l; simpl.
  - by destruct (both_rounds qs l).
  - destruct (both_round _ _ l) as [l1 o], (both_round _ _ l1) as [l1' o']. rewrite IH.
    destruct (both_rounds ps l1') as [l2 o2], (both_rounds qs l2) as [l3 o3].
    by rewrite <- !app_assoc.
Qed.

Lemma pairs_app a b k m n : pairs a b k (m + n) = pairs a b k m ++ pairs a b (k + m) n.
Proof. unfold pairs. by rewrite seq_app, map_app. Qed.

(** Two talkers one second apart: one line for every two pairs of samples. *)
Lemma skewed_rounds a b t ids conns m :
  (∀ k, (k < 2 * m)%nat → valid_sample ids (a k) ∧ secs (a k) = t + 1 + Z.of_nat k) →
  (∀ k, (k < 2 * m)%nat → valid_sample ids (b k) ∧ secs (b k) = t + Z.of_nat k) →
  (both_rounds (pairs a b 0 (2 * m)) (listener_start ids conns)).2 =
  map (λ j, (i32 (Z.of_nat j), 0, i64 (nsecs (a (2 * j)%nat) - nsecs (b (2 * j + 1)%nat))))
      (List.seq 0 m).
Proof.
  intros Ha Hb.
  assert (∃ slot keep, both_rounds (pairs a b 0 (2 * m)) (listener_start ids conns) =
            (idle ids conns slot keep (i32 (Z.of_nat m)),
             map (λ j, (i32 (Z.of_nat j), 0,
                        i64 (nsecs (a (2 * j)%nat) - nsecs (b (2 * j + 1)%nat))))
               (List.seq 0 m))) as (? & ? & ->); [|done].
  induction m as [|m IH]; [by eexists _, _|].
  destruct IH as (slot & keep & IH); [intros k Hk; apply Ha; lia|intros k Hk; apply Hb; lia|].
  replace (2 * S m)%nat with (2 * m + 2)%nat by lia.
  rewrite pairs_app, both_rounds_app, IH, Nat.add_0_l.
  change (pairs a b (2 * m) 2)
    with [(a (2 * m)%nat, b (2 * m)%nat); (a (S (2 * m)), b (S (2 * m)))].
  destruct (Ha (2 * m)%nat) as [Ha0 Es0]; [lia|]. destruct (Ha (S (2 * m))) as [Ha1 Es1]; [lia|].
  destruct (Hb (2 * m)%nat) as [Hb0 Et0]; [lia|]. destruct (Hb (S (2 * m))) as [Hb1 Et1]; [lia|].
  rewrite skew_two_rounds by (done || lia).
  eexists _, _. rewrite wrapS_add_l by done.
  replace (Z.of_nat m + 1) with (Z.of_nat (S m)) by lia. f_equal.
  rewrite seq_S, map_app. simpl. by rewrite Nat.add_1_r.
Qed.

(** ** Theorems: the end of the listener *)

(** From the [N]-th call on, every check of the flag finds that a handler has
    stored a signal. *)
Definition signalled_from `{!tsq_os} (N : nat) : Prop :=
  ∀ tr, (N <= length tr)%nat → ∃ sigs x, os_signals tr = sigs ++ [x] ∧ x ≠ 0.

Section termination.
Context {OS : tsq_os} (N : nat) (HN : signalled_from N).

Lemma get_signal_before s :
  wp get_signal (λ o s', ∃ h, o = Done h ∧ (length (trace s) < length (trace s'))%nat ∧
                        (h = 0 → (length (trace s) < N)%nat)) s.
Proof.
  apply wp_get_signal. cbv zeta. eexists. split; [done|]. simpl. split; [lia|].
  intros Hh. destruct (decide (length (trace s) < N)%nat) as [|Hge]; [done|].
  destruct (HN (Lock :: trace s)) as (sigs & x & E & Hx); [simpl; lia|].
  rewrite E in Hh. unfold halt_after in Hh. by rewrite last_last in Hh.
Qed.

Definition left (s : st tsq_glob call) : nat := (N - length (trace s))%nat.

Lemma accept_round_progress x s :
  wp (accept_round x)
     (λ o s', match o with
              | Done (inl _) => (left s' < left s)%nat
              | NoFuel => False
              | _ => True
              end) s.
Proof.
  destruct x as [i [ids conns]]. unfold accept_round, left.
  destruct (CLIENT_COUNT <=? i)%nat; [by apply wp_ret|].
  apply wp_bind. eapply wp_mono; [apply get_signal_before|].
  intros o s1 (h & -> & Hlen & Hz). destruct (h =? 0) eqn:Eh; [|by apply wp_ret].
  bool_to_prop. specialize (Hz Eh). simpl negb. cbv iota.
  apply wp_bind. unfold get, wp at 1; simpl. apply wp_bind, wp_ask.
  destruct (_ <? 0); [apply wp_ret; simpl; lia|].
  apply wp_bind, wp_ask. destruct (os_read _); [apply wp_ret; simpl; lia|].
  by apply wp_bind, wp_ask, wp_error.
Qed.

Lemma listener_round_progress ids l s :
  linv ids l →
  wp (listener_round l)
     (λ o s', match o with
              | Done (inl l') => linv ids l' ∧ (left s' < left s)%nat
              | NoFuel => False
              | _ => True
              end) s.
Proof.
  intros Hl. unfold listener_round, left.
  apply wp_bind. eapply wp_mono; [apply get_signal_before|].
  intros o s1 (h & -> & Hlen & Hz). destruct (h =? 0) eqn:Eh; [|by apply wp_ret].
  bool_to_prop. specialize (Hz Eh). simpl negb. cbv iota.
  apply wp_bind. unfold get, wp at 1; simpl. apply wp_bind, wp_ask. cbv zeta.
  apply wp_bind, wp_ask. cbv beta iota.
  match goal with |- context [os_select ?tr] => destruct (os_select tr) as [[activity errno] ready] end.
  destruct (_ && _); [by apply wp_error|].
  apply wp_bind. eapply wp_mono; [by apply (slots_wp ids)|].
  intros [l2| | |] s2 [[_ Hq] H2]; simpl in *; try done. destruct H2 as [Hl2 _].
  pose proof (compare_slots_linv ids l2 Hl2) as Hl3.
  destruct (compare_slots l2) as [l3 [[[r x] n]|]]; simpl in Hl3.
  - apply wp_bind, wp_ask, wp_ret. simpl. split; [done|lia].
  - apply wp_bind, wp_ret, wp_ret. split; [done|lia].
Qed.

Lemma send_start_done conns s :
  wp (send_start conns) (λ o _, o ≠ NoFuel) s.
Proof.
  apply (wp_for_each (λ _ _ _, True) _ _ _ 0%nat); [|done|done].
  intros j a x t _ _. apply wp_bind, wp_ask.
  destruct (_ <? 0); [by apply wp_error|by apply wp_ret].
Qed.

(** C31: once a signal is delivered the listener ends: if the handler has run
    by the N-th call, [N + 1] rounds of each loop are enough, whatever the
    talkers and the kernel do. *)
Theorem listener_terminates fuel o s :
  (N < fuel)%nat → (listener fuel o s).1 ≠ NoFuel.
Proof.
  intros Hf. change (wp (listener fuel o) (λ out _, out ≠ NoFuel) s). unfold listener.
  repeat first
    [ apply wp_bind, wp_ask
    | match goal with
      | |- wp (modify _ ≫= _) _ _ => apply wp_bind; unfold modify at 1, wp at 1; simpl
      | |- wp (if ?b then _ else _) _ _ => destruct b; [by apply wp_error|]
      | |- wp (match ?x with _ => _ end) _ _ => destruct x; [|done]
      end ].
  unfold listener_serve. apply wp_bind.
  apply (wp_loop_measure (λ _ _, True) (λ _ s, left s)); [|done|unfold left; lia].
  { intros x t _. eapply wp_mono; [apply accept_round_progress|].
    intros [[x'|[ids conns]]| | |] t'; simpl; auto. intros _.
    apply wp_bind. eapply wp_mono; [apply send_start_done|].
    intros [[]| | |] t1 Ht1; simpl; auto. apply wp_bind.
    apply (wp_loop_measure (λ l _, linv ids l) (λ _ s, left s));
      [|apply linv_start|unfold left; lia].
    intros l0 t2 Hl0. eapply wp_mono; [by apply listener_round_progress|].
    by intros [[l'|l']| | |] t3; simpl. }
Qed.
End termination.

(** A signal that arrives before the talkers have connected sends the
    start command to descriptor 0: the loop is left with the connection table
    still zero, and both writes go to standard input. *)
Theorem early_signal_writes_to_fd_0 `{!tsq_os} fuel ids s :
  halt_after (halt_sig (glob s)) (os_signals (Lock :: trace s)) ≠ 0 →
  os_write (Write 0 start_buff :: Unlock :: Lock :: trace s) >= 0 →
  wp (c ← loop (S fuel) accept_round (0%nat, (ids, replicate CLIENT_COUNT 0));
      send_start c.2)
     (λ _ s', ∃ tr, trace s' = tr ++ Write 0 start_buff :: Write 0 start_buff
                                 :: Unlock :: Lock :: trace s) s.
Proof.
  intros Hh Hw. apply wp_bind. cbn [loop]. apply wp_bind. unfold accept_round at 1.
  apply wp_bind, wp_get_signal. cbv zeta.
  destruct (_ =? 0) eqn:E; [bool_to_prop; done|]. simpl negb. cbv iota.
  apply wp_ret, wp_ret. unfold send_start. cbn [for_each List.seq].
  apply wp_bind, wp_bind, wp_ask. cbn [nth snd trace glob replicate].
  apply Z.ge_le, Z.ltb_ge in Hw.
  match goal with |- wp (if ?b then _ else _) _ _ => change b with (os_write
    (Write 0 start_buff :: Unlock :: Lock :: trace s) <? 0) end.
  rewrite Hw. apply wp_ret.
  apply wp_bind, wp_bind, wp_ask. cbn beta iota.
  match goal with |- wp (if ?b then _ else _) _ _ => destruct b end.
  - apply wp_error. simpl. by eexists.
  - apply wp_ret, wp_ret. by exists [].
Qed.

(** ** A concrete environment

    Two talkers, 1234 on descriptor 4 and 5678 on descriptor 5; their n-th
    sample is taken at second [100 + n] ([lead] seconds later for the first).
    SIGINT arrives at the [stop]-th call. *)

Definition reads_of (fd : Z) (tr : list call) : nat :=
  length (List.filter (λ c, match c with Read f _ => f =? fd | _ => false end) tr).

Definition demo_sample (id : Z) (lead n : Z) : payload :=
  mk_payload id n (100 + lead + n) (500 + n).

Definition demo_os (lead : Z) (stop : nat) : tsq_os := {|
  os_signals tr := if (stop <=? length tr)%nat then [2] else [];
  os_fopen _ := 9;
  os_socket _ := 3;
  os_bind _ := 0;
  os_getsockname _ := 0;
  os_accept tr :=
    3 + Z.of_nat (length (List.filter (λ c, match c with Accept _ => true | _ => false end) tr));
  os_connect _ := 0;
  os_read tr :=
    match tr with
    | Read fd _ :: _ =>
        let id := if fd =? 4 then 1234 else 5678 in
        match reads_of fd tr with
        | 1%nat => Some (print_dec id ++ [10])
        | n => Some (send_buff (demo_sample id (if fd =? 4 then lead else 0) (Z.of_nat n - 2)))
        end
    | _ => None
    end;
  os_write _ := 256;
  os_select _ := (2, 0, λ _, true);
  os_open _ := 7;
  os_poll _ := 1;
  os_read_extts tr := (32, (100 + Z.of_nat (length tr), 500));
  os_extts_size := 32;
  uninit _ := 0
|}.

Definition demo_opt : opt :=
  mk_opt 0 MODE_LISTENER (Some (bytes_of_string "10.0.0.1")) 5678 [] 1234 [] 1100.

Definition tsq_init : st tsq_glob call := mkSt (mk_tsq_glob 0 0 0 (-1)) [].

Example demo_aligned_lines :
  data_lines (trace (@listener (demo_os 0 60) 100 demo_opt tsq_init).2)
  = [(0, 0, 0); (1, 0, 0); (2, 0, 0); (3, 0, 0)].
Proof. vm_compute. reflexivity. Qed.

Lemma demo_signalled lead stop : @signalled_from (demo_os lead stop) stop.
Proof.
  intros tr Htr. exists [], 2. simpl. apply Nat.leb_le in Htr. by rewrite Htr.
Qed.

Lemma demo_signals_count lead stop : @signals_count (demo_os lead stop).
Proof. intros tr. simpl. destruct (_ <=? _)%nat; by repeat constructor. Qed.

Lemma listener_terminates_witness :
  (@listener (demo_os 0 60) 61 demo_opt tsq_init).1 ≠ NoFuel.
Proof.
  apply (@listener_terminates (demo_os 0 60) 60 (demo_signalled 0 60)). lia.
Defined.

Lemma demo_valid id lead n :
  id = 1234 ∨ id = 5678 → 0 <= lead <= 1 → 0 <= n < 1000 →
  valid_sample [1234; 5678] (demo_sample id lead n).
Proof.
  intros Hid Hl Hn. split.
  - unfold payload_ok, demo_sample, INT_MIN, INT_MAX, LONG_MIN, LONG_MAX; simpl. lia.
  - apply validate_payload_spec. unfold demo_sample; simpl.
    split; [lia|]. split; [lia|]. split; [lia|].
    destruct Hid as [-> | ->]; set_solver.
Qed.

Definition pair_state : lstate :=
  mk_lstate [1234; 5678] [4; 5] [demo_sample 1234 1 0; demo_sample 5678 0 0]
            [true; true] false 0 zero_payload 0.

Lemma compare_follows_align_witness :
  skip_slot (compare_slots pair_state).1 = true ∧
  keep_data (compare_slots pair_state).1 = demo_sample 1234 1 0.
Proof.
  pose proof (compare_follows_align pair_state eq_refl) as H.
  specialize (H ltac:(vm_compute; split; discriminate) ltac:(vm_compute; split; discriminate)).
  cbv zeta in H. destruct (compare_slots pair_state) as [l line].
  destruct H as (_ & _ & H & _ & H' & _). by split.
Defined.

Lemma early_signal_writes_to_fd_0_witness :
  wp (c ← loop 1 (@accept_round (demo_os 0 0)) (0%nat, ([0; 0], replicate CLIENT_COUNT 0));
      @send_start (demo_os 0 0) c.2)
     (λ _ s', ∃ tr, trace s' = tr ++ [Write 0 start_buff; Write 0 start_buff; Unlock; Lock])
     tsq_init.
Proof.
  apply (@early_signal_writes_to_fd_0 (demo_os 0 0) 0 [0; 0] tsq_init).
  - vm_compute. discriminate.
  - vm_compute. discriminate.
Defined.

Lemma short_read_is_stored_witness :
  slot_update 0 (take 18 (send_buff (mk_payload 1234 7 100 70000)))
    (listener_start [1234; 5678] [4; 5])
  = store_slot 0 (mk_payload 1234 7 100 4464) (listener_start [1234; 5678] [4; 5]).
Proof.
  apply (short_read_is_stored 0 (mk_payload 1234 7 100 70000) _ 2).
  - vm_compute. intuition discriminate.
  - discriminate.
  - discriminate.
  - by apply list_elem_of_here.
  - reflexivity.
  - lia.
  - discriminate.
Defined.

Lemma sample_reaches_listener_witness :
  slot_update 0 (take (BUFFER_SIZE - 1) (send_buff (demo_sample 1234 0 7)))
    (listener_start [1234; 5678] [4; 5])
  = store_slot 0 (demo_sample 1234 0 7) (listener_start [1234; 5678] [4; 5]).
Proof.
  apply (sample_reaches_listener 0 (demo_sample 1234 0 7)); try reflexivity.
  - vm_compute. intuition discriminate.
  - discriminate.
  - discriminate.
  - discriminate.
  - simpl. set_solver.
Defined.
