(* ===== verification/TsqSound.v ===== *)
(** * TSQ listener: where the lines of the data file come from

    For any peers whatsoever: every line is the difference of two samples that
    the listener has read, one from each of its connections, after these had
    announced their identifiers. *)

From S2P Require Import Prelude Sys Libc Tsq TsqListener.

Local Open Scope Z_scope.

(** ** Specification *)

Section reads.
Context {OS : tsq_os}.

(** What the listener takes a read of [data] for: an identifier, a sample. *)
Definition announced (data : list Z) : Z :=
  atoi (cstr (write_at (replicate BUFFER_SIZE 0) 0 (take (BUFFER_SIZE - 1) data))).

Definition sample_of (data : list Z) : payload :=
  decode_payload (write_at (replicate BUFFER_SIZE 0) 0 (take (BUFFER_SIZE - 1) data)).

(** The connections, in the order in which they were accepted, each with the
    identifier that the read behind accept() delivered. *)
Fixpoint clients (tr : list call) : list (Z * Z) :=
  match tr with
  | [] => []
  | Read c _ :: tr' =>
      match tr' with
      | Accept _ :: _ => clients tr' ++ option_list ((λ data, (c, announced data)) <$> os_read tr)
      | _ => clients tr'
      end
  | _ :: tr' => clients tr'
  end.

(** What the later reads from [fd] delivered. *)
Fixpoint samples_read (fd : Z) (tr : list call) : list payload :=
  match tr with
  | [] => []
  | Read c _ :: tr' =>
      samples_read fd tr' ++
      match tr' with
      | Accept _ :: _ => []
      | _ => if c =? fd then option_list (sample_of <$> os_read tr) else []
      end
  | _ :: tr' => samples_read fd tr'
  end.

(** The difference in nanoseconds of two valid samples of the same second, one
    read from each of the two connections. *)
Definition line_from (tr : list call) (n : Z) : Prop :=
  ∃ c0 id0 c1 id1 p0 p1, clients tr = [(c0, id0); (c1, id1)] ∧
    p0 ∈ samples_read c0 tr ∧ valid_sample [id0; id1] p0 ∧
    p1 ∈ samples_read c1 tr ∧ valid_sample [id0; id1] p1 ∧
    secs p0 = secs p1 ∧ n = i64 (nsecs p0 - nsecs p1).

(** Every line of the data file, in order: its number, and such a difference. *)
Definition log_sound (tr : list call) : Prop :=
  ∀ k r x n, data_lines tr !! k = Some (r, x, n) →
    r = i32 (Z.of_nat k) ∧ x = 0 ∧ line_from tr n.

(** ** Lemmas: calls *)

(** A call that neither reads nor logs. *)
Definition still (c : call) : Prop :=
  match c with Read _ _ | Fprintf _ _ _ => False | _ => True end.

(** The next read is not the one of an identifier. *)
Definition connected (tr : list call) : Prop :=
  match tr with Accept _ :: _ => False | _ => True end.

Lemma clients_still c tr : still c → clients (c :: tr) = clients tr.
Proof. by destruct c. Qed.

Lemma samples_read_still fd c tr : still c → samples_read fd (c :: tr) = samples_read fd tr.
Proof. by destruct c. Qed.

Lemma clients_read c n tr : connected tr → clients (Read c n :: tr) = clients tr.
Proof. by destruct tr as [|[] tr]. Qed.

Lemma samples_read_read fd c n tr :
  connected tr →
  samples_read fd (Read c n :: tr)
  = samples_read fd tr
    ++ if c =? fd then option_list (sample_of <$> os_read (Read c n :: tr)) else [].
Proof. by destruct tr as [|[] tr]. Qed.

(** The calls after which the lines still stand. *)
Lemma log_sound_grow c tr :
  (match c with Fprintf _ _ _ => False | _ => True end) →
  (clients (c :: tr) = clients tr ∨ data_lines tr = []) → log_sound tr → log_sound (c :: tr).
Proof.
  intros Hc Hcl H k r x n. rewrite data_lines_cons_none by by destruct c. intros Hk.
  destruct Hcl as [Hcl|Hcl]; [|by rewrite Hcl in Hk].
  destruct (H k r x n Hk) as (-> & -> & c0 & id0 & c1 & id1 & p0 & p1 & E & H0 & V0 & H1 & V1 & Es & ->).
  do 2 (split; [done|]). exists c0, id0, c1, id1, p0, p1. rewrite Hcl.
  assert (∀ fd p, p ∈ samples_read fd tr → p ∈ samples_read fd (c :: tr)) as Hmono.
  { intros fd p Hp. destruct c; try exact Hp. cbn [samples_read]. apply elem_of_app. by left. }
  split_and!; auto.
Qed.

Lemma log_sound_still c tr : still c → log_sound tr → log_sound (c :: tr).
Proof. intros Hc. apply log_sound_grow; [by destruct c|]. left. by apply clients_still. Qed.

Lemma log_sound_nil tr : data_lines tr = [] → log_sound tr.
Proof. intros E k r x n. by rewrite E. Qed.

Lemma log_sound_line tr n :
  log_sound tr → line_from tr n →
  log_sound (Fprintf (i32 (Z.of_nat (length (data_lines tr)))) 0 n :: tr).
Proof.
  intros Hl Hn k r x n'. rewrite data_lines_cons, lookup_app_Some.
  intros [Hk|[Hk Hk']]; [by apply Hl|].
  destruct (k - length (data_lines tr))%nat eqn:E; simpl in Hk'; [|done].
  injection Hk' as <- <- <-. split; [do 2 f_equal; lia|]. by split.
Qed.

(** What holds however the listener ends. *)
Definition sound {A} (o : outcome A) (s : st tsq_glob call) : Prop :=
  log_sound (trace s) ∧ match o with Exited c => c = 1 | _ => True end.

Lemma wp_error_sound {A} (Q : outcome A → st tsq_glob call → Prop) s :
  log_sound (trace s) → (∀ s', sound (@Exited A 1) s' → Q (Exited 1) s') → wp error Q s.
Proof.
  intros H HQ. apply wp_error, HQ. split; [|done]. cbn [trace].
  assert (Forall still (rev (error_calls (glob s)))) as Hs.
  { apply Forall_rev. unfold error_calls. repeat apply Forall_app_2; case_match; by repeat constructor. }
  induction Hs as [|c new Hc _ IH]; [done|]. by apply log_sound_still.
Qed.

(** ** Lemmas: the state of the loop *)

(** The samples in the table, and the one that is held, were read. *)
Record sourced (l : lstate) (tr : list call) : Prop := {
  so_clients : clients tr = zip (cli_conns l) (cli_ids l);
  so_conns : length (cli_conns l) = CLIENT_COUNT;
  so_ids : length (cli_ids l) = CLIENT_COUNT;
  so_linv : linv (cli_ids l) l;
  so_slot : ∀ i, pl_valid_flag l !! i = Some true →
    slot_data l i ∈ samples_read (nth i (cli_conns l) 0) tr;
  so_keep : skip_slot l = true → ∀ i, keep_data_slot l = Z.of_nat i →
    keep_data l ∈ samples_read (nth i (cli_conns l) 0) tr;
  so_log : log_sound tr;
  so_rounds : rounds l = i32 (Z.of_nat (length (data_lines tr)))
}.

Lemma sourced_grow c l tr :
  (match c with Fprintf _ _ _ => False | _ => True end) → clients (c :: tr) = clients tr →
  sourced l tr → sourced l (c :: tr).
Proof.
  intros Hc Hcl [H1 H2 H3 H4 H5 H6 H7 H8].
  assert (∀ fd p, p ∈ samples_read fd tr → p ∈ samples_read fd (c :: tr)) as Hmono.
  { intros fd p Hp. destruct c; try exact Hp. cbn [samples_read]. apply elem_of_app. by left. }
  split; rewrite ?Hcl; auto.
  - apply log_sound_grow; auto.
  - by rewrite data_lines_cons_none by by destruct c.
Qed.

Lemma sourced_still c l tr : still c → sourced l tr → sourced l (c :: tr).
Proof. intros Hc. apply sourced_grow; [by destruct c|by apply clients_still]. Qed.

Lemma sourced_store i p l tr :
  (i < CLIENT_COUNT)%nat → sourced l tr → valid_sample (cli_ids l) p →
  p ∈ samples_read (nth i (cli_conns l) 0) tr → sourced (store_slot i p l) tr.
Proof.
  intros Hi [H1 H2 H3 H4 H5 H6 H7 H8] Hv Hp. split; try done; [by apply store_slot_linv|].
  cbn [store_slot cli_conns pl_valid_flag]. intros j Hj.
  rewrite slot_data_store by (rewrite (linv_data _ _ H4); lia). case_decide as Hij; [by subst j|].
  apply H5. by rewrite list_lookup_insert_ne in Hj.
Qed.

Lemma sourced_read i l tr data :
  (i < CLIENT_COUNT)%nat → connected tr → sourced l tr →
  let c := Read (nth i (cli_conns l) 0) (BUFFER_SIZE - 1) in
  os_read (c :: tr) = Some data → sourced (slot_update i (take (BUFFER_SIZE - 1) data) l) (c :: tr).
Proof.
  intros Hi Hc H c Hd. assert (sourced l (c :: tr)) as H'
    by (apply sourced_grow; [done|by apply clients_read|done]).
  unfold slot_update. destruct (skip_slot l && _) eqn:Ek.
  - apply andb_true_iff in Ek as [Ek Es%Z.eqb_eq].
    apply sourced_store; [done|done|by apply (linv_keep _ _ (so_linv _ _ H'))|].
    by apply (so_keep _ _ H').
  - destruct (0 <? _)%nat; [|done]. destruct (validate_payload _ _ _) eqn:Ev; [|done].
    apply sourced_store; [done|done|split; [apply decode_in_range|exact Ev]|].
    unfold c. rewrite samples_read_read, Z.eqb_refl by done. fold c. rewrite Hd.
    apply elem_of_app. right. by apply list_elem_of_singleton.
Qed.

Lemma two_clients l tr :
  sourced l tr → ∃ c0 id0 c1 id1, cli_conns l = [c0; c1] ∧ cli_ids l = [id0; id1] ∧
    clients tr = [(c0, id0); (c1, id1)].
Proof.
  intros [E H2 H3 _ _ _ _ _]. destruct (cli_conns l) as [|c0 [|c1 []]]; try done.
  destruct (cli_ids l) as [|id0 [|id1 []]]; try done. by exists c0, id0, c1, id1.
Qed.

Lemma sourced_compare l tr :
  sourced l tr →
  let '(l', line) := compare_slots l in
  sourced l' (match line with Some (r, x, n) => Fprintf r x n :: tr | None => tr end).
Proof.
  intros H. pose proof (compare_slots_linv _ _ (so_linv _ _ H)) as Hl'.
  destruct (two_clients l tr H) as (c0 & id0 & c1 & id1 & Ec & Eid & Ecl).
  assert (cli_conns (compare_slots l).1 = cli_conns l ∧ cli_ids (compare_slots l).1 = cli_ids l ∧
    ((compare_slots l).1 = l ∨
     (∀ i, pl_valid_flag (compare_slots l).1 !! i ≠ Some true) ∧
     data_ready (pl_valid_flag l) CLIENT_COUNT = true ∧
     (skip_slot (compare_slots l).1 = true →
      ∃ i, (i < CLIENT_COUNT)%nat ∧ keep_data_slot (compare_slots l).1 = Z.of_nat i ∧
           keep_data (compare_slots l).1 = slot_data l i))) as (E1 & E2 & Hcase).
  { pose proof (linv_flags _ _ (so_linv _ _ H)) as Hf.
    unfold compare_slots. destruct (data_ready _ _) eqn:Hr; [|auto].
    destruct (pl_valid_flag l) as [|b0 [|b1 []]] eqn:Ef; try done. unfold compare_update. rewrite Ef.
    repeat case_match; cbn; (split; [done|]; split; [done|]; right; split; [by intros [|[|i]]|]);
      (split; [done|]); try done; intros _; [exists 0%nat|exists 1%nat]; repeat split; unfold CLIENT_COUNT; lia. }
  pose proof H as [H1 H2 H3 H4 H5 H6 H7 H8].
  assert (∀ i, (i < CLIENT_COUNT)%nat → data_ready (pl_valid_flag l) CLIENT_COUNT = true →
    slot_data l i ∈ samples_read (nth i (cli_conns l) 0) tr) as Hslots
    by (intros i Hi Hr; by apply H5, (proj1 (data_ready_spec _ _) Hr)).
  destruct (compare_slots l) as [l' line] eqn:Ecs. cbn [fst] in *.
  assert (∀ tr', clients tr' = clients tr → (∀ fd, samples_read fd tr' = samples_read fd tr) →
    log_sound tr' → rounds l' = i32 (Z.of_nat (length (data_lines tr'))) → sourced l' tr') as Hmk.
  { intros tr' Hc Hsr Hlog Hro. split; rewrite ?E1, ?E2, ?Hc; try done.
    - intros i Hi. rewrite Hsr. destruct Hcase as [->|(Hno & _)]; [by apply H5|by destruct (Hno i)].
    - intros Hsk i Hi. rewrite Hsr. destruct Hcase as [->|(_ & Hr & Hk)]; [by apply H6|].
      destruct (Hk Hsk) as (j & Hj & Ej & ->). rewrite Ej in Hi. apply Nat2Z.inj in Hi as <-. auto. }
  destruct line as [[[r x] n]|].
  2: { apply Hmk; try done. by rewrite (compare_slots_no_line _ _ Ecs). }
  destruct (compare_slots_line _ _ _ _ _ _ H4 Ecs) as (-> & Hr & -> & V0 & V1 & Es & ->).
  assert (data_ready (pl_valid_flag l) CLIENT_COUNT = true) as Hready.
  { unfold compare_slots in Ecs. by destruct (data_ready _ _). }
  apply Hmk; [done|done| |].
  - rewrite H8. apply log_sound_line; [done..|]. exists c0, id0, c1, id1, (slot_data l 0), (slot_data l 1).
    rewrite Ec, Eid in *.
    pose proof (Hslots 0%nat ltac:(unfold CLIENT_COUNT; lia) Hready).
    pose proof (Hslots 1%nat ltac:(unfold CLIENT_COUNT; lia) Hready). by split_and!.
  - rewrite Hr, H8, data_lines_cons, length_app, wrapS_add_l by done. f_equal. simpl. lia.
Qed.

(** ** Lemmas: runs *)

Implicit Types s : st tsq_glob call.

Lemma slot_sound isset i l s :
  (i < CLIENT_COUNT)%nat → sourced l (trace s) →
  wp (listener_slot isset i l)
     (λ o s', match o with Done l' => sourced l' (trace s') | _ => sound o s' end) s.
Proof.
  intros Hi H. unfold listener_slot. cbv zeta. destruct (isset _); [|by apply wp_ret].
  apply wp_bind, wp_get_signal. cbv zeta.
  assert (sourced l (Unlock :: Lock :: trace s)) as H1 by by apply sourced_still, sourced_still.
  destruct (negb _).
  { apply wp_error_sound; [apply (so_log _ _ H1)|done]. }
  apply wp_bind, wp_ask. cbn [trace]. destruct (os_read _) as [data|] eqn:Er.
  - apply wp_ret. by apply sourced_read.
  - apply wp_error_sound; [|done]. apply log_sound_grow; [done|by left|apply (so_log _ _ H1)].
Qed.

Lemma round_sound l s :
  sourced l (trace s) →
  wp (listener_round l)
     (λ o s', match o with Done (inl l') => sourced l' (trace s') | _ => sound o s' end) s.
Proof.
  intros H. unfold listener_round. apply wp_bind, wp_get_signal. cbv zeta.
  assert (sourced l (Unlock :: Lock :: trace s)) as H1 by by apply sourced_still, sourced_still.
  destruct (negb _); [apply wp_ret; split; [apply (so_log _ _ H1)|done]|].
  apply wp_bind. unfold get at 1, wp at 1. cbn [fst snd glob]. apply wp_bind, wp_ask. cbv zeta.
  apply wp_bind, wp_ask. cbn [trace]. set (tr := Select _ _ :: _).
  assert (sourced l tr) as H2 by by apply sourced_still, sourced_still.
  destruct (os_select tr) as [[activity errno] ready]. cbv beta iota. destruct (_ && _).
  { apply wp_error_sound; [apply (so_log _ _ H2)|done]. }
  apply wp_bind. apply (wp_for_each (λ _ l s, sourced l (trace s)) _ _ _ 0%nat); [| |done].
  - intros j a l1 t Hj Ht. apply lookup_seq in Hj as [-> Hj].
    eapply wp_mono; [by apply slot_sound|]. by intros [].
  - intros l1 t Ht. pose proof (sourced_compare l1 _ Ht) as Hc.
    destruct (compare_slots l1) as [l2 [[[r x] n]|]].
    + by apply wp_bind, wp_ask, wp_ret.
    + by apply wp_bind, wp_ret, wp_ret.
Qed.

Lemma loop_sound fuel l s : sourced l (trace s) → wp (listener_loop fuel l) sound s.
Proof.
  apply (wp_loop (λ l s, sourced l (trace s))).
  - intros l1 t Ht. eapply wp_mono; [by apply round_sound|]. by intros [[l'|l']| | |].
  - intros l1 t Ht. split; [apply Ht|done].
Qed.

(** The first [i] entries of the tables are the connections. *)
Definition accepting (x : nat * (list Z * list Z)) s : Prop :=
  let '(i, (ids, conns)) := x in
  (i <= CLIENT_COUNT)%nat ∧ length ids = CLIENT_COUNT ∧ length conns = CLIENT_COUNT ∧
  clients (trace s) = zip (take i conns) (take i ids) ∧ data_lines (trace s) = [].

(** The accept loop ends with two connections, or early by a signal. *)
Definition connections (y : list Z * list Z) s : Prop :=
  data_lines (trace s) = [] ∧
  (halt_sig (glob s) ≠ 0 ∨ length y.1 = CLIENT_COUNT ∧ length y.2 = CLIENT_COUNT ∧
                           clients (trace s) = zip y.2 y.1).

Lemma connected_start y tr :
  data_lines tr = [] → length y.1 = CLIENT_COUNT → length y.2 = CLIENT_COUNT →
  clients tr = zip y.2 y.1 → sourced (listener_start y.1 y.2) tr.
Proof.
  intros Hd H1 H2 Hc. split; try done; [apply linv_start|by intros [|[|i]]|by apply log_sound_nil|].
  by rewrite Hd.
Qed.

Lemma accept_sound x s :
  accepting x s →
  wp (accept_round x)
     (λ o s', match o with
              | Done (inl x') => accepting x' s'
              | Done (inr y) => connections y s'
              | _ => sound o s'
              end) s.
Proof.
  destruct x as [i [ids conns]]. intros (Hi & Hl1 & Hl2 & Hc & Hd). unfold accept_round.
  destruct (CLIENT_COUNT <=? i)%nat eqn:Ei.
  { apply wp_ret. split; [done|]. right. apply Nat.leb_le in Ei.
    rewrite Hc, !take_ge by lia. auto. }
  apply Nat.leb_gt in Ei. apply wp_bind, wp_get_signal. cbv zeta.
  assert (data_lines (Unlock :: Lock :: trace s) = []) as Hd1 by by rewrite !data_lines_cons_none.
  destruct (negb (_ =? 0)) eqn:Eh.
  { apply wp_ret. split; [done|]. left. by apply negb_true_iff, Z.eqb_neq in Eh. }
  apply wp_bind. unfold get at 1, wp at 1. cbn [fst snd glob].
  apply wp_bind, wp_ask. cbn [trace]. set (tr := Accept _ :: _).
  assert (data_lines tr = []) as Hd2 by (unfold tr; by rewrite data_lines_cons_none).
  assert (clients tr = clients (trace s)) as Hc2 by done.
  destruct (os_accept tr <? 0); [apply wp_ret; by split_and!|].
  apply wp_bind, wp_ask. cbn [trace]. set (c := os_accept tr). set (rd := Read c _).
  assert (data_lines (rd :: tr) = []) as Hd3 by by rewrite data_lines_cons_none.
  destruct (os_read (rd :: tr)) as [data|] eqn:Er.
  - apply wp_ret. split; [lia|]. rewrite !length_insert. do 2 (split; [done|]). split; [|done].
    cbn [trace].
    assert (clients (rd :: tr) = clients tr ++ [(c, announced data)]) as ->.
    { change (clients tr ++ option_list ((λ data, (c, announced data)) <$> os_read (rd :: tr))
        = clients tr ++ [(c, announced data)]). by rewrite Er. }
    rewrite (take_S_r (<[i:=c]> conns) i c), (take_S_r (<[i:=_]> ids) i (announced data))
      by (apply list_lookup_insert_eq; lia).
    rewrite !take_insert_ge, Hc2, Hc, zip_with_app by (done || (rewrite !length_take; lia)). done.
  - apply wp_bind, wp_ask, wp_error_sound; [by apply log_sound_still, log_sound_nil|done].
Qed.

Lemma serve_sound fuel s :
  signals_count → clients (trace s) = [] → data_lines (trace s) = [] →
  wp (listener_serve fuel) sound s.
Proof.
  intros Hsig Hc Hd.
  unfold listener_serve. apply wp_bind. apply (wp_loop accepting).
  2: { intros [i [ids conns]] t (_ & _ & _ & _ & Ht). split; [by apply log_sound_nil|done]. }
  2: { split; [lia|]. split_and!; done. }
  intros x t Hx. eapply wp_mono; [by apply accept_sound|].
  intros [[x'|[ids conns]]| | |] s1; try done. intros Hs1. apply wp_bind.
  apply (wp_for_each (λ _ _ t, connections (ids, conns) t) _ _ _ 0%nat); [| |done].
  - intros j a [] t1 _ [Hd1 H1]. apply wp_bind, wp_ask.
    assert (data_lines (Write (nth a conns 0) start_buff :: trace t1) = []) as Hd2
      by by rewrite data_lines_cons_none.
    destruct (_ <? 0).
    + apply wp_error_sound; [by apply log_sound_nil|done].
    + by apply wp_ret.
  - intros [] t1 [Hd1 H1]. apply wp_bind. apply (wp_mono _ sound).
    + destruct H1 as [Hh|(Hl1 & Hl2 & Hcl)].
      * apply halted_loop_wp; try done; [by split; [apply log_sound_nil|]|].
        intros g. split; [|done]. by apply log_sound_still, log_sound_still, log_sound_nil.
      * by apply loop_sound, (connected_start (ids, conns)).
    + intros [l| | |] t2 Ht2; try done. apply wp_bind. unfold get at 1, wp at 1. cbn [fst snd].
      apply wp_bind, wp_ask, wp_ask. split; [|done]. by apply log_sound_still, log_sound_still; [..|apply Ht2].
Qed.

End reads.

