(* ===== verification/TsqTalker.v ===== *)
(** * TSQ talker, main, and the talker-listener protocol (src/src/tsq.c)

    talker() connects to the listener, announces its UID, waits for the start
    command and then forwards one external time stamp per poll; main() picks
    the role.  The last part proves what the two roles can rely on from each
    other over the TCP stream between them. *)

From S2P Require Import Prelude Sys Libc Argp Tsq TsqListener.

Local Open Scope Z_scope.

(** The buffer that announces the UID. *)
Definition uid_buff (u : Z) : list Z :=
  write_at (replicate BUFFER_SIZE 0) 0 (print_dec u ++ [10]).

Definition start_cmd : list Z := bytes_of_string "start" ++ [10].

Section talker.
Context {OS : tsq_os}.

(** [while (ready-- > 0)]: each round reads one event into [e]. *)
Definition read_events (fd : Z) (ready : Z) (e : Z * Z) : T (Z * Z) :=
  for_each (List.seq 0 (Z.to_nat ready)) (λ _ _,
    r ← ask (Read fd (Z.to_nat os_extts_size)) os_read_extts;
    let '(n, (sec, nsec)) := r in
    if negb (n =? os_extts_size) then error
    else mret (i64 sec, u32 nsec)) e.

(** One round of [while (get_signal() == 0)]; the state is [seq]. *)
Definition talker_round (u timeout_ms sq : Z) : T (Z + unit) :=
  halt ← get_signal;
  if negb (halt =? 0) then mret (inr tt) else
  g ← get;
  ready ← ask (Poll (glob_ptpfd g) timeout_ms) os_poll;
  if ready <? 0 then error else
  e ← read_events (glob_ptpfd g) ready (0, 0);
  let data := mk_payload u sq e.1 e.2 in
  if negb (secs data =? 0) && negb (nsecs data =? 0) then
    ret ← ask (Write (glob_sockfd g) (send_buff data)) os_write;
    if ret <? 0 then error else mret (inl (i32 (sq + 1)))
  else mret (inl sq).

(** From the start command on. *)
Definition talker_serve (fuel : nat) (o : opt) : T unit :=
  ptpfd ← ask (Open (device o)) os_open;
  modify (set_glob_ptpfd ptpfd);;
  if ptpfd <? 0 then error else
  loop fuel (talker_round (i32 (opt_uid o)) (i32 (timeout o))) 0;;
  g ← get;
  tell (Close (glob_sockfd g)).

Definition talker (fuel : nat) (o : opt) : T unit :=
  modify (set_glob_sockfd 0);;
  match server_ip o with
  | None => undefined                  (* inet_addr of a wild pointer *)
  | Some ip =>
      sockfd ← ask Socket os_socket;
      modify (set_glob_sockfd sockfd);;
      if sockfd <? 0 then error else
      c ← ask (Connect sockfd ip (be16 (u16 (port o)))) os_connect;
      if c <? 0 then error else
      ret ← ask (Write sockfd (uid_buff (i32 (opt_uid o)))) os_write;
      if ret <? 0 then error else
      r ← ask (Read sockfd (BUFFER_SIZE - 1)) os_read;
      match r with
      | None => error
      | Some data =>
          let send_buff := write_at (replicate BUFFER_SIZE 0) 0
                                    (take (BUFFER_SIZE - 1) data) in
          if negb (bool_decide (cstr send_buff = start_cmd)) then error
          else talker_serve fuel o
      end
  end.

(** main(); [argv] starts behind the name of the program. *)
Definition tsq_main (fuel : nat) (argv : list word) : T Z :=
  modify (λ g, mk_tsq_glob 0 0 (glob_sockfd g) (-1));;
  o ← argp_parse argp argv default_opt;
  (if mode o =? MODE_TALKER then talker fuel o
   else if mode o =? MODE_LISTENER then listener fuel o
   else error);;
  mret 0.
End talker.

(** Everything written to sockets, in order. *)
Definition writes (tr : list call) : list (list Z) :=
  omap (λ c, match c with Write _ b => Some b | _ => None end) (rev tr).

(** The samples of a talker: numbered from 0, with its UID, and with a time
    whose two parts are not zero. *)
Definition samples_ok (u : Z) (ps : list payload) : Prop :=
  ∀ k p, ps !! k = Some p →
    payload_ok p ∧ uid p = u ∧ seq p = i32 (Z.of_nat k) ∧ secs p ≠ 0 ∧ nsecs p ≠ 0.

(** What a talker with UID [u] may have written at any moment. *)
Definition talker_wrote (u : Z) (ws : list (list Z)) : Prop :=
  ws = [] ∨ ∃ ps, ws = uid_buff u :: map send_buff ps ∧ samples_ok u ps.

(** ** Lemmas *)

Lemma writes_cons c tr : writes (c :: tr) = writes tr ++ writes [c].
Proof. unfold writes. simpl. by rewrite omap_app. Qed.

Lemma writes_cons_none c tr : writes [c] = [] → writes (c :: tr) = writes tr.
Proof. intros E. by rewrite writes_cons, E, app_nil_r. Qed.

Lemma writes_error g tr : writes (rev (error_calls g) ++ tr) = writes tr.
Proof.
  unfold error_calls, writes. rewrite rev_app_distr, rev_involutive, omap_app.
  rewrite <- (app_nil_r (omap _ (rev tr))) at 2. f_equal.
  by destruct (glob_sockfd g =? 0), (glob_fp g =? 0), (glob_ptpfd g =? 0).
Qed.

Lemma samples_ok_snoc u ps p :
  samples_ok u ps → payload_ok p → uid p = u → seq p = i32 (Z.of_nat (length ps)) →
  secs p ≠ 0 → nsecs p ≠ 0 → samples_ok u (ps ++ [p]).
Proof.
  intros Hps Hp Hu Hs H1 H2 k q. rewrite lookup_app_Some.
  intros [Hk|[Hk Hk']]; [by apply Hps|].
  apply list_lookup_singleton_Some in Hk' as [Ek <-].
  repeat split; try done; try apply Hp. by replace k with (length ps) by lia.
Qed.

Section talker_proofs.
Context {OS : tsq_os}.
Implicit Types s t : st tsq_glob call.

Lemma get_signal_writes s :
  wp get_signal (λ o s', ∃ h, o = Done h ∧ writes (trace s') = writes (trace s)) s.
Proof.
  apply wp_get_signal. cbv zeta. eexists. split; [done|]. simpl.
  by rewrite !writes_cons_none.
Qed.

(** An event that was read is in range for the payload. *)
Definition event_ok (e : Z * Z) : Prop :=
  LONG_MIN <= e.1 <= LONG_MAX ∧ LONG_MIN <= e.2 <= LONG_MAX.

Lemma read_events_wp fd ready e s :
  event_ok e →
  wp (read_events fd ready e)
     (λ o s', writes (trace s') = writes (trace s) ∧
              match o with Done e' => event_ok e' | _ => True end) s.
Proof.
  intros He.
  apply (wp_for_each (λ _ e' s', writes (trace s') = writes (trace s) ∧ event_ok e')
           _ _ _ 0%nat); [|done|done].
  intros j a x t _ [Ht Hx]. apply wp_bind, wp_ask.
  destruct (os_read_extts _) as [n [sec nsec]]. destruct (negb _).
  - apply wp_error. simpl. by rewrite writes_error, writes_cons_none.
  - apply wp_ret. simpl. split; [by rewrite writes_cons_none|].
    pose proof (wrapS_range 64 sec ltac:(lia)). pose proof (wrapU_range 32 nsec ltac:(lia)).
    unfold event_ok, LONG_MIN, LONG_MAX; simpl. lia.
Qed.

Definition talker_inv (u sq : Z) (s : st tsq_glob call) : Prop :=
  ∃ ps, writes (trace s) = uid_buff u :: map send_buff ps ∧ samples_ok u ps ∧
        sq = i32 (Z.of_nat (length ps)).

Lemma talker_inv_wrote u sq s s' :
  talker_inv u sq s → writes (trace s') = writes (trace s) →
  talker_wrote u (writes (trace s')).
Proof. intros (ps & E & H & _) ->. right. eauto. Qed.

Lemma talker_round_wp u tm sq s :
  INT_MIN <= u <= INT_MAX → talker_inv u sq s →
  wp (talker_round u tm sq)
     (λ o s', talker_wrote u (writes (trace s')) ∧
              match o with Done (inl sq') => talker_inv u sq' s' | _ => True end) s.
Proof.
  intros Hu Hi. unfold talker_round.
  apply wp_bind. eapply wp_mono; [apply get_signal_writes|]. intros o s1 (h & -> & Hw1).
  destruct (negb (h =? 0)).
  { apply wp_ret. split; [|done]. by eapply talker_inv_wrote. }
  apply wp_bind. unfold get, wp at 1; simpl. apply wp_bind, wp_ask.
  destruct (os_poll _ <? 0).
  { apply wp_error. split; [|done]. eapply talker_inv_wrote; [done|]. simpl.
    by rewrite writes_error, writes_cons_none. }
  apply wp_bind. eapply wp_mono; [apply read_events_wp|].
  { unfold event_ok, LONG_MIN, LONG_MAX; simpl; lia. }
  intros o s2 [Hw2 He]. simpl in Hw2. rewrite writes_cons_none, Hw1 in Hw2 by done.
  destruct o as [e| | |]; simpl;
    try (split; [by eapply talker_inv_wrote|done]).
  destruct Hi as (ps & Ew & Hps & ->).
  destruct (negb (e.1 =? 0) && negb (e.2 =? 0)) eqn:Hz.
  2:{ apply wp_ret. split; [right; exists ps; rewrite Hw2; auto|].
      exists ps. by rewrite Hw2. }
  bool_to_prop. set (p := mk_payload u (i32 (Z.of_nat (length ps))) e.1 e.2).
  assert (samples_ok u (ps ++ [p])) as Hps'.
  { apply samples_ok_snoc; auto. destruct He as [He1 He2].
    pose proof (wrapS_range 32 (Z.of_nat (length ps)) ltac:(lia)).
    unfold payload_ok, p; simpl. unfold INT_MIN, INT_MAX in *. lia. }
  assert (∀ fd, writes (Write fd (send_buff p) :: trace s2)
                = uid_buff u :: map send_buff (ps ++ [p])) as Hw.
  { intros fd. rewrite writes_cons, Hw2, Ew, map_app. done. }
  apply wp_bind, wp_ask. destruct (_ <? 0).
  - apply wp_error. split; [|done]. simpl. rewrite writes_error, Hw. right. eauto.
  - apply wp_ret. simpl. rewrite Hw. split; [right; eauto|].
    exists (ps ++ [p]). simpl. rewrite Hw. split; [done|]. split; [done|].
    rewrite wrapS_add_l, length_app by done. f_equal. simpl. lia.
Qed.

Lemma talker_serve_wp fuel o s :
  writes (trace s) = [uid_buff (i32 (opt_uid o))] →
  wp (talker_serve fuel o)
     (λ _ s', talker_wrote (i32 (opt_uid o)) (writes (trace s'))) s.
Proof.
  intros Hw. set (u := i32 (opt_uid o)) in *.
  assert (INT_MIN <= u <= INT_MAX) as Hu.
  { pose proof (wrapS_range 32 (opt_uid o) ltac:(lia)). unfold u, INT_MIN, INT_MAX. lia. }
  assert (talker_wrote u [uid_buff u]) as H1 by (right; by exists []).
  unfold talker_serve.
  apply wp_bind, wp_ask, wp_bind. unfold modify at 1, wp at 1; simpl.
  destruct (_ <? 0).
  { apply wp_error. simpl. by rewrite writes_error, writes_cons_none, Hw. }
  apply wp_bind. fold u.
  eapply (wp_mono _ (λ _ s', talker_wrote u (writes (trace s')))).
  - apply (wp_loop (λ sq s', talker_inv u sq s')).
    + intros sq t Ht. eapply wp_mono; [by apply talker_round_wp|].
      intros [[sq'|[]]| | |] t' [Ht1 Ht2]; simpl; auto.
    + intros sq t Ht. by eapply talker_inv_wrote.
    + exists []. simpl. by rewrite writes_cons_none, Hw.
  - intros [[]| | |] t Ht; simpl; auto. unfold wp; simpl.
    by rewrite writes_cons_none.
Qed.

Lemma talker_writes fuel o s :
  writes (trace s) = [] →
  wp (talker fuel o)
     (λ _ s', talker_wrote (i32 (opt_uid o)) (writes (trace s'))) s.
Proof.
  intros Hw. unfold talker.
  apply wp_bind. unfold modify at 1, wp at 1; simpl.
  destruct (server_ip o) as [ip|]; [|by left].
  apply wp_bind, wp_ask, wp_bind. unfold modify at 1, wp at 1; simpl.
  destruct (_ <? 0).
  { apply wp_error. left. simpl. by rewrite writes_error, writes_cons_none. }
  apply wp_bind, wp_ask. destruct (_ <? 0).
  { apply wp_error. left. simpl. by rewrite writes_error, !writes_cons_none. }
  apply wp_bind, wp_ask.
  set (wr := Write _ _). set (t := wr :: _).
  assert (writes t = [uid_buff (i32 (opt_uid o))]) as Ht.
  { unfold t. simpl. by rewrite writes_cons, !writes_cons_none, Hw by done. }
  assert (talker_wrote (i32 (opt_uid o)) [uid_buff (i32 (opt_uid o))]) as H1
    by (right; by exists []).
  destruct (_ <? 0); [apply wp_error; simpl; by rewrite writes_error, Ht|].
  apply wp_bind, wp_ask. destruct (os_read _).
  - destruct (negb _).
    + apply wp_error. simpl. by rewrite writes_error, writes_cons_none, Ht.
    + apply talker_serve_wp. simpl. by rewrite writes_cons_none.
  - apply wp_error. simpl. by rewrite writes_error, writes_cons_none, Ht.
Qed.

(** C19: whatever the kernel and the listener answer, a talker first announces
    its UID and then sends samples only: the k-th one carries its UID and
    the number k, and neither part of its time is zero. *)
Theorem talker_sends_numbered_samples fuel o s :
  writes (trace s) = [] →
  wp (talker fuel o)
     (λ _ s', talker_wrote (i32 (opt_uid o)) (writes (trace s'))) s.
Proof. exact (talker_writes fuel o s). Qed.
End talker_proofs.

(** ** Theorems: talker and listener over the stream *)

Lemma cstr_app_nul l rest : Forall (λ b, b ≠ 0) l → cstr (l ++ 0 :: rest) = l.
Proof.
  induction 1 as [|b l Hb _ IH]; [done|]. simpl.
  destruct (b =? 0) eqn:E; [bool_to_prop; done|]. by rewrite IH.
Qed.

Lemma dec_aux_nonzero fuel z acc :
  0 <= z → Forall (λ b, b ≠ 0) acc → Forall (λ b, b ≠ 0) (dec_aux fuel z acc).
Proof.
  revert z acc. induction fuel as [|fuel IH]; intros z acc Hz Ha; [done|]. simpl.
  pose proof (Z.mod_pos_bound z 10). pose proof (Z.div_pos z 10).
  destruct (z <? 10) eqn:E; bool_to_prop; [constructor; [lia|done]|].
  apply IH; [lia|]. constructor; [lia|done].
Qed.

Lemma dec_aux_length fuel z acc : (length (dec_aux fuel z acc) <= fuel + length acc)%nat.
Proof.
  revert z acc. induction fuel as [|fuel IH]; intros z acc; simpl; [lia|].
  destruct (z <? 10); simpl; [lia|]. etrans; [apply IH|]. simpl. lia.
Qed.

Lemma uid_read_back u :
  0 <= u <= INT_MAX →
  atoi (cstr (write_at (replicate BUFFER_SIZE 0) 0 (take (BUFFER_SIZE - 1) (uid_buff u)))) = u.
Proof.
  intros Hu. unfold uid_buff.
  set (txt := print_dec u ++ [10]).
  assert (length txt <= 21)%nat as Hlen.
  { unfold txt, print_dec. rewrite length_app. destruct (u <? 0) eqn:?; [bool_to_prop; lia|].
    pose proof (dec_aux_length 20 u []) as Hd. cbn [length] in Hd |- *. lia. }
  assert (Forall (λ b, b ≠ 0) txt) as Hnz.
  { unfold txt, print_dec. destruct (u <? 0) eqn:?; [bool_to_prop; lia|].
    apply Forall_app_2; [apply dec_aux_nonzero; [lia|done]|by repeat constructor]. }
  assert (∃ rest, write_at (replicate BUFFER_SIZE 0) 0
            (take (BUFFER_SIZE - 1) (write_at (replicate BUFFER_SIZE 0) 0 txt))
          = txt ++ 0 :: rest) as [rest ->].
  { unfold write_at. rewrite !take_0. cbn [app Nat.add]. rewrite !drop_replicate.
    rewrite take_app, (take_ge txt) by (unfold BUFFER_SIZE; lia).
    rewrite take_replicate.
    destruct (_ `min` _)%nat eqn:E; [unfold BUFFER_SIZE in E; lia|].
    rewrite <- app_assoc. simpl. eauto. }
  rewrite cstr_app_nul by done. by apply atoi_print_dec.
Qed.

(** The listener reads back the UID a talker announces: the 256-byte
    message, of which one read() delivers at most 255, is decoded by atoi to
    the UID it was printed from. *)
Theorem uid_handshake u :
  0 <= u <= INT_MAX →
  atoi (cstr (write_at (replicate BUFFER_SIZE 0) 0 (take (BUFFER_SIZE - 1) (uid_buff u)))) = u.
Proof. exact (uid_read_back u). Qed.

(** The bytes a read() delivers that starts [j] bytes before the next message
    on the stream: the padding of the previous one, then the message. *)
Definition late_read (j : nat) (p : payload) : list Z :=
  replicate j 0 ++ take (BUFFER_SIZE - 1 - j) (send_buff p).

Lemma late_read_uid j p :
  (1 <= j <= BUFFER_SIZE - sizeof_payload)%nat → 999 <= uid p <= 9999 →
  ¬ 999 <= uid (decode_payload (write_at (replicate BUFFER_SIZE 0) 0 (late_read j p))) <= 9999.
Proof.
  unfold BUFFER_SIZE, sizeof_payload. intros Hj Hu.
  assert (∃ rest, write_at (replicate 256 0) 0 (late_read j p) =
            replicate (min j 4) 0 ++ take (4 - j) (le_encode 4 (uid p)) ++ rest)
    as [rest ->].
  { unfold late_read, write_at. rewrite take_0, send_buff_eq. cbn [app].
    destruct (decide (j < 4)%nat).
    - rewrite Nat.min_l by lia. rewrite <- !app_assoc.
      set (w := take (BUFFER_SIZE - 1 - j) _).
      assert (take (4 - j) w = take (4 - j) (le_encode 4 (uid p))) as Ew.
      { unfold w, encode_payload. rewrite take_take, <- !app_assoc.
        rewrite Nat.min_l by (unfold BUFFER_SIZE; lia).
        by rewrite take_app_le by (rewrite length_le_encode; lia). }
      rewrite <- (take_drop (4 - j) w), Ew, <- app_assoc. eauto.
    - rewrite Nat.min_r by lia. replace (4 - j)%nat with 0%nat by lia. rewrite take_0.
      replace (replicate j 0) with (replicate 4 0 ++ replicate (j - 4) 0)
        by (rewrite <- replicate_add; f_equal; lia).
      rewrite <- !app_assoc. eauto. }
  unfold decode_payload. cbn [uid].
  rewrite app_assoc, read_at_head by (rewrite length_app, length_replicate, length_take,
    length_le_encode; lia).
  destruct (decide (4 <= j)%nat).
  { replace (4 - j)%nat with 0%nat by lia. rewrite take_0, app_nil_r.
    rewrite Nat.min_r by lia. vm_compute. intros [H _]. by apply H. }
  assert (j = 1 ∨ j = 2 ∨ j = 3)%nat as Hcase by lia.
  pose proof (Z.div_mod (uid p) 256). pose proof (Z.div_mod (uid p / 256) 256).
  pose proof (Z.mod_pos_bound (uid p) 256). pose proof (Z.mod_pos_bound (uid p / 256) 256).
  assert (uid p / 256 / 256 = 0) as Hz by (rewrite Z.div_div by lia; apply Z.div_small; lia).
  destruct Hcase as [-> | [-> | ->]]; cbn [min take replicate app le_encode le_decode Nat.sub];
    rewrite ?Hz; unfold wrapS; zsolve.
Qed.

(** Once the 255-byte reads lag behind the 256-byte messages, a misframed
    read is always rejected: for every lag up to the padding of a message, the
    sample is not accepted for any pair of legal talker UIDs, so the listener
    loses it but never stores a wrong one. *)
Theorem late_read_rejected j p ids n :
  (1 <= j <= BUFFER_SIZE - sizeof_payload)%nat → 999 <= uid p <= 9999 →
  Forall (λ id, 999 <= id <= 9999) ids →
  validate_payload (decode_payload (write_at (replicate BUFFER_SIZE 0) 0 (late_read j p)))
                   ids n = false.
Proof.
  intros Hj Hu Hids. apply not_true_is_false. rewrite validate_payload_spec.
  intros (_ & _ & _ & Hin). apply (late_read_uid j p Hj Hu).
  apply elem_of_take in Hin as (k & Hk & _).
  by apply (Forall_lookup_1 _ _ _ _ Hids Hk).
Qed.

(** ** Witnesses *)

Lemma talker_sends_numbered_samples_witness :
  writes (trace tsq_init) = [] ∧
  wp (@talker (demo_os 0 60) 100 demo_opt)
     (λ _ s', talker_wrote (i32 (opt_uid demo_opt)) (writes (trace s'))) tsq_init.
Proof.
  split; [reflexivity|].
  apply (@talker_sends_numbered_samples (demo_os 0 60) 100 demo_opt tsq_init). reflexivity.
Defined.

Lemma uid_handshake_witness :
  atoi (cstr (write_at (replicate BUFFER_SIZE 0) 0 (take (BUFFER_SIZE - 1) (uid_buff 1234))))
  = 1234.
Proof. apply (uid_handshake 1234). unfold INT_MAX. lia. Defined.

Lemma late_read_rejected_witness :
  validate_payload
    (decode_payload (write_at (replicate BUFFER_SIZE 0) 0 (late_read 1 (demo_sample 1234 0 7))))
    [1234; 5678] 2 = false.
Proof.
  apply (late_read_rejected 1 (demo_sample 1234 0 7)).
  - vm_compute. lia.
  - simpl. lia.
  - repeat constructor; lia.
Defined.
