(* ===== verification/TsqStream.v ===== *)
(** * TSQ over TCP: what the listener logs is what the talkers sent

    A connection is a stream of bytes: read() hands over any number of the bytes
    that have been sent and have not been read, wherever the boundaries of the
    messages are.  Messages are 256 bytes long, 24 of them the payload, and reads
    take 255 at most, so a listener that finds more than one message waiting
    falls one byte further behind each time, and is level again when it finds
    nothing but the rest of a message.  The listener does not check that a read
    has delivered a whole payload: what is said here of the data file holds for
    the runs in which no read ends inside one.  This file follows the streams of
    both talkers through the accept loop and the listening loop. *)

From S2P Require Import Prelude Sys Libc Argp Tsq TsqListener TsqTalker.

Local Open Scope Z_scope.

(** ** Specification: streams *)

Section stream.
Context {OS : tsq_os}.

(** The bytes of the stream behind [fd] that have been read. *)
Fixpoint taken (fd : Z) (tr : list call) : nat :=
  match tr with
  | [] => 0
  | c :: tr' =>
      taken fd tr' +
      match c with
      | Read f n => if f =? fd then length (take n (default [] (os_read tr))) else 0
      | _ => 0
      end
  end.

(** The connections accepted, in order. *)
Fixpoint accepted (tr : list call) : list Z :=
  match tr with
  | [] => []
  | c :: tr' =>
      accepted tr' ++
      match c with
      | Accept _ => if os_accept tr <? 0 then [] else [os_accept tr]
      | _ => []
      end
  end.

(** What is left of a message after [off] bytes of the stream. *)
Definition lag (off : nat) : nat :=
  (BUFFER_SIZE - off mod BUFFER_SIZE) mod BUFFER_SIZE.

(** Nothing has been read from a connection that is accepted, and no read ends
    inside the payload of a message: where it ends, nothing is left of the
    message but padding. *)
Fixpoint orderly (tr : list call) : Prop :=
  match tr with
  | [] => True
  | c :: tr' =>
      orderly tr' ∧
      match c with
      | Read fd _ => lag (taken fd tr) <= BUFFER_SIZE - sizeof_payload
      | Accept _ => taken (os_accept tr) tr' = O
      | _ => True
      end%nat
  end.

#[global] Instance orderly_dec tr : Decision (orderly tr).
Proof. induction tr as [|[] tr IH]; cbn [orderly]; apply _. Defined.

(** Every connection then stands at the boundary of a message or in padding. *)
Lemma orderly_lag fd tr :
  orderly tr → (lag (taken fd tr) <= BUFFER_SIZE - sizeof_payload)%nat.
Proof.
  induction tr as [|c tr IH]; [intros _; apply Nat.leb_le; reflexivity|]. intros [Ho Hc].
  specialize (IH Ho). destruct c; cbn [taken]; rewrite ?Nat.add_0_r; try done.
  cbn [taken] in Hc. match goal with |- context [?f =? fd] => destruct (f =? fd) eqn:E end.
  - apply Z.eqb_eq in E as ->. by rewrite Z.eqb_refl in Hc.
  - by rewrite Nat.add_0_r.
Qed.

Context (sent : Z → list (list Z)).

(** read() hands over bytes that it has not handed over yet, in order. *)
Definition tcp : Prop := ∀ fd n tr data,
  os_read (Read fd n :: tr) = Some data →
  ∃ m, data = drop (taken fd tr) (take m (concat (sent fd))).

(** The samples behind the announcement of the UID, and those of which the
    listener has read anything. *)
Definition samples (fd : Z) : list payload := decode_payload <$> drop 1 (sent fd).

Definition arrived (fd : Z) (tr : list call) : list payload :=
  take ((taken fd tr + (BUFFER_SIZE - 1)) / BUFFER_SIZE - 1) (samples fd).

Definition same_second (x : payload * payload) : Prop := secs x.1 = secs x.2.

(** The data file of a list of pairs. *)
Definition log_lines (L : list (payload * payload)) : list (Z * Z * Z) :=
  imap (λ k x, (i32 (Z.of_nat k), 0, i64 (nsecs x.1 - nsecs x.2))) L.

(** The pairs logged: every sample of a pair was sent on the connection of its
    side, in the order of the file, and none is used twice. *)
Definition logs_pairs (tr : list call) : Prop := ∃ L,
  data_lines tr = log_lines L ∧ Forall same_second L ∧
  (L = [] ∨ ∃ c0 c1, accepted tr = [c0; c1] ∧
     L.*1 `sublist_of` samples c0 ∧ L.*2 `sublist_of` samples c1).

(** Samples of the same number are of the same second. *)
Definition same_seconds : Prop := ∀ c d k p q,
  samples c !! k = Some p → samples d !! k = Some q → secs p = secs q.

(** The connections keep in step, and the listener with them: select() reports
    the next sample of a connection when no fewer samples of the other have been
    begun, the announcement has arrived when it is read, and a read inside a
    message finds nothing behind it. *)
Fixpoint in_step (tr : list call) : Prop :=
  match tr with
  | [] => True
  | c :: tr' =>
      in_step tr' ∧
      match c with
      | Select _ fds =>
          let '(activity, _, ready) := os_select tr in
          Forall (λ fd, activity < 0 ∨ ready fd = true → (taken fd tr' mod BUFFER_SIZE = 0)%nat →
            Forall (λ fd', (length (arrived fd tr') <= length (arrived fd' tr'))%nat) fds) fds
      | Read fd _ =>
          let data := default [] (os_read tr) in
          (taken fd tr' = O → data ≠ []) ∧
          (taken fd tr' mod BUFFER_SIZE ≠ 0 → length data <= lag (taken fd tr'))%nat
      | _ => True
      end
  end.

#[global] Instance in_step_dec tr : Decision (in_step tr).
Proof. induction tr as [|[] tr IH]; simpl; apply _. Defined.

(** Of the pairs of samples of the same number that have been read, the data file
    holds all, or all but the last [d]. *)
Definition logs_all (d : nat) (tr : list call) : Prop := ∀ c0 c1,
  accepted tr = [c0; c1] →
  let pairs := zip (arrived c0 tr) (arrived c1 tr) in
  ∃ n, (length pairs <= n + d)%nat ∧ data_lines tr = log_lines (take n pairs).
End stream.

(** The pairs that may be missing in the end: a process that ends in the middle of
    a round has not compared the last one. *)
Definition slack {A} (o : outcome A) : nat := match o with Exited _ => 1 | _ => 0 end.

(** ** Lemmas: messages *)

(** A message is a payload, or a text of at most its length, and padding. *)
Definition padded (w : list Z) : Prop :=
  length w = BUFFER_SIZE ∧
  drop sizeof_payload w = replicate (BUFFER_SIZE - sizeof_payload) 0.

Lemma padded_write l :
  (length l <= sizeof_payload)%nat → padded (write_at (replicate BUFFER_SIZE 0) 0 l).
Proof.
  unfold sizeof_payload. intros Hl. assert (BUFFER_SIZE = 256%nat) as HB by done.
  split.
  - rewrite length_write_at; rewrite length_replicate; lia.
  - unfold write_at, sizeof_payload. rewrite take_0, drop_replicate. cbn [app].
    rewrite drop_app_ge, drop_replicate by lia. f_equal. lia.
Qed.

Lemma padded_send_buff p : padded (send_buff p).
Proof. apply padded_write. by rewrite length_encode_payload. Qed.

Lemma print_dec_length u : 0 <= u → (length (print_dec u) <= 20)%nat.
Proof.
  intros Hu. unfold print_dec. destruct (u <? 0) eqn:E; bool_to_prop; [lia|].
  pose proof (dec_aux_length 20 u []) as H. cbn [length] in H. lia.
Qed.

Lemma padded_uid_buff u : 0 <= u → padded (uid_buff u).
Proof.
  intros Hu. apply padded_write. rewrite length_app.
  pose proof (print_dec_length u Hu). simpl. unfold sizeof_payload. lia.
Qed.

Lemma padded_rest w r :
  padded w → (sizeof_payload <= r <= BUFFER_SIZE)%nat → drop r w = replicate (BUFFER_SIZE - r) 0.
Proof.
  intros [_ Hw] Hr. replace r with (sizeof_payload + (r - sizeof_payload))%nat by lia.
  rewrite <- drop_drop, Hw, drop_replicate. f_equal; lia.
Qed.

Lemma drop_concat (pre rest : list (list Z)) w r :
  Forall (λ w, length w = BUFFER_SIZE) pre → (r <= length w)%nat →
  drop (BUFFER_SIZE * length pre + r) (concat (pre ++ w :: rest)) = drop r w ++ concat rest.
Proof.
  intros Hpre Hr. induction Hpre as [|v pre Hv _ IH].
  - rewrite Nat.mul_0_r. cbn [app concat Nat.add]. by rewrite drop_app_le.
  - cbn [app concat length]. rewrite drop_app_ge by lia. rewrite <- IH. f_equal. lia.
Qed.

Lemma length_concat_messages (ws : list (list Z)) :
  Forall (λ w, length w = BUFFER_SIZE) ws → length (concat ws) = (BUFFER_SIZE * length ws)%nat.
Proof.
  induction 1 as [|w ws Hw _ IH]; [done|]. cbn [concat length]. rewrite length_app, IH. lia.
Qed.

(** ** Lemmas: what one read delivers *)

Definition id_ok (id : Z) : Prop := id = 0 ∨ 999 <= id <= 9999.

(** The buffer of the listener after a read of [data]. *)
Definition recv_buff (data : list Z) : list Z := write_at (replicate BUFFER_SIZE 0) 0 data.

Lemma foreign_uid_rejected pl ids n :
  Forall id_ok ids → ¬ 999 <= uid pl <= 9999 → validate_payload pl ids n = false.
Proof.
  intros Hids Hu. apply not_true_is_false. rewrite validate_payload_spec.
  intros (H0 & _ & _ & Hin). apply elem_of_take in Hin as (k & Hk & _).
  destruct (Forall_lookup_1 _ _ _ _ Hids Hk); lia.
Qed.

Lemma dec_aux_digits fuel z acc :
  0 <= z → Forall (λ b, 10 <= b <= 57) acc → Forall (λ b, 10 <= b <= 57) (dec_aux fuel z acc).
Proof.
  revert z acc. induction fuel as [|fuel IH]; intros z acc Hz Ha; [done|]. cbn [dec_aux].
  pose proof (Z.mod_pos_bound z 10). destruct (z <? 10) eqn:E; bool_to_prop.
  - constructor; [lia|done].
  - apply IH; [apply Z.div_pos; lia|]. constructor; [lia|done].
Qed.

Lemma dec_aux_longer fuel z acc :
  (fuel ≠ 0 → length acc < length (dec_aux fuel z acc))%nat.
Proof.
  revert z acc. induction fuel as [|[|fuel] IH]; intros z acc Hf; [done| |].
  - simpl. destruct (z <? 10); simpl; lia.
  - cbn [dec_aux]. destruct (z <? 10); [simpl; lia|].
    eapply Nat.lt_trans; [|apply (IH (z / 10)); done]. simpl. lia.
Qed.

Lemma uid_text u :
  999 <= u → ∃ a b c d rest, print_dec u ++ [10] = [a; b; c; d] ++ rest ∧
    Forall (λ x, 10 <= x <= 57) [a; b; c; d].
Proof.
  intros Hu. assert (Forall (λ b, 10 <= b <= 57) (print_dec u ++ [10])) as Hd.
  { unfold print_dec. destruct (u <? 0) eqn:E; bool_to_prop; [lia|].
    apply Forall_app. split; [apply dec_aux_digits; [lia|done]|by repeat constructor]. }
  assert (4 <= length (print_dec u ++ [10%Z]))%nat as Hl.
  { rewrite length_app. unfold print_dec. destruct (u <? 0) eqn:E; bool_to_prop; [lia|].
    pose proof (dec_aux_longer 18 (u / 10 / 10) [48 + u / 10 mod 10; 48 + u mod 10] ltac:(done)) as H.
    assert (∀ f z acc, 10 <= z → dec_aux (S f) z acc = dec_aux f (z / 10) ((48 + z mod 10) :: acc))
      as Hstep by (intros f z acc Hz; cbn [dec_aux]; by rewrite (proj2 (Z.ltb_ge z 10) Hz)).
    rewrite !Hstep by zsolve. cbn [length] in *. lia. }
  revert Hd Hl. match goal with |- Forall _ ?l → _ => generalize l end.
  intros [|a [|b [|c [|d rest]]]] Hd Hl; simpl in Hl; try lia.
  exists a, b, c, d, rest. split; [done|]. by apply (Forall_take _ 4) in Hd.
Qed.

(** No announcement of a UID passes for a sample: four digits, read as an int,
    make a larger number than any UID. *)
Lemma uid_buff_foreign u :
  999 <= u <= 9999 →
  ¬ 999 <= uid (decode_payload (recv_buff (take (BUFFER_SIZE - 1) (uid_buff u)))) <= 9999.
Proof.
  intros Hu. destruct (uid_text u ltac:(lia)) as (a & b & c & d & rest & E & Hd).
  unfold uid_buff. rewrite E.
  match goal with |- ¬ _ <= uid (decode_payload (?l)) <= _ =>
    assert (read_at l 0 4 = [a; b; c; d]) as El by reflexivity end.
  unfold decode_payload. cbn [uid]. rewrite El. cbn [le_decode].
  repeat match goal with H : Forall _ (_ :: _) |- _ => inversion_clear H end.
  unfold wrapS. zsolve.
Qed.

Lemma recv_zeros j : (j <= BUFFER_SIZE)%nat → recv_buff (replicate j 0) = replicate BUFFER_SIZE 0.
Proof.
  intros Hj. unfold recv_buff, write_at. rewrite take_0, drop_replicate, length_replicate.
  cbn [app]. rewrite <- replicate_add. f_equal; lia.
Qed.

Lemma recv_buff_eq d :
  (length d <= BUFFER_SIZE)%nat → recv_buff d = d ++ replicate (BUFFER_SIZE - length d) 0.
Proof. intros Hd. unfold recv_buff, write_at. by rewrite take_0, drop_replicate. Qed.

(** Zeros at the end make no difference to the buffer. *)
Lemma recv_buff_cut d n :
  (length d <= BUFFER_SIZE)%nat → drop n d = replicate (length d - n) 0 →
  recv_buff (take n d) = recv_buff d.
Proof.
  intros Hd E. rewrite !recv_buff_eq by (rewrite ?length_take; lia).
  rewrite <- (take_drop n d) at 3. rewrite E, <- app_assoc, <- replicate_add. do 2 f_equal.
  rewrite length_take. lia.
Qed.

Lemma slot_update_cut i d n l :
  (0 < n)%nat → d ≠ [] → (length d <= BUFFER_SIZE)%nat →
  drop n d = replicate (length d - n) 0 → slot_update i (take n d) l = slot_update i d l.
Proof.
  intros Hn Hd Hl E. unfold slot_update. fold (recv_buff (take n d)) (recv_buff d).
  rewrite recv_buff_cut by done. destruct d as [|b d]; [done|]. by destruct n; [lia|].
Qed.

(** The part of a message that a read at its start gets. *)
Lemma padded_cut w n :
  padded w → (sizeof_payload <= n <= BUFFER_SIZE - 1)%nat →
  let d := take (BUFFER_SIZE - 1) w in
  take n w = take n d ∧ drop n d = replicate (length d - n) 0 ∧ length d = (BUFFER_SIZE - 1)%nat.
Proof.
  intros Hw Hn d. unfold d. assert (length w = BUFFER_SIZE) as Hl by apply Hw.
  assert (length (take (BUFFER_SIZE - 1) w) = (BUFFER_SIZE - 1)%nat) as Hd
    by (rewrite length_take; lia).
  rewrite Hd, take_take, Nat.min_l by lia. split; [done|]. split; [|done].
  replace (BUFFER_SIZE - 1)%nat with (n + (BUFFER_SIZE - 1 - n))%nat at 1 by lia.
  rewrite <- take_drop_commute, (padded_rest w n Hw), take_replicate by lia. f_equal. lia.
Qed.

(** The four things a read that does not end in a payload may deliver: nothing of
    a message but padding, the announcement of the UID, a message that comes
    behind padding, or a sample. *)
Inductive delivery (u : Z) : list Z → option payload → Prop :=
| Padding j : (j < BUFFER_SIZE)%nat → delivery u (replicate j 0) None
| Announcement n : (sizeof_payload <= n <= BUFFER_SIZE - 1)%nat →
    delivery u (take n (uid_buff u)) None
| Late j n p : (1 <= j <= BUFFER_SIZE - sizeof_payload)%nat →
    (j + sizeof_payload <= n <= BUFFER_SIZE - 1)%nat → uid p = u →
    delivery u (replicate j 0 ++ take (n - j) (send_buff p)) None
| Sample n p : (sizeof_payload <= n <= BUFFER_SIZE - 1)%nat →
    payload_ok p → uid p = u → secs p ≠ 0 → nsecs p ≠ 0 →
    delivery u (take n (send_buff p)) (Some p).

(** What the slot makes of it. *)
Lemma slot_update_delivery u d op i l :
  delivery u d op → 999 <= u <= 9999 → Forall id_ok (cli_ids l) →
  slot_update i d l
  = if skip_slot l && (keep_data_slot l =? Z.of_nat i) then store_slot i (keep_data l) l
    else match op with
         | Some p => if validate_payload p (cli_ids l) CLIENT_COUNT then store_slot i p l else l
         | None => l
         end.
Proof.
  assert (∀ w : list Z, length w = (BUFFER_SIZE - 1)%nat → w ≠ []) as Hne by (by intros []).
  intros Hd Hu Hids. destruct Hd as [j Hj|n Hn|j n p Hj Hn Hp|n p Hn Hp _ _ _].
  - unfold slot_update. destruct (skip_slot l && _); [done|].
    fold (recv_buff (replicate j 0)). rewrite recv_zeros by lia. by destruct (0 <? _)%nat.
  - destruct (padded_cut _ n (padded_uid_buff u ltac:(lia)) Hn) as (-> & Ed & Hl).
    rewrite slot_update_cut by (done || (unfold sizeof_payload in *; lia) || by apply Hne).
    unfold slot_update. destruct (skip_slot l && _); [done|].
    fold (recv_buff (take (BUFFER_SIZE - 1) (uid_buff u))).
    rewrite foreign_uid_rejected; [by destruct (0 <? _)%nat|done|by apply uid_buff_foreign].
  - assert (length (late_read j p) = (BUFFER_SIZE - 1)%nat) as Hl.
    { unfold late_read. rewrite length_app, length_replicate, length_take, length_send_buff. lia. }
    assert (replicate j 0 ++ take (n - j) (send_buff p) = take n (late_read j p)) as ->.
    { unfold late_read. rewrite take_app, length_replicate, take_take.
      rewrite (take_ge (replicate j 0)) by (rewrite length_replicate; lia). do 2 f_equal. lia. }
    rewrite slot_update_cut; [|unfold sizeof_payload in *; lia|by apply Hne|lia|].
    + unfold slot_update. destruct (skip_slot l && _); [done|].
      rewrite foreign_uid_rejected; [by destruct (0 <? _)%nat|done|].
      apply late_read_uid; lia.
    + rewrite Hl. unfold late_read. rewrite drop_app_ge by (rewrite length_replicate; lia).
      rewrite length_replicate.
      replace (BUFFER_SIZE - 1 - j)%nat with ((n - j) + (BUFFER_SIZE - 1 - n))%nat by lia.
      rewrite <- take_drop_commute, (padded_rest _ _ (padded_send_buff p)), take_replicate by lia.
      f_equal. lia.
  - destruct (padded_cut _ n (padded_send_buff p) Hn) as (-> & Ed & Hl).
    rewrite slot_update_cut by (done || (unfold sizeof_payload in *; lia) || by apply Hne).
    unfold slot_update. destruct (skip_slot l && _); [done|].
    rewrite recv_buff_send_buff by done. by rewrite Hl.
Qed.

Section reads.
Context {OS : tsq_os} (sent : Z → list (list Z)) (who : Z → Z).
Context (Htcp : tcp sent).
Context (Hsent : ∀ fd, 999 <= who fd <= 9999 ∧ talker_wrote (who fd) (sent fd)).
Implicit Types tr : list call.

Lemma sent_messages fd : Forall padded (sent fd).
Proof.
  destruct (Hsent fd) as [Hu [->|(ps & -> & _)]]; [done|].
  constructor; [apply padded_uid_buff; lia|]. apply Forall_fmap, Forall_true, padded_send_buff.
Qed.

Lemma sent_sample fd k p :
  samples sent fd !! k = Some p →
  payload_ok p ∧ uid p = who fd ∧ secs p ≠ 0 ∧ nsecs p ≠ 0.
Proof.
  unfold samples. destruct (Hsent fd) as [Hu [->|(ps & -> & Hps)]]; [done|].
  change (drop 1 (uid_buff (who fd) :: map send_buff ps)) with (send_buff <$> ps). rewrite !list_lookup_fmap.
  intros (w & (q & Hq & ->)%fmap_Some & ->)%fmap_Some.
  destruct (Hps k q Hq) as (Hok & H1 & _ & H2 & H3).
  rewrite send_buff_eq, decode_encode_payload; auto.
Qed.

(** The message number [k + 1] of a stream carries sample [k]. *)
Lemma sent_lookup fd k w :
  sent fd !! S k = Some w → ∃ p, samples sent fd !! k = Some p ∧ w = send_buff p.
Proof.
  unfold samples. destruct (Hsent fd) as [Hu [->|(ps & -> & Hps)]]; [done|].
  change (drop 1 (uid_buff (who fd) :: map send_buff ps)) with (send_buff <$> ps).
  change ((uid_buff (who fd) :: map send_buff ps) !! S k) with ((send_buff <$> ps) !! k).
  rewrite !list_lookup_fmap. intros (q & Hq & ->)%fmap_Some. exists q. split; [|done].
  rewrite Hq. cbn. rewrite send_buff_eq, decode_encode_payload; [done|]. by apply (Hps k q Hq).
Qed.

Lemma sent_head fd w : sent fd !! O = Some w → w = uid_buff (who fd).
Proof. destruct (Hsent fd) as [Hu [->|(ps & -> & _)]]; [done|]. by intros [=]. Qed.

(** Where the stream stands, and what a read may deliver there. *)
Lemma stream_position fd n tr data :
  os_read (Read fd n :: tr) = Some data →
  let off := taken fd tr in
  let q := (off / BUFFER_SIZE)%nat in
  let r := (off mod BUFFER_SIZE)%nat in
  data = [] ∨ ∃ w rest k, sent fd !! q = Some w ∧ data = take k (drop r w ++ concat rest) ∧
    (rest = [] ∨ ∃ v rest', rest = v :: rest' ∧ sent fd !! S q = Some v).
Proof.
  intros Hd off q r. destruct (Htcp fd n tr data Hd) as [m ->]. fold off.
  pose proof (Nat.div_mod_eq off BUFFER_SIZE) as Eoff. fold q r in Eoff.
  assert (r < BUFFER_SIZE)%nat as Hr by (apply Nat.mod_upper_bound; discriminate).
  assert (Forall (λ w, length w = BUFFER_SIZE) (sent fd)) as Hlen
    by (eapply Forall_impl; [apply sent_messages|by intros w [? _]]).
  destruct (decide (m <= off)%nat) as [Hm|Hm].
  { left. apply drop_ge. rewrite length_take. lia. }
  replace m with (off + (m - off))%nat by lia. rewrite <- take_drop_commute.
  destruct (sent fd !! q) as [w|] eqn:Eq.
  2: { left. apply lookup_ge_None in Eq.
       rewrite drop_ge; [apply take_nil|rewrite length_concat_messages by done; nia]. }
  right. pose proof (take_drop_middle (sent fd) q w Eq) as Ews.
  assert (length (take q (sent fd)) = q) as Htq
    by (rewrite length_take; apply lookup_lt_Some in Eq; lia).
  exists w, (drop (S q) (sent fd)), (m - off)%nat. split; [done|]. split.
  - f_equal. rewrite <- Ews at 1. rewrite Eoff. rewrite <- Htq at 1.
    apply drop_concat; [by apply Forall_take|]. rewrite (Forall_lookup_1 _ _ _ _ Hlen Eq). lia.
  - destruct (drop (S q) (sent fd)) as [|v rest'] eqn:Er; [by left|]. right. exists v, rest'.
    split; [done|]. by rewrite <- (Nat.add_0_r (S q)), <- lookup_drop, Er.
Qed.

Lemma taken_other fd f n tr : fd ≠ f → taken fd (Read f n :: tr) = taken fd tr.
Proof.
  intros H. cbn [taken]. rewrite (proj2 (Z.eqb_neq f fd)) by congruence. apply Nat.add_0_r.
Qed.

Lemma arrived_mono fd c tr : arrived sent fd tr `prefix_of` arrived sent fd (c :: tr).
Proof.
  unfold arrived. apply prefix_take_le.
  assert (taken fd tr <= taken fd (c :: tr))%nat by (cbn [taken]; lia).
  assert ((taken fd tr + (BUFFER_SIZE - 1)) / BUFFER_SIZE
          <= (taken fd (c :: tr) + (BUFFER_SIZE - 1)) / BUFFER_SIZE)%nat
    by (apply Nat.Div0.div_le_mono; lia).
  lia.
Qed.

Lemma taken_read fd n tr data :
  os_read (Read fd n :: tr) = Some data →
  taken fd (Read fd n :: tr) = (taken fd tr + length (take n data))%nat.
Proof. intros H. cbn [taken]. by rewrite Z.eqb_refl, H. Qed.

(** A read at the start of sample [k] adds it to those that have arrived. *)
Lemma arrived_sample fd k tr data p :
  os_read (Read fd (BUFFER_SIZE - 1) :: tr) = Some data →
  taken fd tr = (BUFFER_SIZE * S k)%nat → data ≠ [] →
  samples sent fd !! k = Some p →
  arrived sent fd (Read fd (BUFFER_SIZE - 1) :: tr) = arrived sent fd tr ++ [p].
Proof.
  intros Hd Ht Hl Hp. unfold arrived. rewrite (taken_read _ _ _ _ Hd), Ht, length_take.
  assert (1 <= length data)%nat as Hl' by (destruct data; [done|simpl; lia]).
  change BUFFER_SIZE with 256%nat in *. set (n := ((256 - 1) `min` length data)%nat).
  assert ((256 * S k + n + (256 - 1)) / 256 = S (S k))%nat as ->
    by (symmetry; apply (Nat.div_unique _ 256 _ (n - 1)); lia).
  assert ((256 * S k + (256 - 1)) / 256 = S k)%nat as ->
    by (symmetry; apply (Nat.div_unique _ 256 _ 255); lia).
  cbn [Nat.sub]. rewrite Nat.sub_0_r. by apply take_S_r.
Qed.

(** A read of an announcement, or of the rest of a message, begins no sample. *)
Lemma arrived_rest fd tr data :
  os_read (Read fd (BUFFER_SIZE - 1) :: tr) = Some data →
  data = [] ∨ taken fd tr = O ∨ (taken fd tr mod BUFFER_SIZE ≠ 0)%nat →
  in_step sent (Read fd (BUFFER_SIZE - 1) :: tr) →
  arrived sent fd (Read fd (BUFFER_SIZE - 1) :: tr) = arrived sent fd tr.
Proof.
  intros Hd Hcase [_ [_ Hrest]]. rewrite Hd in Hrest. cbn [from_option id] in Hrest.
  unfold arrived. rewrite (taken_read _ _ _ _ Hd), length_take. f_equal.
  destruct Hcase as [->|[E|Hr]].
  - cbn [length]. by rewrite Nat.min_0_r, Nat.add_0_r.
  - rewrite E. change BUFFER_SIZE with 256%nat.
    assert ((0 + (256 - 1) `min` length data + (256 - 1)) / 256 < 2)%nat
      by (apply Nat.Div0.div_lt_upper_bound; lia).
    change ((0 + (256 - 1)) / 256)%nat with O. lia.
  - specialize (Hrest Hr). unfold lag in Hrest.
    pose proof (Nat.div_mod_eq (taken fd tr) BUFFER_SIZE) as Eoff.
    pose proof (Nat.mod_upper_bound (taken fd tr) BUFFER_SIZE ltac:(discriminate)) as Hlt.
    set (q := (taken fd tr / BUFFER_SIZE)%nat) in *. set (r := (taken fd tr mod BUFFER_SIZE)%nat) in *.
    clearbody q r. rewrite Nat.mod_small in Hrest by lia. rewrite Eoff.
    change BUFFER_SIZE with 256%nat in *.
    assert (∀ x, (1 <= x <= 256)%nat → ((256 * q + x + (256 - 1)) / 256 = S q)%nat) as E.
    { intros x Hx. symmetry. apply (Nat.div_unique _ 256 (S q) (x - 1)); lia. }
    rewrite <- (Nat.add_assoc (256 * q) r). rewrite !E by lia. done.
Qed.

Lemma read_delivery fd tr data :
  os_read (Read fd (BUFFER_SIZE - 1) :: tr) = Some data →
  let tr' := Read fd (BUFFER_SIZE - 1) :: tr in
  (lag (taken fd tr) <= BUFFER_SIZE - sizeof_payload)%nat →
  (lag (taken fd tr') <= BUFFER_SIZE - sizeof_payload)%nat →
  ∃ op, delivery (who fd) (take (BUFFER_SIZE - 1) data) op ∧
    match op with
    | Some p => arrived sent fd tr' = arrived sent fd tr ++ [p] ∧ (taken fd tr mod BUFFER_SIZE = 0)%nat
    | None => in_step sent tr' → arrived sent fd tr' = arrived sent fd tr
    end.
Proof.
  intros Hd tr' Hlag Hend. pose proof (arrived_rest fd tr data Hd) as Hsame. fold tr' in Hsame.
  unfold tr' in Hend. rewrite (taken_read _ _ _ _ Hd) in Hend. unfold lag in Hlag, Hend.
  pose proof (stream_position _ _ _ _ Hd) as Hpos. cbv zeta in Hpos.
  pose proof (Nat.div_mod_eq (taken fd tr) BUFFER_SIZE) as Eoff.
  pose proof (Nat.mod_upper_bound (taken fd tr) BUFFER_SIZE ltac:(discriminate)) as Hr.
  set (q := (taken fd tr / BUFFER_SIZE)%nat) in *.
  set (r := (taken fd tr mod BUFFER_SIZE)%nat) in *.
  clearbody q r. destruct (decide (data = [])) as [->|Hne].
  { exists None. split; [|by auto]. rewrite take_nil. apply (Padding _ 0). unfold BUFFER_SIZE. lia. }
  destruct Hpos as [->|(w & rest & k & Hw & Ed & Hrest)]; [done|].
  pose proof (Forall_lookup_1 _ _ _ _ (sent_messages fd) Hw) as Hpad.
  assert (length w = BUFFER_SIZE) as Hlw by apply Hpad.
  assert (∃ n, take (BUFFER_SIZE - 1) data = take n (drop r w ++ concat rest) ∧
    n = length (take (BUFFER_SIZE - 1) data) ∧ (0 < n <= BUFFER_SIZE - 1)%nat) as (n & E & En & Hn).
  { eexists. split; [|split; [reflexivity|]].
    - rewrite Ed at 1. rewrite Ed, take_take, !length_take.
      destruct (decide (length (drop r w ++ concat rest) <= (BUFFER_SIZE - 1) `min` k)%nat) as [Hge|Hlt].
      + rewrite !take_ge by lia. done.
      + f_equal. lia.
    - rewrite length_take. destruct data; [done|]. change BUFFER_SIZE with 256%nat. simpl length. lia. }
  rewrite <- En in Hend. rewrite E. clear E Ed.
  destruct (decide (r = 0)%nat) as [Er|Er].
  - subst r. rewrite drop_0, take_app_le by lia.
    assert (sizeof_payload <= n)%nat as Hn'.
    { rewrite Eoff, Nat.add_0_r, (Nat.mul_comm BUFFER_SIZE), Nat.add_comm, Nat.Div0.mod_add in Hend.
      rewrite (Nat.mod_small n), (Nat.mod_small (_ - n)) in Hend by lia.
      unfold sizeof_payload in *. lia. }
    destruct q as [|k'].
    + exists None. rewrite (sent_head _ _ Hw). split; [apply Announcement; lia|].
      apply Hsame. right; left. lia.
    + destruct (sent_lookup _ _ _ Hw) as (p & Hp & ->). exists (Some p).
      split; [by apply sent_sample in Hp as (? & ? & ? & ?); apply Sample; try done; lia|]. split; [|done].
      apply (arrived_sample fd k' tr _ p Hd); [lia|done..].
  - exists None. split; [|by auto]. rewrite Nat.mod_small in Hlag by lia.
    rewrite (padded_rest w r Hpad) by (unfold sizeof_payload in *; lia).
    destruct (decide (n <= BUFFER_SIZE - r)%nat) as [Hle|Hgt].
    { rewrite take_app_le, take_replicate, Nat.min_l by (rewrite ?length_replicate; lia).
      apply Padding. lia. }
    destruct Hrest as [->|(v & rest' & -> & Hv)].
    + rewrite app_nil_r, take_ge by (rewrite length_replicate; lia). apply Padding. lia.
    + destruct (sent_lookup _ _ _ Hv) as (p & Hp & ->). cbn [concat].
      rewrite take_app, length_replicate, take_ge by (rewrite length_replicate; lia).
      rewrite take_app_le by (rewrite length_send_buff; lia).
      apply Late; [lia| |by apply sent_sample in Hp as (_ & ? & _)].
      assert ((taken fd tr + n) mod BUFFER_SIZE = n - (BUFFER_SIZE - r))%nat as Emod.
      { symmetry. apply (Nat.mod_unique _ _ (S q)); lia. }
      rewrite Emod, Nat.mod_small in Hend by lia. unfold sizeof_payload in *. lia.
Qed.

(** The first read of a connection. *)
Lemma first_read fd tr data :
  os_read (Read fd (BUFFER_SIZE - 1) :: tr) = Some data → taken fd tr = O →
  (lag (taken fd (Read fd (BUFFER_SIZE - 1) :: tr)) <= BUFFER_SIZE - sizeof_payload)%nat →
  let id := atoi (cstr (recv_buff (take (BUFFER_SIZE - 1) data))) in
  id_ok id ∧ (data ≠ [] → id = who fd).
Proof.
  intros Hd Ht Hend.
  assert (taken fd tr mod BUFFER_SIZE = 0)%nat as Hm by by rewrite Ht.
  assert (lag (taken fd tr) <= BUFFER_SIZE - sizeof_payload)%nat as Hlag
    by (rewrite Ht; apply Nat.leb_le; reflexivity).
  destruct (decide (data = [])) as [->|Hne]; [split; [left; vm_compute; reflexivity|done]|].
  pose proof (stream_position _ _ _ _ Hd) as Hpos. cbv zeta in Hpos. rewrite Ht in Hpos.
  change (0 / BUFFER_SIZE)%nat with O in Hpos. change (0 mod BUFFER_SIZE)%nat with O in Hpos.
  destruct Hpos as [->|(w & rest & k & Hw & Ed & _)]; [done|]. rewrite (sent_head _ _ Hw), drop_0 in Ed.
  destruct (Hsent fd) as [Hu _].
  assert (padded (uid_buff (who fd))) as Hpad by (apply padded_uid_buff; lia).
  rewrite (taken_read _ _ _ _ Hd), Ht in Hend. cbn [Nat.add] in Hend.
  set (n := length (take (BUFFER_SIZE - 1) data)) in *.
  assert (take (BUFFER_SIZE - 1) data = take n (uid_buff (who fd)) ∧ (0 < n <= BUFFER_SIZE - 1)%nat)
    as [E Hn].
  { split.
    - unfold n. rewrite Ed, take_take, length_take, length_app, (proj1 Hpad).
      rewrite take_app_le by (rewrite (proj1 Hpad); lia). f_equal. lia.
    - unfold n. rewrite length_take. destruct data; [done|]. change BUFFER_SIZE with 256%nat. simpl length. lia. }
  unfold lag in Hend. rewrite (Nat.mod_small n), (Nat.mod_small (_ - n)) in Hend by lia.
  destruct (padded_cut _ n Hpad) as (E1 & E2 & Hl); [unfold sizeof_payload in *; lia|].
  rewrite E, E1, recv_buff_cut by (done || lia).
  unfold recv_buff. rewrite uid_read_back by (unfold INT_MAX; lia). split; [by right|done].
Qed.
End reads.

(** ** Lemmas: the state of the listener *)

(** The sample of slot [i] that may still be logged: the one that is held for
    it, or the one it has received. *)
Definition pending (l : lstate) (i : nat) : list payload :=
  if skip_slot l && (keep_data_slot l =? Z.of_nat i) then [keep_data l]
  else if default false (pl_valid_flag l !! i) then [slot_data l i] else [].

Definition side (i : nat) (x : payload * payload) : payload :=
  match i with O => x.1 | _ => x.2 end.

(** A call that neither logs nor accepts; one that does not read either. *)
Definition plain (c : call) : Prop :=
  match c with Fprintf _ _ _ | Accept _ => False | _ => True end.

Definition calm (c : call) : Prop :=
  match c with Fprintf _ _ _ | Accept _ | Read _ _ => False | _ => True end.

Section state.
Context {OS : tsq_os} (sent : Z → list (list Z)) (who : Z → Z).
Context (Htcp : tcp sent).
Context (Hsent : ∀ fd, 999 <= who fd <= 9999 ∧ talker_wrote (who fd) (sent fd)).
Implicit Types tr : list call.

Definition punctual tr : Prop := same_seconds sent ∧ in_step sent tr.

Definition arrived_on (l : lstate) (i : nat) tr : list payload :=
  arrived sent (nth i (cli_conns l) 0) tr.

(** Nothing is lost: what has arrived is logged or pending. *)
Record kept (l : lstate) (L : list (payload * payload)) tr : Prop := {
  kept_skip : skip_slot l = false;
  kept_ids : cli_ids l = who <$> cli_conns l;
  kept_conns : NoDup (cli_conns l);
  kept_all : ∀ i, (i < CLIENT_COUNT)%nat → (side i <$> L) ++ pending l i = arrived_on l i tr
}.

(** What has been logged and what may still be, in terms of what has arrived. *)
Record sinv (l : lstate) tr : Prop := {
  sinv_linv : linv (cli_ids l) l;
  sinv_ids : Forall id_ok (cli_ids l);
  sinv_conns : cli_conns l = accepted tr;
  sinv_two : length (accepted tr) = CLIENT_COUNT;
  sinv_keep : skip_slot l = true → ∀ i, keep_data_slot l = Z.of_nat i →
    pl_valid_flag l !! i = Some true → slot_data l i = keep_data l;
  sinv_log : ∃ L, data_lines tr = log_lines L ∧ Forall same_second L ∧
    rounds l = i32 (Z.of_nat (length L)) ∧
    (∀ i, (i < CLIENT_COUNT)%nat → ((side i <$> L) ++ pending l i) `sublist_of` arrived_on l i tr) ∧
    (punctual tr → kept l L tr)
}.

Lemma log_lines_snoc L x :
  log_lines (L ++ [x])
  = log_lines L ++ [(i32 (Z.of_nat (length L)), 0, i64 (nsecs x.1 - nsecs x.2))].
Proof. unfold log_lines. rewrite imap_app. simpl. by rewrite Nat.add_0_r. Qed.

Lemma calm_plain c : calm c → plain c.
Proof. by destruct c. Qed.

Lemma plain_lines c tr : plain c → data_lines (c :: tr) = data_lines tr.
Proof. intros H. rewrite data_lines_cons. destruct c; try done; apply app_nil_r. Qed.

Lemma plain_accepted c tr : plain c → accepted (c :: tr) = accepted tr.
Proof. intros H. cbn [accepted]. destruct c; try done; apply app_nil_r. Qed.

Lemma punctual_cons c tr : punctual (c :: tr) → punctual tr.
Proof. by intros [H [? _]]. Qed.

Lemma arrived_calm c fd tr : calm c → arrived sent fd (c :: tr) = arrived sent fd tr.
Proof. intros H. unfold arrived. cbn [taken]. destruct c; try done; by rewrite Nat.add_0_r. Qed.

Lemma arrived_other fd f n tr : fd ≠ f → arrived sent fd (Read f n :: tr) = arrived sent fd tr.
Proof. intros H. unfold arrived. by rewrite taken_other. Qed.

Lemma kept_cons l L c tr :
  (∀ fd, arrived sent fd (c :: tr) = arrived sent fd tr) → kept l L tr → kept l L (c :: tr).
Proof.
  intros Ha [H1 H2 H3 H4]. split; [done..|]. intros i Hi. unfold arrived_on. rewrite Ha. by apply H4.
Qed.

Lemma arrived_failed fd f n tr :
  os_read (Read f n :: tr) = None → arrived sent fd (Read f n :: tr) = arrived sent fd tr.
Proof.
  intros H. unfold arrived. cbn [taken]. rewrite H. cbn [from_option].
  rewrite take_nil. destruct (f =? fd); cbn [length]; by rewrite Nat.add_0_r.
Qed.

(** A call that begins no sample. *)
Lemma sinv_cons c l tr :
  plain c → (punctual (c :: tr) → ∀ fd, arrived sent fd (c :: tr) = arrived sent fd tr) →
  sinv l tr → sinv l (c :: tr).
Proof.
  intros Hc Ha [H1 H2 H3 H4 H5 (L & E & Hs & Hr & HL & HK)].
  split; rewrite ?plain_accepted by done; auto.
  exists L. rewrite plain_lines by done. do 3 (split; [done|]). split.
  - intros i Hi. etrans; [by apply HL|]. apply prefix_of_sublist, arrived_mono.
  - intros Hp. apply kept_cons; [by apply Ha|]. apply HK. by eapply punctual_cons.
Qed.

Lemma sinv_calm c l tr : calm c → sinv l tr → sinv l (c :: tr).
Proof. intros Hc. apply sinv_cons; [by apply calm_plain|]. intros _ fd. by apply arrived_calm. Qed.

Lemma pending_store l i j p :
  length (cli_data l) = CLIENT_COUNT → length (pl_valid_flag l) = CLIENT_COUNT →
  (i < CLIENT_COUNT)%nat →
  pending (store_slot i p l) j
  = if decide (i = j) then
      if skip_slot l && (keep_data_slot l =? Z.of_nat i) then [keep_data l] else [p]
    else pending l j.
Proof.
  intros Hd Hf Hi. unfold pending. cbn [store_slot skip_slot keep_data_slot keep_data pl_valid_flag].
  rewrite slot_data_store by lia. case_decide as Hij.
  - subst j. destruct (_ && _); [done|]. by rewrite list_lookup_insert_eq by lia.
  - by rewrite list_lookup_insert_ne.
Qed.

Lemma kept_other l L i j tr :
  kept l L tr → length (cli_conns l) = CLIENT_COUNT → (i < CLIENT_COUNT)%nat → (j < CLIENT_COUNT)%nat →
  i ≠ j → nth j (cli_conns l) 0 ≠ nth i (cli_conns l) 0.
Proof.
  intros HK Hl Hi Hj Hne E. apply Hne.
  apply (NoDup_lookup (cli_conns l) i j (nth i (cli_conns l) 0) (kept_conns _ _ _ HK)); [|rewrite <- E];
    by match goal with |- cli_conns l !! ?k = _ =>
      destruct (nth_lookup_or_length (cli_conns l) k 0); [|lia] end.
Qed.

Lemma pending_slot_other i j d l :
  linv (cli_ids l) l → (i < CLIENT_COUNT)%nat → i ≠ j → pending (slot_update i d l) j = pending l j.
Proof.
  intros [_ Hd Hf _ _] Hi Hne. unfold slot_update.
  repeat case_match; try done; rewrite pending_store by done; by rewrite decide_False.
Qed.

(** While nothing is held, a talker's samples are valid. *)
Lemma kept_valid l L tr i p :
  kept l L tr → (i < CLIENT_COUNT)%nat → length (cli_conns l) = CLIENT_COUNT →
  uid p = who (nth i (cli_conns l) 0) → secs p ≠ 0 → nsecs p ≠ 0 →
  validate_payload p (cli_ids l) CLIENT_COUNT = true.
Proof.
  intros HK Hi Hl Hu Hs Hn. apply validate_payload_spec.
  destruct (Hsent (nth i (cli_conns l) 0)) as [Hw _]. split; [lia|]. do 2 (split; [done|]).
  rewrite (kept_ids _ _ _ HK), take_ge by (rewrite length_fmap; lia). rewrite Hu.
  apply list_elem_of_fmap_2, list_elem_of_In, nth_In. lia.
Qed.

(** A sample that is read into a free slot. *)
Lemma sinv_sample i l tr n p :
  (i < CLIENT_COUNT)%nat → sinv l tr → valid_sample (cli_ids l) p →
  skip_slot l && (keep_data_slot l =? Z.of_nat i) = false →
  let fd := nth i (cli_conns l) 0 in
  arrived sent fd (Read fd n :: tr) = arrived sent fd tr ++ [p] →
  (punctual (Read fd n :: tr) → pending l i = []) →
  sinv (store_slot i p l) (Read fd n :: tr).
Proof.
  intros Hi [H1 H2 H3 H4 H5 (L & EL & Hs & Hr & HL & HK)] Hp Ek fd Harr Hfree.
  pose proof (linv_data _ _ H1) as Hld. pose proof (linv_flags _ _ H1) as Hlf.
  split; rewrite ?plain_accepted by done; try done.
  - by apply store_slot_linv.
  - simpl. intros Hsk j Hj Hjf. rewrite Hsk, Hj in Ek. simpl in Ek. bool_to_prop.
    rewrite slot_data_store by lia. case_decide; [lia|].
    rewrite list_lookup_insert_ne in Hjf by done. by apply H5.
  - exists L. rewrite plain_lines by done. do 3 (split; [done|]). split.
    + intros j Hj. rewrite pending_store, Ek by done. unfold arrived_on. cbn [store_slot cli_conns].
      case_decide as Hij.
      * subst j. fold fd. rewrite Harr.
        apply sublist_app; [|done]. etrans; [|by apply HL]. by apply sublist_inserts_r.
      * etrans; [by apply HL|]. apply prefix_of_sublist, arrived_mono.
    + intros Hpu. specialize (HK (punctual_cons _ _ Hpu)). split; try apply HK.
      intros j Hj. rewrite pending_store, Ek by done. unfold arrived_on. cbn [store_slot cli_conns].
      pose proof (kept_all _ _ _ HK j Hj) as Hall. unfold arrived_on in Hall. case_decide as Hij.
      * subst j. fold fd in Hall |- *. rewrite Hfree, app_nil_r in Hall by done. by rewrite Harr, Hall.
      * rewrite arrived_other; [done|].
        apply (kept_other l L i j tr); [done|by rewrite H3|done..].
Qed.

(** A slot after one read: nothing is logged, the samples pending have
    arrived, and a sample that is held stays. *)
Lemma sinv_slot i l tr data :
  (i < CLIENT_COUNT)%nat → sinv l tr →
  let fd := nth i (cli_conns l) 0 in
  let c := Read fd (BUFFER_SIZE - 1) in
  os_read (c :: tr) = Some data → orderly (c :: tr) →
  (punctual (c :: tr) → (taken fd tr mod BUFFER_SIZE = 0)%nat → pending l i = []) →
  sinv (slot_update i (take (BUFFER_SIZE - 1) data) l) (c :: tr).
Proof.
  intros Hi Hinv fd c Hd [Ho Hend] Hfree.
  destruct (read_delivery sent who Htcp Hsent fd tr data Hd) as (op & Hdel & Harr);
    [by apply orderly_lag|exact Hend|].
  fold c in Harr.
  rewrite (slot_update_delivery (who fd) _ op i l Hdel (proj1 (Hsent fd)) (sinv_ids _ _ Hinv)).
  assert (punctual (c :: tr) → skip_slot l = false ∧
    ∀ p, op = Some p → validate_payload p (cli_ids l) CLIENT_COUNT = true) as Hpu.
  { intros Hp%punctual_cons. destruct (sinv_log _ _ Hinv) as (L & _ & _ & _ & _ & HK).
    specialize (HK Hp). split; [apply HK|]. intros p ->. inversion Hdel; subst.
    apply (kept_valid l L tr i); try done. rewrite (sinv_conns _ _ Hinv). apply Hinv. }
  assert ((punctual (c :: tr) → arrived sent fd (c :: tr) = arrived sent fd tr) →
    sinv l (c :: tr)) as Hsame.
  { intros Ha. apply sinv_cons; [done| |done]. intros Hp f. destruct (decide (f = fd)) as [->|].
    - by apply Ha.
    - by apply arrived_other. }
  destruct (skip_slot l && (keep_data_slot l =? Z.of_nat i)) eqn:Ek.
  - assert (sinv l (c :: tr)) as [H1 H2 H3 H4 H5 (L & EL & Hs & Hr & HL & HK)].
    { apply Hsame. intros Hp. destruct (Hpu Hp) as [E _]. by rewrite E in Ek. }
    apply andb_true_iff in Ek as Ek'. destruct Ek' as [Esk _].
    pose proof (linv_data _ _ H1) as Hld. pose proof (linv_flags _ _ H1) as Hlf.
    split; try done.
    + apply store_slot_linv; [done|done|]. by apply (linv_keep _ _ H1).
    + simpl. intros Hsk j Hj Hjf. rewrite slot_data_store by lia. case_decide; [done|].
      rewrite list_lookup_insert_ne in Hjf by done. by apply H5.
    + exists L. do 3 (split; [done|]). split.
      * intros j Hj. rewrite pending_store, Ek by done.
        case_decide as Hij; [|by apply HL]. specialize (HL j Hj). subst j.
        unfold pending in HL. by rewrite Ek in HL.
      * intros Hp. destruct (Hpu Hp) as [E _]. congruence.
  - destruct op as [p|]; [|apply Hsame; intros [_ Hp]; by apply Harr].
    destruct Harr as [Harr Hmod]. destruct (validate_payload _ _ _) eqn:Ev.
    + apply sinv_sample; try done; [|by auto]. split; [|done]. by inversion Hdel.
    + apply Hsame. intros Hp. destruct (Hpu Hp) as [_ E]. specialize (E p eq_refl). congruence.
Qed.

Lemma pending_ready l tr i :
  sinv l tr → data_ready (pl_valid_flag l) CLIENT_COUNT = true → (i < CLIENT_COUNT)%nat →
  pending l i = [slot_data l i].
Proof.
  intros Hinv Hr Hi. pose proof (proj1 (data_ready_spec _ _) Hr i Hi) as Hf.
  unfold pending. rewrite Hf. destruct (_ && _) eqn:E; [|done].
  apply andb_true_iff in E as [E1 E2%Z.eqb_eq]. by rewrite (sinv_keep _ _ Hinv E1 i E2 Hf).
Qed.

(** The table after a comparison, and what is held then. *)
Lemma compare_update_table l :
  length (pl_valid_flag l) = CLIENT_COUNT →
  let l' := (compare_update l).1 in
  cli_ids l' = cli_ids l ∧ cli_conns l' = cli_conns l ∧
  (∀ i, pl_valid_flag l' !! i ≠ Some true) ∧
  ∀ i, (i < CLIENT_COUNT)%nat → pending l' i = [] ∨
    (compare_update l).2 = None ∧ pending l' i = [slot_data l i].
Proof.
  intros Hf. assert (∃ b0 b1, pl_valid_flag l = [b0; b1]) as (b0 & b1 & E).
  { destruct (pl_valid_flag l) as [|b0 [|b1 []]]; try done. eauto. }
  unfold compare_update. rewrite E. cbv zeta.
  repeat case_match; cbn [fst snd cli_ids cli_conns pl_valid_flag reset_data_ready];
    (split; [done|]; split; [done|]; split; [by intros [|[|i]]|]).
  all: intros [|[|i]] Hi; try (exfalso; unfold CLIENT_COUNT in Hi; lia); unfold pending; simpl; auto.
Qed.

(** No pair waits to be compared. *)
Definition settled (l : lstate) : Prop := data_ready (pl_valid_flag l) CLIENT_COUNT = false.

Lemma compare_settled l : settled (compare_slots l).1.
Proof.
  unfold settled, compare_slots.
  destruct (data_ready (pl_valid_flag l) CLIENT_COUNT) eqn:Hr; [|done].
  apply not_true_is_false. intros H. pose proof (proj1 (data_ready_spec _ _) H) as Hall.
  specialize (Hall 0%nat ltac:(unfold CLIENT_COUNT; lia)). revert Hall.
  unfold compare_update. by repeat case_match; destruct (pl_valid_flag l).
Qed.

(** Two samples of the same second are logged. *)
Lemma compare_same_second l :
  data_ready (pl_valid_flag l) CLIENT_COUNT = true → secs (slot_data l 0) = secs (slot_data l 1) →
  (compare_slots l).2 ≠ None ∧ skip_slot (compare_slots l).1 = false.
Proof.
  intros Hr E. unfold compare_slots. rewrite Hr. unfold compare_update. by rewrite E, Z.sub_diag.
Qed.

Lemma kept_same_second l L tr :
  punctual tr → kept l L tr → length (accepted tr) = CLIENT_COUNT →
  pending l 0 = [slot_data l 0] → pending l 1 = [slot_data l 1] →
  secs (slot_data l 0) = secs (slot_data l 1).
Proof.
  intros [Hsec _] HK _ H0 H1.
  assert (∀ i, (i < CLIENT_COUNT)%nat → pending l i = [slot_data l i] →
    samples sent (nth i (cli_conns l) 0) !! length L = Some (slot_data l i)) as Hs.
  { intros i Hi Hp. pose proof (kept_all _ _ _ HK i Hi) as E. rewrite Hp in E.
    unfold arrived_on, arrived in E. eapply prefix_lookup_Some; [|apply prefix_take].
    rewrite <- E. apply list_lookup_middle. by rewrite length_fmap. }
  eapply Hsec; apply Hs; (done || unfold CLIENT_COUNT; lia).
Qed.

Lemma sinv_compare l tr :
  sinv l tr →
  let '(l', line) := compare_slots l in
  sinv l' (match line with Some (r, x, n) => Fprintf r x n :: tr | None => tr end).
Proof.
  intros Hinv. pose proof (compare_slots_linv (cli_ids l) l (sinv_linv _ _ Hinv)) as Hl'.
  pose proof (compare_same_second l) as Hsame.
  destruct (compare_slots l) as [l' line] eqn:Ec. cbn [fst snd] in Hl', Hsame.
  pose proof Ec as Ecu. unfold compare_slots in Ecu.
  destruct (data_ready (pl_valid_flag l) CLIENT_COUNT) eqn:Hr; [|by injection Ecu as <- <-].
  assert (∀ i, (i < CLIENT_COUNT)%nat → pending l i = [slot_data l i]) as Hp
    by (intros; by eapply pending_ready).
  destruct (compare_update_table l (linv_flags _ _ (sinv_linv _ _ Hinv))) as (Eids & Econ & Hfl & Hpen).
  rewrite Ecu in Eids, Econ, Hfl, Hpen. cbn [fst snd] in *.
  destruct Hinv as [H1 H2 H3 H4 H5 (L & EL & Hs & Hro & HL & HK)].
  assert (punctual tr → line ≠ None ∧ skip_slot l' = false) as Hlog.
  { intros Hpu. apply Hsame; [done|]. apply (kept_same_second l L tr); auto;
      apply Hp; unfold CLIENT_COUNT; lia. }
  destruct line as [[[r x] n]|].
  - destruct (compare_slots_line _ _ _ _ _ _ H1 Ec) as (-> & Hr' & -> & _ & _ & Hsec & ->).
    set (c := Fprintf _ _ _).
    assert (accepted (c :: tr) = accepted tr) as Ea by apply app_nil_r.
    assert (∀ fd, arrived sent fd (c :: tr) = arrived sent fd tr) as Earr
      by (intros fd; unfold arrived; cbn [taken c]; by rewrite Nat.add_0_r).
    assert (∀ i, (i < CLIENT_COUNT)%nat →
      (side i <$> L ++ [(slot_data l 0, slot_data l 1)]) ++ pending l' i
      = (side i <$> L) ++ pending l i) as Eall.
    { intros i Hi. destruct (Hpen i Hi) as [-> | [? _]]; [|done].
      rewrite app_nil_r, fmap_app, Hp by done.
      destruct i as [|[|i]]; [done|done|unfold CLIENT_COUNT in Hi; lia]. }
    split; rewrite ?Ea, ?Econ, ?Eids; auto.
    { intros _ i _ Hi. by destruct (Hfl i). }
    exists (L ++ [(slot_data l 0, slot_data l 1)]).
    split; [unfold c; by rewrite data_lines_cons, EL, log_lines_snoc, Hro|].
    split; [apply Forall_app; split; [done|by constructor]|].
    split; [rewrite Hr', Hro, length_app, wrapS_add_l by done; f_equal; simpl; lia|]. split.
    + intros i Hi. unfold arrived_on. rewrite Eall, Earr, Econ by done. by apply HL.
    + intros Hpu%punctual_cons. specialize (HK Hpu). split.
      * by apply Hlog.
      * rewrite Eids, Econ. apply HK.
      * rewrite Econ. apply HK.
      * intros i Hi. unfold arrived_on. rewrite Eall, Earr, Econ by done. by apply (kept_all _ _ _ HK).
  - split; rewrite ?Econ, ?Eids; auto.
    { intros _ i _ Hi. by destruct (Hfl i). }
    exists L. rewrite (compare_slots_no_line _ _ Ec). do 3 (split; [done|]). split.
    + intros i Hi. specialize (HL i Hi). rewrite Hp in HL by done.
      unfold arrived_on in *. rewrite Econ.
      destruct (Hpen i Hi) as [-> | [_ ->]]; [|exact HL]. rewrite app_nil_r.
      etrans; [|exact HL]. by apply sublist_inserts_r.
    + intros Hpu. by destruct (Hlog Hpu).
Qed.

(** Between rounds, a connection with a sample that waits for its partner is not
    reported before the partner is. *)
Lemma settled_free l tr n activity errno ready i :
  let fds := take CLIENT_COUNT (cli_conns l) in
  let fd := nth i (cli_conns l) 0 in
  sinv l tr → settled l → punctual (Select n fds :: tr) →
  os_select (Select n fds :: tr) = (activity, errno, ready) → (i < CLIENT_COUNT)%nat →
  activity < 0 ∨ ready fd = true → (taken fd tr mod BUFFER_SIZE = 0)%nat → pending l i = [].
Proof.
  intros fds fd. subst fd. intros Hinv Hset Hpu Hos Hi Hready Hmod.
  pose proof Hinv as [H1 _ H3 H4 _ (L & _ & _ & _ & _ & HK)].
  specialize (HK (punctual_cons _ _ Hpu)). destruct Hpu as [_ [_ Hstep]]. rewrite Hos in Hstep.
  assert (fds = cli_conns l) as Efds by (unfold fds; rewrite H3, take_ge; [done|lia]).
  rewrite Efds in Hstep.
  assert (∀ j, (j < CLIENT_COUNT)%nat → nth j (cli_conns l) 0 ∈ cli_conns l) as Hin
    by (intros j Hj; apply list_elem_of_In, nth_In; rewrite H3; lia).
  assert (∀ j, (j < CLIENT_COUNT)%nat → pending l j = [] → pending l i = []) as Hother.
  { intros j Hj Ej. pose proof (proj1 (Forall_forall _ _) Hstep _ (Hin i Hi) Hready Hmod) as Hle.
    pose proof (proj1 (Forall_forall _ _) Hle _ (Hin j Hj)) as Hlen.
    pose proof (kept_all _ _ _ HK i Hi) as Ei. pose proof (kept_all _ _ _ HK j Hj) as Ej'.
    unfold arrived_on in Ei, Ej'. rewrite Ej, app_nil_r in Ej'.
    cbv beta in Hlen. rewrite <- Ej', <- Ei, length_app, !length_fmap in Hlen.
    apply nil_length_inv. lia. }
  unfold settled in Hset. pose proof (linv_flags _ _ H1) as Hf. revert Hother.
  unfold pending. rewrite (kept_skip _ _ _ HK). cbn [andb].
  destruct (pl_valid_flag l) as [|[] [|[] []]]; try done; intros Hother.
  - by apply (Hother 1%nat); [unfold CLIENT_COUNT; lia|].
  - by apply (Hother 0%nat); [unfold CLIENT_COUNT; lia|].
  - by apply (Hother 0%nat); [unfold CLIENT_COUNT; lia|].
Qed.

Lemma two_conns tr : length (accepted tr) = CLIENT_COUNT → ∃ c0 c1, accepted tr = [c0; c1].
Proof. destruct (accepted tr) as [|c0 [|c1 []]]; try done. eauto. Qed.

Lemma sinv_logs l tr : sinv l tr → logs_pairs sent tr.
Proof.
  intros [_ _ H3 H4 _ (L & EL & Hs & _ & HL & _)]. exists L. do 2 (split; [done|]). right.
  destruct (two_conns tr H4) as (c0 & c1 & E). exists c0, c1. split; [done|].
  unfold arrived_on in HL. rewrite H3, E in HL.
  split; [specialize (HL 0%nat ltac:(unfold CLIENT_COUNT; lia))
        |specialize (HL 1%nat ltac:(unfold CLIENT_COUNT; lia))]; simpl in HL.
  all: etrans; [|etrans; [exact HL|apply prefix_of_sublist, prefix_take]]; by apply sublist_inserts_r.
Qed.

(** Everything but the pair that is about to be compared is in the file. *)
Lemma sinv_logs_all l tr d :
  sinv l tr → punctual tr → (d = 0%nat → settled l) →
  logs_all sent d tr.
Proof.
  intros Hinv Hpu Hd c0 c1 E. pose proof Hinv as [H1 _ H3 _ _ (L & EL & _ & _ & _ & HK)].
  specialize (HK Hpu). pose proof (kept_all _ _ _ HK) as Hall. unfold arrived_on in Hall.
  rewrite H3, E in Hall. exists (length L).
  pose proof (Hall 0%nat ltac:(unfold CLIENT_COUNT; lia)) as E0.
  pose proof (Hall 1%nat ltac:(unfold CLIENT_COUNT; lia)) as E1. cbn [nth] in E0, E1.
  rewrite <- E0, <- E1.
  change (side 0 <$> L) with L.*1. change (side 1 <$> L) with L.*2.
  rewrite zip_with_app by by rewrite !length_fmap. rewrite zip_fst_snd.
  rewrite take_app_length, EL, length_app, length_zip_with. split; [|done].
  assert (∀ i, (length (pending l i) <= 1)%nat) as Hlen
    by (intros i; unfold pending; repeat case_match; simpl; lia).
  pose proof (Hlen 0%nat). pose proof (Hlen 1%nat). destruct d as [|d]; [|lia].
  specialize (Hd eq_refl). unfold settled in Hd. unfold pending. rewrite (kept_skip _ _ _ HK). cbn [andb].
  pose proof (linv_flags _ _ H1) as Hf.
  destruct (pl_valid_flag l) as [|[] [|[] []]]; try done; simpl; lia.
Qed.
End state.

(** ** Lemmas: the listening loop *)

Section loop.
Context {OS : tsq_os} (sent : Z → list (list Z)) (who : Z → Z).
Context (Htcp : tcp sent) (Hsig : signals_count).
Context (Hsent : ∀ fd, 999 <= who fd <= 9999 ∧ talker_wrote (who fd) (sent fd)).
Implicit Types s t : st tsq_glob call.
Implicit Types tr : list call.

Definition tracks l tr : Prop := orderly tr → sinv sent who l tr.

Definition logs (d : nat) tr : Prop :=
  orderly tr → logs_pairs sent tr ∧ (punctual sent tr → logs_all sent d tr).

(** What holds when the listener ends. *)
Definition logged {A} (o : outcome A) s : Prop := logs (slack o) (trace s).

Lemma logs_weaken tr : logs 0 tr → logs 1 tr.
Proof.
  intros H Ho. destruct (H Ho) as [H1 H2]. split; [done|]. intros Hp c0 c1 E.
  destruct (H2 Hp c0 c1 E) as (n & Hn & Hd). exists n. split; [lia|done].
Qed.

Lemma logs_calm d c tr : calm c → logs d tr → logs d (c :: tr).
Proof.
  intros Hc H [Ho _]. destruct (H Ho) as [(L & EL & Hs & HL) Hall]. split.
  - exists L. rewrite plain_lines, plain_accepted by by apply calm_plain. auto.
  - intros Hp%punctual_cons c0 c1.
    rewrite plain_lines, plain_accepted, !arrived_calm by (done || by apply calm_plain).
    by apply Hall.
Qed.

Lemma logs_calls d new tr : Forall calm new → logs d tr → logs d (new ++ tr).
Proof. induction 1; [done|]. intros H'. apply logs_calm; auto. Qed.

Lemma tracks_calm c l tr : calm c → tracks l tr → tracks l (c :: tr).
Proof. intros Hc H [Ho _]. apply sinv_calm; auto. Qed.

Lemma tracks_logs d l tr : tracks l tr → (d = 0%nat → settled l) → logs d tr.
Proof.
  intros H Hd Ho. split; [by apply (sinv_logs sent who l), H|].
  intros Hp. by apply (sinv_logs_all sent who l); auto.
Qed.

Lemma error_calm g : Forall calm (rev (error_calls g)).
Proof.
  apply Forall_rev. unfold error_calls.
  repeat apply Forall_app_2; (case_match; repeat constructor).
Qed.

Lemma wp_error_logged {A} (Q : outcome A → st tsq_glob call → Prop) s :
  logs 1 (trace s) → (∀ c s', logs 1 (trace s') → Q (Exited c) s') → wp error Q s.
Proof. intros H HQ. apply wp_error, HQ. apply logs_calls; [apply error_calm|done]. Qed.

(** The slots from [j] on whose next sample is reported are free. *)
Definition free (isset : Z → bool) (j : nat) l tr : Prop :=
  orderly tr → punctual sent tr → ∀ i, (j <= i < CLIENT_COUNT)%nat →
  let fd := nth i (cli_conns l) 0 in
  isset fd = true → (taken fd tr mod BUFFER_SIZE = 0)%nat → pending l i = [].

Lemma free_calm isset j c l tr : calm c → free isset j l tr → free isset j l (c :: tr).
Proof.
  intros Hc H [Ho _] Hp%punctual_cons i Hi fd Hset Hmod. apply (H Ho Hp i Hi Hset).
  rewrite <- Hmod. unfold fd. destruct c; try done; cbn [taken]; by rewrite Nat.add_0_r.
Qed.

Definition slot_post (isset : Z → bool) (i : nat) (o : outcome lstate) s : Prop :=
  match o with
  | Done l => tracks l (trace s) ∧ free isset (S i) l (trace s)
  | Exited _ => logs 1 (trace s)
  | _ => False
  end.

Lemma slot_tracks isset i l s :
  (i < CLIENT_COUNT)%nat → tracks l (trace s) → free isset i l (trace s) →
  wp (listener_slot isset i l) (slot_post isset i) s.
Proof.
  intros Hi H Hf. unfold listener_slot. cbv zeta. set (fd := nth i (cli_conns l) 0).
  destruct (isset fd) eqn:Eset.
  2: { apply wp_ret. split; [done|]. intros Ho Hp k Hk. apply (Hf Ho Hp k). lia. }
  apply wp_bind, wp_get_signal. cbv zeta. set (tr := Unlock :: Lock :: trace s).
  assert (tracks l tr) as H1 by by apply tracks_calm, tracks_calm.
  assert (free isset i l tr) as Hf1 by by apply free_calm, free_calm.
  clearbody tr. destruct (negb _).
  { apply wp_error_logged; [|done]. by eapply tracks_logs. }
  apply wp_bind, wp_ask. cbn [trace]. destruct (os_read _) as [data|] eqn:Er.
  - apply wp_ret. cbn [trace]. split.
    + intros Ho'. pose proof Ho' as [Ho _]. apply (sinv_slot sent who); auto.
      intros Hp. apply (Hf1 Ho (punctual_cons _ _ _ Hp)); [lia|done].
    + intros [Ho _] Hp%punctual_cons k Hk fd'.
      destruct (slot_update_frame i (take (BUFFER_SIZE - 1) data) l) as [_ E].
      unfold fd'. rewrite E. cbn [trace]. intros Hset. destruct (H1 Ho) as [Hl _ H3 H4 _ (L & _ & _ & _ & _ & HK)].
      rewrite taken_other; [|apply (kept_other sent who l L i k tr); auto; [by rewrite H3|lia..]].
      intros Hmod. rewrite pending_slot_other by (done || lia). apply (Hf1 Ho Hp); [lia|done..].
  - apply wp_error_logged; [|done]. apply (tracks_logs 1 l); [|done].
    intros [Ho _]. apply sinv_cons; [done|intros _ f; by apply arrived_failed|auto].
Qed.

Lemma round_tracks l s :
  tracks l (trace s) → settled l →
  wp (listener_round l)
     (λ o s', match o with
              | Done (inl l') => tracks l' (trace s') ∧ settled l'
              | _ => logged o s'
              end) s.
Proof.
  intros H Hset. unfold listener_round.
  apply wp_bind, wp_get_signal. cbv zeta. set (tr := Unlock :: Lock :: trace s).
  assert (tracks l tr) as H1 by by apply tracks_calm, tracks_calm.
  clearbody tr. destruct (negb _).
  { apply wp_ret. by eapply tracks_logs. }
  apply wp_bind. unfold get at 1, wp at 1; cbn [fst snd glob]. apply wp_bind, wp_ask. cbv zeta.
  cbn [trace]. set (tr1 := Fflush _ :: tr).
  assert (tracks l tr1) as H2 by by apply tracks_calm. clearbody tr1. clear H H1.
  apply wp_bind, wp_ask. cbn [trace]. set (sel := Select _ _).
  assert (tracks l (sel :: tr1)) as H3 by by apply tracks_calm.
  destruct (os_select (sel :: tr1)) as [[activity errno] ready] eqn:Eos. cbv beta iota.
  destruct (_ && _).
  { apply wp_error_logged; [by eapply tracks_logs|done]. }
  match goal with |- context [listener_slot ?f] => set (isset := f) end.
  assert (free isset 0 l (sel :: tr1)) as Hf.
  { intros [Ho _] Hp i Hi fd Eset Hmod.
    eapply (settled_free sent who l tr1); [auto|done|exact Hp|exact Eos|lia| |].
    - unfold isset in Eset. apply andb_true_iff in Eset as [_ [E%Z.ltb_lt|E]%orb_true_iff]; auto.
    - rewrite <- Hmod. cbn [taken sel]. by rewrite Nat.add_0_r. }
  clearbody isset.
  apply wp_bind. apply (wp_for_each (λ i l s, tracks l (trace s) ∧ free isset i l (trace s)) _ _ _ 0%nat).
  - intros j a l1 t Hj [Ht Hft]. apply lookup_seq in Hj as [-> Hj].
    eapply wp_mono; [by apply slot_tracks|]. by intros [].
  - intros l1 t [Ht _]. destruct (compare_slots l1) as [l2 line] eqn:Ec.
    assert (settled l2) as Hset2.
    { pose proof (compare_settled l1) as E. by rewrite Ec in E. }
    assert (orderly (trace t) → sinv sent who l2
      (match line with Some (r, x, n) => Fprintf r x n :: trace t | None => trace t end)) as H4.
    { intros Ho. pose proof (sinv_compare sent who l1 _ (Ht Ho)) as Hc. by rewrite Ec in Hc. }
    destruct line as [[[r x] n]|].
    + apply wp_bind, wp_ask, wp_ret. split; [|done]. intros [Ho _]. by apply H4.
    + apply wp_bind, wp_ret, wp_ret. by split.
  - by split.
Qed.

Lemma loop_tracks fuel l s :
  tracks l (trace s) → settled l → wp (listener_loop fuel l) logged s.
Proof.
  intros H Hset. apply (wp_loop (λ l s, tracks l (trace s) ∧ settled l)); [| |done].
  - intros l1 t [Ht Hs]. eapply wp_mono; [by apply round_tracks|].
    by intros [[l'|l']| | |] s'.
  - intros l1 t [Ht Hs]. by eapply tracks_logs.
Qed.

(** After a signal the loop logs nothing. *)
Lemma halted_loop fuel l s :
  halt_sig (glob s) ≠ 0 → logs 0 (trace s) → wp (listener_loop fuel l) logged s.
Proof. intros Hh H. apply halted_loop_wp; try done. intros g. by apply logs_calm, logs_calm. Qed.
End loop.

(** ** Lemmas: the connections *)

Section connections.
Context {OS : tsq_os} (sent : Z → list (list Z)) (who : Z → Z).
Context (Htcp : tcp sent) (Hsig : signals_count).
Context (Hsent : ∀ fd, 999 <= who fd <= 9999 ∧ talker_wrote (who fd) (sent fd)).
Implicit Types s t : st tsq_glob call.

(** Nothing is logged yet, and no sample has been read. *)
Definition unlogged tr : Prop :=
  data_lines tr = [] ∧
  (orderly tr → punctual sent tr → Forall (λ c, arrived sent c tr = []) (accepted tr)).

Lemma unlogged_logs d tr : unlogged tr → logs sent d tr.
Proof.
  intros [H Ha] Ho. split; [exists []; rewrite H; by auto|]. intros Hp c0 c1 E. exists 0%nat.
  specialize (Ha Ho Hp). rewrite E in Ha. apply Forall_cons in Ha as [-> _].
  rewrite H. split; [apply Nat.le_0_l|done].
Qed.

Lemma unlogged_calm c tr : calm c → unlogged tr → unlogged (c :: tr).
Proof.
  intros Hc [H Ha]. split; [rewrite plain_lines; [done|by apply calm_plain]|].
  intros [Ho _] Hp%punctual_cons. rewrite plain_accepted by by apply calm_plain.
  eapply Forall_impl; [by apply Ha|]. intros f. cbv beta. by rewrite arrived_calm.
Qed.

(** The tables hold the identifiers and descriptors of [i] connections. *)
Definition connected (i : nat) (ids conns : list Z) tr : Prop :=
  Forall id_ok (take i ids) ∧ take i conns = accepted tr ∧
  (punctual sent tr → take i ids = who <$> accepted tr ∧ NoDup (accepted tr) ∧
     Forall (λ c, taken c tr ≠ O) (accepted tr)).

Definition accept_inv (x : nat * (list Z * list Z)) s : Prop :=
  let '(i, (ids, conns)) := x in
  (i <= CLIENT_COUNT)%nat ∧ length ids = CLIENT_COUNT ∧ length conns = CLIENT_COUNT ∧
  unlogged (trace s) ∧ (orderly (trace s) → connected i ids conns (trace s)).

(** The loop ends with two connections, or early by a signal. *)
Definition accept_post (y : list Z * list Z) s : Prop :=
  unlogged (trace s) ∧ (halt_sig (glob s) ≠ 0 ∨
    length y.1 = CLIENT_COUNT ∧ length y.2 = CLIENT_COUNT ∧
    (orderly (trace s) → connected CLIENT_COUNT y.1 y.2 (trace s))).

Lemma take_insert_last (l : list Z) i x :
  (i < length l)%nat → take (S i) (<[i:=x]> l) = take i l ++ [x].
Proof.
  intros Hi. rewrite (take_S_r _ _ x) by by apply list_lookup_insert_eq.
  by rewrite take_insert_ge by lia.
Qed.

Lemma connected_calm i ids conns c tr :
  calm c → connected i ids conns tr → connected i ids conns (c :: tr).
Proof.
  unfold connected. intros Hc (H1 & H2 & H3). rewrite plain_accepted by by apply calm_plain.
  do 2 (split; [done|]). intros Hp%punctual_cons. destruct (H3 Hp) as (H4 & H5 & H6).
  do 2 (split; [done|]). eapply Forall_impl; [exact H6|]. intros f Hf. cbv beta in *. cbn [taken]. lia.
Qed.

Lemma unlogged_accept fd tr : unlogged tr → unlogged (Accept fd :: tr).
Proof.
  set (acc := Accept fd). intros [H Ha].
  assert (∀ c, arrived sent c (acc :: tr) = arrived sent c tr) as Earr
    by (intros c; unfold arrived; cbn [taken acc]; by rewrite Nat.add_0_r).
  split; [by rewrite data_lines_cons, H|]. intros [Ho Ht] Hp%punctual_cons. cbn [accepted acc].
  fold acc in Ht |- *. apply Forall_app. split.
  - eapply Forall_impl; [by apply Ha|]. intros c. cbv beta. by rewrite Earr.
  - destruct (_ <? 0); constructor; [|done]. rewrite Earr. unfold arrived.
    change (taken (os_accept (acc :: tr)) tr = O) in Ht. by rewrite Ht.
Qed.

Lemma unlogged_first_read f tr :
  (orderly tr → taken f tr = O) → unlogged tr → unlogged (Read f (BUFFER_SIZE - 1) :: tr).
Proof.
  intros Ht [H Ha]. split; [by rewrite plain_lines|]. intros [Ho _] Hp.
  rewrite plain_accepted by done. eapply Forall_impl; [apply Ha; [done|by eapply punctual_cons]|].
  intros c Hc. cbv beta in *. rewrite <- Hc. destruct (decide (c = f)) as [->|]; [|by apply arrived_other].
  destruct (os_read (Read f (BUFFER_SIZE - 1) :: tr)) eqn:Er; [|by apply arrived_failed].
  destruct Hp as [_ Hp]. eapply arrived_rest; eauto.
Qed.

(** The tables after one more connection. *)
Lemma connected_next i ids conns fd c tr data :
  let acc := Accept fd in
  let rd := Read c (BUFFER_SIZE - 1) in
  c = os_accept (acc :: tr) → (c <? 0) = false → os_read (rd :: acc :: tr) = Some data →
  (i < length ids)%nat → (i < length conns)%nat → orderly (rd :: acc :: tr) →
  connected i ids conns tr →
  connected (S i) (<[i := atoi (cstr (recv_buff (take (BUFFER_SIZE - 1) data)))]> ids)
    (<[i := c]> conns) (rd :: acc :: tr).
Proof.
  intros acc rd Ec Hc Er Hi Hj [[_ Ht] Hend] (H1 & H2 & H3).
  change (taken (os_accept (acc :: tr)) tr = O) in Ht. rewrite <- Ec in Ht.
  assert (taken c (acc :: tr) = O) as Ht' by (cbn [taken acc]; lia).
  assert (accepted (rd :: acc :: tr) = accepted tr ++ [c]) as Ea.
  { rewrite plain_accepted by done. change (accepted tr ++ (if os_accept (acc :: tr) <? 0 then []
      else [os_accept (acc :: tr)]) = accepted tr ++ [c]). by rewrite <- Ec, Hc. }
  destruct (first_read sent who Htcp Hsent c _ _ Er Ht' Hend) as [Hid Hwho].
  unfold connected. rewrite Ea, !take_insert_last, H2, fmap_app by done.
  split; [apply Forall_app; split; [done|by constructor]|]. split; [done|].
  intros Hp. destruct (H3 (punctual_cons _ _ _ (punctual_cons _ _ _ Hp))) as (-> & Hnd & Htk).
  destruct Hp as [_ [_ [Hdata _]]]. fold rd in Hdata. rewrite Er in Hdata.
  specialize (Hdata Ht'). cbn [from_option id] in Hdata. split; [by rewrite Hwho|]. split.
  - apply NoDup_app. split; [done|]. split; [|apply NoDup_singleton].
    intros x Hx ->%list_elem_of_singleton. by apply (proj1 (Forall_forall _ _) Htk c).
  - apply Forall_app. split.
    + eapply Forall_impl; [exact Htk|]. intros x Hx. cbv beta in *. cbn [taken acc]. lia.
    + constructor; [|done]. unfold rd. rewrite (taken_read _ _ _ _ Er), Ht'.
      destruct data; [done|]. rewrite length_take. unfold BUFFER_SIZE. simpl. lia.
Qed.

Lemma accept_round_connects x s :
  accept_inv x s →
  wp (accept_round x)
     (λ o s', match o with
              | Done (inl x') => accept_inv x' s'
              | Done (inr y) => accept_post y s'
              | _ => logged sent o s'
              end) s.
Proof.
  destruct x as [i [ids conns]]. intros (Hi & Hli & Hlc & Hu & Hc). unfold accept_round.
  destruct (CLIENT_COUNT <=? i)%nat eqn:Ei.
  { apply wp_ret. split; [done|]. right. cbn [fst snd].
    apply Nat.leb_le in Ei. assert (i = CLIENT_COUNT) as -> by lia. auto. }
  apply Nat.leb_gt in Ei. apply wp_bind, wp_get_signal. cbv zeta. set (h := halt_after _ _).
  set (tr := Unlock :: Lock :: trace s).
  assert (unlogged tr) as Hu1 by by apply unlogged_calm, unlogged_calm.
  assert (orderly tr → connected i ids conns tr) as Hc1.
  { intros [[Ho _] _]. by apply connected_calm, connected_calm, Hc. }
  destruct (negb (h =? 0)) eqn:Eh.
  { apply wp_ret. split; [done|]. left. simpl. by apply negb_true_iff, Z.eqb_neq in Eh. }
  clearbody tr. clear Eh. apply wp_bind. unfold get at 1, wp at 1. cbn [fst snd glob].
  apply wp_bind, wp_ask. cbn [trace]. set (acc := Accept _).
  destruct (os_accept (acc :: tr) <? 0) eqn:Eneg.
  { apply wp_ret. split; [lia|]. do 2 (split; [done|]). split; [by apply unlogged_accept|].
    intros [Ho _]. destruct (Hc1 Ho) as (H1 & H2 & H3). unfold connected. cbn [trace].
    assert (accepted (acc :: tr) = accepted tr) as -> by
      (change (accepted tr ++ (if os_accept (acc :: tr) <? 0 then [] else [os_accept (acc :: tr)])
        = accepted tr); by rewrite Eneg, app_nil_r).
    do 2 (split; [done|]). intros Hp%punctual_cons. destruct (H3 Hp) as (H4 & H5 & H6).
    do 2 (split; [done|]). eapply Forall_impl; [exact H6|]. intros f Hf. cbv beta in *. cbn [taken acc]. lia. }
  apply wp_bind, wp_ask. cbn [trace]. set (c := os_accept (acc :: tr)) in *.
  assert (unlogged (Read c (BUFFER_SIZE - 1) :: acc :: tr)) as Hu2.
  { apply unlogged_first_read; [|by apply unlogged_accept]. intros [_ Ht]. cbn [taken acc].
    change (taken c tr = O) in Ht. lia. }
  destruct (os_read _) as [data|] eqn:Er.
  - apply wp_ret. split; [lia|]. rewrite !length_insert. do 3 (split; [done|]).
    intros Ho. apply connected_next; try done; try lia. apply Hc1, Ho.
  - apply wp_bind, wp_ask. apply (wp_error_logged sent); [|done]. by apply unlogged_logs, unlogged_calm.
Qed.

(** The state in which the listening loop starts. *)
Lemma start_tracks ids conns tr :
  length ids = CLIENT_COUNT → length conns = CLIENT_COUNT → unlogged tr →
  (orderly tr → connected CLIENT_COUNT ids conns tr) → tracks sent who (listener_start ids conns) tr.
Proof.
  intros Hl1 Hl2 [Hu Ha] H Ho. destruct (H Ho) as (H1 & H2 & H3).
  rewrite take_ge in H1, H2, H3 by lia.
  split; try done; [apply linv_start|by rewrite <- H2|].
  assert (∀ i, pending (listener_start ids conns) i = []) as Hpen
    by (intros [|[|i]]; done).
  exists []. rewrite Hu. do 3 (split; [done|]). split.
  - intros i Hi. rewrite Hpen. apply sublist_nil_l.
  - intros Hp. destruct (H3 Hp) as (H4 & H5 & _). specialize (Ha Ho Hp).
    split; [done|by rewrite H4, <- H2|by rewrite <- H2 in H5|].
    intros i Hi. rewrite Hpen. unfold arrived_on. symmetry. cbn [listener_start cli_conns].
    rewrite <- H2 in Ha. apply (proj1 (Forall_forall _ _) Ha), list_elem_of_In, nth_In. lia.
Qed.

Lemma serve_logs fuel s :
  unlogged (trace s) → accepted (trace s) = [] → wp (listener_serve fuel) (logged sent) s.
Proof.
  intros Hu Ha. unfold listener_serve. apply wp_bind.
  apply (wp_loop accept_inv).
  2: { intros x t. destruct x as [i [ids conns]]. intros (_ & _ & _ & H & _). by apply unlogged_logs. }
  2: { split; [lia|]. do 3 (split; [done|]). intros _. unfold connected. rewrite Ha. repeat constructor. }
  intros x t Hx. eapply wp_mono; [by apply accept_round_connects|].
  intros [[x'|[ids conns]]| | |] s1; try done. intros [Hu1 H1]. apply wp_bind.
  apply (wp_for_each (λ _ _ t, unlogged (trace t) ∧ (halt_sig (glob t) ≠ 0 ∨
    length ids = CLIENT_COUNT ∧ length conns = CLIENT_COUNT ∧
    (orderly (trace t) → connected CLIENT_COUNT ids conns (trace t)))) _ _ _ 0%nat); [| |done].
  - intros j a [] t1 _ [Ht1 H2]. apply wp_bind, wp_ask.
    assert (unlogged (Write (nth a conns 0) start_buff :: trace t1)) as Hu2 by by apply unlogged_calm.
    destruct (_ <? 0).
    { apply (wp_error_logged sent); [|done]. by apply unlogged_logs. }
    apply wp_ret. split; [done|]. destruct H2 as [H2|(Hl1 & Hl2 & H2)]; [by left|right].
    do 2 (split; [done|]). intros [Ho _]. by apply connected_calm, H2.
  - intros [] t1 [Ht1 H2]. apply wp_bind.
    apply (wp_mono _ (logged sent)).
    + destruct H2 as [H2|(Hl1 & Hl2 & H2)]; [by apply halted_loop, unlogged_logs|].
      apply (loop_tracks sent who Htcp Hsent); [by apply start_tracks|done].
    + intros [l| | |] t2 H3; try done. apply wp_bind. unfold get at 1, wp at 1. cbn [fst snd].
      apply wp_bind, wp_ask, wp_ask. by apply logs_calm, logs_calm.
Qed.
End connections.

(** The whole listener, behind whose connections are streams of talkers. *)
Lemma listener_logs {OS : tsq_os} (sent : Z → list (list Z)) who fuel o g :
  tcp sent → signals_count →
  (∀ fd, 999 <= who fd <= 9999 ∧ talker_wrote (who fd) (sent fd)) →
  wp (listener fuel o) (logged sent) (mkSt g []).
Proof.
  intros Htcp Hsig Hsent.
  assert (∀ tr, data_lines tr = [] → accepted tr = [] → unlogged sent tr) as Hnone
    by (intros tr H1 H2; split; [done|]; intros _ _; by rewrite H2).
  assert (∀ (m : T unit) s, data_lines (trace s) = [] → accepted (trace s) = [] → m = error →
            wp m (logged sent) s) as Herr.
  { intros m s H1 H2 ->. apply (wp_error_logged sent); [|done]. by apply unlogged_logs, Hnone. }
  unfold listener.
  apply wp_bind, wp_ask, wp_bind. unfold modify at 1, wp at 1; cbn [fst snd].
  destruct (os_fopen _ =? 0); [by apply Herr|].
  apply wp_bind, wp_ask, wp_bind. unfold modify at 1, wp at 1; cbn [fst snd].
  destruct (os_socket _ <? 0); [by apply Herr|].
  destruct (server_ip o) as [ip|]; [|by apply (unlogged_logs sent), Hnone].
  apply wp_bind, wp_ask. destruct (os_bind _ <? 0); [by apply Herr|].
  apply wp_bind, wp_ask, wp_bind, wp_ask. destruct (os_getsockname _ =? -1); [by apply Herr|].
  apply (serve_logs sent who Htcp Hsig Hsent); [by apply Hnone|done].
Qed.

(** ** A concrete environment *)

(** A connection on which a read finds the current message, or what is left of
    it. *)
Fixpoint level (sent : Z → list (list Z)) (fd : Z) (tr : list call) : nat :=
  match tr with
  | [] => 0
  | c :: tr' =>
      level sent fd tr' +
      match c with
      | Read f n =>
          if f =? fd then
            let off := level sent fd tr' in
            length (take n (drop off (concat (take (S (off / BUFFER_SIZE)) (sent fd)))))
          else 0
      | _ => 0
      end
  end.

Definition stream_os (sent : Z → list (list Z)) (signals : list call → list Z) : tsq_os := {|
  os_signals := signals;
  os_fopen _ := 9; os_socket _ := 3; os_bind _ := 0; os_getsockname _ := 0;
  os_accept tr :=
    3 + Z.of_nat (length (List.filter (λ c, match c with Accept _ => true | _ => false end) tr));
  os_connect _ := 0;
  os_read tr :=
    match tr with
    | Read fd _ :: tr =>
        let off := level sent fd tr in
        Some (drop off (concat (take (S (off / BUFFER_SIZE)) (sent fd))))
    | _ => None
    end;
  os_write _ := 256; os_select _ := (2, 0, λ _, true); os_open _ := 7; os_poll _ := 1;
  os_read_extts _ := (32, (100, 500)); os_extts_size := 32; uninit _ := 0
|}.

Lemma stream_os_taken sent sigs fd tr : @taken (stream_os sent sigs) fd tr = level sent fd tr.
Proof.
  induction tr as [|c tr IH]; [done|]. cbn [taken level]. rewrite IH. f_equal.
  destruct c; try done. destruct (_ =? _) eqn:E; [|done]. apply Z.eqb_eq in E as ->. done.
Qed.

Lemma concat_take (ls : list (list Z)) k :
  ∃ m, concat (take k ls) = take m (concat ls).
Proof.
  exists (length (concat (take k ls))). rewrite <- (take_drop k ls) at 3.
  by rewrite concat_app, take_app_length.
Qed.

Lemma stream_os_tcp sent sigs : @tcp (stream_os sent sigs) sent.
Proof.
  intros fd n tr data [= <-]. rewrite stream_os_taken.
  destruct (concat_take (sent fd) (S (level sent fd tr / BUFFER_SIZE))) as [m E].
  exists m. by rewrite <- E.
Qed.

(** An environment in which select() reports what [pick] says. *)
Definition select_os (OS : tsq_os) (pick : list call → Z → bool) : tsq_os := {|
  os_signals := os_signals; os_fopen := os_fopen; os_socket := os_socket; os_bind := os_bind;
  os_getsockname := os_getsockname; os_accept := os_accept; os_connect := os_connect;
  os_read := os_read; os_write := os_write; os_select tr := (1, 0, pick tr);
  os_open := os_open; os_poll := os_poll; os_read_extts := os_read_extts;
  os_extts_size := os_extts_size; uninit := uninit
|}.

(** SIGINT from the [stop]-th call on. *)
Definition stop_at (stop : nat) (tr : list call) : list Z :=
  if (stop <=? length tr)%nat then [2] else [].

(** A talker whose device reports a pulse in every second from the 100th on. *)
Definition pulse_os (lead : Z) (stop : nat) : tsq_os := {|
  os_signals := stop_at stop;
  os_fopen _ := 9; os_socket _ := 3; os_bind _ := 0; os_getsockname _ := 0;
  os_accept _ := -1; os_connect _ := 0; os_read _ := Some start_cmd;
  os_write _ := 256; os_select _ := (0, 0, λ _, false); os_open _ := 7; os_poll _ := 1;
  os_read_extts tr :=
    let n := Z.of_nat (length (writes tr)) in (32, (99 + n, 500 + lead + n));
  os_extts_size := 32; uninit _ := 0
|}.

Lemma stream_os_signals sent stop : @signals_count (stream_os sent (stop_at stop)).
Proof. intros tr. simpl. unfold stop_at. destruct (_ <=? _)%nat; by repeat constructor. Qed.
