(* ===== verification/TsqSteady.v ===== *)
(** * TSQ in steady operation: talkers one second apart

    The listener against an environment in which nothing goes wrong: set-up
    succeeds, both talkers connect, select() reports both connections in every
    round, and a read finds the message that is due and no later one.  The whole
    run, from the file that is opened to any number of rounds of the listening
    loop, then computes the pure rounds of [TsqListener]. *)

From S2P Require Import Prelude Sys Libc Argp Tsq TsqListener TsqTalker TsqStream.

Local Open Scope Z_scope.

Section steady.
Context {OS : tsq_os} (sent : Z → list (list Z)) (c0 c1 : Z).
Implicit Types s t : st tsq_glob call.

(** What a read at [off] finds: the rest of the message there. *)
Definition due (fd : Z) (off : nat) : list Z :=
  take (BUFFER_SIZE - 1) (drop off (concat (take (S (off / BUFFER_SIZE)) (sent fd)))).

Record steady : Prop := {
  st_fopen : ∀ tr, os_fopen tr ≠ 0;
  st_socket : ∀ tr, 0 <= os_socket tr;
  st_bind : ∀ tr, 0 <= os_bind tr;
  st_getsockname : ∀ tr, os_getsockname tr ≠ -1;
  st_write : ∀ tr, 0 <= os_write tr;
  st_signals : ∀ tr, os_signals tr = [];
  st_first : ∀ fd tr, accepted tr = [] → os_accept (Accept fd :: tr) = c0;
  st_second : ∀ fd tr, accepted tr = [c0] → os_accept (Accept fd :: tr) = c1;
  st_descriptors : 0 <= c0 ∧ 0 <= c1 ∧ c0 ≠ c1;
  st_select : ∀ n tr, let '(activity, _, ready) := os_select (Select n [c0; c1] :: tr) in
    0 <= activity ∧ ready c0 = true ∧ ready c1 = true;
  st_read : ∀ fd n tr, os_read (Read fd n :: tr)
    = Some (drop (taken fd tr) (concat (take (S (taken fd tr / BUFFER_SIZE)) (sent fd))))
}.

Context (Hst : steady).

(** Both streams stand at [off], and no signal has arrived. *)
Record at_offset (off : nat) s : Prop := {
  ao_first : taken c0 (trace s) = off;
  ao_second : taken c1 (trace s) = off;
  ao_halt : halt_sig (glob s) = 0
}.

Definition silent (c : call) : Prop :=
  match c with Read _ _ | Fprintf _ _ _ => False | _ => True end.

Lemma silent_taken c fd tr : silent c → taken fd (c :: tr) = taken fd tr.
Proof. intros H. cbn [taken]. destruct c; try done; apply Nat.add_0_r. Qed.

Lemma silent_lines c tr : silent c → data_lines (c :: tr) = data_lines tr.
Proof. intros H. rewrite data_lines_cons. destruct c; try done; apply app_nil_r. Qed.

Lemma get_signal_steady Q s :
  halt_sig (glob s) = 0 →
  Q (Done 0) (mkSt (glob s) (Unlock :: Lock :: trace s)) → wp get_signal Q s.
Proof.
  intros Hh HQ. apply wp_get_signal. cbv zeta. rewrite (st_signals Hst). cbn [halt_after List.last].
  rewrite Hh. replace (set_halt_sig 0 (glob s)) with (glob s); [done|].
  destruct (glob s); simpl in *. by subst.
Qed.

(** One slot: the piece that is due. *)
Lemma slot_steady isset i l s :
  let fd := nth i (cli_conns l) 0 in
  isset fd = true → halt_sig (glob s) = 0 →
  wp (listener_slot isset i l)
     (λ o s', o = Done (slot_update i (due fd (taken fd (trace s))) l) ∧ glob s' = glob s ∧
        data_lines (trace s') = data_lines (trace s) ∧
        ∀ fd', taken fd' (trace s') = (taken fd' (trace s) +
          if decide (fd' = fd) then length (due fd (taken fd (trace s))) else 0)%nat) s.
Proof.
  intros fd Hset Hh. unfold listener_slot. fold fd. cbv zeta. rewrite Hset.
  apply wp_bind, get_signal_steady; [done|]. cbn [Z.eqb negb].
  set (tr := Unlock :: Lock :: trace s). apply wp_bind, wp_ask. cbn [trace].
  rewrite (st_read Hst). apply wp_ret.
  assert (∀ f, taken f tr = taken f (trace s)) as Ht
    by (intros f; unfold tr; by rewrite !silent_taken).
  rewrite !Ht. fold (due fd (taken fd (trace s))). split; [done|]. split; [done|].
  cbn [trace]. split.
  - rewrite plain_lines by done. unfold tr. by rewrite !silent_lines.
  - intros fd'. cbn [taken]. fold tr. rewrite Ht, (st_read Hst), Ht. f_equal.
    cbn [from_option id]. fold (due fd (taken fd (trace s))).
    destruct (fd =? fd') eqn:E; [apply Z.eqb_eq in E as <-; by rewrite decide_True|].
    apply Z.eqb_neq in E. by rewrite decide_False.
Qed.

(** One round: both pieces that are due, then the comparison. *)
Lemma round_steady off l s :
  cli_conns l = [c0; c1] → at_offset off s → length (due c0 off) = length (due c1 off) →
  wp (listener_round l)
     (λ o s', let '(l', line) := both_round (due c0 off) (due c1 off) l in
        o = Done (inl l') ∧ at_offset (off + length (due c0 off)) s' ∧
        data_lines (trace s') = data_lines (trace s) ++ option_list line) s.
Proof.
  intros Hc Ho Hlen. destruct (st_descriptors Hst) as (Hc0 & Hc1 & Hne).
  unfold listener_round. apply wp_bind, get_signal_steady; [apply Ho|]. cbn [Z.eqb negb].
  apply wp_bind. unfold get at 1, wp at 1. cbn [fst snd]. apply wp_bind, wp_ask. cbv zeta.
  rewrite Hc. change (take CLIENT_COUNT [c0; c1]) with [c0; c1].
  apply wp_bind, wp_ask. cbn [trace glob].
  match goal with |- context [os_select (_ :: ?tr)] =>
    pose proof (st_select Hst (max_sd [c0; c1] + 1) tr) as Hsel;
    set (tr1 := tr) in * end.
  destruct (os_select _) as [[activity errno] ready]. destruct Hsel as (Ha & H0 & H1).
  cbv beta iota. rewrite (proj2 (Z.ltb_ge _ _) Ha). cbn [andb orb].
  match goal with |- context [listener_slot ?f] => set (isset := f) end.
  assert (isset c0 = true ∧ isset c1 = true) as [Hs0 Hs1].
  { unfold isset. rewrite !bool_decide_eq_true_2 by set_solver. by rewrite H0, H1. }
  set (s1 := mkSt _ _).
  assert (at_offset off s1 ∧ data_lines (trace s1) = data_lines (trace s)) as [Ho1 Hd1].
  { unfold s1, tr1. cbn [trace]. rewrite !silent_lines by done. split; [|done].
    destruct Ho. split; cbn [trace glob]; rewrite ?silent_taken by done; done. }
  clearbody s1. apply wp_bind. cbn [for_each List.seq CLIENT_COUNT].
  apply wp_bind. eapply wp_mono; [apply slot_steady; [by rewrite Hc|apply Ho1]|].
  rewrite Hc. cbn [nth]. intros o2 s2 (-> & Hg2 & Hd2 & Ht2).
  set (l1 := slot_update 0 _ l). destruct (slot_update_frame 0 (due c0 (taken c0 (trace s1))) l) as [_ Hc2].
  fold l1 in Hc2. apply wp_bind. eapply wp_mono; [apply slot_steady|].
  { by rewrite Hc2, Hc. }
  { rewrite Hg2. apply Ho1. }
  rewrite Hc2, Hc. cbn [nth]. intros o3 s3 (-> & Hg3 & Hd3 & Ht3). apply wp_ret.
  assert (taken c1 (trace s2) = off) as E1.
  { rewrite Ht2, decide_False by done. destruct Ho1. lia. }
  assert (taken c0 (trace s1) = off) as E0 by apply Ho1.
  unfold l1. rewrite E0, E1. fold (both_round (due c0 off) (due c1 off) l).
  assert (at_offset (off + length (due c0 off)) s3) as Ho3.
  { split.
    - rewrite Ht3, decide_False by done. rewrite Ht2, decide_True, E0 by done. lia.
    - rewrite Ht3, decide_True, E1 by done. lia.
    - rewrite Hg3, Hg2. apply Ho1. }
  rewrite <- Hd1, <- Hd2, <- Hd3. clear - Ho3.
  destruct (both_round _ _ l) as [l' [[[r x] n]|]].
  - apply wp_bind, wp_ask, wp_ret. split; [done|].
    split; [by destruct Ho3; split; cbn [trace glob taken]; rewrite ?Nat.add_0_r|].
    cbn [trace]. by rewrite data_lines_cons.
  - apply wp_bind, wp_ret, wp_ret. by rewrite app_nil_r.
Qed.

(** ** Lemmas: what is due *)

Lemma due_piece fd q r w :
  Forall padded (sent fd) → sent fd !! q = Some w → (r < BUFFER_SIZE)%nat →
  due fd (BUFFER_SIZE * q + r) = take (BUFFER_SIZE - 1) (drop r w).
Proof.
  intros Hp Hw Hr. unfold due.
  replace ((BUFFER_SIZE * q + r) / BUFFER_SIZE)%nat with q
    by (rewrite Nat.mul_comm, Nat.div_add_l, Nat.div_small by (done || lia); lia).
  rewrite (take_S_r _ _ _ Hw). pose proof (lookup_lt_Some _ _ _ Hw) as Hlt.
  assert (length (take q (sent fd)) = q) as Hq by (rewrite length_take; lia).
  rewrite <- Hq at 1. rewrite drop_concat, app_nil_r; [done| |].
  - apply Forall_take. eapply Forall_impl; [exact Hp|]. by intros ? [? _].
  - pose proof (Forall_lookup_1 _ _ _ _ Hp Hw) as [-> _]. lia.
Qed.

(** The two streams: announcements and samples. *)
Context (u0 u1 : Z) (ps0 ps1 : list payload).

Record talkers : Prop := {
  tk_uids : 999 <= u0 <= 9999 ∧ 999 <= u1 <= 9999;
  tk_sent : sent c0 = uid_buff u0 :: map send_buff ps0 ∧ sent c1 = uid_buff u1 :: map send_buff ps1;
  tk_ok : samples_ok u0 ps0 ∧ samples_ok u1 ps1
}.

Context (Htk : talkers).

Lemma stream_padded u ps : 999 <= u → Forall padded (uid_buff u :: map send_buff ps).
Proof.
  intros Hu. constructor; [apply padded_uid_buff; lia|]. apply Forall_fmap, Forall_true, padded_send_buff.
Qed.

Lemma length_message_head p : length (message_head p) = (BUFFER_SIZE - 1)%nat.
Proof. unfold message_head. rewrite length_take, length_send_buff. done. Qed.

Lemma length_message_tail p : length (message_tail p) = 1%nat.
Proof. unfold message_tail. rewrite length_drop, length_send_buff. done. Qed.

Lemma due_message fd u ps k p :
  sent fd = uid_buff u :: map send_buff ps → 999 <= u → ps !! k = Some p →
  due fd (BUFFER_SIZE * S k) = message_head p ∧
  due fd (BUFFER_SIZE * S k + (BUFFER_SIZE - 1)) = message_tail p.
Proof.
  intros E Hu Hp. assert (sent fd !! S k = Some (send_buff p)) as Hw
    by (rewrite E; change (_ !! S k) with ((send_buff <$> ps) !! k); by rewrite list_lookup_fmap, Hp).
  assert (Forall padded (sent fd)) as Hpad by (rewrite E; by apply stream_padded).
  split.
  - rewrite <- (Nat.add_0_r (BUFFER_SIZE * S k)), (due_piece _ _ _ _ Hpad Hw); [done|].
    unfold BUFFER_SIZE. lia.
  - rewrite (due_piece _ _ _ _ Hpad Hw) by (unfold BUFFER_SIZE; lia).
    apply take_ge. fold (message_tail p). rewrite length_message_tail. unfold BUFFER_SIZE. lia.
Qed.

(** ** Lemmas: the listening loop *)

Lemma both_round_conns d0 d1 l : cli_conns (both_round d0 d1 l).1 = cli_conns l.
Proof.
  unfold both_round, compare_slots.
  destruct (slot_update_frame 0 d0 l) as [_ E0].
  destruct (slot_update_frame 1 d1 (slot_update 0 d0 l)) as [_ E1].
  destruct (data_ready _ _); [|simpl; congruence].
  unfold compare_update. repeat case_match; simpl; congruence.
Qed.

(** Two rounds for every pair of samples. *)
Lemma loop_steady (a b : nat → payload) k n l s :
  cli_conns l = [c0; c1] → at_offset (BUFFER_SIZE * S k) s →
  (∀ j, (k <= j < k + n)%nat → ps0 !! j = Some (a j) ∧ ps1 !! j = Some (b j)) →
  wp (listener_loop (2 * n) l)
     (λ o s', o = NoFuel ∧
        data_lines (trace s') = data_lines (trace s) ++ (both_rounds (pairs a b k n) l).2) s.
Proof.
  destruct Htk as [[Hu0 Hu1] [E0 E1] _]. revert k l s.
  induction n as [|n IH]; intros k l s Hc Ho Hab; [by rewrite app_nil_r|].
  destruct (Hab k) as [Ha Hb]; [lia|].
  destruct (due_message c0 u0 ps0 k (a k) E0 ltac:(lia) Ha) as [Hh0 Ht0].
  destruct (due_message c1 u1 ps1 k (b k) E1 ltac:(lia) Hb) as [Hh1 Ht1].
  replace (2 * S n)%nat with (S (S (2 * n))) by lia. unfold listener_loop.
  set (m := (2 * n)%nat) in *. cbn [loop].
  apply wp_bind. eapply wp_mono; [apply (round_steady _ l s Hc Ho)|].
  { by rewrite Hh0, Hh1, !length_message_head. }
  rewrite Hh0, Hh1, length_message_head. intros o1 s1.
  pose proof (both_round_conns (message_head (a k)) (message_head (b k)) l) as Hc1.
  destruct (both_round _ _ l) as [l1 line1] eqn:R1. intros (-> & Ho1 & Hd1). cbn [fst] in Hc1.
  apply wp_bind. eapply wp_mono; 
    [apply (round_steady (BUFFER_SIZE * S k + (BUFFER_SIZE - 1)) l1 s1); [by rewrite Hc1|exact Ho1|]|].
  { by rewrite Ht0, Ht1, !length_message_tail. }
  rewrite Ht0, Ht1, length_message_tail. intros o2 s2.
  pose proof (both_round_conns (message_tail (a k)) (message_tail (b k)) l1) as Hc2.
  destruct (both_round (message_tail _) _ l1) as [l2 line2] eqn:R2.
  intros (-> & Ho2 & Hd2). cbn [fst] in Hc2.
  eapply wp_mono; [apply (IH (S k) l2 s2)|].
  - by rewrite Hc2, Hc1.
  - replace (BUFFER_SIZE * S (S k))%nat with (BUFFER_SIZE * S k + (BUFFER_SIZE - 1) + 1)%nat
      by (unfold BUFFER_SIZE; lia). exact Ho2.
  - intros j Hj. apply Hab. lia.
  - intros o s' [-> Hd]. split; [done|].
    change (pairs a b k (S n)) with ((a k, b k) :: pairs a b (S k) n). cbn [both_rounds].
    rewrite R1, R2, Hd, Hd2, Hd1. destruct (both_rounds _ l2) as [l3 lines]. cbn [snd].
    by rewrite <- !app_assoc.
Qed.

(** ** Lemmas: the connections *)

Lemma accept_one i ids conns c u s :
  (i < CLIENT_COUNT)%nat → halt_sig (glob s) = 0 → 0 <= c → 999 <= u <= 9999 →
  (∀ fd tr, accepted tr = accepted (trace s) → os_accept (Accept fd :: tr) = c) →
  sent c !! O = Some (uid_buff u) → taken c (trace s) = O →
  wp (accept_round (i, (ids, conns)))
     (λ o s', o = Done (inl (S i, (<[i := u]> ids, <[i := c]> conns))) ∧ glob s' = glob s ∧
        data_lines (trace s') = data_lines (trace s) ∧
        accepted (trace s') = accepted (trace s) ++ [c] ∧
        taken c (trace s') = (BUFFER_SIZE - 1)%nat ∧
        ∀ fd, fd ≠ c → taken fd (trace s') = taken fd (trace s)) s.
Proof.
  intros Hi Hh Hc Hu Hacc Hsent Ht. unfold accept_round.
  rewrite (proj2 (Nat.leb_gt _ _) Hi). apply wp_bind, get_signal_steady; [done|].
  cbn [Z.eqb negb]. apply wp_bind. unfold get at 1, wp at 1. cbn [fst snd].
  set (tr := Unlock :: Lock :: trace s). apply wp_bind, wp_ask. cbn [trace glob].
  assert (accepted tr = accepted (trace s)) as Ea by (unfold tr; by rewrite !plain_accepted).
  assert (∀ f, taken f tr = taken f (trace s)) as Etr by (intros f; unfold tr; by rewrite !silent_taken).
  set (acc := Accept (glob_sockfd (glob s))).
  assert (os_accept (acc :: tr) = c) as Hoc by by apply Hacc.
  rewrite Hoc. rewrite (proj2 (Z.ltb_ge c 0)) by done. apply wp_bind, wp_ask. cbn [trace glob].
  rewrite (st_read Hst). rewrite (silent_taken acc), Etr, Ht by done.
  change (0 / BUFFER_SIZE)%nat with O. rewrite (take_S_r _ _ _ Hsent), take_0, drop_0.
  cbn [app concat]. rewrite app_nil_r. apply wp_ret.
  assert (length (uid_buff u) = BUFFER_SIZE) as Hl by (apply padded_uid_buff; lia).
  rewrite uid_read_back by (unfold INT_MAX; lia). split; [done|]. split; [done|]. cbn [trace].
  split; [by rewrite plain_lines, (silent_lines acc) by done; unfold tr; rewrite !silent_lines|].
  split; [|split].
  - rewrite plain_accepted by done. cbn [accepted acc]. fold acc. rewrite Hoc, Ea.
    by rewrite (proj2 (Z.ltb_ge c 0)).
  - cbn [taken]. rewrite Z.eqb_refl, (st_read Hst). cbn [from_option id].
    change (taken c (acc :: tr)) with (taken c tr + 0)%nat.
    rewrite Etr, Ht. change ((0 + 0) / BUFFER_SIZE)%nat with O.
    rewrite (take_S_r _ _ _ Hsent), take_0, drop_0. cbn [app concat].
    rewrite app_nil_r, length_take, Hl. reflexivity.
  - intros fd Hne. by rewrite taken_other, (silent_taken acc), Etr.
Qed.

Lemma accept_steady fuel ids s :
  accepted (trace s) = [] → taken c0 (trace s) = O → taken c1 (trace s) = O →
  halt_sig (glob s) = 0 → length ids = CLIENT_COUNT →
  wp (loop (3 + fuel) accept_round (0%nat, (ids, replicate CLIENT_COUNT 0)))
     (λ o s', o = Done ([u0; u1], [c0; c1]) ∧ at_offset (BUFFER_SIZE - 1) s' ∧
        data_lines (trace s') = data_lines (trace s)) s.
Proof.
  intros Ha H0 H1 Hh Hids. destruct (st_descriptors Hst) as (Hc0 & Hc1 & Hne).
  destruct Htk as [[Hu0 Hu1] [E0 E1] _].
  assert (∃ i0 i1, ids = [i0; i1]) as (i0 & i1 & ->)
    by (destruct ids as [|i0 [|i1 []]]; try done; eauto).
  cbn [loop Nat.add]. apply wp_bind. eapply wp_mono; [apply (accept_one 0 _ _ c0 u0)|]; try done.
  { unfold CLIENT_COUNT. lia. }
  { intros fd tr E. apply (st_first Hst). congruence. }
  { by rewrite E0. }
  intros o1 s1 (-> & Hg1 & Hd1 & Ha1 & Ht1 & Hr1). cbn [replicate CLIENT_COUNT insert list_insert].
  apply wp_bind. eapply wp_mono; [apply (accept_one 1 _ _ c1 u1)|]; try done.
  { unfold CLIENT_COUNT. lia. }
  { by rewrite Hg1. }
  { intros fd tr E. apply (st_second Hst). by rewrite E, Ha1, Ha. }
  { by rewrite E1. }
  { by rewrite Hr1. }
  intros o2 s2 (-> & Hg2 & Hd2 & Ha2 & Ht2 & Hr2). apply wp_bind.
  unfold accept_round. rewrite Nat.leb_refl. apply wp_ret, wp_ret. split; [done|].
  split; [|congruence]. split; [by rewrite Hr2|done|]. by rewrite Hg2, Hg1.
Qed.

Lemma start_steady conns s off :
  at_offset off s →
  wp (send_start conns)
     (λ o s', o = Done tt ∧ at_offset off s' ∧ data_lines (trace s') = data_lines (trace s)) s.
Proof.
  intros Ho. apply (wp_for_each (λ _ _ t, at_offset off t ∧ data_lines (trace t) = data_lines (trace s))
    _ _ _ 0%nat); [|by intros [] t [? ?]|done].
  intros j a [] t _ [Ht Hd]. apply wp_bind, wp_ask.
  rewrite (proj2 (Z.ltb_ge _ _) (st_write Hst _)). apply wp_ret. cbn [trace].
  rewrite silent_lines by done. split; [|done].
  destruct Ht. split; cbn [trace glob]; rewrite ?silent_taken by done; done.
Qed.

(** What the listener has done after [2 n + 1] rounds of each loop. *)
Lemma listener_steady (a b : nat → payload) n o ip g :
  halt_sig g = 0 → server_ip o = Some ip → (1 <= n)%nat →
  (∀ j, (j < n)%nat → ps0 !! j = Some (a j) ∧ ps1 !! j = Some (b j)) →
  wp (listener (2 * n + 1) o)
     (λ out s', out = NoFuel ∧
        data_lines (trace s')
        = (both_rounds (pairs a b 0 n) (listener_start [u0; u1] [c0; c1])).2) (mkSt g []).
Proof.
  intros Hh Hip Hn Hab. unfold listener.
  apply wp_bind, wp_ask, wp_bind. unfold modify at 1, wp at 1; cbn [fst snd].
  rewrite (proj2 (Z.eqb_neq _ _) (st_fopen Hst _)).
  apply wp_bind, wp_ask, wp_bind. unfold modify at 1, wp at 1; cbn [fst snd].
  rewrite (proj2 (Z.ltb_ge _ _) (st_socket Hst _)), Hip.
  apply wp_bind, wp_ask. rewrite (proj2 (Z.ltb_ge _ _) (st_bind Hst _)).
  apply wp_bind, wp_ask, wp_bind, wp_ask. rewrite (proj2 (Z.eqb_neq _ _) (st_getsockname Hst _)).
  unfold listener_serve. apply wp_bind.
  replace (2 * n + 1)%nat with (3 + (2 * (n - 1)))%nat by lia.
  eapply wp_mono; [apply accept_steady; try done|].
  intros o1 s1 (-> & Ho1 & Hd1). apply wp_bind. eapply wp_mono; [by apply start_steady|].
  intros o2 s2 (-> & Ho2 & Hd2). apply wp_bind.
  replace (3 + 2 * (n - 1))%nat with (S (2 * n)) by lia. unfold listener_loop.
  set (m := (2 * n)%nat). cbn [loop]. apply wp_bind.
  destruct Htk as [[Hu0 Hu1] [E0 E1] _].
  assert (∀ fd u ps, 999 <= u → sent fd = uid_buff u :: map send_buff ps →
    due fd (BUFFER_SIZE - 1) = [0]) as Hdue.
  { intros fd u ps Hu E. assert (padded (uid_buff u)) as Hp by (apply padded_uid_buff; lia).
    change (BUFFER_SIZE - 1)%nat with (BUFFER_SIZE * 0 + (BUFFER_SIZE - 1))%nat at 1.
    rewrite (due_piece fd 0 (BUFFER_SIZE - 1) (uid_buff u)).
    - rewrite (padded_rest _ _ Hp) by (unfold BUFFER_SIZE, sizeof_payload; lia). done.
    - rewrite E. by apply stream_padded.
    - by rewrite E.
    - unfold BUFFER_SIZE. lia. }
  pose proof (Hdue c0 u0 ps0 ltac:(lia) E0) as D0. pose proof (Hdue c1 u1 ps1 ltac:(lia) E1) as D1.
  eapply wp_mono; [apply (round_steady (BUFFER_SIZE - 1) _ s2); [done|done|by rewrite D0, D1]|].
  rewrite D0, D1. intros o3 s3.
  assert (both_round [0] [0] (listener_start [u0; u1] [c0; c1])
          = (listener_start [u0; u1] [c0; c1], None)) as -> by reflexivity.
  intros (-> & Ho3 & Hd3).
  eapply wp_mono; [apply (loop_steady a b 0 n _ s3); [done|exact Ho3|]|].
  { intros j Hj. apply Hab. lia. }
  intros o4 s4 [-> Hd4]. split; [done|]. rewrite Hd4, Hd3, Hd2, Hd1. done.
Qed.

Lemma talker_sample_valid k p :
  ps0 !! k = Some p ∨ ps1 !! k = Some p → valid_sample [u0; u1] p.
Proof.
  clear Hst. destruct Htk as [[Hu0 Hu1] _ [H0 H1]]. intros Hp.
  assert (payload_ok p ∧ (uid p = u0 ∨ uid p = u1) ∧ secs p ≠ 0 ∧ nsecs p ≠ 0) as (Hok & Hu & Hs & Hn).
  { destruct Hp as [Hp|Hp]; [apply H0 in Hp|apply H1 in Hp]; naive_solver. }
  clear - Hok Hu Hs Hn Hu0 Hu1. split; [done|]. apply validate_payload_spec.
  split; [lia|]. split; [done|]. split; [done|]. cbn. set_solver.
Qed.
End steady.

(** ** Properties *)

Section properties.
Context {OS : tsq_os} (sent : Z → list (list Z)) (c0 c1 u0 u1 : Z) (ps0 ps1 : list payload).
Context (a b : nat → payload).

(** C30: two talkers whose clocks are one second apart, the first ahead, are never
    realigned while their samples arrive together: of every two pairs of samples
    the listener keeps the newer one of the first pair, reads and drops the next
    sample of that talker, and so logs one line for every two pairs, for as long
    as the run lasts. *)
Theorem one_second_skew_logs_half m t o ip g :
  steady sent c0 c1 → talkers sent c0 c1 u0 u1 ps0 ps1 →
  halt_sig g = 0 → server_ip o = Some ip → (1 <= m)%nat →
  (∀ k, (k < 2 * m)%nat → ps0 !! k = Some (a k) ∧ ps1 !! k = Some (b k) ∧
     secs (a k) = t + 1 + Z.of_nat k ∧ secs (b k) = t + Z.of_nat k) →
  wp (listener (2 * (2 * m) + 1) o)
     (λ _ s', data_lines (trace s')
        = map (λ k, (i32 (Z.of_nat k), 0,
                     i64 (nsecs (a (2 * k)%nat) - nsecs (b (2 * k + 1)%nat)))) (List.seq 0 m))
     (mkSt g []).
Proof.
  intros Hst Htk Hh Hip Hm Hab.
  eapply wp_mono;
    [apply (listener_steady sent c0 c1 Hst u0 u1 ps0 ps1 Htk a b (2 * m) o ip g Hh Hip); [lia|]|].
  { intros j Hj. by destruct (Hab j Hj) as (? & ? & _). }
  intros out s' [_ ->]. apply (skewed_rounds a b t [u0; u1] [c0; c1] m).
  - intros k Hk. destruct (Hab k Hk) as (Ha & _ & Hs & _).
    split; [by apply (talker_sample_valid sent c0 c1 u0 u1 ps0 ps1 Htk k); left|done].
  - intros k Hk. destruct (Hab k Hk) as (_ & Hb & _ & Hs).
    split; [by apply (talker_sample_valid sent c0 c1 u0 u1 ps0 ps1 Htk k); right|done].
Qed.
End properties.

(** ** Witnesses *)

Definition demo_samples (id lead : Z) : list payload :=
  map (λ k, demo_sample id lead (Z.of_nat k)) (List.seq 0 6).

Definition demo_streams (lead fd : Z) : list (list Z) :=
  if fd =? 4 then uid_buff 1234 :: map send_buff (demo_samples 1234 lead)
  else uid_buff 5678 :: map send_buff (demo_samples 5678 0).

Definition steady_os (lead : Z) : tsq_os := stream_os (demo_streams lead) (λ _, []).

Lemma steady_os_accepted lead tr :
  length (@accepted (steady_os lead) tr)
  = length (List.filter (λ c, match c with Accept _ => true | _ => false end) tr).
Proof.
  induction tr as [|c tr IH]; [done|]. cbn [accepted]. rewrite length_app, IH.
  destruct c; cbn [length List.filter]; try lia. cbn [os_accept steady_os stream_os List.filter length].
  rewrite (proj2 (Z.ltb_ge _ _)) by lia. simpl. lia.
Qed.

Lemma steady_os_steady lead : @steady (steady_os lead) (demo_streams lead) 4 5.
Proof.
  split; try done.
  - intros fd tr H. apply (f_equal length) in H. rewrite steady_os_accepted in H.
    cbn [os_accept steady_os stream_os List.filter length]. rewrite H. done.
  - intros fd tr H. apply (f_equal length) in H. rewrite steady_os_accepted in H.
    cbn [os_accept steady_os stream_os List.filter length]. rewrite H. done.
  - intros fd n tr. unfold steady_os. by rewrite stream_os_taken.
Qed.

Lemma demo_samples_ok id lead :
  id = 1234 ∨ id = 5678 → 0 <= lead <= 1 → samples_ok id (demo_samples id lead).
Proof.
  intros Hid Hl k p Hp. unfold demo_samples in Hp.
  change (map ?f ?l) with (f <$> l) in Hp. rewrite list_lookup_fmap in Hp.
  apply fmap_Some in Hp as (j & Hj & ->). apply lookup_seq in Hj as [-> Hj].
  destruct (demo_valid id lead (Z.of_nat (0 + k)) Hid Hl) as [Hok _]; [lia|].
  split; [done|]. unfold demo_sample; cbn [uid seq secs nsecs]. rewrite (wrapS_small 32) by lia. lia.
Qed.

Lemma demo_streams_talkers lead :
  0 <= lead <= 1 →
  talkers (demo_streams lead) 4 5 1234 5678 (demo_samples 1234 lead) (demo_samples 5678 0).
Proof.
  intros Hl. split; [lia|done|]. split; apply demo_samples_ok; lia.
Qed.

Lemma demo_samples_lookup id lead k :
  (k < 6)%nat → demo_samples id lead !! k = Some (demo_sample id lead (Z.of_nat k)).
Proof.
  intros Hk. unfold demo_samples. change (map ?f ?l) with (f <$> l).
  by rewrite list_lookup_fmap, lookup_seq_lt.
Qed.

Lemma one_second_skew_logs_half_witness :
  data_lines (trace (@listener (steady_os 1) (2 * (2 * 2) + 1) demo_opt (mkSt (glob tsq_init) [])).2)
  = [(0, 0, -1); (1, 0, -1)].
Proof.
  pose proof (@one_second_skew_logs_half (steady_os 1) (demo_streams 1) 4 5 1234 5678
    (demo_samples 1234 1) (demo_samples 5678 0) (λ k, demo_sample 1234 1 (Z.of_nat k))
    (λ k, demo_sample 5678 0 (Z.of_nat k)) 2 100 demo_opt (bytes_of_string "10.0.0.1")
    (glob tsq_init) (steady_os_steady 1) (demo_streams_talkers 1 ltac:(lia)) eq_refl eq_refl
    ltac:(lia)) as H.
  unfold wp in H. rewrite H; [vm_compute; reflexivity|].
  clear H. intros k Hk. rewrite !demo_samples_lookup by lia. unfold demo_sample; cbn [secs].
  split; [reflexivity|]. split; [reflexivity|]. lia.
Defined.
