(* ===== verification/TsqProcess.v ===== *)
(** * TSQ: processes, from their command lines to the data file

    main() of a listener and main() of the talkers that connect to it, with TCP
    in between. *)

From S2P Require Import Prelude Sys Libc Argp Tsq TsqListener TsqTalker TsqStream.

Local Open Scope Z_scope.

(** ** Specification *)

(** The command line [argv] asks for the options [o]. *)
Definition asks (argv : list word) (o : opt) : Prop :=
  (argp_parse argp argv default_opt tsq_init).1 = Done o.

(** ** Lemmas *)

Section main.
Context {OS : tsq_os}.

(** main() is the part of its mode. *)
Lemma tsq_main_part fuel argv o (Q : outcome Z → st tsq_glob call → Prop) :
  asks argv o →
  (opt_ok o →
   wp (if mode o =? MODE_TALKER then talker fuel o
       else if mode o =? MODE_LISTENER then listener fuel o else error)
      (λ out s, Q (match out with Done _ => Done 0 | _ => abrupt out NoFuel end) s) tsq_init) →
  wp (tsq_main fuel argv) Q tsq_init.
Proof.
  intros Ha Hk. unfold tsq_main. apply wp_bind. unfold modify at 1, wp at 1. cbn [fst snd].
  change (mkSt _ _) with tsq_init. apply wp_bind.
  pose proof (settings_run argv tsq_init) as Hp. unfold asks in Ha. unfold wp in Hp |- * at 1.
  destruct (argp_parse argp argv default_opt tsq_init) as [out s1]. cbn [fst snd] in *.
  subst out. destruct Hp as [Ho ->]. apply wp_bind. eapply wp_mono; [by apply Hk|].
  intros [[]|c| |] s; simpl; auto.
Qed.

Lemma asks_ok argv o : asks argv o → opt_ok o.
Proof.
  intros Ha. pose proof (settings_run argv tsq_init) as Hp. unfold wp in Hp.
  unfold asks in Ha. rewrite Ha in Hp. apply Hp.
Qed.

(** What a talker's process writes to its socket. *)
Lemma talker_process fuel argv o :
  asks argv o → mode o = MODE_TALKER →
  wp (tsq_main fuel argv)
     (λ _ s', talker_wrote (i32 (opt_uid o)) (writes (trace s'))) tsq_init.
Proof.
  intros Ha Hm. apply (tsq_main_part fuel argv o); [done|]. intros _. rewrite Hm.
  change (MODE_TALKER =? MODE_TALKER) with true. cbv iota.
  eapply wp_mono; [by apply talker_writes|]. auto.
Qed.
End main.

(** ** Properties *)

Section system.
(** The listener, and for each connection the talker behind it. *)
Context {OS : tsq_os} (OST : Z → tsq_os) (fuelT : Z → nat) (argvT : Z → list word).

(** What a talker's process writes to its socket. *)
Definition sent_by (fd : Z) : list (list Z) :=
  writes (trace (@tsq_main (OST fd) (fuelT fd) (argvT fd) tsq_init).2).

(** The listener's command line asks for a listener, those behind its connections
    for talkers; the connections are TCP streams. *)
Definition tsq_system (argv : list word) (o : opt) (oT : Z → opt) : Prop :=
  asks argv o ∧ mode o = MODE_LISTENER ∧
  (∀ fd, asks (argvT fd) (oT fd) ∧ mode (oT fd) = MODE_TALKER) ∧
  tcp sent_by ∧ signals_count.

Lemma tsq_system_logged fuel argv o oT :
  tsq_system argv o oT → wp (tsq_main fuel argv) (logged sent_by) tsq_init.
Proof.
  intros (Ha & Hm & HT & Htcp & Hsig). apply (tsq_main_part fuel argv o); [done|]. intros _. rewrite Hm.
  change (MODE_LISTENER =? MODE_TALKER) with false. cbv iota.
  change (MODE_LISTENER =? MODE_LISTENER) with true. cbv iota.
  eapply wp_mono; [apply (listener_logs sent_by (λ fd, i32 (opt_uid (oT fd)))); [done|done|]|by intros []].
  intros fd. destruct (HT fd) as [Ho Hmode]. split.
  - destruct (asks_ok _ _ Ho) as (_ & Hu & _). rewrite (wrapS_small 32) by lia. done.
  - by apply talker_process.
Qed.

(** C1: from command lines and pulses to the data file: when the listener's
    command line asks for a listener, and every one of its connections is a TCP
    stream from a process whose command line asks for a talker, then as long as no
    read of the listener ends inside the 24 bytes of a payload (TCP may cut a
    message anywhere, and the listener does not check how much it has read) every
    line of the data file is the difference of two samples that were sent in the
    same second, one by each of the two talkers (a connection that accept() returns
    has not been read from before); the samples of the lines are in
    the order in which they were sent, and no sample is used twice.  This holds at
    every moment of such a run, whatever select() reports, wherever else TCP cuts
    the streams and however the run ends. *)
Theorem tsq_logs_sent_pairs fuel argv o (oT : Z → opt) :
  tsq_system argv o oT →
  wp (tsq_main fuel argv)
     (λ _ s', orderly (trace s') → logs_pairs sent_by (trace s')) tsq_init.
Proof.
  intros H. eapply wp_mono; [by eapply tsq_system_logged|]. intros out s' Hl Ho. by apply Hl.
Qed.

(** C2: nothing is lost between talkers in step: when no read of the listener ends
    inside the 24 bytes of a payload, the announcement of a talker has arrived when
    it is read, a read inside a message finds nothing behind that message, samples
    of the same number are of the same second, and select() does not report a
    sample of one talker before the other's last one, then in whatever order and in
    however many pieces and rounds the messages arrive, the data file holds at
    every moment one line for each pair of samples of the same number that the
    listener has read, in order, numbered from zero.  Only when the process ends by
    exit(1) in the middle of a round may the last pair be missing. *)
Theorem tsq_logs_every_pair fuel argv o (oT : Z → opt) :
  tsq_system argv o oT → same_seconds sent_by →
  wp (tsq_main fuel argv)
     (λ out s', orderly (trace s') → in_step sent_by (trace s') →
        logs_all sent_by (slack out) (trace s')) tsq_init.
Proof.
  intros H Hs. eapply wp_mono; [by eapply tsq_system_logged|]. intros out s' Hl Ho Hstep.
  by apply Hl.
Qed.
End system.

(** ** Witness *)

(** tsq -L -i 10.0.0.1 -p 5678, and -T -u 1234 or -u 5678. *)
Definition demo_listener_argv : list word :=
  bytes_of_string <$> ["-L"; "-i"; "10.0.0.1"; "-p"; "5678"]%string.

Definition demo_talker_argv (fd : Z) : list word :=
  bytes_of_string <$> ["-T"; "-i"; "10.0.0.1"; "-p"; "5678"; "-u";
                       if (fd =? 4)%Z then "1234" else "5678"]%string.

Definition demo_talkers (fd : Z) : tsq_os := if fd =? 4 then pulse_os 40 30 else pulse_os 0 30.

Definition demo_sent (fd : Z) : list (list Z) :=
  sent_by demo_talkers (λ _, 100%nat) demo_talker_argv fd.

Definition demo_asked (m : Z) (u : Z) : opt :=
  mk_opt 0 m (Some (bytes_of_string "10.0.0.1")) 5678 DEFAULT_LISTENER_OUTFILE u
    [] 1100.

Lemma demo_tsq_system OS :
  @tcp OS demo_sent → @signals_count OS →
  @tsq_system OS demo_talkers (λ _, 100%nat) demo_talker_argv demo_listener_argv
    (demo_asked MODE_LISTENER 1234)
    (λ fd, demo_asked MODE_TALKER (if fd =? 4 then 1234 else 5678)).
Proof.
  intros Htcp Hsig. split; [vm_compute; reflexivity|]. split; [reflexivity|]. split; [|by split].
  intros fd. unfold demo_talker_argv. destruct (fd =? 4); split; vm_compute; reflexivity.
Qed.

Lemma tsq_logs_sent_pairs_witness :
  let r := @tsq_main (stream_os demo_sent (stop_at 60)) 100 demo_listener_argv tsq_init in
  @logs_pairs (stream_os demo_sent (stop_at 60)) demo_sent (trace r.2) ∧
  data_lines (trace r.2) = [(0, 0, 40); (1, 0, 40)].
Proof.
  split; [|vm_compute; reflexivity].
  apply (@tsq_logs_sent_pairs (stream_os demo_sent (stop_at 60)) demo_talkers (λ _, 100%nat)
    demo_talker_argv 100 demo_listener_argv (demo_asked MODE_LISTENER 1234)
    (λ fd, demo_asked MODE_TALKER (if fd =? 4 then 1234 else 5678))).
  - apply demo_tsq_system; [apply stream_os_tcp|apply stream_os_signals].
  - apply (@bool_decide_eq_true_1 _ (@orderly_dec (stream_os demo_sent (stop_at 60)) _)).
    vm_compute. reflexivity.
Defined.

(** select() reports one connection at a time: first 4, then 5 until it has caught
    up. *)
Definition in_turn_os : tsq_os :=
  select_os (stream_os demo_sent (stop_at 66))
    (λ tr fd, fd =? (if (level demo_sent 4 tr <=? level demo_sent 5 tr)%nat then 4 else 5)).

Lemma demo_same_seconds : same_seconds demo_sent.
Proof.
  assert (∀ c, secs <$> samples demo_sent c = secs <$> samples demo_sent 4) as E.
  { intros c. unfold samples, demo_sent, sent_by, demo_talkers, demo_talker_argv.
    destruct (c =? 4); vm_compute; reflexivity. }
  intros c d k p q Hp Hq. pose proof (E c) as Ec. rewrite <- (E d) in Ec.
  apply (f_equal (lookup k)) in Ec. rewrite !list_lookup_fmap, Hp, Hq in Ec. by injection Ec.
Qed.

Lemma tsq_logs_every_pair_witness :
  let r := @tsq_main in_turn_os 100 demo_listener_argv tsq_init in
  @logs_all in_turn_os demo_sent (slack r.1) (trace r.2) ∧
  r.1 = Done 0 ∧ accepted (OS := in_turn_os) (trace r.2) = [4; 5] ∧
  length (arrived (OS := in_turn_os) demo_sent 4 (trace r.2)) = 2%nat ∧
  length (arrived (OS := in_turn_os) demo_sent 5 (trace r.2)) = 1%nat ∧
  data_lines (trace r.2) = [(0, 0, 40)].
Proof.
  split; [|do 4 (split; [vm_compute; reflexivity|]); vm_compute; reflexivity].
  refine (@tsq_logs_every_pair in_turn_os demo_talkers (λ _, 100%nat)
    demo_talker_argv 100 demo_listener_argv (demo_asked MODE_LISTENER 1234)
    (λ fd, demo_asked MODE_TALKER (if fd =? 4 then 1234 else 5678)) _ demo_same_seconds _ _).
  - apply demo_tsq_system; [apply (stream_os_tcp demo_sent)|apply stream_os_signals].
  - apply (@bool_decide_eq_true_1 _ (@orderly_dec in_turn_os _)). vm_compute. reflexivity.
  - apply (@bool_decide_eq_true_1 _ (@in_step_dec in_turn_os demo_sent _)). vm_compute. reflexivity.
Defined.
