(* ===== verification/Txrx.v ===== *)
(** * TXRX-TSN: data, options and packets (src/src/txrx.h, src/src/txrx.c)

    What the AF_PACKET and AF_XDP halves of txrx-tsn share: the user options
    and their parser, the clock helpers, the layout of the packets, the
    globals, and the calls the program makes. *)

From S2P Require Import Prelude Layout Sys Libc Argp.

Local Open Scope Z_scope.

(** ** Constants *)

Definition NSEC_PER_SEC : Z := 1000000000.
Definition MODE_INVALID : Z := 99.
Definition MODE_AFXDP : Z := 1.
Definition MODE_AFPKT : Z := 2.
Definition MODE_TX : Z := 0.
Definition MODE_RX : Z := 1.
Definition XDP_MODE_SKB_COPY : Z := 0.
Definition XDP_MODE_NATIVE_COPY : Z := 1.
Definition XDP_MODE_ZERO_COPY : Z := 2.
Definition VLAN_ID : Z := 3.
Definition DEFAULT_NUM_FRAMES : Z := 1000.
Definition DEFAULT_TX_PERIOD : Z := 100000.
Definition DEFAULT_SOCKET_PRIORITY : Z := 0.
Definition DEFAULT_PACKET_SIZE : Z := 64.
Definition DEFAULT_TXTIME_OFFSET : Z := 0.
Definition DEFAULT_EARLY_OFFSET : Z := 100000.
Definition DEFAULT_XDP_FRAMES_PER_RING : Z := 4096.
Definition DEFAULT_XDP_FRAMES_SIZE : Z := 4096.
Definition MIN_SOCKET_PRIORITY : Z := 0.
Definition MAX_SOCKET_PRIORITY : Z := 3.

Definition EXIT_SUCCESS : Z := 0.
Definition EXIT_FAILURE : Z := 1.
Definition CLOCK_REALTIME : Z := 0.
Definition CLOCK_TAI : Z := 11.
Definition ETHERTYPE_VLAN : Z := 0x8100.
Definition ETH_P_TSN : Z := 0x22F0.
Definition ETH_P_8021Q : Z := 0x8100.
Definition ETH_UADP : Z := 0xb62c.      (* the literal of the workaround *)

(** ** User options *)

Record xsk_opt : Type := mk_xsk_opt {
  queue : Z;               (* uint8_t *)
  xdp_flags : Z;           (* uint32_t *)
  xdp_bind_flags : Z;      (* uint32_t *)
  frame_size : Z;          (* uint16_t *)
  frames_per_ring : Z      (* uint16_t *)
}.

Record user_opt : Type := mk_user_opt {
  mode : Z;
  socket_mode : Z;
  ifname : option (list Z);
  ifindex : Z;
  clkid : Z;
  enable_hwts : Z;
  socket_prio : Z;
  vlan_prio : Z;
  packet_size : Z;
  frames_to_send : Z;
  interval_ns : Z;
  offset_ns : Z;
  early_offset_ns : Z;
  x_opt : xsk_opt;
  xdp_mode : Z;
  enable_poll : Z;
  enable_txtime : Z;
  need_wakeup : bool;
  poll_timeout : Z
}.

(** The options as main() prepares them for argp, in a build with XDP; the
    fields of a build without it ([x_opt], and [xdp_mode] then 0) are read by
    the AF_XDP half only. *)
Definition default_user_opt : user_opt := {|
  mode := MODE_INVALID;
  socket_mode := MODE_INVALID;
  ifname := None;
  ifindex := 0;
  clkid := CLOCK_REALTIME;
  enable_hwts := 0;
  socket_prio := DEFAULT_SOCKET_PRIORITY;
  vlan_prio := DEFAULT_SOCKET_PRIORITY;
  packet_size := DEFAULT_PACKET_SIZE;
  frames_to_send := DEFAULT_NUM_FRAMES;
  interval_ns := DEFAULT_TX_PERIOD;
  offset_ns := DEFAULT_TXTIME_OFFSET;
  early_offset_ns := DEFAULT_EARLY_OFFSET;
  x_opt := mk_xsk_opt 0 0 0 DEFAULT_XDP_FRAMES_SIZE DEFAULT_XDP_FRAMES_PER_RING;
  xdp_mode := XDP_MODE_ZERO_COPY;
  enable_poll := 0;
  enable_txtime := 0;
  need_wakeup := false;
  poll_timeout := 1000
|}.

(** ** AF_XDP socket state *)

Record xsk_info : Type := mk_xsk_info {
  prog_id : Z;
  cur_tx : Z;              (* uint32_t *)
  cur_rx : Z;
  rx_npkts : Z;            (* uint64_t *)
  tx_npkts : Z;
  outstanding_tx : Z       (* uint32_t *)
}.

(** ** Globals

    [umem] is the packet buffer memory shared with the kernel, by offset from
    its start; [glob_xskinfo] is [glob_xskinfo_ptr], [None] for NULL. *)

Record txrx_glob : Type := mk_txrx_glob {
  dst_mac_addr : list Z;
  glob_xskinfo : option xsk_info;
  glob_xdp_flags : Z;
  glob_ifindex : Z;
  halt_tx_sig : Z;
  verbose : Z;
  glob_rx_seq : Z;
  umem : gmap Z Z;         (* the bytes stored in it so far *)
  umem_size : Z            (* how many bytes were allocated *)
}.

Definition src_mac_addr : list Z := [0xaa; 0x00; 0xaa; 0x00; 0xaa; 0x00].

Definition init_txrx_glob : txrx_glob :=
  mk_txrx_glob [0x22; 0xbb; 0x22; 0xbb; 0x22; 0xbb] None 0 0 0 0 0 ∅ 0.

(** ** The calls txrx-tsn makes *)

(** [struct sockaddr_ll]: the fields the program sets. *)
Record sockaddr_ll : Type := mk_sockaddr_ll {
  sll_protocol : Z; sll_ifindex : Z; sll_addr : list Z
}.

Inductive ring : Type := RxFill | TxComp | RxRing | TxRing.

Inductive call : Type :=
| Observe                                        (* the program reads halt_tx_sig *)
| ClockGettime (clk : Z)
| ClockNanosleep (clk : Z) (abstime : timespec)
| Usleep (us : Z)
| Stdout (fields : list Z)                       (* one line of results *)
| Fflush
| IfNametoindex (name : list Z)
(* AF_PACKET sockets *)
| SocketPacket (dgram : bool) (proto : Z)
| SetPriority (fd prio : Z)
| SetTimestamping (fd : Z) (rx : bool)
| SetTxtime (fd clk flags : Z)
| SetRcvbuf (fd size : Z)
| AddMembership (fd ifi : Z) (mac : list Z)
| IoctlHwtstamp (fd : Z) (name : list Z)
| IoctlIfindex (fd : Z) (name : list Z)
| BindPacket (fd ifi proto : Z)
| Sendto (fd : Z) (buf : list Z) (addr : sockaddr_ll)
| Sendmsg (fd : Z) (buf : list Z) (addr : sockaddr_ll) (txtime : Z)
| Recvmsg (fd : Z) (errqueue : bool) (len : nat)
| SelectErr (fd usec : Z)
| Close (fd : Z)
(* files of ts_log_start() and ts_log_stop() *)
| Fopen (path : list Z) (write : bool)
| Fgetc (path : list Z) | Fputc (path : list Z) (c : Z) | Fclose (path : list Z)
(* AF_XDP sockets: rlimit, libbpf, poll *)
| Setrlimit
| PosixMemalign (size : Z) | Calloc
| XskUmemCreate (size fill comp fsize : Z)
| XskSocketCreate (ifname : list Z) (q rx_size tx_size xflags bflags : Z)
| BpfXdpQueryId (ifi flags : Z)
| RingReserve (r : ring) (n : Z)
| RingSubmit (r : ring) (n : Z)
| RingPeek (r : ring) (n : Z)
| RingRelease (r : ring) (n : Z)
| FillAddr (idx addr : Z)
| TxDesc (idx addr len : Z) (txtime : option Z)
| RxDesc (idx : Z)
| PollOut (timeout : Z)
| SendtoKick
| SchedYield
| XskSocketDelete | XskUmemDelete.

(** A control message: its level, its type and its data as 64-bit words. *)
Record cmsg : Type := mk_cmsg { cmsg_level : Z; cmsg_type : Z; cmsg_data : list Z }.

(** The environment (kernel, C library, libbpf).  [os_recvmsg] gives the
    result of recvmsg, the bytes of the packet and its control messages;
    [os_uninit] the indeterminate bytes of a local buffer;
    [os_mem] the initial contents of the packet buffer memory and [os_dma]
    what the kernel has stored in it when a received packet is announced. *)
Class txrx_os : Type := {
  os_signals : list call → list Z;
  os_clock : list call → timespec;
  os_nanosleep : list call → Z;
  os_if_nametoindex : list call → Z;
  os_socket : list call → Z;
  os_setsockopt : list call → Z;
  os_ioctl : list call → Z;
  os_ioctl_ifindex : list call → Z * Z;
  os_bind : list call → Z;
  os_sendto : list call → Z;
  os_sendmsg : list call → Z;
  os_recvmsg : list call → Z * list Z * list cmsg;
  os_select : list call → Z;
  os_fopen : list call → bool;
  os_fgetc : list call → option Z;
  os_setrlimit : list call → Z;
  os_memalign : list call → Z;
  os_calloc : list call → bool;
  os_umem_create : list call → Z;
  os_xsk_create : list call → Z;
  os_query_id : list call → Z * Z;
  os_ring : list call → Z * Z;
  os_rx_desc : list call → Z * Z;
  os_poll : list call → Z * bool;
  os_kick : list call → Z * Z;
  os_uninit : nat → Z;
  os_mem : Z → Z;
  os_dma : list call → gmap Z Z
}.

(** A local buffer of [n] bytes before anything is stored in it. *)
Definition uninit `{!txrx_os} (n : nat) : list Z := os_uninit <$> List.seq 0 n.

Lemma length_uninit `{!txrx_os} n : length (uninit n) = n.
Proof. unfold uninit. by rewrite length_fmap, length_seq. Qed.

(** How the program was configured (configure.ac). *)
Class build : Type := { WITH_XDP : bool; WITH_XDPTBS : bool }.

Abbreviation T := (M txrx_glob call).

(** ** Signals and clocks *)

(** afpkt_sigint_handler() and afxdp_sigint_handler(). *)
Definition afpkt_sigint_handler (signum : Z) (g : txrx_glob) : txrx_glob :=
  g {{ halt_tx_sig := signum }}.

Definition afxdp_sigint_handler (signum : Z) (g : txrx_glob) : txrx_glob :=
  g {{ halt_tx_sig := signum }}.

(** The value of [halt_tx_sig] when the program reads it: handlers may have
    run since the last look.  Both handlers store the signal number. *)
Definition halted `{!txrx_os} : T bool :=
  sigs ← ask Observe os_signals;
  modify (λ g, foldl (λ g s, afpkt_sigint_handler s g) g sigs);;
  g ← get;
  mret (negb (halt_tx_sig g =? 0)).

Definition get_time_nanosec `{!txrx_os} (clk : Z) : T Z :=
  now ← ask (ClockGettime clk) os_clock;
  mret (u64 (tv_sec now * NSEC_PER_SEC + tv_nsec now)).

Definition get_time_sec `{!txrx_os} (clk : Z) : T Z :=
  now ← ask (ClockGettime clk) os_clock;
  mret (u64 (tv_sec now * NSEC_PER_SEC)).

(** [ts.tv_sec = t / NSEC_PER_SEC; ts.tv_nsec = t % NSEC_PER_SEC]. *)
Definition timespec_of (t : Z) : timespec :=
  mk_timespec (t / NSEC_PER_SEC) (t mod NSEC_PER_SEC).

(** [exit_with_error(s)]. *)
Definition exit_with_error {A} : T A := exit_ EXIT_FAILURE.

(** ** Packets

    [tsn_packet] is packed: the offsets of its fields. *)

Definition off_dst_mac : nat := 0.
Definition off_src_mac : nat := 6.
Definition off_vlan_hdr : nat := 12.
Definition off_vlan_prio : nat := 14.
Definition off_vlan_id : nat := 15.
Definition off_eth_hdr : nat := 16.
Definition off_payload : nat := 18.
Definition sizeof_tsn_packet : nat := 26.

(** [struct custom_payload]: offsets of its fields and its size. *)
Definition off_tx_queue : nat := 0.
Definition off_seq : nat := 4.
Definition off_tx_timestampA : nat := 8.
Definition off_rx_timestampD : nat := 16.
Definition sizeof_custom_payload : nat := 24.

(** The declarations they come from. *)
Definition tsn_packet_members : members := pack
  [("dst_mac", array 6 c_byte); ("src_mac", array 6 c_byte); ("vlan_hdr", c_short);
   ("vlan_prio", c_byte); ("vlan_id", c_byte); ("eth_hdr", c_short);
   ("payload", c_pointer)]%string.

Definition custom_payload_members : members :=
  [("tx_queue", c_int); ("seq", c_int); ("tx_timestampA", c_long);
   ("rx_timestampD", c_long)]%string.

(** The fields of a custom_payload that starts at offset [p] of a buffer. *)
Definition pl_tx_queue (buf : list Z) (p : nat) : Z :=
  u32 (le_decode (read_at buf (p + off_tx_queue) 4)).
Definition pl_seq (buf : list Z) (p : nat) : Z :=
  u32 (le_decode (read_at buf (p + off_seq) 4)).
Definition pl_tx_timestampA (buf : list Z) (p : nat) : Z :=
  u64 (le_decode (read_at buf (p + off_tx_timestampA) 8)).

Definition set_tx_queue (buf : list Z) (p : nat) (v : Z) : list Z :=
  write_at buf (p + off_tx_queue) (le_encode 4 v).
Definition set_seq (buf : list Z) (p : nat) (v : Z) : list Z :=
  write_at buf (p + off_seq) (le_encode 4 v).
Definition set_tx_timestampA (buf : list Z) (p : nat) (v : Z) : list Z :=
  write_at buf (p + off_tx_timestampA) (le_encode 8 v).

(** setup_tsn_vlan_packet(): the whole buffer is first filled with 0xab. *)
Definition setup_tsn_vlan_packet (o : user_opt) (dst_mac : list Z) : list Z :=
  let pkt := replicate (Z.to_nat (packet_size o)) 0xab in
  let pkt := write_at pkt off_src_mac (take 6 src_mac_addr) in
  let pkt := write_at pkt off_dst_mac (take 6 dst_mac) in
  let pkt := write_at pkt off_vlan_hdr (be16 ETHERTYPE_VLAN) in
  let pkt := write_at pkt off_vlan_id [u8 VLAN_ID] in
  let pkt := write_at pkt off_vlan_prio [u8 (vlan_prio o)] in
  let pkt := write_at pkt off_eth_hdr (be16 ETH_P_TSN) in
  write_at pkt off_eth_hdr (be16 ETH_UADP).

(** ** Option parser *)

Definition options : list argp_option := [
  row "interface" "i" (Some "NAME"%string);
  heading;   (* Socket Mode *)
  row "afxdp" "X" None;
  row "afpkt" "P" None;
  heading;   (* Mode *)
  row "transmit" "t" None;
  row "receive" "r" None;
  heading;   (* XDP Mode *)
  row "zero-copy" "z" None;
  row "native-copy" "c" None;
  row "skb" "s" None;
  heading;   (* AF_XDP control *)
  row "launchtime" "T" None;
  row "polling" "p" None;
  row "wakeup" "w" None;
  row "vlan-prio" "q" (Some "NUM"%string);
  heading;   (* TX control *)
  row "packet-size" "l" (Some "NUM"%string);
  row "cycle-time" "y" (Some "NSEC"%string);
  row "frames-to-send" "n" (Some "NUM"%string);
  row "dst-mac-addr" "d" (Some "MAC_ADDR"%string);
  heading;   (* LaunchTime/TBS-specific *)
  row "transmit-offset" "o" (Some "NSEC"%string);
  row "early-offset" "e" (Some "NSEC"%string);
  heading;   (* Misc *)
  row "hw-timestamps" "h" None;
  row "verbose" "v" None
].

(** [errno || res < lo || res > hi || str_end != &arg[len]]. *)
Definition bad_number (arg : list Z) (lo hi : Z) : bool :=
  let r := strtol arg in
  negb (st_errno r =? 0) || (st_value r <? lo) || (st_value r >? hi)
  || negb (st_consumed r =? length arg)%nat.

Definition parser (key : Ascii.ascii) (arg : option word) (o : user_opt) : T (user_opt * Z) :=
  match key with
  | "v"%char => modify (λ g, g {{ verbose := 1 }});; mret (o, 0)
  | "h"%char => mret (o {{ enable_hwts := 1 }}, 0)
  | "i"%char => arg ← deref arg; mret (o {{ ifname := Some arg }}, 0)
  | "q"%char =>
      arg ← deref arg;
      let res := st_value (strtol arg) in
      if bad_number arg MIN_SOCKET_PRIORITY MAX_SOCKET_PRIORITY then exit_with_error
      else mret (o {{ socket_prio := u32 res;
                      x_opt := (x_opt o) {{ queue := u8 (u32 res) }};
                      vlan_prio := u8 (u32 res * 32) }}, 0)
  | "X"%char => mret (o {{ socket_mode := MODE_AFXDP }}, 0)
  | "P"%char => mret (o {{ socket_mode := MODE_AFPKT }}, 0)
  | "t"%char => mret (o {{ mode := MODE_TX }}, 0)
  | "r"%char => mret (o {{ mode := MODE_RX }}, 0)
  | "z"%char => mret (o {{ xdp_mode := XDP_MODE_ZERO_COPY }}, 0)
  | "c"%char => mret (o {{ xdp_mode := XDP_MODE_NATIVE_COPY }}, 0)
  | "s"%char => mret (o {{ xdp_mode := XDP_MODE_SKB_COPY }}, 0)
  | "T"%char => mret (o {{ enable_txtime := 1 }}, 0)
  | "p"%char => mret (o {{ enable_poll := 1 }}, 0)
  | "w"%char => mret (o {{ need_wakeup := true }}, 0)
  | "l"%char =>
      arg ← deref arg;
      let res := st_value (strtol arg) in
      if bad_number arg 64 1500 then exit_with_error
      else mret (o {{ packet_size := u32 res }}, 0)
  | "y"%char =>
      arg ← deref arg;
      let res := st_value (strtol arg) in
      if bad_number arg 25000 50000000 then exit_with_error
      else mret (o {{ interval_ns := u32 res }}, 0)
  | "n"%char =>
      arg ← deref arg;
      let res := st_value (strtol arg) in
      if bad_number arg 1 10000000 then exit_with_error
      else mret (o {{ frames_to_send := u32 res }}, 0)
  | "o"%char =>
      arg ← deref arg;
      let res := st_value (strtol arg) in
      if bad_number arg 0 100000000 then exit_with_error
      else mret (o {{ offset_ns := u32 res }}, 0)
  | "e"%char =>
      arg ← deref arg;
      let res := st_value (strtol arg) in
      if bad_number arg 0 10000000 then exit_with_error
      else mret (o {{ early_offset_ns := u32 res }}, 0)
  | "d"%char =>
      arg ← deref arg;
      let mac := scan_hhx_colon 6 arg in
      modify (λ g, g {{ dst_mac_addr := mac ++ drop (length mac) (dst_mac_addr g) }});;
      if negb (length mac =? 6)%nat then exit_with_error else mret (o, 0)
  | _ => mret (o, ARGP_ERR_UNKNOWN)
  end.

Definition argp : struct_argp txrx_glob call user_opt := mk_argp options parser.

(** What the rest of the program may rely on after the options are parsed. *)
Record opt_wf (o : user_opt) : Prop := {
  wf_prio : 0 <= socket_prio o <= 3;
  wf_vlan : vlan_prio o = 32 * socket_prio o;
  wf_queue : queue (x_opt o) = socket_prio o;
  wf_size : 64 <= packet_size o <= 1500;
  wf_frames : 1 <= frames_to_send o <= 10000000;
  wf_interval : 25000 <= interval_ns o <= 50000000;
  wf_offset : 0 <= offset_ns o <= 100000000;
  wf_early : 0 <= early_offset_ns o <= 10000000;
  wf_ring : frames_per_ring (x_opt o) = DEFAULT_XDP_FRAMES_PER_RING;
  wf_fsize : frame_size (x_opt o) = DEFAULT_XDP_FRAMES_SIZE;
  wf_xmode : 0 <= xdp_mode o <= 2
}.

Definition mac_wf (mac : list Z) : Prop := length mac = 6%nat ∧ Forall is_byte mac.

(** ** Lemmas: clocks and signals *)

Lemma timespec_of_ok t : 0 <= t → timespec_ok (timespec_of t) ∧ ns_of (timespec_of t) = t.
Proof.
  intros Ht. unfold timespec_ok, timespec_of, ns_of, NSEC_PER_SEC; simpl.
  pose proof (Z.div_mod t 1000000000). pose proof (Z.mod_pos_bound t 1000000000).
  pose proof (Z.div_pos t 1000000000). lia.
Qed.

Lemma handlers_fold sigs g :
  foldl (λ g s, afpkt_sigint_handler s g) g sigs
  = g {{ halt_tx_sig := List.last sigs (halt_tx_sig g) }}.
Proof.
  revert g. induction sigs as [|x sigs IH]; intros g; simpl; [by destruct g|].
  rewrite IH. unfold afpkt_sigint_handler. destruct g, sigs as [|y sigs]; simpl; [done|].
  f_equal. clear. revert y. induction sigs as [|z sigs IH]; intros y; simpl; [done|].
  by apply IH.
Qed.

Lemma wp_halted {OS : txrx_os} Q s :
  (let h := List.last (os_signals (Observe :: trace s)) (halt_tx_sig (glob s)) in
   Q (Done (negb (h =? 0)))
     (mkSt ((glob s) {{ halt_tx_sig := h }}) (Observe :: trace s))) →
  wp halted Q s.
Proof.
  intros HQ. unfold wp, halted, mbind, M_bind, ask, modify, get, mret, M_ret. simpl.
  rewrite handlers_fold. destruct s as [[] tr]. exact HQ.
Qed.

(** Result lines printed so far. *)
Definition lines (tr : list call) : list (list Z) :=
  omap (λ c, match c with Stdout l => Some l | _ => None end) tr.

(** The instant of the first packet: two seconds after the start of the
    current second, plus the offset. *)
Definition start_of `{!txrx_os} (o : user_opt) (tr : list call) : Z :=
  tv_sec (os_clock (ClockGettime CLOCK_REALTIME :: tr)) * NSEC_PER_SEC
  + 2 * NSEC_PER_SEC + offset_ns o.

Lemma u64_add_add a b c : u64 (u64 (u64 a + b) + c) = u64 (a + b + c).
Proof. by rewrite u64_add_l, <- Z.add_assoc, u64_add_l, Z.add_assoc. Qed.

(** ** Lemmas: parser *)

Lemma bad_number_range arg lo hi :
  LONG_MIN <= lo → hi <= LONG_MAX →
  bad_number arg lo hi = false ↔
  lo <= st_value (strtol arg) <= hi ∧
  (arg = [] ∨ numeral arg (st_value (strtol arg))).
Proof.
  intros Hlo Hhi. unfold bad_number. cbv zeta.
  destruct (strtol_whole arg (st_value (strtol arg))) as [H1 H2]. split.
  - intros Hb. bool_to_prop.
    match goal with H : (_ =? _)%nat = true |- _ => apply Nat.eqb_eq in H end.
    destruct H1 as [[? ?]|[? ?]]; [done|auto with lia|]. split; [lia|auto].
  - intros [Hr Hn]. destruct H2 as (_ & -> & ->).
    { destruct Hn as [->|Hn]; [by left|]. right. split; [done|lia]. }
    rewrite Nat.eqb_refl. simpl. rewrite !orb_false_iff, Z.gtb_ltb. lia.
Qed.

Lemma wrapU_byte z : is_byte (u8 z).
Proof. unfold is_byte. by apply (wrapU_range 8 z). Qed.

Lemma scan_hhx_colon_bytes n s :
  Forall is_byte (scan_hhx_colon n s) ∧ (length (scan_hhx_colon n s) <= n)%nat.
Proof.
  revert s. induction n as [|n IH]; intros s; simpl; [auto with arith|].
  destruct (scan_hhx s) as [[v rest]|] eqn:E; [|simpl; split; [done|lia]].
  assert (is_byte v) as Hv.
  { unfold scan_hhx in E. repeat case_match; simplify_eq; apply wrapU_byte. }
  destruct n as [|n]; [simpl; split; [by constructor|lia]|].
  assert (Forall is_byte [v] ∧ (length [v] <= S (S n))%nat) as Hone
    by (simpl; split; [by constructor|lia]).
  repeat (case_match; try done). destruct (IH l) as [Hb Hl].
  split; [by constructor|apply le_n_S, Hl].
Qed.

Definition txrx_ok (o : user_opt) (s : st txrx_glob call) : Prop :=
  opt_wf o ∧ mac_wf (dst_mac_addr (glob s)).

(** A number that passes the test, stored at its width. *)
Lemma bad_number_u32 arg lo hi :
  LONG_MIN <= lo → hi <= LONG_MAX → 0 <= lo → hi < 2 ^ 32 →
  bad_number arg lo hi = false →
  u32 (st_value (strtol arg)) = st_value (strtol arg) ∧
  lo <= st_value (strtol arg) <= hi.
Proof.
  intros ? ? ? ? H. apply bad_number_range in H as [Hr _]; [|done..].
  by rewrite wrapU_small by lia.
Qed.

Lemma parser_wf key arg o s :
  option_of options (key, arg) → txrx_ok o s →
  wp (parser key arg o)
     (λ out s', match out with
                | Done (o', e) => e = 0 ∧ txrx_ok o' s'
                | Exited c => c = EXIT_FAILURE
                | _ => False
                end) s.
Proof.
  intros (r & Hr & Hk & Ht) [Ho Hm]. cbn [fst snd] in *.
  repeat (apply elem_of_cons in Hr as [->|Hr]); [..|by apply elem_of_nil in Hr];
    cbn in Hk, Ht; try done; injection Hk as <-; destruct arg as [arg|]; try done;
    unfold parser; cbn [deref];
    try (apply wp_ret; split; [done|]; split; [destruct Ho, o as [], x_opt0; split; done|done]).
  all: apply wp_bind; apply wp_ret; cbv beta iota zeta.
  all: try (apply wp_ret; split; [done|]; split; [destruct Ho, o as [], x_opt0; split; done|done]).
  5: { destruct (scan_hhx_colon_bytes 6 arg) as [Hb Hl].
    apply wp_bind. unfold modify, wp at 1; simpl. case_match; [done|]. bool_to_prop.
    match goal with Hx : (_ =? 6)%nat = true |- _ => apply Nat.eqb_eq in Hx end.
    apply wp_ret. split; [done|]. split; [done|].
    destruct s as [[] tr], Hm as [Hm1 Hm2]; simpl in *.
    split; [rewrite length_app, length_drop; lia|].
    apply Forall_app_2; [done|by apply Forall_drop]. }
  all: destruct (bad_number _ _ _) eqn:Hbad; [done|];
       match goal with H : bad_number _ _ _ = false |- _ =>
         apply bad_number_u32 in H; [|unfold LONG_MIN; done|unfold LONG_MAX; done|done|done];
         destruct H as [-> Hr'] end;
       unfold MIN_SOCKET_PRIORITY, MAX_SOCKET_PRIORITY in *;
       apply wp_ret; split; [done|]; split; [|done]; destruct Ho, o as [], x_opt0; split; simpl in *;
       rewrite ?wrapU_small by lia; try done; lia.
Qed.

(** The globals without the two that the parser sets. *)
Definition unparsed (g : txrx_glob) : txrx_glob := g {{ verbose := 0 }} {{ dst_mac_addr := [] }}.

(** The parser makes no calls and leaves the other globals alone. *)
Definition same_run {A} (s : st txrx_glob call) (out : outcome A) (s' : st txrx_glob call) : Prop :=
  match out with
  | Done _ => trace s' = trace s ∧ unparsed (glob s') = unparsed (glob s)
  | _ => True
  end.

Lemma parser_same_run key arg o s : wp (parser key arg o) (same_run s) s.
Proof. unfold parser, deref, exit_with_error. destruct s as [[] tr]. run_code; done. Qed.

Lemma default_user_opt_wf : opt_wf default_user_opt.
Proof. split; vm_compute; first [done | split; congruence]. Qed.

(** What main() goes on with. *)
Lemma argp_parse_run argv tr :
  wp (argp_parse argp argv default_user_opt)
     (λ out s', match out with
                | Done o => opt_wf o ∧ mac_wf (dst_mac_addr (glob s')) ∧
                            trace s' = tr ∧ unparsed (glob s') = unparsed init_txrx_glob
                | _ => True
                end) (mkSt init_txrx_glob tr).
Proof.
  apply (wp_argp_parse (λ _ o s, txrx_ok o s ∧ trace s = tr ∧
    unparsed (glob s) = unparsed init_txrx_glob)).
  - intros _ k a o s Hin _ (Ho & E1 & E2).
    eapply wp_mono; [apply (wp_conj _ _ _ _ (parser_wf k a o s Hin Ho) (parser_same_run k a o s))|].
    intros [[o' r]|c| |] s'; simpl; [|tauto..]. intros [[-> Ho'] [-> ->]]. auto.
  - intros o s ([Ho Hm] & E1 & E2). by destruct (getopt options argv) as [fs [[|]| |]].
  - split; [|done]. split; [exact default_user_opt_wf|]. split; [done|]. repeat constructor; done.
Qed.

(** ** Properties: the options *)

(** C33: whatever the command line, the options that main() goes on with are in
    the documented ranges: the priority is a queue number, the VLAN priority
    byte is 32 times it (the PCP bits of the tag, no overflow of the byte), the
    packet holds headers and payload, and the destination MAC address has six
    bytes.  The parser ends the process with status 1 on a bad value, argp with
    64 on a word that is no option and with 0 on a request for help; nothing
    else ends it: the parser knows every option of the table, and never reads
    through a NULL argument. *)
Theorem argp_parse_wf argv tr :
  wp (argp_parse argp argv default_user_opt)
     (λ out s', match out with
                | Done o => opt_wf o ∧ mac_wf (dst_mac_addr (glob s')) ∧
                            (getopt options argv).2 = Parsed []
                | Exited c => c = EXIT_FAILURE ∨
                              (c = 0 ∧ (getopt options argv).2 = Help_given) ∨
                              (c = EX_USAGE ∧ (getopt options argv).2 ≠ Parsed [])
                | _ => False
                end) (mkSt init_txrx_glob tr).
Proof.
  apply (wp_argp_parse (λ _ o s, txrx_ok o s)).
  - intros _ k a o s Hin _ Ho. eapply wp_mono; [by apply parser_wf|].
    intros [[o' r]| | |] s'; simpl; auto.
  - intros o s [Ho Hm]. destruct (getopt options argv) as [fs [[|]| |]]; simpl; auto.
  - split; [exact default_user_opt_wf|]. split; [done|]. repeat constructor; done.
Qed.

(** The numeric options: the bounds on the value and the fields it is stored in. *)
Definition numeric_option (key : Ascii.ascii)
  : option (Z * Z * (Z → user_opt → user_opt)) :=
  match key with
  | "q"%char => Some (0, 3, λ n o, o {{ socket_prio := n;
                                        x_opt := (x_opt o) {{ queue := n }};
                                        vlan_prio := 32 * n }})
  | "l"%char => Some (64, 1500, λ n o, o {{ packet_size := n }})
  | "y"%char => Some (25000, 50000000, λ n o, o {{ interval_ns := n }})
  | "n"%char => Some (1, 10000000, λ n o, o {{ frames_to_send := n }})
  | "o"%char => Some (0, 100000000, λ n o, o {{ offset_ns := n }})
  | "e"%char => Some (0, 10000000, λ n o, o {{ early_offset_ns := n }})
  | _ => None
  end.

Lemma bad_number_cases arg lo hi :
  LONG_MIN <= lo → hi <= LONG_MAX →
  (bad_number arg lo hi = true ∧
   ∀ n, lo <= n <= hi → (arg = [] ∧ n = 0) ∨ numeral arg n → False) ∨
  (bad_number arg lo hi = false ∧ lo <= st_value (strtol arg) <= hi ∧
   ∀ n, lo <= n <= hi →
        (arg = [] ∧ n = 0) ∨ numeral arg n ↔ n = st_value (strtol arg)).
Proof.
  intros Hlo Hhi.
  assert (∀ n, lo <= n <= hi → (arg = [] ∧ n = 0) ∨ numeral arg n →
               st_value (strtol arg) = n ∧ (arg = [] ∨ numeral arg n)) as Hv.
  { intros n Hn Ha. destruct (strtol_whole arg n) as [_ H2].
    destruct H2 as (-> & _); [destruct Ha as [|]; [by left|right; split; [done|lia]]|].
    split; [done|]. destruct Ha as [[-> _]|]; auto. }
  destruct (bad_number arg lo hi) eqn:E; [left|right]; (split; [done|]).
  - intros n Hn Ha. destruct (Hv n Hn Ha) as [Hs Hc].
    enough (bad_number arg lo hi = false) by congruence.
    apply bad_number_range; [done..|]. by rewrite Hs.
  - apply bad_number_range in E as [Hr Ha]; [|done..]. split; [done|].
    intros n Hn. split; [intros Hx; by destruct (Hv n Hn Hx) as [-> _]|].
    intros ->. destruct Ha as [->|Ha]; [left|by right]. split; [done|].
    by destruct (strtol_whole [] 0) as [_ [-> _]]; [left|].
Qed.

(** -q, -l, -y, -n, -o and -e accept exactly the decimal numerals between
    their bounds (and the empty string where 0 is in range), and store the
    number unchanged in their field, no narrowing conversion altering it. *)
Theorem parser_number_accepts key lo hi set arg o o' s :
  numeric_option key = Some (lo, hi, set) →
  (parser key (Some arg) o s).1 = Done (o', 0) ↔
  ∃ n, lo <= n <= hi ∧ ((arg = [] ∧ n = 0) ∨ numeral arg n) ∧ o' = set n o.
Proof.
  intros Hk.
  assert (LONG_MIN <= lo ∧ hi <= LONG_MAX ∧ 0 <= lo) as (Hl & Hh & H0).
  { unfold numeric_option in Hk. repeat case_match; simplify_eq; done. }
  assert (parser key (Some arg) o s = if bad_number arg lo hi then (Exited EXIT_FAILURE, s)
            else (Done (set (st_value (strtol arg)) o, 0), s)) as ->.
  { destruct (bad_number_cases arg lo hi Hl Hh) as [[E _]|(E & Hr & _)]; rewrite E.
    all: unfold numeric_option in Hk; repeat case_match; simplify_eq;
      unfold parser, mbind, M_bind, deref, mret, M_ret; cbv beta iota zeta;
      unfold MIN_SOCKET_PRIORITY, MAX_SOCKET_PRIORITY; rewrite E; try done.
    all: rewrite ?(wrapU_small 32) by lia; rewrite ?wrapU_small by lia; try done.
    all: by rewrite (Z.mul_comm 32). }
  destruct (bad_number_cases arg lo hi Hl Hh) as [[-> Hn]|(-> & Hr & Hn)]; simpl.
  - split; [done|]. intros (n & Hn' & Ha & _). by destruct (Hn n).
  - split.
    + intros [= <-]. exists (st_value (strtol arg)). split; [done|]. by rewrite Hn.
    + intros (n & Hn' & Ha & ->). apply Hn in Ha; [|done]. by subst.
Qed.

Lemma parser_number_accepts_witness :
  (parser "q" (Some [51]) default_user_opt (mkSt init_txrx_glob [])).1
  = Done (default_user_opt {{ socket_prio := 3;
            x_opt := (x_opt default_user_opt) {{ queue := 3 }}; vlan_prio := 96 }}, 0)
  ∧ ∃ n, 0 <= n <= 3 ∧ (([51] = [] ∧ n = 0) ∨ numeral [51] n) ∧ n = 3.
Proof.
  split; [reflexivity|].
  edestruct (parser_number_accepts "q" 0 3 _ [51] default_user_opt
    (default_user_opt {{ socket_prio := 3;
       x_opt := (x_opt default_user_opt) {{ queue := 3 }}; vlan_prio := 96 }})
    (mkSt init_txrx_glob []) eq_refl) as [H _].
  destruct (H eq_refl) as (n & Hn & Ha & [=]). exists n. auto.
Defined.

(** A MAC address written as six two-digit hexadecimal bytes joined by
    colons and given to -d becomes the destination address. *)
Theorem mac_option_roundtrip mac o tr :
  mac_wf mac →
  parser "d" (Some (print_mac mac)) o (mkSt init_txrx_glob tr)
  = (Done (o, 0), mkSt (init_txrx_glob {{ dst_mac_addr := mac }}) tr).
Proof.
  intros [Hl Hb]. pose proof (scan_print_mac mac Hb) as E. rewrite Hl in E.
  unfold parser, mbind, M_bind, deref, mret, M_ret, modify. cbv beta iota zeta.
  rewrite E, Hl. simpl.
  by rewrite app_nil_r.
Qed.

Lemma mac_option_roundtrip_witness :
  parser "d" (Some (print_mac [0x22; 0xbb; 0; 1; 0x0f; 0xff])) default_user_opt
    (mkSt init_txrx_glob [])
  = (Done (default_user_opt, 0),
     mkSt (init_txrx_glob {{ dst_mac_addr := [0x22; 0xbb; 0; 1; 0x0f; 0xff] }}) []).
Proof.
  apply (mac_option_roundtrip [0x22; 0xbb; 0; 1; 0x0f; 0xff]).
  split; [reflexivity|]. repeat constructor; discriminate.
Defined.

(** ** Lemmas: the packet template *)

(** The first 18 bytes of every packet. *)
Definition tsn_header (o : user_opt) (mac : list Z) : list Z :=
  mac ++ src_mac_addr ++ [0x81; 0x00; vlan_prio o; 3; 0xb6; 0x2c].

Lemma tsn_header_length o mac : mac_wf mac → length (tsn_header o mac) = 18%nat.
Proof. intros [Hl _]. unfold tsn_header. rewrite !length_app, Hl. done. Qed.

Lemma setup_layout o mac :
  opt_wf o → mac_wf mac →
  setup_tsn_vlan_packet o mac
  = tsn_header o mac ++ replicate (Z.to_nat (packet_size o) - 18) 0xab.
Proof.
  intros Ho [Hl _]. pose proof (wf_size o Ho) as Hs. pose proof (wf_prio o Ho).
  assert (u8 (vlan_prio o) = vlan_prio o) as Hv
    by (apply wrapU_small; rewrite (wf_vlan o Ho); lia).
  unfold setup_tsn_vlan_packet, tsn_header. rewrite Hv.
  assert (∃ k, Z.to_nat (packet_size o) = (18 + k)%nat) as [k ->]
    by (exists (Z.to_nat (packet_size o) - 18)%nat; lia).
  replace (18 + k - 18)%nat with k by lia. rewrite replicate_add.
  do 7 (destruct mac as [|? mac]; try discriminate Hl).
  reflexivity.
Qed.

(** The fields of the payload read back as they were set. *)
Lemma pl_tx_queue_set buf p v :
  (p + 4 <= length buf)%nat → pl_tx_queue (set_tx_queue buf p v) p = u32 v.
Proof.
  intros. unfold pl_tx_queue, set_tx_queue.
  rewrite read_write_same by (rewrite ?length_le_encode; unfold off_tx_queue; lia).
  rewrite le_decode_encode. apply wrapU_idemp.
Qed.

Lemma pl_seq_set buf p v :
  (p + 8 <= length buf)%nat → pl_seq (set_seq buf p v) p = u32 v.
Proof.
  intros. unfold pl_seq, set_seq.
  rewrite read_write_same by (rewrite ?length_le_encode; unfold off_seq; lia).
  rewrite le_decode_encode. apply wrapU_idemp.
Qed.

Lemma pl_time_set buf p v :
  (p + 16 <= length buf)%nat →
  pl_tx_timestampA (set_tx_timestampA buf p v) p = u64 v.
Proof.
  intros. unfold pl_tx_timestampA, set_tx_timestampA.
  rewrite read_write_same by (rewrite ?length_le_encode; unfold off_tx_timestampA; lia).
  rewrite le_decode_encode. apply wrapU_idemp.
Qed.

(** ** Properties: the packet template *)

(** The offsets the model uses are those of the two structures; the payload of a
    packet is what the pointer member of the packed structure starts at. *)
Theorem packet_layout :
  (λ n, offset_of n tsn_packet_members) <$>
    ["dst_mac"; "src_mac"; "vlan_hdr"; "vlan_prio"; "vlan_id"; "eth_hdr"; "payload"]%string
  = Some ∘ Z.of_nat <$>
    [off_dst_mac; off_src_mac; off_vlan_hdr; off_vlan_prio; off_vlan_id; off_eth_hdr; off_payload] ∧
  struct tsn_packet_members = mk_layout (Z.of_nat sizeof_tsn_packet) 1 ∧
  (λ n, offset_of n custom_payload_members) <$>
    ["tx_queue"; "seq"; "tx_timestampA"; "rx_timestampD"]%string
  = Some ∘ Z.of_nat <$> [off_tx_queue; off_seq; off_tx_timestampA; off_rx_timestampD] ∧
  struct custom_payload_members = mk_layout (Z.of_nat sizeof_custom_payload) 8.
Proof. repeat split; reflexivity. Qed.


(** C34: the packet template is exactly as long as requested and starts with
    destination MAC, source MAC, the 802.1Q tag type 0x8100 and a tag whose
    priority bits are the requested priority and whose VLAN id is 3, then the
    EtherType 0xb62c; the rest is 0xab.  No write of the setup leaves the
    packet. *)
Theorem setup_tsn_vlan_packet_layout o mac :
  opt_wf o → mac_wf mac →
  let pkt := setup_tsn_vlan_packet o mac in
  let tci := 256 * default 0 (pkt !! off_vlan_prio) + default 0 (pkt !! off_vlan_id) in
  length pkt = Z.to_nat (packet_size o) ∧
  take 12 pkt = mac ++ src_mac_addr ∧
  read_at pkt off_vlan_hdr 2 = [0x81; 0x00] ∧
  Z.shiftr tci 13 = socket_prio o ∧ Z.testbit tci 12 = false ∧ Z.land tci 0xfff = 3 ∧
  read_at pkt off_eth_hdr 2 = [0xb6; 0x2c] ∧
  Forall (λ b, b = 0xab) (drop off_payload pkt).
Proof.
  intros Ho Hm. pose proof (wf_size o Ho) as Hs. pose proof (wf_prio o Ho) as Hp.
  cbv zeta. rewrite setup_layout by done. split.
  { rewrite length_app, (tsn_header_length o mac Hm), length_replicate. lia. }
  unfold tsn_header. rewrite (wf_vlan o Ho). destruct Hm as [Hl _].
  do 7 (destruct mac as [|? mac]; try discriminate Hl). do 2 (split; [reflexivity|]).
  simpl. rewrite drop_0.
  repeat match goal with |- _ ∧ _ => split end; [..|by apply Forall_replicate]; try done.
  all: assert (socket_prio o = 0 ∨ socket_prio o = 1 ∨ socket_prio o = 2
               ∨ socket_prio o = 3) as [-> | [-> | [-> | ->]]] by lia; done.
Qed.

Lemma setup_tsn_vlan_packet_layout_witness :
  let pkt := setup_tsn_vlan_packet default_user_opt [1; 2; 3; 4; 5; 6] in
  take 12 pkt = [1; 2; 3; 4; 5; 6; 0xaa; 0x00; 0xaa; 0x00; 0xaa; 0x00] ∧
  Forall (λ b, b = 0xab) (drop off_payload pkt).
Proof.
  destruct (setup_tsn_vlan_packet_layout default_user_opt [1; 2; 3; 4; 5; 6])
    as (_ & H1 & _ & _ & _ & _ & _ & H2).
  - exact default_user_opt_wf.
  - split; [reflexivity|]. repeat constructor; discriminate.
  - split; [exact H1|exact H2].
Defined.

(** ** A concrete environment for the witnesses *)

(** What the witnesses vary in an otherwise undisturbed system, in which the
    clock stands at 1000 s and calls succeed. *)
Record demo_params : Type := {
  dp_socket : Z;
  dp_recvmsg : list call → Z * list Z * list cmsg;
  dp_fopen : bool;
  dp_fgetc : list call → option Z;
  dp_ring : list call → Z * Z;
  dp_rx_desc : Z * Z;
  dp_dma : list call → gmap Z Z
}.

Definition make_os (d : demo_params) : txrx_os := {|
  os_signals := λ _, []; os_clock := λ _, mk_timespec 1000 5; os_nanosleep := λ _, 0;
  os_if_nametoindex := λ _, 2; os_socket := λ _, dp_socket d; os_setsockopt := λ _, 0;
  os_ioctl := λ _, 0; os_ioctl_ifindex := λ _, (0, 2); os_bind := λ _, 0;
  os_sendto := λ _, 50; os_sendmsg := λ _, 50; os_recvmsg := dp_recvmsg d;
  os_select := λ _, 1; os_fopen := λ _, dp_fopen d; os_fgetc := dp_fgetc d;
  os_setrlimit := λ _, 0; os_memalign := λ _, 0; os_calloc := λ _, true;
  os_umem_create := λ _, 0; os_xsk_create := λ _, 0; os_query_id := λ _, (0, 7);
  os_ring := dp_ring d; os_rx_desc := λ _, dp_rx_desc d; os_poll := λ _, (1, true);
  os_kick := λ _, (0, 0); os_uninit := λ _, 0; os_mem := λ _, 0; os_dma := dp_dma d
|}.

Definition demo_ring (tr : list call) : Z * Z :=
  match tr with RingReserve _ n :: _ => (n, 0) | _ => (1, 0) end.

Definition demo_dp (frame : list Z) : demo_params := {|
  dp_socket := 5; dp_recvmsg := λ _, (Z.of_nat (length frame), frame, []);
  dp_fopen := false; dp_fgetc := λ _, None; dp_ring := demo_ring;
  dp_rx_desc := (4096, Z.of_nat (length frame)); dp_dma := λ _, ∅
|}.

(** The network delivers the frame [frame]. *)
Definition demo_txrx_os (frame : list Z) : txrx_os := make_os (demo_dp frame).

(** Three frames, 25 us apart. *)
Definition demo_user_opt : user_opt :=
  default_user_opt {{ ifname := Some [101; 116; 104; 48]; frames_to_send := 3;
                      interval_ns := 25000; socket_prio := 2; vlan_prio := 64;
                      x_opt := mk_xsk_opt 2 0 0 4096 4096 }}.

Lemma demo_user_opt_wf : opt_wf demo_user_opt.
Proof. split; vm_compute; first [done | split; congruence]. Qed.

Lemma init_mac_wf : mac_wf (dst_mac_addr init_txrx_glob).
Proof. split; [done|]. repeat constructor; discriminate. Qed.

