(* ===== verification/TxrxOptions.v ===== *)
(** * TXRX-TSN: what a command line asks for

    The settings that the options of a command line denote, as a specification,
    and the round trip: a command line that writes acceptable options gives
    exactly those settings. *)

From S2P Require Import Prelude Sys Libc Argp Txrx.

Local Open Scope Z_scope.

(** ** Specification *)

(** The first of two readings. *)
Definition either {X} (r1 r2 : found → option X) (f : found) : option X :=
  match r1 f with Some x => Some x | None => r2 f end.

(** The options denote these settings: the last of a kind decides, and the
    priority also sets the queue and the tag. *)
Definition settings (fs : list found) : user_opt :=
  let prio := last_value (number_of "q") DEFAULT_SOCKET_PRIORITY fs in
  {| mode := last_value (either (given "t" MODE_TX) (given "r" MODE_RX)) MODE_INVALID fs;
     socket_mode :=
       last_value (either (given "X" MODE_AFXDP) (given "P" MODE_AFPKT)) MODE_INVALID fs;
     ifname := last_value (λ f, Some <$> text_of "i" f) None fs;
     ifindex := 0;
     clkid := CLOCK_REALTIME;
     enable_hwts := last_value (given "h" 1) 0 fs;
     socket_prio := prio;
     vlan_prio := 32 * prio;
     packet_size := last_value (number_of "l") DEFAULT_PACKET_SIZE fs;
     frames_to_send := last_value (number_of "n") DEFAULT_NUM_FRAMES fs;
     interval_ns := last_value (number_of "y") DEFAULT_TX_PERIOD fs;
     offset_ns := last_value (number_of "o") DEFAULT_TXTIME_OFFSET fs;
     early_offset_ns := last_value (number_of "e") DEFAULT_EARLY_OFFSET fs;
     x_opt := mk_xsk_opt prio 0 0 DEFAULT_XDP_FRAMES_SIZE DEFAULT_XDP_FRAMES_PER_RING;
     xdp_mode :=
       last_value (either (given "z" XDP_MODE_ZERO_COPY)
                     (either (given "c" XDP_MODE_NATIVE_COPY) (given "s" XDP_MODE_SKB_COPY)))
         XDP_MODE_ZERO_COPY fs;
     enable_poll := last_value (given "p" 1) 0 fs;
     enable_txtime := last_value (given "T" 1) 0 fs;
     need_wakeup := last_value (given "w" true) false fs;
     poll_timeout := 1000 |}.

(** The globals that the parser sets. *)
Definition settings_glob (fs : list found) : txrx_glob :=
  init_txrx_glob {{ verbose := last_value (given "v" 1) 0 fs }}
                 {{ dst_mac_addr := last_value (λ f, scan_hhx_colon 6 <$> text_of "d" f)
                      (dst_mac_addr init_txrx_glob) fs }}.

(** The options that the parser does not refuse: decimal numerals within the
    documented bounds, a MAC address of six bytes. *)
Definition acceptable (f : found) : Prop :=
  match f with
  | ("d"%char, Some a) => ∃ mac, mac_wf mac ∧ a = print_mac mac
  | (k, Some a) =>
      match numeric_option k with
      | Some (lo, hi, _) => ∃ v, numeral a v ∧ lo <= v <= hi
      | None => True
      end
  | _ => True
  end.

(** ** Lemmas *)

Lemma acceptable_number arg v lo hi :
  numeral arg v → lo <= v <= hi → 0 <= lo → hi <= 2 ^ 31 →
  bad_number arg lo hi = false ∧ u32 (st_value (strtol arg)) = st_value (strtol arg) ∧
  st_value (strtol arg) = v.
Proof.
  intros Hn Hv Hlo Hhi.
  assert (v = st_value (strtol arg) ∧ bad_number arg lo hi = false) as [-> E].
  { destruct (bad_number_cases arg lo hi) as [[_ H]|(E & _ & H)];
      [unfold LONG_MIN; lia|unfold LONG_MAX; lia| |].
    - destruct (H v Hv). by right.
    - split; [|done]. apply H; [done|by right]. }
  split; [done|]. split; [|done]. apply wrapU_small. lia.
Qed.

Lemma scan_mac mac : mac_wf mac → scan_hhx_colon 6 (print_mac mac) = mac.
Proof. intros [Hl Hb]. rewrite <- Hl at 1. by apply scan_print_mac. Qed.

(** What the parser makes of an acceptable option. *)
Lemma parser_denotes key arg fs tr :
  option_of options (key, arg) → acceptable (key, arg) →
  length (dst_mac_addr (settings_glob fs)) = 6%nat →
  parser key arg (settings fs) (mkSt (settings_glob fs) tr)
  = (Done (settings (fs ++ [(key, arg)]), 0), mkSt (settings_glob (fs ++ [(key, arg)])) tr).
Proof.
  intros (r & Hr & Hk & Ht) Ha Hmac. cbn [fst snd] in *. revert Hmac.
  unfold settings, settings_glob. rewrite !last_value_snoc. intros Hmac.
  repeat (apply elem_of_cons in Hr as [->|Hr]); [..|by apply elem_of_nil in Hr];
    cbn in Hk, Ht; try done; injection Hk as <-; destruct arg as [arg|]; try done; try reflexivity;
    unfold parser, mbind, M_bind, deref, mret, M_ret, modify; cbv beta iota zeta.
  5: { destruct Ha as (mac & Hm & ->). pose proof (scan_mac mac Hm) as Es.
    assert (length (scan_hhx_colon 6 (print_mac mac)) = 6%nat) as El by (rewrite Es; apply Hm).
    rewrite El. cbn [Nat.eqb negb glob trace] in *.
    rewrite drop_ge by (rewrite Hmac; lia). by rewrite app_nil_r. }
  all: destruct Ha as (v & Hn & Hv);
    destruct (acceptable_number arg v _ _ Hn Hv) as (Hb & E1 & E2); [done|done|];
    unfold MIN_SOCKET_PRIORITY, MAX_SOCKET_PRIORITY; rewrite Hb, E1; try reflexivity.
  rewrite !(wrapU_small 8) by lia. by rewrite (Z.mul_comm _ 32).
Qed.

(** The destination address stays one of six bytes. *)
Lemma settings_mac fs f :
  acceptable f → mac_wf (dst_mac_addr (settings_glob fs)) →
  mac_wf (dst_mac_addr (settings_glob (fs ++ [f]))).
Proof.
  intros Ha. unfold settings_glob. cbn [dst_mac_addr]. rewrite last_value_snoc. intros H.
  destruct f as [k [a|]]; unfold text_of; cbn [fst snd]; case_bool_decide as Hk; try done; subst k.
  destruct Ha as (mac & Hm & ->).
  change (mac_wf (scan_hhx_colon 6 (print_mac mac))). by rewrite (scan_mac mac Hm).
Qed.

(** ** Properties *)

(** C16: a command line that writes options of the table, each in any of the ways
    that are allowed (short or long, abbreviated, clustered, the argument
    attached or in a word of its own), with numbers in their bounds and six bytes
    for the MAC address, gives exactly the settings that those options denote, the
    last of a kind deciding; the priority also sets the queue and the VLAN
    priority.  Nothing else changes, and no call is made. *)
Theorem options_roundtrip fss wss tr :
  Forall2 (spells options) fss wss → Forall acceptable (concat fss) →
  argp_parse argp (concat wss) default_user_opt (mkSt init_txrx_glob tr)
  = (Done (settings (concat fss)), mkSt (settings_glob (concat fss)) tr).
Proof.
  intros Hsp Hacc.
  destruct (argp_parse_spelled (λ fs o s, o = settings fs ∧ s = mkSt (settings_glob fs) tr ∧
    mac_wf (dst_mac_addr (settings_glob fs))) acceptable options parser fss wss default_user_opt
    (mkSt init_txrx_glob tr)) as (o & t & E & -> & -> & _); [|done..| |exact E].
  - intros fs k a o s Hin Hok (-> & -> & Hm). do 2 eexists.
    split; [apply parser_denotes; [done|done|apply Hm]|]. do 2 (split; [done|]). by apply settings_mac.
  - do 2 (split; [done|]). split; [done|]. repeat constructor; done.
Qed.

(** ** Witness: -tPi eth0 --vlan-prio=2 -l 128 --dst 01:00:5e:00:00:2a *)

Definition demo_target : list Z := [0x01; 0x00; 0x5e; 0x00; 0x00; 0x2a].

Lemma options_roundtrip_witness :
  argp_parse argp
    (concat [[bytes_of_string "-tPi"; bytes_of_string "eth0"]; [bytes_of_string "--vlan-prio=2"];
             [bytes_of_string "-l128"]; [bytes_of_string "--dst"; bytes_of_string "01:00:5e:00:00:2a"]])
    default_user_opt (mkSt init_txrx_glob [])
  = (Done (default_user_opt {{ mode := MODE_TX; socket_mode := MODE_AFPKT;
             ifname := Some (bytes_of_string "eth0"); socket_prio := 2; vlan_prio := 64;
             packet_size := 128; x_opt := (x_opt default_user_opt) {{ queue := 2 }} }}),
     mkSt (init_txrx_glob {{ dst_mac_addr := demo_target }}) []).
Proof.
  apply (options_roundtrip
    [flags ["t"; "P"]%char ++ [("i"%char, Some (bytes_of_string "eth0"))];
     [("q"%char, Some (bytes_of_string "2"))];
     flags [] ++ [("l"%char, Some (bytes_of_string "128"))];
     [("d"%char, Some (print_mac demo_target))]]).
  - repeat apply Forall2_cons_2; [..|apply Forall2_nil_2].
    + apply (spells_separate options ["t"; "P"]%char "i"%char); [|by repeat constructor|done].
      by intros b w [= <- _].
    + apply (spells_long_eq options (bytes_of_string "vlan-prio")); [done|by repeat constructor|done].
    + apply (spells_attached options [] "l"%char); [|done..]. by intros b w [= <- _].
    + apply (spells_long options (bytes_of_string "dst")); [done|by repeat constructor|done].
  - repeat apply Forall_cons_2; try done; try exact I.
    + exists 2. split; [by apply (numeral_digits (bytes_of_string "2"))|done].
    + exists 128. split; [by apply (numeral_digits (bytes_of_string "128"))|done].
    + exists demo_target. split; [|done]. split; [done|]. by repeat constructor.
Defined.
