(* ===== verification/Afpkt.v ===== *)
(** * TXRX-TSN over AF_PACKET (src/src/txrx-afpkt.c)

    Hardware timestamps from control messages, the set-up of the transmit and
    receive sockets, the two transmit threads and the reception of a packet.
    The theorems give the transmit schedule packet by packet, that every
    requested frame is sent, the filter of the receiver and that what one
    side sends the other side logs. *)

From S2P Require Import Prelude Sys Libc Txrx.

Local Open Scope Z_scope.

(** ** Constants *)

Definition MSG_BUFLEN : nat := 1500.
Definition RCVBUF_SIZE : Z := 1500 * 10000.
Definition RECV_IOV_LEN : nat := 128.
Definition SOL_SOCKET : Z := 1.
Definition SO_TIMESTAMPNS : Z := 35.
Definition SO_TIMESTAMPING : Z := 37.
Definition IFR_NAME_LEN : nat := 15.       (* sizeof(ifr_name) - 1 *)

(** ** Timestamps in control messages *)

(** The data of the last control message of a timestamping type: the loop of
    get_timestamp() leaves [ts] there. *)
Definition timestamp_cmsg (msgs : list cmsg) : option (list Z) :=
  foldl (λ ts c,
    if negb (cmsg_level c =? SOL_SOCKET) then ts
    else if (cmsg_type c =? SO_TIMESTAMPNS) || (cmsg_type c =? SO_TIMESTAMPING)
    then Some (cmsg_data c) else ts) None msgs.

(** get_timestamp(): [ts[2]] is the fifth and sixth word of the data; a
    message that is shorter is read out of bounds. *)
Definition get_timestamp (msgs : list cmsg) : T Z :=
  match timestamp_cmsg msgs with
  | None => mret 0
  | Some data =>
      match data !! 4%nat, data !! 5%nat with
      | Some sec, Some nsec => mret (u64 (i64 sec * NSEC_PER_SEC + i64 nsec))
      | _, _ => undefined
      end
  end.

Section afpkt.
Context {OS : txrx_os}.

Definition extract_ts_from_cmsg (sock : Z) (errqueue : bool) : T Z :=
  '(ret, _, msgs) ← ask (Recvmsg sock errqueue 256) os_recvmsg;
  if ret <=? 0 then mret 0 else get_timestamp msgs.

(** ** Transmit socket *)

Definition with_ifname (o : user_opt) (k : list Z → T Z) : T Z :=
  match ifname o with
  | None => undefined                            (* strncpy from NULL *)
  | Some name => k (take IFR_NAME_LEN name)
  end.

(** init_tx_socket(): [Done (sock, sk_addr)] when it returns; [sk_addr] is
    the caller's structure, whose protocol the caller sets. *)
Definition init_tx_socket (o : user_opt) (sk_addr : sockaddr_ll)
  : T (Z * sockaddr_ll) :=
  sock ← ask (SocketPacket true ETH_P_8021Q) os_socket;
  if sock <? 0 then exit_with_error else
  g ← get;
  let sk_addr := sk_addr {{ sll_ifindex := ifindex o;
                            sll_addr := take 6 (dst_mac_addr g) }} in
  ret ← ask (SetPriority sock (socket_prio o)) os_setsockopt;
  if ret <? 0 then exit_with_error else
  ret ← with_ifname o (λ name, ask (IoctlHwtstamp sock name) os_ioctl);
  if ret <? 0 then exit_ 1 else
  ret ← ask (SetTimestamping sock false) os_setsockopt;
  if ret <? 0 then exit_with_error else
  ret ← (if enable_txtime o =? 0 then mret 0
         else ask (SetTxtime sock CLOCK_TAI 0) os_setsockopt);
  if negb (ret =? 0) then exit_with_error else
  mret (sock, sk_addr).

(** ** Transmit threads *)

(** What both threads do after a packet has gone out: wait for its hardware
    timestamp and print the result line. *)
Definition report_tx (o : user_opt) (sock usec seq tx_timestampA : Z) : T unit :=
  res ← (if enable_hwts o =? 0 then mret 0
         else ask (SelectErr sock usec) os_select);
  (if res >? 0 then
     tx_timestampB ← extract_ts_from_cmsg sock true;
     g ← get;
     when (negb (verbose g =? 0))
       (tell (Stdout [u32 (seq - 1); tx_timestampA; tx_timestampB]))
   else
     g ← get;
     when (negb (verbose g =? 0))
       (tell (Stdout [u32 (seq - 1); tx_timestampA; 0])));;
  tell Fflush.

(** The part of the packet handed to the kernel, from the VLAN tag's
    contents on: [packet_size - 14] bytes. *)
Definition wire (o : user_opt) (pkt : list Z) : list Z :=
  read_at pkt off_vlan_prio (Z.to_nat (u64 (packet_size o - 14))).

(** The loop state of a transmit thread: packet buffer, frames left, next
    sequence number, next wake-up time. *)
Record tx_state : Type := mk_tx_state {
  tx_pkt : list Z; tx_count : Z; tx_seq : Z; looping_ts : Z
}.

(** One round of the loop of afpkt_send_thread(). *)
Definition send_round (o : user_opt) (sock : Z) (sk_addr : sockaddr_ll)
  (x : tx_state) : T (tx_state + unit) :=
  if tx_count x =? 0 then mret (inr tt) else
  h ← halted;
  if (h : bool) then mret (inr tt) else
  ret ← ask (ClockNanosleep (clkid o) (timespec_of (looping_ts x))) os_nanosleep;
  if negb (ret =? 0) then mret (inr tt) else
  tx_timestampA ← get_time_nanosec CLOCK_REALTIME;
  let pkt := set_seq (tx_pkt x) off_payload (tx_seq x) in
  let pkt := set_tx_timestampA pkt off_payload tx_timestampA in
  ret ← ask (Sendto sock (wire o pkt) sk_addr) os_sendto;
  if ret <? 0 then exit_with_error else
  let looping_ts := u64 (looping_ts x + i32 (interval_ns o)) in
  let count := tx_count x - 1 in
  let seq := u32 (tx_seq x + 1) in
  report_tx o sock 8000 seq tx_timestampA;;
  mret (inl (mk_tx_state pkt count seq looping_ts)).

(** The packet before the first round. *)
Definition packet_template (o : user_opt) (dst_mac : list Z) : list Z :=
  set_tx_queue (setup_tsn_vlan_packet o dst_mac) off_payload (socket_prio o).

Definition afpkt_send_thread (fuel : nat) (o : user_opt) (sockfd : Z)
  (sk_addr : sockaddr_ll) : T unit :=
  g ← get;
  sec ← get_time_sec CLOCK_REALTIME;
  let looping_ts := u64 (u64 (sec + 2 * NSEC_PER_SEC) + offset_ns o) in
  loop fuel (send_round o sockfd sk_addr)
    (mk_tx_state (packet_template o (dst_mac_addr g)) (i32 (frames_to_send o)) 1
       looping_ts);;
  tell (Close sockfd).

(** One round of the loop of afpkt_send_thread_etf(): a failed sendmsg() is
    only reported. *)
Definition send_round_etf (o : user_opt) (sock : Z) (sk_addr : sockaddr_ll)
  (x : tx_state) : T (tx_state + unit) :=
  if tx_count x =? 0 then mret (inr tt) else
  h ← halted;
  if (h : bool) then mret (inr tt) else
  ret ← ask (ClockNanosleep (clkid o) (timespec_of (looping_ts x))) os_nanosleep;
  if negb (ret =? 0) then mret (inr tt) else
  tx_timestampA ← get_time_nanosec CLOCK_REALTIME;
  let pkt := set_seq (tx_pkt x) off_payload (tx_seq x) in
  let pkt := set_tx_timestampA pkt off_payload tx_timestampA in
  let tx_timestamp := u64 (looping_ts x + early_offset_ns o) in
  ret ← ask (Sendmsg sock (wire o pkt) sk_addr tx_timestamp) os_sendmsg;
  let looping_ts := u64 (looping_ts x + i32 (interval_ns o)) in
  let count := tx_count x - 1 in
  let seq := u32 (tx_seq x + 1) in
  report_tx o sock 2000 seq tx_timestampA;;
  mret (inl (mk_tx_state pkt count seq looping_ts)).

Definition afpkt_send_thread_etf (fuel : nat) (o : user_opt) (sockfd : Z)
  (sk_addr : sockaddr_ll) : T unit :=
  g ← get;
  sec ← get_time_sec CLOCK_REALTIME;
  let looping_ts := u64 (u64 (sec + 2 * NSEC_PER_SEC) + offset_ns o) in
  let looping_ts := u64 (looping_ts - early_offset_ns o) in
  loop fuel (send_round_etf o sockfd sk_addr)
    (mk_tx_state (packet_template o (dst_mac_addr g)) (i32 (frames_to_send o)) 1
       looping_ts);;
  tell (Close sockfd).

(** ** Receive socket *)

(** init_rx_socket(): its result and the value left in [*sock]. *)
Definition init_rx_socket (etype : Z) (interface : list Z) : T (Z * Z) :=
  rsock ← ask (SocketPacket false etype) os_socket;
  if rsock <? 0 then mret (-1, -1) else
  let name := take IFR_NAME_LEN interface in
  '(ret, ifi) ← ask (IoctlIfindex rsock name) os_ioctl_ifindex;
  if ret <? 0 then tell (Close rsock);; mret (-1, -1) else
  _ ← ask (SetRcvbuf rsock RCVBUF_SIZE) os_setsockopt;
  ret ← ask (BindPacket rsock ifi etype) os_bind;
  if negb (ret =? 0) then tell (Close rsock);; mret (-1, -1) else
  g ← get;
  ret ← (if default 0 (dst_mac_addr g !! 0%nat) =? 0 then mret 0
         else ask (AddMembership rsock ifi (take 6 (dst_mac_addr g))) os_setsockopt);
  if ret <? 0 then tell (Close rsock);; mret (-1, -1) else
  ret ← ask (IoctlHwtstamp rsock name) os_ioctl;
  if ret <? 0 then exit_ 1 else
  ret ← ask (SetTimestamping rsock true) os_setsockopt;
  if ret <? 0 then exit_with_error else
  mret (0, rsock).

(** ** Reception *)

(** The payload of a received packet: the kernel has taken the VLAN tag out,
    and the code compensates with [buffer - 4]. *)
Definition off_rx_payload : nat := off_payload - 4.

(** The second half of afpkt_recv_pkt(): check the payload, print the result
    line and note the progress. *)
Definition log_packet (buffer : list Z) (rx_timestampC rx_timestampD : Z) : T Z :=
  let tx_queue := pl_tx_queue buffer off_rx_payload in
  let seq := pl_seq buffer off_rx_payload in
  let tx_timestampA := pl_tx_timestampA buffer off_rx_payload in
  if (tx_queue >? 8) || (seq >? 50 * 1000 * 1000) then mret (-1) else
  tell (Stdout [i64 (rx_timestampD - tx_timestampA); i32 seq; i32 tx_queue;
                i64 tx_timestampA; i64 rx_timestampC; i64 rx_timestampD]);;
  tell Fflush;;
  modify (λ g, g {{ glob_rx_seq := seq }});;
  mret 0.

(** afpkt_recv_pkt(): the bytes of [buffer] that recvmsg() does not write
    are indeterminate. *)
Definition afpkt_recv_pkt (sock : Z) (o : user_opt) : T Z :=
  '(ret, data, msgs) ← ask (Recvmsg sock false RECV_IOV_LEN) os_recvmsg;
  if ret <=? 0 then tell (Usleep 1);; mret 0 else
  let buffer := write_at (uninit MSG_BUFLEN) 0 (take RECV_IOV_LEN data) in
  rx_timestampD ← get_time_nanosec CLOCK_REALTIME;
  rx_timestampC ← (if enable_hwts o =? 0 then mret 0 else get_timestamp msgs);
  log_packet buffer rx_timestampC rx_timestampD.
End afpkt.

(** ** Specification of the transmit schedule *)

(** Packets handed to the kernel so far. *)
Fixpoint sent (tr : list call) : Z :=
  match tr with
  | [] => 0
  | Sendto _ _ _ :: tr => 1 + sent tr
  | Sendmsg _ _ _ _ :: tr => 1 + sent tr
  | _ :: tr => sent tr
  end.

(** What a transmitted packet holds: the VLAN tag's contents and EtherType,
    the queue, its sequence number and its transmit time stamp. *)
Record wire_ok (o : user_opt) (seq tx_timestampA : Z) (buf : list Z) : Prop := {
  wire_length : length buf = (Z.to_nat (packet_size o) - 14)%nat;
  wire_tag : take 4 buf = [vlan_prio o; 3; 0xb6; 0x2c];
  wire_queue : pl_tx_queue buf 4 = socket_prio o;
  wire_seq : pl_seq buf 4 = seq;
  wire_time : pl_tx_timestampA buf 4 = tx_timestampA
}.

(** The instant at which packet number [k] (from 0) is due. *)
Definition due (o : user_opt) (base k : Z) : Z := u64 (base + k * interval_ns o).

Section schedule.
Context {OS : txrx_os}.

(** A packet sent after the calls [older]: the thread had just slept until
    its instant and read the clock. *)
Definition slot_ok (o : user_opt) (sk_addr : sockaddr_ll) (sock base : Z)
  (fd : Z) (buf : list Z) (a : sockaddr_ll) (older : list call) : Prop :=
  fd = sock ∧ a = sk_addr ∧
  ∃ before,
    older = ClockGettime CLOCK_REALTIME
            :: ClockNanosleep (clkid o) (timespec_of (due o base (sent before)))
            :: before ∧
    wire_ok o (sent before + 1) (u64 (ns_of (os_clock older))) buf.

(** Every packet of a trace is on schedule; one sent with a launch time has
    its instant plus the early offset. *)
Fixpoint schedule (o : user_opt) (sk_addr : sockaddr_ll) (sock base : Z)
  (tr : list call) : Prop :=
  match tr with
  | [] => True
  | c :: older =>
      match c with
      | Sendto fd buf a => slot_ok o sk_addr sock base fd buf a older
      | Sendmsg fd buf a txtime =>
          slot_ok o sk_addr sock base fd buf a older ∧
          txtime = due o (base + early_offset_ns o) (sent older)
      | _ => True
      end ∧ schedule o sk_addr sock base older
  end.

(** Timestamping control messages hold three timespecs (SO_TIMESTAMPING's
    [struct scm_timestamping]). *)
Definition timestamping_ok : Prop :=
  ∀ tr ret data msgs ts, os_recvmsg tr = (ret, data, msgs) →
    timestamp_cmsg msgs = Some ts → (6 <= length ts)%nat.

(** No signal arrives and sleeps are not interrupted. *)
Definition undisturbed : Prop :=
  (∀ tr, os_signals tr = []) ∧ (∀ tr, os_nanosleep tr = 0).

Definition sendto_succeeds : Prop := ∀ tr, 0 <= os_sendto tr.
End schedule.

(** ** Lemmas: packets *)

Record pkt_ok (o : user_opt) (pkt : list Z) : Prop := {
  pkt_length : length pkt = Z.to_nat (packet_size o);
  pkt_tag : read_at pkt off_vlan_prio 4 = [vlan_prio o; 3; 0xb6; 0x2c];
  pkt_queue : pl_tx_queue pkt off_payload = socket_prio o
}.

(** The fields read back from the part of the packet that goes out. *)
Lemma wire_fields o pkt :
  length pkt = Z.to_nat (packet_size o) → 64 <= packet_size o <= 1500 →
  length (wire o pkt) = (Z.to_nat (packet_size o) - 14)%nat ∧
  take 4 (wire o pkt) = read_at pkt off_vlan_prio 4 ∧
  pl_tx_queue (wire o pkt) 4 = pl_tx_queue pkt off_payload ∧
  pl_seq (wire o pkt) 4 = pl_seq pkt off_payload ∧
  pl_tx_timestampA (wire o pkt) 4 = pl_tx_timestampA pkt off_payload.
Proof.
  intros Hl Hs. unfold wire. rewrite (wrapU_small 64) by lia.
  unfold pl_tx_queue, pl_seq, pl_tx_timestampA, off_payload, off_vlan_prio,
    off_tx_queue, off_seq, off_tx_timestampA.
  unfold read_at at 1 2. rewrite length_take, length_drop, take_take, Hl.
  assert (forall off n, (off + n <= Z.to_nat (packet_size o) - 14)%nat →
    read_at (read_at pkt 14 (Z.to_nat (packet_size o - 14))) off n
    = read_at pkt (14 + off) n) as E.
  { intros off n Hn. unfold read_at at 2. rewrite read_at_take by lia.
    apply read_at_drop. }
  rewrite !E by lia. split; [lia|].
  rewrite Nat.min_l by lia. done.
Qed.

Lemma packet_template_ok o mac :
  opt_wf o → mac_wf mac → pkt_ok o (packet_template o mac).
Proof.
  intros Ho Hm. pose proof (wf_size o Ho) as Hs. pose proof (wf_prio o Ho).
  assert (length (setup_tsn_vlan_packet o mac) = Z.to_nat (packet_size o)) as Hl.
  { rewrite setup_layout by done. autorewrite with tsn_len.
    rewrite (tsn_header_length o mac Hm). lia. }
  unfold packet_template. split.
  - unfold set_tx_queue. rewrite length_write_at; [done|].
    rewrite length_le_encode. unfold off_payload, off_tx_queue. lia.
  - unfold set_tx_queue.
    rewrite read_write_before by (unfold off_vlan_prio, off_payload, off_tx_queue; lia).
    rewrite setup_layout by done. unfold tsn_header. destruct Hm as [Hm _].
    do 7 (destruct mac as [|? mac]; try discriminate Hm). reflexivity.
  - rewrite pl_tx_queue_set by (unfold off_payload; lia). apply wrapU_small. lia.
Qed.

(** One packet stamped with its sequence number and time. *)
Lemma stamp_ok o pkt n t :
  opt_wf o → pkt_ok o pkt → 0 <= n < 2 ^ 32 → 0 <= t < 2 ^ 64 →
  let pkt' := set_tx_timestampA (set_seq pkt off_payload n) off_payload t in
  pkt_ok o pkt' ∧ wire_ok o n t (wire o pkt').
Proof.
  intros Ho [Hl Htag Hq] Hn Ht pkt'. pose proof (wf_size o Ho) as Hs.
  assert (length (set_seq pkt off_payload n) = length pkt) as L1.
  { unfold set_seq. apply length_write_at. rewrite length_le_encode.
    unfold off_payload, off_seq. lia. }
  assert (length pkt' = length pkt) as L2.
  { unfold pkt', set_tx_timestampA. rewrite length_write_at; [done|].
    rewrite length_le_encode, L1. unfold off_payload, off_tx_timestampA. lia. }
  assert (∀ off k, (off + k <= 22)%nat → read_at pkt' off k = read_at pkt off k) as E.
  { intros off k Hk. unfold pkt', set_tx_timestampA.
    rewrite read_write_before by
      (rewrite ?L1; unfold off_payload, off_tx_timestampA; lia).
    unfold set_seq. rewrite read_write_before by
      (unfold off_payload, off_seq; lia). done. }
  assert (pl_tx_queue pkt' off_payload = socket_prio o) as Hq'
    by (unfold pl_tx_queue, off_payload, off_tx_queue; rewrite E by lia; exact Hq).
  split; [split; [lia| |done]; rewrite E; [done|unfold off_vlan_prio; lia]|].
  destruct (wire_fields o pkt') as (W1 & W2 & W3 & W4 & W5); [lia..|].
  split; [done| | | |].
  - rewrite W2, E; [done|unfold off_vlan_prio; lia].
  - by rewrite W3.
  - rewrite W4. unfold pkt', pl_seq, set_tx_timestampA.
    rewrite read_write_before by
      (rewrite ?L1; unfold off_payload, off_tx_timestampA, off_seq; lia).
    fold (pl_seq (set_seq pkt off_payload n) off_payload).
    rewrite pl_seq_set by (unfold off_payload; lia). by apply wrapU_small.
  - rewrite W5. unfold pkt'. rewrite pl_time_set by (rewrite L1; unfold off_payload; lia).
    by apply wrapU_small.
Qed.

(** ** Lemmas: the transmit loops *)

Definition is_send (c : call) : bool :=
  match c with Sendto _ _ _ | Sendmsg _ _ _ _ => true | _ => false end.

Lemma sent_nonneg tr : 0 <= sent tr.
Proof. induction tr as [|[] tr IH]; simpl; lia. Qed.

Lemma sent_quiet new tr : Forall (λ c, is_send c = false) new → sent (new ++ tr) = sent tr.
Proof. induction 1 as [|[] new Hc _ IH]; simpl; done. Qed.

Section transmit.
Context {OS : txrx_os}.
Implicit Types s : st txrx_glob call.

Lemma schedule_quiet o a sock base new tr :
  Forall (λ c, is_send c = false) new →
  schedule o a sock base tr → schedule o a sock base (new ++ tr).
Proof. induction 1 as [|[] new Hc _ IH]; simpl; naive_solver. Qed.

Lemma schedule_none o a sock base tr : sent tr = 0 → schedule o a sock base tr.
Proof.
  induction tr as [|c tr IH]; [done|]. pose proof (sent_nonneg tr).
  destruct c; simpl; intros; try lia; auto.
Qed.

Lemma wp_get_timestamp msgs s (Q : outcome Z → st txrx_glob call → Prop) :
  (∀ ts, timestamp_cmsg msgs = Some ts → (6 <= length ts)%nat) →
  (∀ t, Q (Done t) s) → wp (get_timestamp msgs) Q s.
Proof.
  intros Hl HQ. unfold get_timestamp.
  destruct (timestamp_cmsg msgs) as [ts|] eqn:E; [|apply wp_ret, HQ].
  specialize (Hl ts eq_refl).
  destruct (lookup_lt_is_Some_2 ts 4) as [? ->]; [lia|].
  destruct (lookup_lt_is_Some_2 ts 5) as [? ->]; [lia|]. apply wp_ret, HQ.
Qed.

Lemma wp_report_tx o sock usec seq tA s (Q : outcome unit → st txrx_glob call → Prop) :
  timestamping_ok →
  (∀ new, Forall (λ c, is_send c = false) new →
          Q (Done tt) (mkSt (glob s) (new ++ trace s))) →
  wp (report_tx o sock usec seq tA) Q s.
Proof.
  intros Hts HQ. unfold report_tx. apply wp_bind.
  set (R := λ (res : outcome Z) s', ∃ r new, res = Done r ∧
    Forall (λ c, is_send c = false) new ∧ s' = mkSt (glob s) (new ++ trace s)).
  eapply (wp_mono _ R).
  { destruct (enable_hwts o =? 0).
    - exists 0, []. by destruct s.
    - apply wp_ask. eexists _, [SelectErr sock usec]. auto. }
  intros out s' (res & new & -> & Hn & ->). apply wp_bind.
  eapply (wp_mono _ (λ out s', ∃ new, out = Done tt ∧
    Forall (λ c, is_send c = false) new ∧ s' = mkSt (glob s) (new ++ trace s))).
  - destruct (res >? 0).
    + apply wp_bind. unfold extract_ts_from_cmsg. apply wp_bind, wp_ask. simpl.
      destruct (os_recvmsg _) as [[ret data] msgs] eqn:E. simpl.
      assert (∀ t, wp (g ← get; when (negb (verbose g =? 0))
                  (tell (Stdout [u32 (seq - 1); tA; t])))
        (λ out s', ∃ new, out = Done tt ∧ Forall (λ c, is_send c = false) new ∧
           s' = mkSt (glob s) (new ++ trace s))
        (mkSt (glob s) (Recvmsg sock true 256 :: new ++ trace s))) as Hp.
      { intros t. apply wp_bind. unfold get, wp at 1. simpl.
        destruct (negb (verbose (glob s) =? 0)); simpl.
        - exists (Stdout [u32 (seq - 1); tA; t] :: Recvmsg sock true 256 :: new). auto.
        - exists (Recvmsg sock true 256 :: new). auto. }
      destruct (ret <=? 0); [apply wp_ret, Hp|].
      apply wp_get_timestamp; [intros; by eapply Hts|]. intros t. apply Hp.
    + apply wp_bind. unfold get, wp at 1. simpl.
      destruct (negb (verbose (glob s) =? 0)); simpl.
      * exists (Stdout [u32 (seq - 1); tA; 0] :: new). auto.
      * exists new. auto.
  - intros ? ? (new' & -> & Hn' & ->). apply wp_ask.
    apply (HQ (Fflush :: new')). by constructor.
Qed.

(** *** The loop invariant *)

Context (o : user_opt) (sk_addr : sockaddr_ll) (sock base : Z) (P : Prop).
Context (fatal : bool).       (* does a failed send end the process? *)

Record tx_inv (x : tx_state) (s : st txrx_glob call) : Prop := {
  ti_pkt : pkt_ok o (tx_pkt x);
  ti_nonneg : 0 <= tx_count x;
  ti_count : tx_count x + sent (trace s) = frames_to_send o;
  ti_seq : tx_seq x = sent (trace s) + 1;
  ti_time : looping_ts x = due o base (sent (trace s));
  ti_sched : schedule o sk_addr sock base (trace s);
  ti_run : P → halt_tx_sig (glob s) = 0
}.

(** How a transmit loop ends; [ok] tells a normal end. *)
Record tx_end (ok : bool) (s : st txrx_glob call) : Prop := {
  te_bound : sent (trace s) <= frames_to_send o;
  te_sched : schedule o sk_addr sock base (trace s);
  te_all : P → ok = true ∧ sent (trace s) = frames_to_send o
}.

(** The outcomes of a round. *)
Definition round_post (x : tx_state) (out : outcome (tx_state + unit)) s' : Prop :=
  match out with
  | Done (inl x') => tx_inv x' s' ∧ tx_count x' < tx_count x
  | Done (inr _) => tx_end true s'
  | Exited c => fatal = true ∧ c = EXIT_FAILURE ∧ tx_end false s'
  | _ => False
  end.

Hypothesis Hwf : opt_wf o.
Hypothesis Hts : timestamping_ok.

Lemma tx_inv_end ok x s tr g :
  tx_inv x s → sent tr = sent (trace s) →
  schedule o sk_addr sock base tr → (P → False) → tx_end ok (mkSt g tr).
Proof.
  intros HI Es Hs HP. split; simpl; [|done|tauto].
  pose proof (ti_nonneg _ _ HI). pose proof (ti_count _ _ HI). lia.
Qed.

(** A loop whose rounds satisfy [round_post] sends on schedule, and needs
    one unit of fuel per frame and one more. *)
Lemma tx_loop fuel (round : tx_state → T (tx_state + unit)) x s
  (Q : outcome unit → st txrx_glob call → Prop) :
  (∀ x s, tx_inv x s → wp (round x) (round_post x) s) →
  tx_inv x s → frames_to_send o < Z.of_nat fuel →
  (∀ s', tx_end true s' → Q (Done tt) s') →
  (fatal = true → ∀ s', tx_end false s' → Q (Exited EXIT_FAILURE) s') →
  wp (loop fuel round x) Q s.
Proof.
  intros Hr HI Hf HD HE.
  apply (wp_loop_measure tx_inv (λ x _, Z.to_nat (tx_count x))); [|done|].
  - intros x' s' HI'. eapply wp_mono; [by apply Hr|].
    intros [[y|[]]|c| |] t; simpl; [|auto| |done..].
    + intros [Hy Hlt]. pose proof (ti_nonneg _ _ Hy). split; [done|lia].
    + intros (Hfa & -> & He). auto.
  - pose proof (ti_count _ _ HI). pose proof (sent_nonneg (trace s)).
    pose proof (ti_nonneg _ _ HI). lia.
Qed.

(** The state after a packet [c] has gone out and its report is printed. *)
Lemma tx_next x s pkt c t g new :
  tx_inv x s → tx_count x ≠ 0 →
  pkt_ok o pkt → is_send c = true →
  schedule o sk_addr sock base (c :: t) → sent t = sent (trace s) →
  Forall (λ c, is_send c = false) new → (P → halt_tx_sig g = 0) →
  let x' := mk_tx_state pkt (tx_count x - 1) (u32 (tx_seq x + 1))
              (u64 (looping_ts x + i32 (interval_ns o))) in
  round_post x (Done (inl x')) (mkSt g (new ++ c :: t)).
Proof.
  intros HI Hc Hp Hsend Hs Ht Hn Hg x'. destruct HI as [_ H1 H2 H3 H4 _ _].
  pose proof (wf_frames o Hwf). pose proof (wf_interval o Hwf).
  pose proof (sent_nonneg (trace s)).
  assert (sent (new ++ c :: t) = sent (trace s) + 1) as E.
  { rewrite sent_quiet by done. destruct c; try discriminate Hsend; simpl; lia. }
  simpl. split; [|lia]. split; simpl.
  - done.
  - lia.
  - lia.
  - rewrite H3, E. rewrite (wrapU_small 32) by lia. lia.
  - rewrite H4, E. rewrite (wrapS_small 32) by lia. unfold due.
    rewrite u64_add_l. f_equal. lia.
  - by apply schedule_quiet.
  - done.
Qed.
End transmit.

Section transmit_rounds.
Context {OS : txrx_os}.
Context (o : user_opt) (sk_addr : sockaddr_ll) (sock base : Z) (P : Prop).
Context (fatal : bool).
Hypothesis Hwf : opt_wf o.
Hypothesis Hts : timestamping_ok.
Implicit Types s : st txrx_glob call.

(** What both rounds do before the packet is handed over: stop, or sleep
    until the packet's instant and read the clock. *)
Lemma round_wait x s (k : Z → T (tx_state + unit)) :
  tx_inv o sk_addr sock base P x s → (P → undisturbed) →
  (∀ g, tx_count x ≠ 0 → (P → halt_tx_sig g = 0) →
     let older := ClockGettime CLOCK_REALTIME
                  :: ClockNanosleep (clkid o) (timespec_of (due o base (sent (trace s))))
                  :: Observe :: trace s in
     wp (k (u64 (ns_of (os_clock older)))) (round_post o sk_addr sock base P fatal x)
        (mkSt g older)) →
  wp (if tx_count x =? 0 then mret (inr tt) else
      h ← halted;
      if (h : bool) then mret (inr tt) else
      ret ← ask (ClockNanosleep (clkid o) (timespec_of (looping_ts x))) os_nanosleep;
      if negb (ret =? 0) then mret (inr tt) else
      tA ← get_time_nanosec CLOCK_REALTIME; k tA)
     (round_post o sk_addr sock base P fatal x) s.
Proof.
  intros HI HP Hk. pose proof HI as [_ H1 H2 _ H4 H5 H6].
  destruct (tx_count x =? 0) eqn:Ec; bool_to_prop.
  { apply wp_ret. simpl. split; [lia|done|intros _; split; [done|lia]]. }
  apply wp_bind, wp_halted. cbv zeta.
  set (h := List.last _ _). assert (P → h = 0) as Hh.
  { intros p. unfold h. destruct (HP p) as [-> _]. simpl. auto. }
  destruct (h =? 0) eqn:Eh; bool_to_prop; cbn [negb].
  2: { apply wp_ret. refine (tx_inv_end _ _ _ _ _ _ _ s _ _ HI _ _ _); simpl; [done|done|tauto]. }
  apply wp_bind, wp_ask. cbn [trace glob].
  destruct (negb (os_nanosleep _ =? 0)) eqn:En.
  { apply wp_ret. refine (tx_inv_end _ _ _ _ _ _ _ s _ _ HI _ _ _); simpl; [done|done|].
    intros p. destruct (HP p) as (_ & Hn). by rewrite Hn in En. }
  unfold get_time_nanosec. do 2 apply wp_bind. apply wp_ask. apply wp_ret.
  cbn [trace glob]. rewrite H4. apply Hk; [done|]. simpl. auto.
Qed.

Lemma seq_bound x s :
  tx_inv o sk_addr sock base P x s → 0 <= tx_seq x < 2 ^ 32.
Proof.
  intros [_ H1 H2 -> _ _ _]. pose proof (wf_frames o Hwf).
  pose proof (sent_nonneg (trace s)). lia.
Qed.

Lemma send_round_ok x s :
  (P → undisturbed) → (P → sendto_succeeds) → fatal = true → tx_inv o sk_addr sock base P x s →
  wp (send_round o sock sk_addr x) (round_post o sk_addr sock base P fatal x) s.
Proof.
  intros HP HPs Hfa HI. unfold send_round. apply (round_wait x s _ HI HP).
  intros g Hc Hg older. destruct (stamp_ok o (tx_pkt x) (tx_seq x) (u64 (ns_of (os_clock older))))
    as [Hpk Hw]; [done|by apply HI|by eapply seq_bound|by apply (wrapU_range 64)|].
  cbv zeta. apply wp_bind, wp_ask. cbn [trace glob].
  set (c := Sendto _ _ _).
  assert (schedule o sk_addr sock base (c :: older)) as Hs.
  { split; [|repeat split; by apply HI]. split; [done|]. split; [done|].
    exists (Observe :: trace s). split; [done|]. cbn [sent].
    rewrite <- (ti_seq _ _ _ _ _ _ _ HI). exact Hw. }
  destruct (os_sendto _ <? 0) eqn:Eret.
  - simpl. split; [done|]. split; [done|]. destruct HI as [_ H1 H2 _ _ _ _].
    split; [unfold c, older; cbn; lia|exact Hs|]. intros p. pose proof (HPs p) as Hsd.
    bool_to_prop. exfalso. exact (Z.lt_irrefl 0 (Z.le_lt_trans _ _ _ (Hsd _) Eret)).
  - apply wp_bind, wp_report_tx; [done|]. intros new Hn. simpl. apply wp_ret.
    by eapply tx_next.
Qed.

Lemma send_round_etf_ok x s :
  (P → undisturbed) → tx_inv o sk_addr sock base P x s →
  wp (send_round_etf o sock sk_addr x) (round_post o sk_addr sock base P fatal x) s.
Proof.
  intros HP HI. unfold send_round_etf. apply (round_wait x s _ HI HP).
  intros g Hc Hg older. destruct (stamp_ok o (tx_pkt x) (tx_seq x) (u64 (ns_of (os_clock older))))
    as [Hpk Hw]; [done|by apply HI|by eapply seq_bound|by apply (wrapU_range 64)|].
  cbv zeta. apply wp_bind, wp_ask. cbn [trace glob].
  set (c := Sendmsg _ _ _ _).
  assert (schedule o sk_addr sock base (c :: older)) as Hs.
  { split; [|repeat split; by apply HI]. split; [split; [done|split; [done|]]|].
    - exists (Observe :: trace s). split; [done|]. cbn [sent].
      rewrite <- (ti_seq _ _ _ _ _ _ _ HI). exact Hw.
    - rewrite (ti_time _ _ _ _ _ _ _ HI). unfold due. rewrite u64_add_l. change (sent older) with (sent (trace s)). f_equal. lia. }
  apply wp_bind, wp_report_tx; [done|]. intros new Hn. simpl. apply wp_ret.
  by eapply tx_next.
Qed.

Lemma tx_inv_init pkt s k :
  sent (trace s) = 0 → pkt_ok o pkt → sent k = 0 → (P → halt_tx_sig (glob s) = 0) →
  tx_inv o sk_addr sock base P
    (mk_tx_state pkt (i32 (frames_to_send o)) 1 (u64 base)) (mkSt (glob s) k).
Proof.
  intros Hz Hp Hk Hh. pose proof (wf_frames o Hwf).
  rewrite (wrapS_small 32) by lia.
  split; simpl; rewrite ?Hk; try lia; try done.
  - unfold due. f_equal. lia.
  - by apply schedule_none.
Qed.
End transmit_rounds.

(** ** Properties: transmission *)

(** The run of the transmit thread. *)
Lemma send_thread_run {OS : txrx_os} fuel o sock sk_addr s :
  opt_wf o → mac_wf (dst_mac_addr (glob s)) → timestamping_ok → sent (trace s) = 0 →
  frames_to_send o < Z.of_nat fuel →
  let base := start_of o (trace s) in
  wp (afpkt_send_thread fuel o sock sk_addr)
     (λ out s',
        (out = Done tt ∧ head (trace s') = Some (Close sock) ∨ out = Exited EXIT_FAILURE) ∧
        sent (trace s') <= frames_to_send o ∧
        schedule o sk_addr sock base (trace s') ∧
        (undisturbed ∧ sendto_succeeds ∧ halt_tx_sig (glob s) = 0 →
         out = Done tt ∧ sent (trace s') = frames_to_send o)) s.
Proof.
  intros Ho Hm Hts Hz Hf base. unfold afpkt_send_thread.
  apply wp_bind. unfold get, wp at 1; simpl. unfold get_time_sec. do 2 apply wp_bind.
  apply wp_ask, wp_ret. cbv zeta. rewrite u64_add_add.
  change (u64 (tv_sec _ * _ + _ + _)) with (u64 base).
  apply wp_bind.
  eapply (tx_loop o sk_addr sock base
            (undisturbed ∧ sendto_succeeds ∧ halt_tx_sig (glob s) = 0) true).
  - intros x t HI. apply send_round_ok; [done..|tauto|tauto|done|done].
  - apply tx_inv_init; [done|done|by apply packet_template_ok|done|tauto].
  - done.
  - intros t [H1 H2 H3]. apply wp_ask. simpl. tauto.
  - intros _ t [H1 H2 H3]. simpl. split; [auto|]. split; [done|]. split; [done|].
    intros HP. by destruct (H3 HP).
Qed.

(** C8: the transmit thread sends packet number k (numbered k+1) right after
    sleeping until base + k * interval, with its queue, its number, and the
    clock reading taken just before as its time stamp; never more frames than
    requested; and exactly as many when no signal arrives and no call fails.
    One unit of fuel per frame is enough: the thread always ends, with the
    socket closed or with status 1. *)
Theorem afpkt_send_thread_schedule {OS : txrx_os} fuel o sock sk_addr s :
  opt_wf o → mac_wf (dst_mac_addr (glob s)) → timestamping_ok → sent (trace s) = 0 →
  frames_to_send o < Z.of_nat fuel →
  let base := start_of o (trace s) in
  wp (afpkt_send_thread fuel o sock sk_addr)
     (λ out s',
        (out = Done tt ∧ head (trace s') = Some (Close sock) ∨ out = Exited EXIT_FAILURE) ∧
        sent (trace s') <= frames_to_send o ∧
        schedule o sk_addr sock base (trace s') ∧
        (undisturbed ∧ sendto_succeeds ∧ halt_tx_sig (glob s) = 0 →
         out = Done tt ∧ sent (trace s') = frames_to_send o)) s.
Proof. exact (send_thread_run fuel o sock sk_addr s). Qed.

(** The run of the launch-time transmit thread. *)
Lemma send_thread_etf_run {OS : txrx_os} fuel o sock sk_addr s :
  opt_wf o → mac_wf (dst_mac_addr (glob s)) → timestamping_ok → sent (trace s) = 0 →
  frames_to_send o < Z.of_nat fuel →
  let base := start_of o (trace s) - early_offset_ns o in
  wp (afpkt_send_thread_etf fuel o sock sk_addr)
     (λ out s',
        out = Done tt ∧ head (trace s') = Some (Close sock) ∧
        sent (trace s') <= frames_to_send o ∧
        schedule o sk_addr sock base (trace s') ∧
        (undisturbed ∧ halt_tx_sig (glob s) = 0 →
         sent (trace s') = frames_to_send o)) s.
Proof.
  intros Ho Hm Hts Hz Hf base. unfold afpkt_send_thread_etf.
  apply wp_bind. unfold get, wp at 1; simpl. unfold get_time_sec. do 2 apply wp_bind.
  apply wp_ask, wp_ret. cbv zeta. rewrite u64_add_add, u64_sub_l.
  change (u64 (tv_sec _ * _ + _ + _ - _)) with (u64 base).
  apply wp_bind.
  eapply (tx_loop o sk_addr sock base
            (undisturbed ∧ halt_tx_sig (glob s) = 0) false).
  - intros x t HI. apply send_round_etf_ok; [done..|tauto|done].
  - apply tx_inv_init; [done|done|by apply packet_template_ok|done|tauto].
  - done.
  - intros t [H1 H2 H3]. apply wp_ask. simpl. tauto.
  - done.
Qed.

(** C18: the launch-time thread wakes early by the early offset: packet k is
    handed over after sleeping until base - early + k * interval and carries
    the launch time base + k * interval; a failed sendmsg() does not
    stop it, so the thread always returns. *)
Theorem afpkt_send_thread_etf_schedule {OS : txrx_os} fuel o sock sk_addr s :
  opt_wf o → mac_wf (dst_mac_addr (glob s)) → timestamping_ok → sent (trace s) = 0 →
  frames_to_send o < Z.of_nat fuel →
  let base := start_of o (trace s) - early_offset_ns o in
  wp (afpkt_send_thread_etf fuel o sock sk_addr)
     (λ out s',
        out = Done tt ∧ head (trace s') = Some (Close sock) ∧
        sent (trace s') <= frames_to_send o ∧
        schedule o sk_addr sock base (trace s') ∧
        (undisturbed ∧ halt_tx_sig (glob s) = 0 →
         sent (trace s') = frames_to_send o)) s.
Proof. exact (send_thread_etf_run fuel o sock sk_addr s). Qed.

(** ** Properties: reception *)

(** The frame as the receiver's socket delivers it: the MAC addresses, then
    what was transmitted without the VLAN tag's two bytes. *)
Definition delivered (macs buf : list Z) : list Z := macs ++ drop 2 buf.

(** The payload that the receiver sees in a delivered frame is the one sent. *)
Lemma delivered_fields o n t macs buf junk :
  64 <= packet_size o → wire_ok o n t buf → length macs = 12%nat →
  let buffer := write_at junk 0 (take RECV_IOV_LEN (delivered macs buf)) in
  pl_tx_queue buffer off_rx_payload = socket_prio o ∧
  pl_seq buffer off_rx_payload = n ∧
  pl_tx_timestampA buffer off_rx_payload = t.
Proof.
  intros Hsz [Hl _ Hq Hs Ht] Hm buffer.
  assert (∀ off k, (off + k <= 16)%nat →
    read_at buffer (14 + off) k = read_at buf (4 + off) k) as E.
  { intros off k Hk. unfold buffer, write_at, delivered. rewrite take_0. simpl app.
    unfold read_at at 1. rewrite drop_app_le, take_app_le.
    - change (read_at (take RECV_IOV_LEN (macs ++ drop 2 buf)) (14 + off) k
              = read_at buf (4 + off) k).
      rewrite read_at_take by (unfold RECV_IOV_LEN; lia).
      change (14 + off)%nat with (12 + (2 + off))%nat. rewrite read_at_skip by done.
      by rewrite read_at_drop.
    - unfold RECV_IOV_LEN. autorewrite with tsn_len. lia.
    - unfold RECV_IOV_LEN. autorewrite with tsn_len. lia. }
  unfold pl_tx_queue, pl_seq, pl_tx_timestampA, off_rx_payload, off_payload in *.
  change (18 - 4)%nat with 14%nat. rewrite !E; [done|..];
    unfold off_tx_timestampA, off_tx_queue, off_seq; lia.
Qed.

(** A frame of one of the transmit threads is received and logged. *)
Lemma frame_is_logged {OS : txrx_os} o n t buf macs len msgs o' sock s :
  opt_wf o → wire_ok o n t buf → 1 <= n <= frames_to_send o → 0 <= t < 2 ^ 63 →
  length macs = 12%nat → timestamping_ok → 0 < len →
  os_recvmsg (Recvmsg sock false RECV_IOV_LEN :: trace s)
  = (len, delivered macs buf, msgs) →
  wp (afpkt_recv_pkt sock o')
     (λ out s', out = Done 0 ∧ glob s' = (glob s) {{ glob_rx_seq := n }} ∧
        ∃ rxC rxD, trace s' = Fflush
          :: Stdout [i64 (rxD - t); n; socket_prio o; t; i64 rxC; i64 rxD]
          :: ClockGettime CLOCK_REALTIME :: Recvmsg sock false RECV_IOV_LEN :: trace s) s.
Proof.
  intros Ho Hw Hn Ht Hm Hts Hlen Hr. unfold afpkt_recv_pkt.
  apply wp_bind, wp_ask. rewrite Hr. cbn beta iota zeta.
  replace (len <=? 0) with false by (symmetry; apply Z.leb_gt; lia).
  unfold get_time_nanosec. do 2 apply wp_bind. apply wp_ask, wp_ret. cbn [glob trace].
  set (rxD := u64 _). set (tr := ClockGettime _ :: _).
  set (buffer := write_at _ _ _).
  apply wp_bind. assert (∀ rxC : Z,
    wp (log_packet buffer rxC rxD)
     (λ out s', out = Done 0 ∧ glob s' = (glob s) {{ glob_rx_seq := n }} ∧
        ∃ rxC rxD, trace s' = Fflush
          :: Stdout [i64 (rxD - t); n; socket_prio o; t; i64 rxC; i64 rxD] :: tr)
     (mkSt (glob s) tr)) as Hk.
  { intros rxC. unfold log_packet.
    destruct (delivered_fields o n t macs buf (uninit MSG_BUFLEN))
      as (E1 & E2 & E3); [by apply wf_size|done|done|].
    fold buffer in E1, E2, E3. rewrite E1, E2, E3.
    pose proof (wf_prio o Ho). pose proof (wf_frames o Ho). rewrite !Z.gtb_ltb.
    replace (8 <? socket_prio o) with false by (symmetry; apply Z.ltb_ge; lia).
    replace (50 * 1000 * 1000 <? n) with false by (symmetry; apply Z.ltb_ge; lia).
    rewrite !(wrapS_small 32), (wrapS_small 64 t) by lia. simpl.
    split; [done|]. split; [done|]. by exists rxC, rxD. }
  destruct (enable_hwts o' =? 0); [apply wp_ret, Hk|].
  apply wp_get_timestamp; [intros ts; by apply (Hts _ _ _ _ ts Hr)|]. exact Hk.
Qed.

(** A packet put on the wire by either transmit thread and delivered by
    the network is accepted, and logged with its own sequence number, queue and
    transmit time, and with the latency between the two clock readings; the
    receiver's progress counter becomes its sequence number. *)
Theorem packet_crosses_network {OS : txrx_os} o n t buf macs len msgs o' sock s :
  opt_wf o → wire_ok o n t buf → 1 <= n <= frames_to_send o → 0 <= t < 2 ^ 63 →
  length macs = 12%nat → timestamping_ok → 0 < len →
  os_recvmsg (Recvmsg sock false RECV_IOV_LEN :: trace s)
  = (len, delivered macs buf, msgs) →
  wp (afpkt_recv_pkt sock o')
     (λ out s', out = Done 0 ∧ glob s' = (glob s) {{ glob_rx_seq := n }} ∧
        ∃ rxC rxD, trace s' = Fflush
          :: Stdout [i64 (rxD - t); n; socket_prio o; t; i64 rxC; i64 rxD]
          :: ClockGettime CLOCK_REALTIME :: Recvmsg sock false RECV_IOV_LEN :: trace s) s.
Proof. exact (frame_is_logged o n t buf macs len msgs o' sock s). Qed.

Lemma log_packet_filter {OS : txrx_os} buffer rxC rxD s :
  wp (log_packet buffer rxC rxD)
     (λ out s',
        out = Done (-1) ∧ glob s' = glob s ∧ lines (trace s') = lines (trace s) ∨
        ∃ seq q lat tA C D,
          out = Done 0 ∧ 0 <= seq <= 50000000 ∧ 0 <= q <= 8 ∧
          glob s' = (glob s) {{ glob_rx_seq := seq }} ∧
          lines (trace s') = [lat; seq; q; tA; C; D] :: lines (trace s)) s.
Proof.
  unfold log_packet. cbv zeta.
  pose proof (wrapU_range 32 (le_decode (read_at buffer (off_rx_payload + off_tx_queue) 4))).
  pose proof (wrapU_range 32 (le_decode (read_at buffer (off_rx_payload + off_seq) 4))).
  fold (pl_seq buffer off_rx_payload) in *. fold (pl_tx_queue buffer off_rx_payload) in *.
  destruct (_ || _) eqn:E; [apply wp_ret; by left|]. bool_to_prop.
  rewrite !(wrapS_small 32) by lia. right. simpl.
  eexists _, _, _, _, _, _. split; [done|]. split; [|split; [|by split]]; lia.
Qed.

(** C36: whatever arrives, the receiver keeps its filter: a call either
    returns 0 or -1; -1 leaves the globals and the log as they were; a line is
    logged exactly when the progress counter is updated, with the same sequence
    number, which is at most 50 million and whose queue is at most 8. *)
Theorem afpkt_recv_pkt_filter {OS : txrx_os} o sock s :
  timestamping_ok →
  wp (afpkt_recv_pkt sock o)
     (λ out s',
        (out = Done 0 ∨ out = Done (-1)) ∧
        (glob s' = glob s ∧ lines (trace s') = lines (trace s) ∨
         ∃ seq q lat tA C D,
           out = Done 0 ∧ 0 <= seq <= 50000000 ∧ 0 <= q <= 8 ∧
           glob s' = (glob s) {{ glob_rx_seq := seq }} ∧
           lines (trace s') = [lat; seq; q; tA; C; D] :: lines (trace s))) s.
Proof.
  intros Hts. unfold afpkt_recv_pkt. apply wp_bind, wp_ask.
  destruct (os_recvmsg _) as [[ret data] msgs] eqn:Er. cbn beta iota zeta.
  destruct (ret <=? 0); [apply wp_bind, wp_ask, wp_ret; auto|].
  unfold get_time_nanosec. do 2 apply wp_bind. apply wp_ask, wp_ret. cbn [glob trace].
  set (rxD := u64 _). set (buffer := write_at _ _ _). apply wp_bind.
  set (s' := mkSt _ _). set (Q := λ (out : outcome Z) (s' : st txrx_glob call), _ ∧ _).
  assert (∀ rxC, wp (log_packet buffer rxC rxD) Q s') as Hk.
  { intros rxC. eapply wp_mono; [apply log_packet_filter|]. intros out t H.
    unfold Q. destruct H as [(-> & H)|H]; [by auto|]. split; [|by right].
    destruct H as (? & ? & ? & ? & ? & ? & -> & _). auto. }
  destruct (enable_hwts o =? 0); [apply wp_ret, Hk|].
  apply wp_get_timestamp; [intros ts; by apply (Hts _ _ _ _ ts Er)|]. exact Hk.
Qed.

(** ** Properties: sockets and timestamps *)

(** C40: the receive socket is never leaked on an error that is returned, and
    is only handed back when everything that matters has succeeded.  init_rx_socket()
    returns 0 with the descriptor that the kernel gave, open, exactly when the
    kernel has found the interface, has bound the descriptor to the index that it
    has given for it, has joined the multicast group (if the address is not zero)
    and has accepted both time stamping requests; only a refused buffer size is
    passed over.  It returns -1 with [*sock] = -1 exactly when there is no
    descriptor, or when the interface, the binding or the group is refused, and
    then the last call closes the descriptor.  It ends the process, with status 1,
    exactly when a time stamping request is refused. *)
Theorem init_rx_socket_no_leak {OS : txrx_os} etype ifc s :
  let name := take IFR_NAME_LEN ifc in
  let group := dst_mac_addr (glob s) in
  let joins := default 0 (head group) ≠ 0 in
  let t0 := SocketPacket false etype :: trace s in
  let rsock := os_socket t0 in
  let t1 := IoctlIfindex rsock name :: t0 in
  let ifi := (os_ioctl_ifindex t1).2 in
  let t3 := BindPacket rsock ifi etype :: SetRcvbuf rsock RCVBUF_SIZE :: t1 in
  let t4 := AddMembership rsock ifi (take 6 group) :: t3 in
  let t5 := IoctlHwtstamp rsock name :: (if decide joins then t4 else t3) in
  let t6 := SetTimestamping rsock true :: t5 in
  let ready := 0 <= rsock ∧ 0 <= (os_ioctl_ifindex t1).1 ∧ os_bind t3 = 0 ∧
               (joins → 0 <= os_setsockopt t4) in
  wp (init_rx_socket etype ifc)
     (λ out s', glob s' = glob s ∧
        match out with
        | Done (ret, sock) =>
            (ret = 0 ∧ sock = rsock ∧ ready ∧ 0 <= os_ioctl t5 ∧ 0 <= os_setsockopt t6 ∧
             trace s' = t6) ∨
            (ret = -1 ∧ sock = -1 ∧ ¬ ready ∧
             (rsock < 0 ∧ trace s' = t0 ∨ 0 <= rsock ∧ head (trace s') = Some (Close rsock)))
        | Exited c =>
            c = 1 ∧ ready ∧
            (os_ioctl t5 < 0 ∧ trace s' = t5 ∨
             0 <= os_ioctl t5 ∧ os_setsockopt t6 < 0 ∧ trace s' = t6)
        | _ => False
        end) s.
Proof.
  intros name group joins t0 rsock t1 ifi t3 t4 t5 t6 ready.
  assert (∀ t, ready → t = mkSt (glob s) (if decide joins then t4 else t3) →
    wp (ret ← ask (IoctlHwtstamp rsock name) os_ioctl;
        if ret <? 0 then exit_ 1 else
        ret ← ask (SetTimestamping rsock true) os_setsockopt;
        if ret <? 0 then exit_with_error else mret (0, rsock))
       (λ out s', glob s' = glob s ∧
          match out with
          | Done (ret, sock) =>
              ret = 0 ∧ sock = rsock ∧ ready ∧ 0 <= os_ioctl t5 ∧ 0 <= os_setsockopt t6 ∧
              trace s' = t6
          | Exited c => c = 1 ∧ ready ∧
              (os_ioctl t5 < 0 ∧ trace s' = t5 ∨
               0 <= os_ioctl t5 ∧ os_setsockopt t6 < 0 ∧ trace s' = t6)
          | _ => False
          end) t) as Hts.
  { intros t Hr ->. apply wp_bind, wp_ask. cbn [trace glob]. fold t5.
    destruct (os_ioctl t5 <? 0) eqn:E5; bool_to_prop; [do 3 (split; [done|]); by left|].
    apply wp_bind, wp_ask. cbn [trace glob]. fold t6.
    destruct (os_setsockopt t6 <? 0) eqn:E6; bool_to_prop; [|by apply wp_ret].
    split; [done|]. split; [done|]. auto. }
  unfold init_rx_socket. apply wp_bind, wp_ask. cbn [trace glob]. fold t0 rsock.
  destruct (rsock <? 0) eqn:E0; bool_to_prop.
  { apply wp_ret. split; [done|]. right. unfold ready. repeat split; [lia|by left]. }
  cbv zeta. fold name. apply wp_bind, wp_ask. cbn [trace glob]. fold t1.
  rewrite (surjective_pairing (os_ioctl_ifindex t1)). fold ifi. cbv beta iota.
  destruct ((os_ioctl_ifindex t1).1 <? 0) eqn:E2; bool_to_prop.
  { apply wp_bind, wp_ask, wp_ret. split; [done|]. right. unfold ready. simpl.
    repeat split; [lia|by right]. }
  apply wp_bind, wp_ask. apply wp_bind, wp_ask. cbn [trace glob]. fold t3.
  destruct (negb _) eqn:E3; bool_to_prop.
  { apply wp_bind, wp_ask, wp_ret. split; [done|]. right. unfold ready.
    repeat split; [tauto|by right]. }
  apply wp_bind. unfold get at 1, wp at 1. cbn [fst snd glob trace].
  assert (default 0 (dst_mac_addr (glob s) !! 0%nat) = default 0 (head group)) as ->
    by (unfold group; clear; by destruct (dst_mac_addr (glob s))).
  apply wp_bind. unfold joins in *.
  destruct (default 0 (head group) =? 0) eqn:Ej; bool_to_prop.
  - apply wp_ret. change (0 <? 0) with false. cbv iota. eapply wp_mono.
    + apply Hts; [|by rewrite decide_False by tauto]. unfold ready. simpl. tauto.
    + intros [[ret sock]|c| |] s'; tauto.
  - apply wp_ask. cbn [trace glob]. fold group t4.
    destruct (os_setsockopt t4 <? 0) eqn:E4; bool_to_prop.
    { apply wp_bind, wp_ask, wp_ret. split; [done|]. right. unfold ready.
      repeat split; [intros (_ & _ & _ & H); specialize (H Ej); lia|by right]. }
    eapply wp_mono.
    + apply Hts; [|by rewrite decide_True by tauto]. unfold ready. simpl. tauto.
    + intros [[ret sock]|c| |] s'; tauto.
Qed.

(** A transmit socket that is handed back is usable: it is the
    descriptor of an AF_PACKET datagram socket, it has the priority asked for,
    hardware timestamping of the named interface is on, the launch-time option
    is set whenever launch times are used, and the link-level address names the
    interface and the destination MAC; every failure ends the process with
    status 1. *)
Theorem init_tx_socket_ready {OS : txrx_os} o addr name s :
  ifname o = Some name →
  wp (init_tx_socket o addr)
     (λ out s', ∃ new, trace s' = new ++ trace s ∧ glob s' = glob s ∧
        match out with
        | Done (sock, addr') =>
            0 <= sock ∧
            addr' = mk_sockaddr_ll (sll_protocol addr) (ifindex o)
                      (take 6 (dst_mac_addr (glob s))) ∧
            SocketPacket true ETH_P_8021Q ∈ new ∧
            SetPriority sock (socket_prio o) ∈ new ∧
            IoctlHwtstamp sock (take IFR_NAME_LEN name) ∈ new ∧
            SetTimestamping sock false ∈ new ∧
            (enable_txtime o ≠ 0 → SetTxtime sock CLOCK_TAI 0 ∈ new)
        | Exited c => c = 1
        | _ => False
        end) s.
Proof.
  intros Hn. unfold init_tx_socket, exit_with_error, with_ifname. rewrite Hn.
  run_code.
  all: exists_new_calls; split; [done|]; bool_to_prop; try done.
  all: split; [lia|]; split; [done|].
  all: repeat (split; [eauto 8 using list_elem_of_here, list_elem_of_further|]).
  all: intros; first [done | eauto 8 using list_elem_of_here, list_elem_of_further].
Qed.

(** A hardware timestamp is the third timespec of the last timestamping
    control message at the socket level: 0 when there is none, undefined
    behaviour when the message is shorter than three timespecs, as those of
    type SO_TIMESTAMPNS (one timespec) are. *)
Theorem get_timestamp_spec before c after s :
  cmsg_level c = SOL_SOCKET →
  cmsg_type c = SO_TIMESTAMPNS ∨ cmsg_type c = SO_TIMESTAMPING →
  Forall (λ c, cmsg_level c ≠ SOL_SOCKET ∨
               cmsg_type c ≠ SO_TIMESTAMPNS ∧ cmsg_type c ≠ SO_TIMESTAMPING) after →
  get_timestamp after s = (Done 0, s) ∧
  get_timestamp (before ++ c :: after) s
  = match drop 4 (cmsg_data c) with
    | sec :: nsec :: _ => (Done (u64 (i64 sec * NSEC_PER_SEC + i64 nsec)), s)
    | _ => (Undefined, s)
    end.
Proof.
  intros Hl Ht Ha.
  assert (∀ acc, foldl (λ ts c,
    if negb (cmsg_level c =? SOL_SOCKET) then ts
    else if (cmsg_type c =? SO_TIMESTAMPNS) || (cmsg_type c =? SO_TIMESTAMPING)
    then Some (cmsg_data c) else ts) acc after = acc) as Hskip.
  { induction Ha as [|d l Hd _ IH]; intros acc; simpl; [done|]. rewrite IH.
    destruct (negb _) eqn:E1; [done|]. destruct (_ || _) eqn:E2; [|done].
    apply orb_prop in E2. bool_to_prop. destruct E2; bool_to_prop; lia. }
  unfold get_timestamp, timestamp_cmsg. rewrite foldl_app. cbn [foldl]. rewrite !Hskip.
  rewrite Hl, Z.eqb_refl. cbn [negb]. split; [done|].
  replace ((_ =? _) || (_ =? _)) with true
    by (symmetry; apply orb_true_iff; rewrite !Z.eqb_eq; done).
  by destruct (cmsg_data c) as [|? [|? [|? [|? [|sec [|nsec rest]]]]]].
Qed.

(** ** Witnesses *)

Lemma demo_timestamping_ok frame : @timestamping_ok (demo_txrx_os frame).
Proof. intros tr ret data msgs ts [= <- <- <-]. discriminate. Qed.

Definition demo_addr : sockaddr_ll := mk_sockaddr_ll ETH_P_8021Q 2 [0; 0; 0; 0; 0; 0].

Definition demo_run_ok (etf : bool) : Prop :=
  let os := demo_txrx_os [] in
  let r := (if etf then afpkt_send_thread_etf else afpkt_send_thread) 4%nat
             demo_user_opt 5 demo_addr (mkSt init_txrx_glob []) in
  r.1 = Done tt ∧ sent (trace r.2) = 3.

Lemma afpkt_send_thread_schedule_witness : demo_run_ok false.
Proof.
  destruct (@afpkt_send_thread_schedule (demo_txrx_os []) 4 demo_user_opt 5 demo_addr
    (mkSt init_txrx_glob [])) as (_ & _ & _ & H).
  - exact demo_user_opt_wf.
  - exact init_mac_wf.
  - exact (demo_timestamping_ok []).
  - reflexivity.
  - reflexivity.
  - apply H. repeat split. discriminate.
Defined.

Lemma afpkt_send_thread_etf_schedule_witness : demo_run_ok true.
Proof.
  destruct (@afpkt_send_thread_etf_schedule (demo_txrx_os []) 4 demo_user_opt 5 demo_addr
    (mkSt init_txrx_glob [])) as (H1 & _ & _ & _ & H).
  - exact demo_user_opt_wf.
  - exact init_mac_wf.
  - exact (demo_timestamping_ok []).
  - reflexivity.
  - reflexivity.
  - split; [exact H1|]. apply H. repeat split.
Defined.

(** The third packet of [demo_user_opt], sent at 1000 s. *)
Definition demo_packet : list Z :=
  wire demo_user_opt
    (set_tx_timestampA (set_seq (packet_template demo_user_opt [1; 2; 3; 4; 5; 6])
       off_payload 3) off_payload 1000000000000).

Lemma demo_packet_ok : wire_ok demo_user_opt 3 1000000000000 demo_packet.
Proof.
  apply stamp_ok; [exact demo_user_opt_wf| |lia|lia].
  apply packet_template_ok; [exact demo_user_opt_wf|].
  split; [done|]. repeat constructor; discriminate.
Qed.

Definition demo_frame : list Z :=
  delivered [1; 2; 3; 4; 5; 6; 0xaa; 0; 0xaa; 0; 0xaa; 0] demo_packet.

Lemma packet_crosses_network_witness :
  let r := @afpkt_recv_pkt (demo_txrx_os demo_frame) 7 default_user_opt
             (mkSt init_txrx_glob []) in
  r.1 = Done 0 ∧ glob_rx_seq (glob r.2) = 3.
Proof.
  destruct (@packet_crosses_network (demo_txrx_os demo_frame) demo_user_opt 3
    1000000000000 demo_packet [1; 2; 3; 4; 5; 6; 0xaa; 0; 0xaa; 0; 0xaa; 0]
    (Z.of_nat (length demo_frame)) [] default_user_opt 7 (mkSt init_txrx_glob []))
    as (H1 & H2 & _).
  - exact demo_user_opt_wf.
  - exact demo_packet_ok.
  - vm_compute; split; discriminate.
  - lia.
  - reflexivity.
  - exact (demo_timestamping_ok demo_frame).
  - reflexivity.
  - reflexivity.
  - split; [exact H1|]. cbv zeta. rewrite H2. reflexivity.
Defined.

Lemma afpkt_recv_pkt_filter_witness :
  let r := @afpkt_recv_pkt (demo_txrx_os demo_frame) 7 default_user_opt
             (mkSt init_txrx_glob []) in
  r.1 = Done 0 ∨ r.1 = Done (-1).
Proof.
  destruct (@afpkt_recv_pkt_filter (demo_txrx_os demo_frame) default_user_opt 7
    (mkSt init_txrx_glob [])) as (H1 & _); [exact (demo_timestamping_ok demo_frame)|].
  exact H1.
Defined.

Lemma init_tx_socket_ready_witness :
  let r := @init_tx_socket (demo_txrx_os []) demo_user_opt demo_addr
             (mkSt init_txrx_glob []) in
  r.1 = Done (5, mk_sockaddr_ll ETH_P_8021Q 0 [0x22; 0xbb; 0x22; 0xbb; 0x22; 0xbb]) ∧
  ∃ new, trace r.2 = new ++ [].
Proof.
  destruct (@init_tx_socket_ready (demo_txrx_os []) demo_user_opt demo_addr
    [101; 116; 104; 48] (mkSt init_txrx_glob [])) as (new & H & _); [reflexivity|].
  split; [reflexivity|]. exists new. exact H.
Defined.

Lemma get_timestamp_spec_witness :
  get_timestamp ([mk_cmsg 1 37 [1; 2; 0; 0; 3; 4]] ++ [mk_cmsg 263 8 []])
    (mkSt init_txrx_glob []) = (Done 3000000004, mkSt init_txrx_glob []) ∧
  get_timestamp ([] ++ [mk_cmsg 1 35 [1; 2]]) (mkSt init_txrx_glob [])
  = (Undefined, mkSt init_txrx_glob []).
Proof.
  split.
  - apply (get_timestamp_spec [] (mk_cmsg 1 37 [1; 2; 0; 0; 3; 4]) [mk_cmsg 263 8 []]).
    + reflexivity.
    + right. reflexivity.
    + repeat constructor. discriminate.
  - apply (get_timestamp_spec [] (mk_cmsg 1 35 [1; 2]) []).
    + reflexivity.
    + left. reflexivity.
    + constructor.
Defined.
