(* ===== verification/Afxdp.v ===== *)
(** * TXRX-TSN over AF_XDP (src/src/txrx-afxdp.c)

    The packet buffer memory (umem) shared with the kernel, the set-up of the
    socket and its four rings, the transmit thread and the reception of a
    packet.  Every access to the umem is checked against its size: an access
    outside is undefined behaviour, and the theorems show there is none. *)

From S2P Require Import Prelude Sys Libc Txrx.

Local Open Scope Z_scope.

(** ** Constants *)

Definition DEFAULT_NUM_FLUSH_PACKETS : Z := 10.
Definition XSK_UMEM__DEFAULT_FRAME_SHIFT : Z := 12.
Definition XDP_FLAGS_UPDATE_IF_NOEXIST : Z := 1.
Definition XDP_FLAGS_SKB_MODE : Z := 2.
Definition XDP_FLAGS_DRV_MODE : Z := 4.
Definition XDP_COPY : Z := 2.
Definition XDP_ZEROCOPY : Z := 4.
Definition XDP_USE_NEED_WAKEUP : Z := 8.
Definition ENOBUFS : Z := 105.
Definition EAGAIN : Z := 11.
Definition EBUSY : Z := 16.
Definition ETH_VLAN_HDR_SZ : nat := 18.

(** ** The packet buffer memory *)

(** Store bytes from offset [off] on. *)
Fixpoint store (m : gmap Z Z) (off : Z) (bs : list Z) : gmap Z Z :=
  match bs with
  | [] => m
  | b :: bs => <[off := b]> (store m (off + 1) bs)
  end.

Section afxdp.
Context {OS : txrx_os} {B : build}.

Definition byte_at (m : gmap Z Z) (off : Z) : Z := default (os_mem off) (m !! off).

Definition load (m : gmap Z Z) (off : Z) (n : nat) : list Z :=
  (λ i, byte_at m (off + Z.of_nat i)) <$> List.seq 0 n.

(** memcpy() into the umem, and the bytes of an object in it. *)
Definition umem_write (off : Z) (bs : list Z) : T unit :=
  g ← get;
  if (0 <=? off) && (off + Z.of_nat (length bs) <=? umem_size g)
  then modify (λ g, g {{ umem := store (umem g) off bs }})
  else undefined.

Definition umem_read (off : Z) (n : nat) : T (list Z) :=
  g ← get;
  if (0 <=? off) && (off + Z.of_nat n <=? umem_size g)
  then mret (load (umem g) off n)
  else undefined.

(** ** Errors *)

(** [glob_xskinfo_ptr->...]: undefined when it is still NULL. *)
Definition get_xsk : T xsk_info :=
  g ← get;
  match glob_xskinfo g with Some xsk => mret xsk | None => undefined end.

Definition set_xsk (f : xsk_info → xsk_info) : T unit :=
  modify (λ g, g {{ glob_xskinfo := f <$> glob_xskinfo g }}).

Definition xdpsock_cleanup {A} : T A :=
  _ ← get_xsk;
  tell XskSocketDelete;;
  tell XskUmemDelete;;
  exit_ EXIT_SUCCESS.

Definition __afxdp_exit_with_error {A} (error : Z) : T A :=
  (xdpsock_cleanup : T unit);;
  exit_ EXIT_FAILURE.

(** ** Set-up *)

(** create_umem(): [None] stands for [(struct pkt_buffer * ) - 1]. *)
Definition create_umem (x : xsk_opt) : T (option unit) :=
  let single_umem_ring_size := u64 (frames_per_ring x * frame_size x) in
  ret ← ask (PosixMemalign single_umem_ring_size) os_memalign;
  if negb (ret =? 0) then exit_ EXIT_FAILURE else
  modify (λ g, g {{ umem := ∅; umem_size := single_umem_ring_size }});;
  temp_buff ← ask Calloc os_calloc;
  if negb temp_buff then __afxdp_exit_with_error 0 else
  ret ← ask (XskUmemCreate single_umem_ring_size (frames_per_ring x)
               (frames_per_ring x) (frame_size x)) os_umem_create;
  if negb (ret =? 0) then __afxdp_exit_with_error (- ret) else
  '(ret, idx) ← ask (RingReserve RxFill (frames_per_ring x)) os_ring;
  if negb (i32 ret =? frames_per_ring x) then mret None else
  for_each (List.seq 0 (Z.to_nat (frames_per_ring x)))
    (λ i idx, tell (FillAddr idx (u64 (Z.of_nat i * frame_size x)));;
              mret (u32 (idx + 1))) (u32 idx);;
  tell (RingSubmit RxFill (frames_per_ring x));;
  mret (Some tt).

(** create_xsk_info(): the first use of [pktbuff] dereferences it. *)
Definition create_xsk_info (o : user_opt) (pktbuff : option unit) : T xsk_info :=
  temp_xsk ← ask Calloc os_calloc;
  if negb temp_xsk then __afxdp_exit_with_error 0 else
  match pktbuff with
  | None => undefined
  | Some tt =>
      ret ← ask (XskSocketCreate (default [] (ifname o)) (queue (x_opt o))
                   (frames_per_ring (x_opt o)) (frames_per_ring (x_opt o))
                   (xdp_flags (x_opt o)) (xdp_bind_flags (x_opt o))) os_xsk_create;
      if negb (ret =? 0) then __afxdp_exit_with_error (- ret) else
      '(ret, prog) ← ask (BpfXdpQueryId (ifindex o) (xdp_flags (x_opt o))) os_query_id;
      if negb (ret =? 0) then __afxdp_exit_with_error (- ret) else
      mret (mk_xsk_info (u32 prog) 0 0 0 0 0)
  end.

(** prefill_tx_umem_rings(): the header of every frame, and seven bytes of
    its payload ([sizeof(tsn_packet) - 1]). *)
Definition prefill_tx_umem_rings (example_pkt : list Z) (count fsize : Z) : T unit :=
  for_each (List.seq 0 (Z.to_nat count))
    (λ i _, umem_write (Z.of_nat i * fsize) (take (sizeof_tsn_packet - 1) example_pkt))
    tt.

(** The flags init_xdp_socket() derives from the XDP mode. *)
Definition xdp_mode_flags (o : user_opt) : option (Z * Z) :=
  if xdp_mode o =? XDP_MODE_SKB_COPY then
    Some (Z.lor XDP_FLAGS_UPDATE_IF_NOEXIST XDP_FLAGS_SKB_MODE, XDP_COPY)
  else if xdp_mode o =? XDP_MODE_NATIVE_COPY then
    Some (Z.lor XDP_FLAGS_UPDATE_IF_NOEXIST XDP_FLAGS_DRV_MODE, XDP_COPY)
  else if xdp_mode o =? XDP_MODE_ZERO_COPY then
    Some (XDP_FLAGS_UPDATE_IF_NOEXIST, XDP_ZEROCOPY)
  else None.

(** init_xdp_socket(): the options it leaves behind; [opt->xsk] is
    [glob_xskinfo]. *)
Definition init_xdp_socket (o : user_opt) : T user_opt :=
  match xdp_mode_flags o with
  | None => exit_with_error
  | Some (xflags, bflags) =>
      let bflags := if need_wakeup o then Z.lor bflags XDP_USE_NEED_WAKEUP else bflags in
      let o := o {{ x_opt := (x_opt o) {{ xdp_flags := xflags;
                                          xdp_bind_flags := bflags }} }} in
      modify (λ g, g {{ glob_xdp_flags := xflags; glob_ifindex := i32 (ifindex o) }});;
      ret ← ask Setrlimit os_setrlimit;
      if negb (ret =? 0) then exit_ EXIT_FAILURE else
      pktbuffer ← create_umem (x_opt o);
      xsk ← create_xsk_info o pktbuffer;
      modify (λ g, g {{ glob_xskinfo := Some xsk }});;
      mret o
  end.

(** ** Transmission *)

Definition update_txstats : T unit :=
  xsk ← get_xsk;
  if outstanding_tx xsk =? 0 then mret tt else
  '(rcvd, _) ← ask (RingPeek TxComp 1) os_ring;
  if rcvd >? 0 then
    tell (RingRelease TxComp rcvd);;
    set_xsk (λ xsk, xsk {{ outstanding_tx := u32 (outstanding_tx xsk - rcvd);
                           tx_npkts := u64 (tx_npkts xsk + rcvd) }})
  else mret tt.

(** The part of afxdp_send_pkt() after the descriptor is reserved. *)
Definition submit_tx (o : user_opt) (cur idx len tx_timestamp : Z) : T unit :=
  let tx_timestamp := if enable_txtime o =? 0 then 0 else tx_timestamp in
  tell (TxDesc idx (u64 (Z.shiftl cur XSK_UMEM__DEFAULT_FRAME_SHIFT)) len
          (if WITH_XDPTBS then Some tx_timestamp else None));;
  tell (RingSubmit TxRing 1);;
  set_xsk (λ xsk, xsk {{ outstanding_tx := u32 (outstanding_tx xsk + 1);
                         cur_tx := u32 (cur_tx xsk + 1) mod frames_per_ring (x_opt o) }});;
  '(ret, errno) ← ask SendtoKick os_kick;
  if (ret >=? 0) || (errno =? ENOBUFS) || (errno =? EAGAIN) || (errno =? EBUSY)
  then update_txstats
  else __afxdp_exit_with_error errno.

Definition afxdp_send_pkt (o : user_opt) (header_size : nat) (len : Z)
  (payload : list Z) (tx_timestamp : Z) : T unit :=
  xsk ← get_xsk;
  let cur := cur_tx xsk in
  ready ← (if enable_poll o =? 0 then mret true
           else '(ret, pollout) ← ask (PollOut 1000) os_poll;
                mret ((ret >? 0) && pollout));
  if negb (ready : bool) then mret tt else
  umem_write (u64 (Z.shiftl cur XSK_UMEM__DEFAULT_FRAME_SHIFT) + Z.of_nat header_size)
    (take (Z.to_nat (u32 (len - Z.of_nat header_size))) payload);;
  '(n, idx) ← ask (RingReserve TxRing 1) os_ring;
  if negb (n =? 1) then mret tt else
  submit_tx o cur idx len tx_timestamp.

(** The loop state of afxdp_send_thread(): the payload buffer, [seq_num],
    [i] and [tx_timestamp]. *)
Record xtx_state : Type := mk_xtx_state {
  xtx_buff : list Z; xtx_seq : Z; xtx_i : Z; xtx_time : Z
}.

Definition xdp_round (o : user_opt) (x : xtx_state) : T (xtx_state + unit) :=
  h ← halted;
  if (h : bool) || negb (xtx_i x <? u32 (frames_to_send o + DEFAULT_NUM_FLUSH_PACKETS))
  then mret (inr tt) else
  let sleep_timestamp := u64 (xtx_time x - early_offset_ns o) in
  _ ← ask (ClockNanosleep CLOCK_REALTIME (timespec_of sleep_timestamp)) os_nanosleep;
  let buff := set_tx_queue (xtx_buff x) 0 (queue (x_opt o)) in
  let buff := set_seq buff 0 (xtx_seq x) in
  now ← get_time_nanosec CLOCK_REALTIME;
  let buff := set_tx_timestampA buff 0 now in
  (if negb (enable_txtime o =? 0)
   then afxdp_send_pkt o ETH_VLAN_HDR_SZ (packet_size o) buff (xtx_time x)
   else afxdp_send_pkt o ETH_VLAN_HDR_SZ (packet_size o) buff 0);;
  g ← get;
  when (negb (verbose g =? 0))
    (tell (Stdout [i32 (pl_seq buff 0); i64 (pl_tx_timestampA buff 0)]));;
  tell Fflush;;
  mret (inl (mk_xtx_state buff (u64 (xtx_seq x + 1)) (u64 (xtx_i x + 1))
               (u64 (xtx_time x + interval_ns o)))).

(** afxdp_send_thread() up to its loop, and the whole of it. *)
Definition xtx_start (o : user_opt) : T xtx_state :=
  g ← get;
  let tsn_pkt := setup_tsn_vlan_packet o (dst_mac_addr g) in
  _ ← get_xsk;
  prefill_tx_umem_rings tsn_pkt (frames_per_ring (x_opt o)) (frame_size (x_opt o));;
  sec ← get_time_sec CLOCK_REALTIME;
  let tx_timestamp := u64 (u64 (sec + offset_ns o) + 2 * NSEC_PER_SEC) in
  mret (mk_xtx_state (uninit (Z.to_nat (packet_size o))) 0 0 tx_timestamp).

Definition afxdp_send_thread (fuel : nat) (o : user_opt) : T unit :=
  x ← xtx_start o;
  loop fuel (xdp_round o) x;;
  update_txstats.

(** ** Reception *)

(** The fill ring is asked for room until it has some. *)
Definition reserve_fill (fuel : nat) (rcvd : Z) : T unit :=
  loop fuel (λ _ : unit,
    '(ret, _) ← ask (RingReserve RxFill rcvd) os_ring;
    if i32 ret =? rcvd then mret (inr tt)
    else if i32 ret <? 0 then __afxdp_exit_with_error (- i32 ret)
    else mret (inl tt)) tt.

(** [*(uint16_t * ) (pkt + off)]. *)
Definition half (pkt : list Z) (off : nat) : Z := le_decode (read_at pkt off 2).

(** The tests a received frame has to pass to be logged. *)
Definition rx_accepts (pkt : list Z) : bool :=
  let seq := pl_seq pkt off_payload in
  ((half pkt off_vlan_hdr =? 0x81) || (half pkt off_vlan_hdr =? 0x08)) &&
  (half pkt off_eth_hdr =? le_decode (be16 ETH_UADP)) &&
  ((0 <? seq) && (seq <? 50 * 1000 * 1000)) &&
  (default 0 (pkt !! off_vlan_prio) / 32 <? 8).

(** One descriptor of the RX ring. *)
Definition recv_desc (idx_rx : Z) : T unit :=
  '(addr, len) ← ask (RxDesc idx_rx) os_rx_desc;
  if len =? 0 then mret tt else
  rx_timestampD ← get_time_nanosec CLOCK_REALTIME;
  pkt ← umem_read addr (off_payload + off_rx_timestampD);
  if rx_accepts pkt then
    hw ← umem_read (addr - 8) 8;
    let tA := pl_tx_timestampA pkt off_payload in
    let seq := pl_seq pkt off_payload in
    tell (Stdout [u64 (rx_timestampD - tA); seq; pl_tx_queue pkt off_payload; tA;
                  le_decode hw; rx_timestampD]);;
    modify (λ g, g {{ glob_rx_seq := seq }})
  else mret tt.

Definition afxdp_recv_pkt (fuel : nat) : T unit :=
  _ ← get_xsk;
  '(rcvd, idx_rx, dma) ← ask (RingPeek RxRing 1) (λ tr, (os_ring tr, os_dma tr));
  let rcvd := i32 rcvd in
  if rcvd =? 0 then mret tt else
  modify (λ g, g {{ umem := dma ∪ umem g }});;
  reserve_fill fuel rcvd;;
  for_each (List.seq 0 (Z.to_nat rcvd))
    (λ _ idx, recv_desc idx;; mret (u32 (idx + 1))) idx_rx;;
  tell (RingSubmit RxFill rcvd);;
  tell (RingRelease RxRing rcvd);;
  set_xsk (λ xsk, xsk {{ rx_npkts := u64 (rx_npkts xsk + rcvd) }});;
  tell Fflush;;
  tell SchedYield.
End afxdp.

(** ** Specification of the transmit side *)

(** Wake-ups, descriptors and completions so far. *)
Fixpoint sleeps (tr : list call) : Z :=
  match tr with
  | [] => 0
  | ClockNanosleep _ _ :: tr => 1 + sleeps tr
  | _ :: tr => sleeps tr
  end.

Fixpoint descs (tr : list call) : Z :=
  match tr with
  | [] => 0
  | TxDesc _ _ _ _ :: tr => 1 + descs tr
  | _ :: tr => descs tr
  end.

Fixpoint completed (tr : list call) : Z :=
  match tr with
  | [] => 0
  | RingRelease TxComp n :: tr => n + completed tr
  | _ :: tr => completed tr
  end.

(** Every wake-up is early by the early offset; every descriptor names the
    next frame of the umem in turn, the packet's length and its launch time. *)
Fixpoint xschedule `{!build} (o : user_opt) (base : Z) (tr : list call) : Prop :=
  match tr with
  | [] => True
  | c :: older =>
      match c with
      | ClockNanosleep clk ts =>
          clk = CLOCK_REALTIME ∧
          ts = timespec_of (u64 (base + sleeps older * interval_ns o - early_offset_ns o))
      | TxDesc _ addr len txtime =>
          addr = 4096 * (descs older mod 4096) ∧ len = packet_size o ∧
          txtime = (if WITH_XDPTBS
                    then Some (if enable_txtime o =? 0 then 0
                               else u64 (base + (sleeps older - 1) * interval_ns o))
                    else None)
      | _ => True
      end ∧ xschedule o base older
  end.

(** ** Lemmas: umem *)

Lemma lookup_store m off bs a :
  store m off bs !! a
  = if decide (off <= a < off + Z.of_nat (length bs))
    then bs !! Z.to_nat (a - off) else m !! a.
Proof.
  revert off. induction bs as [|b bs IH]; intros off; cbn [store length].
  - by rewrite decide_False by lia.
  - destruct (decide (a = off)) as [->|Hne].
    + rewrite lookup_insert_eq. rewrite decide_True by lia. by rewrite Z.sub_diag.
    + rewrite lookup_insert_ne by done. rewrite IH. case_decide.
      * rewrite decide_True by lia.
        by replace (Z.to_nat (a - off)) with (S (Z.to_nat (a - (off + 1)))) by lia.
      * by rewrite decide_False by lia.
Qed.

Section memory.
Context {OS : txrx_os}.

Lemma length_load m off n : length (load m off n) = n.
Proof. unfold load. by rewrite length_fmap, length_seq. Qed.

Lemma load_ext m m' off n :
  (∀ a, off <= a < off + Z.of_nat n → m !! a = m' !! a) → load m off n = load m' off n.
Proof.
  intros H. unfold load. apply list_fmap_ext. intros i x Hx.
  apply lookup_seq in Hx as [-> Hi]. unfold byte_at. rewrite H; [done|lia].
Qed.

Lemma load_store_same m off bs : load (store m off bs) off (length bs) = bs.
Proof.
  apply list_eq. intros i. unfold load. rewrite list_lookup_fmap.
  destruct (decide (i < length bs)%nat) as [Hi|Hi].
  - rewrite lookup_seq_lt by done. simpl. unfold byte_at.
    rewrite lookup_store, decide_True by lia.
    replace (Z.to_nat _) with i by lia.
    by destruct (lookup_lt_is_Some_2 bs i Hi) as [x ->].
  - rewrite lookup_seq_ge by lia. simpl. symmetry. apply lookup_ge_None. lia.
Qed.

Lemma load_store_disjoint m off bs off' n :
  off' + Z.of_nat n <= off ∨ off + Z.of_nat (length bs) <= off' →
  load (store m off bs) off' n = load m off' n.
Proof.
  intros H. apply load_ext. intros a Ha. by rewrite lookup_store, decide_False by lia.
Qed.

Lemma load_app m off n1 n2 :
  load m off (n1 + n2) = load m off n1 ++ load m (off + Z.of_nat n1) n2.
Proof.
  unfold load. rewrite seq_app, fmap_app. f_equal. simpl.
  rewrite <- (Nat.add_0_r n1) at 1. rewrite <- fmap_add_seq, <- list_fmap_compose.
  apply list_fmap_ext. intros i x _. simpl. f_equal. lia.
Qed.

Lemma wp_umem_write off bs Q s :
  0 <= off → off + Z.of_nat (length bs) <= umem_size (glob s) →
  Q (Done tt) (mkSt ((glob s) {{ umem := store (umem (glob s)) off bs }}) (trace s)) →
  wp (umem_write off bs) Q s.
Proof.
  intros H1 H2 HQ. unfold umem_write. apply wp_bind. unfold get, wp at 1. simpl.
  rewrite (proj2 (Z.leb_le _ _) H1), (proj2 (Z.leb_le _ _) H2). exact HQ.
Qed.

Lemma wp_umem_read off n Q s :
  0 <= off → off + Z.of_nat n <= umem_size (glob s) →
  Q (Done (load (umem (glob s)) off n)) s → wp (umem_read off n) Q s.
Proof.
  intros H1 H2 HQ. unfold umem_read. apply wp_bind. unfold get, wp at 1. simpl.
  rewrite (proj2 (Z.leb_le _ _) H1), (proj2 (Z.leb_le _ _) H2). exact HQ.
Qed.
End memory.

(** ** Lemmas: the transmit invariant *)

Definition UMEM_SIZE : Z := 4096 * 4096.

(** A quiet call changes none of the counters of the specification. *)
Definition xquiet (c : call) : bool :=
  match c with
  | ClockNanosleep _ _ | TxDesc _ _ _ _ | RingRelease TxComp _ => false
  | _ => true
  end.

Section transmit.
Context {OS : txrx_os} {B : build}.
Context (o : user_opt) (mac : list Z) (base : Z) (P : Prop).
Implicit Types s : st txrx_glob call.

(** The umem after prefilling: allocated, and every frame starts with the
    header of the packets. *)
Record umem_ok (g : txrx_glob) : Prop := {
  uo_size : umem_size g = UMEM_SIZE;
  uo_hdr : ∀ k, 0 <= k < 4096 →
           load (umem g) (k * 4096) off_payload = tsn_header o mac
}.

(** The ring accounting of the socket against the calls made. *)
Record ledger (x : xsk_info) (tr : list call) : Prop := {
  le_cur : cur_tx x = descs tr mod 4096;
  le_out : outstanding_tx x = u32 (descs tr - completed tr);
  le_done : tx_npkts x = u64 (completed tr)
}.

Record xinv (s : st txrx_glob call) : Prop := {
  xi_umem : umem_ok (glob s);
  xi_xsk : ∃ x, glob_xskinfo (glob s) = Some x ∧ ledger x (trace s);
  xi_sched : xschedule o base (trace s);
  xi_run : P → halt_tx_sig (glob s) = 0
}.

Lemma descs_nonneg tr : 0 <= descs tr.
Proof. induction tr as [|[] tr IH]; simpl; lia. Qed.

Lemma counters_quiet c tr :
  xquiet c = true →
  sleeps (c :: tr) = sleeps tr ∧ descs (c :: tr) = descs tr ∧
  completed (c :: tr) = completed tr ∧
  (xschedule o base (c :: tr) ↔ xschedule o base tr).
Proof.
  destruct c; try match goal with r : ring |- _ => destruct r end;
    simpl; intros; try discriminate; tauto.
Qed.

Lemma xinv_quiet c s :
  xquiet c = true → xinv s → xinv (mkSt (glob s) (c :: trace s)).
Proof.
  intros Hc [H1 (x & Hx & [L1 L2 L3]) H3 H4].
  destruct (counters_quiet c (trace s) Hc) as (E1 & E2 & E3 & E4).
  split; cbn [glob trace]; [done| |by apply E4|done].
  exists x. split; [done|]. by split; rewrite ?E2, ?E3.
Qed.

(** What a component call leaves behind: the invariant and the number of
    wake-ups. *)
Definition xpost {A} (s : st txrx_glob call) (out : outcome A) (s' : st txrx_glob call) :=
  (∃ a, out = Done a) ∧ xinv s' ∧ sleeps (trace s') = sleeps (trace s) ∧
  descs (trace s') = descs (trace s) ∧ umem (glob s') = umem (glob s).

Lemma update_txstats_ok s : xinv s → wp update_txstats (xpost s) s.
Proof.
  intros HI. destruct (xi_xsk s HI) as (x & Hx & HL). unfold update_txstats, get_xsk.
  apply wp_bind, wp_bind. unfold get, wp at 1. simpl. rewrite Hx. apply wp_ret.
  destruct (outstanding_tx x =? 0); [apply wp_ret; split; eauto|].
  apply wp_bind, wp_ask. destruct (os_ring _) as [rcvd idx]. cbn [trace glob].
  set (s1 := mkSt (glob s) (RingPeek TxComp 1 :: trace s)).
  assert (xinv s1) as HI1 by by apply xinv_quiet.
  destruct (rcvd >? 0); [|apply wp_ret; split; [by eauto|auto]].
  apply wp_bind, wp_ask. unfold set_xsk, modify, wp. simpl.
  split; [by eauto|]. split; [|by destruct (glob s)].
  destruct HI1 as [H1 _ H3 H4]. split; simpl in *.
  - by destruct (glob s), H1.
  - rewrite Hx. simpl. eexists. split; [done|]. destruct x, HL as [L1 L2 L3]. simpl in *.
    split; simpl; [done| |].
    + rewrite L2. unfold wrapU. rewrite Zminus_mod_idemp_l. f_equal. lia.
    + rewrite L3, u64_add_l. f_equal. lia.
  - done.
  - by destruct (glob s).
Qed.
(** A send either goes on or, when the kernel refuses the kick, ends the
    process. *)
Definition xsend_post (s : st txrx_glob call) (out : outcome unit) (s' : st txrx_glob call) :=
  match out with
  | Done _ => xinv s' ∧ sleeps (trace s') = sleeps (trace s) ∧
              descs (trace s') = descs (trace s) + 1 ∧ umem (glob s') = umem (glob s)
  | Exited c => c = EXIT_SUCCESS ∧ xschedule o base (trace s') ∧ (P → False)
  | _ => False
  end.

Definition kick_succeeds : Prop := ∀ tr, 0 <= (os_kick tr).1.

(** The socket is always ready to send and the transmit ring never full. *)
Definition tx_room : Prop :=
  ∀ tr, 0 < (os_poll (PollOut 1000 :: tr)).1 ∧ (os_poll (PollOut 1000 :: tr)).2 = true ∧
        (os_ring (RingReserve TxRing 1 :: tr)).1 = 1.

Hypothesis Hring : frames_per_ring (x_opt o) = 4096.
Hypothesis Hkick : P → kick_succeeds.

Lemma frame_addr cur : 0 <= cur < 4096 →
  u64 (Z.shiftl cur XSK_UMEM__DEFAULT_FRAME_SHIFT) = cur * 4096.
Proof.
  intros. unfold XSK_UMEM__DEFAULT_FRAME_SHIFT. rewrite Z.shiftl_mul_pow2 by lia.
  apply wrapU_small. lia.
Qed.

Lemma submit_tx_ok idx t s :
  xinv s → t = u64 (base + (sleeps (trace s) - 1) * interval_ns o) ∨ enable_txtime o = 0 →
  wp (submit_tx o (descs (trace s) mod 4096) idx (packet_size o) t) (xsend_post s) s.
Proof.
  intros HI Ht. unfold submit_tx. cbv zeta.
  rewrite frame_addr by (apply Z.mod_pos_bound; lia).
  set (d := TxDesc _ _ _ _).
  assert (xschedule o base (d :: trace s)) as Hs.
  { split; [|apply HI]. split; [lia|]. split; [done|]. destruct WITH_XDPTBS; [|done].
    f_equal. destruct (enable_txtime o =? 0) eqn:E; [done|].
    bool_to_prop. by destruct Ht as [->|]. }
  do 2 apply wp_bind, wp_ask. apply wp_bind. unfold set_xsk, modify, wp at 1. cbn [fst snd].
  set (s1 := mkSt _ _).
  assert (xinv s1) as HI1.
  { destruct HI as [H1 (x & Hx & [L1 L2 L3]) H3 H4]. split; simpl.
    - by destruct (glob s), H1.
    - rewrite Hx. eexists. split; [done|]. pose proof (descs_nonneg (trace s)).
      split; destruct x; simpl in *.
      + rewrite L1, Hring. rewrite (wrapU_small 32) by
          (pose proof (Z.mod_pos_bound (descs (trace s)) 4096); lia).
        rewrite Zplus_mod_idemp_l. f_equal. lia.
      + rewrite L2. unfold wrapU. rewrite Zplus_mod_idemp_l. f_equal. lia.
      + done.
    - repeat split; apply Hs.
    - by destruct (glob s). }
  assert (sleeps (trace s1) = sleeps (trace s) ∧ umem (glob s1) = umem (glob s) ∧
          descs (trace s1) = descs (trace s) + 1) as (Es1 & Em1 & Ed1)
    by (split; [done|]; split; [by destruct (glob s)|simpl; lia]).
  apply wp_bind, wp_ask. destruct (os_kick _) as [ret err] eqn:Ek. cbn [trace glob].
  set (s2 := mkSt (glob s1) (SendtoKick :: trace s1)).
  assert (xinv s2) as HI2 by by apply xinv_quiet.
  destruct (ret >=? 0) eqn:Er; cbn [orb].
  { eapply wp_mono; [by apply update_txstats_ok|].
    intros out s' ([a ->] & H1 & H2 & H3 & H4). simpl. split; [done|].
    rewrite H2, H3, H4, <- Em1, <- Ed1. done. }
  destruct (_ || _).
  { eapply wp_mono; [by apply update_txstats_ok|].
    intros out s' ([a ->] & H1 & H2 & H3 & H4). simpl. split; [done|].
    rewrite H2, H3, H4, <- Em1, <- Ed1. done. }
  destruct HI2 as [_ (x & Hx & _) H3 _].
  unfold __afxdp_exit_with_error, xdpsock_cleanup, get_xsk.
  do 3 apply wp_bind. unfold get, wp at 1. cbn [fst snd]. rewrite Hx.
  apply wp_ret. do 2 apply wp_bind, wp_ask. simpl. split; [done|]. split; [done|].
  intros p. pose proof (Hkick p (SendtoKick :: trace s1)) as Hk. rewrite Ek in Hk.
  simpl in Hk. bool_to_prop. lia.
Qed.
Hypothesis Hsize : 64 <= packet_size o <= 1500.

(** The frame of the next descriptor holds the packet: the header written by
    the prefill and the payload. *)
Definition xdp_frame (payload : list Z) : list Z :=
  tsn_header o mac ++ take (Z.to_nat (packet_size o) - 18) payload.

Definition frame_in (m : gmap Z Z) (k : Z) : list Z :=
  load m (k * 4096) (Z.to_nat (packet_size o)).

(** A transmission, from memory [m] and [d] descriptors on: no frame but the
    next in turn is touched, and that one is handed over with the packet in it,
    if any is; one is when the transmit ring has room. *)
Definition sent_frame (m : gmap Z Z) (d : Z) (payload : list Z) (m' : gmap Z Z) (d' : Z) : Prop :=
  (∀ k, 0 <= k < 4096 → k ≠ d mod 4096 → frame_in m' k = frame_in m k) ∧
  (d' = d ∧ ¬ tx_room ∨ d' = d + 1 ∧ frame_in m' (d mod 4096) = xdp_frame payload).

Definition send_pkt_post (s : st txrx_glob call) (payload : list Z)
  (out : outcome unit) (s' : st txrx_glob call) :=
  match out with
  | Done _ => xinv s' ∧ sleeps (trace s') = sleeps (trace s) ∧
              sent_frame (umem (glob s)) (descs (trace s)) payload
                (umem (glob s')) (descs (trace s'))
  | Exited c => c = EXIT_SUCCESS ∧ xschedule o base (trace s') ∧ (P → False)
  | _ => False
  end.

(** Filling the payload part of one frame keeps every header. *)
Lemma fill_frame g cur payload :
  umem_ok g → 0 <= cur < 4096 → (Z.to_nat (packet_size o) <= length payload)%nat →
  let bs := take (Z.to_nat (packet_size o - 18)) payload in
  let g' := g {{ umem := store (umem g) (cur * 4096 + 18) bs }} in
  length bs = (Z.to_nat (packet_size o) - 18)%nat ∧
  umem_ok g' ∧ frame_in (umem g') cur = xdp_frame payload ∧
  ∀ k, 0 <= k < 4096 → k ≠ cur → frame_in (umem g') k = frame_in (umem g) k.
Proof.
  intros [Hs Hh] Hc Hl bs g'.
  assert (length bs = (Z.to_nat (packet_size o) - 18)%nat) as Hlen
    by (unfold bs; rewrite length_take; lia).
  split; [done|]. split; [split|split].
  - by destruct g.
  - intros k Hk. simpl. rewrite load_store_disjoint; [by apply Hh|].
    rewrite Hlen. unfold off_payload. lia.
  - unfold frame_in, xdp_frame. simpl.
    replace (Z.to_nat (packet_size o)) with (18 + length bs)%nat at 1 by lia.
    rewrite load_app, load_store_disjoint by lia.
    change (Z.of_nat 18) with 18. rewrite load_store_same. unfold bs.
    replace (Z.to_nat (packet_size o - 18)) with (Z.to_nat (packet_size o) - 18)%nat by lia.
    f_equal. by apply Hh.
  - intros k Hk Hne. unfold frame_in. simpl. apply load_store_disjoint. rewrite Hlen. lia.
Qed.

Lemma afxdp_send_pkt_ok payload t s :
  xinv s → (Z.to_nat (packet_size o) <= length payload)%nat →
  t = u64 (base + (sleeps (trace s) - 1) * interval_ns o) ∨ enable_txtime o = 0 →
  wp (afxdp_send_pkt o ETH_VLAN_HDR_SZ (packet_size o) payload t)
     (send_pkt_post s payload) s.
Proof.
  intros HI Hl Ht. destruct (xi_xsk s HI) as (x & Hx & HL).
  pose proof (Z.mod_pos_bound (descs (trace s)) 4096 ltac:(lia)) as Hcur.
  unfold afxdp_send_pkt, get_xsk. do 2 apply wp_bind. unfold get, wp at 1.
  cbn [fst snd]. rewrite Hx. apply wp_ret. cbv zeta. rewrite (le_cur _ _ HL).
  apply wp_bind.
  eapply (wp_mono _ (λ out s', ∃ b, out = Done b ∧ xinv s' ∧
    sleeps (trace s') = sleeps (trace s) ∧ descs (trace s') = descs (trace s) ∧
    umem (glob s') = umem (glob s) ∧ (tx_room → b = true))).
  { destruct (enable_poll o =? 0); [apply wp_ret; by exists true|].
    apply wp_bind, wp_ask. destruct (os_poll _) as [ret pollout] eqn:Ep. apply wp_ret.
    eexists. split; [done|]. split; [by apply xinv_quiet|]. repeat split.
    intros Hroom. destruct (Hroom (trace s)) as (R1 & R2 & _). rewrite Ep in R1, R2.
    simpl in R1, R2. rewrite R2, Z.gtb_ltb, (proj2 (Z.ltb_lt _ _) R1). done. }
  intros out s1 (ready & -> & HI1 & E1 & E2 & E3 & Er).
  destruct (negb ready) eqn:Erd.
  { apply wp_ret. split; [done|]. split; [done|]. rewrite E2, E3. split; [done|]. left.
    split; [done|]. intros Hroom. by rewrite (Er Hroom) in Erd. }
  rewrite frame_addr by done. rewrite (wrapU_small 32) by (unfold ETH_VLAN_HDR_SZ; lia).
  change (Z.of_nat ETH_VLAN_HDR_SZ) with 18.
  destruct (fill_frame (glob s1) (descs (trace s) mod 4096) payload) as (F1 & F2 & F3 & F4);
    [apply HI1|done|done|].
  apply wp_bind, wp_umem_write; [lia| |].
  { rewrite F1, (uo_size _ (xi_umem _ HI1)). unfold UMEM_SIZE. lia. }
  set (s2 := mkSt _ _).
  assert (xinv s2) as HI2.
  { destruct HI1 as [_ (y & Hy & HLy) H3 H4]. split; [done| |done|].
    - exists y. by destruct (glob s1).
    - simpl. by destruct (glob s1). }
  apply wp_bind, wp_ask. destruct (os_ring _) as [n idx] eqn:En.
  set (s3 := mkSt (glob s2) (RingReserve TxRing 1 :: trace s2)).
  assert (xinv s3) as HI3 by by apply xinv_quiet.
  assert (∀ k, 0 <= k < 4096 → k ≠ descs (trace s) mod 4096 →
    frame_in (umem (glob s3)) k = frame_in (umem (glob s)) k) as F5
    by (intros k Hk Hne; rewrite <- E3; by apply F4).
  destruct (negb (n =? 1)) eqn:En1.
  { apply wp_ret. split; [done|]. split; [done|]. split; [exact F5|]. left.
    split; [exact E2|]. intros Hroom. destruct (Hroom (trace s2)) as (_ & _ & R).
    rewrite En in R. simpl in R. by rewrite R in En1. }
  rewrite <- E2. change (descs (trace s1)) with (descs (trace s3)).
  eapply wp_mono; [apply submit_tx_ok; [done|]|].
  - change (sleeps (trace s3)) with (sleeps (trace s1)). by rewrite E1.
  - intros [[]| | |] s'; simpl; try done. intros (H1 & H2 & H3 & H4).
    split; [done|]. split; [by rewrite H2, <- E1|]. rewrite H3, H4, E2.
    split; [exact F5|]. right. split; [done|exact F3].
Qed.
End transmit.

(** ** Lemmas: prefill and the transmit loop *)

Section prefill.
Context {OS : txrx_os}.
Implicit Types s : st txrx_glob call.

(** Prefilling keeps everything but the umem and writes every header. *)
Lemma prefill_ok o mac s :
  opt_wf o → mac_wf mac → umem_size (glob s) = UMEM_SIZE →
  wp (prefill_tx_umem_rings (setup_tsn_vlan_packet o mac) 4096 4096)
     (λ out s', out = Done tt ∧ trace s' = trace s ∧
        ∃ m, glob s' = (glob s) {{ umem := m }} ∧ umem_ok o mac (glob s')) s.
Proof.
  intros Ho Hm Hs. unfold prefill_tx_umem_rings. change (Z.to_nat 4096) with 4096%nat.
  set (hdr := tsn_header o mac). assert (length hdr = 18%nat) as Hhl by by apply tsn_header_length.
  set (bs := take _ _). assert (∃ r, bs = hdr ++ r ∧ length r = 7%nat) as (r & Hbs & Hr).
  { unfold bs. rewrite setup_layout by done. fold hdr. exists (replicate 7 0xab).
    pose proof (wf_size o Ho). split; [|done].
    rewrite take_app_ge by (rewrite Hhl; unfold sizeof_tsn_packet; lia).
    rewrite take_replicate, Hhl. do 2 f_equal. unfold sizeof_tsn_packet. lia. }
  apply (wp_for_each (λ i _ s', trace s' = trace s ∧ ∃ m, glob s' = (glob s) {{ umem := m }} ∧
    ∀ k, 0 <= k < Z.of_nat i → load m (k * 4096) off_payload = hdr) _ _ _ 0).
  - intros j a x t Hj (Et & m & Eg & Hh). apply lookup_seq in Hj as [-> Hj]. simpl in *.
    apply wp_umem_write; [lia| |].
    + assert (umem_size (glob t) = UMEM_SIZE) as -> by (rewrite Eg; exact Hs).
      rewrite Hbs, length_app, Hhl, Hr. unfold UMEM_SIZE. lia.
    + split; [done|]. exists (store m (Z.of_nat j * 4096) bs).
      rewrite Eg. split; [by destruct (glob s)|].
      intros k Hk. destruct (decide (k = Z.of_nat j)) as [->|Hne].
      * pose proof (load_store_same m (Z.of_nat j * 4096) bs) as E.
        rewrite Hbs in E at 2. rewrite length_app, Hhl, Hr, load_app, Hbs in E.
        apply app_inj_1 in E as [E _]; [by rewrite Hbs|].
        by rewrite length_load, Hhl.
      * rewrite load_store_disjoint; [apply Hh; lia|].
        rewrite Hbs, length_app, Hhl, Hr. unfold off_payload. lia.
  - intros [] t (Et & m & Eg & Hh). rewrite length_seq in Hh.
    split; [done|]. split; [done|]. exists m. split; [done|]. rewrite Eg. split; simpl.
    + by destruct (glob s).
    + exact Hh.
  - split; [done|]. exists (umem (glob s)). split; [by destruct (glob s)|]. lia.
Qed.
End prefill.

Lemma sleeps_nonneg tr : 0 <= sleeps tr.
Proof. induction tr as [|[] tr IH]; simpl; lia. Qed.

(** A socket as create_xsk_info() leaves it. *)
Definition fresh (x : xsk_info) : Prop :=
  cur_tx x = 0 ∧ outstanding_tx x = 0 ∧ tx_npkts x = 0.

Definition untouched (tr : list call) : Prop :=
  sleeps tr = 0 ∧ descs tr = 0 ∧ completed tr = 0.

Lemma xschedule_untouched `{!build} o base tr :
  sleeps tr = 0 → descs tr = 0 → xschedule o base tr.
Proof.
  induction tr as [|c tr IH]; [done|].
  pose proof (sleeps_nonneg tr). pose proof (descs_nonneg tr).
  destruct c; simpl; intros; try lia; auto.
Qed.

Section rounds.
Context {OS : txrx_os} {B : build}.
Context (o : user_opt) (mac : list Z) (base : Z) (P : Prop).
Hypothesis Hwf : opt_wf o.
Hypothesis Hkick : P → kick_succeeds.
Hypothesis Hsig : P → ∀ tr, os_signals tr = [].
Implicit Types s : st txrx_glob call.

Record xr_inv (x : xtx_state) (s : st txrx_glob call) : Prop := {
  xr_inv_s : xinv o mac base P s;
  xr_len : length (xtx_buff x) = Z.to_nat (packet_size o);
  xr_i : xtx_i x = sleeps (trace s);
  xr_seq : xtx_seq x = sleeps (trace s);
  xr_time : xtx_time x = u64 (base + sleeps (trace s) * interval_ns o);
  xr_bound : sleeps (trace s) <= frames_to_send o + DEFAULT_NUM_FLUSH_PACKETS
}.

(** The buffer of a packet sent at [now]. *)
Definition xdp_stamp (x : xtx_state) (now : Z) : list Z :=
  set_tx_timestampA (set_seq (set_tx_queue (xtx_buff x) 0 (queue (x_opt o))) 0 (xtx_seq x)) 0 now.

Definition xround_post (x : xtx_state) s (out : outcome (xtx_state + unit)) s' : Prop :=
  match out with
  | Done (inl x') => xr_inv x' s' ∧ xtx_i x' = xtx_i x + 1 ∧
      ∃ tr, sent_frame o mac (umem (glob s)) (descs (trace s))
              (xdp_stamp x (u64 (ns_of (os_clock tr)))) (umem (glob s')) (descs (trace s'))
  | Done (inr _) => xinv o mac base P s' ∧
      umem (glob s') = umem (glob s) ∧ descs (trace s') = descs (trace s) ∧
      sleeps (trace s') = sleeps (trace s) ∧
      sleeps (trace s') <= frames_to_send o + DEFAULT_NUM_FLUSH_PACKETS ∧
      (P → sleeps (trace s') = frames_to_send o + DEFAULT_NUM_FLUSH_PACKETS)
  | Exited c => c = EXIT_SUCCESS ∧ xschedule o base (trace s') ∧ (P → False)
  | _ => False
  end.

Lemma stamp_buff_length buff q n t :
  (24 <= length buff)%nat →
  length (set_tx_timestampA (set_seq (set_tx_queue buff 0 q) 0 n) 0 t) = length buff.
Proof.
  intros. unfold set_tx_timestampA, set_seq, set_tx_queue.
  unfold off_tx_timestampA, off_seq, off_tx_queue.
  rewrite length_write_at; rewrite length_write_at; rewrite ?length_write_at;
    rewrite ?length_le_encode; lia.
Qed.

Lemma stamped_fields buff q n t :
  (24 <= length buff)%nat →
  let b := set_tx_timestampA (set_seq (set_tx_queue buff 0 q) 0 n) 0 t in
  pl_tx_queue b 0 = u32 q ∧ pl_seq b 0 = u32 n ∧ pl_tx_timestampA b 0 = u64 t.
Proof.
  intros Hl. set (b1 := set_tx_queue buff 0 q). set (b2 := set_seq b1 0 n).
  assert (length b1 = length buff) as L1
    by (apply length_write_at; rewrite length_le_encode; unfold off_tx_queue; lia).
  assert (length b2 = length buff) as L2
    by (rewrite <- L1; apply length_write_at; rewrite length_le_encode; unfold off_seq; lia).
  cbv zeta. split; [|split].
  - unfold pl_tx_queue, set_tx_timestampA.
    rewrite read_write_before by (unfold off_tx_queue, off_tx_timestampA; lia).
    unfold b2, set_seq. rewrite read_write_before by (unfold off_tx_queue, off_seq; lia).
    apply pl_tx_queue_set. lia.
  - unfold pl_seq, set_tx_timestampA.
    rewrite read_write_before by (unfold off_seq, off_tx_timestampA; lia).
    apply pl_seq_set. lia.
  - apply pl_time_set. lia.
Qed.

(** The state of a round after the wake-up. *)
Lemma xr_wake x s :
  xr_inv x s →
  let s1 := mkSt (glob s) (ClockGettime CLOCK_REALTIME
    :: ClockNanosleep CLOCK_REALTIME
         (timespec_of (u64 (xtx_time x - early_offset_ns o))) :: trace s) in
  xinv o mac base P s1 ∧ sleeps (trace s1) = sleeps (trace s) + 1 ∧
  xtx_time x = u64 (base + (sleeps (trace s1) - 1) * interval_ns o).
Proof.
  intros [[H1 (y & Hy & [L1 L2 L3]) H3 H4] Hl Hi Hq Ht Hb] s1.
  assert (sleeps (trace s1) = sleeps (trace s) + 1) as E by (simpl; lia).
  split; [|split; [done|rewrite E, Z.add_simpl_r; exact Ht]].
  split; [done| | |done].
  - exists y. split; [done|]. by split.
  - simpl. split; [done|]. split; [|done]. split; [done|].
    rewrite Ht, u64_sub_l. done.
Qed.
Lemma xinv_halted h s :
  xinv o mac base P s → (P → h = 0) →
  xinv o mac base P (mkSt ((glob s) {{ halt_tx_sig := h }}) (Observe :: trace s)).
Proof.
  intros [[U1 U2] (y & Hy & [L1 L2 L3]) H3 H4] Hh. split; simpl.
  - split; by destruct (glob s).
  - exists y. split; [by destruct (glob s)|by split].
  - done.
  - by destruct (glob s).
Qed.

(** The end of a round: the result line and the flush. *)
Lemma round_report (b : bool) l x' s (Q : outcome (xtx_state + unit) → _ → Prop) :
  xinv o mac base P s →
  (∀ s', xinv o mac base P s' → sleeps (trace s') = sleeps (trace s) →
         descs (trace s') = descs (trace s) → umem (glob s') = umem (glob s) →
         Q (Done (inl x')) s') →
  wp (when b (tell (Stdout l));; tell Fflush;; mret (inl x')) Q s.
Proof.
  intros HI HQ. apply wp_bind. unfold when. destruct b.
  - apply wp_ask, wp_bind, wp_ask, wp_ret. apply HQ; [|done..].
    by apply (xinv_quiet o mac base P Fflush (mkSt (glob s) _)), xinv_quiet.
  - apply wp_ret, wp_bind, wp_ask, wp_ret. apply HQ; [|done..]. by apply xinv_quiet.
Qed.

Lemma xdp_round_ok x s :
  xr_inv x s → wp (xdp_round o x) (xround_post x s) s.
Proof.
  intros HI. pose proof (wf_frames o Hwf) as Hfr. pose proof (wf_size o Hwf) as Hsz.
  unfold xdp_round. apply wp_bind, wp_halted. cbv zeta. set (h := List.last _ _).
  assert (P → h = 0) as Hh.
  { intros p. unfold h. rewrite (Hsig p). by apply (xi_run _ _ _ _ _ (xr_inv_s _ _ HI)). }
  set (s0 := mkSt _ _). assert (xr_inv x s0) as HI0.
  { destruct HI as [H1 H2 H3 H4 H5 H6]. split; try done. by apply xinv_halted. }
  rewrite (wrapU_small 32) by (unfold DEFAULT_NUM_FLUSH_PACKETS; lia).
  destruct (negb (h =? 0) || _) eqn:Estop.
  { apply wp_ret. split; [by apply HI0|]. split; [by destruct (glob s)|].
    split; [done|]. split; [done|]. split; [by apply HI0|]. intros p.
    rewrite (Hh p) in Estop. simpl in Estop. bool_to_prop.
    pose proof (xr_bound _ _ HI0). rewrite (xr_i _ _ HI0) in *. lia. }
  bool_to_prop. destruct (xr_wake x s0 HI0) as (HI1 & E1 & Et).
  apply wp_bind, wp_ask. unfold get_time_nanosec. do 2 apply wp_bind. apply wp_ask, wp_ret.
  cbn [glob trace] in HI1, E1, Et |- *. set (s1 := mkSt _ _) in HI1, E1, Et |- *.
  set (buff := set_tx_timestampA _ _ _).
  assert (length buff = Z.to_nat (packet_size o)) as Hlen.
  { unfold buff. rewrite stamp_buff_length; rewrite (xr_len _ _ HI0); lia. }
  apply wp_bind.
  eapply (wp_mono _ (send_pkt_post o mac base P s1 buff)).
  { assert (Z.to_nat (packet_size o) <= length buff)%nat as Hl by (rewrite Hlen; lia).
    pose proof (wf_ring o Hwf) as Hring.
    destruct (enable_txtime o =? 0) eqn:Etx; cbn [negb]; bool_to_prop;
      (apply afxdp_send_pkt_ok; [exact Hring|exact Hkick|exact Hsz|exact HI1|exact Hl|]).
    - right. exact Etx.
    - left. exact Et. }
  intros [[]|c| |] s2; cbn [abrupt]; try done. intros (HI2 & E2 & Hsent).
  apply wp_bind. unfold get at 1, wp at 1. cbn [fst snd].
  apply round_report; [done|]. intros s3 HI3 E3 Ed3 Em3.
  change (sleeps (trace s1) = sleeps (trace s0) + 1) in E1.
  rewrite E2, E1 in E3. pose proof (sleeps_nonneg (trace s0)).
  destruct HI0 as [_ _ Hi Hq Ht Hb]. split; [split; simpl|split; simpl].
  - done.
  - done.
  - rewrite E3, Hi. rewrite (wrapU_small 64) by (unfold DEFAULT_NUM_FLUSH_PACKETS in *; lia). lia.
  - rewrite E3, Hq. rewrite (wrapU_small 64) by (unfold DEFAULT_NUM_FLUSH_PACKETS in *; lia). lia.
  - rewrite Ht, E3, u64_add_l. f_equal. lia.
  - rewrite E3, <- Hi. lia.
  - rewrite Hi. rewrite (wrapU_small 64) by (unfold DEFAULT_NUM_FLUSH_PACKETS in *; lia). lia.
  - exists (ClockGettime CLOCK_REALTIME
              :: ClockNanosleep CLOCK_REALTIME
                   (timespec_of (u64 (xtx_time x - early_offset_ns o))) :: trace s0).
    rewrite Ed3, Em3. replace (umem (glob s)) with (umem (glob s1)) by by destruct (glob s).
    exact Hsent.
Qed.

(** The state in which the loop is entered. *)
Lemma xtx_start_ok x s :
  mac = dst_mac_addr (glob s) → base = start_of o (trace s) → mac_wf mac →
  umem_size (glob s) = UMEM_SIZE → glob_xskinfo (glob s) = Some x → fresh x →
  untouched (trace s) → (P → halt_tx_sig (glob s) = 0) →
  wp (xtx_start o)
     (λ out s', ∃ y, out = Done y ∧ xr_inv y s' ∧ xtx_i y = 0 ∧
                     sleeps (trace s') = 0 ∧ descs (trace s') = 0) s.
Proof.
  intros Em Eb Hm Hsz Hx (F1 & F2 & F3) (U1 & U2 & U3) Hh. pose proof (wf_frames o Hwf).
  unfold xtx_start, get_xsk. apply wp_bind. unfold get at 1, wp at 1. cbn [fst snd].
  do 2 apply wp_bind. unfold get at 1, wp at 1. cbn [fst snd]. rewrite Hx. apply wp_ret.
  rewrite (wf_ring o Hwf), (wf_fsize o Hwf), <- Em. apply wp_bind.
  eapply wp_mono; [by apply prefill_ok|]. intros out s1 (-> & Et & m & Eg & Hu).
  unfold get_time_sec. do 2 apply wp_bind. apply wp_ask, wp_ret. rewrite u64_add_add.
  set (base' := _ + _ + _). assert (base' = base) as Hb.
  { unfold base'. rewrite Eb. unfold start_of. rewrite Et. lia. }
  rewrite Hb. clear base' Hb. set (s2 := mkSt (glob s1) _). apply wp_ret. eexists.
  split; [done|]. assert (sleeps (trace s2) = 0) as Es2 by (simpl; by rewrite Et).
  split; [|split; [done|split; [done|simpl; by rewrite Et]]].
  split; rewrite ?Es2; cbn [xtx_buff xtx_seq xtx_i xtx_time]; try done.
  - split; simpl; [done| |split; [done|]; rewrite Et; by apply xschedule_untouched|].
    + exists x. rewrite Eg. split; [done|]. rewrite Et.
      by split; simpl; rewrite ?U2, ?U3, ?F1, ?F2, ?F3.
    + by rewrite Eg.
  - apply length_uninit.
  - by rewrite Z.mul_0_l, Z.add_0_r.
  - unfold DEFAULT_NUM_FLUSH_PACKETS. lia.
Qed.
End rounds.

(** ** Properties: transmission *)


(** ** Properties: set-up *)

(** The addresses given to the fill ring, newest first. *)
Definition fills (tr : list call) : list Z :=
  omap (λ c, match c with FillAddr _ a => Some a | _ => None end) tr.

(** The start of every frame of the umem, in order. *)
Definition all_frames : list Z := (λ i, Z.of_nat i * 4096) <$> List.seq 0 4096.

Section setup.
Context {OS : txrx_os}.
Implicit Types s : st txrx_glob call.

(** The C library and libbpf do what the set-up asks for. *)
Record libbpf_ok : Prop := {
  lo_calloc : ∀ tr, os_calloc tr = true;
  lo_umem : ∀ tr, os_umem_create tr = 0;
  lo_xsk : ∀ tr, os_xsk_create tr = 0;
  lo_query : ∀ tr, (os_query_id tr).1 = 0;
  lo_fill : ∀ n tr, (os_ring (RingReserve RxFill n :: tr)).1 = n
}.

Lemma wp_exit_null {A} err s (Q : outcome A → st txrx_glob call → Prop) :
  glob_xskinfo (glob s) = None → Q Undefined s → wp (__afxdp_exit_with_error err) Q s.
Proof.
  intros Hn HQ. unfold wp, __afxdp_exit_with_error, xdpsock_cleanup, get_xsk, get,
    mbind, M_bind. simpl. by rewrite Hn.
Qed.

(** What the set-up does to the trace. *)
Definition xext (fs : list Z) (s s' : st txrx_glob call) : Prop :=
  fills (trace s') = fs ++ fills (trace s) ∧
  (untouched (trace s) → untouched (trace s')).

Lemma fill_ring_ok i0 n idx s (Q : outcome Z → st txrx_glob call → Prop) :
  (i0 + n <= 4096)%nat →
  (∀ v s', glob s' = glob s →
     xext (reverse ((λ i, Z.of_nat i * 4096) <$> List.seq i0 n)) s s' → Q (Done v) s') →
  wp (for_each (List.seq i0 n)
    (λ i idx, tell (FillAddr idx (u64 (Z.of_nat i * 4096)));; mret (u32 (idx + 1))) idx) Q s.
Proof.
  revert i0 idx s. induction n as [|n IH]; intros i0 idx s Hn HQ.
  - apply HQ; [done|]. by split.
  - cbn [List.seq for_each]. do 2 apply wp_bind. apply wp_ask, wp_ret.
    apply IH; [lia|]. intros v s' Hg [E1 E2]. apply HQ; [by rewrite Hg|].
    cbn [List.seq]. rewrite fmap_cons, reverse_cons. split.
    + rewrite E1. unfold fills at 2. simpl. rewrite <- app_assoc. simpl.
      rewrite (wrapU_small 64) by lia. done.
    + intros (U1 & U2 & U3). apply E2. by repeat split.
Qed.

Lemma create_umem_ok x s :
  glob_xskinfo (glob s) = None → frames_per_ring x = 4096 → frame_size x = 4096 →
  wp (create_umem x)
     (λ out s', match out with
                | Done (Some _) =>
                    glob s' = (glob s) {{ umem := ∅; umem_size := UMEM_SIZE }} ∧
                    xext (reverse all_frames) s s'
                | Done None => glob_xskinfo (glob s') = None ∧ ¬ libbpf_ok
                | Exited c => c = EXIT_FAILURE ∧ ¬ (∀ tr, os_memalign tr = 0)
                | Undefined => ¬ libbpf_ok
                | NoFuel => False
                end) s.
Proof.
  intros Hn Hr Hf. unfold create_umem. rewrite Hr, Hf. cbv zeta.
  change (u64 (4096 * 4096)) with UMEM_SIZE.
  apply wp_bind, wp_ask. destruct (negb _) eqn:Em.
  { split; [done|]. intros H. by rewrite H in Em. }
  apply wp_bind. unfold modify at 1, wp at 1. cbn [fst snd].
  apply wp_bind, wp_ask. cbn [glob trace].
  assert (glob_xskinfo ((glob s) {{ umem := ∅; umem_size := UMEM_SIZE }}) = None) as Hn'
    by by destruct (glob s).
  set (g' := (glob s) {{ umem := _; umem_size := _ }}) in *.
  destruct (os_calloc _) eqn:Ec; cbn [negb].
  2: { apply wp_exit_null; [done|]. intros [H _ _ _ _]. by rewrite H in Ec. }
  apply wp_bind, wp_ask. destruct (negb (os_umem_create _ =? 0)) eqn:Eu.
  { apply wp_exit_null; [done|]. intros [_ H _ _ _]. by rewrite H in Eu. }
  apply wp_bind, wp_ask. cbn [glob trace]. destruct (os_ring _) as [ret idx] eqn:Er.
  destruct (negb (i32 ret =? 4096)) eqn:E2.
  { apply wp_ret. split; [done|]. intros [_ _ _ _ H].
    match type of Er with os_ring (_ :: ?t) = _ => specialize (H 4096 t) end.
    rewrite Er in H. simpl in H. by subst ret. }
  change (Z.to_nat 4096) with 4096%nat.
  apply wp_bind, fill_ring_ok; [done|]. intros v s' Hg [E3 E4].
  apply wp_bind, wp_ask, wp_ret. split; [exact Hg|]. split.
  - unfold fills at 1. cbn [trace omap list_omap]. exact E3.
  - intros (U1 & U2 & U3). cbn [trace]. apply E4. by repeat split.
Qed.

(** The kernel, the C library and libbpf do what the set-up asks for. *)
Record xdp_setup : Prop := {
  xs_rlimit : ∀ tr, os_setrlimit tr = 0;
  xs_memalign : ∀ tr, os_memalign tr = 0;
  xs_libbpf : libbpf_ok
}.

Lemma init_xdp_socket_ok o s :
  opt_wf o → glob_xskinfo (glob s) = None → fills (trace s) = [] → untouched (trace s) →
  wp (init_xdp_socket o)
     (λ out s', match out with
                | Done o' =>
                    (∃ x, glob_xskinfo (glob s') = Some x ∧ fresh x) ∧
                    umem_size (glob s') = UMEM_SIZE ∧
                    reverse (fills (trace s')) = all_frames ∧ untouched (trace s') ∧
                    dst_mac_addr (glob s') = dst_mac_addr (glob s) ∧
                    halt_tx_sig (glob s') = halt_tx_sig (glob s) ∧
                    ∃ xf bf, xdp_mode_flags o = Some (xf, Z.land bf 6) ∧
                      (Z.testbit bf 3 = need_wakeup o) ∧
                      o' = o {{ x_opt := (x_opt o) {{ xdp_flags := xf; xdp_bind_flags := bf }} }}
                | Exited c => c = EXIT_FAILURE ∧ ¬ xdp_setup
                | Undefined => ¬ libbpf_ok
                | NoFuel => False
                end) s.
Proof.
  intros Ho Hn Hfl Hun. unfold init_xdp_socket.
  assert (∃ xf bf, xdp_mode_flags o = Some (xf, bf) ∧ (bf = 2 ∨ bf = 4)) as (xf & bf0 & Em & Hbf).
  { pose proof (wf_xmode o Ho). unfold xdp_mode_flags.
    assert (xdp_mode o = 0 ∨ xdp_mode o = 1 ∨ xdp_mode o = 2) as [-> | [-> | ->]] by lia;
      simpl; eauto. }
  rewrite Em. cbv zeta. set (bf := if need_wakeup o then _ else _).
  assert (Z.land bf 6 = bf0 ∧ Z.testbit bf 3 = need_wakeup o) as [B1 B2]
    by (unfold bf; destruct (need_wakeup o), Hbf as [-> | ->]; done).
  apply wp_bind. unfold modify at 1, wp at 1. cbn [fst snd].
  apply wp_bind, wp_ask. destruct (negb _) eqn:Erl.
  { split; [done|]. intros [H _ _]. by rewrite H in Erl. }
  apply wp_bind. eapply wp_mono; [apply create_umem_ok|].
  - by destruct (glob s).
  - by apply Ho.
  - by apply Ho.
  - intros [[[]|]|c| |] s1; cbn [abrupt]; [|intros [Hn1 Hl]| |done..].
    + intros [Hg [E1 E2]]. cbn [trace glob] in *. apply wp_bind. unfold create_xsk_info.
      assert (glob_xskinfo (glob s1) = None) as Hn1 by (rewrite Hg; by destruct (glob s)).
      apply wp_bind, wp_ask. destruct (os_calloc _) eqn:Ec; cbn [negb].
      2: { apply wp_exit_null; [done|]. intros [H _ _ _ _]. by rewrite H in Ec. }
      apply wp_bind, wp_ask. destruct (negb (os_xsk_create _ =? 0)) eqn:Ex.
      { apply wp_exit_null; [done|]. intros [_ _ H _ _]. by rewrite H in Ex. }
      apply wp_bind, wp_ask. destruct (os_query_id _) as [ret prog] eqn:Eq.
      destruct (negb (ret =? 0)) eqn:Er.
      { apply wp_exit_null; [done|]. intros [_ _ _ H _].
        match type of Eq with os_query_id ?t = _ => specialize (H t) end.
        rewrite Eq in H. simpl in H. by subst ret. }
      apply wp_ret, wp_bind. unfold modify, wp at 1. cbn [fst snd]. apply wp_ret.
      cbn [trace glob]. rewrite Hg.
      split; [eexists; split; [reflexivity|by repeat split]|].
      split; [by destruct (glob s)|]. split.
      { unfold fills at 1. cbn [omap list_omap]. fold (fills (trace s1)). rewrite E1.
        change (fills (Setrlimit :: trace s)) with (fills (trace s)).
        rewrite Hfl, app_nil_r. exact (reverse_involutive all_frames). }
      split; [destruct (E2 Hun) as (U1 & U2 & U3); by repeat split|].
      split; [by destruct (glob s)|]. split; [by destruct (glob s)|]. exists xf, bf.
      split; [by rewrite B1|]. split; [exact B2|]. reflexivity.
    + apply wp_bind. unfold create_xsk_info. apply wp_bind, wp_ask.
      destruct (os_calloc _); cbn [negb]; [exact Hl|by apply wp_exit_null].
    + intros [-> Hm]. split; [done|]. intros [_ H _]. by apply Hm.
Qed.
End setup.

(** C35: a successful init_xdp_socket() leaves a fresh socket over 16 MiB of
    packet memory, with every one of the 4096 frames given to the fill ring
    exactly once and in order; it only adds the XDP flags to the options.  The
    only exit status is 1, and undefined behaviour is reached only when libbpf
    or calloc() reports a failure. *)
Theorem init_xdp_socket_ready {OS : txrx_os} o s :
  opt_wf o → glob_xskinfo (glob s) = None → fills (trace s) = [] → untouched (trace s) →
  wp (init_xdp_socket o)
     (λ out s', match out with
                | Done o' =>
                    (∃ x, glob_xskinfo (glob s') = Some x ∧ fresh x) ∧
                    umem_size (glob s') = UMEM_SIZE ∧
                    reverse (fills (trace s')) = all_frames ∧ untouched (trace s') ∧
                    dst_mac_addr (glob s') = dst_mac_addr (glob s) ∧
                    ∃ xf bf, xdp_mode_flags o = Some (xf, Z.land bf 6) ∧
                      (Z.testbit bf 3 = need_wakeup o) ∧
                      o' = o {{ x_opt := (x_opt o) {{ xdp_flags := xf; xdp_bind_flags := bf }} }}
                | Exited c => c = EXIT_FAILURE
                | Undefined => ¬ libbpf_ok
                | NoFuel => False
                end) s.
Proof.
  intros Ho Hn Hfl Hun. eapply wp_mono; [by apply init_xdp_socket_ok|].
  intros [o'|c| |] s' H; [|by destruct H|exact H..].
  destruct H as (H1 & H2 & H3 & H4 & H5 & _ & H6). auto 10.
Qed.

(** Every transmit descriptor points into a frame that the fill ring also
    lends to the kernel for reception: the two directions share all frames. *)
Theorem tx_frames_are_fill_frames {B : build} o base tr idx a len t :
  xschedule o base tr → TxDesc idx a len t ∈ tr → a ∈ all_frames.
Proof.
  intros Hs Hin. induction tr as [|c tr IH]; [by apply elem_of_nil in Hin|].
  destruct Hs as [Hc Hs]. apply elem_of_cons in Hin as [<-|Hin]; [|auto].
  destruct Hc as (-> & _). unfold all_frames. apply list_elem_of_fmap.
  pose proof (Z.mod_pos_bound (descs tr) 4096 ltac:(lia)).
  exists (Z.to_nat (descs tr mod 4096)). split; [lia|]. apply elem_of_seq. lia.
Qed.

(** The status of the error exit: once the socket exists the process ends
    with EXIT_SUCCESS (xdpsock_cleanup() exits first), and before that it
    dereferences the NULL [glob_xskinfo_ptr]; EXIT_FAILURE is never the
    status. *)
Theorem afxdp_exit_with_error_status {OS : txrx_os} A err s :
  (@__afxdp_exit_with_error A err s).1
  = match glob_xskinfo (glob s) with
    | Some _ => Exited EXIT_SUCCESS
    | None => Undefined
    end.
Proof.
  unfold __afxdp_exit_with_error, xdpsock_cleanup, get_xsk, get, mbind, M_bind. simpl.
  by destruct (glob_xskinfo (glob s)).
Qed.

(** ** Properties: reception *)

(** Polls of the RX ring. *)
Fixpoint peeks (tr : list call) : nat :=
  match tr with
  | [] => 0
  | RingPeek RxRing _ :: tr => S (peeks tr)
  | _ :: tr => peeks tr
  end.

Section receive.
Context {OS : txrx_os} {B : build}.
Implicit Types s : st txrx_glob call.

(** The kernel announces one packet, at [addr] in the umem with [len] bytes
    and as the descriptor number [idx]; the fill ring has room. *)
Record announces (s : st txrx_glob call) (idx addr len : Z) : Prop := {
  an_peek : os_ring (RingPeek RxRing 1 :: trace s) = (1, idx);
  an_fill : ∀ n tr, (os_ring (RingReserve RxFill n :: tr)).1 = n;
  an_desc : ∀ tr, peeks tr = S (peeks (trace s)) → os_rx_desc (RxDesc idx :: tr) = (addr, len);
  an_low : 8 <= addr;
  an_high : addr + 34 <= umem_size (glob s)
}.

(** The memory once the kernel has stored the packet. *)
Definition after_dma (s : st txrx_glob call) : gmap Z Z :=
  os_dma (RingPeek RxRing 1 :: trace s) ∪ umem (glob s).

(** What a call leaves as it was. *)
Record rx_kept (s s' : st txrx_glob call) : Prop := {
  rk_halt : halt_tx_sig (glob s') = halt_tx_sig (glob s);
  rk_xsk : is_Some (glob_xskinfo (glob s'));
  rk_size : umem_size (glob s') = umem_size (glob s)
}.

(** The outcome of a call that finds [pkt]: the result line with its fields, and
    its number as the new progress counter; or neither. *)
Definition recv_post (s : st txrx_glob call) (pkt : list Z)
  (out : outcome unit) (s' : st txrx_glob call) : Prop :=
  out = Done tt ∧ rx_kept s s' ∧
  if rx_accepts pkt then
    let tA := pl_tx_timestampA pkt off_payload in
    glob_rx_seq (glob s') = pl_seq pkt off_payload ∧
    ∃ hw D, lines (trace s') = [u64 (D - tA); pl_seq pkt off_payload;
                                pl_tx_queue pkt off_payload; tA; hw; D] :: lines (trace s)
  else glob_rx_seq (glob s') = glob_rx_seq (glob s) ∧ lines (trace s') = lines (trace s).

Lemma recv_desc_ok idx addr len s :
  os_rx_desc (RxDesc idx :: trace s) = (addr, len) → len ≠ 0 →
  8 <= addr → addr + 34 <= umem_size (glob s) → is_Some (glob_xskinfo (glob s)) →
  wp (recv_desc idx)
     (λ out s', recv_post s (load (umem (glob s)) addr 34) out s' ∧
                peeks (trace s') = peeks (trace s)) s.
Proof.
  intros Hd Hl H1 H2 Hx. unfold recv_desc. apply wp_bind, wp_ask. rewrite Hd.
  destruct (len =? 0) eqn:El; bool_to_prop; [done|].
  unfold get_time_nanosec. do 2 apply wp_bind. apply wp_ask, wp_ret. cbn [glob trace].
  change (off_payload + off_rx_timestampD)%nat with 34%nat.
  apply wp_bind, wp_umem_read; [lia|exact H2|]. cbn [glob]. set (pkt := load _ _ _).
  unfold recv_post.
  assert (∀ tr, rx_kept s (mkSt (glob s) tr)) as Hk by by split.
  destruct (rx_accepts pkt); [|by split; [split; [done|split; [apply Hk|]]|]].
  apply wp_bind, wp_umem_read; [lia|cbn [glob]; lia|].
  cbv zeta. apply wp_bind, wp_ask. unfold modify, wp. cbn [fst snd glob trace].
  split; [|done]. split; [done|]. split; [split; revert Hx; by destruct (glob s)|].
  split; [by destruct (glob s)|]. eexists _, _. reflexivity.
Qed.

Lemma afxdp_recv_ok fuel idx addr len x s :
  announces s idx addr len → glob_xskinfo (glob s) = Some x → len ≠ 0 →
  (0 < fuel)%nat →
  wp (afxdp_recv_pkt fuel)
     (λ out s', recv_post s (load (after_dma s) addr 34) out s' ∧
                peeks (trace s') = S (peeks (trace s))) s.
Proof.
  intros [Hp Hf Hd Ha Hb] Hx Hl Hfuel. unfold afxdp_recv_pkt, get_xsk.
  do 2 apply wp_bind. unfold get at 1, wp at 1. cbn [fst snd]. rewrite Hx.
  apply wp_ret, wp_bind, wp_ask. rewrite Hp. cbv zeta.
  change (i32 1) with 1. cbn [Z.eqb].
  apply wp_bind. unfold modify at 1, wp at 1. cbn [fst snd].
  fold (after_dma s). set (s1 := mkSt _ _).
  destruct fuel as [|fuel]; [lia|]. apply wp_bind. unfold reserve_fill. cbn [loop].
  do 2 apply wp_bind. apply wp_ask. pose proof (Hf 1 (trace s1)) as Er.
  destruct (os_ring (RingReserve RxFill 1 :: trace s1)) as [r i]. simpl in Er. subst r.
  change (i32 1 =? 1) with true. cbv iota. apply wp_ret, wp_ret.
  change (Z.to_nat 1) with 1%nat. cbn [List.seq for_each].
  apply wp_bind, wp_bind, wp_bind. set (s2 := mkSt _ _).
  assert (rx_kept s s2 ∧ umem (glob s2) = after_dma s ∧
          glob_rx_seq (glob s2) = glob_rx_seq (glob s)) as ([K1 K2 K3] & E2 & E3)
    by (repeat split; simpl; rewrite ?Hx; done).
  eapply wp_mono; [apply (recv_desc_ok idx addr len)|].
  - by apply Hd.
  - done.
  - done.
  - by rewrite K3.
  - done.
  - rewrite E2. intros out s3 [(-> & [L1 L2 L3] & H) Hpk].
    apply wp_ret, wp_ret. do 2 apply wp_bind, wp_ask. apply wp_bind.
    unfold set_xsk, modify, wp at 1. cbn [fst snd]. apply wp_bind, wp_ask, wp_ask.
    split; [|exact Hpk]. unfold recv_post. cbn [glob trace].
    rewrite <- E3. split; [done|]. split.
    + split; cbn [glob]; [by rewrite <- K1, <- L1; destruct (glob s3)| |
        by rewrite <- K3, <- L3; destruct (glob s3)].
      destruct (glob s3); simpl in *. by apply fmap_is_Some.
    + destruct (glob s3). exact H.
Qed.

(** With nothing in the RX ring, nothing happens. *)
Lemma afxdp_recv_idle fuel x s :
  (os_ring (RingPeek RxRing 1 :: trace s)).1 = 0 → glob_xskinfo (glob s) = Some x →
  wp (afxdp_recv_pkt fuel)
     (λ out s', out = Done tt ∧ glob s' = glob s ∧ lines (trace s') = lines (trace s) ∧
                peeks (trace s') = S (peeks (trace s))) s.
Proof.
  intros Hp Hx. unfold afxdp_recv_pkt, get_xsk. do 2 apply wp_bind.
  unfold get at 1, wp at 1. cbn [fst snd]. rewrite Hx. apply wp_ret, wp_bind, wp_ask.
  destruct (os_ring _) as [r i]. simpl in Hp. subst r. by apply wp_ret.
Qed.

(** What the receiver reads in a frame as afxdp_send_pkt() leaves it; only the
    number decides whether it is logged. *)
Lemma xdp_frame_read o mac payload m addr :
  opt_wf o → mac_wf mac → length payload = Z.to_nat (packet_size o) →
  load m addr (Z.to_nat (packet_size o)) = xdp_frame o mac payload →
  let pkt := load m addr 34 in
  pl_tx_queue pkt off_payload = pl_tx_queue payload 0 ∧
  pl_seq pkt off_payload = pl_seq payload 0 ∧
  pl_tx_timestampA pkt off_payload = pl_tx_timestampA payload 0 ∧
  rx_accepts pkt = (0 <? pl_seq payload 0) && (pl_seq payload 0 <? 50000000).
Proof.
  intros Ho Hm Hl Hld pkt. pose proof (wf_size o Ho). pose proof (wf_prio o Ho).
  pose proof (tsn_header_length o mac Hm) as Hh.
  assert (pkt = take 34 (xdp_frame o mac payload)) as E.
  { unfold pkt. rewrite <- Hld. replace (Z.to_nat (packet_size o))
      with (34 + (Z.to_nat (packet_size o) - 34))%nat by lia.
    rewrite load_app, take_app_le by (rewrite length_load; lia).
    by rewrite take_ge by (rewrite length_load; lia). }
  clearbody pkt. subst pkt. unfold xdp_frame.
  assert (∀ off n, (off + n <= 16)%nat →
    read_at (take 34 (tsn_header o mac ++ take (Z.to_nat (packet_size o) - 18) payload))
      (off_payload + off) n = read_at payload off n) as Hp.
  { intros off n Hn. rewrite read_at_take by (unfold off_payload; lia).
    unfold off_payload. rewrite read_at_skip by done. apply read_at_take. lia. }
  assert (∀ off n, (off + n <= 18)%nat →
    read_at (take 34 (tsn_header o mac ++ take (Z.to_nat (packet_size o) - 18) payload)) off n
    = read_at (tsn_header o mac) off n) as Hd.
  { intros off n Hn. rewrite read_at_take by lia. unfold read_at. rewrite drop_app_le by lia.
    apply take_app_le. rewrite length_drop. lia. }
  unfold rx_accepts, half, pl_tx_queue, pl_seq, pl_tx_timestampA. rewrite !Hp by (vm_compute; lia).
  split; [done|]. split; [done|]. split; [done|]. rewrite !Hd by (vm_compute; lia).
  rewrite lookup_take_lt by (unfold off_vlan_prio; lia).
  rewrite lookup_app_l by (rewrite Hh; unfold off_vlan_prio; lia).
  unfold tsn_header. destruct Hm as [Hm _].
  do 7 (destruct mac as [|? mac]; try discriminate Hm). clear Hp Hd Hld.
  change (default 0 (_ !! off_vlan_prio)) with (vlan_prio o). rewrite (wf_vlan o Ho).
  rewrite (Z.mul_comm 32), Z.div_mul by lia.
  rewrite (proj2 (Z.ltb_lt (socket_prio o) 8)), andb_true_r by lia. reflexivity.
Qed.
End receive.

(** C37: whatever frame of the packet memory is announced, and when the fill ring
    has room to take its place back, one call of the receiver terminates
    normally inside the packet memory and either changes neither the progress
    counter nor the log, or logs one line and sets the counter to that line's
    sequence number, which is positive and below 50 million. *)
Theorem afxdp_recv_pkt_filter {OS : txrx_os} fuel idx addr len x s :
  announces s idx addr len → glob_xskinfo (glob s) = Some x → len ≠ 0 → (0 < fuel)%nat →
  wp (afxdp_recv_pkt fuel)
     (λ out s',
        out = Done tt ∧
        (glob_rx_seq (glob s') = glob_rx_seq (glob s) ∧ lines (trace s') = lines (trace s) ∨
         ∃ n lat q tA hw D, 0 < n < 50000000 ∧ glob_rx_seq (glob s') = n ∧
           lines (trace s') = [lat; n; q; tA; hw; D] :: lines (trace s))) s.
Proof.
  intros Ha Hx Hl Hf. eapply wp_mono; [by eapply afxdp_recv_ok|].
  intros out s' [(-> & _ & H) _]. split; [done|].
  destruct (rx_accepts _) eqn:E; [right|by left].
  unfold rx_accepts in E. apply andb_prop in E as [E _]. apply andb_prop in E as [_ E].
  bool_to_prop. destruct H as (G1 & hw & D & G2).
  eexists _, _, _, _, hw, D. split; [|split; [exact G1|exact G2]]. simpl. lia.
Qed.

(** ** Witnesses *)

Definition demo_build : build := {| WITH_XDP := true; WITH_XDPTBS := true |}.

(** A fresh socket over allocated, empty packet memory. *)
Definition demo_xsk_state : st txrx_glob call :=
  mkSt (init_txrx_glob {{ glob_xskinfo := Some (mk_xsk_info 7 0 0 0 0 0);
                          umem_size := UMEM_SIZE }}) [].


Definition demo_buff : list Z :=
  set_tx_timestampA (set_seq (set_tx_queue (replicate 64 0) 0 2) 0 9) 0 1000000000000.

Lemma init_xdp_socket_ready_witness :
  wp (@init_xdp_socket (demo_txrx_os []) demo_user_opt)
     (λ out s', match out with
                | Done _ => reverse (fills (trace s')) = all_frames
                | NoFuel => False
                | _ => True
                end) (mkSt init_txrx_glob []).
Proof.
  eapply wp_mono.
  - apply (@init_xdp_socket_ready (demo_txrx_os []) demo_user_opt (mkSt init_txrx_glob [])).
    + exact demo_user_opt_wf.
    + reflexivity.
    + reflexivity.
    + split; [reflexivity|]. split; reflexivity.
  - intros [o'|c| |] s' H; cbv beta iota in H |- *; [|exact I..|exact H].
    destruct H as (_ & _ & H & _). exact H.
Defined.

Lemma tx_frames_are_fill_frames_witness : 0 ∈ all_frames.
Proof.
  apply (@tx_frames_are_fill_frames demo_build demo_user_opt 0
    [TxDesc 0 0 64 (Some 0)] 0 0 64 (Some 0)).
  - simpl. repeat split.
  - left.
Defined.

(** A system whose kernel has stored [frame] at address 4096 and announces it. *)
Definition demo_dma_os (frame : list Z) : txrx_os :=
  make_os ((demo_dp frame) {{ dp_dma := λ _, store ∅ 4096 frame }}).

Definition demo_xdp_frame : list Z :=
  tsn_header demo_user_opt [1; 2; 3; 4; 5; 6] ++ take 46 demo_buff.

Lemma demo_announces :
  @announces (demo_dma_os demo_xdp_frame) demo_xsk_state 0 4096 64.
Proof. split; try done; vm_compute; discriminate. Qed.

Lemma afxdp_recv_pkt_filter_witness :
  (@afxdp_recv_pkt (demo_dma_os demo_xdp_frame) 1 demo_xsk_state).1 = Done tt.
Proof.
  destruct (@afxdp_recv_pkt_filter (demo_dma_os demo_xdp_frame) 1 0 4096 64
    (mk_xsk_info 7 0 0 0 0 0) demo_xsk_state) as (H1 & _).
  - exact demo_announces.
  - reflexivity.
  - discriminate.
  - lia.
  - exact H1.
Defined.
