(* ===== verification/TxrxMain.v ===== *)
(** * TXRX-TSN: log capture and main() (src/src/txrx.c)

    The copies of the synchronisation logs around a measurement, the receive
    loops and the dispatch on socket type and mode. *)

From S2P Require Import Prelude Sys Libc Argp Txrx Afpkt Afxdp.

Local Open Scope Z_scope.

(** ** Definitions *)

Definition ptp4l_log : list Z := bytes_of_string "/var/log/ptp4l.log".
Definition phc2sys_log : list Z := bytes_of_string "/var/log/phc2sys.log".
Definition total_ptp4l_log : list Z := bytes_of_string "/var/log/total_ptp4l.log".
Definition total_phc2sys_log : list Z := bytes_of_string "/var/log/total_phc2sys.log".
Definition captured_ptp4l_log : list Z := bytes_of_string "/var/log/captured_ptp4l.log".
Definition captured_phc2sys_log : list Z := bytes_of_string "/var/log/captured_phc2sys.log".

Section main.
Context {OS : txrx_os} {B : build}.

(** The copy loop: [fgetc] until end of file. *)
Definition copy_bytes (fuel : nat) (src dst : list Z) : T unit :=
  loop fuel (λ _ : unit,
    ch ← ask (Fgetc src) os_fgetc;
    match ch with
    | None => mret (inr tt)
    | Some c => tell (Fputc dst c);; mret (inl tt)
    end) tt.

(** copy_file(); [None] stands for NULL. *)
Definition copy_file (fuel : nat) (src_file dst_file : option (list Z))
  (clear_src : bool) : T unit :=
  match src_file, dst_file with
  | Some src, Some dst =>
      ok ← ask (Fopen src false) os_fopen;
      if negb (ok : bool) then mret tt else
      ok ← ask (Fopen dst true) os_fopen;
      if negb (ok : bool) then tell (Fclose src) else
      copy_bytes fuel src dst;;
      tell (Fclose src);;
      tell (Fclose dst);;
      when clear_src
        (ok ← ask (Fopen src true) os_fopen;
         if (ok : bool) then tell (Fclose src) else undefined)
  | _, _ => mret tt
  end.

Definition ts_log_start (fuel : nat) : T unit :=
  copy_file fuel (Some ptp4l_log) (Some total_ptp4l_log) true;;
  copy_file fuel (Some phc2sys_log) (Some total_phc2sys_log) true.

Definition ts_log_stop (fuel : nat) : T unit :=
  copy_file fuel (Some ptp4l_log) (Some captured_ptp4l_log) false;;
  copy_file fuel (Some phc2sys_log) (Some captured_phc2sys_log) false.

(** The receive loops of main(): until a signal, or the last frame. *)
Definition rx_loop (fuel : nat) (o : user_opt) (recv : T unit) : T unit :=
  loop fuel (λ _ : unit,
    h ← halted;
    if (h : bool) then mret (inr tt) else
    recv;;
    g ← get;
    mret (if glob_rx_seq g >=? frames_to_send o then inr tt else inl tt)) tt.

(** [case MODE_AFPKT] of main(). *)
Definition main_afpkt (fuel : nat) (o : user_opt) : T Z :=
  let sk_addr := mk_sockaddr_ll ETH_P_8021Q 0 [] in
  ts_log_start fuel;;
  sockfd ←
    (if mode o =? MODE_TX then
       '(sockfd, sk_addr) ← init_tx_socket o sk_addr;
       (if enable_txtime o =? 0
        then afpkt_send_thread fuel o sockfd sk_addr
        else afpkt_send_thread_etf fuel o sockfd sk_addr);;
       mret sockfd
     else if mode o =? MODE_RX then
       '(_, sockfd) ← init_rx_socket ETH_UADP (default [] (ifname o));
       modify (λ g, g {{ glob_rx_seq := 0 }});;
       rx_loop fuel o (_ ← afpkt_recv_pkt sockfd o; mret tt);;
       tell (Close sockfd);;
       mret sockfd
     else exit_with_error);
  ts_log_stop fuel;;
  tell (Close sockfd);;
  mret 0.

(** [case MODE_AFXDP] of main() up to the switch on the direction; [opt.xsk] is
    [glob_xskinfo] by then. *)
Definition xdp_ready (fuel : nat) (o : user_opt) : T user_opt :=
  if negb WITH_XDP then exit_with_error else
  o ← init_xdp_socket o;
  g ← get;
  (match glob_xskinfo g with
   | None => __afxdp_exit_with_error EXIT_FAILURE
   | Some _ => mret tt
   end);;
  tell (Usleep 45000000);;
  ts_log_start fuel;;
  mret o.

(** All of it: it ends in xdpsock_cleanup(), which exits. *)
Definition main_afxdp (fuel : nat) (o : user_opt) : T Z :=
  o ← xdp_ready fuel o;
  (if mode o =? MODE_TX then afxdp_send_thread fuel o
   else if mode o =? MODE_RX then
     modify (λ g, g {{ glob_rx_seq := 0 }});;
     rx_loop fuel o (afxdp_recv_pkt fuel)
   else exit_with_error);;
  ts_log_stop fuel;;
  xdpsock_cleanup.

(** main() up to the switch on the socket mode. *)
Definition main_options (argv : list word) : T user_opt :=
  modify (λ g, g {{ verbose := 0 }});;
  o ← argp_parse argp argv default_user_opt;
  match ifname o with
  | None => exit_with_error
  | Some name =>
      ifi ← ask (IfNametoindex name) os_if_nametoindex;
      let o := o {{ ifindex := u32 ifi }} in
      if ifindex o =? 0 then exit_ EXIT_FAILURE else mret o
  end.

Definition main (fuel : nat) (argv : list word) : T Z :=
  o ← main_options argv;
  if socket_mode o =? MODE_AFPKT then main_afpkt fuel o
  else if socket_mode o =? MODE_AFXDP then main_afxdp fuel o
  else exit_with_error.
End main.

(** ** Lemmas *)

(** What has been written to a file since it was last opened for writing,
    which truncates it; oldest byte first. *)
Fixpoint written (path : list Z) (tr : list call) : list Z :=
  match tr with
  | [] => []
  | Fputc p c :: tr => written path tr ++ (if decide (p = path) then [c] else [])
  | Fopen p true :: tr => if decide (p = path) then [] else written path tr
  | _ :: tr => written path tr
  end.

(** Bytes read from a file since it was last opened. *)
Fixpoint bytes_read (path : list Z) (tr : list call) : nat :=
  match tr with
  | [] => 0
  | Fgetc p :: tr => (if decide (p = path) then 1 else 0) + bytes_read path tr
  | Fopen p _ :: tr => if decide (p = path) then 0 else bytes_read path tr
  | _ :: tr => bytes_read path tr
  end%nat.

Section lemmas.
Context {OS : txrx_os} {B : build}.
Implicit Types s : st txrx_glob call.

(** A readable file holds [content]: the k-th fgetc since fopen gives its
    k-th byte. *)
Definition file_holds (path content : list Z) : Prop :=
  ∀ tr, os_fgetc (Fgetc path :: tr) = content !! bytes_read path tr.

Lemma copy_bytes_ok fuel src dst content s :
  src ≠ dst → file_holds src content →
  (bytes_read src (trace s) <= length content)%nat →
  (length content < fuel + bytes_read src (trace s))%nat →
  wp (copy_bytes fuel src dst)
     (λ out s', out = Done tt ∧ glob s' = glob s ∧
        written dst (trace s') = written dst (trace s) ++ drop (bytes_read src (trace s)) content) s.
Proof.
  intros Hne Hf. revert s. induction fuel as [|fuel IH]; intros s Hr Hlen; [lia|].
  unfold copy_bytes. cbn [loop]. do 2 apply wp_bind. apply wp_ask. rewrite Hf.
  destruct (content !! bytes_read src (trace s)) as [c|] eqn:E.
  - apply wp_bind, wp_ask, wp_ret. cbn [trace glob].
    apply lookup_lt_Some in E as Hlt.
    set (s1 := mkSt _ _). assert (bytes_read src (trace s1) = S (bytes_read src (trace s))) as E1
      by (simpl; by rewrite decide_True).
    eapply wp_mono; [apply IH; rewrite E1; lia|].
    intros out s' (-> & Hg & Hw). split; [done|]. split; [exact Hg|].
    rewrite Hw, E1. simpl. rewrite decide_True by done. rewrite <- app_assoc. simpl.
    by rewrite <- (drop_S _ _ _ E).
  - apply wp_ret, wp_ret. split; [done|]. split; [done|]. simpl.
    apply lookup_ge_None in E. by rewrite drop_ge, app_nil_r by done.
Qed.

(** The run of a copy whose files can be opened. *)
Lemma copy_file_run fuel src dst content clear s :
  src ≠ dst → file_holds src content → (∀ tr, os_fopen tr = true) →
  (length content < fuel)%nat →
  wp (copy_file fuel (Some src) (Some dst) clear)
     (λ out s', out = Done tt ∧ glob s' = glob s ∧
        written dst (trace s') = content ∧
        (clear = true → written src (trace s') = [])) s.
Proof.
  intros Hne Hf Ho Hlen. unfold copy_file.
  do 2 (apply wp_bind, wp_ask; rewrite Ho; cbn [negb]). apply wp_bind.
  set (s1 := mkSt _ _).
  assert (bytes_read src (trace s1) = 0%nat ∧ written dst (trace s1) = []) as [E1 E2].
  { simpl. rewrite (decide_False (P := dst = src)) by done. by rewrite !decide_True. }
  eapply wp_mono; [apply (copy_bytes_ok fuel src dst content); [done..|lia|lia]|].
  intros out s2 (-> & Hg & Hw). rewrite E1, E2, drop_0 in Hw. cbn [app] in Hw.
  do 2 apply wp_bind, wp_ask. unfold when. destruct clear; [|by apply wp_ret].
  apply wp_bind, wp_ask. rewrite Ho. apply wp_ask. cbn [glob trace written].
  split; [done|]. split; [done|]. rewrite decide_False by done. split; [done|].
  intros _. by rewrite decide_True.
Qed.

(** Copying logs comes to an end: the files cannot be opened, or they can and
    fit the fuel. *)
Definition logs_copyable (fuel : nat) : Prop :=
  (∀ tr, os_fopen tr = false) ∨
  (∀ tr, os_fopen tr = true) ∧
  ∃ c1 c2, file_holds ptp4l_log c1 ∧ file_holds phc2sys_log c2 ∧
           (length c1 < fuel)%nat ∧ (length c2 < fuel)%nat.

Lemma ts_log_start_done fuel s :
  logs_copyable fuel → wp (ts_log_start fuel) (λ out s', out = Done tt ∧ glob s' = glob s) s.
Proof.
  intros [Ho|(Ho & c1 & c2 & H1 & H2 & L1 & L2)]; unfold ts_log_start; apply wp_bind.
  - unfold copy_file. do 2 (apply wp_bind, wp_ask; rewrite Ho; apply wp_ret). done.
  - eapply wp_mono; [by eapply copy_file_run|]. intros out s1 (-> & E1 & _).
    eapply wp_mono; [by eapply copy_file_run|]. intros out s2 (-> & E2 & _).
    split; [done|congruence].
Qed.

Lemma ts_log_stop_done fuel s :
  logs_copyable fuel → wp (ts_log_stop fuel) (λ out s', out = Done tt ∧ glob s' = glob s) s.
Proof.
  intros [Ho|(Ho & c1 & c2 & H1 & H2 & L1 & L2)]; unfold ts_log_stop; apply wp_bind.
  - unfold copy_file. do 2 (apply wp_bind, wp_ask; rewrite Ho; apply wp_ret). done.
  - eapply wp_mono; [by eapply copy_file_run|]. intros out s1 (-> & E1 & _).
    eapply wp_mono; [by eapply copy_file_run|]. intros out s2 (-> & E2 & _).
    split; [done|congruence].
Qed.

(** A receive call that leaves the options' view of the socket alone. *)
Lemma rx_loop_ok fuel o recv s (Q : outcome unit → st txrx_glob call → Prop) :
  (∀ s, wp recv (λ out s', match out with
                           | Done _ => True
                           | _ => Q (abrupt out NoFuel) s'
                           end) s) →
  (∀ s', halt_tx_sig (glob s') ≠ 0 ∨ frames_to_send o <= glob_rx_seq (glob s') → Q (Done tt) s') →
  (∀ s', Q NoFuel s') →
  wp (rx_loop fuel o recv) Q s.
Proof.
  intros Hr Hd Hn. unfold rx_loop. apply (wp_loop (λ _ _, True)); [|auto|done].
  intros [] t _. apply wp_bind, wp_halted. cbv zeta. set (h := List.last _ _).
  destruct (h =? 0) eqn:Eh; bool_to_prop; cbn [negb].
  - apply wp_bind. eapply wp_mono; [apply Hr|]. intros [[]|c| |] t'; cbn [abrupt]; try auto.
    intros _. apply wp_bind. unfold get, wp at 1. cbn [fst snd]. apply wp_ret.
    destruct (_ >=? _) eqn:E; [|done]. bool_to_prop. apply Hd. by right.
  - apply wp_ret. apply Hd. left. by destruct (glob t).
Qed.
End lemmas.

(** ** Properties: the log files *)

(** When the files can be opened, copy_file() replaces the destination's
    contents by exactly the source's bytes (whatever the destination held
    before is gone: the file is truncated, not appended to), and with
    [clear_src] leaves the source empty.  One unit of fuel per byte and one
    more is enough. *)
Theorem copy_file_copies {OS : txrx_os} fuel src dst content clear s :
  src ≠ dst → file_holds src content → (∀ tr, os_fopen tr = true) →
  (length content < fuel)%nat →
  wp (copy_file fuel (Some src) (Some dst) clear)
     (λ out s', out = Done tt ∧ glob s' = glob s ∧
        written dst (trace s') = content ∧
        (clear = true → written src (trace s') = [])) s.
Proof. exact (copy_file_run fuel src dst content clear s). Qed.

(** ** Properties: main *)

(** The AF_PACKET receive loop is left only when a signal has arrived or
    the sequence number of the last accepted packet has reached the number of
    frames asked for. *)
Theorem afpkt_rx_loop_exit {OS : txrx_os} fuel o sock s :
  timestamping_ok →
  wp (rx_loop fuel o (_ ← afpkt_recv_pkt sock o; mret tt))
     (λ out s', out = NoFuel ∨
        out = Done tt ∧ (halt_tx_sig (glob s') ≠ 0 ∨ frames_to_send o <= glob_rx_seq (glob s')))
     s.
Proof.
  intros Hts. apply rx_loop_ok; [|auto|auto].
  intros t. unfold afpkt_recv_pkt. do 2 apply wp_bind. apply wp_ask.
  destruct (os_recvmsg _) as [[ret data] msgs] eqn:Er. cbn beta iota zeta.
  destruct (ret <=? 0); [by apply wp_bind, wp_ask, wp_ret, wp_ret|].
  unfold get_time_nanosec. do 2 apply wp_bind. apply wp_ask, wp_ret. cbn [glob trace].
  apply wp_bind. set (u := mkSt _ _).
  assert (∀ C D b, wp (log_packet b C D) (λ out s', ∃ r, out = Done r) u) as Hlog.
  { intros C D b. eapply wp_mono; [apply log_packet_filter|].
    intros out t' [(-> & _)|(? & ? & ? & ? & ? & ? & -> & _)]; eauto. }
  destruct (enable_hwts o =? 0).
  - apply wp_ret. eapply wp_mono; [apply Hlog|]. by intros out t' [r ->].
  - apply wp_get_timestamp; [intros ts; by apply (Hts _ _ _ _ ts Er)|]. intros C.
    eapply wp_mono; [apply Hlog|]. by intros out t' [r ->].
Qed.

(** Main() only reports a failed init_rx_socket() and goes on with the
    descriptor -1: as long as recvmsg() on it fails, as it must, and no signal
    arrives, the receive loop runs for ever, whatever its fuel. *)
Theorem rx_socket_failure_spins {OS : txrx_os} fuel o etype ifc s :
  os_socket (SocketPacket false etype :: trace s) < 0 → 1 <= frames_to_send o →
  (∀ tr, os_signals tr = []) → halt_tx_sig (glob s) = 0 →
  (∀ errq len tr, (os_recvmsg (Recvmsg (-1) errq len :: tr)).1.1 < 0) →
  wp ('(_, sockfd) ← init_rx_socket etype ifc;
      modify (λ g, g {{ glob_rx_seq := 0 }});;
      rx_loop fuel o (_ ← afpkt_recv_pkt sockfd o; mret tt)) (λ out _, out = NoFuel) s.
Proof.
  intros Hs Hfr Hsig Hh Hrecv. unfold init_rx_socket. apply wp_bind, wp_bind, wp_ask.
  rewrite (proj2 (Z.ltb_lt _ _) Hs). apply wp_ret, wp_bind.
  unfold modify, wp at 1. cbn [fst snd].
  apply (wp_loop (λ _ t, halt_tx_sig (glob t) = 0 ∧ glob_rx_seq (glob t) = 0)).
  - intros [] t [H1 H2]. apply wp_bind, wp_halted. rewrite Hsig. cbn [List.last].
    cbv zeta. rewrite H1. cbn [Z.eqb negb]. apply wp_bind, wp_bind. unfold afpkt_recv_pkt.
    apply wp_bind, wp_ask. cbn [glob trace].
    pose proof (Hrecv false RECV_IOV_LEN (Observe :: trace t)) as Hr.
    destruct (os_recvmsg _) as [[ret data] msgs]. cbn [fst] in Hr.
    rewrite (proj2 (Z.leb_le ret 0)) by lia. apply wp_bind, wp_ask, wp_ret, wp_ret, wp_bind.
    unfold get, wp at 1. cbn [fst snd glob]. apply wp_ret.
    assert (glob_rx_seq ((glob t) {{ halt_tx_sig := 0 }}) = 0) as E by by destruct (glob t).
    rewrite E. rewrite Z.geb_leb, (proj2 (Z.leb_gt _ _)) by lia.
    split; [by destruct (glob t)|exact E].
  - done.
  - by destruct (glob s).
Qed.

(** A thread that ends by closing its socket. *)
Lemma close_last {A} (m : T A) fd s :
  on_done (m;; tell (Close fd)) (λ _ s', head (trace s') = Some (Close fd)) s.
Proof.
  apply on_done_bind. unfold on_done at 1, wp. by destruct (m s).1.
Qed.

(** How often a descriptor has been closed. *)
Fixpoint closes (fd : Z) (tr : list call) : Z :=
  match tr with
  | [] => 0
  | Close f :: tr => (if f =? fd then 1 else 0) + closes fd tr
  | _ :: tr => closes fd tr
  end.

Section main_lemmas.
Context {OS : txrx_os} {B : build}.
Implicit Types s : st txrx_glob call.

Lemma closes_mono fd s s' : extends s s' → closes fd (trace s) <= closes fd (trace s').
Proof.
  intros (new & -> & _). induction new as [|c new IH]; simpl; [lia|].
  destruct c; try lia. case_match; lia.
Qed.

Lemma grows_copy_file fuel a b c : grows (copy_file fuel a b c).
Proof. unfold copy_file, copy_bytes. grow. Qed.

Lemma grows_ts_log_start fuel : grows (ts_log_start fuel).
Proof. unfold ts_log_start. apply adds_bind; intros; apply grows_copy_file. Qed.

Lemma grows_ts_log_stop fuel : grows (ts_log_stop fuel).
Proof. unfold ts_log_stop. apply adds_bind; intros; apply grows_copy_file. Qed.

(** A program that only adds calls keeps what was closed. *)
Lemma on_done_closes {A} (m : T A) fd n s :
  grows m → n <= closes fd (trace s) →
  on_done m (λ _ s', n <= closes fd (trace s')) s.
Proof.
  intros Hm Hn. unfold on_done, wp. pose proof (closes_mono fd _ _ (Hm s)).
  destruct (m s).1; [lia|done..].
Qed.
Lemma on_done_bind_closes {A C} (m : T A) (k : A → T C) Q fd n s :
  grows m → n <= closes fd (trace s) →
  (∀ a s', n <= closes fd (trace s') → on_done (k a) Q s') → on_done (m ≫= k) Q s.
Proof.
  intros Hm Hn Hk. apply on_done_bind. unfold on_done at 1.
  pose proof (on_done_closes m fd n s Hm Hn) as H. unfold on_done, wp in H |- *.
  destruct (m s).1; [by apply Hk|done..].
Qed.

Lemma on_done_close fd n s :
  n <= closes fd (trace s) →
  on_done (tell (Close fd)) (λ _ s', n + 1 <= closes fd (trace s')) s.
Proof. intros. unfold on_done, wp. simpl. rewrite Z.eqb_refl. lia. Qed.

Lemma on_done_bind_grows {A C} (m : T A) (k : A → T C) Q s0 s :
  grows m → extends s0 s → (∀ a s', extends s0 s' → on_done (k a) Q s') →
  on_done (m ≫= k) Q s.
Proof.
  intros Hm Hs Hk. apply on_done_bind. unfold on_done at 1, wp. specialize (Hm s).
  destruct (m s).1; [|done..]. apply Hk. by eapply extends_trans.
Qed.

Lemma grows_get_timestamp msgs : grows (get_timestamp msgs).
Proof. unfold get_timestamp. grow. Qed.

Lemma grows_halted : grows halted.
Proof. unfold halted. grow. Qed.

#[local] Hint Resolve grows_get_timestamp grows_halted : grows.

Lemma grows_report_tx o sock usec seq tA : grows (report_tx o sock usec seq tA).
Proof. unfold report_tx, extract_ts_from_cmsg. grow. Qed.

#[local] Hint Resolve grows_report_tx : grows.

Lemma grows_send_round o sock a x : grows (send_round o sock a x).
Proof. unfold send_round, get_time_nanosec, exit_with_error. grow. Qed.

Lemma grows_send_round_etf o sock a x : grows (send_round_etf o sock a x).
Proof. unfold send_round_etf, get_time_nanosec. grow. Qed.

Lemma grows_recv_pkt sock o : grows (afpkt_recv_pkt sock o).
Proof. unfold afpkt_recv_pkt, log_packet, get_time_nanosec. grow. Qed.

#[local] Hint Resolve grows_send_round grows_send_round_etf grows_recv_pkt : grows.

Lemma grows_rx_loop fuel o sock :
  grows (rx_loop fuel o (_ ← afpkt_recv_pkt sock o; mret tt)).
Proof. unfold rx_loop. grow. Qed.

Lemma grows_init_tx_socket o a : grows (init_tx_socket o a).
Proof. unfold init_tx_socket, with_ifname, exit_with_error. grow. Qed.

Lemma grows_init_rx_socket e i : grows (init_rx_socket e i).
Proof. unfold init_rx_socket, exit_with_error. grow. Qed.

Lemma send_thread_closes fuel o fd a n s :
  n <= closes fd (trace s) →
  on_done (if enable_txtime o =? 0 then afpkt_send_thread fuel o fd a
           else afpkt_send_thread_etf fuel o fd a)
    (λ _ s', n + 1 <= closes fd (trace s')) s.
Proof.
  intros Hn. destruct (enable_txtime o =? 0);
    unfold afpkt_send_thread, afpkt_send_thread_etf, get_time_sec; cbv zeta.
  all: apply (on_done_bind_closes _ _ _ fd n); [auto with grows|done|].
  all: intros ? s1 H1; apply (on_done_bind_closes _ _ _ fd n); [grow|done|].
  all: intros ? s2 H2; apply (on_done_bind_closes _ _ _ fd n);
    [apply adds_loop; auto with grows|done|].
  all: intros ? s3 H3; by apply on_done_close.
Qed.
End main_lemmas.

(** A normal return of the AF_PACKET half closes its socket twice: the
    transmit thread (or the end of the receive loop) closes it, and main() closes
    the same descriptor again after the logs have been copied. *)
Theorem afpkt_socket_closed_twice {OS : txrx_os} {B : build} fuel o s :
  on_done (main_afpkt fuel o)
    (λ r s', r = 0 ∧ ∃ fd, closes fd (trace s) + 2 <= closes fd (trace s')) s.
Proof.
  unfold main_afpkt. cbv zeta.
  assert (∀ fd t, closes fd (trace s) + 1 <= closes fd (trace t) →
    on_done (ts_log_stop fuel;; tell (Close fd);; (mret 0 : T Z))
      (λ r s', r = 0 ∧ ∃ fd, closes fd (trace s) + 2 <= closes fd (trace s')) t) as Hend.
  { intros fd t Ht. eapply on_done_bind_closes; [apply grows_ts_log_stop|exact Ht|].
    intros [] t' Ht'. unfold on_done, wp. simpl. split; [done|]. exists fd.
    rewrite Z.eqb_refl. lia. }
  apply (on_done_bind_grows _ _ _ s); [apply grows_ts_log_start|apply extends_refl|].
  intros _ s1 H1. destruct (mode o =? MODE_TX); [|destruct (mode o =? MODE_RX); [|done]].
  - apply on_done_bind, (on_done_bind_grows _ _ _ s); [apply grows_init_tx_socket|done|].
    intros [fd a] s2 H2. apply on_done_bind.
    pose proof (send_thread_closes fuel o fd a (closes fd (trace s)) s2) as Hc.
    unfold on_done at 1, wp at 1. unfold on_done, wp in Hc.
    destruct (_ s2).1; [|done..]. apply Hend, Hc. by apply closes_mono.
  - apply on_done_bind, (on_done_bind_grows _ _ _ s); [apply grows_init_rx_socket|done|].
    intros [ret fd] s2 H2. apply (on_done_bind_grows _ _ _ s); [apply adds_modify|done|].
    intros _ s3 H3. apply (on_done_bind_grows _ _ _ s); [apply grows_rx_loop|done|].
    intros _ s4 H4. unfold on_done at 1, wp at 1. simpl. apply Hend. simpl.
    rewrite Z.eqb_refl. pose proof (closes_mono fd _ _ H4). lia.
Qed.

Lemma main_afpkt_returns {OS : txrx_os} fuel o s :
  on_done (main_afpkt fuel o) (λ r _, r = 0 ∧ (mode o = MODE_TX ∨ mode o = MODE_RX)) s.
Proof.
  unfold main_afpkt. apply on_done_skip. intros [] s1.
  destruct (mode o =? MODE_TX) eqn:E1, (mode o =? MODE_RX) eqn:E2; bool_to_prop; try done.
  all: do 3 (apply on_done_skip; intros); unfold on_done, wp; simpl; auto.
Qed.

Lemma main_afxdp_exits {OS : txrx_os} {B : build} fuel o s :
  on_done (main_afxdp fuel o) (λ _ _, False) s.
Proof.
  unfold main_afxdp. do 3 (apply on_done_skip; intros). unfold xdpsock_cleanup.
  by do 3 (apply on_done_skip; intros).
Qed.

(** Main() returns normally only when an interface was named and exists,
    and an AF_PACKET mode was chosen; it then returns 0.  Every other
    combination of options ends in exit(), the AF_XDP ones included. *)
Theorem main_returns_only_afpkt {OS : txrx_os} {B : build} fuel argv s :
  let parsed := argp_parse argp argv default_user_opt
                  (mkSt ((glob s) {{ verbose := 0 }}) (trace s)) in
  on_done (main fuel argv)
    (λ r s', r = 0 ∧ ∃ o s1 name,
       parsed = (Done o, s1) ∧ ifname o = Some name ∧
       u32 (os_if_nametoindex (IfNametoindex name :: trace s1)) ≠ 0 ∧
       socket_mode o = MODE_AFPKT ∧ (mode o = MODE_TX ∨ mode o = MODE_RX)) s.
Proof.
  intros parsed. unfold main, main_options. do 2 apply on_done_bind. unfold modify, on_done at 1, wp at 1.
  cbn [fst snd]. apply on_done_bind. fold parsed. unfold on_done at 1, wp at 1. fold parsed.
  destruct parsed as [[o|c| |] s1] eqn:Ep; [|done..]. cbn [fst snd].
  destruct (ifname o) as [name|] eqn:En; [|done].
  apply on_done_bind. unfold on_done at 1, wp at 1, ask. cbn [fst snd]. cbv zeta.
  set (o' := o {{ ifindex := _ }}). set (s2 := mkSt _ _).
  assert (ifindex o' = u32 (os_if_nametoindex (IfNametoindex name :: trace s1)) ∧
          socket_mode o' = socket_mode o ∧ mode o' = mode o) as (E1 & E2 & E3)
    by (by destruct o).
  destruct (ifindex o' =? 0) eqn:Ei; [done|]. bool_to_prop.
  unfold on_done at 1, wp at 1. cbn [mret M_ret fst snd].
  destruct (socket_mode o' =? MODE_AFPKT) eqn:Es; bool_to_prop.
  - pose proof (main_afpkt_returns fuel o' s2) as H. unfold on_done, wp in H |- *.
    destruct (main_afpkt fuel o' s2).1; [|done..]. destruct H as [H Hm].
    split; [done|]. exists o, s1, name. rewrite <- E1, <- E2, <- E3. auto.
  - destruct (socket_mode o' =? MODE_AFXDP); [|done].
    pose proof (main_afxdp_exits fuel o' s2) as H. unfold on_done, wp in H |- *.
    by destruct (main_afxdp fuel o' s2).1.
Qed.

(** ** Witnesses *)

(** A system whose log files hold one byte and can be opened. *)
Definition demo_fgetc (b : Z) (tr : list call) : option Z :=
  match tr with Fgetc p :: tr => [b] !! bytes_read p tr | _ => None end.

Definition demo_file_os (b : Z) : txrx_os :=
  make_os (Build_demo_params 5 (λ _, (0, [], [])) true (demo_fgetc b) demo_ring (0, 0) (λ _, ∅)).

Lemma copy_file_copies_witness :
  let r := @copy_file (demo_file_os 65) 2 (Some ptp4l_log) (Some total_ptp4l_log) true
             (mkSt init_txrx_glob []) in
  r.1 = Done tt ∧ written total_ptp4l_log (trace r.2) = [65].
Proof.
  destruct (@copy_file_copies (demo_file_os 65) 2 ptp4l_log total_ptp4l_log [65] true
    (mkSt init_txrx_glob [])) as (H1 & _ & H2 & _).
  - discriminate.
  - intros tr. reflexivity.
  - reflexivity.
  - simpl. lia.
  - split; [exact H1|exact H2].
Defined.

Lemma afpkt_rx_loop_exit_witness :
  let r := @rx_loop (demo_txrx_os demo_frame) 2 demo_user_opt
             (_ ← @afpkt_recv_pkt (demo_txrx_os demo_frame) 7 demo_user_opt; mret tt)
             (mkSt init_txrx_glob []) in
  r.1 = Done tt ∧ (r.1 = NoFuel ∨
    r.1 = Done tt ∧ (halt_tx_sig (glob r.2) ≠ 0 ∨ frames_to_send demo_user_opt <= glob_rx_seq (glob r.2))).
Proof.
  split; [vm_compute; reflexivity|].
  exact (@afpkt_rx_loop_exit (demo_txrx_os demo_frame) 2 demo_user_opt 7
    (mkSt init_txrx_glob []) (demo_timestamping_ok demo_frame)).
Defined.

(** A system that refuses sockets. *)
Definition demo_no_socket_os : txrx_os :=
  make_os ((demo_dp []) {{ dp_socket := -1; dp_recvmsg := λ _, (-1, [], []) }}).

Lemma rx_socket_failure_spins_witness :
  ∀ fuel, wp ('(_, sockfd) ← @init_rx_socket demo_no_socket_os ETH_UADP [];
      modify (λ g, g {{ glob_rx_seq := 0 }});;
      @rx_loop demo_no_socket_os fuel demo_user_opt
        (_ ← @afpkt_recv_pkt demo_no_socket_os sockfd demo_user_opt; mret tt))
     (λ out _, out = NoFuel) (mkSt init_txrx_glob []).
Proof.
  intros fuel.
  apply (@rx_socket_failure_spins demo_no_socket_os fuel demo_user_opt ETH_UADP []
    (mkSt init_txrx_glob [])).
  - reflexivity.
  - discriminate.
  - reflexivity.
  - reflexivity.
  - reflexivity.
Defined.
