(* ===== verification/TxrxLink.v ===== *)
(** * TXRX-TSN: from the transmit thread to the receiver's log

    The AF_PACKET transmit thread of one host and the receive loop of another,
    with a network in between that may lose packets and delay them but keeps
    their order. *)

From S2P Require Import Prelude Sys Libc Txrx Afpkt TxrxMain.

Local Open Scope Z_scope.

(** ** Specification *)

(** The packets handed to the kernel, oldest first. *)
Definition frames (tr : list call) : list (list Z) :=
  reverse (omap (λ c, match c with
                      | Sendto _ buf _ | Sendmsg _ buf _ _ => Some buf
                      | _ => None
                      end) tr).

(** The result lines printed, oldest first. *)
Definition printed (tr : list call) : list (list Z) := reverse (lines tr).

(** Reads of the receive socket. *)
Fixpoint recvs (sock : Z) (tr : list call) : nat :=
  match tr with
  | [] => 0
  | Recvmsg fd false _ :: tr => (if fd =? sock then 1 else 0) + recvs sock tr
  | _ :: tr => recvs sock tr
  end.

(** The k-th read gets the k-th input: a packet, or a time-out. *)
Definition inputs_of `{!txrx_os} (sock : Z) (inputs : list (option (list Z))) : Prop :=
  ∀ tr, match inputs !! recvs sock tr with
        | Some (Some buf) => ∃ len macs msgs, 0 < len ∧ length macs = 12%nat ∧
            os_recvmsg (Recvmsg sock false RECV_IOV_LEN :: tr) = (len, delivered macs buf, msgs)
        | Some None => (os_recvmsg (Recvmsg sock false RECV_IOV_LEN :: tr)).1.1 <= 0
        | None => True
        end.

(** Packet number [n] of the sender with options [o]. *)
Definition carries (o : user_opt) (buf : list Z) (n : Z) : Prop :=
  ∃ t, wire_ok o n t buf ∧ 0 <= t < 2 ^ 63.

(** The line that the receiver prints for a packet. *)
Definition line_for (o : user_opt) (buf line : list Z) : Prop :=
  ∃ n t rxC rxD, wire_ok o n t buf ∧
    line = [i64 (rxD - t); n; socket_prio o; t; i64 rxC; i64 rxD].

(** The transmit thread that main() chooses. *)
Definition transmit `{!txrx_os} (fuel : nat) (o : user_opt) (fd : Z) (a : sockaddr_ll) : T unit :=
  if enable_txtime o =? 0 then afpkt_send_thread fuel o fd a
  else afpkt_send_thread_etf fuel o fd a.

(** ** Lemmas: the sender *)

Lemma frames_cons c tr :
  frames (c :: tr) = frames tr ++ match c with
                                  | Sendto _ buf _ | Sendmsg _ buf _ _ => [buf]
                                  | _ => []
                                  end.
Proof. unfold frames. destruct c; simpl; rewrite ?reverse_cons, ?app_nil_r; done. Qed.

Lemma length_frames tr : Z.of_nat (length (frames tr)) = sent tr.
Proof.
  induction tr as [|c tr IH]; [done|]. rewrite frames_cons, length_app.
  destruct c; simpl in *; lia.
Qed.

(** The clock of the sender. *)
Definition clock_sane `{!txrx_os} : Prop := ∀ tr, 0 <= ns_of (os_clock tr) < 2 ^ 63.

(** Packets on schedule are numbered from 1. *)
Lemma schedule_frames `{!txrx_os} o a sock base tr :
  clock_sane → schedule o a sock base tr →
  Forall2 (carries o) (frames tr) (seqZ 1 (sent tr)).
Proof.
  intros Hc. induction tr as [|c tr IH]; [done|]. intros Hs. rewrite frames_cons.
  assert (∀ fd buf a', slot_ok o a sock base fd buf a' tr → schedule o a sock base tr →
    Forall2 (carries o) (frames tr ++ [buf]) (seqZ 1 (1 + sent tr))) as Hslot.
  { intros fd buf a' (_ & _ & before & E & Hw) Hs'.
    pose proof (length_frames tr) as Hl.
    replace (1 + sent tr) with (sent tr + 1) by lia.
    rewrite seqZ_app by lia. apply Forall2_app; [by apply IH|].
    constructor; [|done]. exists (u64 (ns_of (os_clock tr))).
    specialize (Hc tr). rewrite wrapU_small in * by lia.
    rewrite E in *. cbn [sent] in *. split; [|done].
    replace (1 + sent before) with (sent before + 1) by lia. exact Hw. }
  destruct c; cbn [schedule sent] in *; rewrite ?app_nil_r; try (apply IH, Hs).
  - destruct Hs as [H1 H2]. by eapply Hslot.
  - destruct Hs as [[H1 _] H2]. by eapply Hslot.
Qed.

(** ** Lemmas: a receive loop over its inputs *)

Lemma printed_cons c tr :
  printed (c :: tr) = printed tr ++ match c with Stdout l => [l] | _ => [] end.
Proof. unfold printed, lines. destruct c; simpl; rewrite ?reverse_cons, ?app_nil_r; done. Qed.

Lemma printed_cons_nil c tr :
  match c with Stdout _ => False | _ => True end → printed (c :: tr) = printed tr.
Proof. intros H. rewrite printed_cons. destruct c; done || apply app_nil_r. Qed.

Section receive_loop.
(** [recv] in the state [ready] takes the input at the position [pos] of the
    trace and prints lines related by [R] to what [keep] leaves of it. *)
Context {OS : txrx_os} (o' : user_opt) (recv : T unit) (inputs : list (option (list Z))).
Context (ready : st txrx_glob call → Prop) (pos : list call → nat).
Context (R : list Z → list Z → Prop) (keep : list (list Z) → list (list Z)).
Context (early final : option (list Z) → Prop).
Implicit Types s : st txrx_glob call.

Definition reads (after : Z → Prop) (i : option (list Z)) s : Prop :=
  wp recv (λ out s', out = Done tt ∧ ready s' ∧ pos (trace s') = S (pos (trace s)) ∧
             after (glob_rx_seq (glob s')) ∧
             ∃ ls, printed (trace s') = printed (trace s) ++ ls ∧
                   Forall2 R (keep (option_list i)) ls) s.

Lemma rx_loop_reads pre lst fuel s :
  (∀ a b, keep (a ++ b) = keep a ++ keep b) → (∀ tr, os_signals tr = []) →
  (∀ t, ready t → halt_tx_sig (glob t) = 0 ∧ ready (mkSt (glob t) (Observe :: trace t))) →
  (∀ tr, pos (Observe :: tr) = pos tr) →
  (∀ t i, ready t → inputs !! pos (trace t) = Some i → early i →
     glob_rx_seq (glob t) < frames_to_send o' → reads (λ n, n < frames_to_send o') i t) →
  (∀ t i, ready t → inputs !! pos (trace t) = Some i → final i →
     reads (λ n, frames_to_send o' <= n) i t) →
  pre ++ [lst] `prefix_of` drop (pos (trace s)) inputs → ready s →
  glob_rx_seq (glob s) < frames_to_send o' → Forall early pre → final lst →
  (length pre < fuel)%nat →
  wp (rx_loop fuel o' recv)
     (λ out s', out = Done tt ∧ ready s' ∧ ∃ ls, printed (trace s') = printed (trace s) ++ ls ∧
        Forall2 R (keep (omap id (pre ++ [lst]))) ls) s.
Proof.
  intros Hkeep Hsig Hready Hpos Hearly Hfinal. revert pre s.
  induction fuel as [|fuel IH]; intros pre s Hpre Hs Hseq He Hl Hf; [lia|].
  destruct (Hready s Hs) as [Hh Hs1]. unfold rx_loop. cbn [loop]. set (go := loop fuel _).
  do 2 apply wp_bind. apply wp_halted. rewrite Hsig. cbn [List.last]. cbv zeta. rewrite Hh.
  cbn [Z.eqb negb]. set (s1 := mkSt (glob s) (Observe :: trace s)) in *.
  assert (mkSt ((glob s) {{ halt_tx_sig := 0 }}) (Observe :: trace s) = s1) as ->
    by (rewrite <- Hh; unfold s1; by destruct (glob s)).
  assert (printed (trace s1) = printed (trace s)) as Ep1 by by apply printed_cons_nil.
  assert (pos (trace s1) = pos (trace s)) as Epos by apply Hpos.
  apply wp_bind. destruct pre as [|i pre]; apply prefix_drop_cons in Hpre as [Hi Hpre];
    rewrite <- Epos in Hi.
  - eapply wp_mono; [by apply (Hfinal s1)|]. intros out s2 (-> & Hs2 & _ & Hn & ls & Ep & HR).
    apply wp_bind. unfold get, wp at 1. cbn [fst snd]. apply wp_ret.
    rewrite Z.geb_leb, (proj2 (Z.leb_le _ _)) by done. apply wp_ret. do 2 (split; [done|]).
    exists ls. rewrite Ep, Ep1. split; [done|]. destruct lst; exact HR.
  - apply Forall_cons in He as [Hi' He].
    eapply wp_mono; [by apply (Hearly s1)|]. intros out s2 (-> & Hs2 & Epos2 & Hn & ls & Ep & HR).
    apply wp_bind. unfold get, wp at 1. cbn [fst snd]. apply wp_ret.
    rewrite Z.geb_leb, (proj2 (Z.leb_gt _ _)) by done.
    eapply wp_mono; [apply (IH pre s2); try done; [by rewrite Epos2, Epos|simpl in Hf; lia]|].
    intros out s3 (-> & Hs3 & ls' & Ep' & HR'). do 2 (split; [done|]). exists (ls ++ ls').
    rewrite Ep', Ep, Ep1, app_assoc. split; [done|].
    assert (omap id ((i :: pre) ++ [lst]) = option_list i ++ omap id (pre ++ [lst])) as ->
      by by destruct i.
    rewrite Hkeep. by apply Forall2_app.
Qed.
End receive_loop.

(** ** Lemmas: the receiver *)

(** A packet has one number. *)
Lemma carries_inj o buf n n' : carries o buf n → carries o buf n' → n = n'.
Proof. intros (? & [_ _ _ <- _] & _) (? & [_ _ _ <- _] & _). done. Qed.

Section receiver.
Context {OS : txrx_os} (o o' : user_opt) (sock : Z) (inputs : list (option (list Z))).
Implicit Types s : st txrx_glob call.

Lemma recvs_cons c tr :
  match c with Recvmsg _ false _ => False | _ => True end → recvs sock (c :: tr) = recvs sock tr.
Proof. destruct c; try done. by destruct errqueue. Qed.

(** One read of the receive loop. *)
Lemma receive_input s input :
  opt_wf o → timestamping_ok → inputs_of sock inputs →
  inputs !! recvs sock (trace s) = Some input →
  match input with Some buf => ∃ n, carries o buf n ∧ 1 <= n <= frames_to_send o | None => True end →
  wp (afpkt_recv_pkt sock o')
     (λ out s', out = Done 0 ∧ recvs sock (trace s') = S (recvs sock (trace s)) ∧
        match input with
        | Some buf => ∃ n line, carries o buf n ∧ line_for o buf line ∧
            glob s' = (glob s) {{ glob_rx_seq := n }} ∧
            printed (trace s') = printed (trace s) ++ [line]
        | None => glob s' = glob s ∧ printed (trace s') = printed (trace s)
        end) s.
Proof.
  intros Ho Hts Hin Hi Hbuf. pose proof (Hin (trace s)) as H. rewrite Hi in H.
  destruct input as [buf|].
  - destruct H as (len & macs & msgs & Hlen & Hmacs & Hr).
    destruct Hbuf as (n & (t & Hw & Ht) & Hn).
    eapply wp_mono; [by eapply (frame_is_logged o n t buf)|].
    intros out s' (-> & Hg & rxC & rxD & Et). split; [done|]. split.
    + rewrite Et. cbn [recvs]. by rewrite Z.eqb_refl.
    + exists n. eexists. split; [by exists t|]. split; [by exists n, t, rxC, rxD|].
      split; [done|]. rewrite Et, !printed_cons, !app_nil_r. done.
  - unfold afpkt_recv_pkt. apply wp_bind, wp_ask.
    destruct (os_recvmsg _) as [[ret data] msgs]. cbn [fst] in H.
    rewrite (proj2 (Z.leb_le ret 0)) by done. apply wp_bind, wp_ask, wp_ret.
    split; [done|]. cbn [trace glob recvs]. rewrite Z.eqb_refl. split; [done|].
    by rewrite !printed_cons, !app_nil_r.
Qed.

(** The loop over the inputs up to the last packet. *)
Lemma rx_loop_inputs pre lbuf fuel s :
  opt_wf o → timestamping_ok → inputs_of sock inputs → (∀ tr, os_signals tr = []) →
  frames_to_send o' = frames_to_send o →
  pre ++ [Some lbuf] `prefix_of` drop (recvs sock (trace s)) inputs → halt_tx_sig (glob s) = 0 →
  glob_rx_seq (glob s) < frames_to_send o →
  Forall (λ buf, ∃ n, carries o buf n ∧ 1 <= n < frames_to_send o) (omap id pre) →
  carries o lbuf (frames_to_send o) → (length pre < fuel)%nat →
  wp (rx_loop fuel o' (_ ← afpkt_recv_pkt sock o'; mret tt))
     (λ out s', out = Done tt ∧ ∃ ls, printed (trace s') = printed (trace s) ++ ls ∧
        Forall2 (line_for o) (omap id pre ++ [lbuf]) ls) s.
Proof.
  intros Ho Hts Hin Hsig Hfr Hpre Hh Hseq Hnums Hlast Hf. pose proof (wf_frames o Ho) as Hwf.
  set (numbered := λ (P : Z → Prop) (i : option (list Z)),
    match i with Some buf => ∃ n, carries o buf n ∧ 1 <= n <= frames_to_send o ∧ P n | None => True end).
  assert (∀ P i r, halt_tx_sig (glob r) = 0 → inputs !! recvs sock (trace r) = Some i →
    numbered P i → (i = None → P (glob_rx_seq (glob r))) →
    reads (_ ← afpkt_recv_pkt sock o'; mret tt) (λ s, halt_tx_sig (glob s) = 0) (recvs sock)
      (line_for o) id P i r) as Hreads.
  { intros P i r Hr Hi Hn Hnone. apply wp_bind. eapply wp_mono; [apply (receive_input r i Ho Hts Hin Hi)|].
    { destruct i; [|done]. destruct Hn as (n & ? & ? & _). by exists n. }
    intros out r' (-> & Epos & H). apply wp_ret. split; [done|]. destruct i as [buf|].
    - destruct H as (n & line & Hc & Hline & -> & Ep). destruct Hn as (n' & Hc' & _ & HP).
      rewrite (carries_inj o buf n n' Hc Hc'). destruct (glob r). do 3 (split; [done|]).
      exists [line]. split; [done|]. by repeat constructor.
    - destruct H as [-> Ep]. do 2 (split; [done|]). split; [by apply Hnone|]. exists [].
      by rewrite Ep, app_nil_r. }
  eapply wp_mono.
  { apply (rx_loop_reads o' (_ ← afpkt_recv_pkt sock o'; mret tt) inputs
      (λ s, halt_tx_sig (glob s) = 0) (recvs sock) (line_for o) id
      (numbered (λ n, n < frames_to_send o)) (λ i, i = Some lbuf)) with (pre := pre) (lst := Some lbuf);
      rewrite ?Hfr; try done.
    - intros r i Hr Hi He Hq. by apply Hreads.
    - intros r i Hr Hi ->. apply Hreads; [done|done| |done].
      exists (frames_to_send o). split; [done|]. split; lia.
    - apply Forall_forall. intros [buf|] Hi; [|done].
      destruct (proj1 (Forall_forall _ _) Hnums buf) as (n & Hn & Hr).
      { apply list_elem_of_omap. by exists (Some buf). }
      exists n. split; [done|]. lia. }
  intros out s' (-> & _ & ls & Ep & Hls). split; [done|]. exists ls. split; [done|].
  by rewrite omap_app in Hls.
Qed.
End receiver.

(** The packets of a run of the sender are numbered from 1. *)
Lemma transmit_frames {OS : txrx_os} fuel o fd a s :
  opt_wf o → mac_wf (dst_mac_addr (glob s)) → timestamping_ok → clock_sane →
  sent (trace s) = 0 → frames_to_send o < Z.of_nat fuel →
  wp (transmit fuel o fd a)
     (λ _ s', ∃ n, 0 <= n <= frames_to_send o ∧
                   Forall2 (carries o) (frames (trace s')) (seqZ 1 n)) s.
Proof.
  intros Ho Hm Hts Hc Hs Hf. unfold transmit. destruct (enable_txtime o =? 0).
  - eapply wp_mono; [by apply send_thread_run|]. intros out s' (_ & Hn & Hsch & _).
    exists (sent (trace s')). split; [split; [apply sent_nonneg|done]|].
    by eapply schedule_frames.
  - eapply wp_mono; [by apply send_thread_etf_run|]. intros out s' (_ & _ & Hn & Hsch & _).
    exists (sent (trace s')). split; [split; [apply sent_nonneg|done]|].
    by eapply schedule_frames.
Qed.

(** The number in a line is the number in the packet. *)
Lemma lines_numbers o bufs ns ls :
  Forall2 (carries o) bufs ns → Forall2 (line_for o) bufs ls →
  (λ l, nth 1 l 0) <$> ls = ns.
Proof.
  intros H. revert ls. induction H as [|buf n bufs ns (t & Hw & _) _ IH]; intros ls Hl.
  - by inversion Hl.
  - apply Forall2_cons_inv_l in Hl as (l & ls' & (n' & t' & C & D & Hw' & ->) & Hl & ->).
    cbn [fmap list_fmap nth]. rewrite (IH ls' Hl). f_equal.
    destruct Hw as [_ _ _ <- _], Hw' as [_ _ _ <- _]. done.
Qed.

(** Of packets numbered from 1, some of which arrive, in order, the last among
    them. *)
Lemma arrived_are_logged {OS : txrx_os} fuel o o' sock inputs fs N r :
  opt_wf o → Forall2 (carries o) fs (seqZ 1 N) → 0 <= N <= frames_to_send o →
  omap id inputs `sublist_of` fs →
  (∃ buf, last (omap id inputs) = Some buf ∧ pl_seq buf 4 = frames_to_send o) →
  timestamping_ok → inputs_of sock inputs → (∀ tr, os_signals tr = []) →
  frames_to_send o' = frames_to_send o → halt_tx_sig (glob r) = 0 →
  glob_rx_seq (glob r) = 0 → recvs sock (trace r) = 0%nat → (length inputs < fuel)%nat →
  wp (rx_loop fuel o' (_ ← afpkt_recv_pkt sock o'; mret tt))
     (λ out r', out = Done tt ∧ ∃ ls, printed (trace r') = printed (trace r) ++ ls ∧
        Forall2 (line_for o) (omap id inputs) ls ∧
        ((λ l, nth 1 l 0) <$> ls) `sublist_of` seqZ 1 (frames_to_send o) ∧
        (omap id inputs = fs → (λ l, nth 1 l 0) <$> ls = seqZ 1 (frames_to_send o))) r.
Proof.
  intros Ho Hfs HN Hsub (lbuf & Hlast & Hnum) HtsR Hin Hsig Hfr Hh Hseq Hr Hf'.
  pose proof (wf_frames o Ho) as Hwf.
  destruct (Forall2_sublist _ _ _ _ Hsub Hfs) as (ns & Hns & Hc2).
  destruct (omap_last_split inputs lbuf Hlast) as (pre & tail & Ei & Eo).
  rewrite Eo in Hc2. apply Forall2_app_inv_l in Hc2 as Hc3.
  destruct Hc3 as (ns1 & ns2 & Hc3 & Hn2 & ->).
  apply Forall2_cons_inv_l in Hn2 as (n & ns3 & Hn & Hnil & ->). inversion Hnil; subst ns3.
  assert (n = frames_to_send o) as -> by (destruct Hn as (t & [_ _ _ En _] & _); congruence).
  assert (Forall (λ n, 1 <= n) (ns1 ++ [frames_to_send o])) as Hpos.
  { eapply Forall_sublist; [exact Hns|]. apply Forall_forall. intros n ?%elem_of_seqZ. lia. }
  apply Forall_app in Hpos as [Hpos _].
  assert (Forall (λ n, n < frames_to_send o) ns1) as Hlt
    by (apply sorted_snoc_lt; eapply StronglySorted_sublist; [exact Hns|apply StronglySorted_seqZ]).
  eapply wp_mono.
  { apply (rx_loop_inputs o o' sock inputs pre lbuf fuel r); try done.
    - exists tail. by rewrite Hr, Ei, <- app_assoc.
    - rewrite Hseq. lia.
    - eapply Forall2_Forall_l; [exact Hc3|]. rewrite Forall_forall in *. intros n Hn1 buf Hb.
      exists n. auto.
    - rewrite Ei, length_app in Hf'. simpl in Hf'. lia. }
  rewrite Eo in Hsub |- *. intros out r' (-> & ls & Ep & Hls). split; [done|]. exists ls.
  do 2 (split; [done|]). rewrite (lines_numbers _ _ _ _ Hc2 Hls). split.
  - etrans; [exact Hns|]. apply prefix_of_sublist.
    exists (seqZ (1 + N) (frames_to_send o - N)). rewrite <- seqZ_app by lia. f_equal. lia.
  - intros E. apply sublist_same_length in Hns as E2.
    2: { apply Forall2_length in Hc2, Hfs. rewrite E in Hc2. congruence. }
    assert (frames_to_send o ∈ seqZ 1 N) as ?%elem_of_seqZ
      by (rewrite <- E2; apply elem_of_app; right; by apply list_elem_of_singleton).
    rewrite E2. f_equal. lia.
Qed.

(** ** Properties *)

Section link.
Context {OSR : txrx_os}.   (* the host of the receiver *)

(** When the last packet is lost, the receiver waits for ever: with nothing but
    earlier packets and time-outs, and no signal, the loop runs as long as it is
    given fuel. *)
Theorem lost_last_packet_blocks fuel o o' sock inputs r :
  opt_wf o → @timestamping_ok OSR → @inputs_of OSR sock inputs →
  Forall (λ i, match i with
               | Some buf => ∃ n, carries o buf n ∧ 1 <= n < frames_to_send o
               | None => True
               end) inputs →
  (∀ tr, inputs !! recvs sock tr = None →
         (@os_recvmsg OSR (Recvmsg sock false RECV_IOV_LEN :: tr)).1.1 <= 0) →
  (∀ tr, @os_signals OSR tr = []) → frames_to_send o' = frames_to_send o →
  halt_tx_sig (glob r) = 0 → glob_rx_seq (glob r) < frames_to_send o →
  wp (@rx_loop OSR fuel o' (_ ← @afpkt_recv_pkt OSR sock o'; mret tt))
     (λ out _, out = NoFuel) r.
Proof.
  intros Ho Hts Hin Hall Hsilent Hsig Hfr Hh Hseq. unfold rx_loop.
  apply (wp_loop (λ _ t, halt_tx_sig (glob t) = 0 ∧ glob_rx_seq (glob t) < frames_to_send o));
    [|done|done].
  intros [] t [H1 H2]. apply wp_bind, wp_halted. rewrite Hsig. cbn [List.last]. cbv zeta.
  rewrite H1. cbn [Z.eqb negb]. set (t1 := mkSt _ _).
  assert (halt_tx_sig (glob t1) = 0 ∧ glob_rx_seq (glob t1) < frames_to_send o) as [H3 H4]
    by (unfold t1; by destruct (glob t)).
  do 2 apply wp_bind.
  apply (wp_mono _ (λ out t', out = Done 0 ∧ halt_tx_sig (glob t') = 0 ∧
                              glob_rx_seq (glob t') < frames_to_send o)).
  2: { intros out t' (-> & H5 & H6). apply wp_ret, wp_bind. unfold get, wp at 1. cbn [fst snd].
       apply wp_ret. rewrite Hfr, Z.geb_leb, (proj2 (Z.leb_gt _ _)) by done. done. }
  destruct (inputs !! recvs sock (trace t1)) as [input|] eqn:Ei.
  - pose proof (Forall_lookup_1 _ _ _ _ Hall Ei) as Hi.
    eapply wp_mono; [apply (receive_input o o' sock inputs t1 input Ho Hts Hin Ei)|].
    { destruct input; [|done]. destruct Hi as (n & Hn & ?). exists n. split; [done|lia]. }
    intros out t' (-> & _ & H). split; [done|]. destruct input as [buf|].
    + destruct H as (n & _ & Hn & _ & -> & _). destruct Hi as (n' & Hn' & Hlt).
      assert (n = n') as -> by by apply (carries_inj o buf).
      destruct (glob t1). simpl in *. lia.
    + destruct H as [-> _]. done.
  - specialize (Hsilent (trace t1) Ei). unfold afpkt_recv_pkt. apply wp_bind, wp_ask.
    destruct (os_recvmsg _) as [[ret data] msgs]. cbn [fst] in Hsilent.
    rewrite (proj2 (Z.leb_le ret 0)) by done. by apply wp_bind, wp_ask, wp_ret.
Qed.
End link.

(** ** Witnesses *)

(** A receiver (descriptor 7) whose reads get [inputs], then time-outs. *)
Definition demo_macs : list Z := [1; 2; 3; 4; 5; 6; 0xaa; 0; 0xaa; 0; 0xaa; 0].

Definition demo_link_os (inputs : list (option (list Z))) : txrx_os :=
  make_os ((demo_dp []) {{ dp_socket := 7 }} {{ dp_recvmsg := λ tr,
    match tr with
    | Recvmsg _ _ _ :: tr =>
        match inputs !! recvs 7 tr with
        | Some (Some buf) => (64, delivered demo_macs buf, [])
        | _ => (-1, [], [])
        end
    | _ => (-1, [], [])
    end }}).

Lemma demo_link_ok inputs :
  @inputs_of (demo_link_os inputs) 7 inputs ∧ @timestamping_ok (demo_link_os inputs) ∧
  (∀ tr, inputs !! recvs 7 tr = None →
     (@os_recvmsg (demo_link_os inputs) (Recvmsg 7 false RECV_IOV_LEN :: tr)).1.1 <= 0).
Proof.
  split; [|split].
  - intros tr. cbn. destruct (inputs !! recvs 7 tr) as [[buf|]|]; [|done..].
    by exists 64, demo_macs, [].
  - intros tr ret data msgs ts E Hts. assert (msgs = []) as ->; [|discriminate].
    cbn in E. repeat case_match; by simplify_eq.
  - intros tr E. cbn. by rewrite E.
Qed.

(** Packet number [n] of [demo_user_opt]. *)
Definition demo_frame_no (n : Z) : list Z :=
  wire demo_user_opt
    (set_tx_timestampA
       (set_seq (packet_template demo_user_opt (dst_mac_addr init_txrx_glob)) off_payload n)
       off_payload 1000000000005).

Lemma demo_carries n : 0 <= n < 2 ^ 32 → carries demo_user_opt (demo_frame_no n) n.
Proof.
  intros Hn. exists 1000000000005. split; [|done]. apply stamp_ok; [exact demo_user_opt_wf| |done|done].
  apply packet_template_ok; [exact demo_user_opt_wf|exact init_mac_wf].
Qed.

Lemma lost_last_packet_blocks_witness :
  let inputs := [Some (demo_frame_no 1); None] in
  wp (@rx_loop (demo_link_os inputs) 100 demo_user_opt
       (_ ← @afpkt_recv_pkt (demo_link_os inputs) 7 demo_user_opt; mret tt))
     (λ out _, out = NoFuel) (mkSt init_txrx_glob []).
Proof.
  intros inputs.
  apply (@lost_last_packet_blocks (demo_link_os inputs) 100 demo_user_opt demo_user_opt 7 inputs
    (mkSt init_txrx_glob [])).
  - exact demo_user_opt_wf.
  - apply demo_link_ok.
  - apply demo_link_ok.
  - constructor; [|by constructor]. exists 1. split; [apply demo_carries; lia|done].
  - apply demo_link_ok.
  - reflexivity.
  - reflexivity.
  - reflexivity.
  - reflexivity.
Defined.
