(* ===== verification/TxrxProcess.v ===== *)
(** * TXRX-TSN: two processes, from their command lines to the receiver's log

    main() of a sender and main() of a receiver over AF_PACKET: options, logs,
    sockets, the transmit thread, the receive loop and the way out. *)

From S2P Require Import Prelude Sys Libc Argp Txrx Afpkt Afxdp TxrxMain TxrxLink.

Local Open Scope Z_scope.

(** ** Specification *)

(** The state in which a process starts. *)
Definition fresh_process : st txrx_glob call := mkSt init_txrx_glob [].

(** The command line [argv] asks for the options [o]. *)
Definition asks `{!txrx_os} (argv : list word) (o : user_opt) : Prop :=
  (argp_parse argp argv default_user_opt fresh_process).1 = Done o.

(** The calls by which the receiver's host gives it [sock]. *)
Record rx_setup `{!txrx_os} (sock : Z) : Prop := {
  rs_interface : ∀ tr, u32 (os_if_nametoindex tr) ≠ 0;
  rs_socket : ∀ tr, os_socket tr = sock;
  rs_sock : 0 <= sock;
  rs_ioctl : ∀ tr, 0 <= os_ioctl tr;
  rs_ifindex : ∀ tr, 0 <= (os_ioctl_ifindex tr).1;
  rs_setsockopt : ∀ tr, 0 <= os_setsockopt tr;
  rs_bind : ∀ tr, os_bind tr = 0
}.

(** ** Lemmas: calls that carry no packets and print nothing *)

Definition aside (c : call) : Prop :=
  match c with
  | Sendto _ _ _ | Sendmsg _ _ _ _ | Recvmsg _ _ _ | Stdout _ => False
  | _ => True
  end.

(** The calls of the log copies. *)
Definition file_call (c : call) : Prop :=
  match c with Fopen _ _ | Fgetc _ | Fputc _ _ | Fclose _ => True | _ => False end.

Lemma aside_frames (s s' : st txrx_glob call) : extends_by aside s s' → frames (trace s') = frames (trace s).
Proof.
  intros (new & -> & H). induction H as [|c new Hc _ IH]; [done|]. simpl.
  rewrite frames_cons, IH. destruct c; try done; apply app_nil_r.
Qed.

Lemma aside_printed (s s' : st txrx_glob call) : extends_by aside s s' → printed (trace s') = printed (trace s).
Proof.
  intros (new & -> & H). induction H as [|c new Hc _ IH]; [done|]. simpl.
  rewrite printed_cons, IH. destruct c; try done; apply app_nil_r.
Qed.

Lemma aside_recvs sock (s s' : st txrx_glob call) : extends_by aside s s' → recvs sock (trace s') = recvs sock (trace s).
Proof.
  intros (new & -> & H). induction H as [|c new Hc _ IH]; [done|]. simpl.
  destruct c; try exact IH; done.
Qed.

Section aside.
Context {OS : txrx_os}.

Lemma copy_file_calls fuel a b c : adds file_call (copy_file fuel a b c).
Proof. unfold copy_file, copy_bytes. grow. Qed.

Lemma log_start_calls fuel : adds file_call (ts_log_start fuel).
Proof. unfold ts_log_start. apply adds_bind; intros; apply copy_file_calls. Qed.

Lemma log_stop_calls fuel : adds file_call (ts_log_stop fuel).
Proof. unfold ts_log_stop. apply adds_bind; intros; apply copy_file_calls. Qed.

Lemma file_call_aside c : file_call c → aside c.
Proof. by destruct c. Qed.

Lemma aside_log_start fuel : adds aside (ts_log_start fuel).
Proof. eapply adds_weaken, log_start_calls. apply file_call_aside. Qed.

Lemma aside_log_stop fuel : adds aside (ts_log_stop fuel).
Proof. eapply adds_weaken, log_stop_calls. apply file_call_aside. Qed.

Lemma aside_init_tx o a : adds aside (init_tx_socket o a).
Proof. unfold init_tx_socket, with_ifname, exit_with_error. grow. Qed.

Lemma aside_init_rx e i : adds aside (init_rx_socket e i).
Proof. unfold init_rx_socket, exit_with_error. grow. Qed.

(** A computation whose calls are aside, whatever its outcome. *)
Lemma wp_aside {A} (m : T A) (Q : outcome A → st txrx_glob call → Prop) s :
  adds aside m → (∀ out s', extends_by aside s s' → Q out s') → wp m Q s.
Proof. intros Hm HQ. unfold wp. apply HQ, Hm. Qed.
End aside.

(** ** Lemmas: the processes *)

Section process.
Context {OS : txrx_os} {B : build}.
Implicit Types s : st txrx_glob call.

Lemma asks_wf argv o : asks argv o → opt_wf o.
Proof.
  intros Ha. pose proof (argp_parse_run argv []) as Hp. unfold wp in Hp. unfold asks in Ha.
  change (mkSt init_txrx_glob []) with fresh_process in Hp. rewrite Ha in Hp. apply Hp.
Qed.

(** What main() goes on with: the options asked for and the interface's index. *)
Definition options_post (o : user_opt) (out : outcome user_opt) s : Prop :=
  match out with
  | Done o1 => ∃ name i, ifname o = Some name ∧ o1 = o {{ ifindex := i }} ∧
                 mac_wf (dst_mac_addr (glob s)) ∧ unparsed (glob s) = unparsed init_txrx_glob ∧
                 trace s = [IfNametoindex name]
  | _ => (ifname o = None ∨ ∃ tr, u32 (os_if_nametoindex tr) = 0) ∧
         extends_by aside fresh_process s
  end.

Lemma main_options_run argv o :
  asks argv o → wp (main_options argv) (options_post o) fresh_process.
Proof.
  intros Ha. unfold main_options. apply wp_bind. unfold modify, wp at 1. cbn [fst snd].
  change (mkSt _ _) with fresh_process. apply wp_bind.
  pose proof (argp_parse_run argv []) as Hp. change (mkSt init_txrx_glob []) with fresh_process in Hp.
  unfold asks in Ha. unfold wp in Hp |- * at 1.
  destruct (argp_parse argp argv default_user_opt fresh_process) as [out s1].
  cbn [fst snd] in *. subst out. destruct Hp as (Ho & Hm & Ht & Hh).
  destruct (ifname o) as [name|] eqn:En; [|split; [by left|exists []; split; [exact Ht|constructor]]].
  apply wp_bind, wp_ask. set (i := os_if_nametoindex _). cbv zeta. set (o1 := o {{ ifindex := _ }}).
  assert (ifindex o1 = u32 i) as -> by by destruct o. rewrite Ht.
  destruct (u32 i =? 0) eqn:Ei; bool_to_prop.
  - split; [right; by eexists|]. exists [IfNametoindex name]. by repeat constructor.
  - apply wp_ret. by exists name, (u32 i).
Qed.

Lemma unparsed_init (g : txrx_glob) :
  unparsed g = unparsed init_txrx_glob →
  halt_tx_sig g = 0 ∧ glob_rx_seq g = 0 ∧ glob_xskinfo g = None.
Proof. destruct g. unfold unparsed. simpl. by intros [=]. Qed.

(** main() up to the half for AF_PACKET. *)
Lemma main_start fuel argv o (Q : outcome Z → st txrx_glob call → Prop) :
  asks argv o → socket_mode o = MODE_AFPKT →
  (∀ out s, ifname o = None ∨ (∃ tr, u32 (os_if_nametoindex tr) = 0) →
            extends_by aside fresh_process s → Q out s) →
  (∀ s name i, mac_wf (dst_mac_addr (glob s)) → halt_tx_sig (glob s) = 0 →
     extends_by aside fresh_process s → ifname o = Some name →
     wp (main_afpkt fuel (o {{ ifindex := i }})) Q s) →
  wp (main fuel argv) Q fresh_process.
Proof.
  intros Ha Hmode Hfail Hk. unfold main. apply wp_bind.
  eapply wp_mono; [by apply main_options_run|].
  intros [o1|c| |] s1; cbn [abrupt]; try (intros [H1 H2]; by apply Hfail).
  intros (name & i & Hn & -> & Hm & Hu & Ht).
  assert (socket_mode (o {{ ifindex := i }}) = socket_mode o) as -> by by destruct o.
  rewrite Hmode. change (MODE_AFPKT =? MODE_AFPKT) with true.
  apply (Hk s1 name i); [done|by apply unparsed_init| |done].
  exists [IfNametoindex name]. split; [exact Ht|by repeat constructor].
Qed.

(** The options main() passes on differ in the interface's index only. *)
Lemma wf_ifindex o i : opt_wf o → opt_wf (o {{ ifindex := i }}).
Proof. intros []. destruct o. by split. Qed.

Lemma carries_ifindex o i buf n : carries (o {{ ifindex := i }}) buf n → carries o buf n.
Proof.
  intros (t & [W1 W2 W3 W4 W5] & Ht). exists t. split; [|done].
  destruct o; by split.
Qed.

(** The packets of a sender's whole life. *)
Lemma sender_frames fuel argv o :
  asks argv o → socket_mode o = MODE_AFPKT → mode o = MODE_TX →
  timestamping_ok → clock_sane → logs_copyable fuel → frames_to_send o < Z.of_nat fuel →
  wp (main fuel argv)
     (λ _ s', ∃ N, 0 <= N <= frames_to_send o ∧
        Forall2 (carries o) (frames (trace s')) (seqZ 1 N)) fresh_process.
Proof.
  intros Ha Hsock Hmode Hts Hc Hlogs Hf.
  assert (∀ s, opt_wf o → extends_by aside fresh_process s → ∃ N, 0 <= N <= frames_to_send o ∧
    Forall2 (carries o) (frames (trace s)) (seqZ 1 N)) as Hnone.
  { intros s Ho He. exists 0. rewrite (aside_frames _ _ He). pose proof (wf_frames o Ho).
    split; [lia|constructor]. }
  pose proof (asks_wf argv o Ha) as Ho.
  apply (main_start fuel argv o); [done|done|auto|].
  intros s name i Hm _ He Hname. set (o1 := o {{ ifindex := _ }}).
  assert (mode o1 = mode o ∧ frames_to_send o1 = frames_to_send o) as [Em Ef] by by destruct o.
  unfold main_afpkt. cbv zeta. rewrite Em, Hmode. change (MODE_TX =? MODE_TX) with true.
  apply wp_bind, (wp_adds aside); [apply aside_log_start|].
  eapply wp_mono; [by apply ts_log_start_done|]. intros out s1 [-> Eg] E1. cbn [abrupt].
  rewrite <- Eg in Hm. assert (extends_by aside fresh_process s1) as He1
    by (eapply extends_trans; [exact He|exact E1]).
  do 2 apply wp_bind. apply (wp_adds aside); [apply aside_init_tx|].
  assert (ifname o1 = ifname o) as Ei by by destruct o.
  eapply wp_mono; [apply (init_tx_socket_ready o1 _ name); congruence|].
  intros out s2 (new2 & _ & Eg2 & Hout) E2.
  assert (extends_by aside fresh_process s2) as He2
    by (eapply extends_trans; [exact He1|exact E2]).
  destruct out as [[fd a]|c| |]; cbn [abrupt]; [|by apply Hnone..]. clear Hout.
  change (if enable_txtime o1 =? 0 then _ else _) with (transmit fuel o1 fd a).
  rewrite <- Eg2 in Hm. apply wp_bind.
  eapply wp_mono; [apply (transmit_frames fuel o1 fd a s2); try done|].
  - by apply wf_ifindex.
  - rewrite <- length_frames, (aside_frames _ _ He2). done.
  - intros out s3 (N & HN & HF). rewrite Ef in HN.
    assert (Forall2 (carries o) (frames (trace s3)) (seqZ 1 N)) as HF3.
    { eapply Forall2_impl; [exact HF|]. intros f n. apply carries_ifindex. }
    destruct out as [[]|c| |]; cbn [abrupt]; [|by exists N..].
    apply wp_ret. apply wp_bind, wp_aside; [apply aside_log_stop|].
    intros out s4 E4. rewrite <- (aside_frames _ _ E4) in HF3.
    destruct out as [[]|c| |]; cbn [abrupt]; [|by exists N..].
    apply wp_bind, wp_ask, wp_ret. exists N. split; [done|].
    cbn [trace]. rewrite frames_cons, app_nil_r. exact HF3.
Qed.

(** *** The receiver *)

Lemma init_rx_done etype ifc sock s :
  rx_setup sock →
  wp (init_rx_socket etype ifc) (λ out s', out = Done (0, sock) ∧ glob s' = glob s) s.
Proof.
  intros [R1 R2 R3 R4 R5 R6 R7]. unfold init_rx_socket.
  apply wp_bind, wp_ask. rewrite R2, (proj2 (Z.ltb_ge sock 0)) by done. cbv zeta.
  apply wp_bind, wp_ask. match goal with |- context [os_ioctl_ifindex ?t] =>
    pose proof (R5 t); destruct (os_ioctl_ifindex t) as [ret ifi] end. cbn [fst] in *.
  rewrite (proj2 (Z.ltb_ge ret 0)) by done. apply wp_bind, wp_ask, wp_bind, wp_ask.
  rewrite R7. cbn [Z.eqb negb]. apply wp_bind. unfold get at 1, wp at 1. cbn [fst snd].
  apply wp_bind. apply (wp_mono _ (λ out s', ∃ r, out = Done r ∧ 0 <= r ∧ glob s' = glob s)).
  { case_match; [apply wp_ret; by exists 0|]. apply wp_ask. eexists. split; [done|].
    split; [apply R6|done]. }
  intros out s1 (r & -> & Hr & Eg). rewrite (proj2 (Z.ltb_ge r 0)) by done.
  apply wp_bind, wp_ask. rewrite (proj2 (Z.ltb_ge _ 0)) by apply R4.
  apply wp_bind, wp_ask. rewrite (proj2 (Z.ltb_ge _ 0)) by apply R6.
  by apply wp_ret.
Qed.

(** The receiver's whole life around its receive loop. *)
Lemma receiver_run fuel argv o sock name (R : list (list Z) → Prop) :
  asks argv o → socket_mode o = MODE_AFPKT → mode o = MODE_RX → ifname o = Some name →
  rx_setup sock → logs_copyable fuel →
  (∀ r i, halt_tx_sig (glob r) = 0 → glob_rx_seq (glob r) = 0 → recvs sock (trace r) = 0%nat →
     printed (trace r) = [] →
     wp (rx_loop fuel (o {{ ifindex := i }}) (_ ← afpkt_recv_pkt sock (o {{ ifindex := i }}); mret tt))
        (λ out r', out = Done tt ∧ R (printed (trace r'))) r) →
  wp (main fuel argv) (λ out s', out = Done 0 ∧ R (printed (trace s'))) fresh_process.
Proof.
  intros Ha Hsock Hmode Hname Hrx Hlogs Hloop.
  apply (main_start fuel argv o); [done|done|..].
  { intros out s [E|[tr E]] _; [congruence|]. by destruct (rs_interface sock Hrx tr). }
  intros s name' i Hm Hh He _. set (o1 := o {{ ifindex := _ }}).
  assert (mode o1 = mode o) as Em by by destruct o.
  unfold main_afpkt. cbv zeta. rewrite Em, Hmode.
  change (MODE_RX =? MODE_TX) with false. change (MODE_RX =? MODE_RX) with true. cbv iota.
  apply wp_bind, (wp_adds aside); [apply aside_log_start|].
  eapply wp_mono; [by apply ts_log_start_done|]. intros out s1 [-> Eg] E1. cbn [abrupt].
  do 2 apply wp_bind. apply (wp_adds aside); [apply aside_init_rx|].
  eapply wp_mono; [by apply init_rx_done|]. intros out s2 [-> Eg2] E2. cbn [abrupt].
  assert (extends_by aside fresh_process s2) as He2
    by (eapply extends_trans; [exact He|]; by eapply extends_trans).
  apply wp_bind. unfold modify at 1, wp at 1. cbn [fst snd]. set (s3 := mkSt _ _).
  apply wp_bind. eapply wp_mono; [apply (Hloop s3)|].
  - rewrite <- Hh, <- Eg, <- Eg2. simpl. by destruct (glob s2).
  - simpl. by destruct (glob s2).
  - apply (aside_recvs sock _ s2 He2).
  - apply (aside_printed _ s2 He2).
  - intros out s4 [-> HR]. cbn [abrupt]. apply wp_bind, wp_ask, wp_ret.
    apply wp_bind, (wp_adds aside); [apply aside_log_stop|].
    eapply wp_mono; [by apply ts_log_stop_done|]. intros out s5 [-> Eg5] E5. cbn [abrupt].
    apply wp_bind, wp_ask, wp_ret. split; [done|]. cbn [trace].
    rewrite printed_cons, app_nil_r, (aside_printed _ _ E5). cbn [trace].
    by rewrite printed_cons, app_nil_r.
Qed.
End process.

(** ** Properties *)

(** C4: end to end, from two command lines: when the network keeps the order of
    the packets, whatever it loses and whatever time-outs lie between them, and
    the last packet arrives, the receiver's process ends by itself with status 0,
    and all that it has printed is exactly one line for each packet that arrived,
    with that packet's number, queue and send time; the numbers increase, and none
    is missing when nothing is lost.  Assumed are that both command lines ask for
    the same number of packets, well-formed time stamps and a sender's clock
    that fits into 63 bits, the receiver's sockets, log files that can be copied with
    the fuel given, and for the sender one unit of fuel per packet and one more;
    the sender may fail at any point. *)
Theorem txrx_end_to_end {OSS OSR : txrx_os} {BS BR : build}
  fuel fuel' argv argv' o o' name sock inputs :
  @asks OSS argv o → socket_mode o = MODE_AFPKT → mode o = MODE_TX →
  @timestamping_ok OSS → @clock_sane OSS → @logs_copyable OSS fuel →
  frames_to_send o < Z.of_nat fuel →
  let fs := frames (trace (@main OSS BS fuel argv fresh_process).2) in
  @asks OSR argv' o' → socket_mode o' = MODE_AFPKT → mode o' = MODE_RX →
  ifname o' = Some name → frames_to_send o' = frames_to_send o →
  @rx_setup OSR sock → @timestamping_ok OSR → @logs_copyable OSR fuel' →
  (∀ tr, @os_signals OSR tr = []) → @inputs_of OSR sock inputs → (length inputs < fuel')%nat →
  omap id inputs `sublist_of` fs →
  (∃ buf, last (omap id inputs) = Some buf ∧ pl_seq buf 4 = frames_to_send o) →
  wp (@main OSR BR fuel' argv')
     (λ out s', out = Done 0 ∧
        let ls := printed (trace s') in
        Forall2 (line_for o) (omap id inputs) ls ∧
        ((λ l, nth 1 l 0) <$> ls) `sublist_of` seqZ 1 (frames_to_send o) ∧
        (omap id inputs = fs → (λ l, nth 1 l 0) <$> ls = seqZ 1 (frames_to_send o)))
     fresh_process.
Proof.
  intros Ha Hsock Hmode HtsS Hc HlogS Hf fs Ha' Hsock' Hmode' Hname Hfr Hrx HtsR HlogR Hsig Hin
    Hlen Hsub Hlast.
  destruct (@sender_frames OSS BS fuel argv o Ha Hsock Hmode HtsS Hc HlogS Hf) as (N & HN & HF).
  pose proof (asks_wf argv o Ha) as Ho.
  apply (receiver_run fuel' argv' o' sock name (λ ls,
    Forall2 (line_for o) (omap id inputs) ls ∧
    ((λ l, nth 1 l 0) <$> ls) `sublist_of` seqZ 1 (frames_to_send o) ∧
    (omap id inputs = fs → (λ l, nth 1 l 0) <$> ls = seqZ 1 (frames_to_send o)))); [done..|].
  intros r i Hh Hseq Hrecv Hpr.
  eapply wp_mono; [apply (arrived_are_logged fuel' o (o' {{ ifindex := i }}) sock inputs fs N r);
    try done; by destruct o'|].
  intros out r' (-> & ls & Ep & H). rewrite Hpr in Ep. cbn [app] in Ep. by rewrite Ep.
Qed.

(** ** Witness *)

(** txrx-tsn -i eth0 -P -t -n 3, and -r for the receiver. *)
Definition demo_argv (direction : string) : list word :=
  bytes_of_string <$> ["-i"; "eth0"; "-P"; direction; "-n"; "3"]%string.

Definition demo_asked (m : Z) : user_opt :=
  default_user_opt {{ ifname := Some (bytes_of_string "eth0"); socket_mode := MODE_AFPKT;
                      mode := m; frames_to_send := 3 }}.

(** Packet number [n] of that sender. *)
Definition demo_sent_frame (n : Z) : list Z :=
  wire (demo_asked MODE_TX)
    (set_tx_timestampA
       (set_seq (packet_template (demo_asked MODE_TX) (dst_mac_addr init_txrx_glob)) off_payload n)
       off_payload 1000000000005).

(** The second packet is lost. *)
Lemma txrx_end_to_end_witness :
  let inputs := [Some (demo_sent_frame 1); None; Some (demo_sent_frame 3)] in
  let run := @main (demo_link_os inputs) demo_build 4 (demo_argv "-r") fresh_process in
  run.1 = Done 0 ∧
  ((λ l, nth 1 l 0) <$> printed (trace run.2)) `sublist_of` [1; 2; 3].
Proof.
  intros inputs run.
  destruct (@txrx_end_to_end (demo_txrx_os []) (demo_link_os inputs) demo_build demo_build 4 4
    (demo_argv "-t") (demo_argv "-r") (demo_asked MODE_TX) (demo_asked MODE_RX)
    (bytes_of_string "eth0") 7 inputs) as (H1 & _ & H2 & _).
  - vm_compute. reflexivity.
  - reflexivity.
  - reflexivity.
  - exact (demo_timestamping_ok []).
  - intros tr. split; [discriminate|reflexivity].
  - left. reflexivity.
  - reflexivity.
  - vm_compute. reflexivity.
  - reflexivity.
  - reflexivity.
  - reflexivity.
  - reflexivity.
  - split; try (intros tr); done.
  - apply demo_link_ok.
  - left. reflexivity.
  - reflexivity.
  - apply demo_link_ok.
  - simpl. lia.
  - vm_compute. repeat constructor.
  - exists (demo_sent_frame 3). split; reflexivity.
  - split; [exact H1|exact H2].
Defined.
