(* ===== verification/XdpLink.v ===== *)
(** * TXRX-TSN over AF_XDP: from the transmit thread to the receiver's log

    The frames that the transmit thread leaves in its packet memory for the
    kernel, and the receive loop of another host that
    finds them in its own packet memory after a network that may lose and delay
    them but keeps their order. *)

From S2P Require Import Prelude Sys Libc Txrx Afxdp TxrxMain TxrxLink.

Local Open Scope Z_scope.

(** ** Specification *)

Section wire.
Context {OS : txrx_os} {B : build}.
Implicit Types s : st txrx_glob call.

(** The frames that the rounds from [x] and [s] on hand to the kernel, as they
    are in the packet memory at the end of their round. *)
Fixpoint xdp_wire (fuel : nat) (o : user_opt) (x : xtx_state) s : list (list Z) :=
  match fuel with
  | O => []
  | S fuel =>
      match xdp_round o x s with
      | (Done (inl x'), s') =>
          (if descs (trace s') =? descs (trace s) then []
           else [frame_in o (umem (glob s')) (descs (trace s) mod 4096)])
          ++ xdp_wire fuel o x' s'
      | _ => []
      end
  end.

(** The frames of a run of the transmit thread. *)
Definition xdp_frames (fuel : nat) (o : user_opt) s : list (list Z) :=
  match xtx_start o s with
  | (Done x, s') => xdp_wire fuel o x s'
  | _ => []
  end.

(** The frames [fs] are handed over and the last 4095 are still in [m]. *)
Definition in_flight (o : user_opt) (m : gmap Z Z) (d : Z) (fs : list (list Z)) : Prop :=
  Z.of_nat (length fs) = d ∧
  ∀ j f, fs !! j = Some f → d - 4096 < Z.of_nat j →
         frame_in o m (Z.of_nat j mod 4096) = f.
End wire.

(** The frame number [n] of the sender, sent at [t]. *)
Definition xpacket (o : user_opt) (mac : list Z) (n t : Z) (f : list Z) : Prop :=
  ∃ payload, length payload = Z.to_nat (packet_size o) ∧ f = xdp_frame o mac payload ∧
    pl_tx_queue payload 0 = socket_prio o ∧ pl_seq payload 0 = n ∧
    pl_tx_timestampA payload 0 = t.

Definition xcarries (o : user_opt) (mac : list Z) (f : list Z) (n : Z) : Prop :=
  ∃ t, xpacket o mac n t f.

(** The line that the receiver prints for a frame. *)
Definition xline (o : user_opt) (mac : list Z) (f line : list Z) : Prop :=
  ∃ n t hw D, xpacket o mac n t f ∧ line = [u64 (D - t); n; socket_prio o; t; hw; D].

(** The k-th poll of the RX ring finds the k-th input: a frame that the kernel
    has stored in the packet memory, or nothing. *)
Definition xinputs_of `{!txrx_os} (inputs : list (option (list Z))) : Prop :=
  ∀ tr, match inputs !! peeks tr with
        | Some (Some f) => ∃ idx addr len,
            os_ring (RingPeek RxRing 1 :: tr) = (1, idx) ∧ len ≠ 0 ∧
            8 <= addr ∧ addr + Z.of_nat (length f) <= UMEM_SIZE ∧
            (∀ tr', peeks tr' = S (peeks tr) → os_rx_desc (RxDesc idx :: tr') = (addr, len)) ∧
            (∀ i b, f !! i = Some b →
               os_dma (RingPeek RxRing 1 :: tr) !! (addr + Z.of_nat i) = Some b)
        | Some None => (os_ring (RingPeek RxRing 1 :: tr)).1 = 0
        | None => True
        end.

(** The fill ring always has room. *)
Definition fill_room `{!txrx_os} : Prop :=
  ∀ n tr, (os_ring (RingReserve RxFill n :: tr)).1 = n.

(** ** Lemmas: the sender *)

Section sender.
Context {OS : txrx_os} {B : build}.
Context (o : user_opt) (mac : list Z) (base : Z).
Hypothesis Hwf : opt_wf o.
Implicit Types s : st txrx_glob call.

Lemma in_flight_sent m d fs payload m' d' :
  0 <= d → in_flight o m d fs → sent_frame o mac m d payload m' d' →
  in_flight o m' d' (fs ++ if d' =? d then [] else [frame_in o m' (d mod 4096)]).
Proof.
  intros Hd [Hl Hk] [Hsame Hnew].
  assert (∀ j f, fs !! j = Some f → d - 4096 < Z.of_nat j →
    frame_in o m' (Z.of_nat j mod 4096) = f) as Hold.
  { intros j f Hj Hlt. apply lookup_lt_Some in Hj as Hlen.
    rewrite Hsame; [by apply Hk|apply Z.mod_pos_bound; lia|].
    intros E. pose proof (Z.div_mod d 4096). pose proof (Z.div_mod (Z.of_nat j) 4096). nia. }
  destruct Hnew as [[-> _]|[-> Hf]].
  - rewrite Z.eqb_refl, app_nil_r. by split.
  - rewrite (proj2 (Z.eqb_neq _ _)) by lia. split; [rewrite length_app; simpl; lia|].
    intros j f Hj Hlt. apply lookup_app_Some in Hj as [Hj|[Hge Hj]].
    + apply Hold; [done|lia].
    + apply list_lookup_singleton_Some in Hj as [Hj <-].
      replace (Z.of_nat j) with d by lia. done.
Qed.

(** What a round sends carries the number of rounds before it. *)
Lemma sent_carries P x s now m' :
  xr_inv o mac base P x s →
  frame_in o m' (descs (trace s) mod 4096) = xdp_frame o mac (xdp_stamp o x now) →
  xcarries o mac (frame_in o m' (descs (trace s) mod 4096)) (sleeps (trace s)).
Proof.
  intros HI Hf. pose proof (wf_size o Hwf). pose proof (wf_prio o Hwf).
  pose proof (wf_frames o Hwf). pose proof (sleeps_nonneg (trace s)).
  pose proof (xr_bound _ _ _ _ _ _ HI). exists (u64 now).
  pose proof (xr_len _ _ _ _ _ _ HI) as Hl. exists (xdp_stamp o x now).
  destruct (stamped_fields (xtx_buff x) (queue (x_opt o)) (xtx_seq x) now)
    as (F1 & F2 & F3); [lia|].
  split; [by unfold xdp_stamp; rewrite stamp_buff_length by lia|]. split; [done|].
  unfold xdp_stamp. rewrite F1, F2, F3, (wf_queue o Hwf), (xr_seq _ _ _ _ _ _ HI).
  unfold DEFAULT_NUM_FLUSH_PACKETS in *.
  rewrite !(wrapU_small 32) by lia. done.
Qed.

(** The frames on the wire are numbered by rounds, from 0. *)
Lemma wire_numbers P fuel x s :
  (P → kick_succeeds) → (P → ∀ tr, os_signals tr = []) → xr_inv o mac base P x s →
  let total := frames_to_send o + DEFAULT_NUM_FLUSH_PACKETS in
  ∃ ns, Forall2 (xcarries o mac) (xdp_wire fuel o x s) ns ∧
    ns `sublist_of` seqZ (sleeps (trace s)) (total - sleeps (trace s)) ∧
    (P → tx_room → total - sleeps (trace s) < Z.of_nat fuel →
     ns = seqZ (sleeps (trace s)) (total - sleeps (trace s))).
Proof.
  intros Hk Hs. revert x s. induction fuel as [|fuel IH]; intros x s HI total.
  { pose proof (xr_bound _ _ _ _ _ _ HI). exists [].
    split; [by constructor|]. split; [apply sublist_nil_l|lia]. }
  pose proof (xdp_round_ok o mac base P Hwf Hk Hs x s HI) as H. cbn [xdp_wire].
  unfold wp in H. destruct (xdp_round o x s) as [[[x'|[]]|c| |] s'];
    cbn [fst snd xround_post] in H; try done.
  2-3: exists []; split; [by constructor|]; split; [apply sublist_nil_l|intros p _ _].
  2: { destruct H as (_ & _ & _ & Es & _ & Hp). rewrite <- Es, (Hp p).
       unfold total. by rewrite Z.sub_diag. }
  2: { destruct H as (_ & _ & Hp). by destruct (Hp p). }
  destruct H as (HI' & Ei & tr & _ & Hnew).
  destruct (IH x' s' HI') as (ns & Hns & Hsub & Hall).
  pose proof (xr_bound _ _ _ _ _ _ HI') as Hb.
  rewrite (xr_i _ _ _ _ _ _ HI), (xr_i _ _ _ _ _ _ HI') in Ei.
  rewrite Ei in Hsub, Hall, Hb. fold total in Hb, Hsub, Hall.
  assert (seqZ (sleeps (trace s)) (total - sleeps (trace s))
    = sleeps (trace s) :: seqZ (sleeps (trace s) + 1) (total - (sleeps (trace s) + 1))) as Eseq.
  { rewrite seqZ_cons by lia. f_equal; f_equal; lia. }
  rewrite Eseq. destruct Hnew as [[Ed Hroom]|[Ed Hf]].
  - rewrite Ed, Z.eqb_refl. exists ns. split; [done|]. split; [by apply sublist_cons|].
    intros _ Hr. by destruct Hroom.
  - rewrite Ed, (proj2 (Z.eqb_neq _ _)) by lia. exists (sleeps (trace s) :: ns). split.
    + constructor; [|done]. by eapply sent_carries.
    + split; [by apply sublist_skip|]. intros p Hr Hfuel. f_equal. apply Hall; [done..|lia].
Qed.
End sender.

(** ** Lemmas: the receiver *)

Lemma load_dma {OS : txrx_os} (m dma : gmap Z Z) addr f :
  (∀ i b, f !! i = Some b → dma !! (addr + Z.of_nat i) = Some b) →
  load (dma ∪ m) addr (length f) = f.
Proof.
  intros H. apply list_eq. intros i. unfold load. rewrite list_lookup_fmap.
  destruct (decide (i < length f)%nat) as [Hi|Hi].
  - rewrite lookup_seq_lt by done. destruct (lookup_lt_is_Some_2 f i Hi) as [b Hb].
    rewrite Hb. simpl. unfold byte_at. by erewrite lookup_union_Some_l by by apply H.
  - rewrite lookup_seq_ge, (proj2 (lookup_ge_None f i)) by lia. done.
Qed.

Section receiver.
Context (o : user_opt) (mac : list Z).
Hypothesis Hwf : opt_wf o.
Hypothesis Hmac : mac_wf mac.

(** The number in a frame. *)
Definition fnum (f : list Z) : Z := pl_seq f off_payload.

Lemma xdp_frame_length payload :
  length payload = Z.to_nat (packet_size o) →
  length (xdp_frame o mac payload) = Z.to_nat (packet_size o).
Proof.
  intros Hl. pose proof (wf_size o Hwf). unfold xdp_frame.
  rewrite length_app, length_take, (tsn_header_length o mac Hmac), Hl. lia.
Qed.

Lemma xpacket_num n t f : xpacket o mac n t f → fnum f = n.
Proof.
  intros (payload & Hl & -> & _ & <- & _). pose proof (wf_size o Hwf).
  unfold fnum, pl_seq, xdp_frame, off_payload. do 2 f_equal.
  rewrite read_at_skip by (by apply tsn_header_length). apply read_at_take.
  unfold off_seq. lia.
Qed.

Lemma xcarries_num f n : xcarries o mac f n → fnum f = n.
Proof. intros [t H]. by eapply xpacket_num. Qed.

Context {OS : txrx_os} (o' : user_opt) (inputs : list (option (list Z))) (rfuel : nat).
Hypothesis Hin : xinputs_of inputs.
Hypothesis Hroom : fill_room.
Hypothesis Hrfuel : (0 < rfuel)%nat.
Implicit Types s : st txrx_glob call.

Record rx_ready s : Prop := {
  rr_xsk : is_Some (glob_xskinfo (glob s));
  rr_size : umem_size (glob s) = UMEM_SIZE;
  rr_halt : halt_tx_sig (glob s) = 0
}.

(** One poll of the receive loop. *)
Lemma receive_xinput s input :
  inputs !! peeks (trace s) = Some input → rx_ready s →
  match input with Some f => ∃ n, xcarries o mac f n ∧ 0 <= n < 50000000 | None => True end →
  wp (afxdp_recv_pkt rfuel)
     (λ out s', out = Done tt ∧ peeks (trace s') = S (peeks (trace s)) ∧ rx_ready s' ∧
        match input with
        | Some f => if decide (fnum f = 0) then
                      glob_rx_seq (glob s') = glob_rx_seq (glob s) ∧ lines (trace s') = lines (trace s)
                    else glob_rx_seq (glob s') = fnum f ∧
                         ∃ line, xline o mac f line ∧ lines (trace s') = line :: lines (trace s)
        | None => glob_rx_seq (glob s') = glob_rx_seq (glob s) ∧ lines (trace s') = lines (trace s)
        end) s.
Proof.
  intros Hi [[x Hx] Hsz Hh] Hf. pose proof (Hin (trace s)) as H. rewrite Hi in H.
  destruct input as [f|].
  2: { eapply wp_mono; [by eapply afxdp_recv_idle|]. intros out s' (-> & Eg & -> & ->).
       split; [done|]. split; [done|]. rewrite Eg. split; [split; by rewrite Eg|done]. }
  destruct H as (idx & addr & len & Hp & Hl & H8 & Hhigh & Hd & Hdma).
  destruct Hf as (n & [t Hpk] & Hn). pose proof (xpacket_num _ _ _ Hpk) as En.
  destruct Hpk as (payload & Hpl & Ef & Hq & Hsq & Ht). pose proof (wf_size o Hwf).
  assert (length f = Z.to_nat (packet_size o)) as Hlf by (rewrite Ef; by apply xdp_frame_length).
  eapply wp_mono.
  { eapply (afxdp_recv_ok rfuel idx addr len x); [|done..]. split; try done. lia. }
  intros out s' [(-> & [K1 K2 K3] & Hpost) Hpeek].
  split; [done|]. split; [done|]. split; [split; [done|by rewrite K3|by rewrite K1]|].
  destruct (xdp_frame_read o mac payload (after_dma s) addr) as (R1 & R2 & R3 & R4);
    [done..| |].
  { rewrite <- Ef, <- Hlf. by apply load_dma. }
  rewrite R4, Hsq in Hpost. rewrite (proj2 (Z.ltb_lt n 50000000)), andb_true_r in Hpost by lia.
  rewrite En. case_decide as Hz.
  - rewrite Hz in Hpost. exact Hpost.
  - rewrite (proj2 (Z.ltb_lt 0 n)) in Hpost by lia. cbv zeta in Hpost.
    rewrite R1, R2, R3, Hsq, Hq, Ht in Hpost. destruct Hpost as (G1 & hw & D & G2).
    split; [done|]. eexists. split; [|exact G2]. exists n, t, hw, D. split; [|done].
    by exists payload.
Qed.

(** The frames that a line is printed for. *)
Definition logged (fs : list (list Z)) : list (list Z) := filter (λ f, fnum f ≠ 0) fs.

(** The loop over the inputs up to the first frame that ends it. *)
Lemma xdp_rx_loop pre lbuf fuel s :
  (∀ tr, os_signals tr = []) → frames_to_send o' = frames_to_send o →
  pre ++ [Some lbuf] `prefix_of` drop (peeks (trace s)) inputs → rx_ready s →
  glob_rx_seq (glob s) < frames_to_send o →
  Forall (λ f, ∃ n, xcarries o mac f n ∧ 0 <= n < frames_to_send o) (omap id pre) →
  (∃ n, xcarries o mac lbuf n ∧ frames_to_send o <= n < 50000000) →
  (length pre < fuel)%nat →
  wp (rx_loop fuel o' (afxdp_recv_pkt rfuel))
     (λ out s', out = Done tt ∧ is_Some (glob_xskinfo (glob s')) ∧
        ∃ ls, printed (trace s') = printed (trace s) ++ ls ∧
          Forall2 (xline o mac) (logged (omap id pre ++ [lbuf])) ls) s.
Proof.
  intros Hsig Hfr Hpre Hrdy Hseq Hnums (nl & Hlast & Hnl) Hfuel. pose proof (wf_frames o Hwf).
  set (early := λ i : option (list Z),
    match i with Some f => ∃ n, xcarries o mac f n ∧ 0 <= n < frames_to_send o | None => True end).
  assert (∀ f line, fnum f ≠ 0 → xline o mac f line →
    Forall2 (xline o mac) (logged [f]) [line]) as Hone.
  { intros f line Hf Hline. unfold logged. rewrite filter_cons, decide_True by done.
    by constructor. }
  eapply wp_mono.
  { apply (rx_loop_reads o' (afxdp_recv_pkt rfuel) inputs rx_ready peeks (xline o mac) logged
      early (λ i, i = Some lbuf)) with (pre := pre) (lst := Some lbuf); rewrite ?Hfr; try done.
    - intros l1 l2. apply filter_app.
    - intros t Ht. split; [by apply Ht|]. destruct Ht. by split.
    - intros t i Ht Hi He Hq. eapply wp_mono; [apply (receive_xinput t i Hi Ht)|].
      { destruct i; [|done]. destruct He as (n & ? & ?). exists n. split; [done|lia]. }
      intros out t' (-> & Epk & Ht' & Hg). do 3 (split; [done|]). destruct i as [f|].
      + destruct He as (n & <-%xcarries_num & Hn). unfold printed. case_decide as Hz.
        * destruct Hg as [-> ->]. split; [done|]. exists []. rewrite app_nil_r.
          split; [done|]. unfold logged. simpl. by rewrite filter_cons, decide_False by tauto.
        * destruct Hg as (-> & line & Hline & ->). split; [lia|]. exists [line].
          rewrite reverse_cons. split; [done|]. by apply Hone.
      + destruct Hg as [-> Hg]. split; [done|]. exists []. unfold printed.
        by rewrite Hg, app_nil_r.
    - intros t i Ht Hi ->. eapply wp_mono; [apply (receive_xinput t _ Hi Ht)|].
      { exists nl. split; [done|lia]. }
      intros out t' (-> & Epk & Ht' & Hg). do 3 (split; [done|]).
      apply xcarries_num in Hlast. rewrite decide_False in Hg by lia.
      destruct Hg as (-> & line & Hline & El). split; [lia|]. exists [line]. unfold printed.
      rewrite El, reverse_cons. split; [done|]. apply Hone; [lia|done].
    - apply Forall_forall. intros [f|] Hi; [|done].
      apply (proj1 (Forall_forall _ _) Hnums f), list_elem_of_omap. by exists (Some f). }
  intros out s' (-> & Hs' & ls & Ep & Hls). split; [done|]. split; [apply Hs'|]. exists ls.
  split; [done|]. by rewrite omap_app in Hls.
Qed.
End receiver.

(** The number in a line is the number in the frame. *)
Lemma xlines_numbers o mac bufs ls :
  opt_wf o → mac_wf mac → Forall2 (xline o mac) (logged bufs) ls →
  (λ l, nth 1 l 0) <$> ls = filter (λ n, n ≠ 0) (fnum <$> bufs).
Proof.
  intros Ho Hm H. transitivity (fnum <$> logged bufs).
  - induction H as [|f line fs ls (n & t & hw & D & Hp%xpacket_num & ->) _ IH]; [done|..|done].
    cbn [fmap list_fmap nth]. rewrite <- Hp. f_equal. exact IH. done.
  - clear H. induction bufs as [|f bufs IH]; [done|]. unfold logged in *.
    cbn [fmap list_fmap]. rewrite !filter_cons. case_decide; [|exact IH].
    cbn [fmap list_fmap]. by f_equal.
Qed.

Lemma nonzero_seqZ n k : 1 <= n → filter (λ m, m ≠ 0) (seqZ n k) = seqZ n k.
Proof.
  intros Hn. assert (Forall (λ m, m ≠ 0) (seqZ n k)) as H
    by (apply Forall_forall; intros m Hm%elem_of_seqZ; lia).
  induction H as [|m l Hm _ IH]; [done|]. rewrite filter_cons, decide_True by done. by f_equal.
Qed.

(** The numbers of the frames of a run, and of what arrives of them. *)
Lemma xdp_frames_numbers {OS : txrx_os} {B : build} (P : Prop) fuel o x s :
  opt_wf o → mac_wf (dst_mac_addr (glob s)) → umem_size (glob s) = UMEM_SIZE →
  glob_xskinfo (glob s) = Some x → fresh x → untouched (trace s) →
  (P → kick_succeeds ∧ (∀ tr, os_signals tr = []) ∧ halt_tx_sig (glob s) = 0) →
  let fs := xdp_frames fuel o s in
  let total := frames_to_send o + DEFAULT_NUM_FLUSH_PACKETS in
  Forall (λ f, xcarries o (dst_mac_addr (glob s)) f (fnum f)) fs ∧
  (fnum <$> fs) `sublist_of` seqZ 0 total ∧
  (P → tx_room → total < Z.of_nat fuel → fnum <$> fs = seqZ 0 total).
Proof.
  intros Ho Hm Hsz Hx Hfr Hun HP fs total. unfold fs, xdp_frames.
  pose proof (xtx_start_ok o _ (start_of o (trace s)) P Ho x s eq_refl eq_refl Hm Hsz Hx
    Hfr Hun ltac:(tauto)) as H.
  unfold wp in H. destruct (xtx_start o s) as [out s1]. cbn [fst snd] in H.
  destruct H as (y & -> & HI & _ & Es & _).
  destruct (wire_numbers o (dst_mac_addr (glob s)) (start_of o (trace s)) Ho P fuel y s1)
    as (ns & Hns & Hsub & Hall); [tauto|tauto|done|].
  rewrite Es, Z.sub_0_r in Hsub, Hall. fold total in Hsub, Hall.
  assert (fnum <$> xdp_wire fuel o y s1 = ns ∧
    Forall (λ f, xcarries o (dst_mac_addr (glob s)) f (fnum f)) (xdp_wire fuel o y s1))
    as [<- Hc].
  { clear -Hns Ho Hm. induction Hns as [|f n fs ns Hf _ [IH1 IH2]]; [done|].
    pose proof (xcarries_num o _ Ho Hm f n Hf) as E. subst n.
    split; [by cbn [fmap list_fmap]; f_equal|by constructor]. }
  done.
Qed.

(** What the receive loop logs of the frames that arrive, up to the first that
    ends it. *)
Lemma xdp_arrived_are_logged {OSS OSR : txrx_os} {B : build}
  fuel fuel' rfuel o o' x inputs pre lbuf s r :
  opt_wf o → mac_wf (dst_mac_addr (glob s)) → umem_size (glob s) = UMEM_SIZE →
  glob_xskinfo (glob s) = Some x → fresh x → untouched (trace s) →
  let mac := dst_mac_addr (glob s) in
  let fs := @xdp_frames OSS B fuel o s in
  let arrived := omap id pre ++ [lbuf] in
  let good := (∀ tr, @os_signals OSS tr = []) ∧ @kick_succeeds OSS ∧ @tx_room OSS ∧
              halt_tx_sig (glob s) = 0 ∧
              frames_to_send o + DEFAULT_NUM_FLUSH_PACKETS < Z.of_nat fuel in
  arrived `sublist_of` fs →
  Forall (λ f, fnum f < frames_to_send o) (omap id pre) → frames_to_send o <= fnum lbuf →
  @xinputs_of OSR inputs → pre ++ [Some lbuf] `prefix_of` inputs → @fill_room OSR →
  (∀ tr, @os_signals OSR tr = []) → frames_to_send o' = frames_to_send o → rx_ready r →
  glob_rx_seq (glob r) = 0 → peeks (trace r) = 0%nat →
  (length pre < fuel')%nat → (0 < rfuel)%nat →
  wp (@rx_loop OSR fuel' o' (@afxdp_recv_pkt OSR rfuel))
     (λ out r', out = Done tt ∧ is_Some (glob_xskinfo (glob r')) ∧ ∃ ls, printed (trace r') = printed (trace r) ++ ls ∧
        Forall2 (xline o mac) (logged arrived) ls ∧
        ((λ l, nth 1 l 0) <$> ls) `sublist_of` seqZ 1 (frames_to_send o + 9) ∧
        (good → arrived = take (S (Z.to_nat (frames_to_send o))) fs →
         (λ l, nth 1 l 0) <$> ls = seqZ 1 (frames_to_send o))) r.
Proof.
  intros Ho Hm Hsz Hx Hfr Hun mac fs arrived good Hsub Hpre Hlast Hin Hinp Hroom Hsig Hfrs
    Hrdy Hseq Hpk Hf1 Hf2. pose proof (wf_frames o Ho) as Hwf.
  destruct (@xdp_frames_numbers OSS B good fuel o x s Ho Hm Hsz Hx Hfr Hun)
    as (H1 & H2 & H3); [unfold good; tauto|]. fold fs mac in H1, H2, H3.
  unfold DEFAULT_NUM_FLUSH_PACKETS in *.
  assert (∀ f, f ∈ arrived → ∃ n, xcarries o mac f n ∧ n = fnum f ∧
    0 <= n < frames_to_send o + 10) as Harr.
  { intros f Hf. exists (fnum f). pose proof (elem_of_sublist _ _ _ Hf Hsub) as Hf'.
    split; [by eapply Forall_forall in H1|]. split; [done|].
    assert (fnum f ∈ seqZ 0 (frames_to_send o + 10)) as E.
    { eapply elem_of_sublist; [|exact H2]. by apply list_elem_of_fmap_2. }
    apply elem_of_seqZ in E. lia. }
  eapply wp_mono.
  { apply (xdp_rx_loop o mac Ho Hm o' inputs rfuel Hin Hroom Hf2 pre lbuf); try done.
    - by rewrite Hpk.
    - rewrite Hseq. lia.
    - apply Forall_forall. intros f Hf. eapply Forall_forall in Hpre; [|exact Hf].
      destruct (Harr f) as (n & Hc & -> & Hn); [apply elem_of_app; by left|].
      exists (fnum f). split; [done|]. simpl in Hpre. lia.
    - destruct (Harr lbuf) as (n & Hc & -> & Hn);
        [apply elem_of_app; right; by apply list_elem_of_singleton|].
      exists (fnum lbuf). split; [done|lia]. }
  intros out r' (-> & Hx' & ls & Ep & Hls). fold arrived in Hls. split; [done|]. split; [done|].
  exists ls.
  split; [done|]. split; [done|]. rewrite (xlines_numbers o mac arrived ls Ho Hm Hls). split.
  - apply (sublist_fmap fnum) in Hsub. rewrite H2 in Hsub.
    apply (sublist_filter_mono (λ n, n ≠ 0)) in Hsub.
    replace (frames_to_send o + 10) with (Z.succ (frames_to_send o + 9)) in Hsub by lia.
    rewrite seqZ_cons in Hsub by lia. rewrite filter_cons, decide_False in Hsub by lia.
    change (Z.succ 0) with 1 in Hsub. rewrite Z.pred_succ, nonzero_seqZ in Hsub by lia.
    exact Hsub.
  - intros Hgood E. rewrite E, fmap_take, H3 by first [exact Hgood|apply Hgood].
    replace (frames_to_send o + 10) with (Z.succ (frames_to_send o) + 9) by lia.
    rewrite seqZ_app by lia. rewrite take_app_le by (rewrite length_seqZ; lia).
    rewrite take_ge by (rewrite length_seqZ; lia).
    rewrite seqZ_cons by lia. rewrite filter_cons, decide_False by lia.
    rewrite Z.pred_succ. apply nonzero_seqZ. lia.
Qed.

(** ** Properties *)

(** 4095, not 4096: a packet is written into the next frame before the
    descriptor ring is asked for room, so that when the ring is full (or refuses
    for any reason) the oldest of 4096 frames that wait is replaced by a packet
    that is itself not sent. *)
Theorem full_ring_overwrites {OS : txrx_os} {B : build} o mac base payload t s :
  opt_wf o → xinv o mac base False s → length payload = Z.to_nat (packet_size o) →
  enable_poll o = 0 → (∀ tr, (os_ring (RingReserve TxRing 1 :: tr)).1 ≠ 1) →
  wp (afxdp_send_pkt o ETH_VLAN_HDR_SZ (packet_size o) payload t)
     (λ out s', out = Done tt ∧ descs (trace s') = descs (trace s) ∧
        frame_in o (umem (glob s')) (descs (trace s) mod 4096) = xdp_frame o mac payload) s.
Proof.
  intros Ho HI Hl Hpoll Hfull. destruct (xi_xsk _ _ _ _ _ HI) as (x & Hx & HL).
  pose proof (Z.mod_pos_bound (descs (trace s)) 4096 ltac:(lia)) as Hcur.
  pose proof (wf_size o Ho). unfold afxdp_send_pkt, get_xsk. do 2 apply wp_bind.
  unfold get, wp at 1. cbn [fst snd]. rewrite Hx. apply wp_ret. cbv zeta.
  rewrite (le_cur _ _ HL), Hpoll. apply wp_bind, wp_ret. cbn [negb].
  rewrite frame_addr by done. rewrite (wrapU_small 32) by (unfold ETH_VLAN_HDR_SZ; lia).
  change (Z.of_nat ETH_VLAN_HDR_SZ) with 18.
  destruct (fill_frame o mac ltac:(done) (glob s) (descs (trace s) mod 4096) payload)
    as (F1 & _ & F3 & _); [apply HI|done|lia|].
  apply wp_bind, wp_umem_write; [lia| |].
  { rewrite F1, (uo_size _ _ _ (xi_umem _ _ _ _ _ HI)). unfold UMEM_SIZE. lia. }
  apply wp_bind, wp_ask. specialize (Hfull (trace s)). cbn [trace].
  destruct (os_ring _) as [n idx]. simpl in Hfull. rewrite (proj2 (Z.eqb_neq _ _)) by done.
  apply wp_ret. split; [done|]. split; [done|]. exact F3.
Qed.

(** ** Witnesses *)

(** A receiver whose polls find [inputs], and then nothing. *)
Definition demo_xlink_os (inputs : list (option (list Z))) : txrx_os :=
  make_os ((demo_dp []) {{ dp_ring := λ tr,
    match tr with
    | RingPeek RxRing _ :: tr =>
        match inputs !! peeks tr with Some (Some _) => (1, 0) | _ => (0, 0) end
    | _ => demo_ring tr
    end }} {{ dp_rx_desc := (4096, 64) }} {{ dp_dma := λ tr,
    match tr with
    | RingPeek RxRing _ :: tr =>
        match inputs !! peeks tr with Some (Some f) => store ∅ 4096 f | _ => ∅ end
    | _ => ∅
    end }}).

Lemma demo_xlink_ok inputs :
  Forall (λ f, length f = 64%nat) (omap id inputs) →
  @xinputs_of (demo_xlink_os inputs) inputs ∧ @fill_room (demo_xlink_os inputs).
Proof.
  intros Hl. split; [|done]. intros tr. destruct (inputs !! peeks tr) as [[f|]|] eqn:E; [|..].
  - assert (length f = 64%nat) as Hf.
    { eapply Forall_forall in Hl; [exact Hl|]. apply list_elem_of_omap. exists (Some f).
      split; [by eapply list_elem_of_lookup_2|done]. }
    exists 0, 4096, 64. cbn. rewrite E, Hf. split; [done|]. split; [done|]. split; [lia|].
    split; [unfold UMEM_SIZE; lia|]. split; [done|]. intros i b Hb.
    apply lookup_lt_Some in Hb as Hi. rewrite lookup_store, decide_True by lia.
    by replace (Z.to_nat _) with i by lia.
  - cbn. by rewrite E.
  - done.
Qed.

Abbreviation demo_xrun :=
  (@xdp_frames (demo_txrx_os []) demo_build 14 demo_user_opt demo_xsk_state).

Lemma demo_xrun_ok :
  fnum <$> demo_xrun = seqZ 0 13 ∧ Forall (λ f, length f = 64%nat) demo_xrun.
Proof.
  destruct (@xdp_frames_numbers (demo_txrx_os []) demo_build True 14 demo_user_opt
    (mk_xsk_info 7 0 0 0 0 0) demo_xsk_state demo_user_opt_wf init_mac_wf eq_refl eq_refl
    (conj eq_refl (conj eq_refl eq_refl)) (conj eq_refl (conj eq_refl eq_refl)))
    as (H1 & _ & H3).
  - intros _. split; [intros tr; discriminate|by split].
  - split.
    + apply H3; [done| |done]. intros tr. split; [reflexivity|by split].
    + eapply Forall_impl; [exact H1|]. intros f (t & payload & Hl & -> & _).
      exact (xdp_frame_length demo_user_opt _ demo_user_opt_wf init_mac_wf payload Hl).
Qed.
