(* ===== verification/XdpMemory.v ===== *)
(** * TXRX-TSN over AF_XDP: packet memory shared with a receiving kernel

    The set-up lends every frame of the packet memory to the kernel for
    reception (create_umem() fills the fill ring with all of them), and the
    transmit thread uses the same frames from the first on.  Here the kernel may
    store a received packet in any frame that it still owns, between any two
    rounds of the transmit loop: a step relation, with the frames received into
    as part of its state.  What the thread itself writes does not depend on the
    contents of the memory ([blind]), so a run with receptions is a run without,
    but for the frames received into. *)

From S2P Require Import Prelude Sys Libc Txrx Afxdp TxrxMain TxrxLink XdpLink.

Local Open Scope Z_scope.

(** ** Steps *)

(** The transmit loop and the kernel: the loop's state, the program's, the
    frames handed over so far (each as it was at the end of its round), and the
    numbers of the frames that the kernel has stored a packet in. *)
Record config : Type := mk_config {
  loop_state : xtx_state;
  program : st txrx_glob call;
  wire : list (list Z);
  received : list Z
}.

Section steps.
Context {OS : txrx_os} {B : build}.

(** What a round adds to the frames handed over. *)
Definition handed_over (o : user_opt) (s s' : st txrx_glob call) : list (list Z) :=
  if descs (trace s') =? descs (trace s) then []
  else [frame_in o (umem (glob s')) (descs (trace s) mod 4096)].

Inductive xdp_step (o : user_opt) : config → config → Prop :=
| thread_round c x' s' :
    xdp_round o (loop_state c) (program c) = (Done (inl x'), s') →
    xdp_step o c (mk_config x' s' (wire c ++ handed_over o (program c) s') (received c))
| kernel_receives c k m :
    0 <= k < 4096 → k ∉ received c →
    (∀ a, a / 4096 ≠ k → m !! a = umem (glob (program c)) !! a) →
    xdp_step o c
      (mk_config (loop_state c)
         (mkSt ((glob (program c)) {{ umem := m }}) (trace (program c)))
         (wire c) (k :: received c)).

(** From the moment that the loop is entered. *)
Definition reachable (o : user_opt) (s : st txrx_glob call) (c : config) : Prop :=
  ∃ y s1, xtx_start o s = (Done y, s1) ∧ rtc (xdp_step o) (mk_config y s1 [] []) c.
End steps.

(** ** Lemmas: the transmit side does not read the packet memory *)

Section blind.
Context {OS : txrx_os} {B : build}.
Context (R : list Z).
Implicit Types s : st txrx_glob call.

(** The globals but for the packet memory. *)
Definition but_memory (g : txrx_glob) :=
  (dst_mac_addr g, glob_xskinfo g, glob_xdp_flags g, glob_ifindex g, halt_tx_sig g, verbose g,
   glob_rx_seq g, umem_size g).

(** The same but for the contents of the frames in [R]. *)
Record agree s s0 : Prop := {
  ag_trace : trace s = trace s0;
  ag_glob : but_memory (glob s) = but_memory (glob s0);
  ag_mem : ∀ a, a / 4096 ∉ R → umem (glob s) !! a = umem (glob s0) !! a
}.

Definition blind {A} (m : T A) : Prop := ∀ s s0,
  agree s s0 → (m s).1 = (m s0).1 ∧ agree (m s).2 (m s0).2.

Lemma blind_ret {A} (a : A) : blind (mret a).
Proof. by intros s s0 H. Qed.

Lemma blind_exit {A} c : blind (exit_ c : T A).
Proof. by intros s s0 H. Qed.

Lemma blind_undefined {A} : blind (undefined : T A).
Proof. by intros s s0 H. Qed.

Lemma blind_bind {A C} (m : T A) (k : A → T C) :
  blind m → (∀ a, blind (k a)) → blind (m ≫= k).
Proof.
  intros Hm Hk s s0 H. destruct (Hm s s0 H) as [E H']. unfold mbind, M_bind.
  destruct (m s) as [out s'], (m s0) as [out0 s0']. simpl in E, H'. subst out0.
  destruct out; [by apply Hk|done..].
Qed.

Lemma blind_ask {X} c (f : list call → X) : blind (ask c f).
Proof. intros s s0 [E1 E2 E3]. simpl. rewrite E1. by split. Qed.

Lemma blind_tell c : blind (tell c).
Proof. apply blind_ask. Qed.

Lemma blind_when b m : blind m → blind (when b m).
Proof. intros H. destruct b; [done|apply blind_ret]. Qed.

(** A program that looks at the globals, but not at the memory. *)
Lemma blind_get {A} (k : txrx_glob → T A) :
  (∀ g g0, but_memory g = but_memory g0 → k g = k g0) → (∀ g, blind (k g)) →
  blind (get ≫= k).
Proof.
  intros Hk Hb s s0 H. unfold mbind, M_bind, get. rewrite (Hk _ _ (ag_glob _ _ H)).
  by apply Hb.
Qed.

(** An update of the globals that leaves the memory alone. *)
Lemma blind_modify f :
  (∀ g, umem (f g) = umem g) →
  (∀ g g0, but_memory g = but_memory g0 → but_memory (f g) = but_memory (f g0)) →
  blind (modify f).
Proof.
  intros Hu Hf s s0 [E1 E2 E3]. split; [done|]. split; simpl; [done|by apply Hf|].
  by rewrite !Hu.
Qed.

Lemma blind_umem_write off bs : blind (umem_write off bs).
Proof.
  apply blind_get.
  - intros [] [] E. unfold but_memory in E. simpl in *. by simplify_eq.
  - intros g. case_match; [|apply blind_undefined]. intros s s0 [E1 E2 E3].
    split; [done|]. split; simpl; [done|..].
    + revert E2. by destruct (glob s), (glob s0).
    + intros a Ha. revert E3. destruct (glob s), (glob s0). simpl. intros E3.
      rewrite !lookup_store. case_decide; [done|by apply E3].
Qed.
End blind.

Create HintDb blind.
#[export] Hint Resolve blind_ret blind_exit blind_undefined blind_ask blind_tell
  blind_umem_write : blind.

(** Globals that agree but for the memory, field by field. *)
Ltac same_fields :=
  intros [] [] ?E; unfold but_memory in *; simpl in *; by simplify_eq.

(** [blind R m] for the programs of the transmit side. *)
Ltac blinded :=
  repeat first
    [ solve [auto with blind]
    | apply blind_get; [same_fields|intros]
    | apply blind_modify; [by intros []|same_fields]
    | apply blind_bind; [|intros]
    | apply blind_when
    | case_match ].

Section blind_transmit.
Context {OS : txrx_os} {B : build}.
Context (R : list Z).

Lemma blind_get_xsk : blind R get_xsk.
Proof. unfold get_xsk. blinded. Qed.

Lemma blind_set_xsk f : blind R (set_xsk f).
Proof. unfold set_xsk. blinded. Qed.

#[local] Hint Resolve blind_get_xsk blind_set_xsk : blind.

Lemma blind_exit_with_error {A} e : blind R (__afxdp_exit_with_error e : T A).
Proof.
  unfold __afxdp_exit_with_error, xdpsock_cleanup. blinded.
Qed.

#[local] Hint Resolve blind_exit_with_error : blind.

Lemma blind_update_txstats : blind R update_txstats.
Proof. unfold update_txstats. blinded. Qed.

#[local] Hint Resolve blind_update_txstats : blind.

Lemma blind_submit_tx o cur idx len t : blind R (submit_tx o cur idx len t).
Proof. unfold submit_tx. cbv zeta. blinded. Qed.

#[local] Hint Resolve blind_submit_tx : blind.

Lemma blind_send_pkt o h len payload t : blind R (afxdp_send_pkt o h len payload t).
Proof. unfold afxdp_send_pkt. cbv zeta. blinded. Qed.

#[local] Hint Resolve blind_send_pkt : blind.

Lemma blind_halted : blind R halted.
Proof.
  unfold halted. apply blind_bind; [auto with blind|]. intros sigs.
  apply blind_bind; [apply blind_modify|intros].
  - induction sigs as [|a l IH]; intros g; [done|]. cbn [foldl]. rewrite IH. by destruct g.
  - induction sigs as [|a l IH]; intros g g0 E; [done|]. cbn [foldl]. apply IH. revert g g0 E.
    same_fields.
  - blinded.
Qed.

Lemma blind_xdp_round o x : blind R (xdp_round o x).
Proof.
  unfold xdp_round, get_time_nanosec. apply blind_bind; [apply blind_halted|intros h].
  cbv zeta. blinded.
Qed.
End blind_transmit.

(** ** Lemmas: the run without receptions *)

Section run.
Context {OS : txrx_os} {B : build}.
Context (o : user_opt) (mac : list Z) (base : Z).
Hypothesis Hwf : opt_wf o.

Lemma agree_frame R s s0 k :
  agree R s s0 → k ∉ R → frame_in o (umem (glob s)) k = frame_in o (umem (glob s0)) k.
Proof.
  intros H Hk. pose proof (wf_size o Hwf). apply load_ext. intros a Ha.
  apply (ag_mem _ _ _ H). replace (a / 4096) with k; [done|].
  apply (Z.div_unique _ _ _ (a - k * 4096)); lia.
Qed.

(** The configuration belongs to a run [s0] without receptions, whose frames
    [fs] carry the numbers [ns]. *)
Record follows (c : config) (s0 : st txrx_glob call) (fs : list (list Z)) (ns : list Z) : Prop := {
  fo_agree : agree (received c) (program c) s0;
  fo_inv : xr_inv o mac base False (loop_state c) s0;
  fo_flight : in_flight o (umem (glob s0)) (descs (trace s0)) fs;
  fo_wire : length (wire c) = length fs;
  fo_same : ∀ j f, wire c !! j = Some f → Z.of_nat j mod 4096 ∉ received c → fs !! j = Some f;
  fo_carries : Forall2 (xcarries o mac) fs ns;
  fo_numbers : ns `sublist_of` seqZ 0 (sleeps (trace s0))
}.

Lemma follows_step c c' s0 fs ns :
  follows c s0 fs ns → xdp_step o c c' → ∃ s0' fs' ns', follows c' s0' fs' ns'.
Proof.
  intros [Ha HI Hfl Hw Hs Hc Hn] Hstep. destruct Hstep as [c x' s' Er|c k m Hk Hnk Hm].
  2: { exists s0, fs, ns. split; cbn [loop_state program wire received]; try done.
       - destruct Ha as [E1 E2 E3]. split; simpl; [done|by destruct (glob (program c))|].
         intros a Hin. rewrite not_elem_of_cons in Hin.
         transitivity (m !! a); [by destruct (glob (program c))|].
         rewrite Hm by tauto. apply E3. tauto.
       - intros j f Hj Hin. apply Hs; [done|]. rewrite not_elem_of_cons in Hin. tauto. }
  pose proof (blind_xdp_round (received c) o (loop_state c) _ _ Ha) as [E Ha'].
  pose proof (xdp_round_ok o mac base False Hwf ltac:(tauto) ltac:(tauto) _ _ HI) as H.
  unfold wp in H. rewrite Er in E, Ha'. cbn [fst snd] in E, Ha'.
  destruct (xdp_round o (loop_state c) s0) as [out s0']. cbn [fst snd] in E, Ha', H. subst out.
  destruct H as (HI' & Ei & tr & Hsent).
  pose proof (descs_nonneg (trace s0)) as Hd.
  pose proof (in_flight_sent o mac _ _ _ _ _ _ Hd Hfl Hsent) as Hfl'.
  rewrite (xr_i _ _ _ _ _ _ HI), (xr_i _ _ _ _ _ _ HI') in Ei.
  pose proof (sleeps_nonneg (trace s0)) as Hsl.
  assert (seqZ 0 (sleeps (trace s0')) = seqZ 0 (sleeps (trace s0)) ++ [sleeps (trace s0)]) as Eseq.
  { rewrite Ei, seqZ_app by lia. by rewrite Z.add_0_l. }
  unfold handed_over. rewrite (ag_trace _ _ _ Ha), (ag_trace _ _ _ Ha').
  destruct Hsent as [_ Hsent]. destruct Hsent as [[Ed _]|[Ed Hf]].
  - exists s0', fs, ns. rewrite Ed, Z.eqb_refl, app_nil_r in Hfl' |- *.
    split; cbn [loop_state program wire received]; try done.
    + by rewrite Ed.
    + rewrite Eseq. by apply sublist_inserts_r.
  - rewrite (proj2 (Z.eqb_neq (descs (trace s0')) (descs (trace s0)))) in Hfl' |- * by lia.
    eexists s0', _, (ns ++ [sleeps (trace s0)]).
    split; cbn [loop_state program wire received]; [done|done|exact Hfl'|..].
    + rewrite !length_app, Hw. done.
    + intros j f Hj Hin. apply lookup_app_Some in Hj as [Hj|[Hge Hj]].
      * apply lookup_app_l_Some, Hs; done.
      * apply list_lookup_singleton_Some in Hj as [Hj <-].
        replace j with (length fs) in * by lia. rewrite lookup_app_r, Nat.sub_diag by lia.
        destruct Hfl as [Hl _]. rewrite Hl in Hin.
        simpl. f_equal. symmetry. by eapply agree_frame.
    + apply Forall2_app; [done|]. constructor; [|constructor].
      by eapply sent_carries.
    + rewrite Eseq. by apply sublist_app.
Qed.

Lemma follows_steps c c' :
  rtc (xdp_step o) c c' → (∃ s0 fs ns, follows c s0 fs ns) → ∃ s0 fs ns, follows c' s0 fs ns.
Proof.
  induction 1 as [|c1 c2 c3 Hs _ IH]; [done|]. intros (s0 & fs & ns & H). apply IH.
  by eapply follows_step.
Qed.
End run.

(** ** Lemmas: headers *)

Section headers.
Context {OS : txrx_os} {B : build} (k : Z).

(** The place of the Ethernet and VLAN headers in frame [k]. *)
Definition header_in (g : txrx_glob) : list Z := load (umem g) (k * 4096) ETH_VLAN_HDR_SZ.

Abbreviation keeps_header := (confined (λ _ : call, True) header_in).

Lemma keeps_xsk f : keeps_header (set_xsk f).
Proof. apply confined_modify. by intros []. Qed.

#[local] Hint Resolve keeps_xsk : confined.

Lemma keeps_umem_write cur bs :
  (length bs <= 4096 - ETH_VLAN_HDR_SZ)%nat →
  keeps_header (umem_write (u64 (Z.shiftl cur XSK_UMEM__DEFAULT_FRAME_SHIFT)
    + Z.of_nat ETH_VLAN_HDR_SZ) bs).
Proof.
  intros Hl. unfold umem_write. apply confined_bind; [apply confined_get|intros g].
  case_match; [|apply confined_undefined]. apply confined_modify. intros g'. unfold header_in.
  transitivity (load (store (umem g') (u64 (Z.shiftl cur XSK_UMEM__DEFAULT_FRAME_SHIFT)
    + Z.of_nat ETH_VLAN_HDR_SZ) bs) (k * 4096) ETH_VLAN_HDR_SZ); [by destruct g'|].
  apply load_store_disjoint. unfold XSK_UMEM__DEFAULT_FRAME_SHIFT, wrapU, ETH_VLAN_HDR_SZ in *.
  rewrite Z.shiftl_mul_pow2 by lia. change (2 ^ 64) with (2 ^ 52 * 2 ^ 12).
  rewrite Z.mul_mod_distr_r by lia. change (2 ^ 12) with 4096.
  destruct (decide (cur mod 2 ^ 52 < k)) as [Hc|Hc]; [|destruct (decide (cur mod 2 ^ 52 = k))];
    lia.
Qed.

Lemma keeps_exit {A} e : keeps_header (__afxdp_exit_with_error e : T A).
Proof. unfold __afxdp_exit_with_error, xdpsock_cleanup, get_xsk. confine. Qed.

Lemma keeps_txstats : keeps_header update_txstats.
Proof. unfold update_txstats, get_xsk. confine. Qed.

#[local] Hint Resolve keeps_exit keeps_txstats : confined.

Lemma keeps_send_pkt o payload t :
  64 <= packet_size o <= 1500 →
  keeps_header (afxdp_send_pkt o ETH_VLAN_HDR_SZ (packet_size o) payload t).
Proof.
  intros Hsz. unfold afxdp_send_pkt, submit_tx, get_xsk. cbv zeta.
  apply confined_bind; [confine|intros x]. apply confined_bind; [confine|intros b].
  case_match; [confine|]. apply confined_bind.
  - apply keeps_umem_write. rewrite length_take. unfold ETH_VLAN_HDR_SZ, wrapU.
    rewrite Z.mod_small; lia.
  - intros. confine.
Qed.

Lemma headers_kept o x : 64 <= packet_size o <= 1500 → keeps_header (xdp_round o x).
Proof.
  intros Hsz. unfold xdp_round, halted, get_time_nanosec. cbv zeta.
  apply confined_bind.
  - apply confined_bind; [confine|intros sigs]. apply confined_bind; [|intros; confine].
    apply confined_modify. intros g. revert g. induction sigs as [|a l IH]; intros g; [done|].
    cbn [foldl]. rewrite IH. by destruct g.
  - intros h. case_match; [confine|]. repeat (apply confined_bind; [solve [confine]|intros]).
    case_match; (apply confined_bind; [by apply keeps_send_pkt|intros; confine]).
Qed.
End headers.

(** The loop is entered in a run without receptions. *)
Lemma reachable_follows {OS : txrx_os} {B : build} o x s c :
  opt_wf o → mac_wf (dst_mac_addr (glob s)) → umem_size (glob s) = UMEM_SIZE →
  glob_xskinfo (glob s) = Some x → fresh x → untouched (trace s) → reachable o s c →
  ∃ s0 fs ns, follows o (dst_mac_addr (glob s)) (start_of o (trace s)) c s0 fs ns.
Proof.
  intros Ho Hm Hsz Hx Hfr Hun (y & s1 & E & Hs).
  pose proof (xtx_start_ok o _ (start_of o (trace s)) False Ho x s eq_refl eq_refl Hm Hsz Hx
    Hfr Hun ltac:(tauto)) as H.
  unfold wp in H. rewrite E in H. cbn [fst snd] in H.
  destruct H as (y' & [= <-] & HI & _ & Es & Ed).
  eapply follows_steps; [done|exact Hs|]. exists s1, [], [].
  split; cbn [loop_state program wire received]; try done.
  apply sublist_nil_l.
Qed.

(** ** Properties *)

(** C6: how long frames stay in the packet memory for the kernel to read.
    Whatever rounds the AF_XDP transmit thread has done, and whatever packets the
    kernel has received in between into frames of the same memory: of the frames
    handed over, each one whose place has not been received into carries the
    sender's header, its queue and its own number, and is still in its place,
    unchanged, while it is one of the last 4095; the numbers increase with the
    rounds, from 0 to the number of frames and flush frames.  (A place that has
    been received into is lost to the sender: received_packet_overwrites and
    header_is_not_restored.) *)
Theorem frames_stay_in_memory {OS : txrx_os} {B : build} o x s c :
  opt_wf o → mac_wf (dst_mac_addr (glob s)) → umem_size (glob s) = UMEM_SIZE →
  glob_xskinfo (glob s) = Some x → fresh x → untouched (trace s) → reachable o s c →
  let d := descs (trace (program c)) in
  Z.of_nat (length (wire c)) = d ∧
  ∃ ns, length ns = length (wire c) ∧
    ns `sublist_of` seqZ 0 (frames_to_send o + DEFAULT_NUM_FLUSH_PACKETS) ∧
    ∀ j f n, wire c !! j = Some f → ns !! j = Some n → Z.of_nat j mod 4096 ∉ received c →
      xcarries o (dst_mac_addr (glob s)) f n ∧
      (d - 4096 < Z.of_nat j →
       frame_in o (umem (glob (program c))) (Z.of_nat j mod 4096) = f).
Proof.
  intros Ho Hm Hsz Hx Hfr Hun Hr d.
  destruct (reachable_follows o x s c Ho Hm Hsz Hx Hfr Hun Hr) as (s0 & fs & ns & [Ha HI Hfl Hw Hs Hc Hn]).
  unfold d. rewrite (ag_trace _ _ _ Ha). destruct Hfl as [Hl Hk]. split; [by rewrite Hw|].
  exists ns. split; [by rewrite Hw; symmetry; apply Forall2_length in Hc|]. split.
  - etrans; [exact Hn|]. pose proof (xr_bound _ _ _ _ _ _ HI).
    pose proof (sleeps_nonneg (trace s0)).
    replace (frames_to_send o + DEFAULT_NUM_FLUSH_PACKETS) with (sleeps (trace s0)
      + (frames_to_send o + DEFAULT_NUM_FLUSH_PACKETS - sleeps (trace s0))) by lia.
    rewrite seqZ_app by lia. by apply sublist_inserts_r.
  - intros j f n Hj Hnj Hin. specialize (Hs j f Hj Hin). split.
    + eapply Forall2_lookup_lr; [exact Hc|exact Hs|exact Hnj].
    + intros Hlt. rewrite (agree_frame o Ho _ _ _ _ Ha Hin). by apply Hk.
Qed.

(** A frame that waits to be read is overwritten when the kernel stores a
    received packet in its place, which it may do once for each: the set-up has
    given it all of them. *)
Theorem received_packet_overwrites {OS : txrx_os} {B : build} o c k packet :
  0 <= k < 4096 → k ∉ received c → length packet = Z.to_nat (packet_size o) →
  (length packet <= 4096)%nat →
  ∃ c', xdp_step o c c' ∧ wire c' = wire c ∧ loop_state c' = loop_state c ∧
    descs (trace (program c')) = descs (trace (program c)) ∧
    frame_in o (umem (glob (program c'))) k = packet.
Proof.
  intros Hk Hn Hl Hmax. eexists. split.
  - apply (kernel_receives o c k (store (umem (glob (program c))) (k * 4096) packet)); [done..|].
    intros a Ha. rewrite lookup_store. rewrite decide_False; [done|]. intros Hin. apply Ha.
    symmetry. apply (Z.div_unique _ _ _ (a - k * 4096)); lia.
  - do 3 (split; [done|]). cbn [program glob]. unfold frame_in. rewrite <- Hl.
    replace (umem _) with (store (umem (glob (program c))) (k * 4096) packet)
      by by destruct (glob (program c)).
    apply load_store_same.
Qed.

(** Nor is the header of such a place ever written again: no round changes the
    first 18 bytes of any frame, so that a frame handed over from a place that
    has been received into starts with the bytes received. *)
Theorem header_is_not_restored {OS : txrx_os} {B : build} o x k s s' r :
  64 <= packet_size o <= 1500 → xdp_round o x s = (r, s') →
  load (umem (glob s')) (k * 4096) ETH_VLAN_HDR_SZ
  = load (umem (glob s)) (k * 4096) ETH_VLAN_HDR_SZ.
Proof.
  intros Hsz E. pose proof (headers_kept k o x Hsz s) as [_ H]. by rewrite E in H.
Qed.

(** ** Witnesses *)

(** One round on a system without trouble, and then a packet received into
    frame 5. *)
Lemma one_reception {OS : txrx_os} {B : build} o x s :
  opt_wf o → mac_wf (dst_mac_addr (glob s)) → umem_size (glob s) = UMEM_SIZE →
  glob_xskinfo (glob s) = Some x → fresh x → untouched (trace s) → halt_tx_sig (glob s) = 0 →
  (∀ tr, os_signals tr = []) → kick_succeeds → tx_room →
  ∃ c f, reachable o s c ∧ wire c = [f] ∧ received c = [5] ∧ descs (trace (program c)) = 1.
Proof.
  intros Ho Hm Hsz Hx Hfr Hun Hh Hsig Hk Hroom. pose proof (wf_frames o Ho).
  pose proof (xtx_start_ok o _ (start_of o (trace s)) True Ho x s eq_refl eq_refl Hm Hsz Hx
    Hfr Hun (λ _, Hh)) as H'.
  unfold wp in H'. destruct (xtx_start o s) as [out s1] eqn:E1.
  cbn [fst snd] in H'. destruct H' as (y & -> & HI & _ & Es & Ed).
  pose proof (xdp_round_ok o _ _ True Ho (λ _, Hk) (λ _, Hsig) y s1 HI) as H'.
  unfold wp in H'. destruct (xdp_round o y s1) as [out s2] eqn:E2.
  cbn [fst snd] in H'. destruct out as [[x'|[]]|c| |]; cbn [xround_post] in H'.
  2: { destruct H' as (_ & _ & _ & E & _ & E'). rewrite (E' I), Es in E.
       unfold DEFAULT_NUM_FLUSH_PACKETS in E. lia. }
  2: by destruct H' as (_ & _ & []).
  2-3: done.
  destruct H' as (_ & _ & tr & _ & [[_ []]|[Ed' _]]); [exact Hroom|]. rewrite Ed in Ed'.
  eexists _, _. split.
  - exists y, s1. split; [exact E1|]. eapply rtc_l; [apply thread_round; exact E2|].
    eapply rtc_once. apply (kernel_receives _ _ 5 (umem (glob s2))); [lia| |done].
    apply not_elem_of_nil.
  - cbn [wire received program trace loop_state]. unfold handed_over. rewrite Ed, Ed'.
    split; [reflexivity|]. by split.
Qed.

Lemma frames_stay_in_memory_witness :
  ∃ c f, wire c = [f] ∧ received c = [5] ∧
    @frame_in (demo_txrx_os []) demo_user_opt (umem (glob (program c))) 0 = f.
Proof.
  destruct (@one_reception (demo_txrx_os []) demo_build demo_user_opt
    (mk_xsk_info 7 0 0 0 0 0) demo_xsk_state demo_user_opt_wf init_mac_wf eq_refl eq_refl
    (conj eq_refl (conj eq_refl eq_refl)) (conj eq_refl (conj eq_refl eq_refl)) eq_refl
    (λ _, eq_refl)) as (c & f & Hr & Hw & Hrec & Hd);
    [intros tr; discriminate|intros tr; split; [reflexivity|by split]|]. exists c, f.
  split; [exact Hw|]. split; [exact Hrec|].
  pose proof (@frames_stay_in_memory (demo_txrx_os []) demo_build demo_user_opt
    (mk_xsk_info 7 0 0 0 0 0) demo_xsk_state c demo_user_opt_wf init_mac_wf eq_refl eq_refl
    (conj eq_refl (conj eq_refl eq_refl)) (conj eq_refl (conj eq_refl eq_refl)) Hr)
    as (_ & ns & Hl & _ & H).
  rewrite Hw in Hl, H. destruct ns as [|n ns]; [discriminate Hl|].
  destruct (H 0%nat f n) as [_ Hf]; [reflexivity|reflexivity| |].
  - rewrite Hrec. intros Hin. apply list_elem_of_singleton in Hin. discriminate Hin.
  - apply Hf. rewrite Hd. reflexivity.
Defined.
