(* ===== verification/XdpProcess.v ===== *)
(** * TXRX-TSN over AF_XDP: two processes, from their command lines to the log

    main() of a sender and main() of a receiver over AF_XDP: options, the socket
    and its packet memory, log files, the transmit thread, the receive loop and
    the clean-up, which ends the process. *)

From S2P Require Import Prelude Sys Libc Argp Txrx Afxdp TxrxMain TxrxLink TxrxProcess XdpLink.

Local Open Scope Z_scope.

(** ** Specification *)

(** The frames that the process with the command line [argv] hands to the
    kernel, once it is ready to transmit. *)
Definition process_frames `{!txrx_os, !build} (fuel : nat) (argv : list word) : list (list Z) :=
  match (o ← main_options argv; xdp_ready fuel o) fresh_process with
  | (Done o, s) =>
      if (socket_mode o =? MODE_AFXDP) && (mode o =? MODE_TX) then xdp_frames fuel o s else []
  | _ => []
  end.

(** The line for the frame [f]: its number and its send time, the receive time
    and their difference. *)
Definition xlog_line (o : user_opt) (f line : list Z) : Prop :=
  let sent := pl_tx_timestampA f off_payload in
  ∃ hw D, line = [u64 (D - sent); fnum f; socket_prio o; sent; hw; D].

(** ** Lemmas: the set-up *)

(** Calls that are no poll of the receive ring and print nothing. *)
Definition unseen (c : call) : Prop :=
  match c with Stdout _ | RingPeek RxRing _ => False | _ => True end.

Lemma unseen_printed (s s' : st txrx_glob call) :
  extends_by unseen s s' → printed (trace s') = printed (trace s).
Proof.
  intros (new & -> & H). induction H as [|c new Hc _ IH]; [done|]. simpl.
  rewrite printed_cons, IH. destruct c; try done; apply app_nil_r.
Qed.

Lemma unseen_peeks (s s' : st txrx_glob call) :
  extends_by unseen s s' → peeks (trace s') = peeks (trace s).
Proof.
  intros (new & -> & H). induction H as [|c new Hc _ IH]; [done|]. simpl.
  destruct c; try exact IH. match goal with r : ring |- _ => by destruct r end.
Qed.

Lemma file_call_unseen c : file_call c → unseen c.
Proof. by destruct c. Qed.

Lemma untouched_files (s s' : st txrx_glob call) :
  extends_by file_call s s' → untouched (trace s) → untouched (trace s').
Proof.
  intros (new & -> & H) Hu. induction H as [|c new Hc _ IH]; [done|]. simpl.
  by destruct c.
Qed.

(** The options init_xdp_socket() leaves differ in the flags only. *)
Definition same_but_flags (o o' : user_opt) : Prop :=
  opt_wf o' ∧ frames_to_send o' = frames_to_send o ∧ socket_prio o' = socket_prio o ∧
  mode o' = mode o ∧ socket_mode o' = socket_mode o ∧ packet_size o' = packet_size o.

Lemma flags_same o xf bf :
  opt_wf o →
  same_but_flags o (o {{ x_opt := (x_opt o) {{ xdp_flags := xf; xdp_bind_flags := bf }} }}).
Proof. intros []. destruct o as [], x_opt. split; [by split|done]. Qed.

Lemma ifindex_same o i : opt_wf o → same_but_flags o (o {{ ifindex := i }}).
Proof. intros Ho. split; [by apply wf_ifindex|]. by destruct o. Qed.

(** A process that may start to transmit or to receive. *)
Record xdp_started (s : st txrx_glob call) : Prop := {
  xd_mac : mac_wf (dst_mac_addr (glob s));
  xd_size : umem_size (glob s) = UMEM_SIZE;
  xd_xsk : ∃ x, glob_xskinfo (glob s) = Some x ∧ fresh x;
  xd_untouched : untouched (trace s);
  xd_halt : halt_tx_sig (glob s) = 0;
  xd_printed : printed (trace s) = [];
  xd_peeks : peeks (trace s) = 0%nat
}.

Section setup.
Context {OS : txrx_os} {B : build}.
Implicit Types s : st txrx_glob call.

Lemma unseen_init o : adds unseen (init_xdp_socket o).
Proof.
  unfold init_xdp_socket, create_umem, create_xsk_info, __afxdp_exit_with_error, xdpsock_cleanup,
    get_xsk, exit_with_error. grow.
Qed.

(** What the set-up needs of the system. *)
Definition xdp_system (fuel : nat) : Prop := WITH_XDP = true ∧ xdp_setup ∧ logs_copyable fuel.

Lemma xdp_ready_ok fuel o name s :
  opt_wf o → mac_wf (dst_mac_addr (glob s)) →
  unparsed (glob s) = unparsed init_txrx_glob → trace s = [IfNametoindex name] →
  logs_copyable fuel →
  wp (xdp_ready fuel o)
     (λ out s', match out with
                | Done o' => same_but_flags o o' ∧ xdp_started s'
                | _ => ¬ xdp_system fuel
                end) s.
Proof.
  intros Ho Hm Hu Ht Hlogs. apply unparsed_init in Hu as (Hh & _ & Hx). unfold xdp_ready.
  destruct WITH_XDP eqn:EX; cbn [negb]; [|by intros [E _]; rewrite EX in E].
  apply wp_bind, (wp_adds unseen); [apply unseen_init|].
  eapply wp_mono; [apply (init_xdp_socket_ok o s); [done|done|by rewrite Ht..]|].
  intros [o1|c| |] s1; cbn [abrupt].
  - intros ([x [Hx1 Hf]] & Hsz & _ & Hun & Hmac & Hhalt & xf & bf & _ & _ & ->) He.
    apply wp_bind. unfold get at 1, wp at 1. cbn [fst snd]. rewrite Hx1. apply wp_bind, wp_ret.
    apply wp_bind, wp_ask. set (s2 := mkSt _ _). apply wp_bind, (wp_adds file_call);
      [apply log_start_calls|].
    eapply wp_mono; [by apply ts_log_start_done|]. intros out s3 [-> Eg] E3. cbn [abrupt].
    apply wp_ret. split; [by apply flags_same|].
    assert (extends_by unseen s s3) as He3.
    { eapply extends_trans; [exact He|]. destruct E3 as (new & E & Hn).
      exists (new ++ [Usleep 45000000]). rewrite E, <- app_assoc. split; [done|].
      apply Forall_app_2; [|by repeat constructor].
      eapply Forall_impl; [exact Hn|]. apply file_call_unseen. }
    change (glob s2) with (glob s1) in Eg. split; rewrite ?Eg.
    + by rewrite Hmac.
    + done.
    + by exists x.
    + apply (untouched_files s2); [done|]. destruct Hun as (U1 & U2 & U3). by repeat split.
    + by rewrite Hhalt.
    + by rewrite (unseen_printed s s3 He3), Ht.
    + by rewrite (unseen_peeks s s3 He3), Ht.
  - intros [_ Hn] _ (_ & Hs & _). by apply Hn.
  - intros Hn _ (_ & Hs & _). apply Hn, Hs.
  - done.
Qed.

(** main() up to the switch on the direction. *)
Lemma main_ready fuel argv o :
  asks argv o → logs_copyable fuel →
  wp (o ← main_options argv; xdp_ready fuel o)
     (λ out s', match out with
                | Done o' => same_but_flags o o' ∧ xdp_started s'
                | _ => ifname o = None ∨ (∃ tr, u32 (os_if_nametoindex tr) = 0) ∨ ¬ xdp_system fuel
                end) fresh_process.
Proof.
  intros Ha Hlogs. pose proof (asks_wf argv o Ha) as Ho. apply wp_bind.
  eapply wp_mono; [by apply main_options_run|].
  intros [o1|c| |] s1; cbn [abrupt]; [|by intros [[H|H] _]; auto..].
  intros (name & i & Hn & -> & Hm & Hu & Ht).
  eapply wp_mono; [by apply (xdp_ready_ok fuel _ name); [apply wf_ifindex|..]|].
  intros [o2|c| |] s2; [|by auto..]. intros [H Hs]. split; [|done].
  destruct (ifindex_same o i Ho) as (_ & E1 & E2 & E3 & E4 & E5), H as (H0 & H1 & H2 & H3 & H4 & H5).
  split; [done|]. by rewrite H1, H2, H3, H4, H5.
Qed.

(** What main() does over AF_XDP. *)
Lemma main_over_xdp fuel argv o :
  asks argv o → socket_mode o = MODE_AFXDP →
  main fuel argv fresh_process
  = (o ← (o ← main_options argv; xdp_ready fuel o);
     (if mode o =? MODE_TX then afxdp_send_thread fuel o
      else if mode o =? MODE_RX then
        modify (λ g, g {{ glob_rx_seq := 0 }});;
        rx_loop fuel o (afxdp_recv_pkt fuel)
      else exit_with_error);;
     ts_log_stop fuel;;
     xdpsock_cleanup) fresh_process.
Proof.
  intros Ha Hs. pose proof (main_options_run argv o Ha) as H. unfold main, main_afxdp.
  unfold mbind, M_bind. unfold wp in H.
  destruct (main_options argv fresh_process) as [[o1|c| |] s1]; try done.
  destruct H as (name & i & _ & E & _).
  assert (socket_mode o1 = socket_mode o) as -> by (rewrite E; by destruct o).
  rewrite Hs. change (MODE_AFXDP =? MODE_AFPKT) with false.
  change (MODE_AFXDP =? MODE_AFXDP) with true. cbv beta iota. by destruct (xdp_ready fuel o1 s1) as [[]].
Qed.
End setup.

(** ** Lemmas: the processes *)

(** The frames of a sender's process. *)
Lemma process_frames_at {OS : txrx_os} {B : build} fuel argv o :
  asks argv o → logs_copyable fuel →
  process_frames fuel argv = [] ∨
  ∃ o1 s, process_frames fuel argv = xdp_frames fuel o1 s ∧ same_but_flags o o1 ∧ xdp_started s.
Proof.
  intros Ha Hlogs. pose proof (main_ready fuel argv o Ha Hlogs) as H.
  unfold process_frames. unfold wp in H.
  destruct ((o ← main_options argv; xdp_ready fuel o) fresh_process) as [[o1|c| |] s1]; auto.
  destruct (_ && _); [|by left]. right. by exists o1, s1.
Qed.

(** The receiver's whole life around its receive loop. *)
Lemma xdp_receiver_run {OS : txrx_os} {B : build} fuel argv o name (R : list (list Z) → Prop) :
  asks argv o → socket_mode o = MODE_AFXDP → mode o = MODE_RX → ifname o = Some name →
  (∀ tr, u32 (os_if_nametoindex tr) ≠ 0) → xdp_system fuel →
  (∀ r o1, frames_to_send o1 = frames_to_send o → rx_ready r → glob_rx_seq (glob r) = 0 →
     peeks (trace r) = 0%nat → printed (trace r) = [] →
     wp (rx_loop fuel o1 (afxdp_recv_pkt fuel))
        (λ out r', out = Done tt ∧ is_Some (glob_xskinfo (glob r')) ∧ R (printed (trace r'))) r) →
  wp (main fuel argv) (λ out s', out = Exited EXIT_SUCCESS ∧ R (printed (trace s'))) fresh_process.
Proof.
  intros Ha Hs Hmode Hn Hif Hsys Hloop. pose proof Hsys as (_ & _ & Hlogs).
  eapply wp_same_run; [by apply (main_over_xdp fuel argv o)|].
  apply wp_bind. eapply wp_mono; [by apply main_ready|].
  intros [o1|c| |] s1; cbn [abrupt];
    [|by intros [H|[[tr H]|H]]; [rewrite H in Hn|destruct (Hif tr)|]..].
  intros [(_ & Hf & _ & Em & _) [Hm Hsz [x [Hx _]] _ Hh Hp Hk]].
  rewrite Em, Hmode. change (MODE_RX =? MODE_TX) with false. change (MODE_RX =? MODE_RX) with true.
  cbv iota. do 2 apply wp_bind. unfold modify at 1, wp at 1. cbn [fst snd]. set (s2 := mkSt _ _).
  eapply wp_mono; [apply (Hloop s2 o1); [done| |by destruct (glob s1)|done|done]|].
  { unfold s2. destruct s1 as [[] tr]. simpl in *. by split; simpl; [exists x|..]. }
  intros out s3 (-> & [y Hy] & HR). cbn [abrupt]. apply wp_bind, (wp_adds file_call);
    [apply log_stop_calls|].
  eapply wp_mono; [by apply ts_log_stop_done|]. intros out s4 [-> Eg] E4. cbn [abrupt].
  assert (printed (trace s4) = printed (trace s3)) as Ep.
  { apply aside_printed. destruct E4 as (new & E & Hnew). exists new. split; [done|].
    eapply Forall_impl; [exact Hnew|]. apply file_call_aside. }
  unfold xdpsock_cleanup, get_xsk. do 2 apply wp_bind. unfold get, wp at 1. cbn [fst snd].
  rewrite Eg, Hy. apply wp_ret, wp_bind, wp_ask, wp_bind, wp_ask.
  split; [done|]. change (R (printed (XskUmemDelete :: XskSocketDelete :: trace s4))). by rewrite !printed_cons, !app_nil_r, Ep.
Qed.

(** *** What a line says of its frame *)

Lemma xpacket_time o mac n t f : opt_wf o → mac_wf mac → xpacket o mac n t f → pl_tx_timestampA f off_payload = t.
Proof.
  intros Hwf Hm (payload & Hl & -> & _ & _ & <-). pose proof (wf_size o Hwf).
  unfold pl_tx_timestampA, xdp_frame, off_payload. do 2 f_equal.
  rewrite read_at_skip by (by apply tsn_header_length). apply read_at_take.
  unfold off_tx_timestampA. lia.
Qed.

Lemma xlines_log o o1 mac fs ls :
  same_but_flags o o1 → mac_wf mac → Forall2 (xline o1 mac) fs ls → Forall2 (xlog_line o) fs ls.
Proof.
  intros (Ho & _ & Ep & _) Hm H. eapply Forall2_impl; [exact H|].
  intros f line (n & t & hw & D & Hp & ->). exists hw, D.
  by rewrite (xpacket_time _ _ _ _ _ Ho Hm Hp), (xpacket_num _ _ Ho Hm _ _ _ Hp), Ep.
Qed.

(** An undisturbed sender's frames: numbered from 0, ten more than asked for. *)
Lemma process_frames_complete {OS : txrx_os} {B : build} fuel argv o name :
  asks argv o → socket_mode o = MODE_AFXDP → mode o = MODE_TX → ifname o = Some name →
  (∀ tr, u32 (os_if_nametoindex tr) ≠ 0) → xdp_system fuel →
  kick_succeeds → (∀ tr, os_signals tr = []) → tx_room →
  frames_to_send o + DEFAULT_NUM_FLUSH_PACKETS < Z.of_nat fuel →
  let fs := process_frames fuel argv in
  fnum <$> fs = seqZ 0 (frames_to_send o + DEFAULT_NUM_FLUSH_PACKETS) ∧
  Forall (λ f, length f = Z.to_nat (packet_size o)) fs.
Proof.
  intros Ha Hs Hm Hn Hif Hsys Hk Hsig Hroom Hf fs. unfold fs, process_frames.
  pose proof (main_ready fuel argv o Ha ltac:(apply Hsys)) as H. unfold wp in H.
  destruct ((o ← main_options argv; xdp_ready fuel o) fresh_process) as [[o1|c| |] s];
    cbn [fst snd] in H;
    [|by destruct H as [H|[[tr H]|H]]; [rewrite H in Hn|destruct (Hif tr)|]..].
  destruct H as [(Ho & Ef & _ & Em & Es & Ep) [Hmac Hsz (x & Hx & Hfr) Hun Hh _ _]].
  rewrite Em, Es, Hm, Hs. change ((MODE_AFXDP =? MODE_AFXDP) && (MODE_TX =? MODE_TX)) with true.
  cbv iota. destruct (xdp_frames_numbers True fuel o1 x s Ho Hmac Hsz Hx Hfr Hun) as (H1 & _ & H3);
    [auto|]. rewrite Ef in H3. split; [by apply H3|].
  eapply Forall_impl; [exact H1|]. intros f (t & payload & Hl & -> & _). rewrite <- Ep.
  by apply xdp_frame_length.
Qed.

(** ** Properties *)

(** C5: end to end over AF_XDP, from two command lines: when the network keeps
    the order of the frames, whatever it loses and however often the receiver
    polls in vain, and a frame with a number from the number of packets asked for
    on arrives (ten more are sent for that), the receiver's process ends by itself
    with status 0 at the first such frame, and all that it has printed is exactly
    one line for each frame up to it, with that frame's number, queue and send
    time; only the frame number 0 is not logged.  The numbers increase; when the
    sender is undisturbed and nothing is lost, they are the numbers from 1 to the
    number of packets asked for.  Assumed are that both command lines ask for the
    same number of packets, log files that can be copied with
    the fuel given, and for the receiver a set-up that succeeds; the sender may
    fail at any point. *)
Theorem xdp_end_to_end {OSS OSR : txrx_os} {BS BR : build}
  fuel fuel' argv argv' o o' name inputs pre lbuf :
  @asks OSS argv o → @logs_copyable OSS fuel →
  let fs := @process_frames OSS BS fuel argv in
  let arrived := omap id pre ++ [lbuf] in
  let undisturbed := (∀ tr, @os_signals OSS tr = []) ∧ @kick_succeeds OSS ∧ @tx_room OSS ∧
                     frames_to_send o + DEFAULT_NUM_FLUSH_PACKETS < Z.of_nat fuel in
  arrived `sublist_of` fs →
  Forall (λ f, fnum f < frames_to_send o) (omap id pre) → frames_to_send o <= fnum lbuf →
  @asks OSR argv' o' → socket_mode o' = MODE_AFXDP → mode o' = MODE_RX →
  ifname o' = Some name → frames_to_send o' = frames_to_send o →
  (∀ tr, u32 (@os_if_nametoindex OSR tr) ≠ 0) → @xdp_system OSR BR fuel' →
  (∀ tr, @os_signals OSR tr = []) → @xinputs_of OSR inputs → pre ++ [Some lbuf] `prefix_of` inputs →
  (length pre < fuel')%nat →
  wp (@main OSR BR fuel' argv')
     (λ out s', out = Exited EXIT_SUCCESS ∧
        let ls := printed (trace s') in
        Forall2 (xlog_line o) (logged arrived) ls ∧
        ((λ l, nth 1 l 0) <$> ls) `sublist_of` seqZ 1 (frames_to_send o + 9) ∧
        (undisturbed → arrived = take (S (Z.to_nat (frames_to_send o))) fs →
         (λ l, nth 1 l 0) <$> ls = seqZ 1 (frames_to_send o)))
     fresh_process.
Proof.
  intros Ha Hlog fs arrived undisturbed Hsub Hpre Hlast Ha' Hs' Hm' Hn' Hfr Hif Hsys Hsig Hin
    Hinp Hf'.
  destruct (@process_frames_at OSS BS fuel argv o Ha Hlog) as [E|(o1 & s & E & Hsame & Hst)].
  { exfalso. unfold fs in Hsub. rewrite E in Hsub. apply sublist_nil_r in Hsub.
    by destruct (omap id pre). }
  pose proof Hsame as (Ho1 & Hfr1 & _). destruct Hst as [Hmac Hsz (x & Hx & Hfresh) Hun Hh _ _].
  unfold fs in Hsub |- *. rewrite E in Hsub |- *.
  apply (xdp_receiver_run fuel' argv' o' name (λ ls,
    Forall2 (xlog_line o) (logged arrived) ls ∧
    ((λ l, nth 1 l 0) <$> ls) `sublist_of` seqZ 1 (frames_to_send o + 9) ∧
    (undisturbed → arrived = take (S (Z.to_nat (frames_to_send o))) _ →
     (λ l, nth 1 l 0) <$> ls = seqZ 1 (frames_to_send o)))); [done..|].
  intros r o2 Hfr2 Hrdy Hseq Hpk Hpr.
  eapply wp_mono; [eapply (@xdp_arrived_are_logged OSS OSR BS fuel fuel' fuel' o1 o2 x inputs pre lbuf s r);
    rewrite ?Hfr1; try done|].
  - intros n tr. apply Hsys.
  - congruence.
  - lia.
  - intros out r' (-> & Hx' & ls & Ep & H1 & H2 & H3). rewrite Hpr in Ep. cbn [app] in Ep.
    rewrite Hfr1 in *. split; [done|]. split; [done|]. rewrite Ep.
    split; [by eapply xlines_log|]. split; [done|].
    intros (U1 & U2 & U3 & U4). by apply H3.
Qed.

(** ** Witness *)

(** txrx-tsn -i eth0 -X -t -n 3, and -r for the receiver. *)
Definition demo_xargv (direction : string) : list word :=
  bytes_of_string <$> ["-i"; "eth0"; "-X"; direction; "-n"; "3"]%string.

Definition demo_xasked (m : Z) : user_opt :=
  (demo_asked m) {{ socket_mode := MODE_AFXDP }}.

Lemma demo_libbpf_ok : @libbpf_ok (demo_txrx_os []).
Proof. by split. Qed.

Abbreviation demo_xfs :=
  (@process_frames (demo_txrx_os []) demo_build 14 (demo_xargv "-t")).

Lemma demo_xfs_ok : fnum <$> demo_xfs = seqZ 0 13 ∧ Forall (λ f, length f = 64%nat) demo_xfs.
Proof.
  apply (@process_frames_complete (demo_txrx_os []) demo_build 14 (demo_xargv "-t")
    (demo_xasked MODE_TX) (bytes_of_string "eth0")).
  - vm_compute. reflexivity.
  - reflexivity.
  - reflexivity.
  - reflexivity.
  - intros tr. discriminate.
  - split; [reflexivity|]. split; [|left; reflexivity].
    split; [intros tr; reflexivity..|exact demo_libbpf_ok].
  - intros tr. discriminate.
  - intros tr. reflexivity.
  - intros tr. split; [reflexivity|by split].
  - reflexivity.
Qed.

(** Frame 2 is lost and one poll finds nothing. *)
Lemma xdp_end_to_end_witness :
  ∃ f0 f1 f3,
  let inputs := [Some f0; None; Some f1; Some f3] in
  let run := @main (demo_xlink_os inputs) demo_build 4 (demo_xargv "-r") fresh_process in
  (fnum <$> [f0; f1; f3]) = [0; 1; 3] ∧
  run.1 = Exited EXIT_SUCCESS ∧
  ((λ l, nth 1 l 0) <$> printed (trace run.2)) `sublist_of` [1; 2; 3; 4; 5; 6; 7; 8; 9; 10; 11; 12].
Proof.
  destruct demo_xfs_ok as [E Hl].
  assert (∃ f0 f1 f2 f3 rest, demo_xfs = f0 :: f1 :: f2 :: f3 :: rest)
    as (f0 & f1 & f2 & f3 & rest & Er).
  { destruct demo_xfs as [|f0 [|f1 [|f2 [|f3 rest]]]]; try discriminate E. by eauto 6. }
  rewrite Er in E, Hl. injection E as E0 E1 E2 E3 _.
  repeat (apply Forall_cons in Hl as [? Hl]).
  exists f0, f1, f3. intros inputs run.
  destruct (demo_xlink_ok inputs) as [Hin _]; [by repeat constructor|].
  split; [change ([fnum f0; fnum f1; fnum f3] = [0; 1; 3]); by rewrite E0, E1, E3|].
  destruct (@xdp_end_to_end (demo_txrx_os []) (demo_xlink_os inputs) demo_build demo_build 14 4
    (demo_xargv "-t") (demo_xargv "-r") (demo_xasked MODE_TX) (demo_xasked MODE_RX)
    (bytes_of_string "eth0") inputs [Some f0; None; Some f1] f3) as (G1 & _ & G2 & _).
  - vm_compute. reflexivity.
  - left. reflexivity.
  - rewrite Er. simpl. do 2 apply sublist_skip. apply sublist_cons, sublist_skip.
    apply sublist_nil_l.
  - simpl. constructor; [|constructor; [|constructor]]; rewrite ?E0, ?E1; reflexivity.
  - rewrite E3. discriminate.
  - vm_compute. reflexivity.
  - reflexivity.
  - reflexivity.
  - reflexivity.
  - reflexivity.
  - intros tr. discriminate.
  - split; [reflexivity|]. split; [|left; reflexivity].
    split; [intros tr; reflexivity..|by split].
  - reflexivity.
  - exact Hin.
  - exists []. reflexivity.
  - simpl. lia.
  - split; [exact G1|exact G2].
Defined.
