(* ===== verification/Opcua.v ===== *)
(** * OPC UA server: shared data (src/src/opcua-tsn/opcua_common.h, opcua_datasource.h)

    The configuration records, the globals of the server, the calls it makes
    to the C library, to json-c and to open62541, and the environment that
    answers them. *)

From S2P Require Import Prelude Sys Libc.

Local Open Scope Z_scope.

(** ** Constants *)

Definition MAX_OPCUA_THREAD : Z := 6.
Definition ERROR_DUPLICATE : Z := 3131313131313131313.
Definition ERROR_MSGQ_COPY : Z := 4343434343434343434.
Definition ERROR_NOTHING_TO_FORWARD : Z := 5656565656565656565.
Definition MSGQ_TYPE : Z := 1.
Definition EXIT_SUCCESS : Z := 0.
Definition EXIT_FAILURE : Z := 1.
Definition ONESEC_IN_NSEC : Z := 1000000000.
Definition UA_STATUSCODE_GOOD : Z := 0.
Definition UA_STATUSCODE_BADINTERNALERROR : Z := 0x80020000.

(** ** Configuration *)

(** The data source callbacks a node can be given. *)
Inductive DSCallbackRead : Type :=
| read_unset | pubGetDataToTransmit_f | pubReturnGetDataToTransmit_f | dummyDSRead_f.

Inductive DSCallbackWrite : Type :=
| write_unset | subStoreDataReceived_f | subReturnStoreDataReceived_f | dummyDSWrite_f.

(** A pointer to a C string or an output file is [None] for NULL.  Left out are
    the fields that no code reads (prev_sequence_num, cpu, temp_targetVars,
    temp_dataSetMetaData), the constant transportProfile and the buffer mqbuf1,
    which only carries arguments of msgctl(). *)
Record PublisherData : Type := mk_pub {
  socketPriority : Z;
  p_xdpQueue : Z;
  earlyOffsetNs : Z;
  publishOffsetNs : Z;
  publishDelaySec : Z;
  p_url : option (list Z);
  p_id : Z;
  dataSetWriterId : Z;
  writerGroupId : Z;
  p_twoWayData : bool;
  p_cpuAffinity : Z;
  p_readFunc : DSCallbackRead;
  p_writeFunc : DSCallbackWrite
}.

Record SubscriberData : Type := mk_sub {
  s_xdpQueue : Z;
  offsetNs : Z;
  s_url : option (list Z);
  s_id : Z;
  subscribedPubId : Z;
  subscribedDSWriterId : Z;
  subscribedWGId : Z;
  fpSubscriberOutput : option (list Z);         (* the path of the open file *)
  subscriberOutputFileName : option (list Z);
  s_twoWayData : bool;
  s_cpuAffinity : Z;
  s_readFunc : DSCallbackRead;
  s_writeFunc : DSCallbackWrite
}.

Record ServerData : Type := mk_server {
  pubInterface : option (list Z);
  subInterface : option (list Z);
  cycleTimeNs : Z;
  pollingDurationNs : Z;
  useXDP : bool;
  useXDP_ZC : bool;
  useXDP_SKB : bool;
  pubCount : Z;
  subCount : Z;
  pubData : option (list PublisherData);
  subData : option (list SubscriberData);
  startTime : Z;
  packetCount : Z;
  msqid : Z
}.

(** What calloc() leaves in them. *)
Definition zero_pub : PublisherData :=
  mk_pub 0 0 0 0 0 None 0 0 0 false 0 read_unset write_unset.
Definition zero_sub : SubscriberData :=
  mk_sub 0 0 None 0 0 0 0 None None false 0 read_unset write_unset.
Definition zero_server : ServerData :=
  mk_server None None 0 0 false false false 0 0 None None 0 0 0.

(** [struct msgq_buf] without its type. *)
Record msgq_buf : Type := mk_msgq { rx_sequence : Z; txTime : Z; rxTime : Z }.

(** ** Globals *)

Record ua_glob : Type := mk_ua_glob {
  g_sData : ServerData;
  g_running : bool;
  g_roundtrip_pubReturn : bool;
  g_threadRun : Z;                  (* UA_UInt16 *)
  g_thread : list Z;                (* thread ids, MAX_OPCUA_THREAD of them *)
  g_indexPub : Z;                   (* UA_UInt16 *)
  g_indexSub : Z;
  g_writerGroupIdent : Z;
  tx_sequence : Z;                  (* UA_Int64 *)
  prev_rx_sequence : Z              (* UA_UInt64 *)
}.

Definition init_ua_glob : ua_glob :=
  mk_ua_glob zero_server true true 0 (replicate 6 0) 0 0 0 (-2) 999.

(** ** Calls *)

(** Heap objects and open files, for the accounting of what is released. *)
Inductive obj : Type :=
| OServer | OPubs | OSubs | OStr (s : list Z) | OFile (path : list Z).

#[export] Instance obj_eq_dec : EqDecision obj.
Proof. solve_decision. Defined.

(** Blocks allocated through open62541: the arguments of a thread, the settings
    of a writer group's messages, the fields of a reader and its target
    variables. *)
Inductive ua_block : Type :=
| ThreadParams | WriterMessage | ReaderFields | TargetVariables.

#[export] Instance ua_block_eq_dec : EqDecision ua_block.
Proof. solve_decision. Defined.

(** The part of [UA_PubSubConnectionConfig] the code sets. *)
Record connection : Type := mk_conn {
  cc_socketPriority : Z;
  cc_sotxtimeEnabled : bool;
  cc_xdp_queue : Z;
  cc_xdp_flags : Z;
  cc_xdp_bind_flags : Z;
  cc_interface : option (list Z);
  cc_url : option (list Z);
  cc_publisherId : Z
}.

(** Transport layers, and the part of [UA_ServerConfig] the code writes: the
    array it allocates for two layers and the number it declares. *)
Inductive transport : Type := EthernetXDP | EthernetETF.

Record server_config : Type := mk_config {
  pubsubTransportLayersSize : Z;
  pubsubTransportLayers : list (option transport)
}.

Inductive call : Type :=
| Observe                                    (* the program reads a shared flag *)
| ClockGettime
| NanosleepUntil (t : timespec) | NanosleepFor (ns : Z) | Usleep (us : Z)
| Alloc (x : obj) (ok : bool) | Free (x : obj)
| Fopen (path : list Z) (ok : bool) | Fflush (path : list Z) | Fclose (path : list Z)
| Log (path : list Z) (fields : list Z) | LogText (path : list Z) (msg : string)
| Msgget | MsgctlStat | MsgctlSet (qbytes : Z) | MsgctlRmid
| Msgsnd (qid : Z) (m : msgq_buf) | Msgrcv (qid : Z)
| JsonFromFile (path : list Z) | JsonPut
| SetArrayCopy (words : list Z)              (* UA_Variant_setArrayCopy *)
| SchedParam (prio : Z) | GetSchedParam | Affinity (cpu : Z)
| ThreadCreate (pub : bool) (index : Z) | ThreadJoin (id : Z)
| UaMalloc (b : ua_block) (ok : bool) | UaFree (b : ua_block)
| PubCallback (txtime_enabled : bool) (transmission_time : Z)
| SubCallback
| ServerNew | ServerConfig | LayersAlloc (ok : bool)
| UaRandom                                   (* UA_UInt32_random *)
| AddConnection (c : connection)
| AddPublishedDataSet
| AddDataSourceNode (name : string) (rd : DSCallbackRead) (wr : DSCallbackWrite) (index : Z)
| AddDataSetField (pds : Z)
| AddWriterGroup (conn group_id interval_ns : Z) | SetWriterGroupOperational (wg : Z)
| AddDataSetWriter (wg pds writer_id keyframes : Z) | FreezeWriterGroup (wg : Z)
| AddReaderGroup (conn : Z)
| AddDataSetReader (rg writer_id publisher_id group_id : Z)
| CreateTargetVariables (reader : Z)
| ServerRun (config : server_config) | ServerDelete
| LogFopen (path : list Z) (write : bool)    (* the copies of the clock logs *)
| LogFgetc (path : list Z) | LogFputc (path : list Z) (c : Z) | LogFclose (path : list Z).

(** The environment. [os_flags] says whether the flags were changed by other
    threads or a signal handler: has [g_running] been cleared, and was
    [g_roundtrip_pubReturn] set to a value. *)
Class ua_os : Type := {
  os_clock : list call → timespec;
  os_clock_ret : list call → Z;
  os_flags : list call → bool * option bool;
  os_calloc : list call → bool;
  os_fopen : list call → bool;
  os_msgget : list call → Z;
  os_msgctl : list call → Z;
  os_msgsnd : list call → Z;
  os_msgrcv : list call → option msgq_buf;
  os_sched : list call → Z;
  os_thread : list call → Z * Z;
  os_node : list call → Z;           (* identifiers the server hands out *)
  os_random : list call → Z;
  os_server_run : list call → Z;
  os_register : list call → list Z;  (* for each cyclic callback that open62541 registers
                                        during a call: what the hook reads of the group
                                        as its identifier *)
  os_log_fopen : list call → bool;
  os_fgetc : list call → option Z
}.

(** WITH_XDPTBS (configure.ac). *)
Class ua_build : Type := { WITH_XDPTBS : bool }.

Abbreviation T := (M ua_glob call).

Definition is_null {A} (p : option A) : bool :=
  match p with None => true | Some _ => false end.

(** [as_nanoseconds()]. *)
Definition as_nanoseconds (ts : timespec) : Z :=
  u64 (u64 (u64 (tv_sec ts) * 1000000000) + u64 (tv_nsec ts)).

Definition clock_gettime `{!ua_os} : T timespec := ask ClockGettime os_clock.

(** The shared flags as the program sees them next. *)
Definition observe `{!ua_os} : T unit :=
  '(stopped, pubret) ← ask Observe os_flags;
  modify (λ g, g {{ g_running := g_running g && negb stopped;
                    g_roundtrip_pubReturn := default (g_roundtrip_pubReturn g) pubret }}).

(** ** Lemmas *)

Lemma as_nanoseconds_ok ts :
  timespec_ok ts → tv_sec ts < 2 ^ 33 →
  as_nanoseconds ts = tv_sec ts * 1000000000 + tv_nsec ts.
Proof.
  intros [H1 H2] H3. unfold as_nanoseconds.
  rewrite (wrapU_small 64 (tv_sec ts)), (wrapU_small 64 (tv_nsec ts)) by lia.
  rewrite (wrapU_small 64 (tv_sec ts * _)) by lia. apply wrapU_small. lia.
Qed.

(** ** A concrete environment for the witnesses *)

(** Calls succeed, the clock stands at 1000 s; [queue] says what the message
    queue delivers and [stop] when the server is stopped. *)
Definition make_ua_os (queue : option msgq_buf) (stop : nat) : ua_os := {|
  os_clock := λ _, mk_timespec 1000 7; os_clock_ret := λ _, 0;
  os_flags := λ tr, ((stop <=? length tr)%nat, None);
  os_calloc := λ _, true; os_fopen := λ _, true;
  os_msgget := λ _, 4; os_msgctl := λ _, 0; os_msgsnd := λ _, 0; os_msgrcv := λ _, queue;
  os_sched := λ _, 0; os_thread := λ tr, (0, Z.of_nat (length tr));
  os_node := λ tr, match tr with
                   | AddReaderGroup _ :: _ => 2 * Z.of_nat (length tr) + 1
                   | _ => 2 * Z.of_nat (length tr) end; os_random := λ _, 12345; os_server_run := λ _, 0;
  os_register := λ tr, match tr with
                       | SetWriterGroupOperational wg :: _ => [wg]
                       | AddReaderGroup _ :: _ => [2 * Z.of_nat (length tr) + 1]
                       | _ => [] end;
  os_log_fopen := λ _, false; os_fgetc := λ _, None
|}.

Definition demo_path : list Z := bytes_of_string "sub.log".

Definition demo_pub : PublisherData :=
  zero_pub {{ earlyOffsetNs := 100000; publishOffsetNs := 5000; publishDelaySec := 5;
              p_id := 11; p_url := Some (bytes_of_string "opc.eth://22-bb-22-bb-22-bb:3.3") }}.

Definition demo_sub : SubscriberData :=
  zero_sub {{ s_id := 11; offsetNs := 20000; fpSubscriberOutput := Some demo_path;
              subscriberOutputFileName := Some demo_path }}.

Definition demo_server : ServerData :=
  zero_server {{ pubInterface := Some (bytes_of_string "eth0");
                 subInterface := Some (bytes_of_string "eth0");
                 cycleTimeNs := 1000000; pubCount := 1; subCount := 1;
                 pubData := Some [demo_pub]; subData := Some [demo_sub];
                 packetCount := 999; msqid := 4 }}.

Definition demo_state : st ua_glob call :=
  mkSt (init_ua_glob {{ g_sData := demo_server }}) [].
