(* ===== verification/OpcuaDatasource.v ===== *)
(** * OPC UA server: the data sources (src/src/opcua-tsn/opcua_datasource.c)

    The callbacks the server runs to publish a sample, to store a received
    one, and, for the round trip, to forward a stored sample back and to log
    the answer. *)

From S2P Require Import Prelude Sys Libc Opcua.

Local Open Scope Z_scope.

(** [UA_Variant]: the array length as a UA_UInt64 (the all-ones word for a
    scalar) and the words it points to, [None] for NULL. *)
Record variant : Type := mk_variant { arrayLength : Z; vdata : option (list Z) }.

Definition SCALAR_LENGTH : Z := 2 ^ 64 - 1.

Section datasource.
Context {OS : ua_os}.

(** ** Access to the node context and to received data *)

Definition get_sub (i : nat) : T SubscriberData :=
  g ← get;
  match default [] (subData (g_sData g)) !! i with
  | Some sd => mret sd
  | None => undefined
  end.

Definition set_sub (i : nat) (f : SubscriberData → SubscriberData) : T unit :=
  modify (λ g, g {{ g_sData := (g_sData g) {{
    subData := alter f i <$> subData (g_sData g) }} }}).

(** [ptr_data[k]]. *)
Definition word (v : variant) (k : nat) : T Z :=
  match default [] (vdata v) !! k with Some w => mret w | None => undefined end.

(** ** Publisher of the one-way measurement *)

Definition pubGetDataToTransmit : T Z :=
  current_time_timespec ← clock_gettime;
  modify (λ g, g {{ tx_sequence := i64 (tx_sequence g + 1) }});;
  g ← get;
  let currentTime := as_nanoseconds current_time_timespec in
  tell (SetArrayCopy [u64 (tx_sequence g); currentTime]);;
  when (tx_sequence g =? i64 (packetCount (g_sData g)))
    (modify (λ g, g {{ g_running := false }}));;
  mret UA_STATUSCODE_GOOD.

(** ** Subscriber of the one-way measurement *)

(** The end of a run: the output file is closed and the server stopped. *)
Definition finish_run (i : nat) (fpSubscriber : option (list Z)) : T unit :=
  (match fpSubscriber with
   | Some path =>
       tell (Fflush path);; tell (Fclose path);;
       set_sub i (λ sd, sd {{ fpSubscriberOutput := None }})
   | None => mret tt
   end);;
  modify (λ g, g {{ g_running := false }}).

(** A sample with data: log it and queue it for the return trip. *)
Definition store_sample (sd : SubscriberData) (v : variant) : T msgq_buf :=
  modify (λ g, g {{ g_roundtrip_pubReturn := true }});;
  current_time_timespec ← clock_gettime;
  seq ← word v 0;
  tx ← word v 1;
  let m := mk_msgq seq tx (as_nanoseconds current_time_timespec) in
  let latency := i64 (rxTime m - txTime m) in
  (match fpSubscriberOutput sd with
   | Some path => tell (Log path [latency; i64 (rx_sequence m); s_id sd;
                                  i64 (txTime m); 0; i64 (rxTime m)])
   | None => mret tt
   end);;
  g ← get;
  (if msqid (g_sData g) >=? 0
   then _ ← ask (Msgsnd (msqid (g_sData g)) m) os_msgsnd; mret tt
   else mret tt);;
  mret m.

Definition subStoreDataReceived (i : nat) (data : option variant) : T Z :=
  sd ← get_sub i;
  g ← get;
  match data with
  | None => mret UA_STATUSCODE_GOOD
  | Some v =>
      if (arrayLength v =? SCALAR_LENGTH) && is_null (vdata v)
      then mret UA_STATUSCODE_GOOD
      else
        m ← (if (arrayLength v =? SCALAR_LENGTH) || (arrayLength v >? 0)
             then store_sample sd v else mret (mk_msgq 999 999 999));
        (if rx_sequence m =? packetCount (g_sData g)
         then finish_run i (fpSubscriberOutput sd) else mret tt);;
        mret UA_STATUSCODE_GOOD
  end.

(** ** Publisher of the return trip *)

(** Up to fifteen non-blocking reads of the queue, 10 us apart. *)
Fixpoint receive (tries : nat) (m : msgq_buf) : T msgq_buf :=
  match tries with
  | O => mret m
  | S tries =>
      g ← get;
      r ← ask (Msgrcv (msqid (g_sData g))) os_msgrcv;
      match r with
      | Some m => mret m
      | None => tell (Usleep 10);; receive tries m
      end
  end.

(** The validation of the forwarded data: the words to send, the next
    sequence number, and whether to pause. *)
Definition validate (m : msgq_buf) (prev tx : Z) : msgq_buf * Z * bool :=
  let '(mk_msgq seq txT rxT) := m in
  if (seq <? 10) && (rxT =? 999) && (txT =? 999) then (m, tx, true)
  else if (seq <? 10) && (rxT =? 888) && (txT =? 888) then (m, tx, true)
  else if (seq =? 999) && (rxT =? 999) && (txT =? 999) then
    (mk_msgq ERROR_NOTHING_TO_FORWARD ERROR_NOTHING_TO_FORWARD ERROR_NOTHING_TO_FORWARD,
     tx, false)
  else if (seq =? 888) && (rxT =? 888) && (txT =? 888) then
    (mk_msgq ERROR_MSGQ_COPY ERROR_MSGQ_COPY ERROR_MSGQ_COPY, tx, false)
  else if (seq =? prev) && (seq >? 10) && negb (rxT =? 999) then
    (mk_msgq ERROR_DUPLICATE ERROR_DUPLICATE ERROR_DUPLICATE, tx, false)
  else (m, i64 (tx + 1), false).

Definition is_error (seq : Z) : bool :=
  (seq =? ERROR_DUPLICATE) || (seq =? ERROR_MSGQ_COPY) || (seq =? ERROR_NOTHING_TO_FORWARD).

Definition pubReturnGetDataToTransmit : T Z :=
  m ← receive 15 (mk_msgq 888 888 888);
  g ← get;
  let '(curr, tx, pause) := validate m (prev_rx_sequence g) (tx_sequence g) in
  modify (λ g, g {{ tx_sequence := tx;
                    g_roundtrip_pubReturn := if (pause : bool) then false
                                             else g_roundtrip_pubReturn g }});;
  current_time_timespec ← clock_gettime;
  tell (SetArrayCopy [rx_sequence curr; txTime curr; rxTime curr; u64 tx;
                      as_nanoseconds current_time_timespec]);;
  when (tx >=? i64 (packetCount (g_sData g))) (modify (λ g, g {{ g_running := false }}));;
  when (negb (is_error (rx_sequence curr)))
    (modify (λ g, g {{ prev_rx_sequence := rx_sequence curr }}));;
  mret UA_STATUSCODE_GOOD.

(** ** Subscriber of the return trip *)

(** The result line of a returned sample. *)
Definition return_line (id seqA txPubA rxSubB seqB txPubB rxSubA : Z) : list Z :=
  let a2bLatency := i64 (rxSubB - txPubA) in
  let b2aLatency := i64 (rxSubA - txPubB) in
  let processingLatency := i64 (txPubB - rxSubB) in
  let returnLatency := i64 (rxSubA - txPubA) in
  [a2bLatency; i64 seqA; id; i64 txPubA; 0; i64 rxSubB; processingLatency;
   b2aLatency; i64 seqB; id; i64 txPubB; 0; i64 rxSubA; returnLatency].

(** A returned sample with data: log it; the result is [seqA]. *)
Definition log_return (sd : SubscriberData) (v : variant) : T Z :=
  txPubA ← word v 1;
  rxSubB ← word v 2;
  txPubB ← word v 4;
  seqA ← word v 0;
  seqB ← word v 3;
  current_time_timespec ← clock_gettime;
  let rxSubA := as_nanoseconds current_time_timespec in
  (match fpSubscriberOutput sd with
   | Some path =>
       if seqA =? ERROR_DUPLICATE then tell (LogText path "ERROR_DUPLICATE_SKIPPED"%string)
       else if seqA =? ERROR_MSGQ_COPY then tell (LogText path "ERROR_MSGQ_COPY"%string)
       else if seqA =? ERROR_NOTHING_TO_FORWARD
       then tell (LogText path "ERROR_NOTHING_TO_FORWARD"%string)
       else tell (Log path (return_line (s_id sd) seqA txPubA rxSubB seqB txPubB rxSubA))
   | None => mret tt
   end);;
  mret seqA.

Definition subReturnStoreDataReceived (i : nat) (data : option variant) : T Z :=
  sd ← get_sub i;
  g ← get;
  match data with
  | None => mret UA_STATUSCODE_GOOD
  | Some v =>
      if (arrayLength v =? SCALAR_LENGTH) && is_null (vdata v)
      then mret UA_STATUSCODE_GOOD
      else
        seqA ← (if (arrayLength v =? SCALAR_LENGTH) || (arrayLength v >? 0)
                then log_return sd v else mret 0);
        (if negb (is_error seqA) && (seqA >=? packetCount (g_sData g))
         then finish_run i (fpSubscriberOutput sd) else mret tt);;
        mret UA_STATUSCODE_GOOD
  end.

(** ** The callbacks that must not be called *)

Definition dummyDSRead : T Z := mret UA_STATUSCODE_GOOD.
Definition dummyDSWrite : T Z := mret UA_STATUSCODE_GOOD.
End datasource.

(** ** Specification *)

(** The arrays handed to the server for publication, newest first. *)
Definition arrays (tr : list call) : list (list Z) :=
  omap (λ c, match c with SetArrayCopy w => Some w | _ => None end) tr.

(** A callback run [n] times. *)
Fixpoint times (n : nat) (m : T Z) : T unit :=
  match n with
  | O => mret tt
  | S n => times n m;; _ ← m; mret tt
  end.

(** The calls of [n] samples with consecutive numbers from [first] on: for each a
    reading of the clock, and the array of the number and that reading. *)
Fixpoint sent_samples `{!ua_os} (first : Z) (n : nat) (tr : list call) : list call :=
  match n with
  | O => tr
  | S n =>
      let older := ClockGettime :: sent_samples first n tr in
      SetArrayCopy [u64 (first + Z.of_nat n); as_nanoseconds (os_clock older)] :: older
  end.

(** Does a call use an output file? *)
Definition uses (path : list Z) (c : call) : bool :=
  match c with
  | Log p _ | LogText p _ | Fflush p | Fclose p => bool_decide (p = path)
  | _ => false
  end.

Definition closed (path : list Z) (tr : list call) : bool :=
  existsb (λ c, match c with Fclose p => bool_decide (p = path) | _ => false end) tr.

(** No use of an output file after it is closed. *)
Fixpoint file_ok (path : list Z) (tr : list call) : Prop :=
  match tr with
  | [] => True
  | c :: older => (uses path c = true → closed path older = false) ∧ file_ok path older
  end.

(** One callback of a subscriber: a sample or a returned sample arrives. *)
Definition sub_callback `{!ua_os} (i : nat) (e : bool * option variant) : T Z :=
  if e.1 then subStoreDataReceived i e.2 else subReturnStoreDataReceived i e.2.

Fixpoint sub_callbacks `{!ua_os} (i : nat) (es : list (bool * option variant)) : T unit :=
  match es with
  | [] => mret tt
  | e :: es => _ ← sub_callback i e; sub_callbacks i es
  end.

(** ** Properties: publishing *)

Section publish.
Context {OS : ua_os}.
Implicit Types s : st ua_glob call.

Lemma pub_once s :
  -2 <= tx_sequence (glob s) < 2 ^ 62 → packetCount (g_sData (glob s)) < 2 ^ 62 →
  1 <= packetCount (g_sData (glob s)) →
  wp pubGetDataToTransmit
     (λ out s', out = Done UA_STATUSCODE_GOOD ∧
        trace s' = sent_samples (tx_sequence (glob s) + 1) 1 (trace s) ∧
        tx_sequence (glob s') = tx_sequence (glob s) + 1 ∧
        g_sData (glob s') = g_sData (glob s) ∧
        g_running (glob s') =
          g_running (glob s) &&
          negb (tx_sequence (glob s) + 1 =? packetCount (g_sData (glob s)))) s.
Proof.
  intros Ht HP HP1. unfold pubGetDataToTransmit, clock_gettime.
  apply wp_bind, wp_ask, wp_bind. unfold modify at 1, wp at 1. cbn [fst snd].
  apply wp_bind. unfold get, wp at 1. cbn [fst snd]. apply wp_bind, wp_ask, wp_bind.
  cbn [glob trace]. set (g1 := (glob s) {{ tx_sequence := _ }}).
  assert (tx_sequence g1 = i64 (tx_sequence (glob s) + 1) ∧ g_sData g1 = g_sData (glob s) ∧
          g_running g1 = g_running (glob s)) as (E1 & E2 & E3)
    by (unfold g1; by destruct (glob s)).
  rewrite E1, E2, !(wrapS_small 64) by lia. unfold when.
  destruct (tx_sequence (glob s) + 1 =? packetCount (g_sData (glob s))).
  - unfold modify, wp at 1. cbn [fst snd]. apply wp_ret.
    split; [done|]. split; [by cbn [sent_samples trace]; rewrite Z.add_0_r|].
    rewrite (wrapS_small 64) in E1 by lia.
    destruct g1; simpl in *. rewrite andb_false_r. auto.
  - apply wp_ret, wp_ret. cbn [glob trace].
    split; [done|]. split; [by cbn [sent_samples]; rewrite Z.add_0_r|]. rewrite andb_true_r.
    rewrite (wrapS_small 64) in E1 by lia. auto.
Qed.
(** [n] runs of the callback, from any counter. *)
Lemma pub_numbers n s :
  let t0 := tx_sequence (glob s) in
  let P := packetCount (g_sData (glob s)) in
  -2 <= t0 → t0 + Z.of_nat n < 2 ^ 62 → 1 <= P < 2 ^ 62 →
  wp (times n pubGetDataToTransmit)
     (λ out s', out = Done tt ∧
        trace s' = sent_samples (t0 + 1) n (trace s) ∧
        tx_sequence (glob s') = t0 + Z.of_nat n ∧ packetCount (g_sData (glob s')) = P ∧
        g_running (glob s') =
          g_running (glob s) && negb ((t0 <? P) && (P <=? t0 + Z.of_nat n))) s.
Proof.
  intros t0 P Hlo Hn HP. induction n as [|n IH].
  - apply wp_ret. split; [done|]. split; [done|]. split; [unfold t0; lia|]. split; [done|].
    destruct (Z.ltb_spec t0 P), (Z.leb_spec P (t0 + Z.of_nat 0)); simpl; try lia;
      by rewrite andb_true_r.
  - cbn [times]. apply wp_bind. eapply wp_mono; [apply IH; lia|].
    intros out s1 (-> & Ea & Et & EP & Er).
    apply wp_bind. eapply wp_mono; [apply pub_once; rewrite ?Et, ?EP; lia|].
    intros out s2 (-> & Ea2 & Et2 & Es2 & Er2). apply wp_ret.
    split; [done|]. split.
    + rewrite Ea2, Ea, Et. cbn [sent_samples]. do 4 f_equal. lia.
    + rewrite Et2, Es2, Er2, Et, EP, Er. split; [lia|]. split; [done|].
      rewrite <- andb_assoc. f_equal.
      destruct (Z.ltb_spec t0 P), (Z.leb_spec P (t0 + Z.of_nat n)),
        (Z.leb_spec P (t0 + Z.of_nat (S n))), (Z.eqb_spec (t0 + Z.of_nat n + 1) P);
        simpl; try done; lia.
Qed.
End publish.

(** C25: the publisher's callback numbers its samples: with its counter fresh,
    [n] calls read the clock [n] times and hand over [n] arrays, and the array of
    each call, counted from 0, holds the number of that call minus 1 (as an
    unsigned word, so the very first one is all ones) and the reading of the clock
    just before; the run is stopped by exactly the call whose number is
    packet_count, and by no earlier one. *)
Theorem pub_sends_numbered {OS : ua_os} n P s :
  tx_sequence (glob s) = -2 → g_running (glob s) = true →
  packetCount (g_sData (glob s)) = P → 1 <= P < 2 ^ 62 → Z.of_nat n < 2 ^ 62 →
  wp (times n pubGetDataToTransmit)
     (λ out s', out = Done tt ∧
        trace s' = sent_samples (-1) n (trace s) ∧
        g_running (glob s') = negb (P <=? Z.of_nat n - 2)) s.
Proof.
  intros Htx Hrun HP HP1 Hn.
  eapply wp_mono; [apply pub_numbers; rewrite ?Htx, ?HP; lia|].
  intros out s' (-> & Ea & _ & _ & Er). split; [done|]. split.
  - by rewrite Ea, Htx.
  - rewrite Er, Hrun, Htx, HP. simpl.
    destruct (Z.ltb_spec (-2) P), (Z.leb_spec P (-2 + Z.of_nat n)),
      (Z.leb_spec P (Z.of_nat n - 2)); simpl; try done; lia.
Qed.

(** ** Properties: storing *)

Section store.
Context {OS : ua_os}.
Implicit Types s : st ua_glob call.

Lemma wp_get_sub i sd s (Q : outcome SubscriberData → _ → Prop) :
  default [] (subData (g_sData (glob s))) !! i = Some sd → Q (Done sd) s →
  wp (get_sub i) Q s.
Proof. intros E HQ. unfold wp, get_sub, get, mbind, M_bind. simpl. by rewrite E. Qed.

Lemma wp_word v k w s (Q : outcome Z → st ua_glob call → Prop) :
  default [] (vdata v) !! k = Some w → Q (Done w) s → wp (word v k) Q s.
Proof. intros E HQ. unfold wp, word. by rewrite E. Qed.

(** The subscriber record after its file is closed. *)
Lemma set_sub_lookup i f g sd :
  default [] (subData (g_sData g)) !! i = Some sd →
  default [] (subData (g_sData (g {{ g_sData := (g_sData g) {{
    subData := alter f i <$> subData (g_sData g) }} }}))) !! i = Some (f sd).
Proof.
  destruct g as [d]. destruct d as [? ? ? ? ? ? ? ? ? ? sub ? ? ?]. simpl.
  destruct sub as [l|]; simpl; [|done].
  intros E. by rewrite list_lookup_alter_eq, E.
Qed.
End store.

(** C24: a sample as the publisher sends it (any two words) is stored: with an
    open file one line is logged that gives the clock difference, the sequence
    number and both times, as signed numbers; with a queue the same three values are queued for the
    return trip; forwarding is enabled; and exactly when the sequence number is
    packet_count the file is flushed, closed and forgotten and the server is
    stopped. *)
Theorem sub_stores_sample {OS : ua_os} i sd path seq tx rest len s :
  default [] (subData (g_sData (glob s))) !! i = Some sd →
  fpSubscriberOutput sd = Some path → 0 < len →
  let now := as_nanoseconds (os_clock (ClockGettime :: trace s)) in
  let m := mk_msgq seq tx now in
  let last := seq =? packetCount (g_sData (glob s)) in
  wp (subStoreDataReceived i (Some (mk_variant len (Some (seq :: tx :: rest)))))
     (λ out s', out = Done UA_STATUSCODE_GOOD ∧
        trace s' =
          (if last then [Fclose path; Fflush path] else []) ++
          (if msqid (g_sData (glob s)) >=? 0 then [Msgsnd (msqid (g_sData (glob s))) m] else []) ++
          [Log path [i64 (now - tx); i64 seq; s_id sd; i64 tx; 0; i64 now]; ClockGettime] ++ trace s ∧
        g_roundtrip_pubReturn (glob s') = true ∧
        g_running (glob s') = g_running (glob s) && negb last ∧
        default [] (subData (g_sData (glob s'))) !! i
        = Some (if last then sd {{ fpSubscriberOutput := None }} else sd)) s.
Proof.
  intros Hsd Hfp Hlen now m last. unfold subStoreDataReceived.
  apply wp_bind, (wp_get_sub i sd); [done|].
  apply wp_bind. unfold get at 1, wp at 1. cbn [fst snd]. cbv beta iota. cbn [arrayLength vdata is_null].
  rewrite andb_false_r. rewrite Z.gtb_ltb, (proj2 (Z.ltb_lt 0 len)) by lia.
  rewrite orb_true_r. apply wp_bind. unfold store_sample. apply wp_bind.
  unfold modify, wp at 1. cbn [fst snd].
  unfold clock_gettime. apply wp_bind, wp_ask. cbn [trace glob]. fold now.
  do 2 (apply wp_bind; eapply wp_word; [reflexivity|]).
  rewrite Hfp. cbn [rxTime txTime rx_sequence].
  set (g1 := (glob s) {{ g_roundtrip_pubReturn := true }}).
  assert (g_sData g1 = g_sData (glob s) ∧ g_roundtrip_pubReturn g1 = true ∧
          g_running g1 = g_running (glob s)) as (E1 & E2 & E3)
    by (unfold g1; by destruct (glob s)).
  apply wp_bind, wp_ask, wp_bind. unfold get at 1, wp at 1. cbn [fst snd glob trace].
  rewrite E1. fold m. set (tr := Log _ _ :: _).
  assert (∀ tr', wp (if rx_sequence m =? packetCount (g_sData (glob s))
                     then finish_run i (Some path) else mret tt)
     (λ out s', out = Done tt ∧
        trace s' = (if last then [Fclose path; Fflush path] else []) ++ tr' ∧
        g_roundtrip_pubReturn (glob s') = true ∧
        g_running (glob s') = g_running (glob s) && negb last ∧
        default [] (subData (g_sData (glob s'))) !! i
        = Some (if last then sd {{ fpSubscriberOutput := None }} else sd)) (mkSt g1 tr')) as Hfin.
  { intros tr'. cbn [rx_sequence]. unfold m. cbn [rx_sequence]. fold last.
    destruct last; [|apply wp_ret; cbn [glob trace]; rewrite E1, E2, E3, andb_true_r; auto].
    unfold wp, finish_run, tell, ask, set_sub, modify, mbind, M_bind. cbn [fst snd glob trace].
    split; [done|]. split; [done|].
    pose proof (set_sub_lookup i (λ sd, sd {{ fpSubscriberOutput := None }}) g1 sd) as H.
    rewrite E1 in H. specialize (H Hsd).
    destruct g1. simpl in *. subst. rewrite andb_false_r. auto. }
  apply wp_bind. destruct (msqid (g_sData (glob s)) >=? 0).
  - apply wp_bind, wp_ask. do 2 apply wp_ret. apply wp_bind.
    eapply wp_mono; [apply Hfin|]. intros out s' (-> & H). by apply wp_ret.
  - do 2 apply wp_ret. apply wp_bind.
    eapply wp_mono; [apply Hfin|]. intros out s' (-> & H). by apply wp_ret.
Qed.

(** An array of length 0 carries no sample, but the run of a configuration
    whose packet_count is 999 ends on it: the placeholder sequence number 999
    that was never received is compared with packet_count. *)
Theorem empty_array_ends_run_of_999 {OS : ua_os} i sd p s :
  default [] (subData (g_sData (glob s))) !! i = Some sd →
  packetCount (g_sData (glob s)) = 999 →
  wp (subStoreDataReceived i (Some (mk_variant 0 p)))
     (λ out s', out = Done UA_STATUSCODE_GOOD ∧ g_running (glob s') = false) s.
Proof.
  intros Hsd HP. unfold subStoreDataReceived.
  apply wp_bind, (wp_get_sub i sd); [done|].
  apply wp_bind. unfold get at 1, wp at 1. cbn [fst snd]. cbn [arrayLength vdata].
  change (0 =? SCALAR_LENGTH) with false. cbn [andb orb Z.gtb Z.compare].
  apply wp_bind, wp_ret. rewrite HP. cbn [rx_sequence].
  change (999 =? 999) with true. cbv iota. apply wp_bind. unfold finish_run.
  destruct (fpSubscriberOutput sd); unfold wp, tell, ask, set_sub, modify, mbind, M_bind, mret, M_ret;
    cbn [fst snd glob trace]; (split; [done|]); by destruct (glob s).
Qed.

(** ** Properties: output files *)

Section files.
Context {OS : ua_os} (i : nat) (path : list Z).
Implicit Types s : st ua_glob call.

(** A stream that is [path], open, or that is not there. *)
Definition open_fp (fp : option (list Z)) (tr : list call) : Prop :=
  fp = None ∨ fp = Some path ∧ closed path tr = false.

(** The subscriber's output file is [path], open and not yet closed, or
    already forgotten. *)
Definition file_inv (s : st ua_glob call) : Prop :=
  file_ok path (trace s) ∧
  ∀ sd, default [] (subData (g_sData (glob s))) !! i = Some sd →
    open_fp (fpSubscriberOutput sd) (trace s).

(** A call that is not the end of the file. *)
Lemma file_inv_call c s :
  (match c with Fclose _ => False | _ => True end) →
  (uses path c = true → closed path (trace s) = false) →
  file_inv s → file_inv (mkSt (glob s) (c :: trace s)).
Proof.
  intros Hc Hu [H1 H2]. split; [by split|].
  intros sd Hsd. destruct (H2 sd Hsd) as [?|[? ?]]; [by left|right].
  split; [done|]. destruct c; simpl in *; done.
Qed.

Lemma file_inv_modify f s :
  (∀ g, g_sData (f g) = g_sData g) → file_inv s → file_inv (mkSt (f (glob s)) (trace s)).
Proof. intros Hf [H1 H2]. split; [done|]. cbn [glob]. by rewrite Hf. Qed.

Lemma finish_run_file fp s :
  file_inv s → open_fp fp (trace s) →
  wp (finish_run i fp) (λ _ s', file_inv s') s.
Proof.
  intros HI Hfp. unfold finish_run. apply wp_bind. destruct fp as [p|].
  - destruct Hfp as [|[[= ->] Hc]]; [done|]. do 2 apply wp_bind, wp_ask.
    unfold set_sub, modify, wp. cbn [fst snd glob trace]. split.
    + cbn [trace file_ok closed existsb orb]. rewrite Hc. split; [done|]. split; [done|]. apply HI.
    + cbn [glob trace]. intros sd Hsd. left.
      destruct (default [] (subData (g_sData (glob s))) !! i) as [sd0|] eqn:E.
      * pose proof (set_sub_lookup i (λ sd, sd {{ fpSubscriberOutput := None }}) (glob s) sd0 E) as H.
        destruct (glob s) as [d]. simpl in *. rewrite H in Hsd. by injection Hsd as <-.
      * destruct (glob s) as [d]. destruct d as [? ? ? ? ? ? ? ? ? ? sub ? ? ?]. simpl in *.
        destruct sub as [l|]; simpl in *; [|done].
        by rewrite list_lookup_alter_eq, E in Hsd.
  - apply wp_ret. unfold modify, wp. cbn [fst snd].
    apply (file_inv_modify (λ g, g {{ g_running := false }})); [|done]. by intros [].
Qed.

Lemma wp_word_any v k s (Q : outcome Z → st ua_glob call → Prop) :
  (∀ w, Q (Done w) s) → Q Undefined s → wp (word v k) Q s.
Proof. intros H1 H2. unfold wp, word. by destruct (_ !! k); simpl. Qed.

(** Logging through an open file. *)
Lemma log_file fp c s :
  file_inv s → open_fp fp (trace s) →
  (∀ p, match c p with Fclose _ => False | _ => True end) →
  wp (match fp with Some p => tell (c p) | None => mret tt end)
     (λ out s', out = Done tt ∧ file_inv s' ∧ open_fp fp (trace s')) s.
Proof.
  intros HI Hfp Hc. destruct fp as [p|]; [|by apply wp_ret].
  destruct Hfp as [|[[= ->] Hcl]]; [done|]. apply wp_ask.
  split; [done|]. split; [apply file_inv_call; [apply Hc|by intros _|exact HI]|].
  right. split; [done|]. specialize (Hc path). cbn [trace]. destruct (c path); simpl in *; done.
Qed.

(** A sample is stored, or its words cannot be read, with the file still open. *)
Lemma store_sample_file sd v s :
  file_inv s → open_fp (fpSubscriberOutput sd) (trace s) →
  wp (store_sample sd v)
     (λ out s', file_inv s' ∧ open_fp (fpSubscriberOutput sd) (trace s')) s.
Proof.
  intros HI Hfp. unfold store_sample. apply wp_bind. unfold modify at 1, wp at 1. cbn [fst snd].
  apply (file_inv_modify (λ g, g {{ g_roundtrip_pubReturn := true }})) in HI; [|by intros []].
  unfold clock_gettime. apply wp_bind, wp_ask.
  apply (file_inv_call ClockGettime) in HI; [|done|done].
  do 2 (apply wp_bind, wp_word_any; [intros ?|done]). apply wp_bind.
  eapply wp_mono; [apply (log_file _ (λ p, Log p _)); [exact HI|exact Hfp|done]|].
  intros out s2 (-> & HI2 & Hfp2). apply wp_bind. unfold get at 1, wp at 1. cbn [fst snd].
  apply wp_bind. destruct (_ >=? _); [|by do 2 apply wp_ret].
  apply wp_bind, wp_ask. do 2 apply wp_ret. split; [by apply file_inv_call|exact Hfp2].
Qed.

Lemma log_return_file sd v s :
  file_inv s → open_fp (fpSubscriberOutput sd) (trace s) →
  wp (log_return sd v)
     (λ out s', file_inv s' ∧ open_fp (fpSubscriberOutput sd) (trace s')) s.
Proof.
  intros HI Hfp. unfold log_return, clock_gettime.
  do 5 (apply wp_bind, wp_word_any; [intros ?|done]). apply wp_bind, wp_ask.
  apply (file_inv_call ClockGettime) in HI; [|done|done]. apply wp_bind.
  destruct (fpSubscriberOutput sd) as [p|]; [|by do 2 apply wp_ret].
  repeat case_match;
    (eapply wp_mono;
      [apply (log_file (Some p) (λ p, LogText p _)) || apply (log_file (Some p) (λ p, Log p _)); done
      |intros out s2 (-> & H2); by apply wp_ret]).
Qed.

(** The end of both callbacks. *)
Lemma sub_end_file (b : bool) fp s :
  file_inv s → open_fp fp (trace s) →
  wp ((if b then finish_run i fp else mret tt);; mret UA_STATUSCODE_GOOD) (λ _ s', file_inv s') s.
Proof.
  intros HI Hfp. apply wp_bind. destruct b; [|by do 2 apply wp_ret].
  eapply wp_mono; [by apply finish_run_file|]. intros [[]|c| |] t Ht; [by apply wp_ret|exact Ht..].
Qed.

Lemma sub_callback_file e s :
  file_inv s → wp (sub_callback i e) (λ _ s', file_inv s') s.
Proof.
  intros HI. unfold sub_callback.
  destruct e.1; unfold subStoreDataReceived, subReturnStoreDataReceived;
    apply wp_bind; unfold get_sub; apply wp_bind; unfold get at 1, wp at 1; cbn [fst snd].
  all: destruct (default [] (subData (g_sData (glob s))) !! i) as [sd|] eqn:E; [|done].
  all: pose proof (proj2 HI sd E) as Hfp.
  all: apply wp_ret, wp_bind; unfold get at 1, wp at 1; cbn [fst snd].
  all: destruct e.2 as [v|]; [|by apply wp_ret].
  all: destruct (_ && _); [by apply wp_ret|]; apply wp_bind.
  all: destruct (_ || _); [|by apply wp_ret, sub_end_file].
  1: eapply wp_mono; [by apply store_sample_file|].
  2: eapply wp_mono; [by apply log_return_file|].
  all: intros [m|c| |] s2 [HI2 Hfp2]; [by apply sub_end_file|exact HI2..].
Qed.
End files.

(** C38: an output file is never used after it is closed: whatever sequence of
    samples and returned samples a subscriber receives, malformed ones
    included, once its file has been closed no callback writes to it, flushes it
    or closes it again. *)
Theorem closed_file_is_not_used {OS : ua_os} i path es s :
  (∀ sd, default [] (subData (g_sData (glob s))) !! i = Some sd →
         fpSubscriberOutput sd = Some path) →
  closed path (trace s) = false → file_ok path (trace s) →
  wp (sub_callbacks i es) (λ _ s', file_ok path (trace s')) s.
Proof.
  intros Hfp Hc Hok. assert (file_inv i path s) as HI.
  { split; [done|]. intros sd Hsd. right. auto. }
  clear Hfp Hc Hok. revert s HI. induction es as [|e es IH]; intros s HI.
  - apply HI.
  - cbn [sub_callbacks]. apply wp_bind. eapply wp_mono; [by apply sub_callback_file|].
    intros [r|c| |] s' HI'; [by apply IH|apply HI'..].
Qed.

(** ** Properties: the return trip *)

(** A message that stores a received sample: none of its times is one of the
    placeholders. *)
Definition genuine (m : msgq_buf) : Prop :=
  rxTime m ≠ 888 ∧ rxTime m ≠ 999 ∧ is_error (rx_sequence m) = false.

(** What a genuine message becomes. *)
Lemma validate_genuine m prev tx :
  genuine m → -2 <= tx < 2 ^ 62 →
  validate m prev tx
  = if (rx_sequence m =? prev) && (rx_sequence m >? 10)
    then (mk_msgq ERROR_DUPLICATE ERROR_DUPLICATE ERROR_DUPLICATE, tx, false)
    else (m, tx + 1, false).
Proof.
  destruct m as [seq txT rxT]. intros (H1 & H2 & _) Ht. unfold validate. simpl in *.
  rewrite (proj2 (Z.eqb_neq rxT 888) H1), (proj2 (Z.eqb_neq rxT 999) H2).
  rewrite !andb_false_r, !andb_false_l. rewrite (wrapS_small 64) by lia.
  by rewrite andb_true_r.
Qed.

(** What the callback does once it has its message. *)
Lemma pub_return_tail `{!ua_os} m s curr tx pause (Q : outcome Z → _ → Prop) :
  validate m (prev_rx_sequence (glob s)) (tx_sequence (glob s)) = (curr, tx, pause) →
  (∀ s', trace s' = SetArrayCopy [rx_sequence curr; txTime curr; rxTime curr; u64 tx;
             as_nanoseconds (os_clock (ClockGettime :: trace s))] :: ClockGettime :: trace s →
         tx_sequence (glob s') = tx →
         prev_rx_sequence (glob s') = (if is_error (rx_sequence curr)
                                       then prev_rx_sequence (glob s) else rx_sequence curr) →
         g_sData (glob s') = g_sData (glob s) →
         g_running (glob s') = g_running (glob s) && negb (tx >=? i64 (packetCount (g_sData (glob s)))) →
         g_roundtrip_pubReturn (glob s') = g_roundtrip_pubReturn (glob s) && negb pause →
         Q (Done UA_STATUSCODE_GOOD) s') →
  wp (g ← get;
      let '(curr, tx, pause) := validate m (prev_rx_sequence g) (tx_sequence g) in
      modify (λ g, g {{ tx_sequence := tx;
                        g_roundtrip_pubReturn := if (pause : bool) then false
                                                 else g_roundtrip_pubReturn g }});;
      current_time_timespec ← clock_gettime;
      tell (SetArrayCopy [rx_sequence curr; txTime curr; rxTime curr; u64 tx;
                          as_nanoseconds current_time_timespec]);;
      when (tx >=? i64 (packetCount (g_sData g))) (modify (λ g, g {{ g_running := false }}));;
      when (negb (is_error (rx_sequence curr)))
        (modify (λ g, g {{ prev_rx_sequence := rx_sequence curr }}));;
      mret UA_STATUSCODE_GOOD) Q s.
Proof.
  intros Hv HQ. apply wp_bind. unfold get, wp at 1. cbn [fst snd]. rewrite Hv.
  unfold clock_gettime. apply wp_bind. unfold modify at 1, wp at 1. cbn [fst snd].
  do 2 apply wp_bind, wp_ask. cbn [glob trace].
  destruct (tx >=? _); destruct (is_error _) eqn:E; cbn [negb when];
    unfold wp, mbind, M_bind, mret, M_ret, modify; cbn [fst snd glob trace];
    apply HQ; cbn [glob trace]; try reflexivity; destruct s as [[] t]; destruct pause; simpl;
    rewrite ?andb_true_r, ?andb_false_r, ?E; reflexivity.
Qed.

(** C22: the return publisher forwards a stored sample: when the queue delivers
    a genuine message at the first try, either it repeats the previously
    forwarded sequence number (above 10) and the three words of the duplicate
    error are sent and nothing else advances, or its sequence number and its two
    times are forwarded unchanged together with the next own sequence number and
    the reading of the clock after the queue was read; the run stops when that
    number reaches packet_count. *)
Theorem pub_return_forwards {OS : ua_os} m s :
  let qid := msqid (g_sData (glob s)) in
  let tx := tx_sequence (glob s) in
  let dup := (rx_sequence m =? prev_rx_sequence (glob s)) && (rx_sequence m >? 10) in
  let now := as_nanoseconds (os_clock (ClockGettime :: Msgrcv qid :: trace s)) in
  os_msgrcv (Msgrcv qid :: trace s) = Some m → genuine m → -2 <= tx < 2 ^ 62 →
  wp pubReturnGetDataToTransmit
     (λ out s', out = Done UA_STATUSCODE_GOOD ∧
        trace s' = SetArrayCopy
            (if dup then [ERROR_DUPLICATE; ERROR_DUPLICATE; ERROR_DUPLICATE; u64 tx; now]
             else [rx_sequence m; txTime m; rxTime m; u64 (tx + 1); now])
          :: ClockGettime :: Msgrcv qid :: trace s ∧
        tx_sequence (glob s') = (if dup then tx else tx + 1) ∧
        prev_rx_sequence (glob s') = rx_sequence m ∧
        g_running (glob s') = g_running (glob s) &&
          negb ((if dup then tx else tx + 1) >=? i64 (packetCount (g_sData (glob s))))) s.
Proof.
  intros qid tx dup now Hr Hm Ht. unfold pubReturnGetDataToTransmit.
  apply wp_bind. cbn [receive]. apply wp_bind. unfold get at 1, wp at 1. cbn [fst snd].
  apply wp_bind, wp_ask. fold qid. rewrite Hr. apply wp_ret.
  set (s1 := mkSt (glob s) _).
  pose proof (validate_genuine m (prev_rx_sequence (glob s)) tx Hm Ht) as Hv. fold dup in Hv.
  destruct dup eqn:Ed.
  - eapply pub_return_tail; [exact Hv|]. cbn [rx_sequence txTime rxTime].
    intros s' H1 H2 H3 _ H4 _. split; [done|]. split; [exact H1|].
    split; [exact H2|]. split; [|exact H4]. rewrite H3.
    change (is_error ERROR_DUPLICATE) with true. cbv iota. unfold s1. cbn [glob].
    unfold dup in Ed. apply andb_prop in Ed as [Ed _]. apply Z.eqb_eq in Ed. lia.
  - eapply pub_return_tail; [exact Hv|].
    intros s' H1 H2 H3 _ H4 _. split; [done|]. split; [exact H1|].
    split; [exact H2|]. split; [|exact H4]. rewrite H3.
    destruct Hm as (_ & _ & ->). lia.
Qed.

(** The calls of fifteen failed reads of the queue, newest first. *)
Fixpoint failed_reads (n : nat) (qid : Z) : list call :=
  match n with
  | O => []
  | S n => failed_reads n qid ++ [Usleep 10; Msgrcv qid]
  end.

Lemma receive_empty `{!ua_os} n m s (Q : outcome msgq_buf → st ua_glob call → Prop) :
  let qid := msqid (g_sData (glob s)) in
  (∀ tr, os_msgrcv (Msgrcv qid :: tr) = None) →
  Q (Done m) (mkSt (glob s) (failed_reads n qid ++ trace s)) →
  wp (receive n m) Q s.
Proof.
  intros qid Hr. revert s qid Hr. induction n as [|n IH]; intros s qid Hr HQ.
  - by destruct s.
  - cbn [receive]. apply wp_bind. unfold get at 1, wp at 1. cbn [fst snd].
    apply wp_bind, wp_ask. fold qid. rewrite Hr. apply wp_bind, wp_ask.
    apply IH; [exact Hr|]. cbn [glob trace failed_reads] in *. fold qid.
    rewrite <- app_assoc in HQ. exact HQ.
Qed.

(** With an empty queue the return publisher polls it exactly fifteen
    times, 10 us apart, and then sends the queue error with its own sequence
    number and the time; that number and the last forwarded one stay as they are. *)
Theorem pub_return_empty_queue {OS : ua_os} s :
  let qid := msqid (g_sData (glob s)) in
  let older := ClockGettime :: failed_reads 15 qid ++ trace s in
  (∀ tr, os_msgrcv (Msgrcv qid :: tr) = None) →
  wp pubReturnGetDataToTransmit
     (λ out s', out = Done UA_STATUSCODE_GOOD ∧
        trace s' = SetArrayCopy [ERROR_MSGQ_COPY; ERROR_MSGQ_COPY; ERROR_MSGQ_COPY;
                                 u64 (tx_sequence (glob s)); as_nanoseconds (os_clock older)]
                   :: older ∧
        tx_sequence (glob s') = tx_sequence (glob s) ∧
        prev_rx_sequence (glob s') = prev_rx_sequence (glob s)) s.
Proof.
  intros qid older Hr. unfold pubReturnGetDataToTransmit.
  apply wp_bind, receive_empty; [exact Hr|]. fold qid.
  eapply pub_return_tail; [reflexivity|].
  intros s' H1 H2 H3 _ _ _. split; [done|]. split; [exact H1|].
  split; [exact H2|exact H3].
Qed.

(** C23: a returned sample is logged with its four latencies, in the columns
    where they belong: the way there is the far side's receive time minus the near
    side's transmit time, the processing the far side's transmit time minus its
    receive time, the way back the near side's clock now minus the far side's
    transmit time, and the return latency the clock now minus the near side's
    transmit time, which is the sum of the other three (as 64-bit integers); the
    file is closed and the server stopped exactly when the sample's number has
    reached packet_count. *)
Theorem sub_return_logs_latencies {OS : ua_os} i sd path seqA tA rB seqB tB rest len s :
  default [] (subData (g_sData (glob s))) !! i = Some sd →
  fpSubscriberOutput sd = Some path → 0 < len → is_error seqA = false →
  let now := as_nanoseconds (os_clock (ClockGettime :: trace s)) in
  let last := seqA >=? packetCount (g_sData (glob s)) in
  let there := i64 (rB - tA) in
  let processing := i64 (tB - rB) in
  let back := i64 (now - tB) in
  let whole := i64 (now - tA) in
  wp (subReturnStoreDataReceived i (Some (mk_variant len (Some (seqA :: tA :: rB :: seqB :: tB :: rest)))))
     (λ out s', out = Done UA_STATUSCODE_GOOD ∧
        trace s' = (if last then [Fclose path; Fflush path] else []) ++
          [Log path [there; i64 seqA; s_id sd; i64 tA; 0; i64 rB; processing;
                     back; i64 seqB; s_id sd; i64 tB; 0; i64 now; whole];
           ClockGettime] ++ trace s ∧
        i64 (there + processing + back) = whole ∧
        g_running (glob s') = g_running (glob s) && negb last) s.
Proof.
  intros Hsd Hfp Hlen He now last there processing back whole.
  unfold subReturnStoreDataReceived.
  apply wp_bind, (wp_get_sub i sd); [done|].
  apply wp_bind. unfold get at 1, wp at 1. cbn [fst snd]. cbn [arrayLength vdata is_null].
  rewrite andb_false_r, Z.gtb_ltb, (proj2 (Z.ltb_lt 0 len)), orb_true_r by lia.
  apply wp_bind. unfold log_return, clock_gettime.
  do 5 (apply wp_bind; eapply wp_word; [reflexivity|]).
  apply wp_bind, wp_ask. fold now. rewrite Hfp.
  unfold is_error in He. apply orb_false_elim in He as [He He3].
  apply orb_false_elim in He as [He1 He2]. rewrite He1, He2, He3.
  apply wp_bind, wp_ask, wp_ret. unfold is_error. rewrite He1, He2, He3.
  cbn [orb negb andb]. cbn [trace glob]. fold last. unfold return_line. cbv zeta.
  assert (i64 (there + processing + back) = whole) as Esum.
  { unfold there, processing, back, whole. rewrite <- Z.add_assoc, wrapS_add_l by done.
    rewrite (Z.add_comm (rB - tA)), <- Z.add_assoc, wrapS_add_l by done.
    rewrite (Z.add_comm (tB - rB)), <- Z.add_assoc, wrapS_add_l by done. f_equal. lia. }
  apply wp_bind. destruct last.
  - unfold wp at 1, finish_run, tell, ask, set_sub, modify, mbind, M_bind. cbn [fst snd glob trace].
    apply wp_ret. split; [done|]. split; [reflexivity|]. split; [exact Esum|].
    destruct (glob s); simpl; by rewrite andb_false_r.
  - do 2 apply wp_ret. rewrite andb_true_r. split; [done|]. split; [reflexivity|done].
Qed.

(** ** Witnesses *)

Lemma pub_sends_numbered_witness :
  let r := times 3 (@pubGetDataToTransmit (make_ua_os None 0)) demo_state in
  r.1 = Done tt ∧ g_running (glob r.2) = true ∧
  arrays (trace r.2) = [[1; 1000000000007]; [0; 1000000000007]; [2 ^ 64 - 1; 1000000000007]].
Proof.
  destruct (@pub_sends_numbered (make_ua_os None 0) 3 999 demo_state) as (H1 & H3 & H2).
  - reflexivity.
  - reflexivity.
  - reflexivity.
  - lia.
  - lia.
  - split; [exact H1|]. cbv zeta. rewrite H2, H3. split; reflexivity.
Defined.

Lemma sub_stores_sample_witness :
  let r := @subStoreDataReceived (make_ua_os None 0) 0 (Some (mk_variant 2 (Some [999; 5])))
             demo_state in
  r.1 = Done 0 ∧ g_running (glob r.2) = false.
Proof.
  destruct (@sub_stores_sample (make_ua_os None 0) 0 demo_sub demo_path 999 5 [] 2 demo_state)
    as (H1 & _ & _ & H2 & _).
  - reflexivity.
  - reflexivity.
  - lia.
  - split; [exact H1|]. cbv zeta. rewrite H2. reflexivity.
Defined.

Lemma empty_array_ends_run_of_999_witness :
  g_running (glob (@subStoreDataReceived (make_ua_os None 0) 0 (Some (mk_variant 0 (Some [])))
                     demo_state).2) = false.
Proof.
  apply (@empty_array_ends_run_of_999 (make_ua_os None 0) 0 demo_sub (Some []) demo_state).
  - reflexivity.
  - reflexivity.
Defined.

Lemma closed_file_is_not_used_witness :
  wp (@sub_callbacks (make_ua_os None 0) 0
        [(true, Some (mk_variant 2 (Some [999; 5]))); (true, Some (mk_variant 2 (Some [1000; 6])))])
     (λ _ s', file_ok demo_path (trace s')) demo_state.
Proof.
  apply (@closed_file_is_not_used (make_ua_os None 0) 0 demo_path).
  - intros sd [= <-]. reflexivity.
  - reflexivity.
  - exact I.
Defined.

Lemma pub_return_forwards_witness :
  let r := @pubReturnGetDataToTransmit (make_ua_os (Some (mk_msgq 42 1000 2000)) 0) demo_state in
  r.1 = Done 0 ∧ tx_sequence (glob r.2) = -1 ∧ prev_rx_sequence (glob r.2) = 42.
Proof.
  destruct (@pub_return_forwards (make_ua_os (Some (mk_msgq 42 1000 2000)) 0)
    (mk_msgq 42 1000 2000) demo_state) as (H1 & _ & H2 & H3 & _).
  - reflexivity.
  - split; [discriminate|]. split; [discriminate|reflexivity].
  - simpl. lia.
  - split; [exact H1|]. split; [exact H2|exact H3].
Defined.

Lemma pub_return_empty_queue_witness :
  let r := @pubReturnGetDataToTransmit (make_ua_os None 0) demo_state in
  r.1 = Done 0 ∧ tx_sequence (glob r.2) = -2.
Proof.
  destruct (@pub_return_empty_queue (make_ua_os None 0) demo_state)
    as (H1 & _ & H2 & _).
  - intros tr. reflexivity.
  - split; [exact H1|exact H2].
Defined.

Lemma sub_return_logs_latencies_witness :
  let r := @subReturnStoreDataReceived (make_ua_os None 0) 0
             (Some (mk_variant 5 (Some [7; 100; 200; 8; 300]))) demo_state in
  r.1 = Done 0 ∧ g_running (glob r.2) = true.
Proof.
  destruct (@sub_return_logs_latencies (make_ua_os None 0) 0 demo_sub demo_path
    7 100 200 8 300 [] 5 demo_state) as (H1 & _ & _ & H2).
  - reflexivity.
  - reflexivity.
  - lia.
  - reflexivity.
  - split; [exact H1|]. cbv zeta. rewrite H2. reflexivity.
Defined.
