(* ===== verification/OpcuaConfig.v ===== *)
(** * OPC UA server: configuration (src/src/opcua-tsn/json_helper.c, opcua_common.c)

    The typed accessors over json-c, the parser of the server's configuration,
    the release of what it allocates, and the real-time priority helper.
    json-c itself is an interface. *)

From S2P Require Import Prelude Sys Libc Opcua.

Local Open Scope Z_scope.

(** ** json-c *)

Inductive json_type : Type :=
| json_type_null | json_type_boolean | json_type_double | json_type_int
| json_type_object | json_type_array | json_type_string.

#[export] Instance json_type_eq_dec : EqDecision json_type.
Proof. solve_decision. Defined.

(** The functions of json-c that the code calls. *)
Class json_api : Type := {
  JsObj : Type;
  json_object_object_get_ex : JsObj → string → option JsObj;
  json_object_get_type : JsObj → json_type;
  json_object_get_int : JsObj → Z;
  json_object_get_int64 : JsObj → Z;
  json_object_get_boolean : JsObj → bool;
  json_object_get_string : JsObj → list Z;
  json_object_object_length : JsObj → Z;
  json_object_object_foreach : JsObj → list JsObj;     (* the values, in order *)
  json_object_from_file : list Z → option JsObj
}.

(** What the parser relies on: the length of an object is the number of its
    entries. *)
Class json_laws (api : json_api) : Prop := {
  json_length : ∀ j, json_object_get_type j = json_type_object →
    json_object_object_length j = Z.of_nat (length (json_object_object_foreach j))
}.

(** ** JSON documents

    What json-c reads from a file, as specifications and witnesses speak of it;
    the keys of an object are distinct. *)

Inductive js : Type :=
| JInt (z : Z) | JBool (b : bool) | JStr (s : string) | JObj (fields : list (string * js)).

Definition js_field (j : js) (key : string) : option js :=
  match j with
  | JObj fields => snd <$> List.find (λ f, bool_decide (f.1 = key)) fields
  | _ => None
  end.

Definition js_values (j : js) : list js :=
  match j with JObj fields => snd <$> fields | _ => [] end.

(** ** Constants *)

Definition PKT_COUNT_MAX : Z := 10000000.
Definition CYCLETIME_NS_MAX : Z := 5000000.
Definition DATASET_WRITER_MAX : Z := 99999.
Definition WRITER_GROUP_MAX : Z := 99999.
Definition HUNDRED_USEC_NSEC : Z := 100000.
Definition ONE_MSEC_NSEC : Z := 1000000.
Definition TEN_MSEC_NSEC : Z := 10000000.
Definition FIVE_DIGIT_MAX : Z := 99999.

Section config.
Context {OS : ua_os} {api : json_api}.

(** ** Accessors *)

Definition ensureType (toCheck : JsObj) (type : json_type) : T unit :=
  if decide (json_object_get_type toCheck = type) then mret tt else exit_ EXIT_FAILURE.

(** The optional accessors: absent keys give the default. *)
Definition getOptional {A} (type : json_type) (get : JsObj → A) (parent : JsObj)
  (key : string) (defaultVal : A) : T A :=
  match json_object_object_get_ex parent key with
  | Some val => ensureType val type;; mret (get val)
  | None => mret defaultVal
  end.

Definition getOptionalInt := getOptional json_type_int json_object_get_int.
Definition getOptionalBool := getOptional json_type_boolean json_object_get_boolean.
Definition getOptionalInt64 := getOptional json_type_int json_object_get_int64.

(** The mandatory ones: absent keys end the process. *)
Definition getValue (parent : JsObj) (key : string) : T JsObj :=
  match json_object_object_get_ex parent key with
  | Some val => mret val
  | None => exit_ EXIT_FAILURE
  end.

Definition getInt (parent : JsObj) (key : string) : T Z :=
  val ← getValue parent key;
  ensureType val json_type_int;;
  mret (json_object_get_int val).

Definition getBool (parent : JsObj) (key : string) : T bool :=
  val ← getValue parent key;
  ensureType val json_type_boolean;;
  mret (json_object_get_boolean val).

Definition getInt64 (parent : JsObj) (key : string) : T Z :=
  val ← getValue parent key;
  ensureType val json_type_int;;
  mret (json_object_get_int64 val).

(** [calloc()] and [strndup()]. *)
Definition alloc (x : obj) : T bool := λ s,
  let ok := os_calloc (trace s) in (Done ok, mkSt (glob s) (Alloc x ok :: trace s)).

(** [strdup()] of a string of the document; it ends at an inner NUL.  [None]: there
    is no memory for it, and the result is NULL. *)
Definition strdup (str : list Z) : T (option (list Z)) :=
  let s := cstr str in
  ok ← alloc (OStr s);
  mret (if (ok : bool) then Some s else None).

Definition getOptionalStr (parent : JsObj) (key : string) (defaultVal : option (list Z))
  : T (option (list Z)) :=
  match json_object_object_get_ex parent key with
  | Some val => ensureType val json_type_string;; strdup (json_object_get_string val)
  | None => mret defaultVal
  end.

(** getString(): strndup() of the string; it ends at an inner NUL.  [None]: there
    is no memory for it, and the result is NULL. *)
Definition getString (parent : JsObj) (key : string) : T (option (list Z)) :=
  val ← getValue parent key;
  ensureType val json_type_string;;
  let s := cstr (json_object_get_string val) in
  ok ← alloc (OStr s);
  mret (if (ok : bool) then Some s else None).

(** [fopen(name, "w")]. *)
Definition open_output (name : list Z) : T bool := λ s,
  let ok := os_fopen (trace s) in (Done ok, mkSt (glob s) (Fopen name ok :: trace s)).

(** json_object_object_length() is defined for objects only (json-c asserts it). *)
Definition countChildrenEntries (json : JsObj) : T Z :=
  if decide (json_object_get_type json = json_type_object)
  then mret (json_object_object_length json) else undefined.

(** ** Release *)

Definition free_str (p : option (list Z)) : T unit :=
  match p with Some s => tell (Free (OStr s)) | None => mret tt end.

Definition free_pub (pd : PublisherData) (_ : unit) : T unit := free_str (p_url pd).

Definition free_sub (sd : SubscriberData) (_ : unit) : T unit :=
  free_str (s_url sd);;
  free_str (subscriberOutputFileName sd);;
  match fpSubscriberOutput sd with
  | Some path => tell (Fflush path);; tell (Fclose path)
  | None => mret tt
  end.

(** The first [count] entries of an array; there must be as many. *)
Definition first_entries {A} (count : Z) (l : option (list A)) : T (list A) :=
  if Z.of_nat (length (default [] l)) <? count then undefined
  else mret (take (Z.to_nat count) (default [] l)).

Definition free_resources (s : option ServerData) : T unit :=
  match s with
  | None => mret tt
  | Some sd =>
      pubs ← first_entries (pubCount sd) (pubData sd);
      for_each pubs free_pub tt;;
      when (negb (is_null (pubData sd))) (tell (Free OPubs));;
      subs ← first_entries (subCount sd) (subData sd);
      for_each subs free_sub tt;;
      when (negb (is_null (subData sd))) (tell (Free OSubs));;
      free_str (subInterface sd);;
      free_str (pubInterface sd);;
      tell (Free OServer)
  end.

(** ** Parser *)

(** [catch_err(bad, ...)] with the partly filled structure [x]: [false]
    stands for the jump to the error label. *)
Definition catch_err {A} (bad : bool) (x : A) (k : T (A * bool)) : T (A * bool) :=
  if bad then mret (x, false) else k.

Definition out_of (lo hi v : Z) : bool := (v <? lo) || (v >? hi).

(** One entry of "publishers". *)
Definition parse_publisher (xdp : bool) (pubJson : JsObj) : T (PublisherData * bool) :=
  let pd := zero_pub in
  v ← getInt pubJson "early_offset_ns";
  let pd := pd {{ earlyOffsetNs := v }} in
  catch_err (out_of 0 ONE_MSEC_NSEC v) pd (
  v ← getInt pubJson "publish_offset_ns";
  let pd := pd {{ publishOffsetNs := v }} in
  catch_err (out_of 0 TEN_MSEC_NSEC v) pd (
  v ← getInt pubJson "publish_delay_sec";
  let pd := pd {{ publishDelaySec := v }} in
  catch_err (v <? 0) pd (
  v ← getInt pubJson "socket_prio";
  let pd := pd {{ socketPriority := v }} in
  catch_err (out_of 0 7 v) pd (
  v ← (if xdp then getInt pubJson "xdp_queue" else mret (-1));
  let pd := pd {{ p_xdpQueue := v }} in
  catch_err (xdp && out_of 0 3 v) pd (
  u ← getString pubJson "url";
  let pd := pd {{ p_url := u }} in
  v ← getInt pubJson "pub_id";
  let pd := pd {{ p_id := v }} in
  catch_err (out_of 0 FIVE_DIGIT_MAX v) pd (
  v ← getInt pubJson "dataset_writer_id";
  let pd := pd {{ dataSetWriterId := v }} in
  catch_err (out_of 0 DATASET_WRITER_MAX v) pd (
  v ← getInt pubJson "writer_group_id";
  let pd := pd {{ writerGroupId := v }} in
  catch_err (out_of 0 WRITER_GROUP_MAX v) pd (
  b ← getBool pubJson "two_way_data";
  let pd := pd {{ p_twoWayData := b }} in
  cpuAff ← getInt pubJson "iperf_cpu_affinity";
  catch_err (out_of 0 3 cpuAff) pd (
  mret (pd {{ p_cpuAffinity := cpuAff }}, true)))))))))).

(** One entry of "subscribers". *)
Definition parse_subscriber (xdp : bool) (subJson : JsObj) : T (SubscriberData * bool) :=
  let sd := zero_sub in
  v ← getInt subJson "offset_ns";
  let sd := sd {{ offsetNs := v }} in
  catch_err (out_of 0 TEN_MSEC_NSEC v) sd (
  v ← (if xdp then getInt subJson "xdp_queue" else mret (-1));
  let sd := sd {{ s_xdpQueue := v }} in
  catch_err (xdp && out_of 0 3 v) sd (
  u ← getString subJson "url";
  let sd := sd {{ s_url := u }} in
  v ← getInt subJson "sub_id";
  let sd := sd {{ s_id := v }} in
  catch_err (out_of 0 FIVE_DIGIT_MAX v) sd (
  v ← getInt subJson "subscribed_pub_id";
  let sd := sd {{ subscribedPubId := v }} in
  catch_err (out_of 0 FIVE_DIGIT_MAX v) sd (
  v ← getInt subJson "subscribed_dataset_writer_id";
  let sd := sd {{ subscribedDSWriterId := v }} in
  catch_err (out_of 0 FIVE_DIGIT_MAX v) sd (
  v ← getInt subJson "subscribed_writer_group_id";
  let sd := sd {{ subscribedWGId := v }} in
  catch_err (out_of 0 FIVE_DIGIT_MAX v) sd (
  b ← getBool subJson "two_way_data";
  let sd := sd {{ s_twoWayData := b }} in
  cpuAff ← getInt subJson "iperf_cpu_affinity";
  catch_err (out_of 0 3 cpuAff) sd (
  let sd := sd {{ s_cpuAffinity := cpuAff }} in
  f ← getString subJson "subscriber_output_file";
  let sd := sd {{ subscriberOutputFileName := f }} in
  match f with
  | None => undefined                       (* fopen(NULL, "w") *)
  | Some f =>
      opened ← open_output f;
      let sd := sd {{ fpSubscriberOutput := if (opened : bool) then Some f else None }} in
      catch_err (negb opened) sd (mret (sd, true))
  end))))))).

(** The entries of an array allocated for [room] of them; those not reached
    stay zero. *)
Fixpoint parse_entries {A} (parse : JsObj → T (A * bool)) (zero : A)
  (js : list JsObj) (room : nat) : T (list A * bool) :=
  match js with
  | [] => mret (replicate room zero, true)
  | j :: js =>
      match room with
      | O => undefined
      | S room =>
          '(x, ok) ← parse j;
          if (ok : bool) then
            '(xs, ok) ← parse_entries parse zero js room; mret (x :: xs, ok)
          else mret (x :: replicate room zero, false)
      end
  end.

(** The two arrays and their entries. *)
Definition parse_arrays (json : JsObj) (s : ServerData) : T (ServerData * bool) :=
  pubs ← getValue json "publishers";
  nPub ← countChildrenEntries pubs;
  ok ← alloc OPubs;
  if negb ok then mret (s, false) else
  subs ← getValue json "subscribers";
  nSub ← countChildrenEntries subs;
  ok ← alloc OSubs;
  if negb ok then tell (Free OPubs);; mret (s, false) else
  let room z := Z.to_nat z in
  '(pds, ok) ← parse_entries (parse_publisher (useXDP s)) zero_pub
                 (json_object_object_foreach pubs) (room nPub);
  let s := s {{ pubCount := nPub; subCount := nSub; pubData := Some pds;
                subData := Some (replicate (room nSub) zero_sub) }} in
  catch_err (negb ok) s (
  '(sds, ok) ← parse_entries (parse_subscriber (useXDP s)) zero_sub
                 (json_object_object_foreach subs) (room nSub);
  mret (s {{ subData := Some sds }}, ok)).

(** The scalar settings, then the arrays. *)
Definition parse_server (json : JsObj) (s : ServerData) : T (ServerData * bool) :=
  pif ← getString json "publisher_interface";
  let s := s {{ pubInterface := pif }} in
  sif ← getString json "subscriber_interface";
  let s := s {{ subInterface := sif }} in
  xdp ← getBool json "use_xdp";
  let s := s {{ useXDP := xdp }} in
  zc ← (if (xdp : bool) then getBool json "use_xdp_zc" else mret false);
  skb ← (if (xdp : bool) then getBool json "use_xdp_skb" else mret false);
  let s := s {{ useXDP_ZC := zc; useXDP_SKB := skb }} in
  v ← getInt json "polling_duration_ns";
  let s := s {{ pollingDurationNs := v }} in
  catch_err (out_of 0 TEN_MSEC_NSEC v) s (
  v ← getInt64 json "packet_count";
  let s := s {{ packetCount := u64 v }} in
  catch_err (out_of 1 PKT_COUNT_MAX (u64 v)) s (
  v ← getInt64 json "cycle_time_ns";
  let s := s {{ cycleTimeNs := v }} in
  catch_err (out_of HUNDRED_USEC_NSEC CYCLETIME_NS_MAX v) s (
  parse_arrays json s))).

(** parseJson(): [None] for NULL. *)
Definition parseJson (json : JsObj) : T (option ServerData) :=
  ok ← alloc OServer;
  if negb ok then mret None else
  '(s, ok) ← parse_server json zero_server;
  if (ok : bool) then mret (Some s)
  else free_resources (Some s);; mret None.

(** parseArgs(); [path] is argv[1], [None] for NULL. *)
Definition parseArgs (path : option (list Z)) : T (option ServerData) :=
  match path with
  | None => mret None
  | Some jsonPath =>
      tell (JsonFromFile jsonPath);;
      match json_object_from_file jsonPath with
      | None => mret None
      | Some js =>
          opcuaJson ← getValue js "opcua_server";
          sdata ← parseJson opcuaJson;
          tell JsonPut;;
          mret sdata
      end
  end.

(** ** Real-time priority *)

Definition setRtPriority (priority cpu : Z) : T Z :=
  if priority <? 0 then mret (-1) else
  ret ← ask GetSchedParam os_sched;
  if negb (ret =? 0) then mret (-1) else
  ret ← ask (SchedParam priority) os_sched;
  if negb (ret =? 0) then mret (-1) else
  if cpu =? 0 then mret 0 else
  ret ← ask (Affinity cpu) os_sched;
  if negb (ret =? 0) then mret (-1) else mret 0.
End config.

(** ** Specification *)

(** Live objects: allocations and opened files minus releases. *)
Fixpoint live (tr : list call) (x : obj) : Z :=
  match tr with
  | [] => 0
  | c :: tr =>
      live tr x +
      match c with
      | Alloc y true => if decide (x = y) then 1 else 0
      | Free y => if decide (x = y) then -1 else 0
      | Fopen p true => if decide (x = OFile p) then 1 else 0
      | Fclose p => if decide (x = OFile p) then -1 else 0
      | _ => 0
      end
  end.

Definition one (x y : obj) : Z := if decide (x = y) then 1 else 0.

Definition owned_str (p : option (list Z)) (x : obj) : Z :=
  match p with Some s => one x (OStr s) | None => 0 end.

Definition owned_pub (pd : PublisherData) (x : obj) : Z := owned_str (p_url pd) x.

Definition owned_sub (sd : SubscriberData) (x : obj) : Z :=
  owned_str (s_url sd) x + owned_str (subscriberOutputFileName sd) x +
  match fpSubscriberOutput sd with Some p => one x (OFile p) | None => 0 end.

Definition owned_list {A} (f : A → obj → Z) (l : list A) (x : obj) : Z :=
  foldr (λ a n, f a x + n) 0 l.

(** What a server structure owns, itself included. *)
Definition owned_server (sd : ServerData) (x : obj) : Z :=
  one x OServer + owned_str (pubInterface sd) x + owned_str (subInterface sd) x +
  (match pubData sd with Some l => one x OPubs + owned_list owned_pub l x | None => 0 end) +
  (match subData sd with Some l => one x OSubs + owned_list owned_sub l x | None => 0 end).

(** The arrays are as long as their counts say. *)
Definition counts_ok (sd : ServerData) : Prop :=
  pubCount sd = Z.of_nat (length (default [] (pubData sd))) ∧
  subCount sd = Z.of_nat (length (default [] (subData sd))).

(** No allocation fails. *)
Definition mallocs_succeed `{!ua_os} : Prop := ∀ tr, os_calloc tr = true.

(** The configurations the parser lets through. *)
Record pub_ok `{!ua_os} (xdp : bool) (pd : PublisherData) : Prop := {
  po_early : 0 <= earlyOffsetNs pd <= 1000000;
  po_offset : 0 <= publishOffsetNs pd <= 10000000;
  po_delay : 0 <= publishDelaySec pd;
  po_prio : 0 <= socketPriority pd <= 7;
  po_queue : if xdp then 0 <= p_xdpQueue pd <= 3 else p_xdpQueue pd = -1;
  po_ids : 0 <= p_id pd <= 99999 ∧ 0 <= dataSetWriterId pd <= 99999 ∧
           0 <= writerGroupId pd <= 99999;
  po_cpu : 0 <= p_cpuAffinity pd <= 3;
  po_url : mallocs_succeed → p_url pd ≠ None
}.

Record sub_ok `{!ua_os} (xdp : bool) (sd : SubscriberData) : Prop := {
  so_offset : 0 <= offsetNs sd <= 10000000;
  so_queue : if xdp then 0 <= s_xdpQueue sd <= 3 else s_xdpQueue sd = -1;
  so_ids : 0 <= s_id sd <= 99999 ∧ 0 <= subscribedPubId sd <= 99999 ∧
           0 <= subscribedDSWriterId sd <= 99999 ∧ 0 <= subscribedWGId sd <= 99999;
  so_cpu : 0 <= s_cpuAffinity sd <= 3;
  so_file : ∃ p, fpSubscriberOutput sd = Some p ∧ subscriberOutputFileName sd = Some p;
  so_url : mallocs_succeed → s_url sd ≠ None
}.

Record server_ok `{!ua_os} (sd : ServerData) : Prop := {
  sv_cycle : 100000 <= cycleTimeNs sd <= 5000000;
  sv_poll : 0 <= pollingDurationNs sd <= 10000000;
  sv_count : 1 <= packetCount sd <= 10000000;
  sv_flags : useXDP sd = false → useXDP_ZC sd = false ∧ useXDP_SKB sd = false;
  sv_counts : counts_ok sd;
  sv_interfaces : mallocs_succeed → pubInterface sd ≠ None ∧ subInterface sd ≠ None;
  sv_pubs : Forall (pub_ok (useXDP sd)) (default [] (pubData sd));
  sv_subs : Forall (sub_ok (useXDP sd)) (default [] (subData sd))
}.

(** The two situations in which the parser's behaviour is undefined: the entries
    are not an object, and there was no memory for the name of an output file. *)
Definition entries_not_object {api : json_api} (json : JsObj) : Prop :=
  ∃ key v, (key = "publishers" ∨ key = "subscribers")%string ∧
    json_object_object_get_ex json key = Some v ∧ json_object_get_type v ≠ json_type_object.

Definition string_refused (tr : list call) : Prop :=
  ∃ v old, tr = Alloc (OStr v) false :: old.

(** ** Lemmas: accessors *)

Section parse_lemmas.
Context {OS : ua_os} {api : json_api}.
Implicit Types s : st ua_glob call.

Lemma wp_getInt j k s (Q : outcome Z → st ua_glob call → Prop) :
  (∀ v, Q (Done v) s) → Q (Exited EXIT_FAILURE) s → wp (getInt j k) Q s.
Proof.
  intros H1 H2. unfold wp, getInt, getValue, ensureType, mbind, M_bind.
  destruct (json_object_object_get_ex j k); simpl; [|done].
  case_decide; simpl; [apply H1|done].
Qed.

Lemma wp_getInt64 j k s (Q : outcome Z → st ua_glob call → Prop) :
  (∀ v, Q (Done v) s) → Q (Exited EXIT_FAILURE) s → wp (getInt64 j k) Q s.
Proof.
  intros H1 H2. unfold wp, getInt64, getValue, ensureType, mbind, M_bind.
  destruct (json_object_object_get_ex j k); simpl; [|done].
  case_decide; simpl; [apply H1|done].
Qed.

Lemma wp_getBool j k s (Q : outcome bool → st ua_glob call → Prop) :
  (∀ v, Q (Done v) s) → Q (Exited EXIT_FAILURE) s → wp (getBool j k) Q s.
Proof.
  intros H1 H2. unfold wp, getBool, getValue, ensureType, mbind, M_bind.
  destruct (json_object_object_get_ex j k); simpl; [|done].
  case_decide; simpl; [apply H1|done].
Qed.

Lemma wp_getString j k s (Q : outcome (option (list Z)) → st ua_glob call → Prop) :
  (∀ p s', (∀ x, live (trace s') x = live (trace s) x + owned_str p x) →
     (p = None → string_refused (trace s')) → (mallocs_succeed → p ≠ None) → Q (Done p) s') →
  Q (Exited EXIT_FAILURE) s → wp (getString j k) Q s.
Proof.
  intros H1 H2. unfold wp, getString, getValue, ensureType, alloc, mbind, M_bind.
  destruct (json_object_object_get_ex j k); simpl; [|done].
  case_decide; simpl; [|done]. apply H1.
  - intros x. simpl. unfold owned_str, one. destruct (os_calloc _); lia.
  - intros Hp. destruct (os_calloc _); [done|]. by eexists _, _.
  - intros Hok. by rewrite Hok.
Qed.

Lemma wp_getValue j k s (Q : outcome JsObj → st ua_glob call → Prop) :
  (∀ v, Q (Done v) s) → Q (Exited EXIT_FAILURE) s → wp (getValue j k) Q s.
Proof.
  intros H1 H2. unfold wp, getValue. destruct (json_object_object_get_ex j k); simpl; auto.
Qed.

Lemma wp_catch {A} bad (x : A) k s (Q : outcome (A * bool) → st ua_glob call → Prop) :
  (bad = true → Q (Done (x, false)) s) → (bad = false → wp k Q s) →
  wp (catch_err bad x k) Q s.
Proof. intros H1 H2. unfold catch_err. destruct bad; [by apply H1|by apply H2]. Qed.

Lemma out_of_false lo hi v : out_of lo hi v = false → lo <= v <= hi.
Proof. unfold out_of. intros. bool_to_prop. lia. Qed.

(** What a parsing function leaves: only objects the result owns are new,
    and a complete result satisfies [P]. *)
Definition parsed {A} (owned : A → obj → Z) (P : A → Prop) (s : st ua_glob call)
  (out : outcome (A * bool)) (s' : st ua_glob call) : Prop :=
  match out with
  | Done (a, ok) => (∀ x, live (trace s') x = live (trace s) x + owned a x) ∧
                    (ok = true → P a)
  | Exited c => c = EXIT_FAILURE
  | Undefined => string_refused (trace s')
  | NoFuel => False
  end.

(** One accessor of a parsing function. *)
Ltac accessor :=
  apply wp_bind;
  first [ first [ apply wp_getInt | apply wp_getInt64 | apply wp_getBool | apply wp_getValue ];
          [intros ?|reflexivity]
        | apply wp_getString; [intros ?p ?t ?L ?N ?M|reflexivity] ].

(** A sum of what was acquired on the way. *)
Ltac live_sum :=
  intros x;
  repeat match goal with L : ∀ y, live _ y = _ |- _ => specialize (L x) end;
  unfold owned_pub, owned_sub, owned_server, owned_str, one in *; simpl in *; lia.

Ltac checked H := apply wp_catch; [intros _|intros H].

(** The parse failed here: nothing but ownership is to be shown. *)
Ltac parse_failed :=
  split; [live_sum|done].

Lemma parse_publisher_ok xdp j s :
  wp (parse_publisher xdp j) (parsed owned_pub (pub_ok xdp) s) s.
Proof.
  unfold parse_publisher. cbv zeta.
  accessor. checked H1; [parse_failed|]. accessor. checked H2; [parse_failed|].
  accessor. checked H3; [parse_failed|]. accessor. checked H4; [parse_failed|].
  apply wp_bind. apply (wp_mono _ (λ out s', s' = s ∧
    match out with Done v => xdp = false → v = -1 | Exited c => c = EXIT_FAILURE | _ => False end)).
  { destruct xdp; [apply wp_getInt; by auto|by apply wp_ret]. }
  intros [v4|c| |] s' [-> Hq]; [|exact Hq|done..].
  checked H5; [parse_failed|]. accessor. accessor. checked H6; [parse_failed|].
  accessor. checked H7; [parse_failed|]. accessor. checked H8; [parse_failed|].
  accessor. accessor. checked H9; [parse_failed|]. apply wp_ret.
  split; [live_sum|]. intros _.
  apply out_of_false in H1, H2, H4, H6, H7, H8, H9. bool_to_prop.
  split; simpl; try assumption; try done.
  destruct xdp; [by apply out_of_false in H5|by apply Hq].
Qed.

Lemma parse_subscriber_ok xdp j s :
  wp (parse_subscriber xdp j) (parsed owned_sub (sub_ok xdp) s) s.
Proof.
  unfold parse_subscriber. cbv zeta.
  accessor. checked H1; [parse_failed|].
  apply wp_bind. apply (wp_mono _ (λ out s', s' = s ∧
    match out with Done v => xdp = false → v = -1 | Exited c => c = EXIT_FAILURE | _ => False end)).
  { destruct xdp; [apply wp_getInt; by auto|by apply wp_ret]. }
  intros [v4|c| |] s' [-> Hq]; [|exact Hq|done..].
  checked H5; [parse_failed|]. accessor. accessor. checked H6; [parse_failed|].
  accessor. checked H7; [parse_failed|]. accessor. checked H8; [parse_failed|].
  accessor. checked H9; [parse_failed|]. accessor. accessor. checked H10; [parse_failed|].
  accessor. case_match; [|match goal with H : _ = None → _ |- _ => exact (H eq_refl) end].
  apply wp_bind. unfold open_output, wp at 1. cbn [fst snd].
  destruct (os_fopen _) eqn:Eo; cbn [negb]; apply wp_ret; [|parse_failed].
  split; [live_sum|]. intros _.
  apply out_of_false in H1, H6, H7, H8, H9, H10.
  split; simpl; [done| |auto|done|by eexists|assumption].
  destruct xdp; [by apply out_of_false in H5|by apply Hq].
Qed.
(** The array of a parsed object: as long as it was allocated for. *)
Lemma parse_entries_ok {A} (parse : JsObj → T (A * bool)) zero owned P js room s :
  (∀ j s, wp (parse j) (parsed owned P s) s) → (∀ x, owned zero x = 0) →
  room = length js →
  wp (parse_entries parse zero js room)
     (parsed (λ l x, owned_list owned l x) (Forall P) s) s ∧
  wp (parse_entries parse zero js room)
     (λ out _, match out with Done (l, _) => length l = room | _ => True end) s.
Proof.
  intros Hp Hz. revert room s. induction js as [|j js IH]; intros room s ->.
  - cbn [parse_entries length]. split; apply wp_ret; [|by apply length_replicate].
    split; [intros x; simpl; lia|by constructor].
  - cbn [parse_entries length].
    assert (∀ n x, owned_list owned (replicate n zero) x = 0) as Hrep.
    { intros n x. induction n as [|n IHn]; simpl; [done|].
      by rewrite Hz, IHn. }
    split; apply wp_bind; (eapply wp_mono; [apply Hp|]);
      intros [[a ok]|c| |] s1; cbn [parsed abrupt]; try done; intros [Hl HP];
      destruct ok.
    2: { apply wp_ret. split; [|done]. intros x. cbn [owned_list foldr].
         change (foldr _ 0 _) with (owned_list owned (replicate (length js) zero) x).
         rewrite Hrep, (Hl x). lia. }
    3: { apply wp_ret. simpl. by rewrite length_replicate. }
    + apply wp_bind. eapply wp_mono; [apply (proj1 (IH _ s1 eq_refl))|].
      intros [[l ok]|c| |] s2; cbn [parsed abrupt]; try done. intros [Hl2 HP2].
      apply wp_ret. split.
      * intros x. rewrite Hl2, Hl. simpl. unfold owned_list. lia.
      * intros Hok. constructor; auto.
    + apply wp_bind. eapply wp_mono; [apply (proj2 (IH _ s1 eq_refl))|].
      intros [[l ok]|c| |] s2; cbn [abrupt]; try done. intros Hlen.
      apply wp_ret. simpl. by rewrite Hlen.
Qed.
(** The settings that parse_arrays() leaves alone. *)
Definition same_scalars (a b : ServerData) : Prop :=
  pubInterface a = pubInterface b ∧ subInterface a = subInterface b ∧
  cycleTimeNs a = cycleTimeNs b ∧ pollingDurationNs a = pollingDurationNs b ∧
  useXDP a = useXDP b ∧ useXDP_ZC a = useXDP_ZC b ∧ useXDP_SKB a = useXDP_SKB b ∧
  packetCount a = packetCount b.

Definition bare (s0 : ServerData) : Prop :=
  pubData s0 = None ∧ subData s0 = None ∧ pubCount s0 = 0 ∧ subCount s0 = 0.

Definition arrays_post (json : JsObj) (s0 : ServerData) (s : st ua_glob call)
  (out : outcome (ServerData * bool)) (s' : st ua_glob call) : Prop :=
  match out with
  | Done (sd, ok) =>
      same_scalars s0 sd ∧ counts_ok sd ∧
      (∀ x, live (trace s') x = live (trace s) x + (owned_server sd x - owned_server s0 x)) ∧
      (ok = true → Forall (pub_ok (useXDP s0)) (default [] (pubData sd)) ∧
                   Forall (sub_ok (useXDP s0)) (default [] (subData sd)))
  | Exited c => c = EXIT_FAILURE
  | Undefined => entries_not_object json ∨ string_refused (trace s')
  | NoFuel => False
  end.

Context {laws : json_laws api}.

Lemma owned_zero_sub n x : owned_list owned_sub (replicate n zero_sub) x = 0.
Proof. induction n as [|n IH]; simpl; [done|]. by rewrite IH. Qed.

(** Reading the two lists of entries once the arrays are allocated. *)
Lemma parse_both_ok json (s0 : ServerData) pubs subs s :
  bare s0 →
  let nP := length (json_object_object_foreach pubs) in
  let nS := length (json_object_object_foreach subs) in
  wp ('(pds, ok) ← parse_entries (parse_publisher (useXDP s0)) zero_pub
                     (json_object_object_foreach pubs) nP;
      let sd := s0 {{ pubCount := Z.of_nat nP; subCount := Z.of_nat nS; pubData := Some pds;
                      subData := Some (replicate nS zero_sub) }} in
      catch_err (negb ok) sd (
      '(sds, ok) ← parse_entries (parse_subscriber (useXDP s0)) zero_sub
                     (json_object_object_foreach subs) nS;
      mret (sd {{ subData := Some sds }}, ok)))
     (arrays_post json s0 (mkSt (glob s) (trace s)))
     (mkSt (glob s) (Alloc OSubs true :: Alloc OPubs true :: trace s)).
Proof.
  intros (B1 & B2 & B3 & B4) nP nS. apply wp_bind. set (s1 := mkSt (glob s) (Alloc OSubs _ :: _)).
  assert (∀ x, live (trace s1) x = live (trace s) x + one x OPubs + one x OSubs) as L1
    by (intros x; simpl; unfold one; lia).
  destruct (parse_entries_ok (parse_publisher (useXDP s0)) zero_pub owned_pub
    (pub_ok (useXDP s0)) (json_object_object_foreach pubs) nP s1) as [K1 K2];
    [intros; apply parse_publisher_ok|done|done|].
  eapply wp_mono; [exact (wp_conj _ _ _ _ K1 K2)|].
  intros [[pds ok]|c| |] s2; cbn [parsed abrupt];
    [|by intros [-> _]|intros [? _]; by right|by intros [[] _]].
  intros [[L2 HP] Hlen]. cbv beta zeta in L2 |- *.
  apply wp_catch.
  - destruct ok; [done|]. intros _. split; [by repeat split|].
    split; [split; simpl; [by rewrite Hlen|by rewrite length_replicate]|]. split; [|done].
    intros x. rewrite L2, L1. unfold owned_server. destruct s0. simpl in *. subst.
    rewrite owned_zero_sub. lia.
  - destruct ok; [intros _|done]. apply wp_bind.
    destruct (parse_entries_ok (parse_subscriber (useXDP s0)) zero_sub owned_sub
      (sub_ok (useXDP s0)) (json_object_object_foreach subs) nS s2) as [K3 K4];
      [intros; apply parse_subscriber_ok|done|done|].
    eapply wp_mono; [exact (wp_conj _ _ _ _ K3 K4)|].
    intros [[sds ok]|c| |] s3; cbn [parsed abrupt];
      [|by intros [-> _]|intros [? _]; by right|by intros [[] _]].
    intros [[L3 HS] Hlen2]. cbv beta in L3. apply wp_ret. split; [by repeat split|].
    split; [split; simpl; congruence|]. split; [|simpl; auto].
    intros x. rewrite L3, L2, L1. unfold owned_server. destruct s0. simpl in *. subst. lia.
Qed.

(** The value of a key that must be an object, and the number of its entries. *)
Lemma wp_entries {A} json key (k : JsObj → Z → T A) s (Q : outcome A → st ua_glob call → Prop) :
  (key = "publishers" ∨ key = "subscribers")%string →
  Q (Exited EXIT_FAILURE) s → (entries_not_object json → Q Undefined s) →
  (∀ v, json_object_object_get_ex json key = Some v →
        wp (k v (Z.of_nat (length (json_object_object_foreach v)))) Q s) →
  wp (v ← getValue json key; n ← countChildrenEntries v; k v n) Q s.
Proof.
  intros Hkey Hx Hu Hk. apply wp_bind. unfold getValue, countChildrenEntries.
  destruct (json_object_object_get_ex json key) as [v|] eqn:E; [|exact Hx].
  apply wp_ret, wp_bind. case_decide as Ht; [|apply Hu; by exists key, v].
  apply wp_ret. rewrite json_length by done. by apply Hk.
Qed.

Lemma parse_arrays_ok json (s0 : ServerData) s :
  bare s0 → wp (parse_arrays json s0) (arrays_post json s0 s) s.
Proof.
  intros HB. pose proof HB as (B1 & B2 & B3 & B4).
  assert (counts_ok s0) as HC by (split; rewrite ?B1, ?B2, ?B3, ?B4; done).
  assert (same_scalars s0 s0) as HS by by repeat split.
  unfold parse_arrays, alloc. cbv zeta.
  apply wp_entries; [by left|done|by left|]. intros pubs _. apply wp_bind. unfold wp at 1. cbn [fst snd].
  destruct (os_calloc _); cbn [negb].
  2: { apply wp_ret. split; [done|]. split; [done|]. split; [|done]. intros x. simpl. lia. }
  apply wp_entries; [by right|done|by left|]. intros subs _. apply wp_bind. unfold wp at 1. cbn [fst snd glob trace].
  destruct (os_calloc _); cbn [negb].
  2: { apply wp_bind, wp_ask, wp_ret. split; [done|]. split; [done|]. split; [|done].
       intros x. simpl. case_decide; lia. }
  rewrite !Nat2Z.id. destruct s as [g tr].
  apply (parse_both_ok json s0 _ _ (mkSt g tr) HB).
Qed.
(** The whole structure, from the one that calloc() returned. *)
Definition server_post (json : JsObj) (s : st ua_glob call)
  (out : outcome (ServerData * bool)) (s' : st ua_glob call) : Prop :=
  match out with
  | Done (sd, ok) =>
      counts_ok sd ∧
      (∀ x, live (trace s') x = live (trace s) x + (owned_server sd x - one x OServer)) ∧
      (ok = true → server_ok sd)
  | Exited c => c = EXIT_FAILURE
  | Undefined => entries_not_object json ∨ string_refused (trace s')
  | NoFuel => False
  end.

Ltac server_failed :=
  split; [done|]; split; [live_sum|done].

Lemma parse_server_ok json s :
  wp (parse_server json zero_server) (server_post json s) s.
Proof.
  unfold parse_server. cbv zeta. accessor. accessor.
  match goal with |- wp (_ ≫= _) _ ?t => set (s1 := t) in * end.
  apply wp_bind, wp_getBool; [intros xdp|reflexivity].
  set (flag := λ k (out : outcome bool) s', s' = s1 ∧ match out with
    | Done b => xdp = false → b = k | Exited c => c = EXIT_FAILURE | _ => False end).
  assert (∀ key, wp (if xdp then getBool json key else mret false) (flag false) s1) as Hflag.
  { intros key. unfold flag. destruct xdp; [apply wp_getBool; by auto|by apply wp_ret]. }
  apply wp_bind. eapply wp_mono; [apply Hflag|].
  intros [zc|c| |] u [-> Hzc]; [|exact Hzc|done..]. cbn [abrupt].
  apply wp_bind. eapply wp_mono; [apply Hflag|].
  intros [skb|c| |] u [-> Hskb]; [|exact Hskb|done..]. cbn [abrupt].
  accessor. checked H1; [server_failed|]. accessor. checked H2; [server_failed|].
  accessor. checked H3; [server_failed|].
  match goal with |- wp (parse_arrays _ ?d) _ _ => set (s0 := d) end.
  eapply wp_mono; [apply (parse_arrays_ok json s0); by repeat split|].
  intros [[sd ok]|c| |] s2; [|done..].
  intros ((E1 & E2 & E3 & E4 & E5 & E6 & E7 & E8) & HC & HL & HF).
  split; [done|]. split.
  - intros x. rewrite HL. revert x. live_sum.
  - intros Hok. destruct (HF Hok) as [HP HS].
    apply out_of_false in H1, H2, H3.
    split; [by rewrite <- E3|by rewrite <- E4|by rewrite <- E8| |exact HC
           | |by rewrite <- E5|by rewrite <- E5].
    + rewrite <- E5, <- E6, <- E7. simpl. auto.
    + rewrite <- E1, <- E2. simpl. auto.
Qed.

(** *** Release *)

Lemma free_str_ok p s :
  wp (free_str p) (λ out s', out = Done tt ∧
     ∀ x, live (trace s') x = live (trace s) x - owned_str p x) s.
Proof.
  destruct p as [q|]; [apply wp_ask|apply wp_ret]; (split; [done|]); intros x; simpl;
    unfold one; repeat case_decide; lia.
Qed.

Lemma free_sub_ok sd s :
  wp (free_sub sd tt) (λ out s', out = Done tt ∧
     ∀ x, live (trace s') x = live (trace s) x - owned_sub sd x) s.
Proof.
  unfold free_sub. apply wp_bind. eapply wp_mono; [apply free_str_ok|].
  intros out s1 [-> L1]. apply wp_bind. eapply wp_mono; [apply free_str_ok|].
  intros out s2 [-> L2]. unfold owned_sub. destruct (fpSubscriberOutput sd) as [p|].
  - apply wp_bind, wp_ask, wp_ask. split; [done|]. intros x. cbn [trace live].
    rewrite L2, L1. unfold one. repeat case_decide; lia.
  - apply wp_ret. split; [done|]. intros x. rewrite L2, L1. lia.
Qed.

Lemma free_list_ok {A} (f : A → unit → T unit) owned (l : list A) s :
  (∀ a s, wp (f a tt) (λ out s', out = Done tt ∧
     ∀ x, live (trace s') x = live (trace s) x - owned a x) s) →
  wp (for_each l f tt) (λ out s', out = Done tt ∧
     ∀ x, live (trace s') x = live (trace s) x - owned_list owned l x) s.
Proof.
  intros Hf. revert s. induction l as [|a l IH]; intros s; cbn [for_each].
  - apply wp_ret. split; [done|]. intros x. simpl. lia.
  - apply wp_bind. eapply wp_mono; [apply Hf|]. intros out s1 [-> L1].
    eapply wp_mono; [apply IH|]. intros out s2 [-> L2]. split; [done|].
    intros x. rewrite L2, L1. simpl. unfold owned_list. lia.
Qed.

Lemma wp_first_entries {A} n (l : option (list A)) s (Q : outcome (list A) → st ua_glob call → Prop) :
  n = Z.of_nat (length (default [] l)) → Q (Done (default [] l)) s →
  wp (first_entries n l) Q s.
Proof.
  intros -> HQ. unfold first_entries. rewrite Z.ltb_irrefl. apply wp_ret.
  by rewrite Nat2Z.id, take_ge.
Qed.

Lemma free_block_ok (b : bool) y s :
  wp (when b (tell (Free y))) (λ out s', out = Done tt ∧
     ∀ x, live (trace s') x = live (trace s) x - (if b then one x y else 0)) s.
Proof.
  destruct b; [apply wp_ask|apply wp_ret]; (split; [done|]); intros x; simpl;
    unfold one; repeat case_decide; lia.
Qed.

Lemma free_resources_ok sd s :
  counts_ok sd →
  wp (free_resources (Some sd)) (λ out s', out = Done tt ∧
     ∀ x, live (trace s') x = live (trace s) x - owned_server sd x) s.
Proof.
  intros [C1 C2]. unfold free_resources.
  apply wp_bind, wp_first_entries; [exact C1|]. apply wp_bind.
  eapply wp_mono; [apply (free_list_ok free_pub owned_pub); intros; apply free_str_ok|].
  intros out s1 [-> L1]. apply wp_bind. eapply wp_mono; [apply free_block_ok|].
  intros out s2 [-> L2]. apply wp_bind, wp_first_entries; [exact C2|]. apply wp_bind.
  eapply wp_mono; [apply (free_list_ok free_sub owned_sub); intros; apply free_sub_ok|].
  intros out s3 [-> L3]. apply wp_bind. eapply wp_mono; [apply free_block_ok|].
  intros out s4 [-> L4]. apply wp_bind. eapply wp_mono; [apply free_str_ok|].
  intros out s5 [-> L5]. apply wp_bind. eapply wp_mono; [apply free_str_ok|].
  intros out s6 [-> L6]. apply wp_ask. split; [done|]. intros x. cbn [trace live].
  rewrite L6, L5, L4, L3, L2, L1. unfold owned_server, one.
  destruct (pubData sd), (subData sd); simpl; repeat case_decide; lia.
Qed.
End parse_lemmas.

(** ** Properties *)

(** parseJson() from its start to its end: what it returns is valid, and owns
    all that it has acquired. *)
Lemma parseJson_ok {OS : ua_os} {api : json_api} {laws : json_laws api} json s :
  wp (parseJson json)
     (λ out s', match out with
                | Done r =>
                    (∀ x, live (trace s') x
                     = live (trace s) x + match r with Some sd => owned_server sd x | None => 0 end) ∧
                    match r with Some sd => server_ok sd | None => True end
                | Exited c => c = EXIT_FAILURE
                | Undefined => entries_not_object json ∨ string_refused (trace s')
                | NoFuel => False
                end) s.
Proof.
  unfold parseJson. apply wp_bind. unfold alloc, wp at 1. cbn [fst snd].
  destruct (os_calloc _); cbn [negb].
  2: { apply wp_ret. split; [|done]. intros x. simpl. lia. }
  apply wp_bind. set (s0 := mkSt _ _).
  assert (∀ x, live (trace s0) x = live (trace s) x + one x OServer) as L0
    by (intros x; simpl; unfold one; lia).
  eapply wp_mono; [apply parse_server_ok|]. intros [[sd ok]|c| |] s1; [|done..].
  intros (HC & HL & HF). destruct ok.
  - apply wp_ret. split; [|by apply HF]. intros x. rewrite HL, L0. lia.
  - apply wp_bind. eapply wp_mono; [by apply free_resources_ok|].
    intros out s2 [-> L2]. apply wp_ret. split; [|done]. intros x. rewrite L2, HL, L0. lia.
Qed.


(** C21: parsing leaks nothing and frees nothing twice: after a failure every
    string, array, structure and file that parseJson() had acquired is released
    exactly once, whichever check failed; after a success exactly what the
    returned structure owns is held.  (An exit has status 1; the two situations
    with undefined behaviour are those of parseJson_accepts_only_valid.) *)
Theorem parseJson_no_leak {OS : ua_os} {api : json_api} {laws : json_laws api} json s :
  wp (parseJson json)
     (λ out s', match out with
                | Done r => ∀ x, live (trace s') x
                    = live (trace s) x + match r with Some sd => owned_server sd x | None => 0 end
                | Exited c => c = EXIT_FAILURE
                | Undefined => entries_not_object json ∨ string_refused (trace s')
                | NoFuel => False
                end) s.
Proof.
  eapply wp_mono; [apply parseJson_ok|]. intros [[sd|]|c| |] s'; tauto.
Qed.

(** Free_resources() releases exactly what the structure owns, each
    object once, provided the arrays have the length the counts say. *)
Theorem free_resources_releases_all sd s :
  counts_ok sd → (∀ x, live (trace s) x = owned_server sd x) →
  wp (free_resources (Some sd)) (λ out s', out = Done tt ∧ ∀ x, live (trace s') x = 0) s.
Proof.
  intros HC HL. eapply wp_mono; [by apply free_resources_ok|].
  intros out s' [-> L]. split; [done|]. intros x. rewrite L, HL. lia.
Qed.

(** ** Witnesses *)

(** json-c over documents. *)
#[export] Instance demo_json (file : option js) : json_api := {|
  JsObj := js;
  json_object_object_get_ex := js_field;
  json_object_get_type := λ j, match j with
    | JInt _ => json_type_int | JBool _ => json_type_boolean
    | JStr _ => json_type_string | JObj _ => json_type_object end;
  json_object_get_int := λ j, match j with
    | JInt z => Z.min INT_MAX (Z.max INT_MIN z) | _ => 0 end;
  json_object_get_int64 := λ j, match j with
    | JInt z => Z.min (2 ^ 63 - 1) (Z.max (- 2 ^ 63) z) | _ => 0 end;
  json_object_get_boolean := λ j, match j with JBool b => b | _ => false end;
  json_object_get_string := λ j, match j with JStr s => bytes_of_string s | _ => [] end;
  json_object_object_length := λ j, Z.of_nat (length (js_values j));
  json_object_object_foreach := js_values;
  json_object_from_file := λ _, file
|}.

#[export] Instance demo_json_laws file : json_laws (demo_json file).
Proof. by split. Defined.

(** A configuration with one subscriber, whose offset is a parameter. *)
Definition demo_config (offset : Z) : js := JObj [
  ("publisher_interface", JStr "eth0"); ("subscriber_interface", JStr "eth0");
  ("use_xdp", JBool false); ("polling_duration_ns", JInt 0);
  ("packet_count", JInt 1000); ("cycle_time_ns", JInt 1000000);
  ("publishers", JObj []);
  ("subscribers", JObj [("sub1", JObj [
     ("offset_ns", JInt offset); ("url", JStr "opc.eth://22-bb-22-bb-22-bb:3.3");
     ("sub_id", JInt 0); ("subscribed_pub_id", JInt 2234);
     ("subscribed_dataset_writer_id", JInt 62541); ("subscribed_writer_group_id", JInt 101);
     ("two_way_data", JBool false); ("iperf_cpu_affinity", JInt 1);
     ("subscriber_output_file", JStr "sub.log")])])]%string.

Definition parse_demo (offset : Z) : outcome (option ServerData) * st ua_glob call :=
  @parseJson (make_ua_os None 0) (demo_json None) (demo_config offset) (mkSt init_ua_glob []).


(** "publishers" that are not an object are not noticed. *)
Theorem mistyped_publishers_are_undefined :
  let config := JObj [
    ("publisher_interface", JStr "eth0"); ("subscriber_interface", JStr "eth0");
    ("use_xdp", JBool false); ("polling_duration_ns", JInt 0);
    ("packet_count", JInt 1000); ("cycle_time_ns", JInt 1000000);
    ("publishers", JInt 1); ("subscribers", JObj [])]%string in
  (@parseJson (make_ua_os None 0) (demo_json None) config (mkSt init_ua_glob [])).1 = Undefined.
Proof. vm_compute. reflexivity. Qed.

(** A bad offset is found after the strings and the arrays are allocated. *)
Lemma parseJson_no_leak_witness :
  (parse_demo (-1)).1 = Done None ∧ ∀ x, live (trace (parse_demo (-1)).2) x = 0.
Proof.
  pose proof (@parseJson_no_leak (make_ua_os None 0) (demo_json None)
    (demo_json_laws None) (demo_config (-1)) (mkSt init_ua_glob [])) as H.
  assert ((parse_demo (-1)).1 = Done None) as E by (vm_compute; reflexivity).
  split; [exact E|]. intros x. unfold wp in H. fold (parse_demo (-1)) in H.
  rewrite E in H. exact (H x).
Defined.

Lemma free_resources_releases_all_witness :
  let sd := zero_server {{ pubData := Some []; subData := Some [] }} in
  let r := free_resources (Some sd)
             (mkSt init_ua_glob [Alloc OSubs true; Alloc OPubs true; Alloc OServer true]) in
  r.1 = Done tt ∧ ∀ x, live (trace r.2) x = 0.
Proof.
  apply (free_resources_releases_all (zero_server {{ pubData := Some []; subData := Some [] }})
    (mkSt init_ua_glob [Alloc OSubs true; Alloc OPubs true; Alloc OServer true])).
  - split; reflexivity.
  - intros x. cbn [trace live]. unfold owned_server, one. simpl. unfold one. lia.
Defined.
