(* ===== verification/OpcuaJson.v ===== *)
(** * OPC UA server: configurations as documents (opcua_common.c, json_helper.c)

    What a JSON document says, and that parseArgs() reads exactly that: whatever
    the order of the keys and whatever other keys there are. *)

From S2P Require Import Prelude Sys Libc Opcua OpcuaConfig.

Local Open Scope Z_scope.
Local Open Scope string_scope.

(** ** Documents *)

(** json-c hands out a document by its accessors: an [int] saturates, an object
    is searched by key and enumerated in order. *)
Class json_shows (api : json_api) : Type := {
  shows : JsObj → js → Prop;
  shows_int j z : shows j (JInt z) →
    json_object_get_type j = json_type_int ∧
    json_object_get_int j = Z.min INT_MAX (Z.max INT_MIN z) ∧
    json_object_get_int64 j = Z.min (2 ^ 63 - 1) (Z.max (- 2 ^ 63) z);
  shows_bool j b : shows j (JBool b) →
    json_object_get_type j = json_type_boolean ∧ json_object_get_boolean j = b;
  shows_str j s : shows j (JStr s) →
    json_object_get_type j = json_type_string ∧ json_object_get_string j = bytes_of_string s;
  shows_obj j fs : shows j (JObj fs) → json_object_get_type j = json_type_object;
  shows_field j fs key d : shows j (JObj fs) → js_field (JObj fs) key = Some d →
    ∃ v, json_object_object_get_ex j key = Some v ∧ shows v d;
  shows_values j fs : shows j (JObj fs) →
    Forall2 shows (json_object_object_foreach j) (js_values (JObj fs))
}.

(** ** Specification: what a document says *)

Definition int_at (fs : list (string * js)) (k : string) (v : Z) : Prop :=
  ∃ z, js_field (JObj fs) k = Some (JInt z) ∧ v = Z.min INT_MAX (Z.max INT_MIN z).

Definition int64_at (fs : list (string * js)) (k : string) (v : Z) : Prop :=
  ∃ z, js_field (JObj fs) k = Some (JInt z) ∧ v = Z.min (2 ^ 63 - 1) (Z.max (- 2 ^ 63) z).

Definition bool_at (fs : list (string * js)) (k : string) (b : bool) : Prop :=
  js_field (JObj fs) k = Some (JBool b).

Definition str_at (fs : list (string * js)) (k : string) (p : option (list Z)) : Prop :=
  ∃ s, js_field (JObj fs) k = Some (JStr s) ∧ p = Some (cstr (bytes_of_string s)).

(** A key that is there only with XDP, and the value without. *)
Definition xdp_at {A} (xdp : bool) (at_ : list (string * js) → string → A → Prop)
  (fs : list (string * js)) (k : string) (absent v : A) : Prop :=
  if xdp then at_ fs k v else v = absent.

(** The entry [d] describes the publisher [pd]. *)
Definition pub_text (xdp : bool) (d : js) (pd : PublisherData) : Prop :=
  ∃ fs, d = JObj fs ∧
    int_at fs "early_offset_ns" (earlyOffsetNs pd) ∧
    int_at fs "publish_offset_ns" (publishOffsetNs pd) ∧
    int_at fs "publish_delay_sec" (publishDelaySec pd) ∧
    int_at fs "socket_prio" (socketPriority pd) ∧
    xdp_at xdp int_at fs "xdp_queue" (-1) (p_xdpQueue pd) ∧
    str_at fs "url" (p_url pd) ∧
    int_at fs "pub_id" (p_id pd) ∧
    int_at fs "dataset_writer_id" (dataSetWriterId pd) ∧
    int_at fs "writer_group_id" (writerGroupId pd) ∧
    bool_at fs "two_way_data" (p_twoWayData pd) ∧
    int_at fs "iperf_cpu_affinity" (p_cpuAffinity pd) ∧
    p_readFunc pd = read_unset ∧ p_writeFunc pd = write_unset.

(** The entry [d] describes the subscriber [sd], its output file open. *)
Definition sub_text (xdp : bool) (d : js) (sd : SubscriberData) : Prop :=
  ∃ fs, d = JObj fs ∧
    int_at fs "offset_ns" (offsetNs sd) ∧
    xdp_at xdp int_at fs "xdp_queue" (-1) (s_xdpQueue sd) ∧
    str_at fs "url" (s_url sd) ∧
    int_at fs "sub_id" (s_id sd) ∧
    int_at fs "subscribed_pub_id" (subscribedPubId sd) ∧
    int_at fs "subscribed_dataset_writer_id" (subscribedDSWriterId sd) ∧
    int_at fs "subscribed_writer_group_id" (subscribedWGId sd) ∧
    bool_at fs "two_way_data" (s_twoWayData sd) ∧
    int_at fs "iperf_cpu_affinity" (s_cpuAffinity sd) ∧
    str_at fs "subscriber_output_file" (subscriberOutputFileName sd) ∧
    fpSubscriberOutput sd = subscriberOutputFileName sd ∧
    s_readFunc sd = read_unset ∧ s_writeFunc sd = write_unset.

(** The value of the key "opcua_server" describes the server [sd]. *)
Definition server_text (d : js) (sd : ServerData) : Prop :=
  ∃ fs pubs subs pds sds, d = JObj fs ∧
    str_at fs "publisher_interface" (pubInterface sd) ∧
    str_at fs "subscriber_interface" (subInterface sd) ∧
    bool_at fs "use_xdp" (useXDP sd) ∧
    xdp_at (useXDP sd) bool_at fs "use_xdp_zc" false (useXDP_ZC sd) ∧
    xdp_at (useXDP sd) bool_at fs "use_xdp_skb" false (useXDP_SKB sd) ∧
    int_at fs "polling_duration_ns" (pollingDurationNs sd) ∧
    (∃ v, int64_at fs "packet_count" v ∧ packetCount sd = u64 v) ∧
    int64_at fs "cycle_time_ns" (cycleTimeNs sd) ∧
    js_field d "publishers" = Some (JObj pubs) ∧
    js_field d "subscribers" = Some (JObj subs) ∧
    Forall2 (pub_text (useXDP sd)) (js_values (JObj pubs)) pds ∧
    Forall2 (sub_text (useXDP sd)) (js_values (JObj subs)) sds ∧
    pubData sd = Some pds ∧ pubCount sd = Z.of_nat (length pds) ∧
    subData sd = Some sds ∧ subCount sd = Z.of_nat (length sds) ∧
    startTime sd = 0 ∧ msqid sd = 0.

(** ** Lemmas: accessors *)

Section reading.
Context {OS : ua_os} {api : json_api} {doc : json_shows api} {laws : json_laws api}.
Hypothesis Hcalloc : ∀ tr, os_calloc tr = true.
Hypothesis Hfopen : ∀ tr, os_fopen tr = true.
Implicit Types s : st ua_glob call.

Lemma read_value j fs k d s (Q : outcome JsObj → st ua_glob call → Prop) :
  shows j (JObj fs) → js_field (JObj fs) k = Some d →
  (∀ v, shows v d → Q (Done v) s) → wp (getValue j k) Q s.
Proof.
  intros Hj Hk HQ. destruct (shows_field _ _ _ _ Hj Hk) as (v & Ev & Hv).
  unfold getValue. rewrite Ev. by apply wp_ret, HQ.
Qed.

Lemma ensured v t s (Q : outcome unit → st ua_glob call → Prop) :
  json_object_get_type v = t → Q (Done tt) s → wp (ensureType v t) Q s.
Proof. intros Ht HQ. unfold ensureType. rewrite decide_True by done. by apply wp_ret. Qed.

Lemma read_int j fs k v s (Q : outcome Z → st ua_glob call → Prop) :
  shows j (JObj fs) → int_at fs k v → Q (Done v) s → wp (getInt j k) Q s.
Proof.
  intros Hj (z & Hk & ->) HQ. unfold getInt. apply wp_bind. eapply read_value; [done..|].
  intros x (Ht & E & _)%shows_int. rewrite E. by apply wp_bind, ensured, wp_ret.
Qed.

Lemma read_int64 j fs k v s (Q : outcome Z → st ua_glob call → Prop) :
  shows j (JObj fs) → int64_at fs k v → Q (Done v) s → wp (getInt64 j k) Q s.
Proof.
  intros Hj (z & Hk & ->) HQ. unfold getInt64. apply wp_bind. eapply read_value; [done..|].
  intros x (Ht & _ & E)%shows_int. rewrite E. by apply wp_bind, ensured, wp_ret.
Qed.

Lemma read_bool j fs k b s (Q : outcome bool → st ua_glob call → Prop) :
  shows j (JObj fs) → bool_at fs k b → Q (Done b) s → wp (getBool j k) Q s.
Proof.
  intros Hj Hk HQ. unfold getBool. apply wp_bind. eapply read_value; [done..|].
  intros x (Ht & ->)%shows_bool. by apply wp_bind, ensured, wp_ret.
Qed.

Lemma read_str j fs k p s (Q : outcome (option (list Z)) → st ua_glob call → Prop) :
  shows j (JObj fs) → str_at fs k p →
  (∀ u s', p = Some u → Q (Done (Some u)) s') → wp (getString j k) Q s.
Proof.
  intros Hj (str & Hk & ->) HQ. unfold getString. apply wp_bind. eapply read_value; [done..|].
  intros x (Ht & ->)%shows_str. apply wp_bind, ensured; [done|].
  cbv zeta. apply wp_bind. unfold alloc, wp at 1. rewrite Hcalloc. cbn [fst snd].
  by apply wp_ret, HQ.
Qed.

(** Keys that are read only with XDP. *)
Lemma read_xdp_int xdp j fs k absent v s (Q : outcome Z → st ua_glob call → Prop) :
  shows j (JObj fs) → xdp_at xdp int_at fs k absent v → Q (Done v) s →
  wp (if xdp then getInt j k else mret absent) Q s.
Proof.
  intros Hj Hk HQ. destruct xdp; simpl in Hk; [by eapply read_int|]. subst. by apply wp_ret.
Qed.

Lemma read_xdp_bool (xdp : bool) j fs k absent v s (Q : outcome bool → st ua_glob call → Prop) :
  shows j (JObj fs) → xdp_at xdp bool_at fs k absent v → Q (Done v) s →
  wp (if xdp then getBool j k else mret absent) Q s.
Proof.
  intros Hj Hk HQ. destruct xdp; simpl in Hk; [by eapply read_bool|]. subst. by apply wp_ret.
Qed.

(** What a parsing function gives for the value [x] that its document
    describes: that value, unless it breaks the limits [P]. *)
Definition reads {A} (P : A → Prop) (x : A) (out : outcome (A * bool)) : Prop :=
  ∃ y ok, out = Done (y, ok) ∧ (ok = true → y = x) ∧ (P x → ok = true).

Lemma reads_failed {A} (P : A → Prop) x y : ¬ P x → reads P x (Done (y, false)).
Proof. intros H. exists y, false. by repeat split. Qed.

Lemma reads_done {A} (P : A → Prop) x y : y = x → reads P x (Done (y, true)).
Proof. intros ->. exists x, true. by repeat split. Qed.

Lemma out_of_true lo hi v : out_of lo hi v = true → lo <= v <= hi → False.
Proof. unfold out_of. intros. bool_to_prop; lia. Qed.

(** One accessor, whose key is described by the hypothesis [H]. *)
Ltac reading Hj H :=
  apply wp_bind;
  first [ eapply read_int; [exact Hj|exact H|]
        | eapply read_int64; [exact Hj|exact H|]
        | eapply read_bool; [exact Hj|exact H|]
        | eapply read_str; [exact Hj|exact H|intros ? ? ?]
        | eapply read_xdp_int; [exact Hj|exact H|]
        | eapply read_xdp_bool; [exact Hj|exact H|] ].

(** One check: when it fails, the limits are broken. *)
Ltac checking :=
  let E := fresh "E" in
  apply wp_catch; intros E;
  [ apply reads_failed; intros HP; destruct HP;
    first [ eapply out_of_true; [exact E|tauto]
          | apply andb_true_iff in E as [-> E]; eapply out_of_true; [exact E|tauto]
          | bool_to_prop; lia ]
  | clear E ].

Lemma parse_publisher_reads xdp j d pd s :
  shows j d → pub_text xdp d pd →
  wp (parse_publisher xdp j) (λ out _, reads (pub_ok xdp) pd out) s.
Proof.
  intros Hj (fs & -> & T1 & T2 & T3 & T4 & T5 & T6 & T7 & T8 & T9 & T10 & T11 & R1 & R2).
  unfold parse_publisher. cbv zeta.
  reading Hj T1. checking. reading Hj T2. checking. reading Hj T3. checking.
  reading Hj T4. checking. reading Hj T5. checking. reading Hj T6. reading Hj T7. checking.
  reading Hj T8. checking. reading Hj T9. checking. reading Hj T10. reading Hj T11. checking.
  apply wp_ret, reads_done. destruct pd; simpl in *. by subst.
Qed.

Lemma parse_subscriber_reads xdp j d sd s :
  shows j d → sub_text xdp d sd →
  wp (parse_subscriber xdp j) (λ out _, reads (sub_ok xdp) sd out) s.
Proof.
  intros Hj (fs & -> & T1 & T2 & T3 & T4 & T5 & T6 & T7 & T8 & T9 & T10 & R1 & R2 & R3).
  unfold parse_subscriber. cbv zeta.
  reading Hj T1. checking. reading Hj T2. checking. reading Hj T3. reading Hj T4. checking.
  reading Hj T5. checking. reading Hj T6. checking. reading Hj T7. checking. reading Hj T8.
  reading Hj T9. checking. reading Hj T10. cbv iota. apply wp_bind. unfold open_output, wp at 1.
  rewrite Hfopen. cbn [fst snd negb]. apply wp_ret, reads_done.
  destruct sd; simpl in *. by subst.
Qed.

Lemma parse_entries_reads {A} (parse : JsObj → T (A * bool)) zero (P : A → Prop) text js ds xs s :
  (∀ j d x s, shows j d → text d x → wp (parse j) (λ out _, reads P x out) s) →
  Forall2 shows js ds → Forall2 text ds xs →
  wp (parse_entries parse zero js (length js)) (λ out _, reads (Forall P) xs out) s.
Proof.
  intros Hp Hjs. revert xs s. induction Hjs as [|j d js ds Hj Hjs IH]; intros xs s Hds.
  - apply Forall2_nil_inv_l in Hds as ->. by apply wp_ret, reads_done.
  - apply Forall2_cons_inv_l in Hds as (x & xs' & Hx & Hxs & ->). cbn [parse_entries length].
    apply wp_bind. eapply wp_mono; [by eapply Hp|].
    intros out s1 (y & ok & -> & E1 & E2). cbn [abrupt]. destruct ok.
    + apply wp_bind. eapply wp_mono; [by apply IH|].
      intros out s2 (ys & ok & -> & E3 & E4). apply wp_ret. exists (y :: ys), ok.
      split; [done|]. split; [intros Hok; by rewrite E1, E3|].
      intros [_ HF]%Forall_cons. by apply E4.
    + apply wp_ret, reads_failed. by intros [Hok%E2 _]%Forall_cons.
Qed.

Lemma parse_arrays_reads j fs pubs subs pds sds (s0 : ServerData) s :
  shows j (JObj fs) → js_field (JObj fs) "publishers" = Some (JObj pubs) →
  js_field (JObj fs) "subscribers" = Some (JObj subs) →
  Forall2 (pub_text (useXDP s0)) (js_values (JObj pubs)) pds →
  Forall2 (sub_text (useXDP s0)) (js_values (JObj subs)) sds →
  wp (parse_arrays j s0)
     (λ out _, reads (λ sd, Forall (pub_ok (useXDP s0)) (default [] (pubData sd)) ∧
                            Forall (sub_ok (useXDP s0)) (default [] (subData sd)))
                 (s0 {{ pubCount := Z.of_nat (length pds); subCount := Z.of_nat (length sds);
                        pubData := Some pds; subData := Some sds }}) out) s.
Proof.
  intros Hj Hp Hs Hpds Hsds. unfold parse_arrays, countChildrenEntries, alloc. cbv zeta.
  pose proof (shows_obj : ∀ j fs, _) as Hobj.
  apply wp_bind. eapply read_value; [done..|]. intros pj Hpj.
  rewrite decide_True by by eapply Hobj. apply wp_bind, wp_ret.
  apply wp_bind. unfold wp at 1. rewrite Hcalloc. cbn [fst snd negb].
  apply wp_bind. eapply read_value; [done..|]. intros sj Hsj.
  rewrite decide_True by by eapply Hobj. apply wp_bind, wp_ret.
  apply wp_bind. unfold wp at 1. rewrite Hcalloc. cbn [fst snd negb].
  rewrite !json_length, !Nat2Z.id by by eapply Hobj.
  pose proof (shows_values _ _ Hpj) as Vp. pose proof (shows_values _ _ Hsj) as Vs.
  assert (length (json_object_object_foreach pj) = length pds) as Lp
    by (rewrite (Forall2_length _ _ _ Vp); by eapply Forall2_length).
  assert (length (json_object_object_foreach sj) = length sds) as Ls
    by (rewrite (Forall2_length _ _ _ Vs); by eapply Forall2_length).
  apply wp_bind. eapply wp_mono.
  { eapply (parse_entries_reads _ _ _ (pub_text (useXDP s0))); [|exact Vp|exact Hpds].
    intros. by apply (parse_publisher_reads _ _ d). }
  intros out s1 (l & ok & -> & E1 & E2). cbn [abrupt]. cbv beta iota zeta.
  apply wp_catch; intros Hok; destruct ok; try discriminate Hok.
  { apply reads_failed. intros [HP _]. by apply E2 in HP. }
  apply wp_bind. eapply wp_mono.
  { eapply (parse_entries_reads _ _ _ (sub_text (useXDP s0))); [|exact Vs|exact Hsds].
    intros. by apply (parse_subscriber_reads _ _ d). }
  intros out s2 (l' & ok & -> & E3 & E4). cbn [abrupt]. cbv beta iota zeta. apply wp_ret.
  eexists _, ok. split; [done|]. split.
  - intros Ho. rewrite E1, E3, Lp, Ls by done. by destruct s0.
  - intros [_ HS]. apply E4. by destruct s0.
Qed.

Lemma parse_server_reads j d sd s :
  shows j d → server_text d sd →
  wp (parse_server j zero_server) (λ out _, reads server_ok sd out) s.
Proof.
  intros Hj (fs & pubs & subs & pds & sds & -> & T1 & T2 & T3 & T4 & T5 & T6 & (v & T7 & Ev)
    & T8 & Kp & Ks & Hp & Hs & R1 & R2 & R3 & R4 & R5 & R6).
  unfold parse_server. cbv zeta. reading Hj T1. reading Hj T2. reading Hj T3. reading Hj T4.
  reading Hj T5. reading Hj T6. checking. reading Hj T7. rewrite <- Ev. checking.
  reading Hj T8. checking.
  match goal with |- wp (parse_arrays _ ?d) _ _ => set (s0 := d) end.
  eapply wp_mono; [by apply (parse_arrays_reads j fs pubs subs pds sds s0)|].
  intros out s1 (y & ok & -> & E1 & E2). exists y, ok. split; [done|]. split.
  - intros Hok. rewrite E1 by done. unfold s0. destruct sd; simpl in *. by subst.
  - intros HP. apply E2. destruct HP as [_ _ _ _ _ _ HP HS].
    rewrite R1 in HP. rewrite R3 in HS. done.
Qed.

Lemma parseJson_reads j d sd s :
  shows j d → server_text d sd →
  wp (parseJson j)
     (λ out _, server_ok sd ∧ out = Done (Some sd) ∨ ¬ server_ok sd ∧ out = Done None) s.
Proof.
  intros Hj Hd. unfold parseJson. apply wp_bind. unfold alloc, wp at 1. rewrite Hcalloc.
  cbn [fst snd negb]. apply wp_bind.
  eapply wp_mono; [apply (wp_conj _ _ _ _ (parse_server_ok j _) (parse_server_reads j d sd _ Hj Hd))|].
  intros out s1 [Hpost (y & ok & -> & E1 & E2)]. cbn [abrupt]. cbv beta iota.
  destruct Hpost as (HC & _ & Hok). destruct ok.
  - rewrite E1 in Hok |- * by done. apply wp_ret. left. auto.
  - apply wp_bind. eapply wp_mono; [by apply free_resources_ok|].
    intros out s2 [-> _]. apply wp_ret. right. split; [|done]. intros HP. by apply E2 in HP.
Qed.
End reading.

(** ** Properties *)

(** C17: round trip of the configuration: when the file holds a document whose
    "opcua_server" describes a server (its settings under their keys, publishers
    and subscribers in order, in whatever order the keys are and whatever else
    there is), parseArgs() returns exactly that server when it is within the
    limits that the code checks, and NULL when it is not.  These are the limits of
    README_json.md, but for xdp_queue, where the README has 1 to 3 and the code
    accepts 0 too.  Memory and output files must be available. *)
Theorem parseArgs_reads_document {OS : ua_os} {api : json_api} {doc : json_shows api}
  {laws : json_laws api} path root fs d sd s :
  (∀ tr, os_calloc tr = true) → (∀ tr, os_fopen tr = true) →
  json_object_from_file path = Some root → shows root (JObj fs) →
  js_field (JObj fs) "opcua_server" = Some d → server_text d sd →
  wp (parseArgs (Some path))
     (λ out _, server_ok sd ∧ out = Done (Some sd) ∨ ¬ server_ok sd ∧ out = Done None) s.
Proof.
  intros Hc Hf Hfile Hroot Hd Hsd. unfold parseArgs. apply wp_bind, wp_ask. rewrite Hfile.
  apply wp_bind. eapply read_value; [done..|]. intros j Hj. apply wp_bind.
  eapply wp_mono; [by eapply parseJson_reads|].
  intros out s1 [[HP ->]|[HP ->]]; apply wp_bind, wp_ask, wp_ret; auto.
Qed.

(** ** Witness *)

#[export] Instance demo_json_shows file : json_shows (demo_json file).
Proof.
  refine {| shows := λ (j : @JsObj (demo_json file)) (d : js), (j : js) = d |}.
  - by intros j z ->.
  - by intros j b ->.
  - by intros j s ->.
  - by intros j fs ->.
  - intros j fs key d -> H. by exists d.
  - intros j fs ->. change (Forall2 eq (js_values (JObj fs)) (js_values (JObj fs))).
    induction (js_values (JObj fs)); by constructor.
Defined.

(** One publisher and one subscriber, with XDP; the keys are not in the order
    in which they are read, and there is one that is not read at all. *)
Definition demo_doc : js := JObj [("comment", JStr "demo"); ("opcua_server", JObj [
  ("cycle_time_ns", JInt 1000000); ("packet_count", JInt 500); ("polling_duration_ns", JInt 0);
  ("use_xdp", JBool true); ("use_xdp_skb", JBool false); ("use_xdp_zc", JBool true);
  ("publisher_interface", JStr "eth0"); ("subscriber_interface", JStr "eth1");
  ("publishers", JObj [("pub1", JObj [
     ("url", JStr "opc.eth://22-bb-22-bb-22-bb:3.3"); ("note", JInt 7);
     ("early_offset_ns", JInt 100000); ("publish_offset_ns", JInt 5000);
     ("publish_delay_sec", JInt 5); ("socket_prio", JInt 3); ("xdp_queue", JInt 1);
     ("pub_id", JInt 2234); ("dataset_writer_id", JInt 62541); ("writer_group_id", JInt 101);
     ("two_way_data", JBool false); ("iperf_cpu_affinity", JInt 1)])]);
  ("subscribers", JObj [("sub1", JObj [
     ("subscriber_output_file", JStr "sub.log"); ("offset_ns", JInt 30000);
     ("xdp_queue", JInt 2); ("url", JStr "opc.eth://22-bb-22-bb-22-bb:3.3");
     ("sub_id", JInt 0); ("subscribed_pub_id", JInt 2234);
     ("subscribed_dataset_writer_id", JInt 62541); ("subscribed_writer_group_id", JInt 101);
     ("two_way_data", JBool false); ("iperf_cpu_affinity", JInt 1)])])])].

Definition demo_doc_server : ServerData :=
  let str s := Some (cstr (bytes_of_string s)) in
  zero_server {{ pubInterface := str "eth0"; subInterface := str "eth1";
    cycleTimeNs := 1000000; pollingDurationNs := 0; packetCount := 500;
    useXDP := true; useXDP_ZC := true; useXDP_SKB := false; pubCount := 1; subCount := 1;
    pubData := Some [mk_pub 3 1 100000 5000 5 (str "opc.eth://22-bb-22-bb-22-bb:3.3")
                       2234 62541 101 false 1 read_unset write_unset];
    subData := Some [mk_sub 2 30000 (str "opc.eth://22-bb-22-bb-22-bb:3.3") 0 2234 62541 101
                       (str "sub.log") (str "sub.log") false 1 read_unset write_unset] }}.

Lemma demo_doc_server_ok : @server_ok (make_ua_os None 0) demo_doc_server.
Proof.
  split; simpl; try lia; try done; try (by split).
  all: constructor; [|constructor]; split; simpl; try done; try lia; by eexists.
Qed.

(** Everything the document describes is found by evaluation. *)
Ltac described :=
  repeat match goal with
    | |- _ ∧ _ => split
    | |- int_at _ _ _ => eexists; split; reflexivity
    | |- int64_at _ _ _ => eexists; split; reflexivity
    | |- str_at _ _ _ => eexists; split; reflexivity
    | |- bool_at _ _ _ => reflexivity
    | |- xdp_at _ ?at_ ?fs ?k _ ?v => change (at_ fs k v)
    | |- _ = _ => reflexivity
    end.

Lemma parseArgs_reads_document_witness :
  (@parseArgs (make_ua_os None 0) (demo_json (Some demo_doc)) (Some demo_path)
     (mkSt init_ua_glob [])).1 = Done (Some demo_doc_server).
Proof.
  destruct (@parseArgs_reads_document (make_ua_os None 0) (demo_json (Some demo_doc))
    (demo_json_shows _) (demo_json_laws _) demo_path demo_doc
    (match demo_doc with JObj fs => fs | _ => [] end)
    (match js_field demo_doc "opcua_server" with Some d => d | None => JBool false end)
    demo_doc_server (mkSt init_ua_glob [])) as [[_ H]|[H _]].
  - reflexivity.
  - reflexivity.
  - reflexivity.
  - reflexivity.
  - reflexivity.
  - eexists _, _, _, _, _. split; [reflexivity|]. described.
    + eexists. split; [eexists; split; reflexivity|reflexivity].
    + constructor; [|constructor]. eexists. split; [reflexivity|]. described.
    + constructor; [|constructor]. eexists. split; [reflexivity|]. described.
  - exact H.
  - destruct H. exact demo_doc_server_ok.
Defined.
