(* ===== verification/OpcuaThreads.v ===== *)
(** * OPC UA server: the cyclic threads (src/src/opcua-tsn/opcua_custom.c)

    Normalisation of a timespec, the publisher's and the subscriber's thread,
    and the registration hook through which open62541 starts them. *)

From S2P Require Import Prelude Sys Libc Opcua.

Local Open Scope Z_scope.

(** ** Constants *)

Definition PUB_THREAD_PRIORITY : Z := 91.
Definition SUB_THREAD_PRIORITY : Z := 90.

(** ** normalize() *)

Fixpoint carry_up (fuel : nat) (t : timespec) : option timespec :=
  if tv_nsec t >? ONESEC_IN_NSEC - 1 then
    match fuel with
    | O => None
    | S fuel => carry_up fuel (mk_timespec (tv_sec t + 1) (tv_nsec t - ONESEC_IN_NSEC))
    end
  else Some t.

Fixpoint carry_down (fuel : nat) (t : timespec) : option timespec :=
  if tv_nsec t <? 0 then
    match fuel with
    | O => None
    | S fuel => carry_down fuel (mk_timespec (tv_sec t - 1) (tv_nsec t + ONESEC_IN_NSEC))
    end
  else Some t.

(** Both loops, with one round for every second in the nanoseconds and one
    more. *)
Definition normalize (t : timespec) : option timespec :=
  let fuel := S (Z.to_nat (Z.abs (tv_nsec t) / ONESEC_IN_NSEC)) in
  t' ← carry_up fuel t; carry_down fuel t'.

Section threads.
Context {OS : ua_os} {B : ua_build}.

(** ** Thread creation *)

Definition threadCreation (threadPriority coreAffinity : Z) (pub : bool) (index : Z)
  : T Z :=
  ret ← ask (SchedParam threadPriority) os_sched;
  if negb (ret =? 0) then exit_ 1 else
  ret ← ask (Affinity coreAffinity) os_sched;
  if negb (ret =? 0) then exit_ 1 else
  '(_, threadID) ← ask (ThreadCreate pub index) os_thread;
  mret threadID.

Definition pub_at (i : Z) : T PublisherData :=
  g ← get;
  match default [] (pubData (g_sData g)) !! Z.to_nat i with
  | Some pd => mret pd | None => undefined end.

Definition sub_at (i : Z) : T SubscriberData :=
  g ← get;
  match default [] (subData (g_sData g)) !! Z.to_nat i with
  | Some sd => mret sd | None => undefined end.

(** [g_thread[g_threadRun].id = id]. *)
Definition record_thread (id : Z) : T unit :=
  g ← get;
  if g_threadRun g <? MAX_OPCUA_THREAD
  then modify (λ g, g {{ g_thread := <[Z.to_nat (g_threadRun g) := id]> (g_thread g) }})
  else undefined.

(** UA_PubSubManager_addRepeatedCallback(): [group] is what the hook reads of
    the object that is registered, at the place where a writer group has its
    identifier (OpcuaLayout.v: for a reader group these are other bytes). *)
Definition addRepeatedCallback (group : Z) : T Z :=
  ok ← (λ s, let ok := os_calloc (trace s) in
             (Done ok, mkSt (glob s) (UaMalloc ThreadParams ok :: trace s)) : outcome bool * _);
  if negb (ok : bool) then mret UA_STATUSCODE_BADINTERNALERROR else
  g ← get;
  (if group =? g_writerGroupIdent g then
     pd ← pub_at (g_indexPub g);
     id ← threadCreation PUB_THREAD_PRIORITY (p_cpuAffinity pd) true (g_indexPub g);
     record_thread id;;
     modify (λ g, g {{ g_indexPub := u16 (g_indexPub g + 1) }})
   else
     sd ← sub_at (g_indexSub g);
     id ← threadCreation SUB_THREAD_PRIORITY (s_cpuAffinity sd) false (g_indexSub g);
     record_thread id;;
     modify (λ g, g {{ g_indexSub := u16 (g_indexSub g + 1) }}));;
  modify (λ g, g {{ g_threadRun := u16 (g_threadRun g + 1) }});;
  mret UA_STATUSCODE_GOOD.

Definition changeRepeatedCallbackInterval : T Z := mret UA_STATUSCODE_GOOD.

Definition removeRepeatedPubSubCallback : T unit := mret tt.

(** ** Publisher thread *)

(** [((sec + 9) / 10) * 10]. *)
Definition next_ten (sec : Z) : Z := Z.quot (sec + 9) 10 * 10.

(** One round: the state is [tx_timestamp] and [blank_counter]. *)
Definition pub_round (txtime_enabled : bool) (earlyOffset cycleTime : Z) (x : Z * Z)
  : T (Z * Z + Z) :=
  let '(tx_timestamp, blank_counter) := x in
  observe;;
  g ← get;
  if negb (g_running g) then mret (inr blank_counter) else
  let wake := u64 (tx_timestamp - earlyOffset) in
  tell (NanosleepUntil (mk_timespec (wake / ONESEC_IN_NSEC) (wake mod ONESEC_IN_NSEC)));;
  observe;;
  g ← get;
  blank_counter ←
    (if negb (g_roundtrip_pubReturn g) then mret (i32 (blank_counter + 1))
     else tell (PubCallback txtime_enabled tx_timestamp);;
          tell (NanosleepFor 10);;
          mret blank_counter);
  mret (inl (u64 (tx_timestamp + cycleTime), blank_counter)).

Definition pub_thread (fuel : nat) (ind : Z) : T unit :=
  pd ← pub_at ind;
  g ← get;
  let cycleTime := u64 (cycleTimeNs (g_sData g)) in
  let txtime_enabled := if WITH_XDPTBS then true else negb (useXDP (g_sData g)) in
  temp_t ← clock_gettime;
  let tx_timestamp := u64 (next_ten (tv_sec temp_t)) in
  let tx_timestamp := u64 (tx_timestamp + publishDelaySec pd) in
  let tx_timestamp := u64 (tx_timestamp * ONESEC_IN_NSEC) in
  let tx_timestamp := u64 (tx_timestamp + publishOffsetNs pd) in
  _ ← loop fuel (pub_round txtime_enabled (earlyOffsetNs pd) cycleTime) (tx_timestamp, 0);
  tell (UaFree ThreadParams).

(** ** Subscriber thread *)

Definition sub_round (cycleTime : Z) (t : timespec) : T (timespec + unit) :=
  observe;;
  g ← get;
  if negb (g_running g) then mret (inr tt) else
  tell (NanosleepUntil t);;
  tell SubCallback;;
  tell (NanosleepFor 10);;
  match normalize (mk_timespec (tv_sec t) (i64 (u64 (u64 (tv_nsec t) + cycleTime)))) with
  | Some t => mret (inl t)
  | None => no_fuel
  end.

Definition sub_thread (fuel : nat) (ind : Z) : T unit :=
  g ← get;
  let cycleTime := u64 (cycleTimeNs (g_sData g)) in
  sd ← sub_at ind;
  now ← clock_gettime;
  match normalize (mk_timespec (next_ten (tv_sec now) + 3) (u32 (offsetNs sd))) with
  | Some t => loop fuel (sub_round cycleTime) t;; tell (UaFree ThreadParams)
  | None => no_fuel
  end.
End threads.

(** ** Properties: normalize *)

Lemma carry_up_ok fuel t :
  tv_nsec t / 1000000000 < Z.of_nat fuel →
  ∃ t', carry_up fuel t = Some t' ∧ ns_of t' = ns_of t ∧ tv_nsec t' < 1000000000 ∧
        (0 <= tv_nsec t → 0 <= tv_nsec t') ∧ (tv_nsec t < 0 → t' = t).
Proof.
  revert t. induction fuel as [|fuel IH]; intros [sec ns] Hf; cbn [tv_nsec] in Hf |- *;
    cbn [carry_up tv_nsec tv_sec]; unfold ONESEC_IN_NSEC; rewrite Z.gtb_ltb;
    destruct (Z.ltb_spec (1000000000 - 1) ns).
  - assert (0 <= ns / 1000000000) by (apply Z.div_pos; lia). lia.
  - eexists. split_and!; [done|done|cbn [tv_nsec]; lia|done|done].
  - destruct (IH (mk_timespec (sec + 1) (ns - 1000000000))) as (t' & E & H1 & H2 & H3 & _);
      cbn [tv_nsec].
    { replace (ns - 1000000000) with (ns + (-1) * 1000000000) by lia.
      rewrite Z.div_add by lia. lia. }
    exists t'. unfold ns_of in *. cbn [tv_nsec tv_sec] in *.
    split_and!; [exact E|lia|lia|lia|lia].
  - eexists. split_and!; [done|done|cbn [tv_nsec]; lia|done|done].
Qed.

Lemma carry_down_ok fuel t :
  - tv_nsec t / 1000000000 < Z.of_nat fuel → tv_nsec t < 1000000000 →
  ∃ t', carry_down fuel t = Some t' ∧ ns_of t' = ns_of t ∧ 0 <= tv_nsec t' < 1000000000.
Proof.
  revert t. induction fuel as [|fuel IH]; intros [sec ns] Hf Hn; cbn [tv_nsec] in Hf, Hn |- *;
    cbn [carry_down tv_nsec tv_sec]; unfold ONESEC_IN_NSEC; destruct (Z.ltb_spec ns 0).
  - assert (0 <= - ns / 1000000000) by (apply Z.div_pos; lia). lia.
  - eexists. split_and!; [done|done|cbn [tv_nsec]; lia..].
  - destruct (IH (mk_timespec (sec - 1) (ns + 1000000000))) as (t' & E & H1 & H2);
      cbn [tv_nsec]; [|lia|].
    { replace (- (ns + 1000000000)) with (- ns + (-1) * 1000000000) by lia.
      rewrite Z.div_add by lia. lia. }
    exists t'. unfold ns_of in *. cbn [tv_nsec tv_sec] in *. split; [exact E|]. lia.
  - eexists. split_and!; [done|done|cbn [tv_nsec]; lia..].
Qed.

Lemma normalize_ok t :
  ∃ t', normalize t = Some t' ∧ ns_of t' = ns_of t ∧ 0 <= tv_nsec t' < 1000000000.
Proof.
  unfold normalize. change ONESEC_IN_NSEC with 1000000000. set (fuel := S _).
  assert (Z.abs (tv_nsec t) / 1000000000 < Z.of_nat fuel) as Hf.
  { unfold fuel. pose proof (Z.div_pos (Z.abs (tv_nsec t)) 1000000000 ltac:(lia) ltac:(done)).
    lia. }
  destruct (carry_up_ok fuel t) as (t1 & -> & E1 & H1 & H2 & H3).
  { eapply Z.le_lt_trans; [apply Z.div_le_mono; [done|]|exact Hf]. lia. }
  cbn [mbind option_bind].
  destruct (carry_down_ok fuel t1) as (t2 & -> & E2 & H4).
  { destruct (Z.neg_nonneg_cases (tv_nsec t)) as [Hn|Hn].
    - rewrite (H3 Hn). eapply Z.le_lt_trans; [apply Z.div_le_mono; [done|]|exact Hf]. lia.
    - specialize (H2 Hn). eapply Z.le_lt_trans with 0; [|unfold fuel; lia].
      apply Z.div_le_upper_bound; [done|]. lia. }
  { exact H1. }
  exists t2. split; [done|]. split; [by rewrite E2|exact H4].
Qed.

(** ** Specification of the threads *)

Definition at_ns (z : Z) : timespec := mk_timespec (z / ONESEC_IN_NSEC) (z mod ONESEC_IN_NSEC).

Fixpoint wakes (tr : list call) : Z :=
  match tr with
  | [] => 0
  | NanosleepUntil _ :: tr => wakes tr + 1
  | _ :: tr => wakes tr
  end.

(** Messages handed to the stack, received messages asked for. *)
Fixpoint callbacks (tr : list call) : Z :=
  match tr with
  | [] => 0
  | PubCallback _ _ :: tr | SubCallback :: tr => callbacks tr + 1
  | _ :: tr => callbacks tr
  end.

(** Sleep number [k] (from 0) lasts until [wake k]; a callback follows its
    sleep at once ([sub]) or after one look at the flags, and a publication of
    round [k] carries the transmission time [due k]. *)
Fixpoint on_schedule (wake : Z → timespec) (due : Z → Z) (txt : bool) (tr : list call)
  : Prop :=
  match tr with
  | [] => True
  | c :: tr =>
      match c with
      | NanosleepUntil t => t = wake (wakes tr)
      | PubCallback e ts =>
          e = txt ∧ ts = due (wakes tr - 1) ∧ ∃ t old, tr = Observe :: NanosleepUntil t :: old
      | SubCallback => ∃ t old, tr = NanosleepUntil t :: old
      | _ => True
      end ∧ on_schedule wake due txt tr
  end.

(** No sleep and no callback yet. *)
Definition idle (tr : list call) : Prop :=
  Forall (λ c, match c with
               | NanosleepUntil _ | PubCallback _ _ | SubCallback => False
               | _ => True end) tr.

(** The server is stopped by the time [n] calls have been made. *)
Definition stopped_by `{!ua_os} (n : nat) : Prop :=
  ∀ tr, (n ≤ length tr)%nat → (os_flags tr).1 = true.

(** Nobody clears [g_roundtrip_pubReturn]. *)
Definition return_open `{!ua_os} : Prop := ∀ tr, (os_flags tr).2 ≠ Some false.

(** ** Lemmas: the loops *)

Lemma idle_ok wake due txt tr :
  idle tr → wakes tr = 0 ∧ callbacks tr = 0 ∧ on_schedule wake due txt tr.
Proof.
  induction 1 as [|c tr Hc _ (IH1 & IH2 & IH3)]; [done|]. destruct c; simpl; tauto.
Qed.

Lemma u64_mul_l a b : u64 (u64 a * b) = u64 (a * b).
Proof. apply Zmult_mod_idemp_l. Qed.

(** What both loops keep, with [n] the bound on the calls. *)
Record loop_inv (wake : Z → timespec) (due : Z → Z) (txt : bool) (s : st ua_glob call)
  : Prop := {
  li_sched : on_schedule wake due txt (trace s);
  li_wakes : 0 <= callbacks (trace s) <= wakes (trace s)
}.

Section rounds.
Context {OS : ua_os} {B : ua_build}.
Context (n : nat) (Hn : stopped_by n).
Implicit Types s : st ua_glob call.

(** What the loop condition learns: below [n] calls when it goes on. *)
Lemma observe_ok s :
  ∃ g, observe s = (Done tt, mkSt g (Observe :: trace s)) ∧
       g_sData g = g_sData (glob s) ∧
       (g_running g = true → (S (length (trace s)) < n)%nat) ∧
       (return_open → g_roundtrip_pubReturn (glob s) = true →
        g_roundtrip_pubReturn g = true).
Proof.
  pose proof (Hn (Observe :: trace s)) as Hs. unfold observe, mbind, M_bind, ask, modify.
  cbn [trace glob].
  destruct (os_flags (Observe :: trace s)) as [stop pubret] eqn:E. cbn [glob trace].
  eexists. split; [reflexivity|]. split; [by destruct (glob s)|]. split.
  - intros H. apply Nat.lt_nge. intros Hle. cbn [length fst] in Hs.
    specialize (Hs Hle). subst stop. destruct (glob s); simpl in H.
    by rewrite andb_false_r in H.
  - intros Ho. specialize (Ho (Observe :: trace s)). rewrite E in Ho.
    destruct (glob s), pubret as [[]|]; simpl in *; done.
Qed.

(** A publisher's round: [k] rounds are done. *)
Lemma pub_round_ok txt early cycle base wake due x s :
  (∀ k, wake k = at_ns (u64 (base + k * cycle - early))) →
  (∀ k, due k = u64 (base + k * cycle)) →
  loop_inv wake due txt s → x.1 = due (wakes (trace s)) →
  wp (pub_round txt early cycle x)
     (λ out s', match out with
                | Done (inl x') =>
                    loop_inv wake due txt s' ∧ x'.1 = due (wakes (trace s')) ∧
                    (length (trace s) < length (trace s'))%nat ∧
                    (length (trace s) < n)%nat ∧
                    (return_open → g_roundtrip_pubReturn (glob s) = true →
                     callbacks (trace s) = wakes (trace s) →
                     g_roundtrip_pubReturn (glob s') = true ∧
                     callbacks (trace s') = wakes (trace s'))
                | Done (inr _) =>
                    trace s' = Observe :: trace s ∧ g_running (glob s') = false
                | _ => False end) s.
Proof.
  intros Hw Hd [I1 I2] Hx. destruct x as [ts bc]. cbn [fst] in Hx. unfold pub_round.
  destruct (observe_ok s) as (g & E & _ & H1 & H2).
  apply wp_bind. unfold wp at 1. rewrite E. cbn [fst snd].
  apply wp_bind. unfold get at 1, wp at 1. cbn [fst snd glob].
  destruct (g_running g) eqn:Eg; cbn [negb]; [|by apply wp_ret].
  specialize (H1 eq_refl). apply wp_bind, wp_ask. cbn [trace glob].
  set (c := NanosleepUntil _). set (s1 := mkSt g _).
  assert (c = NanosleepUntil (wake (wakes (trace s)))) as Ec.
  { unfold c. rewrite Hw, Hx, Hd, u64_sub_l. reflexivity. }
  destruct (observe_ok s1) as (g2 & E2 & _ & _ & H4).
  apply wp_bind. unfold wp at 1. rewrite E2. cbn [fst snd].
  apply wp_bind. unfold get at 1, wp at 1. cbn [fst snd glob].
  assert (∀ k, u64 (due k + cycle) = due (k + 1)) as Hnext.
  { intros k. rewrite !Hd, u64_add_l. f_equal. lia. }
  unfold wp, mbind, M_bind, mret, M_ret, tell, ask, s1. cbn [trace glob].
  destruct (g_roundtrip_pubReturn g2) eqn:Er; cbn [negb fst snd trace glob callbacks wakes
    on_schedule length]; rewrite Ec; cbn [wakes callbacks on_schedule length].
  - split; [split; cbn [trace on_schedule callbacks wakes]; [|lia]|].
    + repeat split; auto; [rewrite Hx; f_equal; lia|eauto].
    + rewrite Hx, Hnext. split; [done|]. split; [lia|]. split; [lia|].
      intros _ _ ?. split; [done|lia].
  - split; [split; cbn [trace on_schedule callbacks wakes]; [|lia]|].
    + repeat split; auto.
    + rewrite Hx, Hnext. split; [done|]. split; [lia|]. split; [lia|].
      intros Ho Hf. specialize (H4 Ho (H2 Ho Hf)). congruence.
Qed.
End rounds.

Section sub_rounds.
Context {OS : ua_os}.
Context (n : nat) (Hn : stopped_by n).
Implicit Types s : st ua_glob call.

(** A subscriber's round. *)
Lemma sub_round_ok cycle base t s :
  0 <= cycle < 2 ^ 62 →
  loop_inv (λ k, at_ns (base + k * cycle)) (λ _, 0) false s →
  t = at_ns (base + wakes (trace s) * cycle) →
  wp (sub_round cycle t)
     (λ out s', match out with
                | Done (inl t') =>
                    loop_inv (λ k, at_ns (base + k * cycle)) (λ _, 0) false s' ∧
                    t' = at_ns (base + wakes (trace s') * cycle) ∧
                    (length (trace s) < length (trace s'))%nat ∧
                    (length (trace s) < n)%nat ∧
                    (callbacks (trace s) = wakes (trace s) →
                     callbacks (trace s') = wakes (trace s'))
                | Done (inr _) =>
                    trace s' = Observe :: trace s ∧ g_running (glob s') = false
                | _ => False end) s.
Proof.
  intros Hc [I1 I2] Ht. unfold sub_round.
  destruct (observe_ok n Hn s) as (g & E & _ & H1 & _).
  apply wp_bind. unfold wp at 1. rewrite E. cbn [fst snd].
  apply wp_bind. unfold get at 1, wp at 1. cbn [fst snd glob].
  destruct (g_running g) eqn:Eg; cbn [negb]; [|by apply wp_ret].
  specialize (H1 eq_refl).
  set (x := base + wakes (trace s) * cycle) in *.
  set (t1 := mk_timespec _ _).
  destruct (normalize_ok t1) as (t' & En & Es & Hb).
  unfold wp, mbind, M_bind, mret, M_ret, tell, ask. cbn [trace glob fst snd].
  change (normalize _) with (normalize t1). rewrite En. cbn [trace glob fst snd].
  assert (ns_of t1 = x + cycle) as Ex.
  { unfold t1, ns_of. rewrite Ht. unfold at_ns, ONESEC_IN_NSEC. cbn [tv_sec tv_nsec].
    pose proof (Z.mod_pos_bound x 1000000000 ltac:(lia)).
    rewrite u64_add_l, (wrapU_small 64) by lia.
    rewrite (wrapS_small 64) by lia. pose proof (Z.div_mod x 1000000000 ltac:(lia)). lia. }
  assert (t' = at_ns (x + cycle)) as Et'.
  { rewrite Ex in Es. unfold ns_of in Es. destruct t' as [sec ns]. unfold at_ns, ONESEC_IN_NSEC.
    cbn [tv_sec tv_nsec] in *. f_equal.
    - apply (Z.div_unique _ _ _ ns); lia.
    - apply (Z.mod_unique _ _ sec); lia. }
  split; [|split; [|split; [|split]]]; cbn [length callbacks wakes]; [| |lia..].
  - split; cbn [trace on_schedule callbacks wakes]; [|lia].
    repeat split; auto. by eexists _, _.
  - rewrite Et'. f_equal. unfold x. lia.
Qed.
End sub_rounds.

(** ** Properties *)

Lemma normalize_at_ns t : normalize t = Some (at_ns (ns_of t)).
Proof.
  destruct (normalize_ok t) as ([sec ns] & -> & E & H). f_equal. rewrite <- E.
  unfold at_ns, ns_of, ONESEC_IN_NSEC. cbn [tv_sec tv_nsec] in *. f_equal.
  - apply (Z.div_unique _ _ _ ns); lia.
  - apply (Z.mod_unique _ _ sec); lia.
Qed.

(** C39: both loops of normalize() end, and its result is the normal form of the
    same instant, whatever the nanoseconds were, negative ones included. *)
Theorem normalize_normal_form t :
  ∃ t', normalize t = Some t' ∧ ns_of t' = ns_of t ∧ 0 <= tv_nsec t' < ONESEC_IN_NSEC ∧
        t' = at_ns (ns_of t).
Proof.
  destruct (normalize_ok t) as (t' & E & H1 & H2). exists t'. rewrite normalize_at_ns in E.
  injection E as <-. auto using normalize_at_ns.
Qed.

(** The start second is the next multiple of ten, at most nine seconds
    ahead (the comments in the code say five). *)
Theorem next_ten_spec sec :
  0 <= sec → next_ten sec mod 10 = 0 ∧ sec <= next_ten sec < sec + 10.
Proof.
  intros H. unfold next_ten. rewrite Z.quot_div_nonneg by lia.
  rewrite Z.mod_mul by lia. pose proof (Z.div_mod (sec + 9) 10 ltac:(lia)).
  pose proof (Z.mod_pos_bound (sec + 9) 10 ltac:(lia)). lia.
Qed.

(** The first transmission time of a publisher that starts at second [sec]. *)
Definition pub_start (pd : PublisherData) (sec : Z) : Z :=
  (next_ten sec + publishDelaySec pd) * ONESEC_IN_NSEC + publishOffsetNs pd.

Lemma pub_start_u64 pd sec cycle :
  u64 (u64 (u64 (u64 (next_ten sec) + publishDelaySec pd) * ONESEC_IN_NSEC) +
       publishOffsetNs pd)
  = u64 (pub_start pd sec + 0 * cycle).
Proof.
  rewrite (u64_add_l (_ * _)), (u64_add_l (next_ten sec)), <- u64_add_l, u64_mul_l, u64_add_l.
  unfold pub_start. f_equal. lia.
Qed.

(** C14: the publisher's thread ends when the server is stopped; until then it
    sleeps, for round k, until early_offset before start + k * cycle, and
    hands the stack the transmission time start + k * cycle (modulo 2^64) right
    after that sleep.  It never publishes without its sleep, and in every
    round when nobody closes the return gate. *)
Theorem pub_thread_schedule {OS : ua_os} {B : ua_build} n fuel ind pd s :
  stopped_by n → (n + 1 < fuel)%nat → idle (trace s) →
  default [] (pubData (g_sData (glob s))) !! Z.to_nat ind = Some pd →
  let start := pub_start pd (tv_sec (os_clock (ClockGettime :: trace s))) in
  let cycle := u64 (cycleTimeNs (g_sData (glob s))) in
  wp (pub_thread fuel ind)
     (λ out s',
        out = Done tt ∧ g_running (glob s') = false ∧
        on_schedule (λ k, at_ns (u64 (start + k * cycle - earlyOffsetNs pd)))
          (λ k, u64 (start + k * cycle))
          (if WITH_XDPTBS then true else negb (useXDP (g_sData (glob s)))) (trace s') ∧
        callbacks (trace s') <= wakes (trace s') ∧
        (return_open → g_roundtrip_pubReturn (glob s) = true →
         callbacks (trace s') = wakes (trace s'))) s.
Proof.
  intros Hn Hf Hi Hp start cycle. unfold pub_thread, pub_at.
  do 2 apply wp_bind. unfold get at 1, wp at 1. cbn [fst snd]. rewrite Hp. apply wp_ret.
  apply wp_bind. unfold get at 1, wp at 1. cbn [fst snd]. fold cycle.
  unfold clock_gettime. apply wp_bind, wp_ask. apply wp_bind. cbn [trace].
  set (txt := if WITH_XDPTBS then _ else _).
  set (wake := λ k, at_ns (u64 (start + k * cycle - earlyOffsetNs pd))).
  set (due := λ k, u64 (start + k * cycle)).
  destruct (idle_ok wake due txt _ Hi) as (W0 & C0 & S0).
  match goal with |- wp (loop _ _ (?x, 0)) _ ?t => set (x0 := x); set (s0 := t) end.
  assert (x0 = due (wakes (trace s0))) as Ex.
  { unfold x0, due, s0. cbn [trace wakes]. rewrite W0. apply pub_start_u64. }
  apply (wp_loop_measure
    (λ x t, loop_inv wake due txt t ∧ x.1 = due (wakes (trace t)) ∧
            (return_open → g_roundtrip_pubReturn (glob s) = true →
             g_roundtrip_pubReturn (glob t) = true ∧ callbacks (trace t) = wakes (trace t)))
    (λ _ t, n - length (trace t))%nat).
  - intros x t (HI & Hx & Hr). eapply wp_mono; [by apply (pub_round_ok n Hn) with (base := start)|].
    intros [[x'|bc]|c| |] t'; [| |done..].
    + intros (HI' & Hx' & L1 & L2 & Hr'). split; [|lia].
      split; [exact HI'|]. split; [exact Hx'|]. intros Ho Hf0.
      destruct (Hr Ho Hf0). by apply Hr'.
    + intros [Et Eg]. apply wp_ask. rewrite Et. destruct HI as [I1 I2].
      cbn [on_schedule callbacks wakes glob trace].
      split; [done|]. split; [done|]. split; [done|]. split; [lia|].
      intros Ho Hf0. by apply Hr.
  - split; [|split; [exact Ex|]].
    + split; unfold s0; cbn [trace on_schedule callbacks wakes]; [done|lia].
    + intros _ Hf0. unfold s0. cbn [trace glob callbacks wakes]. split; [done|lia].
  - lia.
Qed.

(** C26: the subscriber's thread ends when the server is stopped; until then it
    asks for a message right after each sleep and only then, and sleep k lasts
    until start + k * cycle in normal form, without drift: start is the next
    multiple of ten seconds plus three, plus the subscriber's offset. *)
Theorem sub_thread_schedule {OS : ua_os} n fuel ind sd s :
  stopped_by n → (n + 1 < fuel)%nat → idle (trace s) →
  0 <= cycleTimeNs (g_sData (glob s)) < 2 ^ 62 →
  default [] (subData (g_sData (glob s))) !! Z.to_nat ind = Some sd →
  let start := (next_ten (tv_sec (os_clock (ClockGettime :: trace s))) + 3) * ONESEC_IN_NSEC
               + u32 (offsetNs sd) in
  wp (sub_thread fuel ind)
     (λ out s',
        out = Done tt ∧ g_running (glob s') = false ∧
        on_schedule (λ k, at_ns (start + k * cycleTimeNs (g_sData (glob s)))) (λ _, 0) false
          (trace s') ∧
        callbacks (trace s') = wakes (trace s')) s.
Proof.
  intros Hn Hf Hi Hc Hp start. set (cycle := cycleTimeNs _) in *. unfold sub_thread, sub_at.
  apply wp_bind. unfold get at 1, wp at 1. cbn [fst snd].
  do 2 apply wp_bind. unfold get at 1, wp at 1. cbn [fst snd]. rewrite Hp. apply wp_ret.
  fold cycle. rewrite (wrapU_small 64 cycle) by lia.
  unfold clock_gettime. apply wp_bind, wp_ask. cbn [trace glob].
  rewrite normalize_at_ns. unfold ns_of at 1. cbn [tv_sec tv_nsec].
  change (_ * 1000000000 + _) with start.
  set (wake := λ k, at_ns (start + k * cycle)).
  destruct (idle_ok wake (λ _, 0) false _ Hi) as (W0 & C0 & S0).
  apply wp_bind.
  apply (wp_loop_measure
    (λ t s, loop_inv wake (λ _, 0) false s ∧ t = wake (wakes (trace s)) ∧
            callbacks (trace s) = wakes (trace s))
    (λ _ t, n - length (trace t))%nat).
  - intros t u (HI & Ht & Hr).
    eapply wp_mono; [by apply (sub_round_ok n Hn) with (base := start)|].
    intros [[t'|[]]|c| |] u'; [| |done..].
    + intros (HI' & Ht' & L1 & L2 & Hr'). split; [|lia].
      split; [exact HI'|]. split; [exact Ht'|auto].
    + intros [Et Eg]. apply wp_ask. rewrite Et. destruct HI as [I1 I2].
      cbn [on_schedule callbacks wakes glob trace]. done.
  - cbn [trace on_schedule callbacks wakes]. rewrite W0, C0.
    split; [split; cbn [trace on_schedule callbacks wakes]; [done|lia]|].
    split; [|done]. unfold wake. f_equal. lia.
  - lia.
Qed.

(** [g'] has one more thread than [g]: [id], the publisher or subscriber next
    in turn. *)
Definition registered (g g' : ua_glob) (pub : bool) (id : Z) : Prop :=
  g_threadRun g' = g_threadRun g + 1 ∧
  g_thread g' = <[Z.to_nat (g_threadRun g) := id]> (g_thread g) ∧
  g_indexPub g' = g_indexPub g + (if pub then 1 else 0) ∧
  g_indexSub g' = g_indexSub g + (if pub then 0 else 1) ∧
  g_sData g' = g_sData g ∧ g_writerGroupIdent g' = g_writerGroupIdent g.

(** The last call was a scheduling request, and was refused. *)
Definition sched_refused `{!ua_os} (tr : list call) : Prop :=
  match tr with
  | SchedParam _ :: _ | Affinity _ :: _ => os_sched tr ≠ 0
  | _ => False
  end.

(** Calls before an exit. *)
Lemma exited_no_thread {OS : ua_os} (g : ua_glob) new tr :
  sched_refused (new ++ tr) → Forall (λ c, ∀ p i, c ≠ ThreadCreate p i) new →
  1 = 1 ∧ g = g ∧ sched_refused (new ++ tr) ∧
  Forall (λ c, ∀ p i, c ≠ ThreadCreate p i)
    (take (length (new ++ tr) - length tr) (new ++ tr)).
Proof.
  intros Hr H. rewrite length_app, Nat.add_sub, take_app_length. done.
Qed.

Lemma addRepeatedCallback_ok {OS : ua_os} group s :
  0 <= g_threadRun (glob s) < MAX_OPCUA_THREAD →
  let pub := group =? g_writerGroupIdent (glob s) in
  let sData := g_sData (glob s) in
  0 <= g_indexPub (glob s) < 65535 → 0 <= g_indexSub (glob s) < 65535 →
  (if pub then g_indexPub (glob s) < Z.of_nat (length (default [] (pubData sData)))
   else g_indexSub (glob s) < Z.of_nat (length (default [] (subData sData)))) →
  wp (addRepeatedCallback group)
     (λ out s',
        match out with
        | Done r =>
            os_calloc (trace s) = false ∧ r = UA_STATUSCODE_BADINTERNALERROR ∧
            glob s' = glob s ∧
            trace s' = UaMalloc ThreadParams false :: trace s ∨
            r = UA_STATUSCODE_GOOD ∧ ∃ prio cpu id,
            registered (glob s) (glob s') pub id ∧
            (prio = (if pub then PUB_THREAD_PRIORITY else SUB_THREAD_PRIORITY) ∧
             if pub
             then p_cpuAffinity <$> default [] (pubData sData) !! Z.to_nat (g_indexPub (glob s))
                  = Some cpu
             else s_cpuAffinity <$> default [] (subData sData) !! Z.to_nat (g_indexSub (glob s))
                  = Some cpu) ∧
            let asked := SchedParam prio :: UaMalloc ThreadParams true :: trace s in
            os_sched asked = 0 ∧ os_sched (Affinity cpu :: asked) = 0 ∧
            trace s' = ThreadCreate pub (if pub then g_indexPub (glob s) else g_indexSub (glob s))
                       :: Affinity cpu :: asked ∧
            id = (os_thread (trace s')).2
        | Exited c => c = 1 ∧ glob s' = glob s ∧ sched_refused (trace s') ∧
                      Forall (λ c, ∀ p i, c ≠ ThreadCreate p i)
                        (take (length (trace s') - length (trace s)) (trace s'))
        | _ => False
        end) s.
Proof.
  intros Ht pub sData Hp Hs Hl. unfold addRepeatedCallback, pub_at, sub_at, threadCreation,
    record_thread. unfold MAX_OPCUA_THREAD in Ht |- *.
  apply wp_bind. unfold wp at 1. cbn [fst snd].
  destruct (os_calloc (trace s)) eqn:Ea; cbn [negb]; [|by apply wp_ret; left].
  apply wp_bind. unfold get at 1, wp at 1. cbn [fst snd glob]. fold pub.
  destruct s as [g tr]. cbn [glob trace] in *.
  destruct (g_threadRun g <? 6) eqn:Et; bool_to_prop; [|lia].
  destruct pub eqn:Epub.
  - destruct (lookup_lt_is_Some_2 (default [] (pubData sData)) (Z.to_nat (g_indexPub g)))
      as [pd Hpd]; [lia|].
    unfold wp, mbind, M_bind, mret, M_ret, tell, ask, get, modify, exit_. cbn [glob trace].
    fold sData. rewrite Hpd. cbn [glob trace fst snd].
    destruct (os_sched _ =? 0) eqn:E1; cbn [negb glob trace fst snd]; bool_to_prop;
      [|apply (exited_no_thread _ [_; _]); [exact E1|by repeat constructor]].
    destruct (os_sched _ =? 0) eqn:E2; cbn [negb glob trace fst snd]; bool_to_prop;
      [|apply (exited_no_thread _ [_; _; _]); [exact E2|by repeat constructor]].
    destruct (os_thread _) as [r id] eqn:Eth. cbn [glob trace fst snd].
    rewrite (proj2 (Z.ltb_lt _ _) Et). cbn [glob trace fst snd].
    right. split; [done|]. exists PUB_THREAD_PRIORITY, (p_cpuAffinity pd), id.
    split; [|rewrite ?Hpd, ?Hsd; split; [done|]; split; [done|]; split; [done|]; split; [done|];
             cbn [trace]; by rewrite Eth].
    destruct g; unfold registered; simpl in *.
    rewrite !(wrapU_small 16) by lia. repeat split; lia.
  - destruct (lookup_lt_is_Some_2 (default [] (subData sData)) (Z.to_nat (g_indexSub g)))
      as [sd Hsd]; [lia|].
    unfold wp, mbind, M_bind, mret, M_ret, tell, ask, get, modify, exit_. cbn [glob trace].
    fold sData. rewrite Hsd. cbn [glob trace fst snd].
    destruct (os_sched _ =? 0) eqn:E1; cbn [negb glob trace fst snd]; bool_to_prop;
      [|apply (exited_no_thread _ [_; _]); [exact E1|by repeat constructor]].
    destruct (os_sched _ =? 0) eqn:E2; cbn [negb glob trace fst snd]; bool_to_prop;
      [|apply (exited_no_thread _ [_; _; _]); [exact E2|by repeat constructor]].
    destruct (os_thread _) as [r id] eqn:Eth. cbn [glob trace fst snd].
    rewrite (proj2 (Z.ltb_lt _ _) Et). cbn [glob trace fst snd].
    right. split; [done|]. exists SUB_THREAD_PRIORITY, (s_cpuAffinity sd), id.
    split; [|rewrite ?Hpd, ?Hsd; split; [done|]; split; [done|]; split; [done|]; split; [done|];
             cbn [trace]; by rewrite Eth].
    destruct g; unfold registered; simpl in *.
    rewrite !(wrapU_small 16) by lia. repeat split; lia.
Qed.

(** A registration by the current writer group starts the publisher next in
    turn, one by any other group the subscriber next in turn, and enters the
    thread in the table; nothing is entered when memory is short, and the
    process ends with 1 exactly when scheduling is refused, before any thread
    exists.
    With at most five threads running and an entry left in its array the code
    stays inside its tables. *)
Theorem addRepeatedCallback_registers {OS : ua_os} group s :
  0 <= g_threadRun (glob s) < MAX_OPCUA_THREAD →
  let pub := group =? g_writerGroupIdent (glob s) in
  let sData := g_sData (glob s) in
  0 <= g_indexPub (glob s) < 65535 → 0 <= g_indexSub (glob s) < 65535 →
  (if pub then g_indexPub (glob s) < Z.of_nat (length (default [] (pubData sData)))
   else g_indexSub (glob s) < Z.of_nat (length (default [] (subData sData)))) →
  wp (addRepeatedCallback group)
     (λ out s',
        match out with
        | Done r =>
            os_calloc (trace s) = false ∧ r = UA_STATUSCODE_BADINTERNALERROR ∧
            glob s' = glob s ∧
            trace s' = UaMalloc ThreadParams false :: trace s ∨
            r = UA_STATUSCODE_GOOD ∧ ∃ prio cpu id,
            registered (glob s) (glob s') pub id ∧
            (prio = (if pub then PUB_THREAD_PRIORITY else SUB_THREAD_PRIORITY) ∧
             if pub
             then p_cpuAffinity <$> default [] (pubData sData) !! Z.to_nat (g_indexPub (glob s))
                  = Some cpu
             else s_cpuAffinity <$> default [] (subData sData) !! Z.to_nat (g_indexSub (glob s))
                  = Some cpu) ∧
            let asked := SchedParam prio :: UaMalloc ThreadParams true :: trace s in
            os_sched asked = 0 ∧ os_sched (Affinity cpu :: asked) = 0 ∧
            trace s' = ThreadCreate pub (if pub then g_indexPub (glob s) else g_indexSub (glob s))
                       :: Affinity cpu :: asked ∧
            id = (os_thread (trace s')).2
        | Exited c => c = 1 ∧ glob s' = glob s ∧ sched_refused (trace s') ∧
                      Forall (λ c, ∀ p i, c ≠ ThreadCreate p i)
                        (take (length (trace s') - length (trace s)) (trace s'))
        | _ => False
        end) s.
Proof. exact (addRepeatedCallback_ok group s). Qed.

(** ** Witnesses *)

Lemma next_ten_spec_witness : 0 <= 1001 ∧ next_ten 1001 mod 10 = 0.
Proof. split; [lia|]. apply (next_ten_spec 1001). lia. Defined.

Definition demo_ua_os : ua_os := make_ua_os None 6.
Definition demo_ua_build : ua_build := {| WITH_XDPTBS := false |}.

Lemma demo_stopped_by : @stopped_by demo_ua_os 6.
Proof. intros tr H. exact (proj2 (Nat.leb_le 6 (length tr)) H). Qed.

Lemma pub_thread_schedule_witness :
  let OS := demo_ua_os in let B := demo_ua_build in
  let r := pub_thread 8 0 demo_state in
  r.1 = Done tt ∧ callbacks (trace r.2) = wakes (trace r.2).
Proof.
  destruct (@pub_thread_schedule demo_ua_os demo_ua_build 6 8 0 demo_pub demo_state
    demo_stopped_by ltac:(lia) ltac:(by constructor) ltac:(reflexivity)) as (H1 & _ & _ & _ & H2).
  split; [exact H1|]. apply H2; [|reflexivity]. intros tr. discriminate.
Defined.

Lemma sub_thread_schedule_witness :
  let OS := demo_ua_os in let B := demo_ua_build in
  let r := sub_thread 8 0 demo_state in
  r.1 = Done tt ∧ callbacks (trace r.2) = wakes (trace r.2).
Proof.
  destruct (@sub_thread_schedule demo_ua_os 6 8 0 demo_sub demo_state
    demo_stopped_by ltac:(lia) ltac:(by constructor) ltac:(split; [discriminate|reflexivity])
    ltac:(reflexivity)) as (H1 & _ & _ & H2).
  split; [exact H1|exact H2].
Defined.

Lemma addRepeatedCallback_registers_witness :
  let OS := demo_ua_os in
  let r := addRepeatedCallback 0 demo_state in
  r.1 = Done UA_STATUSCODE_GOOD ∧ registered (glob demo_state) (glob r.2) true 4.
Proof.
  pose proof (@addRepeatedCallback_registers demo_ua_os 0 demo_state
    ltac:(split; [discriminate|reflexivity]) ltac:(split; [discriminate|reflexivity])
    ltac:(split; [discriminate|reflexivity]) ltac:(reflexivity)) as H.
  vm_compute in H. split; [reflexivity|].
  destruct H as [(H & _)|(_ & prio & cpu & id & Hr & _ & _)]; [discriminate|].
  vm_compute. split_and!; try reflexivity.
Defined.
