(* ===== verification/OpcuaLayout.v ===== *)
(** * OPC UA server: copies of the library's structures (opcua_custom.h)

    The registration hook of opcua_custom.c gets a pointer to whatever
    registers, a writer group or a reader group of the library, and tells which
    by comparing an identifier that it reads through a copy of the library's
    private declaration of writer groups.  This file has the layouts of the
    copies, with the sizes of the types that the library declares itself as
    parameters, and says what the hook reads. *)

From S2P Require Import Prelude Layout Sys Opcua OpcuaThreads.

Local Open Scope Z_scope.

(** ** Types of the library

    The types that opcua_custom.h takes from the library's own headers. *)

Class ua_types : Type := {
  UA_NodeId : layout;
  UA_WriterGroupConfig : layout;
  UA_ReaderGroupConfig : layout;
  UA_ByteString : layout;
  UA_PubSubState : layout;
  UA_NodeId_wf : wf_layout UA_NodeId;
  UA_WriterGroupConfig_wf : wf_layout UA_WriterGroupConfig;
  UA_ReaderGroupConfig_wf : wf_layout UA_ReaderGroupConfig;
  UA_ByteString_wf : wf_layout UA_ByteString;
  UA_PubSubState_wf : wf_layout UA_PubSubState
}.

(** ** The structures *)

Definition TAILQ_ENTRY : layout := struct [("tqe_next", c_pointer); ("tqe_prev", c_pointer)]%string.
Definition LIST_ENTRY : layout := struct [("le_next", c_pointer); ("le_prev", c_pointer)]%string.
Definition LIST_HEAD : layout := struct [("lh_first", c_pointer)]%string.

(** An enumeration is an int; [size_t] and the 64-bit integers are longs, a
    Boolean is a byte. *)
Definition UA_NetworkMessageOffsetType : layout := c_int.

Definition UA_NetworkMessageOffset : members :=
  [("contentType", UA_NetworkMessageOffsetType);
   ("offsetData", union [("value", union [("value", c_pointer); ("valueBinarySize", c_long)]);
                         ("timestamp", c_pointer)]);
   ("offset", c_long)]%string.

Definition threadParams : members :=
  [("server", c_pointer); ("data", c_pointer); ("callback", c_pointer); ("interval_ms", c_long);
   ("callbackId", c_pointer); ("data_index", c_int); ("id", c_long)]%string.

Section structures.
Context {L : ua_types}.

Definition UA_ReaderGroup : members :=
  [("config", UA_ReaderGroupConfig); ("identifier", UA_NodeId);
   ("linkedConnection", UA_NodeId); ("listEntry", LIST_ENTRY); ("readers", LIST_HEAD);
   ("readersCount", c_int); ("subscribeCallbackId", c_long);
   ("subscribeCallbackIsRegistered", c_byte)]%string.

Definition UA_PubSubConnection : members :=
  [("config", c_pointer); ("channel", c_pointer); ("identifier", UA_NodeId);
   ("writerGroups", LIST_HEAD); ("readerGroups", LIST_HEAD); ("readerGroupsSize", c_long);
   ("listEntry", TAILQ_ENTRY); ("configurationFreezeCounter", c_short)]%string.

Definition UA_NetworkMessageOffsetBuffer : members :=
  [("buffer", UA_ByteString); ("offsets", c_pointer); ("offsetsSize", c_long)]%string.

Definition UA_WriterGroup : members :=
  [("config", UA_WriterGroupConfig); ("listEntry", LIST_ENTRY); ("identifier", UA_NodeId);
   ("linkedConnection", c_pointer); ("writers", LIST_HEAD); ("writersCount", c_int);
   ("publishCallbackId", c_long); ("publishCallbackIsRegistered", c_byte);
   ("state", UA_PubSubState); ("bufferedMessage", struct UA_NetworkMessageOffsetBuffer);
   ("sequenceNumber", c_short)]%string.

(** ** What the hook reads *)

(** [((UA_WriterGroup * ) data)->identifier], of the object [data] points to. *)
Definition tmpWriter_identifier (data : list Z) : option (list Z) :=
  off ← offset_of "identifier" UA_WriterGroup;
  if off + ly_size UA_NodeId <=? Z.of_nat (length data)
  then Some (read_at data (Z.to_nat off) (Z.to_nat (ly_size UA_NodeId)))
  else None.

(** The hook on an object in memory.  [node] maps the bytes of a UA_NodeId to
    the node they stand for, as UA_NodeId_equal() compares them. *)
Definition addRepeatedCallback_at {OS : ua_os} (node : list Z → Z) (data : list Z) : T Z :=
  match tmpWriter_identifier data with
  | Some identifier => addRepeatedCallback (node identifier)
  | None => undefined
  end.

(** An object of structure [ms] in memory. *)
Definition object (ms : members) (data : list Z) : Prop :=
  Z.of_nat (length data) = ly_size (struct ms).

(** The bytes of its member [name]. *)
Definition member (name : string) (ms : members) (data : list Z) : option (list Z) :=
  '(off, ly) ← find_member name (place 0 ms).1;
  Some (read_at data (Z.to_nat off) (Z.to_nat (ly_size ly))).
End structures.

(** ** Lemmas *)

Ltac wf_structure :=
  repeat first
    [ apply wf_struct | apply wf_union | apply Forall_cons; split; cbn [snd] | apply Forall_nil_2
    | apply UA_NodeId_wf | apply UA_WriterGroupConfig_wf | apply UA_ReaderGroupConfig_wf
    | apply UA_ByteString_wf | apply UA_PubSubState_wf
    | solve [split; [|split; [|exists 1]]; simpl; lia] ].

(** Walk to a member by its name. *)
Ltac find_offset :=
  repeat (rewrite find_member_cons; cbv zeta;
          first [rewrite decide_True by done; reflexivity || idtac
                |rewrite decide_False by discriminate]);
  change (ly_align LIST_ENTRY) with 8; change (ly_size LIST_ENTRY) with 16.

Section lemmas.
Context {L : ua_types}.

Lemma wf_UA_WriterGroup : wf_members UA_WriterGroup.
Proof. wf_structure. Qed.

Lemma wf_UA_ReaderGroup : wf_members UA_ReaderGroup.
Proof. wf_structure. Qed.

Lemma wf_UA_PubSubConnection : wf_members UA_PubSubConnection.
Proof. wf_structure. Qed.

(** The identifier of a writer group lies within it. *)
Lemma writer_identifier_fits : ∃ off,
  find_member "identifier" (place 0 UA_WriterGroup).1 = Some (off, UA_NodeId) ∧
  off + ly_size UA_NodeId <= ly_size (struct UA_WriterGroup).
Proof.
  assert (∃ off, find_member "identifier" (place 0 UA_WriterGroup).1 = Some (off, UA_NodeId))
    as [off Hoff] by (unfold UA_WriterGroup; find_offset; by eexists).
  exists off. split; [done|]. destruct (find_member_lookup _ _ _ _ Hoff) as [i Hi].
  by apply (place_sound _ wf_UA_WriterGroup) in Hi as (_ & _ & ? & _).
Qed.

(** The types that hold pointers are aligned like pointers. *)
Definition pointer_aligned : Prop :=
  ly_align UA_NodeId = 8 ∧ ly_align UA_WriterGroupConfig = 8 ∧ ly_align UA_ReaderGroupConfig = 8.

Context (H8 : pointer_aligned).

Lemma multiples_of_8 :
  (8 | ly_size UA_NodeId) ∧ (8 | ly_size UA_WriterGroupConfig) ∧ (8 | ly_size UA_ReaderGroupConfig) ∧
  0 <= ly_size UA_NodeId ∧ 0 <= ly_size UA_WriterGroupConfig ∧ 0 <= ly_size UA_ReaderGroupConfig.
Proof.
  destruct H8 as (E1 & E2 & E3), UA_NodeId_wf as (_ & ? & D1), UA_WriterGroupConfig_wf as (_ & ? & D2),
    UA_ReaderGroupConfig_wf as (_ & ? & D3). rewrite E1 in D1. rewrite E2 in D2. rewrite E3 in D3. auto 10.
Qed.

Lemma writer_identifier :
  find_member "identifier" (place 0 UA_WriterGroup).1
  = Some (ly_size UA_WriterGroupConfig + 16, UA_NodeId).
Proof.
  destruct H8 as (E1 & E2 & E3), multiples_of_8 as (D1 & D2 & D3 & _).
  unfold UA_WriterGroup. find_offset.
  rewrite E1, E2. rewrite (align_up_id 0) by (lia || by exists 0).
  rewrite (align_up_id (0 + _)) by (lia || done).
  rewrite align_up_id; [do 2 f_equal; lia|lia|].
  apply Z.divide_add_r; [by apply Z.divide_add_r; [exists 0|]|by exists 2].
Qed.

Lemma reader_identifier :
  find_member "identifier" (place 0 UA_ReaderGroup).1
  = Some (ly_size UA_ReaderGroupConfig, UA_NodeId).
Proof.
  destruct H8 as (E1 & E2 & E3), multiples_of_8 as (D1 & D2 & D3 & _).
  unfold UA_ReaderGroup. find_offset.
  rewrite E1, E3. rewrite (align_up_id 0) by (lia || by exists 0).
  by rewrite align_up_id by (lia || done).
Qed.

Lemma reader_size :
  ly_size (struct UA_ReaderGroup) = ly_size UA_ReaderGroupConfig + 2 * ly_size UA_NodeId + 48.
Proof.
  destruct H8 as (E1 & E2 & E3), multiples_of_8 as (D1 & D2 & D3 & _).
  destruct D1 as [n En], D3 as [r Er].
  change (ly_size (struct UA_ReaderGroup))
    with (align_up (place 0 UA_ReaderGroup).2 (max_align UA_ReaderGroup)).
  assert (max_align UA_ReaderGroup = 8) as -> by (unfold UA_ReaderGroup; simpl; rewrite E1, E3; done).
  unfold UA_ReaderGroup. repeat rewrite place_end_cons. cbn [place snd].
  rewrite E1, E3, En, Er. cbn -[align_up Z.add Z.mul].
  change (ly_align LIST_ENTRY) with 8. change (ly_size LIST_ENTRY) with 16.
  change (ly_align LIST_HEAD) with 8. change (ly_size LIST_HEAD) with 8.
  rewrite !align_up_one.
  repeat match goal with
  | |- context [align_up ?e ?a] =>
      lazymatch e with context [align_up] => fail | _ => idtac end;
      first [ rewrite (align_up_id e a) by (lia || (apply Z.mod_divide; zsolve))
            | replace (align_up e a) with (e + 4) by (unfold align_up; zsolve)
            | replace (align_up e a) with (e + 7) by (unfold align_up; zsolve) ]
  end. lia.
Qed.
End lemmas.

(** ** Properties *)

Section properties.
Context {L : ua_types} {OS : ua_os} (node : list Z → Z).

(** Whatever the library's types look like, the structures of the header are
    well formed, and none of their members overlaps another one or the end. *)
Theorem structures_sound ms :
  ms ∈ [UA_ReaderGroup; UA_PubSubConnection; UA_WriterGroup] →
  wf_layout (struct ms) ∧
  ∀ i n off ly, (place 0 ms).1 !! i = Some (n, off, ly) →
    0 <= off ∧ (ly_align ly | off) ∧ off + ly_size ly <= ly_size (struct ms) ∧
    ∀ j n' off' ly', (i < j)%nat → (place 0 ms).1 !! j = Some (n', off', ly') →
      off + ly_size ly <= off'.
Proof.
  intros Hms. assert (wf_members ms) as Hwf.
  { rewrite !elem_of_cons in Hms. destruct Hms as [-> | [-> | [-> | []%elem_of_nil]]];
      auto using wf_UA_WriterGroup, wf_UA_ReaderGroup, wf_UA_PubSubConnection. }
  split; [by apply wf_struct|]. intros i n off ly Hl.
  by apply (place_sound ms Hwf i n off ly).
Qed.

(** C28: the registration hook identifies what registers by the identifier of a
    writer group.  Of a writer group it reads the identifier, whatever the sizes
    of the library's types.  Of a reader group it reads the bytes that a writer
    group would have its identifier at: they lie outside the object, and the
    behaviour is undefined, exactly when the configuration of a writer group is
    larger than that of a reader group by more than an identifier and 32
    bytes (the library's types that hold pointers being aligned to 8 bytes, as on
    the target); and they are the reader group's identifier if that of a reader
    group is 16 bytes larger. *)
Theorem registration_reads data :
  (object UA_WriterGroup data → ∃ id,
     member "identifier" UA_WriterGroup data = Some id ∧
     addRepeatedCallback_at node data = addRepeatedCallback (node id)) ∧
  (pointer_aligned → object UA_ReaderGroup data →
     let w := ly_size UA_WriterGroupConfig in
     let r := ly_size UA_ReaderGroupConfig in
     let n := ly_size UA_NodeId in
     (tmpWriter_identifier data = None ↔ r + n + 32 < w) ∧
     (r + n + 32 < w → addRepeatedCallback_at node data = undefined) ∧
     (w + 16 = r → tmpWriter_identifier data = member "identifier" UA_ReaderGroup data)).
Proof.
  split.
  - intros Ho. destruct writer_identifier_fits as (off & Hf & Hfit). unfold object in Ho.
    unfold member, addRepeatedCallback_at, tmpWriter_identifier, offset_of. rewrite Hf. simpl.
    destruct (_ <=? _) eqn:E; [by eexists|]. apply Z.leb_gt in E. lia.
  - intros H8 Ho w r n. unfold object in Ho. rewrite (reader_size H8) in Ho.
    assert (tmpWriter_identifier data = None ↔ r + n + 32 < w) as Hout.
    { unfold tmpWriter_identifier, offset_of. rewrite (writer_identifier H8). simpl.
      destruct (_ <=? _) eqn:E; [apply Z.leb_le in E|apply Z.leb_gt in E];
        (split; [|done || lia]); unfold w, r, n in *; [done|lia]. }
    split; [done|]. split.
    + intros Hlt. unfold addRepeatedCallback_at. by rewrite (proj2 Hout Hlt).
    + intros Hw. unfold member. rewrite (reader_identifier H8). simpl.
      unfold tmpWriter_identifier, offset_of. rewrite (writer_identifier H8). simpl.
      destruct (_ <=? _) eqn:E; [unfold w, r in Hw; by rewrite Hw|].
      pose proof (multiples_of_8 H8) as (_ & _ & _ & ? & ? & ?).
      apply Z.leb_gt in E. unfold w, r in Hw. lia.
Qed.
End properties.

(** ** Witness *)

(** Identifiers of 24 bytes; the configuration of writer groups has [w] words,
    that of reader groups [r]. *)
Definition demo_types (w r : Z) (Hw : 0 <= w) (Hr : 0 <= r) : ua_types.
Proof.
  refine {| UA_NodeId := mk_layout 24 8; UA_WriterGroupConfig := mk_layout (w * 8) 8;
            UA_ReaderGroupConfig := mk_layout (r * 8) 8; UA_ByteString := mk_layout 16 8;
            UA_PubSubState := mk_layout 4 4 |}.
  all: split; [simpl; lia|split; [simpl; lia|]]; simpl;
    first [by exists 3|by exists 2|by exists 1|by eexists].
Defined.

(** A reader group whose configuration is 16 words shorter than a writer
    group's: the hook reads past its end. *)
Lemma registration_reads_witness :
  let L := demo_types 20 4 ltac:(lia) ltac:(lia) in
  addRepeatedCallback_at (OS := make_ua_os None 0) (λ _, 0) (replicate 128 0) = undefined.
Proof.
  pose proof (@registration_reads (demo_types 20 4 ltac:(lia) ltac:(lia)) (make_ua_os None 0)
    (λ _, 0) (replicate 128 0)) as [_ H].
  destruct H as (_ & H & _); [by split; [|split]|reflexivity|].
  apply H. simpl. lia.
Defined.
