(* ===== verification/OpcuaServer.v ===== *)
(** * OPC UA server: set-up and main() (src/src/opcua-tsn/opcua_publish.c,
    opcua_subscribe.c, multicallback_server.c)

    The publishers and subscribers as they are handed to open62541, the choice
    of transport layers and XDP modes, and the life of the process.  While it
    runs a call, open62541 may register cyclic callbacks: [library] runs the
    hook of OpcuaThreads.v for each group it registers. *)

From S2P Require Import Prelude Sys Libc Opcua OpcuaConfig OpcuaThreads.

Local Open Scope Z_scope.

(** ** Constants *)

Definition KEYFRAME_COUNT : Z := 10.
Definition MSGQ_BYTES : Z := 120 * 24.     (* sizeof(struct msqid_ds) * 24 *)
Definition XDP_FLAGS_SKB_MODE : Z := 2.
Definition XDP_FLAGS_DRV_MODE : Z := 4.
Definition XDP_COPY : Z := 2.
Definition XDP_ZEROCOPY : Z := 4.

Section server.
Context {OS : ua_os} {B : ua_build}.

(** ** Calls into open62541 *)

Definition run_hooks (groups : list Z) : T unit :=
  for_each groups (λ group _, _ ← addRepeatedCallback group; mret tt) tt.

Definition library (c : call) : T unit :=
  groups ← ask c os_register; run_hooks groups.

(** A call that hands out a node identifier. *)
Definition library_id (c : call) : T Z :=
  '(id, groups) ← ask c (λ tr, (os_node tr, os_register tr));
  run_hooks groups;;
  mret id.

(** An allocation that the code does not check before it uses it. *)
Definition unchecked_malloc (b : ua_block) : T unit := λ s,
  let ok := os_calloc (trace s) in
  (if ok then Done tt else Undefined, mkSt (glob s) (UaMalloc b ok :: trace s)).

Definition checked_malloc (b : ua_block) : T bool := λ s,
  let ok := os_calloc (trace s) in (Done ok, mkSt (glob s) (UaMalloc b ok :: trace s)).

(** ** Publishers *)

(** The connection of addPubSubConnection(). *)
Definition pub_connection (sdata : ServerData) (pdata : PublisherData) : connection :=
  let socketPrio := socketPriority pdata in
  mk_conn
    (if socketPrio >? 0 then socketPrio else -1)
    (if WITH_XDPTBS then true else negb (useXDP sdata))
    (if useXDP sdata then p_xdpQueue pdata else 0)
    (if useXDP sdata then Z.lor 0 XDP_FLAGS_DRV_MODE else 0)
    (if useXDP_ZC sdata then Z.lor 0 XDP_ZEROCOPY else Z.lor 0 XDP_COPY)
    (pubInterface sdata) (p_url pdata) (u16 (p_id pdata)).

Definition addPubSubConnection (sdata : ServerData) (pdata : PublisherData) : T Z :=
  library_id (AddConnection (pub_connection sdata pdata)).

Definition addPublishedDataSet : T Z := library_id AddPublishedDataSet.

Definition addDataSetField (pds index : Z) (pdata : PublisherData) : T unit :=
  library (AddDataSourceNode "payload-datasource" (p_readFunc pdata) (p_writeFunc pdata) index);;
  library (AddDataSetField pds).

(** The interval is the cycle time, converted to milliseconds. *)
Definition addWriterGroup (conn : Z) (sdata : ServerData) (pdata : PublisherData) : T unit :=
  unchecked_malloc WriterMessage;;
  wg ← library_id (AddWriterGroup conn (u16 (writerGroupId pdata)) (cycleTimeNs sdata));
  modify (λ g, g {{ g_writerGroupIdent := wg }});;
  library (SetWriterGroupOperational wg);;
  tell (UaFree WriterMessage).

Definition addDataSetWriter (wg pds : Z) (pdata : PublisherData) : T unit :=
  _ ← library_id (AddDataSetWriter wg pds (u16 (dataSetWriterId pdata)) KEYFRAME_COUNT);
  mret tt.

Definition createPublisher (sdata : ServerData) (index : Z) (pdata : PublisherData)
  (conn : Z) : T Z :=
  pds ← addPublishedDataSet;
  addDataSetField pds index pdata;;
  addWriterGroup conn sdata pdata;;
  g ← get;
  addDataSetWriter (g_writerGroupIdent g) pds pdata;;
  g ← get;
  library (FreezeWriterGroup (g_writerGroupIdent g));;
  mret 0.

(** ** Subscribers *)

(** The XDP flags and bind flags of addSubConnection(). *)
Definition sub_xdp_flags (sdata : ServerData) : Z * Z :=
  if negb (useXDP sdata) then (0, 0)
  else if useXDP_SKB sdata && negb (useXDP_ZC sdata)
  then (Z.lor 0 XDP_FLAGS_SKB_MODE, Z.lor 0 XDP_COPY)
  else if negb (useXDP_SKB sdata) && negb (useXDP_ZC sdata)
  then (Z.lor 0 XDP_FLAGS_DRV_MODE, Z.lor 0 XDP_COPY)
  else (Z.lor 0 XDP_FLAGS_DRV_MODE, Z.lor 0 XDP_ZEROCOPY).

Definition sub_connection (sdata : ServerData) (sub : SubscriberData) (id : Z) : connection :=
  let '(flags, bind) := sub_xdp_flags sdata in
  mk_conn 0 false (if useXDP sdata then s_xdpQueue sub else 0) flags bind
    (subInterface sdata) (s_url sub) (u32 id).

Definition addSubConnection (sdata : ServerData) (sub : SubscriberData) : T Z :=
  id ← (if s_id sub =? 0 then ask UaRandom os_random else mret (s_id sub));
  library_id (AddConnection (sub_connection sdata sub id)).

Definition addReaderGroup (conn : Z) : T Z := library_id (AddReaderGroup conn).

Definition addDataSetReader (rg : Z) (sub : SubscriberData) : T Z :=
  unchecked_malloc ReaderFields;;
  library_id (AddDataSetReader rg (u16 (subscribedDSWriterId sub)) (u16 (subscribedPubId sub))
                (u16 (subscribedWGId sub))).

Definition addSubscribedVariables (index : Z) (sub : SubscriberData) (reader : Z) : T unit :=
  library (AddDataSourceNode "time-stamp-datasource" (s_readFunc sub) (s_writeFunc sub) index);;
  ok ← checked_malloc TargetVariables;
  if (ok : bool) then library (CreateTargetVariables reader) else mret tt.

Definition createSubscriber (index : Z) (sub : SubscriberData) (conn : Z) : T Z :=
  rg ← addReaderGroup conn;
  reader ← addDataSetReader rg sub;
  addSubscribedVariables index sub reader;;
  mret 0.

(** ** configureServer() *)

Definition stopHandler : T unit := modify (λ g, g {{ g_running := false }}).

Definition set_pub (i : nat) (pd : PublisherData) (sdata : ServerData) : ServerData :=
  let pubs := <[i := pd]> <$> pubData sdata in sdata {{ pubData := pubs }}.

Definition set_sub (i : nat) (sd : SubscriberData) (sdata : ServerData) : ServerData :=
  let subs := <[i := sd]> <$> subData sdata in sdata {{ subData := subs }}.

Definition configure_pub (i : nat) (sdata : ServerData) : T ServerData :=
  match default [] (pubData sdata) !! i with
  | None => undefined
  | Some pd =>
      let pd := pd {{ p_writeFunc := dummyDSWrite_f }} in
      if negb (p_twoWayData pd) then
        mret (set_pub i (pd {{ p_readFunc := pubGetDataToTransmit_f }}) sdata)
      else
        let sdata := set_pub i (pd {{ p_readFunc := pubReturnGetDataToTransmit_f }}) sdata in
        modify (λ g, g {{ g_roundtrip_pubReturn := false }});;
        qid ← ask Msgget os_msgget;
        let sdata := sdata {{ msqid := qid }} in
        _ ← ask MsgctlStat os_msgctl;
        _ ← ask (MsgctlSet MSGQ_BYTES) os_msgctl;
        mret sdata
  end.

Definition configure_sub (i : nat) (sdata : ServerData) : T ServerData :=
  match default [] (subData sdata) !! i with
  | None => undefined
  | Some sd =>
      let sd := sd {{ s_readFunc := dummyDSRead_f }} in
      let wr := if negb (s_twoWayData sd) then subStoreDataReceived_f
                else subReturnStoreDataReceived_f in
      mret (set_sub i (sd {{ s_writeFunc := wr }}) sdata)
  end.

Definition configureServer (sdata : ServerData) : T (Z * ServerData) :=
  '(ret, ts) ← ask ClockGettime (λ tr, (os_clock_ret tr, os_clock tr));
  if ret =? -1 then mret (-1, sdata) else
  let start := (tv_sec ts + 3) * 1000000000 in
  if (start <? 0) || (start >=? 2 ^ 64) then undefined else
  let sdata := sdata {{ startTime := start; msqid := -1 }} in
  sdata ← for_each (List.seq 0 (Z.to_nat (pubCount sdata))) configure_pub sdata;
  sdata ← for_each (List.seq 0 (Z.to_nat (subCount sdata))) configure_sub sdata;
  mret (0, sdata).

(** ** setupOpcuaServer() *)

(** A [for] loop whose body may jump to the error label. *)
Fixpoint try_each {A X : Type} (l : list A) (body : A → X → T (option X)) (x : X)
  : T (option X) :=
  match l with
  | [] => mret (Some x)
  | a :: l =>
      r ← body a x;
      match r with None => mret None | Some x => try_each l body x end
  end.

(** State of the publisher loop: the last connection and publisher. *)
Definition setup_pub (sdata : ServerData) (i : nat) (x : Z * option PublisherData)
  : T (option (Z * option PublisherData)) :=
  match default [] (pubData sdata) !! i with
  | None => undefined
  | Some pub =>
      conn ← addPubSubConnection sdata pub;
      ret ← createPublisher sdata (Z.of_nat i) pub conn;
      mret (if ret =? -1 then None else Some (conn, Some pub))
  end.

(** The first three tests of the chain of conditions: does the subscriber
    share the socket of the last publisher?  [None]: a NULL pointer is used. *)
Definition shares_socket (sdata : ServerData) (pub : option PublisherData)
  (sub : SubscriberData) : option bool :=
  if (pubCount sdata =? 0) || negb (useXDP sdata) then Some false else
  match pub with
  | None => None
  | Some pub =>
      if negb (s_xdpQueue sub =? p_xdpQueue pub) then Some false else
      match pubInterface sdata, subInterface sdata with
      | Some a, Some b => Some (bool_decide (cstr a = cstr b))
      | _, _ => None
      end
  end.

Definition new_layer (t : transport) (config : server_config) : server_config :=
  mk_config (pubsubTransportLayersSize config + 1)
    (<[1%nat := Some t]> (pubsubTransportLayers config)).

Definition setup_sub (sdata : ServerData) (pub : option PublisherData) (i : nat)
  (x : server_config * Z) : T (option (server_config * Z)) :=
  let '(config, conn) := x in
  match default [] (subData sdata) !! i with
  | None => undefined
  | Some sub =>
      match shares_socket sdata pub sub with
      | None => undefined
      | Some shared =>
          '(config, conn) ←
            (if shared then mret (config, conn)
             else
               let config :=
                 if pubCount sdata =? 0 then config
                 else new_layer (if useXDP sdata then EthernetXDP else EthernetETF) config in
               conn ← addSubConnection sdata sub; mret (config, conn));
          ret ← createSubscriber (Z.of_nat i) sub conn;
          mret (if ret =? -1 then None else Some (config, conn))
      end
  end.

(** [None] for NULL. *)
Definition setupOpcuaServer (sdata : ServerData) : T (option server_config) :=
  tell ServerNew;;
  tell ServerConfig;;
  ok ← (λ s, let ok := os_calloc (trace s) in
             (Done ok, mkSt (glob s) (LayersAlloc ok :: trace s)) : outcome bool * _);
  if negb (ok : bool) then tell ServerDelete;; mret None else
  let layer := if useXDP sdata then EthernetXDP else EthernetETF in
  let config := mk_config 1 [Some layer; None] in
  r ← try_each (List.seq 0 (Z.to_nat (pubCount sdata))) (setup_pub sdata) (0, None);
  match r with
  | None => tell ServerDelete;; mret None
  | Some (conn, pub) =>
      r ← try_each (List.seq 0 (Z.to_nat (subCount sdata))) (setup_sub sdata pub) (config, conn);
      match r with
      | None => tell ServerDelete;; mret None
      | Some (config, _) => mret (Some config)
      end
  end.

(** ** Log capture *)

Definition copy_file (fuel : nat) (src dst : list Z) (clear_src : bool) : T unit :=
  ok ← ask (LogFopen src false) os_log_fopen;
  if negb (ok : bool) then mret tt else
  ok ← ask (LogFopen dst true) os_log_fopen;
  if negb (ok : bool) then tell (LogFclose src) else
  loop fuel (λ _ : unit,
    ch ← ask (LogFgetc src) os_fgetc;
    match ch with
    | None => mret (inr tt)
    | Some c => tell (LogFputc dst c);; mret (inl tt)
    end) tt;;
  tell (LogFclose src);;
  tell (LogFclose dst);;
  when clear_src
    (ok ← ask (LogFopen src true) os_log_fopen;
     if (ok : bool) then tell (LogFclose src) else undefined).

(** Not called by the server. *)
Definition ts_log_start (fuel : nat) : T unit :=
  copy_file fuel (bytes_of_string "/var/log/ptp4l.log")
    (bytes_of_string "/var/log/total_ptp4l.log") true;;
  copy_file fuel (bytes_of_string "/var/log/phc2sys.log")
    (bytes_of_string "/var/log/total_phc2sys.log") true.

Definition ts_log_stop (fuel : nat) : T unit :=
  copy_file fuel (bytes_of_string "/var/log/ptp4l.log")
    (bytes_of_string "/var/log/captured_ptp4l.log") false;;
  copy_file fuel (bytes_of_string "/var/log/phc2sys.log")
    (bytes_of_string "/var/log/captured_phc2sys.log") false.

(** ** main() *)

Definition join_threads : T unit :=
  g ← get;
  for_each (List.seq 0 (Z.to_nat (g_threadRun g))) (λ i _,
    g ← get;
    match g_thread g !! i with
    | Some id => tell (ThreadJoin id)
    | None => undefined
    end) tt.

(** main() once the threads have ended. *)
Definition shutdown (fuel : nat) : T unit :=
  ts_log_stop fuel;;
  g ← get;
  (if msqid (g_sData g) >=? 0
   then _ ← ask MsgctlRmid os_msgctl; mret tt else mret tt);;
  tell ServerDelete;;
  g ← get;
  free_resources (Some (g_sData g)).

(** main() from the call of UA_Server_run().  [work] is what the threads do to
    the shared data meanwhile; they have ended when they are joined. *)
Definition run_server_with (work : T unit) (fuel : nat) (config : server_config) : T Z :=
  '(servrun, groups) ← ask (ServerRun config) (λ tr, (os_server_run tr, os_register tr));
  run_hooks groups;;
  work;;
  join_threads;;
  shutdown fuel;;
  mret (if servrun =? UA_STATUSCODE_GOOD then EXIT_SUCCESS else EXIT_FAILURE).

Definition run_server := run_server_with (mret tt).

(** main() after the configuration has been read. *)
Definition serve_with (work : T unit) (fuel : nat) (sdata : ServerData) : T Z :=
  '(ret, sdata) ← configureServer sdata;
  if ret =? -1 then exit_ (-1) else
  let threadCount := u16 (pubCount sdata + subCount sdata) in
  if threadCount >? MAX_OPCUA_THREAD then exit_ (-1) else
  modify (λ g, g {{ g_threadRun := 0; g_sData := sdata }});;
  server ← setupOpcuaServer sdata;
  match server with
  | None => exit_ (-1)
  | Some config =>
      run_server_with work fuel config
  end.

Definition serve := serve_with (mret tt).

Definition main_with {api : json_api} (work : T unit) (fuel : nat) (path : option (list Z)) : T Z :=
  sdata ← parseArgs path;
  match sdata with
  | None => exit_ (-1)
  | Some sdata => serve_with work fuel sdata
  end.

Definition main {api : json_api} := main_with (mret tt).
End server.

(** ** Specification: what a trace shows *)

(** Threads started, oldest first: publisher or subscriber, and its index. *)
Fixpoint started (tr : list call) : list (bool * Z) :=
  match tr with
  | [] => []
  | ThreadCreate pub i :: tr => started tr ++ [(pub, i)]
  | _ :: tr => started tr
  end.

(** Threads waited for, oldest first. *)
Fixpoint joined (tr : list call) : list Z :=
  match tr with
  | [] => []
  | ThreadJoin id :: tr => joined tr ++ [id]
  | _ :: tr => joined tr
  end.

(** The identifiers of the threads, as their creation has left them. *)
Fixpoint created `{!ua_os} (tr : list call) : list Z :=
  match tr with
  | [] => []
  | ThreadCreate _ _ :: older => created older ++ [(os_thread tr).2]
  | _ :: older => created older
  end.

(** Every scheduling request was accepted. *)
Fixpoint sched_accepted `{!ua_os} (tr : list call) : Prop :=
  match tr with
  | [] => True
  | SchedParam _ :: older | Affinity _ :: older => os_sched tr = 0 ∧ sched_accepted older
  | _ :: older => sched_accepted older
  end.

(** What a trace shows of the threads. *)
Definition threads_of `{!ua_os} (tr : list call) : list (bool * Z) * list Z * list Z * Prop :=
  (started tr, joined tr, created tr, sched_accepted tr).

(** ** Specification: configureServer *)

Definition configured_pub (pd : PublisherData) : PublisherData :=
  let rd := if p_twoWayData pd then pubReturnGetDataToTransmit_f else pubGetDataToTransmit_f in
  pd {{ p_writeFunc := dummyDSWrite_f; p_readFunc := rd }}.

Definition configured_sub (sd : SubscriberData) : SubscriberData :=
  let wr := if s_twoWayData sd then subReturnStoreDataReceived_f else subStoreDataReceived_f in
  sd {{ s_readFunc := dummyDSRead_f; s_writeFunc := wr }}.

(** Some publisher sends on what a subscriber received. *)
Definition two_way (sdata : ServerData) : bool :=
  existsb p_twoWayData (default [] (pubData sdata)).

(** ** Lemmas: configureServer *)

(** An in-place [map] after [i] steps. *)
Lemma insert_map_step {A} (f : A → A) l i x :
  l !! i = Some x →
  <[i := f x]> (map f (take i l) ++ drop i l) = map f (take (S i) l) ++ drop (S i) l.
Proof.
  intros H. pose proof (lookup_lt_Some _ _ _ H).
  rewrite (take_S_r _ _ _ H), map_app, <- app_assoc. cbn [map app].
  rewrite insert_app_r_alt by (rewrite length_map, length_take; lia).
  rewrite length_map, length_take, Nat.min_l, Nat.sub_diag by lia.
  by rewrite (drop_S _ _ _ H).
Qed.

Lemma lookup_map_step {A} (f : A → A) l i :
  (map f (take i l) ++ drop i l) !! i = l !! i.
Proof.
  destruct (le_lt_dec (length l) i).
  - rewrite take_ge, drop_ge, app_nil_r by lia.
    rewrite !lookup_ge_None_2; [done|lia|rewrite length_map; lia].
  - rewrite lookup_app_r by (rewrite length_map, length_take; lia).
    rewrite length_map, length_take, Nat.min_l, Nat.sub_diag by lia.
    by rewrite lookup_drop, Nat.add_0_r.
Qed.

Lemma lookup_seq_0 n j a : List.seq 0 n !! j = Some a → a = j ∧ (j < n)%nat.
Proof. intros H. apply lookup_seq in H. lia. Qed.

Definition after_pubs (i : nat) (q : Z) (sdata : ServerData) : ServerData :=
  let pubs := (λ l, map configured_pub (take i l) ++ drop i l) <$> pubData sdata in
  sdata {{ pubData := pubs; msqid := q }}.

Definition after_subs (i : nat) (sdata : ServerData) : ServerData :=
  let subs := (λ l, map configured_sub (take i l) ++ drop i l) <$> subData sdata in
  sdata {{ subData := subs }}.

Section configure.
Context {OS : ua_os}.
Implicit Types s t : st ua_glob call.

(** After [i] publishers. *)
Definition pubs_inv (sdata : ServerData) (s : st ua_glob call) (i : nat)
  (sd : ServerData) (t : st ua_glob call) : Prop :=
  ∃ q, sd = after_pubs i q sdata ∧
    threads_of (trace t) = threads_of (trace s) ∧
    (if existsb p_twoWayData (take i (default [] (pubData sdata)))
     then (∃ tr, q = os_msgget tr) ∧ glob t = (glob s) {{ g_roundtrip_pubReturn := false }}
     else q = msqid sdata ∧ t = s).

Lemma configure_pub_ok sdata s i sd t :
  (i < length (default [] (pubData sdata)))%nat → pubs_inv sdata s i sd t →
  wp (configure_pub i sd)
     (λ o t', match o with Done sd' => pubs_inv sdata s (S i) sd' t' | _ => False end) t.
Proof.
  intros Hi (q & -> & Hs & Ht). destruct (pubData sdata) as [l|] eqn:El; [|simpl in Hi; lia].
  cbn [from_option id] in *. destruct (lookup_lt_is_Some_2 l i Hi) as [pd Hpd].
  assert (pubData (after_pubs i q sdata) = Some (map configured_pub (take i l) ++ drop i l)) as E.
  { unfold after_pubs. rewrite El. by destruct sdata. }
  assert (∀ q', (set_pub i (configured_pub pd) (after_pubs i q sdata)) {{ msqid := q' }}
                = after_pubs (S i) q' sdata) as Eset.
  { intros q'. unfold set_pub. rewrite E. cbn [fmap option_fmap option_map].
    rewrite (insert_map_step _ _ _ _ Hpd). unfold after_pubs. rewrite El. by destruct sdata. }
  assert (existsb p_twoWayData (take (S i) l)
          = existsb p_twoWayData (take i l) || p_twoWayData pd) as Ex.
  { rewrite (take_S_r _ _ _ Hpd), existsb_app. cbn [existsb]. by rewrite orb_false_r. }
  unfold configure_pub. rewrite E. cbn [from_option id]. rewrite lookup_map_step, Hpd.
  unfold pubs_inv. rewrite El. cbn [from_option id]. rewrite Ex.
  destruct (p_twoWayData pd) eqn:Etw.
  - replace (negb _) with false by (destruct pd; simpl in *; by rewrite Etw).
    unfold wp, mbind, M_bind, mret, M_ret, ask, modify. cbn [glob trace fst snd].
    eexists. rewrite <- Eset. split; [|split; [exact Hs|]].
    + f_equal. f_equal. unfold configured_pub. rewrite Etw. by destruct pd.
    + rewrite orb_true_r. split; [by eexists|].
      destruct (existsb _ _); [destruct Ht as [_ Ht]; rewrite Ht|destruct Ht as [_ ->]];
        by destruct (glob s).
  - replace (negb _) with true by (destruct pd; simpl in *; by rewrite Etw).
    apply wp_ret. exists q. rewrite <- Eset.
    split; [|split; [done|]].
    + unfold configured_pub. rewrite Etw. unfold after_pubs. by destruct pd, sdata.
    + by rewrite orb_false_r.
Qed.

Lemma configure_sub_ok sdata i t :
  (i < length (default [] (subData sdata)))%nat →
  configure_sub i (after_subs i sdata) t = (Done (after_subs (S i) sdata), t).
Proof.
  intros Hi. destruct (subData sdata) as [l|] eqn:El; [|simpl in Hi; lia].
  cbn [from_option id] in *. destruct (lookup_lt_is_Some_2 l i Hi) as [sd Hsd].
  assert (subData (after_subs i sdata) = Some (map configured_sub (take i l) ++ drop i l)) as E.
  { unfold after_subs. rewrite El. by destruct sdata. }
  assert (set_sub i (configured_sub sd) (after_subs i sdata) = after_subs (S i) sdata) as Eset.
  { unfold set_sub. rewrite E. cbn [fmap option_fmap option_map].
    rewrite (insert_map_step _ _ _ _ Hsd). unfold after_subs. rewrite El. by destruct sdata. }
  unfold configure_sub. rewrite E. cbn [from_option id]. rewrite lookup_map_step, Hsd.
  unfold mret, M_ret. rewrite <- Eset. unfold configured_sub.
  by destruct sd as [????????? []].
Qed.
End configure.

(** ** Properties: configureServer *)

(** The server start time configureServer() computes. *)
Definition start_time (sec : Z) : Z := (sec + 3) * 1000000000.

(** What configureServer() makes of a configuration; [q] is the queue. *)
Definition configured (sdata : ServerData) (start q : Z) : ServerData :=
  let pubs := map configured_pub <$> pubData sdata in
  let subs := map configured_sub <$> subData sdata in
  sdata {{ pubData := pubs; subData := subs; startTime := start; msqid := q }}.

Lemma configured_same sdata start q :
  counts_ok sdata →
  let sd := configured sdata start q in
  pubCount sd = pubCount sdata ∧ subCount sd = subCount sdata ∧ counts_ok sd ∧
  pubInterface sd = pubInterface sdata ∧ subInterface sd = subInterface sdata.
Proof.
  intros [C1 C2] sd. unfold counts_ok, sd, configured.
  destruct sdata as [? ? ? ? ? ? ? ? ? pds sds ? ? ?]. simpl in *. split_and!; try done.
  - destruct pds; simpl in *; by rewrite ?length_map.
  - destruct sds; simpl in *; by rewrite ?length_map.
Qed.

Lemma after_all_ok sdata start q n m :
  n = length (default [] (pubData sdata)) → m = length (default [] (subData sdata)) →
  after_subs m (after_pubs n q (sdata {{ startTime := start; msqid := -1 }}))
  = configured sdata start q.
Proof.
  intros -> ->. destruct sdata as [? ? ? ? ? ? ? ? ? pds sds ? ? ?].
  unfold after_subs, after_pubs, configured. simpl.
  destruct pds, sds; simpl; by rewrite ?firstn_all, ?drop_all, ?app_nil_r.
Qed.

Lemma configureServer_ok {OS : ua_os} sdata s :
  counts_ok sdata →
  let start := start_time (tv_sec (os_clock (ClockGettime :: trace s))) in
  0 <= start < 2 ^ 64 →
  wp (configureServer sdata)
     (λ out s', match out with
        | Done (r, sd) =>
            threads_of (trace s') = threads_of (trace s) ∧
            if os_clock_ret (ClockGettime :: trace s) =? -1
            then r = -1 ∧ sd = sdata ∧ glob s' = glob s
            else r = 0 ∧ ∃ q, sd = configured sdata start q ∧
                 (if two_way sdata
                  then (∃ tr, q = os_msgget tr) ∧
                       glob s' = (glob s) {{ g_roundtrip_pubReturn := false }}
                  else q = -1 ∧ glob s' = glob s)
        | _ => False end) s.
Proof.
  intros [Hc1 Hc2] start Ht. unfold configureServer.
  apply wp_bind, wp_ask. cbn [trace glob].
  destruct (_ =? -1); [by apply wp_ret|]. fold (start_time (tv_sec (os_clock (ClockGettime :: trace s)))).
  fold start. set (s1 := mkSt (glob s) _).
  replace ((start <? 0) || (start >=? 2 ^ 64)) with false
    by (symmetry; apply orb_false_iff; split; [|rewrite Z.geb_leb]; lia).
  set (sd0 := sdata {{ startTime := start; msqid := -1 }}).
  assert (pubData sd0 = pubData sdata ∧ pubCount sd0 = pubCount sdata ∧ msqid sd0 = -1)
    as (Ep & Epc & Em) by (unfold sd0; by destruct sdata).
  apply wp_bind. apply wp_for_each with (I := pubs_inv sd0 s1) (i := 0%nat).
  - intros j a sd t Hj HI. apply lookup_seq_0 in Hj as [-> Hj]. rewrite Nat.add_0_l in *.
    eapply wp_mono; [apply (configure_pub_ok sd0 s1 j sd t); [rewrite Ep; lia|exact HI]|].
    by intros [] ?.
  - intros sd t (q & -> & Hst & Hq). rewrite length_seq, Nat.add_0_l in *.
    rewrite Ep, Epc, Hc1, Nat2Z.id, firstn_all in Hq. rewrite Epc, Hc1, Nat2Z.id.
    set (sd1 := after_pubs _ q sd0).
    assert (subData sd1 = subData sdata ∧ subCount sd1 = subCount sdata) as (Es1 & Esc1)
      by (unfold sd1, after_pubs, sd0; by destruct sdata).
    apply wp_bind.
    apply wp_for_each with (i := 0%nat) (I := λ i sd t', sd = after_subs i sd1 ∧ t' = t).
    + intros j a sd t' Hj [-> ->]. apply lookup_seq_0 in Hj as [-> Hj]. rewrite Nat.add_0_l.
      unfold wp. rewrite configure_sub_ok by (rewrite Es1; lia). done.
    + intros sd t' [-> ->]. rewrite length_seq, Nat.add_0_l, Esc1, Hc2, Nat2Z.id.
      apply wp_ret. split; [exact Hst|]. split; [done|].
      exists q. split; [by apply after_all_ok|].
      unfold two_way. destruct (existsb _ _); [exact Hq|]. destruct Hq as [-> ->]. done.
    + split; [|done]. unfold after_subs. rewrite Es1. unfold sd1, after_pubs, sd0.
      destruct sdata as [? ? ? ? ? ? ? ? ? pds sds ? ? ?], sds; done.
  - exists (-1). split; [|split; [done|]].
    + unfold after_pubs. rewrite Ep. unfold sd0.
      by destruct sdata as [? ? ? ? ? ? ? ? ? pds sds ? ? ?], pds.
    + by rewrite Em.
Qed.

(** ConfigureServer() fails, and changes nothing, exactly when the clock
    cannot be read.  Otherwise it gives every publisher and subscriber the data
    source of its direction and leaves all else in them alone, sets the start
    time three seconds ahead, closes the return gate when some publisher sends
    received data, and leaves the message queue unset and the globals alone when
    none does.  It starts no thread. *)
Theorem configureServer_installs {OS : ua_os} sdata s :
  counts_ok sdata →
  let start := start_time (tv_sec (os_clock (ClockGettime :: trace s))) in
  0 <= start < 2 ^ 64 →
  wp (configureServer sdata)
     (λ out s', match out with
        | Done (r, sd) =>
            started (trace s') = started (trace s) ∧
            if os_clock_ret (ClockGettime :: trace s) =? -1
            then r = -1 ∧ sd = sdata ∧ glob s' = glob s
            else r = 0 ∧ ∃ q, sd = configured sdata start q ∧
                 (if two_way sdata then glob s' = (glob s) {{ g_roundtrip_pubReturn := false }}
                  else q = -1 ∧ glob s' = glob s)
        | _ => False end) s.
Proof.
  intros Hc start Ht. eapply wp_mono; [by apply configureServer_ok|].
  intros [[r sd]| | |] s'; simpl; [|tauto..]. intros (H1 & H2). split; [by injection H1|].
  destruct (_ =? -1); [done|]. destruct H2 as (-> & q & -> & H). split; [done|].
  exists q. split; [done|]. by destruct (two_way sdata); [destruct H|].
Qed.

(** ** Lemmas: transport layers *)

(** Invariant rule for [try_each] when only the values matter. *)
Lemma try_each_values {A X} (I : nat → X → Prop) (l : list A) (body : A → X → T (option X)) i x s :
  (∀ j a x s, l !! j = Some a → I (i + j)%nat x →
     on_done (body a x) (λ r _, ∀ x', r = Some x' → I (S (i + j)) x') s) →
  I i x → on_done (try_each l body x) (λ r _, ∀ x', r = Some x' → I (i + length l)%nat x') s.
Proof.
  revert i x s. induction l as [|a l IH]; intros i x s Hb HI; simpl.
  - intros x' [= <-]. by rewrite Nat.add_0_r.
  - apply on_done_bind. eapply wp_mono; [apply (Hb 0%nat a x s eq_refl); by rewrite Nat.add_0_r|].
    intros [[x'|]| | |] s'; try done. intros H.
    rewrite Nat.add_succ_r. rewrite <- Nat.add_succ_l. apply IH.
    + intros j b y t Hj HIy. specialize (Hb (S j) b y t Hj).
      rewrite Nat.add_succ_r in Hb. apply Hb. done.
    + specialize (H x' eq_refl). by rewrite Nat.add_0_r in H.
Qed.

(** Publisher and subscriber use the same socket: AF_XDP, on one queue of one
    interface. *)
Definition same_socket (sdata : ServerData) (pub : PublisherData) (sub : SubscriberData) : Prop :=
  useXDP sdata = true ∧ s_xdpQueue sub = p_xdpQueue pub ∧
  cstr <$> pubInterface sdata = cstr <$> subInterface sdata.

#[export] Instance same_socket_dec sdata pub sub : Decision (same_socket sdata pub sub).
Proof. unfold same_socket. apply _. Defined.

(** The subscribers that need a layer of their own: those that do not use the
    socket of the last publisher, if there is one. *)
Definition own_layers (sdata : ServerData) (subs : list SubscriberData) : Z :=
  match last (default [] (pubData sdata)) with
  | None => 0
  | Some pub => Z.of_nat (length (filter (λ sub, ¬ same_socket sdata pub sub) subs))
  end.

Definition layer_of (sdata : ServerData) : transport :=
  if useXDP sdata then EthernetXDP else EthernetETF.

(** The configuration when [n] subscribers have taken a layer. *)
Definition with_layers (sdata : ServerData) (n : Z) (config : server_config) : Prop :=
  pubsubTransportLayersSize config = 1 + n ∧
  pubsubTransportLayers config
  = [Some (layer_of sdata); if n =? 0 then None else Some (layer_of sdata)].

Lemma new_layer_ok sdata n config :
  0 <= n → with_layers sdata n config →
  with_layers sdata (n + 1) (new_layer (layer_of sdata) config).
Proof.
  intros Hn [H1 H2]. unfold with_layers, new_layer. simpl. rewrite H1, H2.
  destruct (n + 1 =? 0) eqn:E; bool_to_prop; [lia|]. split; [lia|done].
Qed.

Section layers.
Context {OS : ua_os} {B : ua_build}.
Implicit Types s : st ua_glob call.

Lemma setup_pub_last sdata j a x s :
  a = j → on_done (setup_pub sdata a x)
    (λ r _, ∀ x', r = Some x' → x'.2 = last (take (S j) (default [] (pubData sdata)))) s.
Proof.
  intros ->. unfold setup_pub. destruct (_ !! j) as [pub|] eqn:E; [|done].
  do 2 (apply on_done_skip; intros). intros x'. destruct (_ =? -1); [done|].
  intros [= <-]. by rewrite (take_S_r _ _ _ E), last_snoc.
Qed.

(** The chain of conditions decides whether the sockets are the same. *)
Lemma shares_socket_spec sdata pub sub shared :
  pubCount sdata ≠ 0 → shares_socket sdata (Some pub) sub = Some shared →
  if shared then same_socket sdata pub sub else ¬ same_socket sdata pub sub.
Proof.
  intros Hc. unfold shares_socket, same_socket. rewrite (proj2 (Z.eqb_neq _ _) Hc). cbn [orb].
  destruct (useXDP sdata); cbn [negb]; [|by intros [= <-]; intros (? & _)].
  destruct (s_xdpQueue sub =? _) eqn:E; cbn [negb]; bool_to_prop.
  2: { intros [= <-] (_ & H & _). done. }
  destruct (pubInterface sdata) as [a|], (subInterface sdata) as [b|]; try done.
  intros [= <-]. case_bool_decide as Hab; [by rewrite E; simpl; rewrite Hab|].
  intros (_ & _ & [= H]). done.
Qed.

Lemma own_layers_snoc sdata pub subs sub :
  last (default [] (pubData sdata)) = Some pub →
  own_layers sdata (subs ++ [sub])
  = own_layers sdata subs + (if decide (same_socket sdata pub sub) then 0 else 1).
Proof.
  intros E. unfold own_layers. rewrite E, filter_app, length_app, filter_cons.
  destruct (decide (same_socket sdata pub sub)); case_decide; try tauto; simpl; lia.
Qed.

Lemma setup_sub_layers sdata pub j x s :
  counts_ok sdata → pub = last (default [] (pubData sdata)) →
  with_layers sdata (own_layers sdata (take j (default [] (subData sdata)))) x.1 →
  on_done (setup_sub sdata pub j x)
    (λ r _, ∀ x', r = Some x' →
       with_layers sdata (own_layers sdata (take (S j) (default [] (subData sdata)))) x'.1) s.
Proof.
  intros [Hc _] Hpub HI. destruct x as [config conn]. unfold setup_sub.
  destruct (default [] (subData sdata) !! j) as [sub|] eqn:E; [|done].
  destruct (shares_socket _ _ _) as [shared|] eqn:Es; [|done].
  rewrite (take_S_r _ _ _ E). cbn [fst] in *.
  assert (own_layers sdata (take j (default [] (subData sdata)) ++ [sub])
    = own_layers sdata (take j (default [] (subData sdata)))
      + (if shared || (pubCount sdata =? 0) then 0 else 1)) as ->.
  { destruct pub as [pub|].
    - assert (pubCount sdata ≠ 0) as Hn.
      { rewrite Hc. destruct (default [] (pubData sdata)); [discriminate|simpl; lia]. }
      rewrite (own_layers_snoc _ pub) by done. rewrite (proj2 (Z.eqb_neq _ _) Hn), orb_false_r.
      pose proof (shares_socket_spec _ _ _ _ Hn Es) as H.
      destruct shared; [by rewrite decide_True by done|by rewrite decide_False by done].
    - unfold own_layers. rewrite <- Hpub.
      symmetry in Hpub. apply last_None in Hpub. rewrite Hpub in Hc. rewrite Hc.
      change (Z.of_nat _ =? 0) with true. by rewrite orb_true_r. }
  set (n := own_layers _ _) in *. destruct shared; cbn [orb].
  - apply on_done_bind, wp_ret, on_done_skip. intros ret t x'. destruct (_ =? -1); [done|].
    intros [= <-]. by rewrite Z.add_0_r.
  - apply on_done_bind, on_done_skip. intros conn' s'. cbn zeta.
    apply wp_ret, on_done_skip. intros ret t x'. destruct (ret =? -1); [done|].
    intros [= <-]. cbn [fst]. destruct (pubCount sdata =? 0).
    + by rewrite Z.add_0_r.
    + apply (new_layer_ok sdata); [unfold n, own_layers; case_match; lia|exact HI].
Qed.
End layers.

(** ** Properties: transport layers *)

(** C27: the server is set up with one transport layer and, when there are
    publishers, with one more for every subscriber that does not use the same
    socket (AF_XDP, one queue of one interface) as the last publisher of the
    configuration.  Only two layers are ever stored, in an array of two: from the
    second such subscriber on the configuration declares more layers than the
    array holds.  (The comment in the code means any publisher:
    earlier_publisher_not_shared.) *)
Theorem setupOpcuaServer_layers {OS : ua_os} {B : ua_build} sdata s :
  counts_ok sdata →
  on_done (setupOpcuaServer sdata)
    (λ r _, ∀ config, r = Some config →
       let own := own_layers sdata (default [] (subData sdata)) in
       with_layers sdata own config ∧
       (pubsubTransportLayersSize config
        <= Z.of_nat (length (pubsubTransportLayers config)) ↔ own <= 1)) s.
Proof.
  intros Hc. pose proof Hc as [Hc1 Hc2]. unfold setupOpcuaServer.
  do 3 (apply on_done_skip; intros ? ?). destruct (negb _).
  { apply on_done_skip. intros _ ? config. done. }
  apply on_done_bind. eapply wp_mono.
  { apply (try_each_values (λ i x, x.2 = last (take i (default [] (pubData sdata)))))
      with (i := 0%nat); [|done].
    intros j i x s3 Hj _. apply lookup_seq_0 in Hj as [-> _]. by apply setup_pub_last. }
  intros [[[conn pub]|]| | |] s1; try done.
  { intros H. specialize (H _ eq_refl). cbn [snd] in H.
    rewrite length_seq, Hc1, Nat2Z.id, Nat.add_0_l, firstn_all in H.
    apply on_done_bind. eapply wp_mono.
    { apply (try_each_values (λ i x,
        with_layers sdata (own_layers sdata (take i (default [] (subData sdata)))) x.1))
        with (i := 0%nat); [|by unfold own_layers; case_match].
      intros j i x s4 Hj HI. apply lookup_seq_0 in Hj as [-> _]. by apply setup_sub_layers. }
    intros [[[config ?]|]| | |] s2; try done.
    intros Hs config' [= <-]. specialize (Hs _ eq_refl). cbn [fst] in Hs.
    rewrite length_seq, Hc2, Nat2Z.id, Nat.add_0_l, firstn_all in Hs.
    split; [exact Hs|]. destruct Hs as [-> ->]. simpl. lia. }
Qed.

(** ** Specification: threads *)

Definition indices (pub : bool) (n : Z) : list (bool * Z) := (λ i, (pub, i)) <$> seqZ 0 n.

(** What is relied on of open62541: it registers one callback when a writer
    group is made operational, for a group whose identifier is read as such, and
    one when a reader group is added.  What the hook reads of a reader group, at
    the place of a writer group's identifier, may be anything that is not the
    identifier of a writer group (or the null identifier). *)
Record registers_on_activation `{!ua_os} : Prop := {
  ra_writer : ∀ wg tr, os_register (SetWriterGroupOperational wg :: tr) = [wg];
  ra_reader : ∀ c tr, ∃ bytes, os_register (AddReaderGroup c :: tr) = [bytes] ∧ bytes ≠ 0 ∧
    ∀ conn gid interval tr', bytes ≠ os_node (AddWriterGroup conn gid interval :: tr');
  ra_none : ∀ c tr, match c with SetWriterGroupOperational _ | AddReaderGroup _ => False | _ => True end →
    os_register (c :: tr) = []
}.

(** [i] publishers and [j] subscribers have been started. *)
Record threads_inv `{!ua_os} (sdata : ServerData) (i j : Z) (s : st ua_glob call) : Prop := {
  ti_run : g_threadRun (glob s) = i + j;
  ti_pub : g_indexPub (glob s) = i;
  ti_sub : g_indexSub (glob s) = j;
  ti_data : g_sData (glob s) = sdata;
  ti_table : length (g_thread (glob s)) = Z.to_nat MAX_OPCUA_THREAD;
  ti_wg : g_writerGroupIdent (glob s) = 0 ∨
          ∃ conn gid interval tr,
            g_writerGroupIdent (glob s) = os_node (AddWriterGroup conn gid interval :: tr);
  ti_started : started (trace s) = indices true i ++ indices false j;
  ti_joined : joined (trace s) = [];
  ti_created : take (Z.to_nat (i + j)) (g_thread (glob s)) = created (trace s);
  ti_sched : sched_accepted (trace s)
}.

(** ** Lemmas: threads *)

Lemma indices_snoc pub n : 0 <= n → indices pub (n + 1) = indices pub n ++ [(pub, n)].
Proof.
  intros H. unfold indices. rewrite seqZ_app, fmap_app by lia. by rewrite Z.add_0_l.
Qed.

Section thread_lemmas.
Context {OS : ua_os} {B : ua_build}.
Context (Hra : registers_on_activation) (Hok : mallocs_succeed).
Context (sdata : ServerData) (Hcounts : counts_ok sdata)
  (Hmax : pubCount sdata + subCount sdata <= MAX_OPCUA_THREAD).
Implicit Types s : st ua_glob call.

(** A postcondition of set-up steps: the process may also end with 1, because
    a scheduling request is refused. *)
Definition or_exit {A} (Q : A → st ua_glob call → Prop) (o : outcome A) s : Prop :=
  match o with Done a => Q a s | Exited c => c = 1 ∧ sched_refused (trace s) | _ => False end.

Lemma or_exit_bind {A C} (m : T A) (k : A → T C) (P : A → st ua_glob call → Prop) Q s :
  wp m (or_exit P) s → (∀ a s', P a s' → wp (k a) (or_exit Q) s') →
  wp (m ≫= k) (or_exit Q) s.
Proof.
  intros Hm Hk. apply wp_bind. eapply wp_mono; [exact Hm|].
  intros [a|c| |] s'; simpl; try done. apply Hk.
Qed.

Definition quiet (c : call) : bool :=
  match c with
  | SetWriterGroupOperational _ | AddReaderGroup _ | ThreadCreate _ _ | ThreadJoin _
  | SchedParam _ | Affinity _ => false
  | _ => true end.

Lemma quiet_inv i j c s :
  quiet c = true → threads_inv sdata i j s → threads_inv sdata i j (mkSt (glob s) (c :: trace s)).
Proof. intros Hq []. split; simpl; try done; by destruct c. Qed.

Lemma library_quiet i j c s :
  quiet c = true → threads_inv sdata i j s →
  wp (library c) (or_exit (λ _, threads_inv sdata i j)) s.
Proof.
  intros Hq HI. unfold library. apply wp_bind, wp_ask. rewrite (ra_none Hra) by by destruct c.
  apply wp_ret. by apply quiet_inv.
Qed.

Lemma library_id_quiet i j c s :
  quiet c = true → threads_inv sdata i j s →
  wp (library_id c)
     (or_exit (λ id s', threads_inv sdata i j s' ∧ id = os_node (c :: trace s))) s.
Proof.
  intros Hq HI. unfold library_id. apply wp_bind, wp_ask. rewrite (ra_none Hra) by by destruct c.
  apply wp_bind, wp_ret, wp_ret. split; [by apply quiet_inv|done].
Qed.

Lemma library_id_inv i j c s :
  quiet c = true → threads_inv sdata i j s →
  wp (library_id c) (or_exit (λ _, threads_inv sdata i j)) s.
Proof.
  intros Hq HI. eapply wp_mono; [by apply library_id_quiet|].
  intros [] s'; simpl; tauto.
Qed.

(** One registration. *)
Lemma hook_ok group (pub : bool) i j s :
  (group =? g_writerGroupIdent (glob s)) = pub →
  0 <= i → 0 <= j → i + j < MAX_OPCUA_THREAD →
  (if pub then i < pubCount sdata ∧ j = 0 else j < subCount sdata) →
  threads_inv sdata i j s →
  wp (run_hooks [group]) (or_exit (λ _ s',
    threads_inv sdata (if pub then i + 1 else i) (if pub then j else j + 1) s' ∧
    g_writerGroupIdent (glob s') = g_writerGroupIdent (glob s))) s.
Proof.
  intros Hg Hi Hj Hm Hl [T1 T2 T3 T4 T5 T6 T7 T8 T9 T10]. destruct Hcounts as [C1 C2].
  unfold MAX_OPCUA_THREAD in Hm. unfold run_hooks, for_each. do 2 apply wp_bind.
  eapply wp_mono; [apply (addRepeatedCallback_ok group s)|]; rewrite ?T1, ?T2, ?T3, ?T4, ?Hg;
    unfold MAX_OPCUA_THREAD; try lia; [destruct pub; lia|].
  intros [r|c| |] s'; simpl; try done; [|tauto].
  intros [(Ha & _)|(_ & prio & cpu & id & (R1 & R2 & R3 & R4 & R5 & R6) & _ & A1 & A2 & Ht & Eid)].
  { by rewrite Hok in Ha. }
  do 2 apply wp_ret. split; [|exact R6]. split.
  - destruct pub; lia.
  - destruct pub; lia.
  - destruct pub; lia.
  - congruence.
  - by rewrite R2, length_insert.
  - rewrite R6. exact T6.
  - rewrite Ht. simpl. rewrite T7. destruct pub.
    + destruct Hl as [_ ->]. rewrite indices_snoc by lia. unfold indices.
      change (seqZ 0 0) with (@nil Z). by rewrite fmap_nil, !app_nil_r.
    + rewrite indices_snoc by lia. by rewrite app_assoc.
  - by rewrite Ht.
  - rewrite Ht in Eid |- *. cbn [created]. rewrite <- Eid, <- T9, R2, T1.
    replace (Z.to_nat ((if pub then i + 1 else i) + (if pub then j else j + 1)))
      with (S (Z.to_nat (i + j))) by (destruct pub; lia).
    rewrite (take_S_r _ _ id) by (apply list_lookup_insert_eq; rewrite T5; unfold MAX_OPCUA_THREAD; lia).
    by rewrite take_insert_ge by lia.
  - rewrite Ht. cbn [sched_accepted]. done.
Qed.

Lemma library_hook c (pub : bool) i j s :
  (if pub then c = SetWriterGroupOperational (g_writerGroupIdent (glob s))
   else ∃ conn, c = AddReaderGroup conn) →
  0 <= i → 0 <= j → i + j < MAX_OPCUA_THREAD →
  (if pub then i < pubCount sdata ∧ j = 0 else j < subCount sdata) →
  threads_inv sdata i j s →
  wp (run_hooks (os_register (c :: trace s))) (or_exit (λ _ s',
    threads_inv sdata (if pub then i + 1 else i) (if pub then j else j + 1) s' ∧
    g_writerGroupIdent (glob s') = g_writerGroupIdent (glob s))) (mkSt (glob s) (c :: trace s)).
Proof.
  intros Hc Hi Hj Hm Hl HI.
  assert (∃ read, os_register (c :: trace s) = [read] ∧
    (read =? g_writerGroupIdent (glob s)) = pub) as (read & -> & Hread).
  { destruct pub; [subst c; eexists; split; [apply (ra_writer Hra)|apply Z.eqb_refl]|].
    destruct Hc as [conn ->]. destruct (ra_reader Hra conn (trace s)) as (bytes & E & Hn & Hd).
    exists bytes. split; [done|]. apply Z.eqb_neq.
    by destruct (ti_wg _ _ _ _ HI) as [->|(? & ? & ? & ? & ->)]. }
  apply (hook_ok _ pub i j (mkSt (glob s) (c :: trace s))); try done.
  destruct pub; [subst c|destruct Hc as [? ->]]; destruct HI; by split.
Qed.

Lemma malloc_quiet i j b s :
  threads_inv sdata i j s →
  wp (unchecked_malloc b) (or_exit (λ _, threads_inv sdata i j)) s.
Proof.
  intros HI. unfold unchecked_malloc, wp. cbn [fst snd]. rewrite Hok.
  by apply (quiet_inv i j (UaMalloc b true)).
Qed.

Lemma addWriterGroup_ok conn pd i s :
  0 <= i < pubCount sdata → threads_inv sdata i 0 s →
  wp (addWriterGroup conn sdata pd) (or_exit (λ _, threads_inv sdata (i + 1) 0)) s.
Proof.
  intros Hi HI. unfold addWriterGroup.
  eapply or_exit_bind; [by apply malloc_quiet|]. intros [] s1 H1.
  eapply or_exit_bind; [by apply library_id_quiet|]. intros wg s2 [H2 Hwg].
  apply wp_bind. unfold modify at 1, wp at 1. cbn [fst snd].
  set (s3 := mkSt _ (trace s2)).
  assert (threads_inv sdata i 0 s3 ∧ g_writerGroupIdent (glob s3) = wg) as [H3 Ewg].
  { destruct H2. unfold s3. destruct s2 as [[] tr2]. cbn [glob trace] in *.
    split; [|reflexivity]. split; simpl in *; try done. right. by eexists _, _, _, _. }
  unfold library. eapply or_exit_bind.
  { apply wp_bind, wp_ask. rewrite <- Ewg.
    apply (library_hook (SetWriterGroupOperational (g_writerGroupIdent (glob s3))) true i 0 s3);
      try done; try lia.
    destruct Hcounts as [C1 C2]. lia. }
  intros [] s4 [H4 _]. apply wp_ask. by apply (quiet_inv (i + 1) 0 (UaFree _)).
Qed.

Lemma createPublisher_ok i pd conn s :
  0 <= i < pubCount sdata → threads_inv sdata i 0 s →
  wp (createPublisher sdata i pd conn)
     (or_exit (λ r s', r = 0 ∧ threads_inv sdata (i + 1) 0 s')) s.
Proof.
  intros Hi HI. unfold createPublisher, addPublishedDataSet.
  eapply or_exit_bind; [by apply library_id_quiet|]. intros pds s1 [H1 _].
  eapply or_exit_bind.
  { unfold addDataSetField. eapply or_exit_bind; [by apply library_quiet|].
    intros [] s' H'. by apply library_quiet. }
  intros [] s2 H2. eapply or_exit_bind; [by apply addWriterGroup_ok|]. intros [] s3 H3.
  apply wp_bind. unfold get at 1, wp at 1. cbn [fst snd].
  eapply or_exit_bind with (P := λ _, threads_inv sdata (i + 1) 0).
  { unfold addDataSetWriter. eapply or_exit_bind; [by apply library_id_quiet|].
    intros id s' [H' _]. apply wp_ret. exact H'. }
  intros [] s4 H4. apply wp_bind. unfold get at 1, wp at 1. cbn [fst snd].
  eapply or_exit_bind; [by apply library_quiet|]. intros [] s5 H5. by apply wp_ret.
Qed.

Lemma createSubscriber_ok j sub conn s :
  0 <= j < subCount sdata → threads_inv sdata (pubCount sdata) j s →
  wp (createSubscriber j sub conn)
     (or_exit (λ r s', r = 0 ∧ threads_inv sdata (pubCount sdata) (j + 1) s')) s.
Proof.
  intros Hj HI. destruct Hcounts as [C1 C2]. unfold createSubscriber, addReaderGroup, library_id.
  eapply or_exit_bind with (P := λ _, threads_inv sdata (pubCount sdata) (j + 1)).
  { apply wp_bind, wp_ask. eapply or_exit_bind.
    - apply (library_hook _ false (pubCount sdata) j); try done; try lia; eauto.
    - intros [] s1 [H1 _]. apply wp_ret. exact H1. }
  intros rg s1 H1. eapply or_exit_bind with (P := λ _, threads_inv sdata (pubCount sdata) (j + 1)).
  { unfold addDataSetReader. eapply or_exit_bind with (P := λ _, threads_inv sdata (pubCount sdata) (j + 1));
      [by apply malloc_quiet|].
    intros [] s' H'. by apply library_id_inv. }
  intros reader s2 H2. eapply or_exit_bind with (P := λ _, threads_inv sdata (pubCount sdata) (j + 1)).
  { unfold addSubscribedVariables. eapply or_exit_bind with (P := λ _, threads_inv sdata (pubCount sdata) (j + 1));
      [by apply library_quiet|].
    intros [] s3 H3. apply wp_bind. unfold checked_malloc, wp at 1. cbn [fst snd].
    rewrite Hok. apply library_quiet; [done|]. by apply (quiet_inv _ _ (UaMalloc _ true)). }
  intros [] s4 H4. by apply wp_ret.
Qed.

Lemma wp_try_each {A X} (I : nat → X → st ua_glob call → Prop) (l : list A)
  (body : A → X → T (option X)) i x s :
  (∀ j a x s, l !! j = Some a → I (i + j)%nat x s →
     wp (body a x) (or_exit (λ r s', ∃ x', r = Some x' ∧ I (S (i + j)) x' s')) s) →
  I i x s →
  wp (try_each l body x) (or_exit (λ r s', ∃ x', r = Some x' ∧ I (i + length l)%nat x' s')) s.
Proof.
  revert i x s. induction l as [|a l IH]; intros i x s Hb HI; simpl.
  - apply wp_ret. exists x. by rewrite Nat.add_0_r.
  - eapply or_exit_bind; [apply (Hb 0%nat a x s eq_refl); by rewrite Nat.add_0_r|].
    intros r s' (x' & -> & HI'). rewrite Nat.add_0_r in HI'.
    rewrite Nat.add_succ_r, <- Nat.add_succ_l. apply IH; [|done].
    intros j b y t Hj HIy. specialize (Hb (S j) b y t Hj).
    rewrite Nat.add_succ_r in Hb. by apply Hb.
Qed.

Lemma setup_pub_ok j x s :
  (j < length (default [] (pubData sdata)))%nat → threads_inv sdata (Z.of_nat j) 0 s →
  wp (setup_pub sdata j x)
     (or_exit (λ r s', ∃ x', r = Some x' ∧ x'.2 ≠ None ∧
                       threads_inv sdata (Z.of_nat (S j)) 0 s')) s.
Proof.
  intros Hj HI. destruct Hcounts as [C1 C2]. unfold setup_pub.
  destruct (lookup_lt_is_Some_2 _ _ Hj) as [pub ->].
  eapply or_exit_bind; [by apply library_id_inv|]. intros conn s1 H1.
  eapply or_exit_bind; [apply createPublisher_ok; [lia|exact H1]|].
  intros r s2 [-> H2]. apply wp_ret. eexists. split; [done|]. split; [done|].
  by replace (Z.of_nat (S j)) with (Z.of_nat j + 1) by lia.
Qed.

Lemma setup_sub_ok pub j x s :
  (pubCount sdata ≠ 0 → pub ≠ None) → pubInterface sdata ≠ None → subInterface sdata ≠ None →
  (j < length (default [] (subData sdata)))%nat →
  threads_inv sdata (pubCount sdata) (Z.of_nat j) s →
  wp (setup_sub sdata pub j x)
     (or_exit (λ r s', ∃ x', r = Some x' ∧
                       threads_inv sdata (pubCount sdata) (Z.of_nat (S j)) s')) s.
Proof.
  intros Hpub Hpi Hsi Hj HI. destruct Hcounts as [C1 C2]. destruct x as [config conn].
  unfold setup_sub. destruct (lookup_lt_is_Some_2 _ _ Hj) as [sub ->].
  assert (∃ shared, shares_socket sdata pub sub = Some shared) as [shared ->].
  { unfold shares_socket. destruct (pubCount sdata =? 0) eqn:E; [by eexists|].
    destruct (useXDP sdata); [|by eexists]. cbn [negb orb]. bool_to_prop.
    destruct pub; [|by specialize (Hpub E)]. destruct (_ =? _); [|by eexists].
    destruct (pubInterface sdata), (subInterface sdata); try done. by eexists. }
  eapply or_exit_bind with (P := λ _, threads_inv sdata (pubCount sdata) (Z.of_nat j)).
  { destruct shared; [by apply wp_ret|].
    eapply or_exit_bind with (P := λ _, threads_inv sdata (pubCount sdata) (Z.of_nat j));
      [|intros; by apply wp_ret].
    unfold addSubConnection. destruct (s_id sub =? 0).
    - apply wp_bind, wp_ask, library_id_inv; [done|]. by apply (quiet_inv _ _ UaRandom).
    - apply wp_bind, wp_ret. by apply library_id_inv. }
  intros [config' conn'] s1 H1.
  eapply or_exit_bind; [apply createSubscriber_ok; [lia|exact H1]|].
  intros r s2 [-> H2]. apply wp_ret. eexists. split; [done|].
  by replace (Z.of_nat (S j)) with (Z.of_nat j + 1) by lia.
Qed.

Lemma setup_ok s :
  pubInterface sdata ≠ None → subInterface sdata ≠ None → threads_inv sdata 0 0 s →
  wp (setupOpcuaServer sdata)
     (or_exit (λ r s', r ≠ None ∧
                       threads_inv sdata (pubCount sdata) (subCount sdata) s')) s.
Proof.
  intros Hpi Hsi HI. pose proof Hcounts as [C1 C2]. unfold setupOpcuaServer.
  apply wp_bind, wp_ask. apply wp_bind, wp_ask. apply wp_bind. unfold wp at 1.
  cbn [fst snd glob trace]. rewrite Hok. cbn [negb].
  match goal with |- wp _ _ ?t => set (s1 := t) end.
  assert (threads_inv sdata 0 0 s1) as H1.
  { destruct HI. by split. }
  eapply or_exit_bind.
  { apply (wp_try_each (λ i x t, (i ≠ 0%nat → x.2 ≠ None) ∧
                                 threads_inv sdata (Z.of_nat i) 0 t)) with (i := 0%nat).
    - intros j a x t Hj [_ Ht]. apply lookup_seq_0 in Hj as [-> Hj]. rewrite Nat.add_0_l in *.
      eapply wp_mono; [apply setup_pub_ok; [lia|exact Ht]|].
      intros [r|c| |] t'; simpl; try done. intros (x' & -> & Hx & Ht'). eauto.
    - done. }
  intros r s2 ([conn pub] & -> & Hpub & H2). rewrite length_seq, Nat.add_0_l in *.
  rewrite Z2Nat.id in H2 by lia.
  eapply or_exit_bind.
  { apply (wp_try_each (λ i x t, threads_inv sdata (pubCount sdata) (Z.of_nat i) t))
      with (i := 0%nat); [|exact H2].
    intros j a x t Hj Ht. apply lookup_seq_0 in Hj as [-> Hj]. rewrite Nat.add_0_l in *.
    apply setup_sub_ok; try done; [|lia]. intros Hz. apply Hpub. lia. }
  intros r s3 ([config conn'] & -> & H3). rewrite length_seq, Nat.add_0_l, Z2Nat.id in H3 by lia.
  by apply wp_ret.
Qed.
End thread_lemmas.

(** ** Lemmas: shutdown *)

(** Steps that, from globals that satisfy [P], finish, touch no global, and
    start, schedule and join no thread. *)
Definition inert `{!ua_os} {A} (P : ua_glob → Prop) (m : T A) : Prop := ∀ s, P (glob s) →
  wp m (λ o s', is_done o = true ∧ glob s' = glob s ∧
                threads_of (trace s') = threads_of (trace s)) s.

Section inert.
Context {OS : ua_os} (P : ua_glob → Prop).

Lemma inert_ret {A} (a : A) : inert P (mret a).
Proof. by intros s. Qed.

Lemma inert_ask {X} c (f : list call → X) :
  match c with
  | ThreadCreate _ _ | ThreadJoin _ | SchedParam _ | Affinity _ => False
  | _ => True
  end → inert P (ask c f).
Proof. intros Hc s _. apply wp_ask. by destruct c. Qed.

Lemma inert_bind {A C} (m : T A) (k : A → T C) :
  inert P m → (∀ a, inert P (k a)) → inert P (m ≫= k).
Proof.
  intros Hm Hk s HP. apply wp_bind. eapply wp_mono; [by apply Hm|].
  intros [a|c| |] s' (Hd & Hg & Hs); try done.
  eapply wp_mono; [apply Hk; by rewrite Hg|]. rewrite <- Hg, <- Hs. auto.
Qed.

Lemma inert_get {C} (k : ua_glob → T C) :
  (∀ g, P g → inert P (k g)) → inert P (get ≫= k).
Proof.
  intros Hk s HP. apply wp_bind. unfold get at 1, wp at 1. cbn [fst snd]. by apply Hk.
Qed.

Lemma inert_each {A X} (l : list A) (body : A → X → T X) x :
  (∀ a x, inert P (body a x)) → inert P (for_each l body x).
Proof.
  intros Hb. revert x. induction l as [|a l IH]; intros x; simpl; [apply inert_ret|].
  by apply inert_bind.
Qed.

Lemma inert_str p : inert P (free_str p).
Proof. destruct p; [by apply inert_ask|apply inert_ret]. Qed.

Lemma inert_when b (m : T unit) : inert P m → inert P (when b m).
Proof. intros H. destruct b; [exact H|apply inert_ret]. Qed.

Lemma inert_free_resources sd : counts_ok sd → inert P (free_resources (Some sd)).
Proof.
  intros [C1 C2]. unfold free_resources, first_entries. rewrite C1, C2, !Z.ltb_irrefl.
  repeat first [apply inert_bind; [|intros] | apply inert_ret | by apply inert_ask
               | apply inert_str | apply inert_when | apply inert_each; intros ].
  case_match; [|apply inert_ret].
  by apply inert_bind; [|intros]; apply inert_ask.
Qed.
End inert.

(** The clock logs end before [n] calls have been made. *)
Definition logs_end `{!ua_os} (n : nat) : Prop :=
  ∀ tr, (n ≤ length tr)%nat → os_fgetc tr = None.

Lemma inert_copy_file {OS : ua_os} P n fuel src dst :
  logs_end n → (n < fuel)%nat → inert P (copy_file fuel src dst false).
Proof.
  intros Hn Hf. unfold copy_file.
  apply inert_bind; [by apply inert_ask|]. intros []; [|apply inert_ret].
  apply inert_bind; [by apply inert_ask|]. intros []; [|by apply inert_ask].
  apply inert_bind; [|intros; repeat (apply inert_bind; [by apply inert_ask|intros]);
                       apply inert_ret].
  intros s _. set (Q := λ t : st ua_glob call, glob t = glob s ∧
    threads_of (trace t) = threads_of (trace s)).
  apply (wp_loop_measure (λ _, Q) (λ _ t, n - length (trace t))%nat); [|done|lia].
  intros [] t HQ. apply wp_bind, wp_ask. specialize (Hn (LogFgetc src :: trace t)).
  destruct (os_fgetc _).
  - apply wp_bind, wp_ask, wp_ret. split; [exact HQ|]. cbn [trace length] in *.
    destruct (le_lt_dec n (S (length (trace t)))); [by specialize (Hn l)|lia].
  - apply wp_ret. done.
Qed.

(** The threads of [s] when the first [n] of the table have been joined. *)
Definition joined_first `{!ua_os} (n : nat) (s : st ua_glob call) :=
  (started (trace s), joined (trace s) ++ take n (g_thread (glob s)), created (trace s),
   sched_accepted (trace s)).

Lemma join_threads_ok {OS : ua_os} s :
  (0 <= g_threadRun (glob s) <= Z.of_nat (length (g_thread (glob s))))%Z →
  wp join_threads
     (λ o s', o = Done tt ∧ glob s' = glob s ∧
              threads_of (trace s') = joined_first (Z.to_nat (g_threadRun (glob s))) s) s.
Proof.
  intros H. unfold join_threads. apply wp_bind. unfold get at 1, wp at 1. cbn [fst snd].
  apply wp_for_each with (i := 0%nat)
    (I := λ i (_ : unit) t, glob t = glob s ∧ threads_of (trace t) = joined_first i s).
  - intros j a [] t Hj (Hg & Hs). apply lookup_seq_0 in Hj as [-> Hj].
    rewrite Nat.add_0_l in *. apply wp_bind. unfold get at 1, wp at 1. cbn [fst snd].
    rewrite Hg. destruct (lookup_lt_is_Some_2 (g_thread (glob s)) j) as [id Hid]; [lia|].
    rewrite Hid. apply wp_ask. cbn [glob trace]. split; [done|].
    unfold threads_of, joined_first in *. cbn [started joined created sched_accepted].
    injection Hs as -> -> -> ->. by rewrite (take_S_r _ _ _ Hid), app_assoc.
  - intros [] t (Hg & Hs). rewrite length_seq in Hs. done.
  - unfold joined_first. by rewrite app_nil_r.
Qed.

Lemma grows_free_resources sd : grows (free_resources sd).
Proof.
  destruct sd; simpl; [|apply adds_ret]. unfold first_entries, free_pub, free_sub, free_str. grow.
Qed.

#[export] Hint Resolve grows_free_resources : grows.

Lemma grows_shutdown {OS : ua_os} fuel : grows (join_threads;; shutdown fuel).
Proof. unfold join_threads, shutdown, ts_log_stop, copy_file. grow. Qed.

Lemma shutdown_ok {OS : ua_os} n fuel :
  logs_end n → (n < fuel)%nat → inert (λ g, counts_ok (g_sData g)) (shutdown fuel).
Proof.
  intros Hn Hf. unfold shutdown, ts_log_stop. apply inert_bind.
  { apply inert_bind; intros; by apply (inert_copy_file _ n). }
  intros _. apply inert_get. intros g _. apply inert_bind.
  { case_match; [|apply inert_ret]. apply inert_bind; [by apply inert_ask|intros; apply inert_ret]. }
  intros _. apply inert_bind; [by apply inert_ask|]. intros _. apply inert_get. intros g' Hg.
  by apply inert_free_resources.
Qed.

(** From the start of the server's loop to the end of the process. *)
Lemma run_server_ok {OS : ua_os} n fuel config s :
  registers_on_activation → logs_end n → (n < fuel)%nat → counts_ok (g_sData (glob s)) →
  0 <= g_threadRun (glob s) <= Z.of_nat (length (g_thread (glob s))) →
  wp (run_server fuel config)
     (λ o s', glob s' = glob s ∧
              threads_of (trace s') = joined_first (Z.to_nat (g_threadRun (glob s))) s ∧
              o = Done (if os_server_run (ServerRun config :: trace s) =? UA_STATUSCODE_GOOD
                        then EXIT_SUCCESS else EXIT_FAILURE) ∧
              extends (mkSt (glob s) (ServerRun config :: trace s)) s') s.
Proof.
  intros Hra Hn Hf Hc Ht. unfold run_server, run_server_with.
  apply wp_bind, wp_ask. rewrite (ra_none Hra) by done.
  set (s1 := mkSt _ _). do 2 apply wp_bind, wp_ret.
  pose proof (grows_shutdown fuel s1) as Hgrow.
  pose proof (join_threads_ok s1 Ht) as Hj. unfold wp, mbind, M_bind in *.
  destruct (join_threads s1) as [o s2]. cbn [fst snd] in *. destruct Hj as (-> & G2 & S2).
  assert (counts_ok (g_sData (glob s2))) as Hc2 by (by rewrite G2).
  pose proof (shutdown_ok n fuel Hn Hf s2 Hc2) as Hs. unfold wp in Hs.
  destruct (shutdown fuel s2) as [[[]|c| |] s3]; cbn [fst snd] in *;
    destruct Hs as (Hd & G3 & S3); try done.
  cbn [mret M_ret fst snd]. rewrite G3, S3, G2, S2. done.
Qed.

(** ** Properties: the life of the server *)

(** C10: a configuration of at most 65535 publishers and subscribers is served as
    follows.  An unreadable clock, or more than six of them, ends the process with
    -1; a scheduling request that is refused ends it, at once, with 1.  Otherwise,
    and only then, one thread per publisher and per subscriber is started, in the
    order of the configuration and each with its own index, every thread that was
    created is waited for, by the identifier of its creation and in that order,
    and the result is EXIT_SUCCESS exactly when the server's run succeeded.  No
    table is overrun and no NULL pointer used.  This relies on open62541 registering
    groups when they become active, and on what the hook reads of a reader group
    not looking like a writer group's identifier (registers_on_activation), and on
    every allocation to succeed, checked or not (mallocs_succeed). *)
Theorem serve_threads {OS : ua_os} {B : ua_build} n fuel sdata s :
  registers_on_activation → mallocs_succeed → logs_end n → (n < fuel)%nat →
  counts_ok sdata → pubInterface sdata ≠ None → subInterface sdata ≠ None →
  pubCount sdata + subCount sdata < 65536 →
  0 <= start_time (tv_sec (os_clock (ClockGettime :: trace s))) < 2 ^ 64 →
  g_indexPub (glob s) = 0 → g_indexSub (glob s) = 0 → g_writerGroupIdent (glob s) = 0 →
  length (g_thread (glob s)) = 6%nat →
  started (trace s) = [] → joined (trace s) = [] → created (trace s) = [] →
  sched_accepted (trace s) →
  let total := pubCount sdata + subCount sdata in
  let readable := os_clock_ret (ClockGettime :: trace s) ≠ -1 in
  wp (serve fuel sdata)
     (λ out s', match out with
        | Done r =>
            readable ∧ total <= MAX_OPCUA_THREAD ∧ sched_accepted (trace s') ∧
            started (trace s') = indices true (pubCount sdata) ++ indices false (subCount sdata) ∧
            length (created (trace s')) = Z.to_nat total ∧
            joined (trace s') = created (trace s') ∧
            ∃ config old new, trace s' = new ++ ServerRun config :: old ∧
              r = if os_server_run (ServerRun config :: old) =? UA_STATUSCODE_GOOD
                  then EXIT_SUCCESS else EXIT_FAILURE
        | Exited c =>
            c = -1 ∧ (¬ readable ∨ total > MAX_OPCUA_THREAD) ∨
            c = 1 ∧ readable ∧ total <= MAX_OPCUA_THREAD ∧ sched_refused (trace s')
        | _ => False end) s.
Proof.
  intros Hra Hok Hn Hf Hc Hpi Hsi Hw Hclock Hip His Hwg Hlen Hst Hjo Hcr Hsa total readable.
  pose proof Hc as [C1 C2]. unfold serve, serve_with.
  apply wp_bind. eapply wp_mono; [by apply configureServer_ok|].
  intros [[r sd]| | |] s1 H1; try done. destruct H1 as (Ht1 & H1).
  destruct (_ =? -1) eqn:Eclock; bool_to_prop.
  { destruct H1 as (-> & _). simpl. left. split; [done|]. left. unfold readable. tauto. }
  destruct H1 as (-> & q & -> & Hg). cbn [Z.eqb]. set (sd := configured _ _ _).
  assert (pubCount sd = pubCount sdata ∧ subCount sd = subCount sdata ∧ counts_ok sd ∧
          pubInterface sd = pubInterface sdata ∧ subInterface sd = subInterface sdata)
    as (Ep & Es & Hc' & Epi & Esi).
  { by apply configured_same. }
  rewrite Ep, Es. fold total. rewrite (wrapU_small 16) by lia. unfold MAX_OPCUA_THREAD at 1.
  destruct (total >? 6) eqn:Etot; bool_to_prop.
  { simpl. left. split; [done|]. right. unfold MAX_OPCUA_THREAD. lia. }
  apply wp_bind. unfold modify at 1, wp at 1. cbn [fst snd]. set (s2 := mkSt _ (trace s1)).
  assert (threads_inv sd 0 0 s2) as HI.
  { assert (g_indexPub (glob s1) = 0 ∧ g_indexSub (glob s1) = 0 ∧
            g_writerGroupIdent (glob s1) = 0 ∧ length (g_thread (glob s1)) = 6%nat)
      as (? & ? & ? & ?).
    { destruct (two_way sdata); destruct Hg as [_ Hg]; rewrite Hg; by destruct (glob s). }
    unfold threads_of in Ht1. injection Ht1 as E1 E2 E3 E4.
    unfold s2. destruct (glob s1); simpl in *.
    split; simpl; try done; [by left|by rewrite E1, Hst|by rewrite E2, Hjo|by rewrite E3, Hcr|].
    by rewrite E4. }
  apply wp_bind. eapply wp_mono.
  { apply (setup_ok Hra Hok sd Hc'); try congruence.
    rewrite Ep, Es. unfold MAX_OPCUA_THREAD. lia. }
  intros out s3 Hout.
  destruct out as [[config|]|c| |]; cbn [or_exit] in Hout; try done; try tauto.
  - destruct Hout as [_ [T1 _ _ T4 T5 _ T7 T8 T9 T10]]. rewrite Ep, Es in *. fold total in T1, T9.
    eapply wp_mono; [apply (run_server_ok n); try done|].
    + by rewrite T4.
    + rewrite T1, T5. unfold total, MAX_OPCUA_THREAD in *. lia.
    + intros o s4 (G4 & S4 & -> & new & Hnew & _). cbn [trace] in Hnew.
      unfold threads_of, joined_first in S4. injection S4 as -> -> -> ->.
      rewrite T8, T1, T9. cbn [app].
      split; [exact Eclock|]. split; [unfold MAX_OPCUA_THREAD; lia|]. split; [done|].
      split; [done|]. split; [|split; [done|by eexists config, _, new]].
      rewrite <- T9, length_take, T5. unfold MAX_OPCUA_THREAD, total in *. lia.
  - simpl. right. destruct Hout. unfold MAX_OPCUA_THREAD. split; [done|].
    split; [exact Eclock|]. split; [lia|done].
Qed.

(** On AF_XDP a subscriber and the publishers bind their sockets in the same
    copy mode, and run the driver in the same mode unless generic mode is asked
    for without zero copy, which publishers ignore; without AF_XDP a subscriber
    sets no flag, a publisher still asks for copying. *)
Theorem xdp_modes {B : ua_build} sdata pub sub id :
  let p := pub_connection sdata pub in
  let s := sub_connection sdata sub id in
  if useXDP sdata
  then cc_xdp_bind_flags p = cc_xdp_bind_flags s ∧
       cc_xdp_bind_flags p = (if useXDP_ZC sdata then XDP_ZEROCOPY else XDP_COPY) ∧
       cc_xdp_flags p = XDP_FLAGS_DRV_MODE ∧
       (cc_xdp_flags s = cc_xdp_flags p ↔ useXDP_SKB sdata = false ∨ useXDP_ZC sdata = true) ∧
       cc_sotxtimeEnabled p = WITH_XDPTBS
  else cc_xdp_flags p = 0 ∧ cc_xdp_flags s = 0 ∧ cc_xdp_bind_flags s = 0 ∧
       cc_xdp_queue p = 0 ∧ cc_xdp_queue s = 0 ∧ cc_sotxtimeEnabled p = true ∧
       cc_xdp_bind_flags p = (if useXDP_ZC sdata then XDP_ZEROCOPY else XDP_COPY).
Proof.
  unfold pub_connection, sub_connection, sub_xdp_flags.
  destruct (useXDP sdata), (useXDP_ZC sdata), (useXDP_SKB sdata), WITH_XDPTBS; simpl;
    split_and!; try done; split; intros; try tauto; try discriminate; by destruct_or!.
Qed.

(** ** Witnesses *)

Lemma demo_registers : @registers_on_activation demo_ua_os.
Proof.
  split.
  - done.
  - intros c tr. eexists. split; [reflexivity|]. cbn [os_node demo_ua_os make_ua_os].
    split; [lia|]. intros. lia.
  - by intros [].
Qed.

Lemma demo_mallocs : @mallocs_succeed demo_ua_os.
Proof. done. Qed.

Lemma demo_logs_end : @logs_end demo_ua_os 0.
Proof. done. Qed.

Lemma demo_counts : counts_ok demo_server.
Proof. by split. Qed.

Lemma configureServer_installs_witness :
  let OS := demo_ua_os in
  match (configureServer demo_server demo_state).1 with
  | Done (r, sd) => r = 0 ∧ startTime sd = 1003000000000
  | _ => False end.
Proof.
  pose proof (@configureServer_installs demo_ua_os demo_server demo_state demo_counts
    ltac:(split; [discriminate|reflexivity])) as H. unfold wp in H. revert H.
  destruct (configureServer demo_server demo_state) as [[[r sd]| | |] s'];
    cbn [fst snd]; [|done..].
  intros (_ & -> & q & -> & _). split; reflexivity.
Defined.

(** Two subscribers next to a publisher: three layers declared, two stored. *)
Definition demo_two_subs : ServerData :=
  let subs := Some [demo_sub; demo_sub] in
  demo_server {{ subCount := 2; subData := subs }}.

Lemma setupOpcuaServer_layers_witness :
  let OS := demo_ua_os in let B := demo_ua_build in
  match (setupOpcuaServer demo_two_subs (mkSt (init_ua_glob {{ g_sData := demo_two_subs }}) [])).1 with
  | Done (Some config) => pubsubTransportLayersSize config = 3
  | _ => False end.
Proof.
  pose proof (@setupOpcuaServer_layers demo_ua_os demo_ua_build demo_two_subs
    (mkSt (init_ua_glob {{ g_sData := demo_two_subs }}) []) ltac:(by split)) as H.
  unfold on_done, wp in H. revert H.
  set (r := setupOpcuaServer _ _).
  assert (match r.1 with Done (Some _) => True | _ => False end) as Hr by (vm_compute; exact I).
  clearbody r. destruct r as [[[config|]| | |] s']; cbn [fst] in *; try destruct Hr.
  intros H. destruct (H config eq_refl) as [[-> _] _]. vm_compute. reflexivity.
Defined.

Lemma serve_threads_witness :
  let OS := demo_ua_os in let B := demo_ua_build in
  let r := serve 1 demo_server (mkSt init_ua_glob []) in
  r.1 = Done EXIT_SUCCESS ∧ started (trace r.2) = [(true, 0); (false, 0)].
Proof.
  pose proof (@serve_threads demo_ua_os demo_ua_build 0 1 demo_server (mkSt init_ua_glob [])
    demo_registers demo_mallocs demo_logs_end ltac:(lia) demo_counts ltac:(discriminate)
    ltac:(discriminate) ltac:(reflexivity) ltac:(split; [discriminate|reflexivity])
    eq_refl eq_refl eq_refl eq_refl eq_refl eq_refl eq_refl I) as H.
  unfold wp in H. revert H.
  match goal with |- match ?t.1 with _ => _ end → _ => set (r := t) end.
  assert (r.1 = Done EXIT_SUCCESS) as Hr by (vm_compute; reflexivity).
  intros H. cbn zeta. fold r. clearbody r. split; [exact Hr|].
  rewrite Hr in H. destruct H as (_ & _ & _ & Hs & _). rewrite Hs. vm_compute. reflexivity.
Defined.

(** ** Two configurations in which a socket is not the one meant *)

(** The connections that the groups are made on, oldest first: a writer group
    per publisher, a reader group per subscriber. *)
Definition group_connections (tr : list call) : list Z :=
  reverse (omap (λ c, match c with
                      | AddWriterGroup conn _ _ => Some conn
                      | AddReaderGroup conn => Some conn
                      | _ => None
                      end) tr).

(** AF_XDP on one interface, with publishers and subscribers on the given
    queues. *)
Definition demo_queues (pubs subs : list Z) : ServerData :=
  let pd := Some ((λ q, demo_pub {{ p_xdpQueue := q }}) <$> pubs) in
  let sd := Some ((λ q, demo_sub {{ s_xdpQueue := q }}) <$> subs) in
  demo_server {{ useXDP := true; pubCount := Z.of_nat (length pubs);
                 subCount := Z.of_nat (length subs); pubData := pd; subData := sd }}.

Definition demo_setup (sdata : ServerData) :=
  @setupOpcuaServer demo_ua_os demo_ua_build sdata (mkSt (init_ua_glob {{ g_sData := sdata }}) []).

(** A subscriber on the queue of the first of two publishers gets a layer and a
    connection of its own: only the last publisher is looked at. *)
Theorem earlier_publisher_not_shared :
  let r := demo_setup (demo_queues [1; 2] [1]) in
  match r.1 with
  | Done (Some config) => pubsubTransportLayersSize config = 2 ∧
      NoDup (group_connections (trace r.2)) ∧ length (group_connections (trace r.2)) = 3%nat
  | _ => False
  end.
Proof.
  vm_compute. split; [reflexivity|]. split; [|reflexivity].
  repeat constructor; rewrite ?elem_of_cons, elem_of_nil; naive_solver.
Qed.

(** A subscriber that shares the publisher's queue is put on the newest
    connection, which is that of the subscriber before it when this one has its
    own. *)
Theorem shared_connection_is_the_newest :
  let r := demo_setup (demo_queues [1] [2; 1]) in
  match r.1 with
  | Done (Some _) => ∃ publisher subscriber,
      group_connections (trace r.2) = [publisher; subscriber; subscriber] ∧
      publisher ≠ subscriber
  | _ => False
  end.
Proof. vm_compute. eexists _, _. split; [reflexivity|discriminate]. Qed.
