(* ===== verification/OpcuaRoundTrip.v ===== *)
(** * OPC UA server: a sample's way there and back

    Two servers measure a round trip: A publishes ([pubGetDataToTransmit]), B
    stores what it receives in its message queue ([subStoreDataReceived]) and
    forwards it ([pubReturnGetDataToTransmit]), and A logs what returns
    ([subReturnStoreDataReceived]).  This file has one step of each of these
    callbacks and the lists that link them; OpcuaTrip.v composes them.

    The forwarder has an abstract specification, a machine on pairs of numbers
    ([forward]) that judges every input, which the callback refines. *)

From S2P Require Import Prelude Sys Libc Opcua OpcuaDatasource.

Local Open Scope Z_scope.

(** ** Specification: the queue and the log *)

Section observed.
Context {OS : ua_os}.

(** The messages a thread has put into the queue and those it has got out of
    it, oldest first.  A call of msgsnd() that fails (queue full) leaves none. *)
Fixpoint queued (tr : list call) : list msgq_buf :=
  match tr with
  | [] => []
  | Msgsnd _ m :: older => queued older ++ (if os_msgsnd tr <? 0 then [] else [m])
  | _ :: older => queued older
  end.

Fixpoint received (tr : list call) : list msgq_buf :=
  match tr with
  | [] => []
  | Msgrcv _ :: older => received older ++ option_list (os_msgrcv tr)
  | _ :: older => received older
  end.

(** What a first in, first out queue that is empty at the start promises: a
    msgrcv() delivers the oldest message that is still in it. *)
Definition queue_keeps : Prop :=
  ∀ q tr, os_msgrcv (Msgrcv q :: tr) = queued tr !! length (received tr).

(** The clock readings that come right before the calls of a kind, oldest
    first. *)
Fixpoint stamps (kind : call → bool) (tr : list call) : list Z :=
  match tr with
  | [] => []
  | c :: older => stamps kind older ++
      match kind c, older with
      | true, ClockGettime :: _ => [as_nanoseconds (os_clock older)]
      | _, _ => []
      end
  end.
End observed.

Definition is_array (c : call) : bool := match c with SetArrayCopy _ => true | _ => false end.

Definition is_line (path : list Z) (c : call) : bool :=
  match c with Log p _ => bool_decide (p = path) | _ => false end.

(** Arrays published so far and lines in a log, oldest first. *)
Definition published (tr : list call) : list (list Z) := reverse (arrays tr).

Definition logged (path : list Z) (tr : list call) : list (list Z) :=
  reverse (omap (λ c, match c with
                      | Log p fields => if bool_decide (p = path) then Some fields else None
                      | _ => None
                      end) tr).

(** ** Specification: the forwarder

    The state is the number forwarded last and the own counter; the input of a
    step is what the queue delivers, if anything.  An input is judged first: a
    fresh message or one that repeats the number forwarded last, one of the marks
    for no data with which a message is initialised, early (its number is below
    10) or later, or no message at all. *)

Inductive verdict : Type :=
| Fresh (m : msgq_buf) | Early (m : msgq_buf) | Repeated | Nothing | Failed.

#[global] Instance msgq_buf_eq_dec : EqDecision msgq_buf.
Proof. solve_decision. Defined.

Definition early (m : msgq_buf) : Prop :=
  rx_sequence m < 10 ∧ txTime m = rxTime m ∧ (rxTime m = 888 ∨ rxTime m = 999).

#[global] Instance early_dec m : Decision (early m).
Proof. unfold early. apply _. Defined.

Definition judge (prev : Z) (input : option msgq_buf) : verdict :=
  match input with
  | None => Failed
  | Some m =>
      if decide (m = mk_msgq 888 888 888) then Failed
      else if decide (m = mk_msgq 999 999 999) then Nothing
      else if decide (early m) then Early m
      else if decide (rx_sequence m = prev ∧ 10 < rx_sequence m ∧ rxTime m ≠ 999)
      then Repeated
      else Fresh m
  end.

Definition message_words (m : msgq_buf) (tx : Z) : list Z :=
  [rx_sequence m; txTime m; rxTime m; u64 tx].

Definition error_words (e tx : Z) : list Z := [e; e; e; u64 tx].

(** The words to send, and the next state.  Only a fresh message advances the own
    counter; the error numbers are not remembered as forwarded. *)
Definition forward_step (prev tx : Z) (input : option msgq_buf) : list Z * Z * Z :=
  match judge prev input with
  | Fresh m => (message_words m (tx + 1),
                if is_error (rx_sequence m) then prev else rx_sequence m, tx + 1)
  | Early m => (message_words m tx, rx_sequence m, tx)
  | Repeated => (error_words ERROR_DUPLICATE tx, prev, tx)
  | Nothing => (error_words ERROR_NOTHING_TO_FORWARD tx, prev, tx)
  | Failed => (error_words ERROR_MSGQ_COPY tx, prev, tx)
  end.

(** An early mark pauses the return publisher. *)
Definition pauses (input : option msgq_buf) : bool :=
  match input with Some m => bool_decide (early m) | None => false end.

Fixpoint forward (prev tx : Z) (inputs : list (option msgq_buf)) : list (list Z) * Z * Z :=
  match inputs with
  | [] => ([], prev, tx)
  | i :: inputs =>
      let '(out, prev, tx) := forward_step prev tx i in
      let '(outs, prev, tx) := forward prev tx inputs in
      (out :: outs, prev, tx)
  end.

(** The words of an array without the time stamp at its end, and whether they
    stand for a sample rather than an error. *)
Definition is_sample (words : list Z) : Prop :=
  match words with w :: _ => is_error w = false | [] => False end.

#[global] Instance is_sample_dec words : Decision (is_sample words).
Proof. destruct words; simpl; apply _. Defined.

(** ** Specification: samples and results

    A sample as A sends it, an array as B sends it back, and how the network
    hands them to a subscriber. *)

Record back : Type := mk_back {
  seqA : Z; txPubA : Z; rxSubB : Z; seqB : Z; txPubB : Z
}.

Definition sample_words (x : Z * Z) : list Z := [x.1; x.2].

Definition back_words (b : back) : list Z := [seqA b; txPubA b; rxSubB b; seqB b; txPubB b].

Definition delivery (words : list Z) : option variant :=
  Some (mk_variant (Z.of_nat (length words)) (Some words)).

Definition message_of (b : back) : msgq_buf := mk_msgq (seqA b) (txPubA b) (rxSubB b).

(** The result line of an array that arrives at time [now]: the way there, the
    sample, the processing at B, the way back, B's array, and the whole trip. *)
Definition result_line (id : Z) (b : back) (now : Z) : list Z :=
  [i64 (rxSubB b - txPubA b);
   i64 (seqA b); id; i64 (txPubA b); 0; i64 (rxSubB b);
   i64 (txPubB b - rxSubB b);
   i64 (now - txPubB b);
   i64 (seqB b); id; i64 (txPubB b); 0; i64 now;
   i64 (now - txPubA b)].

(** The arrays that get a result line: samples, until one reaches [count]; the
    file is closed then. *)
Fixpoint results (is_open : bool) (count : Z) (bs : list back) : list back :=
  match bs with
  | [] => []
  | b :: bs =>
      if is_error (seqA b) then results is_open count bs
      else (if is_open then [b] else []) ++
           results (is_open && negb (seqA b >=? count)) count bs
  end.

(** No message repeats the number of the one before it. *)
Fixpoint fresh (prev : Z) (ms : list msgq_buf) : Prop :=
  match ms with
  | [] => True
  | m :: ms => rx_sequence m ≠ prev ∧ fresh (rx_sequence m) ms
  end.

(** ** Lemmas: the forwarder *)

Lemma forward_app prev tx is1 is2 :
  forward prev tx (is1 ++ is2)
  = let '(o1, p1, t1) := forward prev tx is1 in
    let '(o2, p2, t2) := forward p1 t1 is2 in (o1 ++ o2, p2, t2).
Proof.
  revert prev tx. induction is1 as [|i is1 IH]; intros prev tx; simpl.
  - by destruct (forward prev tx is2) as [[]].
  - destruct (forward_step prev tx i) as [[o p] t]. rewrite IH.
    destruct (forward p t is1) as [[o1 p1] t1]. by destruct (forward p1 t1 is2) as [[]].
Qed.

(** One more input, with the time at which its array is sent. *)
Lemma forward_snoc prev tx inputs outs p t om w p' t' (nows : list Z) now :
  forward prev tx inputs = (outs, p, t) → forward_step p t om = (w, p', t') →
  length nows = length outs →
  forward prev tx (inputs ++ [om]) = (outs ++ [w], p', t') ∧
  zip_with (λ w now, w ++ [now]) (outs ++ [w]) (nows ++ [now])
  = zip_with (λ w now, w ++ [now]) outs nows ++ [w ++ [now]].
Proof.
  intros E Es Hl. split; [rewrite forward_app, E; cbn [forward]; by rewrite Es|].
  by rewrite zip_with_app.
Qed.

Lemma forward_length prev tx inputs : length (forward prev tx inputs).1.1 = length inputs.
Proof.
  revert prev tx. induction inputs as [|i inputs IH]; intros prev tx; simpl; [done|].
  destruct (forward_step prev tx i) as [[o p] t]. specialize (IH p t).
  destruct (forward p t inputs) as [[]]. simpl in *. by rewrite IH.
Qed.

Lemma forward_step_counter prev tx om w p t :
  forward_step prev tx om = (w, p, t) → tx <= t <= tx + 1.
Proof. unfold forward_step. destruct (judge prev om); intros [= _ _ <-]; lia. Qed.

(** The own counter never goes down, and by at most one per input up. *)
Lemma forward_counter prev tx inputs :
  tx <= (forward prev tx inputs).2 <= tx + Z.of_nat (length inputs).
Proof.
  revert prev tx. induction inputs as [|i inputs IH]; intros prev tx; simpl; [lia|].
  destruct (forward_step prev tx i) as [[o p] t] eqn:E.
  apply forward_step_counter in E.
  specialize (IH p t). destruct (forward p t inputs) as [[]]. simpl in *. lia.
Qed.

(** A genuine message is fresh or repeats the number forwarded last. *)
Lemma judge_genuine prev m :
  genuine m →
  judge prev (Some m)
  = if (rx_sequence m =? prev) && (rx_sequence m >? 10) then Repeated else Fresh m.
Proof.
  intros (H1 & H2 & _). unfold judge.
  destruct (decide (m = mk_msgq 888 888 888)) as [->|_]; [done|].
  destruct (decide (m = mk_msgq 999 999 999)) as [->|_]; [done|].
  case_decide; [unfold early in *; lia|]. rewrite Z.gtb_ltb.
  destruct (Z.eqb_spec (rx_sequence m) prev), (Z.ltb_spec 10 (rx_sequence m)); cbn [andb];
    case_decide; done || lia.
Qed.

Lemma forward_step_genuine prev tx m :
  genuine m →
  forward_step prev tx (Some m)
  = if (rx_sequence m =? prev) && (rx_sequence m >? 10)
    then (error_words ERROR_DUPLICATE tx, prev, tx)
    else (message_words m (tx + 1), rx_sequence m, tx + 1).
Proof.
  intros Hm. unfold forward_step. rewrite judge_genuine by done. destruct Hm as (_ & _ & He).
  destruct (_ && _); [done|]. by rewrite He.
Qed.

(** The samples that are sent back are messages of the queue, in order and
    under consecutive own numbers; none is left out when none repeats the number
    of its predecessor. *)
Lemma forward_samples prev tx inputs :
  Forall genuine (omap id inputs) →
  ∃ ms, ms `sublist_of` omap id inputs ∧
    filter is_sample (forward prev tx inputs).1.1
    = imap (λ k m, message_words m (tx + 1 + Z.of_nat k)) ms ∧
    (fresh prev (omap id inputs) → ms = omap id inputs).
Proof.
  revert prev tx. induction inputs as [|i inputs IH]; intros prev tx He; [by exists []|].
  cbn [forward]. destruct i as [m|].
  - cbn [omap list_omap id] in He |- *. apply Forall_cons in He as [Hm He].
    rewrite forward_step_genuine by done. destruct (_ && _) eqn:Ed.
    + destruct (IH prev tx He) as (ms & Hs & Ef & _).
      destruct (forward prev tx inputs) as [[outs p] t]. cbn [fst] in *. exists ms.
      split; [by apply sublist_cons|]. split; [by rewrite filter_cons_False by done|].
      intros [Hne _]. bool_to_prop. done.
    + destruct Hm as (_ & _ & Hm). destruct (IH (rx_sequence m) (tx + 1) He) as (ms & Hs & Ef & Hall).
      destruct (forward (rx_sequence m) (tx + 1) inputs) as [[outs p] t]. cbn [fst] in *.
      exists (m :: ms). split; [by apply sublist_skip|]. split.
      * rewrite filter_cons_True by done. rewrite Ef. cbn [imap]. rewrite Z.add_0_r.
        f_equal. apply imap_ext. intros k x _. simpl. f_equal. lia.
      * intros [_ Hf]. by rewrite Hall.
  - cbn [forward_step judge]. destruct (IH prev tx He) as (ms & Hs & Ef & Hall).
    destruct (forward prev tx inputs) as [[outs p] t]. cbn [fst] in *. exists ms.
    split; [done|]. split; [by rewrite filter_cons_False by done|done].
Qed.

(** ** Lemmas: the callback refines the forwarder *)

Section forwarder.
Context {OS : ua_os}.
Implicit Types s : st ua_glob call.

Lemma published_cons c tr :
  published (c :: tr) = published tr ++ match c with SetArrayCopy w => [w] | _ => [] end.
Proof.
  unfold published, arrays. destruct c; simpl; rewrite ?reverse_cons, ?app_nil_r; done.
Qed.

Lemma receive_delivers n m0 s :
  wp (receive n m0)
     (λ out s', ∃ om, out = Done (from_option id m0 om) ∧ glob s' = glob s ∧
        received (trace s') = received (trace s) ++ option_list om ∧
        published (trace s') = published (trace s) ∧
        stamps is_array (trace s') = stamps is_array (trace s) ∧
        (queue_keeps → om = match n with
                            | O => None
                            | S _ => queued (trace s) !! length (received (trace s))
                            end)) s.
Proof.
  revert s. induction n as [|n IH]; intros s.
  - exists None. simpl. by rewrite app_nil_r.
  - cbn [receive]. apply wp_bind. unfold get at 1, wp at 1. cbn [fst snd].
    apply wp_bind, wp_ask. destruct (os_msgrcv _) as [m|] eqn:E.
    + apply wp_ret. exists (Some m). cbn [trace glob received stamps is_array]. rewrite E.
      rewrite published_cons, !app_nil_r. repeat (split; [done|]). intros Hk. by rewrite <- E, Hk.
    + apply wp_bind, wp_ask. eapply wp_mono; [apply IH|].
      intros out s' (om & Ho & Hg & Hr & Hp & Hst & Hk). exists om.
      cbn [trace glob received queued stamps is_array] in *. rewrite E in Hr, Hk. simpl in Hr, Hk.
      rewrite app_nil_r in Hr, Hk.
      split; [done|]. split; [done|]. split; [done|].
      split; [by rewrite Hp, !published_cons, !app_nil_r|]. split; [by rewrite Hst, !app_nil_r|].
      intros Hkeep. rewrite (Hk Hkeep). destruct n; [|done]. by rewrite <- E, Hkeep.
Qed.

Lemma if_bool_true {A} (b : bool) (x y : A) : b = true → (if b then x else y) = x.
Proof. by intros ->. Qed.

Lemma if_bool_false {A} (b : bool) (x y : A) : ¬ b = true → (if b then x else y) = y.
Proof. by destruct b. Qed.

(** What the code's tests make of an input is its judgement. *)
Lemma validate_forwards om prev tx :
  -2 <= tx < 2 ^ 62 →
  ∃ curr tx',
    validate (from_option id (mk_msgq 888 888 888) om) prev tx = (curr, tx', pauses om) ∧
    forward_step prev tx om
    = (message_words curr tx', if is_error (rx_sequence curr) then prev else rx_sequence curr, tx').
Proof.
  intros Ht. destruct om as [[seq txT rxT]|]; [|by eexists _, _].
  unfold forward_step, judge, pauses, validate. cbn [from_option id rx_sequence txTime rxTime].
  rewrite (wrapS_small 64) by lia.
  case_decide as E1; [injection E1 as -> -> ->; by eexists _, _|].
  case_decide as E2; [injection E2 as -> -> ->; by eexists _, _|].
  case_decide as E3.
  - rewrite bool_decide_true by done. destruct E3 as (Hs & Et & Er). cbn in Hs, Et, Er.
    assert (is_error seq = false) as He
      by (unfold is_error, ERROR_DUPLICATE, ERROR_MSGQ_COPY, ERROR_NOTHING_TO_FORWARD;
          rewrite !orb_false_iff, !Z.eqb_neq; lia).
    rewrite (proj2 (Z.ltb_lt _ _) Hs). subst txT.
    destruct Er as [-> | ->]; eexists _, _; (split; [done|]); cbn [rx_sequence]; by rewrite He.
  - rewrite bool_decide_false by done. unfold early in E3. cbn in E3.
    do 4 (rewrite if_bool_false by (rewrite !andb_true_iff, ?Z.ltb_lt, !Z.eqb_eq; 
            intros Hb; first [apply E3; lia | apply E1; f_equal; lia | apply E2; f_equal; lia])).
    rewrite Z.gtb_ltb. case_decide as E4; cbn in E4.
    + rewrite if_bool_true by (rewrite !andb_true_iff, Z.ltb_lt, Z.eqb_eq, negb_true_iff, Z.eqb_neq; lia).
      by eexists _, _.
    + rewrite if_bool_false by (rewrite !andb_true_iff, Z.ltb_lt, Z.eqb_eq, negb_true_iff, Z.eqb_neq; lia).
      by eexists _, _.
Qed.

(** Once the callback has its message, nothing more is taken from the queue. *)
Definition pub_return_rest (m : msgq_buf) : T Z :=
  g ← get;
  let '(curr, tx, pause) := validate m (prev_rx_sequence g) (tx_sequence g) in
  modify (λ g, g {{ tx_sequence := tx;
                    g_roundtrip_pubReturn := if (pause : bool) then false
                                             else g_roundtrip_pubReturn g }});;
  current_time_timespec ← clock_gettime;
  tell (SetArrayCopy [rx_sequence curr; txTime curr; rxTime curr; u64 tx;
                      as_nanoseconds current_time_timespec]);;
  when (tx >=? i64 (packetCount (g_sData g))) (modify (λ g, g {{ g_running := false }}));;
  when (negb (is_error (rx_sequence curr)))
    (modify (λ g, g {{ prev_rx_sequence := rx_sequence curr }}));;
  mret UA_STATUSCODE_GOOD.

Lemma pub_return_quiet m s :
  wp (pub_return_rest m)
     (λ out s', out = Done UA_STATUSCODE_GOOD ∧ received (trace s') = received (trace s)) s.
Proof.
  apply wp_bind. unfold get, wp at 1. cbn [fst snd].
  destruct (validate _ _ _) as [[curr tx'] pause]. unfold clock_gettime.
  apply wp_bind. unfold modify at 1, wp at 1. cbn [fst snd]. do 2 apply wp_bind, wp_ask.
  by destruct (tx' >=? _), (is_error _).
Qed.

(** The array it hands over is the forwarder's, and so is the state it leaves. *)
Definition step_done (om : option msgq_buf) (s s' : st ua_glob call) : Prop :=
  ∃ now w,
    published (trace s') = published (trace s) ++ [w ++ [now]] ∧
    stamps is_array (trace s') = stamps is_array (trace s) ++ [now] ∧
    forward_step (prev_rx_sequence (glob s)) (tx_sequence (glob s)) om
    = (w, prev_rx_sequence (glob s'), tx_sequence (glob s')) ∧
    g_sData (glob s') = g_sData (glob s) ∧
    g_running (glob s') = g_running (glob s) &&
      negb (tx_sequence (glob s') >=? i64 (packetCount (g_sData (glob s)))) ∧
    g_roundtrip_pubReturn (glob s') = g_roundtrip_pubReturn (glob s) && negb (pauses om).

Lemma pub_return_sends om s :
  wp (pub_return_rest (from_option id (mk_msgq 888 888 888) om))
     (λ _ s', -2 <= tx_sequence (glob s) < 2 ^ 62 → step_done om s s') s.
Proof.
  unfold wp. intros Ht.
  destruct (validate_forwards om (prev_rx_sequence (glob s)) (tx_sequence (glob s)) Ht)
    as (curr & tx' & Hv & Hf). revert Hv. set (m := from_option id _ om). intros Hv.
  refine (pub_return_tail m s curr tx' _ (λ _ s', step_done om s s') Hv _).
  intros s' Et Etx Eprev Ed Erun Epause. eexists _, (message_words curr tx').
  rewrite Et, !published_cons, app_nil_r. split; [done|]. split; [|by rewrite Hf, Etx, Eprev, Erun].
  cbn [stamps is_array]. by rewrite app_nil_r.
Qed.

(** One run of the callback: it takes at most one message from the queue and
    does the forwarder's step on it. *)
Lemma pub_return_step s :
  wp pubReturnGetDataToTransmit
     (λ out s', out = Done UA_STATUSCODE_GOOD ∧ ∃ om,
        received (trace s') = received (trace s) ++ option_list om ∧
        (queue_keeps → om = queued (trace s) !! length (received (trace s))) ∧
        (-2 <= tx_sequence (glob s) < 2 ^ 62 → step_done om s s')) s.
Proof.
  unfold pubReturnGetDataToTransmit. apply wp_bind.
  eapply wp_mono; [apply receive_delivers|].
  intros out [g1 tr1] (om & -> & Hg & Hr & Hp & Hst & Hk). cbn [glob trace] in *. subst g1.
  eapply (wp_mono _ (λ out s', _ ∧ _)); [apply wp_conj|].
  - apply (pub_return_quiet (from_option id (mk_msgq 888 888 888) om) (mkSt (glob s) tr1)).
  - refine (pub_return_sends om (mkSt (glob s) tr1)).
  - cbn [glob trace]. intros out s' [[-> Hr'] H]. split; [done|]. exists om.
    rewrite Hr', Hr. split; [done|]. split; [done|]. unfold step_done in *. cbn [glob trace] in H. by rewrite <- Hp, <- Hst.
Qed.

End forwarder.

(** ** Lemmas: the subscribers *)

Section subscribers.
Context {OS : ua_os} (i : nat).
Implicit Types s : st ua_glob call.

Lemma finish_run_effect fp s :
  wp (finish_run i fp)
     (λ out s', out = Done tt ∧ queued (trace s') = queued (trace s) ∧
        (∀ p, logged p (trace s') = logged p (trace s) ∧
              stamps (is_line p) (trace s') = stamps (is_line p) (trace s)) ∧
        g_sData (glob s') = match fp with
          | Some _ => (g_sData (glob s)) {{ subData :=
              alter (λ sd, sd {{ fpSubscriberOutput := None }}) i <$> subData (g_sData (glob s)) }}
          | None => g_sData (glob s)
          end ∧
        msqid (g_sData (glob s')) = msqid (g_sData (glob s)) ∧
        packetCount (g_sData (glob s')) = packetCount (g_sData (glob s))) s.
Proof.
  destruct fp, s as [g tr]; unfold wp; simpl; (split; [done|]); (split; [done|]);
    (split; [by intros p; rewrite ?app_nil_r|]); destruct g as [d]; by destruct d.
Qed.

(** The subscriber's record exists and the queue is there. *)
Definition ready s : Prop :=
  is_Some (default [] (subData (g_sData (glob s))) !! i) ∧ 0 <= msqid (g_sData (glob s)).

Lemma finish_run_ready fp s :
  ready s → wp (finish_run i fp) (λ out s', out = Done tt ∧ ready s' ∧
              queued (trace s') = queued (trace s)) s.
Proof.
  intros [[sd Hsd] Hq]. eapply wp_mono; [apply finish_run_effect|].
  intros out s' (-> & Eq & _ & Eg & Em & _). split; [done|]. split; [|done].
  split; [|by rewrite Em]. rewrite Eg. destruct fp; [|done].
  pose proof (set_sub_lookup i (λ sd, sd {{ fpSubscriberOutput := None }}) (glob s) sd Hsd) as H.
  destruct (glob s) as [d]. eexists. exact H.
Qed.

(** One sample is put into the queue, with a reading of the clock; a full queue
    loses it. *)
Lemma store_one x s :
  ready s →
  wp (sub_callback i (true, delivery (sample_words x)))
     (λ out s', out = Done UA_STATUSCODE_GOOD ∧ ready s' ∧ ∃ tr tr',
        let now := as_nanoseconds (os_clock tr) in
        queued (trace s') = queued (trace s) ++
          (if os_msgsnd tr' <? 0 then [] else [mk_msgq x.1 x.2 now])) s.
Proof.
  intros [[sd Hsd] Hq]. unfold sub_callback, subStoreDataReceived. cbn [fst snd].
  apply wp_bind, (wp_get_sub i sd); [done|]. apply wp_bind. unfold get at 1, wp at 1.
  cbn [fst snd delivery arrayLength vdata is_null]. cbv beta iota zeta.
  change (Z.of_nat (length (sample_words x)) >? 0) with true.
  rewrite andb_false_r, orb_true_r. apply wp_bind. unfold store_sample, clock_gettime.
  apply wp_bind. unfold modify at 1, wp at 1. cbn [fst snd]. apply wp_bind, wp_ask.
  do 2 (apply wp_bind; eapply wp_word; [reflexivity|]). cbn [trace glob].
  set (tr := ClockGettime :: trace s). cbn [rx_sequence txTime rxTime].
  set (m := mk_msgq x.1 x.2 (as_nanoseconds (os_clock tr))).
  set (g1 := (glob s) {{ g_roundtrip_pubReturn := true }}).
  assert (g_sData g1 = g_sData (glob s)) as Eg by (unfold g1; by destruct (glob s)).
  apply wp_bind.
  apply (wp_mono _ (λ out s', out = Done tt ∧ glob s' = g1 ∧ queued (trace s') = queued (trace s))).
  { destruct (fpSubscriberOutput sd); done. }
  intros out [g2 tr2] (-> & Eg2 & Eq). cbn [glob trace] in *. subst g2. apply wp_bind.
  unfold get at 1, wp at 1. cbn [fst snd glob trace]. rewrite Eg.
  rewrite Z.geb_leb, (proj2 (Z.leb_le 0 _)) by done.
  do 2 apply wp_bind. apply wp_ask. do 2 apply wp_ret. cbn [glob trace].
  set (tr3 := Msgsnd _ m :: tr2). apply wp_bind.
  apply (wp_mono _ (λ out s', out = Done tt ∧ ready s' ∧ queued (trace s') = queued tr3)).
  { assert (ready (mkSt g1 tr3)) as Hr by (split; cbn [glob]; rewrite Eg; [by exists sd|done]).
    destruct (_ =? _); [|by apply wp_ret].
    apply (finish_run_ready _ (mkSt g1 tr3)); done. }
  intros out s' (-> & Hr & Eq3). apply wp_ret. split; [done|]. split; [done|].
  exists tr, tr3. rewrite Eq3.
  change (queued tr3) with (queued tr2 ++ (if os_msgsnd tr3 <? 0 then [] else [m])). by rewrite Eq.
Qed.

(** The state of a subscriber that logs to [path]: the file is open, or closed
    and forgotten. *)
Definition logs_to (path : list Z) (id count : Z) (is_open : bool) s : Prop :=
  packetCount (g_sData (glob s)) = count ∧
  ∃ sd, default [] (subData (g_sData (glob s))) !! i = Some sd ∧ s_id sd = id ∧
    fpSubscriberOutput sd = if is_open then Some path else None.

Lemma logged_cons path c tr :
  logged path (c :: tr) = logged path tr ++
    match c with
    | Log p fields => if bool_decide (p = path) then [fields] else []
    | _ => []
    end.
Proof.
  unfold logged. destruct c; simpl; rewrite ?app_nil_r; try done.
  destruct (bool_decide _); [by rewrite reverse_cons|by rewrite app_nil_r].
Qed.

Lemma finish_run_closes path id count is_open s :
  logs_to path id count is_open s →
  wp (finish_run i (if is_open then Some path else None))
     (λ out s', out = Done tt ∧ logs_to path id count false s' ∧
                logged path (trace s') = logged path (trace s) ∧
                stamps (is_line path) (trace s') = stamps (is_line path) (trace s)) s.
Proof.
  intros (Hc & sd & Hsd & Hid & Hfp). eapply wp_mono; [apply finish_run_effect|].
  intros out s' (-> & _ & Hl & Eg & _ & Ec). split; [done|]. split; [|by apply Hl].
  split; [by rewrite Ec|]. rewrite Eg. destruct is_open.
  - exists (sd {{ fpSubscriberOutput := None }}).
    pose proof (set_sub_lookup i (λ sd, sd {{ fpSubscriberOutput := None }}) (glob s) sd Hsd) as H.
    destruct (glob s) as [d]. split; [exact H|]. by destruct sd.
  - by exists sd.
Qed.

(** Lines that are logged, each right after the clock has been read, with the
    reading. *)
Definition lines_added (path : list Z) (new : list (list Z * Z)) s s' : Prop :=
  logged path (trace s') = logged path (trace s) ++ new.*1 ∧
  stamps (is_line path) (trace s') = stamps (is_line path) (trace s) ++ new.*2.

(** One array that comes back. *)
Lemma return_one path id count is_open b s :
  logs_to path id count is_open s →
  wp (sub_callback i (false, delivery (back_words b)))
     (λ out s', out = Done UA_STATUSCODE_GOOD ∧
        logs_to path id count
          (is_open && (is_error (seqA b) || negb (seqA b >=? count))) s' ∧
        ∃ now, lines_added path
          (if is_open && negb (is_error (seqA b)) then [(result_line id b now, now)] else [])
          s s') s.
Proof.
  intros (Hc & sd & Hsd & Hid & Hfp). unfold sub_callback, subReturnStoreDataReceived.
  cbn [fst snd]. apply wp_bind, (wp_get_sub i sd); [done|]. apply wp_bind.
  unfold get at 1, wp at 1. cbn [fst snd delivery arrayLength vdata is_null]. cbv beta iota zeta.
  change (Z.of_nat (length (back_words b)) >? 0) with true.
  rewrite andb_false_r, orb_true_r. apply wp_bind. unfold log_return, clock_gettime.
  do 5 (apply wp_bind; eapply wp_word; [reflexivity|]). apply wp_bind, wp_ask.
  set (now := as_nanoseconds _). rewrite Hfp, Hc, Hid. apply wp_bind.
  apply (wp_mono _ (λ out s', out = Done tt ∧ logs_to path id count is_open s' ∧
    lines_added path
      (if is_open && negb (is_error (seqA b)) then [(result_line id b now, now)] else []) s s')).
  { assert (∀ c, match c with Log _ _ => False | _ => True end →
      lines_added path [] s (mkSt (glob s) (c :: ClockGettime :: trace s))) as Hother.
    { intros c H. unfold lines_added. cbn [trace stamps].
      rewrite !logged_cons. destruct c; try done; by rewrite !app_nil_r. }
    assert (∀ tr, logs_to path id count is_open (mkSt (glob s) tr)) as Hlog
      by (intros tr; split; [done|]; by exists sd).
    unfold is_error. destruct is_open; simpl.
    - destruct (seqA b =? ERROR_DUPLICATE), (seqA b =? ERROR_MSGQ_COPY),
        (seqA b =? ERROR_NOTHING_TO_FORWARD);
        (apply wp_ask; split; [done|]; split; [apply Hlog|]; try (by apply Hother)).
      unfold lines_added. cbn [trace stamps is_line]. rewrite !logged_cons, !app_nil_r.
      by rewrite !bool_decide_true.
    - apply wp_ret. split; [done|]. split; [apply Hlog|].
      unfold lines_added. cbn [trace stamps is_line]. by rewrite logged_cons, !app_nil_r. }
  intros out s1 (-> & Hl1 & E1). apply wp_ret. apply wp_bind. revert E1.
  destruct (is_error (seqA b)); cbn [negb orb andb]; rewrite ?andb_true_r, ?andb_false_r; intros E1.
  - apply wp_ret, wp_ret. split; [done|]. split; [done|]. by exists now.
  - destruct (seqA b >=? count); cbn [negb]; rewrite ?andb_true_r, ?andb_false_r.
    + eapply wp_mono; [by apply (finish_run_closes path id count is_open)|].
      intros out s2 (-> & Hl2 & E2 & E3). apply wp_ret.
      split; [done|]. split; [done|]. exists now. unfold lines_added. by rewrite E2, E3.
    + apply wp_ret, wp_ret. split; [done|]. split; [done|]. by exists now.
Qed.

End subscribers.

(** ** Lemmas: arrays on their way back *)

Definition sample_back (b : back) : Prop := is_error (seqA b) = false.

#[global] Instance sample_back_dec b : Decision (sample_back b).
Proof. unfold sample_back. apply _. Defined.

#[global] Instance back_words_inj : Inj (=) (=) back_words.
Proof. intros [] [] [=]. by subst. Qed.

#[global] Instance sample_words_inj : Inj (=) (=) sample_words.
Proof. intros [] [] [=]. by subst. Qed.

(** The array of a step's words and its time stamp. *)
Definition back_of (w : list Z) (now : Z) : back :=
  match w with [a; t; r; b] => mk_back a t r b now | _ => mk_back 0 0 0 0 now end.

Definition front (b : back) : list Z := [seqA b; txPubA b; rxSubB b; seqB b].

Lemma forward_words prev tx inputs :
  Forall (λ w, ∃ a t r b, w = [a; t; r; b]) (forward prev tx inputs).1.1.
Proof.
  revert prev tx. induction inputs as [|i inputs IH]; intros prev tx; simpl; [done|].
  destruct (forward_step prev tx i) as [[o p] t] eqn:E. specialize (IH p t).
  destruct (forward p t inputs) as [[outs p'] t']. constructor; [|done].
  unfold forward_step, error_words in E. repeat case_match; simplify_eq; by eexists _, _, _, _.
Qed.

Lemma zip_backs outs nows :
  Forall (λ w, ∃ a t r b, w = [a; t; r; b]) outs → length nows = length outs →
  zip_with (λ w now, w ++ [now]) outs nows = back_words <$> zip_with back_of outs nows ∧
  filter is_sample outs = front <$> filter sample_back (zip_with back_of outs nows).
Proof.
  intros H. revert nows. induction H as [|w outs (a & t & r & b & ->) _ IH]; intros [|now nows];
    try done. intros [= Hl]. destruct (IH _ Hl) as [E1 E2]. simpl. split; [by rewrite E1|].
  destruct (is_error a) eqn:Ea.
  - rewrite !filter_cons_False by (unfold sample_back; simpl; by rewrite Ea). done.
  - rewrite !filter_cons_True by done. by rewrite E2.
Qed.

Lemma results_sublist is_open count bs : results is_open count bs `sublist_of` filter sample_back bs.
Proof.
  revert is_open. induction bs as [|b bs IH]; intros is_open; cbn [results]; [done|].
  destruct (is_error (seqA b)) eqn:Eb.
  { rewrite filter_cons_False by (unfold sample_back; by rewrite Eb). apply IH. }
  rewrite filter_cons_True by done. destruct is_open; simpl; [apply sublist_skip, IH|apply sublist_cons, IH].
Qed.

(** Nothing is held back while no sample has reached the count. *)
Lemma results_all count bs :
  Forall (λ b, seqA b < count) (filter sample_back bs) →
  results true count bs = filter sample_back bs.
Proof.
  induction bs as [|b bs IH]; [done|]. cbn [results]. destruct (is_error (seqA b)) eqn:Eb.
  { rewrite filter_cons_False by (unfold sample_back; by rewrite Eb). apply IH. }
  rewrite filter_cons_True by done. intros [Hb H]%Forall_cons. rewrite Z.geb_leb, (proj2 (Z.leb_gt _ _)) by done. simpl. by rewrite IH.
Qed.

Lemma imap_numbers {A} (f : Z → Z) (t : Z) (l : list A) :
  (∀ k, (k < length l)%nat → f (t + Z.of_nat k) = t + Z.of_nat k) →
  imap (λ k _, f (t + Z.of_nat k)) l = seqZ t (Z.of_nat (length l)).
Proof.
  intros Hf. apply list_eq. intros k. rewrite list_lookup_imap.
  destruct (l !! k) eqn:E; simpl.
  - apply lookup_lt_Some in E. rewrite Hf, lookup_seqZ_lt by lia. done.
  - apply lookup_ge_None in E. symmetry. apply lookup_seqZ_ge. lia.
Qed.

(** What the samples sent back stand for. *)
Lemma front_messages tx ms bs :
  front <$> bs = imap (λ k m, [rx_sequence m; txTime m; rxTime m; u64 (tx + 1 + Z.of_nat k)]) ms →
  -2 <= tx → tx + Z.of_nat (length ms) < 2 ^ 62 →
  message_of <$> bs = ms ∧ (λ b, i64 (seqB b)) <$> bs = seqZ (tx + 1) (Z.of_nat (length ms)).
Proof.
  intros E Hlo Hhi. assert (length bs = length ms) as Hl.
  { apply (f_equal length) in E. by rewrite length_fmap, length_imap in E. }
  assert (∀ k b m, bs !! k = Some b → ms !! k = Some m →
            front b = [rx_sequence m; txTime m; rxTime m; u64 (tx + 1 + Z.of_nat k)]) as H.
  { intros k b m Hb Hm. apply (f_equal (.!! k)) in E.
    rewrite list_lookup_fmap, list_lookup_imap, Hb, Hm in E. by apply (inj Some) in E. }
  split.
  - apply list_eq_same_length with (length ms); [done|by rewrite length_fmap|].
    intros k x y _ Hx Hy. rewrite list_lookup_fmap in Hx. apply fmap_Some in Hx as (b & Hb & ->).
    specialize (H k b y Hb Hy). destruct b, y. unfold front in H. simpl in H. injection H.
    intros. by subst.
  - rewrite <- (imap_numbers i64 (tx + 1) ms).
    2: { intros k Hk. apply wrapS_small; lia. }
    apply list_eq_same_length with (length ms); [by rewrite length_imap|by rewrite length_fmap|].
    intros k x y _ Hx Hy. rewrite list_lookup_fmap in Hx. apply fmap_Some in Hx as (b & Hb & ->).
    rewrite list_lookup_imap in Hy. apply fmap_Some in Hy as (m & Hm & ->).
    specialize (H k b m Hb Hm). unfold front in H. injection H as _ _ _ ->.
    by rewrite wrapS_wrapU.
Qed.

Lemma omap_id_length {A} (l : list (option A)) : (length (omap id l) ≤ length l)%nat.
Proof. induction l as [|[] l IH]; csimpl; unfold id in *; simpl in *; lia. Qed.

(** Consecutive numbers are fresh. *)
Lemma fresh_consecutive prev t ms :
  (∀ k m, ms !! k = Some m → rx_sequence m = u64 (t + Z.of_nat k)) →
  -1 <= t → t + Z.of_nat (length ms) < 2 ^ 62 → prev ≠ u64 t → fresh prev ms.
Proof.
  revert prev t. induction ms as [|m ms IH]; intros prev t Hm Hlo Hhi Hp; simpl; [done|].
  pose proof (Hm 0%nat m eq_refl) as H0. rewrite Z.add_0_r in H0. rewrite H0.
  split; [done|]. apply (IH _ (t + 1)); simpl in Hhi.
  - intros k m' Hk. rewrite (Hm (S k) m' Hk). f_equal. lia.
  - lia.
  - lia.
  - unfold wrapU. zsolve.
Qed.

(** ** Lemmas: runs of the forwarder *)

Definition runs_done `{!ua_os} (inputs : list (option msgq_buf)) (outs : list (list Z))
    (nows : list Z) (s s' : st ua_glob call) : Prop :=
  length nows = length inputs ∧
  forward (prev_rx_sequence (glob s)) (tx_sequence (glob s)) inputs
  = (outs, prev_rx_sequence (glob s'), tx_sequence (glob s')) ∧
  published (trace s') = published (trace s) ++ zip_with (λ w now, w ++ [now]) outs nows ∧
  stamps is_array (trace s') = stamps is_array (trace s) ++ nows.

(** One more run. *)
Lemma runs_snoc `{!ua_os} inputs outs nows om s s1 s2 :
  runs_done inputs outs nows s s1 → step_done om s1 s2 →
  ∃ w now, runs_done (inputs ++ [om]) (outs ++ [w]) (nows ++ [now]) s s2.
Proof.
  intros (Hn & Ef & Ep & Es) (now & w & Ep2 & Es2 & Ef2 & _). exists w, now.
  pose proof (forward_length (prev_rx_sequence (glob s)) (tx_sequence (glob s)) inputs) as Hlen.
  rewrite Ef in Hlen. cbn [fst] in Hlen.
  destruct (forward_snoc _ _ _ _ _ _ _ _ _ _ nows now Ef Ef2) as [E1 E2]; [lia|].
  split; [rewrite !length_app; simpl; lia|]. split; [done|].
  split; [by rewrite E2, app_assoc, <- Ep|]. by rewrite app_assoc, <- Es.
Qed.

Lemma pub_return_runs `{!ua_os} n s :
  -2 <= tx_sequence (glob s) → tx_sequence (glob s) + Z.of_nat n < 2 ^ 62 →
  wp (times n pubReturnGetDataToTransmit)
     (λ out s', out = Done tt ∧ ∃ inputs outs nows,
        length inputs = n ∧ received (trace s') = received (trace s) ++ omap id inputs ∧
        runs_done inputs outs nows s s' ∧ g_sData (glob s') = g_sData (glob s) ∧
        g_running (glob s') = g_running (glob s) &&
          negb (bool_decide (0 < n)%nat &&
                (tx_sequence (glob s') >=? i64 (packetCount (g_sData (glob s))))) ∧
        g_roundtrip_pubReturn (glob s') = g_roundtrip_pubReturn (glob s) &&
          negb (existsb pauses inputs)) s.
Proof.
  intros Hlo. induction n as [|n IH]; intros Hhi.
  - apply wp_ret. split; [done|]. exists [], [], []. unfold runs_done. rewrite !app_nil_r, !andb_true_r.
    by repeat (split; [done|]).
  - cbn [times]. apply wp_bind. eapply wp_mono; [apply IH; lia|].
    intros out s1 (-> & inputs & outs & nows & Hl & Hr & Hd & Eg & Erun & Epause). apply wp_bind.
    eapply wp_mono; [apply pub_return_step|].
    intros out s2 (-> & om & Hr2 & _ & Hd2). apply wp_ret. split; [done|].
    pose proof (forward_counter (prev_rx_sequence (glob s)) (tx_sequence (glob s)) inputs) as Hc.
    pose proof Hd as (_ & Ef & _). rewrite Ef in Hc. cbn [snd] in Hc.
    specialize (Hd2 ltac:(lia)). destruct (runs_snoc _ _ _ _ _ _ _ Hd Hd2) as (w & now & Hd').
    destruct Hd2 as (? & ? & _ & _ & Ef2 & Eg2 & Erun2 & Epause2).
    exists (inputs ++ [om]), (outs ++ [w]), (nows ++ [now]). rewrite length_app. split; [simpl; lia|].
    split; [rewrite Hr2, Hr, <- app_assoc, omap_app; by destruct om|].
    split; [done|]. split; [by rewrite Eg2|].
    apply forward_step_counter in Ef2 as Hup.
    rewrite Erun2, Erun, Eg, Epause2, Epause, existsb_app, negb_orb. cbn [existsb].
    split; [|by rewrite orb_false_r, andb_assoc].
    rewrite <- andb_assoc. f_equal. rewrite (bool_decide_true (0 < S n)%nat) by lia.
    rewrite !Z.geb_leb. case_bool_decide;
    destruct (Z.leb_spec (i64 (packetCount (g_sData (glob s)))) (tx_sequence (glob s1))),
      (Z.leb_spec (i64 (packetCount (g_sData (glob s)))) (tx_sequence (glob s2))); simpl; done || lia.
Qed.

(** ** Properties: the forwarder *)

(** C12: the return publisher's callback implements the forwarder: any number of
    runs, whatever the queue delivers, is that number of steps of the abstract
    forwarder on the messages that the queue delivered (a queue that fails to
    deliver is a step without a message).  Each run publishes the words of its
    step followed by the time of sending, a reading of the clock right before it;
    the number forwarded last and the own counter are the forwarder's in the end,
    the server is stopped when that counter has reached packet_count, and
    forwarding is paused when one of the messages was an early mark for no data. *)
Theorem pub_return_refines {OS : ua_os} n s :
  -2 <= tx_sequence (glob s) → tx_sequence (glob s) + Z.of_nat n < 2 ^ 62 →
  wp (times n pubReturnGetDataToTransmit)
     (λ out s', out = Done tt ∧ ∃ inputs outs nows,
        length inputs = n ∧ length nows = n ∧
        received (trace s') = received (trace s) ++ omap id inputs ∧
        forward (prev_rx_sequence (glob s)) (tx_sequence (glob s)) inputs
        = (outs, prev_rx_sequence (glob s'), tx_sequence (glob s')) ∧
        published (trace s') = published (trace s) ++ zip_with (λ w now, w ++ [now]) outs nows ∧
        stamps is_array (trace s') = stamps is_array (trace s) ++ nows ∧
        g_running (glob s') = g_running (glob s) &&
          negb (bool_decide (0 < n)%nat &&
                (tx_sequence (glob s') >=? i64 (packetCount (g_sData (glob s))))) ∧
        g_roundtrip_pubReturn (glob s') = g_roundtrip_pubReturn (glob s) &&
          negb (existsb pauses inputs)) s.
Proof.
  intros Hlo Hhi. eapply wp_mono; [by apply pub_return_runs|].
  intros out s' (-> & inputs & outs & nows & Hl & Hr & (Hn & Ef & Ep & Es) & _ & H).
  split; [done|]. exists inputs, outs, nows. by rewrite Hn.
Qed.

(** ** Witnesses *)

Definition msgrcvs (tr : list call) : nat :=
  length (omap (λ c, match c with Msgrcv q => Some q | _ => None end) tr).

(** A queue that delivers [ms] one after the other; otherwise as [make_ua_os]. *)
Definition demo_queue_os (ms : list msgq_buf) : ua_os := {|
  os_clock := λ _, mk_timespec 1000 7; os_clock_ret := λ _, 0; os_flags := λ _, (false, None);
  os_calloc := λ _, true; os_fopen := λ _, true; os_msgget := λ _, 4; os_msgctl := λ _, 0;
  os_msgsnd := λ _, 0; os_msgrcv := λ tr, ms !! (msgrcvs tr - 1)%nat;
  os_sched := λ _, 0; os_thread := λ _, (0, 0); os_node := λ _, 0; os_random := λ _, 0;
  os_server_run := λ _, 0; os_register := λ _, []; os_log_fopen := λ _, false; os_fgetc := λ _, None
|}.

Definition demo_now : Z := 1000000000007.

Definition demo_stored : list msgq_buf :=
  [mk_msgq 0 demo_now demo_now; mk_msgq 1 demo_now demo_now].

Definition demo_backs : list back :=
  [mk_back 0 demo_now demo_now (2 ^ 64 - 1) demo_now; mk_back 1 demo_now demo_now 0 demo_now].

(** The second run finds an early mark in the queue, the third one nothing. *)
Lemma pub_return_refines_witness :
  let OS := demo_queue_os [mk_msgq 0 demo_now demo_now; mk_msgq 5 999 999] in
  let r := times 3 (@pubReturnGetDataToTransmit OS) demo_state in
  r.1 = Done tt ∧ g_roundtrip_pubReturn (glob r.2) = false ∧
  published (trace r.2)
  = [[0; demo_now; demo_now; 2 ^ 64 - 1; demo_now]; [5; 999; 999; 2 ^ 64 - 1; demo_now];
     [ERROR_MSGQ_COPY; ERROR_MSGQ_COPY; ERROR_MSGQ_COPY; 2 ^ 64 - 1; demo_now]].
Proof.
  pose proof (@pub_return_refines (demo_queue_os [mk_msgq 0 demo_now demo_now; mk_msgq 5 999 999])
    3 demo_state ltac:(vm_compute; discriminate) ltac:(vm_compute; reflexivity)) as H.
  destruct H as [H _]. split; [exact H|]. split; vm_compute; reflexivity.
Defined.
