(* ===== verification/OpcuaProcess.v ===== *)
(** * OPC UA server: the whole process

    From the configuration file to the end of main(): what the parser has
    acquired is released exactly once, by the subscribers' callbacks (which close
    their output files when a run is over) and by main(), and at no moment has
    anything been released more often than acquired; and which blocks that are
    allocated through open62541 are left at the end. *)

From S2P Require Import Prelude Sys Libc Opcua OpcuaDatasource OpcuaConfig OpcuaThreads OpcuaServer.

Local Open Scope Z_scope.

(** ** The work of the threads *)

(** A data source callback that open62541 runs in one of the threads. *)
Inductive callback : Type :=
| Publish
| Publish_return
| Store (i : nat) (data : option variant)
| Store_return (i : nat) (data : option variant).

Section work.
Context {OS : ua_os}.

Definition run_callback (c : callback) (_ : unit) : T unit :=
  match c with
  | Publish => _ ← pubGetDataToTransmit; mret tt
  | Publish_return => _ ← pubReturnGetDataToTransmit; mret tt
  | Store i data => _ ← subStoreDataReceived i data; mret tt
  | Store_return i data => _ ← subReturnStoreDataReceived i data; mret tt
  end.

(** The callbacks in the order in which they ran. *)
Definition work (cs : list callback) : T unit := for_each cs run_callback tt.
End work.

(** ** Specification *)

(** At every moment of the past, nothing had been released more often than
    acquired. *)
Definition sound_history (tr : list call) : Prop :=
  ∀ past x, past `suffix_of` tr → 0 <= live past x.

(** Blocks allocated through open62541 and not freed; and the calls that pass one
    on: a thread gets its arguments, a reader its fields and its target variables. *)
Fixpoint ua_held (b : ua_block) (tr : list call) : Z :=
  match tr with
  | [] => 0
  | UaMalloc b' true :: tr => ua_held b tr + (if decide (b' = b) then 1 else 0)
  | UaFree b' :: tr => ua_held b tr - (if decide (b' = b) then 1 else 0)
  | _ :: tr => ua_held b tr
  end.

Fixpoint passed_on (b : ua_block) (tr : list call) : Z :=
  match tr with
  | [] => 0
  | c :: tr => passed_on b tr +
      match c, b with
      | ThreadCreate _ _, ThreadParams
      | AddDataSetReader _ _ _ _, ReaderFields
      | CreateTargetVariables _, TargetVariables => 1
      | _, _ => 0
      end
  end.

(** Live is exactly what the configuration owns, its arrays have the length
    their counts say, and nothing was released too often on the way. *)
Definition balanced (s : st ua_glob call) : Prop :=
  (∀ x, live (trace s) x = owned_server (g_sData (glob s)) x) ∧ counts_ok (g_sData (glob s)) ∧
  sound_history (trace s).

(** The history is sound however the program ends; [Q] holds of a normal
    return. *)
Definition safely {A} (m : T A) (Q : A → st ua_glob call → Prop) (s : st ua_glob call) : Prop :=
  wp m (λ out s', sound_history (trace s') ∧ match out with Done a => Q a s' | _ => True end) s.

(** ** Lemmas: histories *)

Definition releases_nothing (c : call) : Prop :=
  match c with Free _ | Fclose _ => False | _ => True end.

Definition acquires_nothing (c : call) : Prop :=
  match c with Alloc _ _ | Fopen _ _ => False | _ => True end.

Definition holds_nothing (c : call) : Prop := releases_nothing c ∧ acquires_nothing c.

Lemma sound_cons c tr :
  sound_history tr → (∀ x, 0 <= live (c :: tr) x) → sound_history (c :: tr).
Proof.
  intros Ht Hc [|d past] x Hp; [done|].
  destruct (suffix_cons_inv _ _ _ _ Hp) as [->|Hp']; [apply Hc|by apply Ht].
Qed.

Lemma sound_live tr x : sound_history tr → 0 <= live tr x.
Proof. by intros H; apply H. Qed.

Lemma live_releases_nothing c tr x : releases_nothing c → live tr x <= live (c :: tr) x.
Proof. intros Hc. destruct c; cbn in *; try done; repeat case_match; lia. Qed.

Lemma live_acquires_nothing c tr x : acquires_nothing c → live (c :: tr) x <= live tr x.
Proof. intros Hc. destruct c; cbn in *; try done; repeat case_match; lia. Qed.

(** Acquiring is always sound; releasing is when nothing is negative at its
    end. *)
Lemma sound_acquire (s s' : st ua_glob call) :
  extends_by releases_nothing s s' → sound_history (trace s) → sound_history (trace s').
Proof.
  intros (new & -> & Hn) Hs. induction Hn as [|c new Hc _ IH]; [done|].
  apply (sound_cons c (new ++ trace s)); [done|]. intros x.
  etransitivity; [apply (sound_live _ x IH)|]. by apply live_releases_nothing.
Qed.

Lemma sound_release {G} (s s' : st G call) :
  extends_by acquires_nothing s s' → sound_history (trace s) →
  (∀ x, 0 <= live (trace s') x) → sound_history (trace s').
Proof.
  intros (new & -> & Hn) Hs. induction Hn as [|c new Hc _ IH]; [done|]. intros Hl.
  apply (sound_cons c (new ++ trace s)); [|done]. apply IH. intros x.
  etransitivity; [apply Hl|]. by apply (live_acquires_nothing c (new ++ trace s)).
Qed.

Lemma held_nothing (s s' : st ua_glob call) :
  extends_by holds_nothing s s' →
  (∀ x, live (trace s') x = live (trace s) x) ∧
  (sound_history (trace s) → sound_history (trace s')).
Proof.
  intros (new & E & Hn). split.
  - intros x. rewrite E. clear E. induction Hn as [|c new [H1 H2] _ IH]; [done|].
    rewrite <- IH. apply Z.le_antisymm.
    + by apply (live_acquires_nothing c (new ++ trace s)).
    + by apply (live_releases_nothing c (new ++ trace s)).
  - apply sound_acquire. exists new. split; [done|].
    eapply Forall_impl; [exact Hn|]. by intros c [].
Qed.

Lemma safely_bind {A B} (m : T A) (k : A → T B) Q s :
  safely m (λ a s', safely (k a) Q s') s → safely (m ≫= k) Q s.
Proof.
  intros H. apply wp_bind. unfold safely in H at 1. eapply wp_mono; [exact H|].
  by intros [a|c| |] s' [].
Qed.

Lemma safely_mono {A} (m : T A) (Q Q' : A → st ua_glob call → Prop) s :
  safely m Q s → (∀ a s', sound_history (trace s') → Q a s' → Q' a s') → safely m Q' s.
Proof.
  intros H HQ. unfold safely in *. eapply wp_mono; [exact H|]. intros [a|c| |] s' []; auto.
Qed.

Lemma safely_ret {A} (a : A) (Q : A → st ua_glob call → Prop) s :
  sound_history (trace s) → Q a s → safely (mret a) Q s.
Proof. done. Qed.

(** ** Lemmas: steps that acquire and release nothing *)

(** A step that leaves live objects and the configuration alone. *)
Abbreviation neutral := (confined holds_nothing g_sData).

(** The calls of the set-up and of the shutdown: they handle no sample either. *)
Definition setup_call (c : call) : Prop :=
  match c with
  | Alloc _ _ | Free _ | Fopen _ _ | Fclose _
  | Msgsnd _ _ | Msgrcv _ | SetArrayCopy _ | Log _ _ => False
  | _ => True
  end.

(** The globals that the callbacks for samples use. *)
Definition sample_state (g : ua_glob) : ServerData * Z * Z :=
  (g_sData g, tx_sequence g, prev_rx_sequence g).

Abbreviation inactive := (confined setup_call sample_state).

Lemma inactive_neutral {A} (m : T A) : inactive m → neutral m.
Proof.
  apply confined_weaken; [by intros []|]. intros [] []. unfold sample_state. simpl. by intros [=].
Qed.

Lemma confined_try_each {X A Y} K (f : ua_glob → X) (l : list A) (body : A → Y → T (option Y)) x :
  (∀ a x, confined K f (body a x)) → confined K f (try_each l body x).
Proof.
  intros Hb. revert x. induction l as [|a l IH]; intros x; simpl; [apply confined_ret|].
  apply confined_bind; [done|]. intros [x'|]; [apply IH|apply confined_ret].
Qed.

Section inactive_server.
Context {OS : ua_os} {B : ua_build}.

Lemma inactive_malloc {A} (f : bool → outcome A) (c : bool → call) :
  (∀ ok, setup_call (c ok)) →
  inactive (λ s, let ok := os_calloc (trace s) in (f ok, mkSt (glob s) (c ok :: trace s))).
Proof.
  intros Hc s. split; [|done]. eexists [_]. split; [reflexivity|]. by constructor; [apply Hc|].
Qed.

Lemma inactive_hook group : inactive (addRepeatedCallback group).
Proof.
  unfold addRepeatedCallback. apply confined_bind; [by apply (inactive_malloc _ (UaMalloc _))|].
  intros ok. unfold pub_at, sub_at, threadCreation, record_thread. confine.
Qed.

#[local] Hint Resolve inactive_hook : confined.

Lemma inactive_hooks groups : inactive (run_hooks groups).
Proof. unfold run_hooks. confine. Qed.

#[local] Hint Resolve inactive_hooks : confined.

Lemma inactive_library c : setup_call c → inactive (library c).
Proof. intros Hc. unfold library. apply confined_bind; [by apply confined_ask|intros]. confine. Qed.

Lemma inactive_library_id c : setup_call c → inactive (library_id c).
Proof. intros Hc. unfold library_id. apply confined_bind; [by apply confined_ask|intros]. confine. Qed.

Lemma inactive_setup sdata : inactive (setupOpcuaServer sdata).
Proof.
  assert (∀ c, setup_call c → inactive (library c)) as H1 by apply inactive_library.
  assert (∀ c, setup_call c → inactive (library_id c)) as H2 by apply inactive_library_id.
  unfold setupOpcuaServer.
  do 2 (apply confined_bind; [by apply confined_ask|intros]).
  apply confined_bind; [by apply (inactive_malloc _ LayersAlloc)|].
  intros ok. destruct ok; cbn [negb]; [|confine].
  assert (∀ i x, inactive (setup_pub sdata i x)) as H3.
  { intros i x. unfold setup_pub, addPubSubConnection, createPublisher, addPublishedDataSet,
      addDataSetField, addWriterGroup, addDataSetWriter.
    case_match; [|apply confined_undefined].
    repeat first [ apply confined_bind; [|intros] | by apply H1 | by apply H2
                 | by apply (inactive_malloc (λ ok : bool, if ok then Done tt else Undefined) (UaMalloc _))
                 | progress confine ]. }
  assert (∀ pub i x, inactive (setup_sub sdata pub i x)) as H4.
  { intros pub i x. unfold setup_sub, addSubConnection, createSubscriber, addReaderGroup,
      addDataSetReader, addSubscribedVariables.
    repeat first [ apply confined_bind; [|intros] | by apply H1 | by apply H2
                 | by apply (inactive_malloc (λ ok : bool, if ok then Done tt else Undefined) (UaMalloc _))
                 | by apply (inactive_malloc (λ ok, Done ok) (UaMalloc _))
                 | progress confine | case_match ]. }
  apply confined_bind; [by apply confined_try_each|]. intros [[conn pub]|]; [|confine].
  apply confined_bind; [by apply confined_try_each|]. intros [[config ?]|]; confine.
Qed.

Lemma inactive_join : inactive join_threads.
Proof. unfold join_threads. confine. Qed.

Lemma inactive_logs fuel : inactive (ts_log_stop fuel).
Proof. unfold ts_log_stop, copy_file. confine. Qed.

Lemma inactive_queue (qid : Z) :
  inactive (if qid >=? 0 then (_ ← ask MsgctlRmid os_msgctl; mret tt) else mret tt).
Proof. confine. Qed.
End inactive_server.

(** ** Lemmas: the callbacks keep the balance *)

Lemma neutral_balanced {A} (m : T A) s :
  neutral m → balanced s →
  safely m (λ _ s', balanced s' ∧ g_sData (glob s') = g_sData (glob s)) s.
Proof.
  intros Hm (HL & HC & HS). apply (wp_confined_only _ _ _ _ _ Hm). intros out s' H1 H2.
  destruct (held_nothing s s' H1) as [H3 H4]. split; [auto|]. destruct out; try done.
  split; [|done]. unfold balanced. rewrite H2. split; [intros x; by rewrite H3|auto].
Qed.

Lemma owned_str_nonneg p x : 0 <= owned_str p x.
Proof. unfold owned_str, one. repeat case_match; lia. Qed.

Lemma owned_list_nonneg {A} (f : A → obj → Z) l x :
  (∀ a, 0 <= f a x) → 0 <= owned_list f l x.
Proof.
  intros Hf. unfold owned_list. induction l as [|a l IH]; simpl; [lia|]. specialize (Hf a). lia.
Qed.

Lemma owned_server_nonneg sd x : 0 <= owned_server sd x.
Proof.
  assert (∀ y, 0 <= one x y) as H1 by (intros y; unfold one; case_decide; lia).
  assert (∀ l, 0 <= owned_list owned_pub l x) as HP
    by (intros l; apply owned_list_nonneg; intros; apply owned_str_nonneg).
  assert (∀ l, 0 <= owned_list owned_sub l x) as HS.
  { intros l. apply owned_list_nonneg. intros a. unfold owned_sub.
    pose proof (owned_str_nonneg (s_url a) x).
    pose proof (owned_str_nonneg (subscriberOutputFileName a) x).
    destruct (fpSubscriberOutput a) as [p|]; [|lia].
    assert (0 <= one x (OFile p)) by apply H1. unfold one in *. lia. }
  unfold owned_server. pose proof (H1 OServer). pose proof (owned_str_nonneg (pubInterface sd) x).
  pose proof (owned_str_nonneg (subInterface sd) x). pose proof (H1 OPubs). pose proof (H1 OSubs).
  destruct (pubData sd) as [l|], (subData sd) as [l'|]; try specialize (HP l);
    try specialize (HS l'); lia.
Qed.

Lemma owned_list_alter {A} (f : A → obj → Z) (g : A → A) l i a x :
  l !! i = Some a → owned_list f (alter g i l) x = owned_list f l x - f a x + f (g a) x.
Proof.
  revert i. unfold owned_list. induction l as [|b l IH]; intros [|i] E; try done.
  - injection E as ->. cbn. lia.
  - change (alter g (S i) (b :: l)) with (b :: alter g i l). cbn [foldr]. rewrite (IH i E). lia.
Qed.

(** The end of a run releases the output file and forgets it. *)
Lemma finish_run_balanced i sd s :
  balanced s → default [] (subData (g_sData (glob s))) !! i = Some sd →
  safely (finish_run i (fpSubscriberOutput sd)) (λ _ s', balanced s') s.
Proof.
  intros (HL & HC & HS) Hsd. unfold finish_run. destruct s as [g tr]. cbn [glob trace] in *.
  destruct (fpSubscriberOutput sd) as [path|] eqn:Ef.
  2: { apply safely_bind, safely_ret; [done|]. split; [done|]. by destruct g. }
  unfold safely, wp. unfold mbind, M_bind, tell, ask, OpcuaDatasource.set_sub, modify. cbn [fst snd glob trace].
  destruct g as [d ? ? ? ? ? ? ? ? ?]. cbn [g_sData] in *.
  destruct d as [? ? ? ? ? ? ? ? ? ? sub ? ? ?]. cbn [subData] in *.
  destruct sub as [l|]; [|done]. cbn [from_option id] in Hsd. unfold balanced. cbn [glob trace g_sData].
  match goal with |- _ ∧ (∀ x, _ = owned_server ?d x) ∧ _ => set (d' := d) end.
  assert (∀ x, live (Fclose path :: Fflush path :: tr) x = owned_server d' x) as HL'.
  { intros x. cbn [live]. specialize (HL x). unfold d', owned_server in *. simpl in *. rewrite HL.
    pose proof (owned_list_alter owned_sub (λ sd, sd {{ fpSubscriberOutput := None }}) l i sd x Hsd)
      as E.
    assert (owned_sub (sd {{ fpSubscriberOutput := None }}) x
            = owned_sub sd x - one x (OFile path)) as Eo.
    { unfold owned_sub. rewrite Ef. destruct sd. simpl. lia. }
    cbv beta in E. rewrite Eo in E. simpl in E. rewrite E.
    unfold one. repeat case_decide; lia. }
  assert (sound_history (Fclose path :: Fflush path :: tr)) as HS'.
  { apply (sound_release (mkSt tt tr) (mkSt tt (Fclose path :: Fflush path :: tr))); [|done|].
    - exists [Fclose path; Fflush path]. by repeat constructor.
    - intros x. cbn [trace]. rewrite HL'. apply owned_server_nonneg. }
  split; [exact HS'|]. split; [exact HL'|]. split; [|exact HS'].
  destruct HC as [C1 C2]. split; [exact C1|]. simpl in *. by rewrite length_alter.
Qed.

Lemma neutral_store {OS : ua_os} sd v : neutral (store_sample sd v).
Proof.
  unfold store_sample, clock_gettime, word. confine.
Qed.

Lemma neutral_log_return {OS : ua_os} sd v : neutral (log_return sd v).
Proof.
  unfold log_return, clock_gettime, word. confine.
Qed.

(** A subscriber's callback: what it does with the sample, then the end of the
    run. *)
Lemma store_then_finish {A} i sd (m : T A) (last : A → bool) s :
  neutral m → balanced s → default [] (subData (g_sData (glob s))) !! i = Some sd →
  safely (a ← m; (if last a then finish_run i (fpSubscriberOutput sd) else mret tt);;
          mret UA_STATUSCODE_GOOD) (λ _ s', balanced s') s.
Proof.
  intros Hm HB Hsd. apply safely_bind. eapply safely_mono; [by apply neutral_balanced|].
  intros a s1 HS1 [HB1 G1]. apply safely_bind.
  eapply (safely_mono _ (λ _ s', balanced s')); [|by intros [] s2].
  destruct (last a); [|by apply safely_ret]. apply finish_run_balanced; [done|by rewrite G1].
Qed.

Lemma callback_balanced {OS : ua_os} c s :
  balanced s → safely (run_callback c tt) (λ _ s', balanced s') s.
Proof.
  intros HB. pose proof HB as (_ & _ & HS).
  assert (∀ (m : T Z), safely m (λ _ s', balanced s') s →
            safely (_ ← m; mret tt) (λ _ s', balanced s') s) as Hret.
  { intros m Hm. apply safely_bind. by eapply safely_mono. }
  assert (∀ (m : T Z), neutral m → safely m (λ _ s', balanced s') s) as Hneutral.
  { intros m Hm. eapply safely_mono; [by apply neutral_balanced|]. by intros _ s' _ []. }
  destruct c; simpl; apply Hret.
  - apply Hneutral. unfold pubGetDataToTransmit, clock_gettime. confine.
  - apply Hneutral. unfold pubReturnGetDataToTransmit, clock_gettime.
    apply confined_bind; [|intros; confine].
    generalize (mk_msgq 888 888 888). generalize 15%nat. intros n.
    induction n as [|n IH]; intros m; cbn [receive]; confine.
  - unfold subStoreDataReceived, get_sub. apply safely_bind.
    unfold safely at 1, wp at 1, mbind, M_bind, get. cbn [fst snd].
    destruct (default [] _ !! i) as [sd|] eqn:Esd; [|done]. cbn [mret M_ret fst snd].
    split; [done|]. destruct data as [v|]; [|by apply safely_ret].
    destruct (_ && _); [by apply safely_ret|].
    apply (store_then_finish i sd _
             (λ m, rx_sequence m =? packetCount (g_sData (glob s)))); [|done|done].
    destruct (_ || _); [apply neutral_store|apply confined_ret].
  - unfold subReturnStoreDataReceived, get_sub. apply safely_bind.
    unfold safely at 1, wp at 1, mbind, M_bind, get. cbn [fst snd].
    destruct (default [] _ !! i) as [sd|] eqn:Esd; [|done]. cbn [mret M_ret fst snd].
    split; [done|]. destruct data as [v|]; [|by apply safely_ret].
    destruct (_ && _); [by apply safely_ret|].
    apply (store_then_finish i sd _
             (λ seqA, negb (is_error seqA) && (seqA >=? packetCount (g_sData (glob s)))));
      [|done|done].
    destruct (_ || _); [apply neutral_log_return|apply confined_ret].
Qed.

(** ** Lemmas: main() *)

(** Two configurations that own the same objects. *)
Definition same_owner (a b : ServerData) : Prop :=
  (∀ x, owned_server a x = owned_server b x) ∧ (counts_ok a → counts_ok b) ∧
  pubCount a = pubCount b ∧ subCount a = subCount b.

Lemma same_owner_refl a : same_owner a a.
Proof. done. Qed.

Lemma same_owner_trans a b c : same_owner a b → same_owner b c → same_owner a c.
Proof.
  intros (H1 & H2 & H3 & H4) (K1 & K2 & K3 & K4).
  split; [intros x; by rewrite H1|]. split; [auto|]. split; congruence.
Qed.

Lemma owned_list_insert {A} (f : A → obj → Z) l i a b x :
  l !! i = Some a → f b x = f a x → owned_list f (<[i := b]> l) x = owned_list f l x.
Proof.
  intros Hl E. pose proof (owned_list_alter f (λ _, b) l i a x Hl) as H.
  cbv beta in H. rewrite E in H. replace (<[i := b]> l) with (alter (λ _, b) i l); [lia|].
  apply list_eq. intros j. destruct (decide (i = j)) as [<-|Hne].
  - rewrite list_lookup_alter_eq, Hl. symmetry. apply list_lookup_insert_eq.
    by eapply lookup_lt_Some.
  - by rewrite list_lookup_alter_ne, list_lookup_insert_ne.
Qed.

Lemma set_pub_same i pd pd' sd :
  default [] (pubData sd) !! i = Some pd → p_url pd' = p_url pd →
  same_owner sd (OpcuaServer.set_pub i pd' sd).
Proof.
  intros Hpd E. unfold OpcuaServer.set_pub. destruct sd as [? ? ? ? ? ? ? ? ? pubs ? ? ? ?].
  cbn [pubData] in Hpd. destruct pubs as [l|]; [|done]. cbn [from_option id] in Hpd.
  split; [|split; [|done]].
  - intros x. unfold owned_server. simpl.
    rewrite (owned_list_insert owned_pub l i pd pd' x Hpd); [done|].
    unfold owned_pub. by rewrite E.
  - intros [C1 C2]. split; [|exact C2]. simpl in *. by rewrite length_insert.
Qed.

Lemma set_sub_same i sb sb' sd :
  default [] (subData sd) !! i = Some sb → owned_sub sb' = owned_sub sb →
  same_owner sd (OpcuaServer.set_sub i sb' sd).
Proof.
  intros Hsb E. unfold OpcuaServer.set_sub. destruct sd as [? ? ? ? ? ? ? ? ? ? subs ? ? ?].
  cbn [subData] in Hsb. destruct subs as [l|]; [|done]. cbn [from_option id] in Hsb.
  split; [|split; [|done]].
  - intros x. unfold owned_server. simpl.
    rewrite (owned_list_insert owned_sub l i sb sb' x Hsb); [done|]. by rewrite E.
  - intros [C1 C2]. split; [exact C1|]. simpl in *. by rewrite length_insert.
Qed.

(** A step on a configuration that is not yet the server's. *)
Definition reowns (sd : ServerData) (m : T ServerData) : Prop := ∀ s,
  on_done m (λ sd' _, same_owner sd sd') s.

Lemma reowns_skip {A} (m : T A) sd (k : A → T ServerData) :
  (∀ a, reowns sd (k a)) → reowns sd (m ≫= k).
Proof. intros Hk s. apply on_done_skip. intros a s'. apply Hk. Qed.

Lemma reowns_ret sd sd' : same_owner sd sd' → reowns sd (mret sd').
Proof. by intros H s. Qed.

Lemma reowns_each (l : list nat) (body : nat → ServerData → T ServerData) sd :
  (∀ i sd, reowns sd (body i sd)) → reowns sd (for_each l body sd).
Proof.
  intros Hb. revert sd. induction l as [|i l IH]; intros sd; simpl; [by apply reowns_ret|].
  intros s. apply on_done_bind. unfold on_done at 1. eapply wp_mono; [apply Hb|].
  intros [sd1|c| |] s1; try done. intros H1. unfold on_done. eapply wp_mono; [apply IH|].
  intros [sd2|c| |] s2; try done. intros H2. by eapply same_owner_trans.
Qed.

(** Only releases, down to nothing. *)
Lemma free_resources_safely sd s :
  counts_ok sd → sound_history (trace s) → (∀ x, owned_server sd x <= live (trace s) x) →
  safely (free_resources (Some sd))
    (λ _ s', ∀ x, live (trace s') x = live (trace s) x - owned_server sd x) s.
Proof.
  intros HC HS HL.
  assert (adds acquires_nothing (free_resources (Some sd))) as Hrel.
  { unfold free_resources, first_entries, free_pub, free_sub, free_str. grow. }
  apply (wp_adds acquires_nothing); [exact Hrel|].
  eapply wp_mono; [by apply free_resources_ok|]. intros out s' [-> H] Hext. split; [|done].
  apply (sound_release s s' Hext HS). intros x. rewrite H. specialize (HL x). lia.
Qed.

Section main_lemmas.
Context {OS : ua_os} {B : ua_build}.

Lemma configure_pub_reowns i sd : reowns sd (configure_pub i sd).
Proof.
  unfold configure_pub. destruct (default [] (pubData sd) !! i) as [pd|] eqn:E; [|done].
  set (pd1 := pd {{ p_writeFunc := dummyDSWrite_f }}).
  assert (p_url pd1 = p_url pd) as Eu by by destruct pd.
  destruct (negb _).
  - apply reowns_ret. apply (set_pub_same i pd); [done|]. by destruct pd.
  - do 4 (apply reowns_skip; intros). apply reowns_ret.
    eapply same_owner_trans;
      [apply (set_pub_same i pd (pd1 {{ p_readFunc := pubReturnGetDataToTransmit_f }})); [done|by destruct pd]|].
    set (sd1 := OpcuaServer.set_pub _ _ _). by destruct sd1.
Qed.

Lemma configure_sub_reowns i sd : reowns sd (configure_sub i sd).
Proof.
  unfold configure_sub. destruct (default [] (subData sd) !! i) as [sb|] eqn:E; [|done].
  apply reowns_ret. apply (set_sub_same i sb); [done|]. by destruct sb.
Qed.

Lemma configureServer_reowns sd s :
  on_done (configureServer sd) (λ r _, same_owner sd r.2) s.
Proof.
  unfold configureServer. apply on_done_bind, wp_ask. destruct (_ =? -1); [done|].
  destruct (_ || _); [done|].
  match goal with |- on_done (for_each (List.seq 0 ?n) _ ?d ≫= _) _ _ => set (sd0 := d) end.
  assert (same_owner sd sd0) as H0 by by destruct sd.
  apply on_done_bind. unfold on_done at 1.
  eapply wp_mono; [apply (reowns_each _ configure_pub); apply configure_pub_reowns|].
  intros [sd1|c| |] s2; try done. intros H2. apply on_done_bind. unfold on_done at 1.
  eapply wp_mono; [apply (reowns_each _ configure_sub); apply configure_sub_reowns|].
  intros [sd2|c| |] s3; try done. intros H3.
  eapply same_owner_trans; [exact H0|]. by eapply same_owner_trans.
Qed.

Lemma inactive_configure sd : inactive (configureServer sd).
Proof. unfold configureServer, configure_pub, configure_sub. confine. Qed.

(** main() after the threads have ended releases everything. *)
Lemma shutdown_releases fuel s :
  balanced s → safely (shutdown fuel) (λ _ s', ∀ x, live (trace s') x = 0) s.
Proof.
  intros HB. unfold shutdown.
  apply safely_bind. eapply safely_mono; [by apply neutral_balanced, HB; apply inactive_neutral, inactive_logs|].
  intros [] s1 HS1 [HB1 _]. apply safely_bind. split; [exact HS1|].
  apply safely_bind. eapply safely_mono; [apply neutral_balanced, HB1; confine|].
  intros [] s2 HS2 [HB2 _]. apply safely_bind.
  eapply safely_mono; [apply neutral_balanced, HB2; by apply confined_ask|].
  intros [] s3 HS3 [(HL & HC & _) _]. apply safely_bind. split; [exact HS3|].
  eapply safely_mono; [apply free_resources_safely; [done|done|]|].
  - intros x. by rewrite HL.
  - intros [] s4 _ H4 x. rewrite H4, HL. lia.
Qed.

Lemma work_balanced cs s :
  balanced s → safely (work cs) (λ _ s', balanced s') s.
Proof.
  revert s. unfold work. induction cs as [|c cs IH]; intros s HB; [by split; [apply HB|]|].
  cbn [for_each]. apply safely_bind. eapply safely_mono; [by apply callback_balanced|].
  intros [] s1 _ HB1. by apply IH.
Qed.

Lemma run_server_releases cs fuel config s :
  balanced s →
  safely (run_server_with (work cs) fuel config)
    (λ r s', (r = EXIT_SUCCESS ∨ r = EXIT_FAILURE) ∧ ∀ x, live (trace s') x = 0) s.
Proof.
  intros HB. unfold run_server_with. apply safely_bind.
  eapply safely_mono; [apply neutral_balanced, HB; by apply confined_ask|].
  intros [servrun groups] s1 _ [HB1 _]. apply safely_bind.
  eapply safely_mono; [apply neutral_balanced, HB1; apply inactive_neutral, inactive_hooks|].
  intros [] s2 _ [HB2 _]. apply safely_bind. eapply safely_mono; [by apply work_balanced|].
  intros [] s3 _ HB3. apply safely_bind.
  eapply safely_mono; [apply neutral_balanced, HB3; apply inactive_neutral, inactive_join|].
  intros [] s4 _ [HB4 _]. apply safely_bind. eapply safely_mono; [by apply shutdown_releases|].
  intros [] s5 HS5 HL. apply safely_ret; [done|]. split; [|done]. case_match; auto.
Qed.
End main_lemmas.

(** ** Lemmas: the parser *)

Section parser.
Context {OS : ua_os} {api : json_api}.

(** What the parser does up to the clean-up. *)
Definition acquisition (c : call) : Prop :=
  match c with Alloc _ _ | Fopen _ _ => True | _ => False end.

Abbreviation acquires := (confined acquisition (@id ua_glob)).

Lemma acquiring {A} (m : T A) s :
  acquires m → sound_history (trace s) → wp m (λ _ s', sound_history (trace s')) s.
Proof.
  intros Hm HS. apply (wp_confined_only _ _ _ _ _ Hm). intros out s' (new & E & Hn) _.
  eapply sound_acquire, HS. exists new. split; [done|].
  eapply Forall_impl; [exact Hn|]. by intros [].
Qed.

Lemma acquires_open_output name : acquires (open_output name).
Proof. intros s. split; [|done]. eexists [_]. split; [reflexivity|]. by repeat constructor. Qed.

Lemma acquires_alloc x : acquires (alloc x).
Proof. intros s. split; [|done]. eexists [_]. split; [reflexivity|]. by repeat constructor. Qed.

#[local] Hint Resolve acquires_open_output acquires_alloc : confined.

(** [acquires m] for code that uses the accessors. *)
Ltac accesses :=
  unfold catch_err, getInt, getInt64, getBool, getString, getValue, ensureType,
    countChildrenEntries;
  repeat first [ apply confined_ask; exact I | progress confine ].

Lemma acquires_entries {A} (parse : JsObj → T (A * bool)) zero js room :
  (∀ j, acquires (parse j)) → acquires (parse_entries parse zero js room).
Proof.
  intros Hp. revert room. induction js as [|j js IH]; intros room; cbn [parse_entries]; confine;
    apply Hp.
Qed.

Lemma acquires_publisher xdp j : acquires (parse_publisher xdp j).
Proof. unfold parse_publisher. accesses. Qed.

Lemma acquires_subscriber xdp j : acquires (parse_subscriber xdp j).
Proof. unfold parse_subscriber. accesses. Qed.

Lemma acquiring_bind {A B} (m : T A) (k : A → T B) s :
  acquires m → sound_history (trace s) →
  (∀ a s', sound_history (trace s') → wp (k a) (λ _ s'', sound_history (trace s'')) s') →
  wp (m ≫= k) (λ _ s', sound_history (trace s')) s.
Proof.
  intros Hm HS Hk. apply wp_bind. eapply wp_mono; [by apply acquiring|]. intros [a|c| |] s'; auto.
Qed.

(** The only release before the clean-up: the first array, when there is no
    room for the second. *)
Lemma parse_arrays_sound json sd s :
  sound_history (trace s) →
  wp (parse_arrays json sd) (λ _ s', sound_history (trace s')) s.
Proof.
  intros HS. unfold parse_arrays. cbv zeta.
  apply acquiring_bind; [accesses|done|]. intros pubs s0 HS0.
  apply acquiring_bind; [accesses|done|]. intros nPub s1 HS1.
  apply wp_bind. unfold alloc at 1, wp at 1. cbn [fst snd].
  destruct (os_calloc _); cbn [negb].
  2: { apply wp_ret. apply sound_cons; [done|]. intros x. simpl. pose proof (sound_live _ x HS1). lia. }
  assert (sound_history (Alloc OPubs true :: trace s1)) as HS2.
  { apply sound_cons; [done|]. intros x. simpl. pose proof (sound_live _ x HS1). case_decide; lia. }
  apply wp_bind, wp_getValue; [|done]. intros subs.
  apply wp_bind. unfold countChildrenEntries. case_decide; [apply wp_ret|done]. apply wp_bind.
  unfold alloc, wp at 1. cbn [fst snd glob trace].
  destruct (os_calloc _); cbn [negb].
  - apply acquiring.
    + pose proof acquires_publisher. pose proof acquires_subscriber. unfold catch_err.
      repeat first [ apply acquires_entries; auto | progress confine ].
    + apply sound_cons; [done|]. intros x. pose proof (sound_live _ x HS2). simpl in *.
      repeat case_decide; lia.
  - apply wp_bind, wp_ask, wp_ret. cbn [trace glob].
    apply sound_cons; [apply sound_cons; [done|]|]; intros x; pose proof (sound_live _ x HS1);
      simpl; repeat case_decide; lia.
Qed.

Lemma parse_server_sound json sd s :
  sound_history (trace s) →
  wp (parse_server json sd) (λ _ s', sound_history (trace s')) s.
Proof.
  intros HS. unfold parse_server, catch_err. cbv zeta.
  repeat first
    [ apply parse_arrays_sound; assumption
    | apply acquiring_bind;
        [accesses|assumption|intros]
    | case_match
    | apply wp_ret; assumption ].
Qed.

Lemma parseJson_safely {laws : json_laws api} json s :
  sound_history (trace s) →
  safely (parseJson json)
    (λ r s', (∀ x, live (trace s') x
              = live (trace s) x + match r with Some sd => owned_server sd x | None => 0 end) ∧
             match r with Some sd => counts_ok sd | None => True end) s.
Proof.
  intros HS. unfold safely. eapply wp_mono; [apply wp_conj; [apply (parseJson_ok json s)|]|].
  2: { intros out s' [H1 H2]. split; [exact H2|]. destruct out as [[sd|]| | |]; try done.
       destruct H1 as [H1 Hok]. split; [done|]. apply Hok. }
  unfold parseJson. apply wp_bind. unfold alloc, wp at 1. cbn [fst snd].
  set (s0 := mkSt _ _). assert (sound_history (trace s0)) as HS0.
  { eapply sound_acquire, HS. eexists [_]. split; [reflexivity|]. by repeat constructor. }
  destruct (os_calloc _) eqn:Ec; cbn [negb]; [|by apply wp_ret].
  apply wp_bind. eapply wp_mono; [apply wp_conj; [apply (parse_server_ok json s0)|
                                   by apply parse_server_sound]|].
  intros [[sd ok]|c| |] s1 [H1 HS1]; [|done..]. destruct H1 as (HC & HL & _).
  destruct ok; [by apply wp_ret|]. apply wp_bind.
  eapply wp_mono; [apply (free_resources_safely sd s1 HC HS1)|].
  - intros x. rewrite HL. unfold s0. cbn [trace live]. pose proof (sound_live _ x HS).
    unfold one. case_decide; lia.
  - intros [[]|c| |] s2 [HS2 _]; auto.
Qed.

Lemma parseArgs_safely {laws : json_laws api} path s :
  sound_history (trace s) →
  safely (parseArgs path)
    (λ r s', (∀ x, live (trace s') x
              = live (trace s) x + match r with Some sd => owned_server sd x | None => 0 end) ∧
             match r with Some sd => counts_ok sd | None => True end) s.
Proof.
  intros HS. unfold parseArgs. destruct path as [file|].
  2: { apply safely_ret; [done|]. split; [intros x; lia|done]. }
  set (s0 := mkSt (glob s) (JsonFromFile file :: trace s)).
  assert (extends_by holds_nothing s s0) as H0 by (by eexists [_]; repeat constructor).
  apply held_nothing in H0 as [L0 HS0]. apply safely_bind. split; [by apply HS0|].
  destruct (json_object_from_file file) as [js|].
  2: { apply safely_ret; [by apply HS0|]. split; [|done]. intros x. rewrite L0. lia. }
  apply safely_bind. unfold safely at 1. apply wp_getValue; [|by split; [apply HS0|]].
  intros j. split; [by apply HS0|]. apply safely_bind.
  eapply safely_mono; [apply parseJson_safely; by apply HS0|]. intros r s1 HS1 [L1 HC].
  set (s2 := mkSt (glob s1) (JsonPut :: trace s1)).
  assert (extends_by holds_nothing s1 s2) as H2 by (by eexists [_]; repeat constructor).
  apply held_nothing in H2 as [L2 HS2]. apply safely_bind. split; [by apply HS2|].
  apply safely_ret; [by apply HS2|]. split; [|done]. intros x. by rewrite L2, L1, L0.
Qed.
End parser.

(** ** Lemmas: blocks of the library *)

(** Blocks held by the program itself. *)
Definition own_blocks (b : ua_block) (tr : list call) : Z := ua_held b tr - passed_on b tr.

(** Calls that have nothing to do with blocks. *)
Definition no_block (c : call) : Prop :=
  match c with
  | UaMalloc _ _ | UaFree _ | ThreadCreate _ _ | AddDataSetReader _ _ _ _
  | CreateTargetVariables _ => False
  | _ => True
  end.

Lemma own_no_block b c tr : no_block c → own_blocks b (c :: tr) = own_blocks b tr.
Proof. unfold own_blocks. destruct c; intros []; simpl; lia. Qed.

(** When [m] returns, the program has [d b] more blocks [b] of its own. *)
Definition shifts {A} (d : ua_block → Z) (m : T A) : Prop := ∀ s,
  on_done m (λ _ s', ∀ b, own_blocks b (trace s') = own_blocks b (trace s) + d b) s.

Abbreviation settles := (shifts (λ _, 0)).

Lemma shifts_bind {A C} d d1 d2 (m : T A) (k : A → T C) :
  shifts d1 m → (∀ a, shifts d2 (k a)) → (∀ b, d b = d1 b + d2 b) → shifts d (m ≫= k).
Proof.
  intros Hm Hk Hd s. apply on_done_bind. unfold on_done at 1. eapply wp_mono; [apply Hm|].
  intros [a|c| |] s1; try done. intros H1. unfold on_done. eapply wp_mono; [apply Hk|].
  intros [c|c| |] s2; try done. intros H2 b. rewrite H2, H1, Hd. lia.
Qed.

Lemma settles_bind {A C} (m : T A) (k : A → T C) :
  settles m → (∀ a, settles (k a)) → settles (m ≫= k).
Proof. intros Hm Hk. by eapply shifts_bind. Qed.

Lemma settles_quiet {A} (m : T A) : adds no_block m → settles m.
Proof.
  intros Hm s. unfold on_done, wp. destruct (Hm s) as (new & E & Hn).
  destruct (m s).1; try done. intros b. rewrite E, Z.add_0_r. clear E.
  induction Hn as [|c new Hc _ IH]; [done|]. cbn [app]. by rewrite own_no_block.
Qed.

Lemma shifts_ask {X} c (f : list call → X) :
  shifts (λ b, own_blocks b [c]) (ask c f).
Proof.
  intros s. apply wp_ask. intros b. cbn [trace]. unfold own_blocks.
  destruct c; simpl; try lia; repeat case_match; lia.
Qed.

Lemma settles_try_each {A X} (l : list A) (body : A → X → T (option X)) x :
  (∀ a x, settles (body a x)) → settles (try_each l body x).
Proof.
  intros Hb. revert x. induction l as [|a l IH]; intros x; simpl.
  - apply settles_quiet, adds_ret.
  - apply settles_bind; [done|]. intros [y|]; [apply IH|apply settles_quiet, adds_ret].
Qed.

Section blocks.
Context {OS : ua_os} {B : ua_build}.

Lemma settles_hook group : settles (addRepeatedCallback group).
Proof.
  intros s. unfold addRepeatedCallback. apply on_done_bind. unfold on_done at 1, wp. cbn [fst snd].
  destruct (os_calloc (trace s)); cbn [negb].
  2: { apply wp_ret. intros b. unfold own_blocks. simpl. lia. }
  eapply (on_done_bind get). cbn. set (s1 := mkSt _ _).
  assert (∀ pub prio cpu i, shifts (λ b, if decide (b = ThreadParams) then -1 else 0)
    (threadCreation prio cpu pub i)) as Hc.
  { intros pub prio cpu i. unfold threadCreation.
    eapply shifts_bind; [apply settles_quiet; grow|intros r1|intros b; symmetry; apply Z.add_0_l].
    destruct (negb _); [by intros t|].
    eapply shifts_bind; [apply settles_quiet; grow|intros r2|intros b; symmetry; apply Z.add_0_l].
    destruct (negb _); [by intros t|].
    eapply shifts_bind; [apply shifts_ask|intros [r id]; apply settles_quiet, adds_ret|].
    intros b. unfold own_blocks. destruct b; done. }
  assert (shifts (λ b, if decide (b = ThreadParams) then -1 else 0)
    ((if group =? g_writerGroupIdent (glob s1) then
        pd ← pub_at (g_indexPub (glob s1));
        id ← threadCreation PUB_THREAD_PRIORITY (p_cpuAffinity pd) true (g_indexPub (glob s1));
        record_thread id;;
        modify (λ g, g {{ g_indexPub := u16 (g_indexPub g + 1) }})
      else
        sd ← sub_at (g_indexSub (glob s1));
        id ← threadCreation SUB_THREAD_PRIORITY (s_cpuAffinity sd) false (g_indexSub (glob s1));
        record_thread id;;
        modify (λ g, g {{ g_indexSub := u16 (g_indexSub g + 1) }}));;
     modify (λ g, g {{ g_threadRun := u16 (g_threadRun g + 1) }});;
     mret UA_STATUSCODE_GOOD)) as H.
  { eapply shifts_bind; [|intros; apply settles_quiet; grow|intros b; symmetry; apply Z.add_0_r].
    unfold pub_at, sub_at, record_thread.
    case_match; (eapply shifts_bind;
      [apply settles_quiet; grow|intros d|intros b; symmetry; apply Z.add_0_l]);
      (eapply shifts_bind; [apply Hc|intros; apply settles_quiet; grow|
                            intros b; symmetry; apply Z.add_0_r]). }
  unfold on_done. eapply wp_mono; [apply H|]. intros [r|c| |] s2; try done.
  intros E b. rewrite E. unfold s1, own_blocks. simpl. destruct b; simpl; lia.
Qed.

Lemma settles_hooks groups : settles (run_hooks groups).
Proof.
  unfold run_hooks. induction groups as [|g l IH]; cbn [for_each]; [apply settles_quiet, adds_ret|].
  apply settles_bind; [|by intros []].
  apply settles_bind; [apply settles_hook|intros; apply settles_quiet, adds_ret].
Qed.

Lemma shifts_library c : shifts (λ b, own_blocks b [c]) (library c).
Proof.
  unfold library. eapply shifts_bind; [apply shifts_ask|apply settles_hooks|].
  intros b. by rewrite Z.add_0_r.
Qed.

Lemma shifts_library_id c : shifts (λ b, own_blocks b [c]) (library_id c).
Proof.
  unfold library_id. eapply shifts_bind; [apply shifts_ask| |intros b; by rewrite Z.add_0_r].
  intros [id groups]. apply settles_bind; [apply settles_hooks|].
  intros; apply settles_quiet, adds_ret.
Qed.

Lemma settles_library c : no_block c → settles (library c).
Proof.
  intros Hc s. eapply wp_mono; [apply shifts_library|]. intros [a|e| |] s'; try done.
  intros H b. by rewrite H, own_no_block.
Qed.

Lemma settles_library_id c : no_block c → settles (library_id c).
Proof.
  intros Hc s. eapply wp_mono; [apply shifts_library_id|]. intros [a|e| |] s'; try done.
  intros H b. by rewrite H, own_no_block.
Qed.

Lemma shifts_unchecked b : shifts (λ b', if decide (b = b') then 1 else 0) (unchecked_malloc b).
Proof.
  intros s. unfold unchecked_malloc, on_done, wp. cbn [fst snd].
  destruct (os_calloc (trace s)); [|done]. intros b'. unfold own_blocks. simpl. lia.
Qed.

(** One bind of set-up code that keeps the balance. *)
Ltac settled :=
  repeat first
    [ by apply settles_library
    | by apply settles_library_id
    | apply settles_quiet; solve [grow]
    | apply settles_bind; [|intros] ].

Lemma settles_addWriterGroup conn sdata pd : settles (addWriterGroup conn sdata pd).
Proof.
  unfold addWriterGroup.
  eapply shifts_bind with (d2 := λ b, if decide (WriterMessage = b) then -1 else 0);
    [apply shifts_unchecked|intros _|intros b; simpl; case_decide; lia].
  eapply shifts_bind; [by apply settles_library_id|intros wg|intros b; symmetry; apply Z.add_0_l].
  eapply shifts_bind; [apply settles_quiet; grow|intros _|intros b; symmetry; apply Z.add_0_l].
  eapply shifts_bind; [by apply settles_library|intros _|intros b; symmetry; apply Z.add_0_l].
  intros s. eapply wp_mono; [apply shifts_ask|]. intros [a|e| |] s'; try done. intros H b.
  rewrite H. unfold own_blocks. destruct b; done.
Qed.

Lemma settles_addDataSetReader rg sub : settles (addDataSetReader rg sub).
Proof.
  unfold addDataSetReader.
  eapply shifts_bind; [apply shifts_unchecked|intros _; apply shifts_library_id|].
  intros b. unfold own_blocks. destruct b; done.
Qed.

Lemma settles_addSubscribedVariables i sub reader : settles (addSubscribedVariables i sub reader).
Proof.
  unfold addSubscribedVariables. apply settles_bind; [by apply settles_library|intros _].
  intros s. apply on_done_bind. unfold checked_malloc, on_done at 1, wp. cbn [fst snd].
  destruct (os_calloc (trace s)).
  - eapply wp_mono; [apply shifts_library|]. intros [a|e| |] s'; try done. intros H b.
    rewrite H. unfold own_blocks. destruct b; simpl; lia.
  - apply wp_ret. intros b. unfold own_blocks. simpl. lia.
Qed.

Lemma settles_setup sdata : settles (setupOpcuaServer sdata).
Proof.
  pose proof settles_addWriterGroup. pose proof settles_addDataSetReader.
  pose proof settles_addSubscribedVariables.
  unfold setupOpcuaServer. do 2 (apply settles_bind; [apply settles_quiet; grow|intros]).
  apply settles_bind.
  { intros s. unfold on_done, wp. cbn [fst snd]. intros b. cbn [trace].
    by rewrite own_no_block, Z.add_0_r. }
  intros ok. case_match; [settled|]. apply settles_bind.
  - apply settles_try_each. intros i x. unfold setup_pub.
    case_match; [|by intros ?].
    unfold addPubSubConnection, createPublisher, addPublishedDataSet, addDataSetField, addDataSetWriter.
    repeat first [ solve [auto] | by apply settles_library | by apply settles_library_id
                 | apply settles_quiet; solve [grow] | apply settles_bind; [|intros] ].
  - intros [[conn pub]|]; [|settled]. apply settles_bind.
    + apply settles_try_each. intros i [config conn']. unfold setup_sub.
      case_match; [|by intros ?]. case_match; [|by intros ?].
      unfold addSubConnection, createSubscriber, addReaderGroup.
      repeat first [ solve [auto] | by apply settles_library | by apply settles_library_id
                   | apply settles_quiet; solve [grow] | apply settles_bind; [|intros]
                   | case_match ].
    + intros [[config ?]|]; settled.
Qed.

Lemma no_block_alloc x : adds no_block (alloc x).
Proof. intros s. eexists [_]. split; [reflexivity|]. by repeat constructor. Qed.

Lemma no_block_open name : adds no_block (open_output name).
Proof. intros s. eexists [_]. split; [reflexivity|]. by repeat constructor. Qed.

#[local] Hint Resolve no_block_alloc no_block_open : grows.

Lemma no_block_entries {api : json_api} {A} (parse : JsObj → T (A * bool)) zero js room :
  (∀ j, adds no_block (parse j)) → adds no_block (parse_entries parse zero js room).
Proof.
  intros Hp. revert room. induction js as [|j js IH]; intros room; cbn [parse_entries];
    [apply adds_ret|]. destruct room; [apply adds_undefined|].
  apply adds_bind; [apply Hp|]. intros [x ok]. destruct ok; [|apply adds_ret].
  apply adds_bind; [apply IH|]. intros [xs ok]. apply adds_ret.
Qed.

Lemma no_block_parseArgs {api : json_api} path : adds no_block (parseArgs path).
Proof.
  assert (∀ xdp js n, adds no_block (parse_entries (parse_publisher xdp) zero_pub js n)) as Hp.
  { intros. apply no_block_entries. intros j. unfold parse_publisher, catch_err, getInt, getBool,
      getString, getValue, ensureType. grow. }
  assert (∀ xdp js n, adds no_block (parse_entries (parse_subscriber xdp) zero_sub js n)) as Hs.
  { intros. apply no_block_entries. intros j. unfold parse_subscriber, catch_err, getInt, getBool,
      getString, getValue, ensureType. grow. }
  unfold parseArgs, parseJson, parse_server, parse_arrays, catch_err, getInt, getInt64, getBool,
    getString, getValue, ensureType, countChildrenEntries, free_resources, first_entries, free_pub,
    free_sub, free_str.
  repeat first [ apply Hp | apply Hs | progress grow ].
Qed.

Lemma no_block_callback c u : adds no_block (run_callback c u).
Proof.
  destruct c; unfold run_callback, pubGetDataToTransmit, pubReturnGetDataToTransmit, subStoreDataReceived,
    subReturnStoreDataReceived, store_sample, log_return, finish_run, get_sub, clock_gettime, word,
    OpcuaDatasource.set_sub; grow.
Qed.

Lemma settles_main {api : json_api} cs fuel path : settles (main_with (work cs) fuel path).
Proof.
  unfold main_with. apply settles_bind.
  { apply settles_quiet, no_block_parseArgs. }
  intros [sdata|]; [|by intros ?]. unfold serve_with. apply settles_bind.
  { apply settles_quiet. unfold configureServer, configure_pub, configure_sub. grow. }
  intros [ret sd]. destruct (ret =? -1); [by intros s|]. cbv zeta.
  destruct (_ >? _); [by intros s|]. apply settles_bind; [apply settles_quiet; grow|intros _].
  apply settles_bind; [apply settles_setup|]. intros [config|]; [|by intros ?].
  unfold run_server_with. apply settles_bind; [apply settles_quiet; grow|].
  intros [servrun groups]. apply settles_bind; [apply settles_hooks|intros _].
  apply settles_bind.
  { apply settles_quiet. unfold work. apply adds_for_each. apply no_block_callback. }
  intros _. apply settles_bind; [apply settles_quiet; unfold join_threads; grow|intros _].
  apply settles_bind; [|intros; apply settles_quiet; grow].
  apply settles_quiet. unfold shutdown, ts_log_stop, copy_file, free_resources, first_entries, free_pub,
    free_sub, free_str. grow.
Qed.
End blocks.

(** ** Properties *)

(** Both threads free their arguments last. *)
Theorem threads_free_params {OS : ua_os} {B : ua_build} fuel i s :
  on_done (pub_thread fuel i) (λ _ s', ∃ old, trace s' = UaFree ThreadParams :: old) s ∧
  on_done (sub_thread fuel i) (λ _ s', ∃ old, trace s' = UaFree ThreadParams :: old) s.
Proof.
  split.
  - unfold pub_thread. do 4 (apply on_done_skip; intros). apply wp_ask. by eexists.
  - unfold sub_thread. do 3 (apply on_done_skip; intros). case_match; [|done].
    apply on_done_skip. intros. apply wp_ask. by eexists.
Qed.

(** C7: what the process acquires is released, but for two blocks per subscriber.
    Whatever the configuration file holds, whatever the library and the kernel
    answer and whatever the threads' callbacks do meanwhile (they may close output
    files): at no moment has a string, array or structure of the configuration or an
    output file been released more often than acquired, however the process ends.
    When main() returns, the result is EXIT_SUCCESS or EXIT_FAILURE and every one of
    those objects has been released exactly once.  Of the blocks allocated
    through open62541, main() then has freed the settings of every writer group's
    messages; the arguments of each thread are left to it (threads_free_params);
    and the fields of every reader and the target variables of every subscriber are
    left with nobody to free them, one for each call that uses them. *)
Theorem process_releases_all {OS : ua_os} {B : ua_build} {api : json_api} {laws : json_laws api}
    cs fuel path s :
  sound_history (trace s) → (∀ x, live (trace s) x = 0) →
  (∀ b, ua_held b (trace s) = passed_on b (trace s)) →
  let r := main_with (work cs) fuel path s in
  sound_history (trace r.2) ∧
  ∀ code, r.1 = Done code →
    (code = EXIT_SUCCESS ∨ code = EXIT_FAILURE) ∧ (∀ x, live (trace r.2) x = 0) ∧
    ∀ b, ua_held b (trace r.2) = passed_on b (trace r.2).
Proof.
  intros HS H0 Hu r.
  assert (∀ code, r.1 = Done code → ∀ b, ua_held b (trace r.2) = passed_on b (trace r.2)) as Hr.
  { intros code E b. pose proof (settles_main cs fuel path s) as H. unfold on_done, wp in H.
    fold r in H. rewrite E in H. specialize (H b). specialize (Hu b). unfold own_blocks in H. lia. }
  cut (safely (main_with (work cs) fuel path)
    (λ r s', (r = EXIT_SUCCESS ∨ r = EXIT_FAILURE) ∧ ∀ x, live (trace s') x = 0) s).
  { intros [H1 H2]. split; [exact H1|]. intros code E. pose proof (Hr code E) as H3.
    fold r in H2. rewrite E in H2. destruct H2 as [H2 H4]. split; [exact H2|]. by split. }
  clear r Hr. unfold main_with. apply safely_bind.
  eapply safely_mono; [by apply parseArgs_safely|]. intros [sd|] s1 HS1 [HL HC]; [|by split].
  unfold serve_with. apply safely_bind.
  apply (wp_confined holds_nothing g_sData); [apply inactive_neutral, inactive_configure|].
  eapply wp_mono; [apply configureServer_reowns|].
  intros out s2 H2 L2 _. apply held_nothing in L2 as [L2 HS2]. specialize (HS2 HS1).
  split; [exact HS2|]. destruct out as [[ret sd1]|c| |]; try done. destruct H2 as (H2 & C2 & _).
  destruct (ret =? -1); [by split|]. destruct (_ >? _); [by split|].
  apply safely_bind. unfold safely at 1, modify, wp at 1. cbn [fst snd]. set (s3 := mkSt _ _).
  split; [exact HS2|]. assert (balanced s3) as HB.
  { unfold s3, balanced. cbn [glob trace]. split; [|split; [|exact HS2]].
    - intros x. rewrite L2, HL, H0, H2. by destruct (glob s2).
    - destruct (glob s2). simpl. by apply C2. }
  apply safely_bind. eapply safely_mono; [apply neutral_balanced, HB; apply inactive_neutral, inactive_setup|].
  intros [config|] s4 HS4 [HB4 _]; [|by split]. by apply run_server_releases.
Qed.

(** ** Witnesses *)

Definition demo_file : option js := Some (JObj [("opcua_server"%string, demo_config 30000)]).

(** One subscriber that receives a sample and then the last one. *)
Definition demo_callbacks : list callback :=
  [Store 0 (Some (mk_variant 2 (Some [7; 5]))); Store 0 (Some (mk_variant 2 (Some [1000; 6])))].

Lemma process_releases_all_witness :
  let r := @main_with demo_ua_os demo_ua_build (demo_json demo_file) (@work demo_ua_os demo_callbacks)
             1 (Some (bytes_of_string "config.json")) (mkSt init_ua_glob []) in
  r.1 = Done EXIT_SUCCESS ∧ sound_history (trace r.2) ∧ (∀ x, live (trace r.2) x = 0) ∧
  ua_held ReaderFields (trace r.2) = 1 ∧ ua_held TargetVariables (trace r.2) = 1.
Proof.
  pose proof (@process_releases_all demo_ua_os demo_ua_build (demo_json demo_file)
    (demo_json_laws demo_file) demo_callbacks 1 (Some (bytes_of_string "config.json"))
    (mkSt init_ua_glob [])) as H.
  revert H. set (r := main_with _ _ _ _). intros H. cbn zeta in *.
  assert (r.1 = Done EXIT_SUCCESS) as Hr by (vm_compute; reflexivity).
  assert (passed_on ReaderFields (trace r.2) = 1 ∧ passed_on TargetVariables (trace r.2) = 1)
    as [H3 H4] by (vm_compute; by split).
  clearbody r. destruct H as [H1 H2].
  - intros past x Hp. by apply suffix_nil_inv in Hp as ->.
  - intros x. reflexivity.
  - intros b. reflexivity.
  - destruct (H2 _ Hr) as (_ & H5 & H6). split; [exact Hr|]. split; [exact H1|].
    split; [exact H5|]. rewrite !H6. by split.
Defined.
