(* ===== verification/OpcuaTrip.v ===== *)
(** * OPC UA server: a round trip between two processes

    Server A publishes samples and logs those that return; server B queues what
    it receives and sends it back.  Within a process the callbacks run in any
    order and share the globals; between the processes there are only the network,
    which may lose arrays but keeps their order, and B's message queue. *)

From S2P Require Import Prelude Sys Libc Opcua OpcuaDatasource OpcuaConfig OpcuaThreads OpcuaServer OpcuaRoundTrip OpcuaProcess.

Local Open Scope Z_scope.

(** ** Specification *)

(** What happens in the threads of A and of B. *)
Inductive a_event : Type := Send | Return (b : back).
Inductive b_event : Type := Arrive (x : Z * Z) | Forward.

Definition a_callback (e : a_event) : callback :=
  match e with
  | Send => Publish
  | Return b => Store_return 0 (delivery (back_words b))
  end.

Definition b_callback (e : b_event) : callback :=
  match e with
  | Arrive x => Store 0 (delivery (sample_words x))
  | Forward => Publish_return
  end.

Definition returned (es : list a_event) : list back :=
  omap (λ e, match e with Return b => Some b | Send => None end) es.

Definition arrived (es : list b_event) : list (Z * Z) :=
  omap (λ e, match e with Arrive x => Some x | Forward => None end) es.

Definition sends (es : list a_event) : nat :=
  length (omap (λ e, match e with Send => Some tt | Return _ => None end) es).

Definition forwards (es : list b_event) : nat :=
  length (omap (λ e, match e with Forward => Some tt | Arrive _ => None end) es).

(** The samples that have arrived and are not forwarded yet, in a queue that loses
    none: one run of the return publisher takes one. *)
Definition backlog (es : list b_event) : nat :=
  foldl (λ n e, match e with Arrive _ => S n | Forward => pred n end) 0%nat es.

(** ** Lemmas: what a callback leaves alone *)

Definition no_array (c : call) : Prop := match c with SetArrayCopy _ => False | _ => True end.
Definition no_line (c : call) : Prop := match c with Log _ _ => False | _ => True end.
Definition no_send (c : call) : Prop := match c with Msgsnd _ _ => False | _ => True end.
Definition no_receive (c : call) : Prop := match c with Msgrcv _ => False | _ => True end.

(** Calls that handle no sample. *)
Definition sampleless (c : call) : Prop := no_array c ∧ no_line c ∧ no_send c ∧ no_receive c.

Lemma no_array_published (s s' : st ua_glob call) :
  extends_by no_array s s' → published (trace s') = published (trace s).
Proof.
  intros (new & -> & H). induction H as [|c new Hc _ IH]; [done|]. simpl.
  rewrite published_cons, IH. destruct c; try done; apply app_nil_r.
Qed.

Lemma no_array_stamps `{!ua_os} (s s' : st ua_glob call) :
  extends_by no_array s s' → stamps is_array (trace s') = stamps is_array (trace s).
Proof.
  intros (new & -> & Hnew). induction Hnew as [|c new Hc _ IH]; [done|]. cbn [app stamps].
  rewrite IH. destruct c; try done; apply app_nil_r.
Qed.

Lemma no_line_logged path (s s' : st ua_glob call) :
  extends_by no_line s s' → logged path (trace s') = logged path (trace s).
Proof.
  intros (new & -> & H). induction H as [|c new Hc _ IH]; [done|]. simpl.
  rewrite logged_cons, IH. destruct c; try done; apply app_nil_r.
Qed.

Lemma no_line_stamps `{!ua_os} path (s s' : st ua_glob call) :
  extends_by no_line s s' → stamps (is_line path) (trace s') = stamps (is_line path) (trace s).
Proof.
  intros (new & -> & Hnew). induction Hnew as [|c new Hc _ IH]; [done|]. cbn [app stamps].
  rewrite IH. destruct c; try done; apply app_nil_r.
Qed.

Lemma no_send_queued {OS : ua_os} (s s' : st ua_glob call) :
  extends_by no_send s s' → queued (trace s') = queued (trace s).
Proof.
  intros (new & -> & H). induction H as [|c new Hc _ IH]; [done|]. simpl.
  destruct c; try exact IH; done.
Qed.

Lemma no_receive_received {OS : ua_os} (s s' : st ua_glob call) :
  extends_by no_receive s s' → received (trace s') = received (trace s).
Proof.
  intros (new & -> & H). induction H as [|c new Hc _ IH]; [done|]. simpl.
  destruct c; try exact IH; done.
Qed.

Lemma extends_weaken {G C} (K K' : C → Prop) (s s' : st G C) :
  (∀ c, K c → K' c) → extends_by K s s' → extends_by K' s s'.
Proof. intros HK (new & E & H). exists new. split; [done|]. by eapply Forall_impl. Qed.

(** Nothing observable happens. *)
Definition unobserved `{!ua_os} (s s' : st ua_glob call) : Prop :=
  published (trace s') = published (trace s) ∧
  stamps is_array (trace s') = stamps is_array (trace s) ∧
  (∀ path, logged path (trace s') = logged path (trace s) ∧
           stamps (is_line path) (trace s') = stamps (is_line path) (trace s)) ∧
  queued (trace s') = queued (trace s) ∧ received (trace s') = received (trace s).

Lemma sampleless_unobserved {OS : ua_os} (s s' : st ua_glob call) :
  extends_by sampleless s s' → unobserved s s'.
Proof.
  intros H. split; [|split; [|split; [|split]]].
  - apply no_array_published. eapply extends_weaken, H. by intros c (? & _).
  - apply no_array_stamps. eapply extends_weaken, H. by intros c (? & _).
  - intros path. split; [apply no_line_logged|apply no_line_stamps];
      (eapply extends_weaken, H; by intros c (_ & ? & _)).
  - apply no_send_queued. eapply extends_weaken, H. by intros c (_ & _ & ? & _).
  - apply no_receive_received. eapply extends_weaken, H. by intros c (_ & _ & _ & ?).
Qed.

(** The counters of the two publishers. *)
Definition counters (g : ua_glob) : Z * Z := (tx_sequence g, prev_rx_sequence g).

Section frames.
Context {OS : ua_os}.

Lemma store_frame i data :
  confined (λ c, no_array c ∧ no_receive c) counters (subStoreDataReceived i data).
Proof.
  unfold subStoreDataReceived, get_sub, store_sample, word, clock_gettime, finish_run,
    OpcuaDatasource.set_sub. confine.
Qed.

Lemma return_frame i data :
  confined (λ c, no_array c ∧ no_send c) counters (subReturnStoreDataReceived i data).
Proof.
  unfold subReturnStoreDataReceived, get_sub, log_return, word, clock_gettime, finish_run,
    OpcuaDatasource.set_sub. confine.
Qed.

Lemma publish_frame : confined no_line g_sData pubGetDataToTransmit.
Proof. unfold pubGetDataToTransmit, clock_gettime. confine. Qed.

Lemma pub_return_frame :
  confined no_send g_sData pubReturnGetDataToTransmit.
Proof.
  unfold pubReturnGetDataToTransmit, clock_gettime. apply confined_bind; [|intros; confine].
  generalize (mk_msgq 888 888 888). generalize 15%nat. intros n.
  induction n as [|n IH]; intros m; cbn [receive]; confine.
Qed.
End frames.

(** ** Lemmas: server A *)

Section server_a.
Context {OS : ua_os} (path : list Z) (id count : Z).
Hypothesis Hcount : 1 <= count < 2 ^ 62.
Implicit Types s : st ua_glob call.

Abbreviation logs := (logs_to 0 path id count).

(** A publishes a sample. *)
Lemma send_step is_open s :
  logs is_open s → -2 <= tx_sequence (glob s) < 2 ^ 62 →
  wp (run_callback Publish tt)
     (λ out s', out = Done tt ∧ logs is_open s' ∧
        tx_sequence (glob s') = tx_sequence (glob s) + 1 ∧
        (∃ t, published (trace s') = published (trace s) ++ [[u64 (tx_sequence (glob s) + 1); t]]) ∧
        lines_added path [] s s') s.
Proof.
  intros (Hc & Hl) Htx. apply wp_bind, (wp_confined _ _ _ _ _ publish_frame).
  eapply wp_mono; [apply pub_once; rewrite ?Hc; lia|].
  intros out s' (-> & Ea & Et & Es & _) Hext _. apply wp_ret. split; [done|].
  split; [by split; rewrite Es|]. split; [done|]. split.
  - eexists. rewrite Ea. cbn [sent_samples]. by rewrite !published_cons, app_nil_r, Z.add_0_r.
  - split; rewrite app_nil_r; [by apply no_line_logged|by apply no_line_stamps].
Qed.

(** A logs an array that has returned. *)
Lemma return_step is_open b s :
  logs is_open s →
  wp (run_callback (Store_return 0 (delivery (back_words b))) tt)
     (λ out s', out = Done tt ∧
        logs (is_open && (is_error (seqA b) || negb (seqA b >=? count))) s' ∧
        tx_sequence (glob s') = tx_sequence (glob s) ∧
        published (trace s') = published (trace s) ∧
        ∃ now, lines_added path
          (if is_open && negb (is_error (seqA b)) then [(result_line id b now, now)] else [])
          s s') s.
Proof.
  intros Hl. apply wp_bind, (wp_confined _ _ _ _ _ (return_frame 0 _)).
  eapply wp_mono; [by apply (return_one 0 path id count is_open b)|].
  intros out s' (-> & Hl' & now & El) Hext [= Et _]. apply wp_ret. split; [done|].
  split; [done|]. split; [done|]. split; [|by exists now].
  apply no_array_published. eapply extends_weaken, Hext. by intros c [].
Qed.

Lemma lines_added_trans new1 new2 s1 s2 s3 :
  lines_added path new1 s1 s2 → lines_added path new2 s2 s3 → lines_added path (new1 ++ new2) s1 s3.
Proof.
  intros [E1 E2] [E3 E4]. split; rewrite fmap_app.
  - by rewrite E3, E1, app_assoc.
  - by rewrite E4, E2, app_assoc.
Qed.

(** The work of A's threads in any order: samples with consecutive numbers, and
    one line for each of [results]. *)
Lemma a_run es is_open s :
  logs is_open s → -2 <= tx_sequence (glob s) →
  tx_sequence (glob s) + Z.of_nat (sends es) < 2 ^ 62 →
  wp (work (a_callback <$> es))
     (λ out s', out = Done tt ∧ ∃ smp nows,
        published (trace s') = published (trace s) ++ (sample_words <$> smp) ∧
        fst <$> smp = u64 <$> seqZ (tx_sequence (glob s) + 1) (Z.of_nat (sends es)) ∧
        length nows = length (results is_open count (returned es)) ∧
        lines_added path
          (zip_with (λ b now, (result_line id b now, now)) (results is_open count (returned es)) nows)
          s s') s.
Proof.
  revert is_open s. induction es as [|[|b] es IH]; intros is_open s Hl Hlo Hhi.
  - split; [done|]. exists [], []. unfold lines_added. by rewrite !app_nil_r.
  - change (sends (Send :: es)) with (S (sends es)) in *.
    change (returned (Send :: es)) with (returned es). apply wp_bind.
    eapply wp_mono; [apply (send_step is_open s Hl); lia|].
    intros out s1 (-> & Hl1 & Et & (t & Ep) & El).
    eapply wp_mono; [apply (IH is_open s1 Hl1); lia|].
    intros out s2 (-> & smp & nows & Ep2 & En & Hn & El2). split; [done|].
    exists ((u64 (tx_sequence (glob s) + 1), t) :: smp), nows. split; [|split; [|split]].
    + by rewrite Ep2, Ep, <- app_assoc.
    + rewrite seqZ_cons by lia. rewrite fmap_cons, En, Et. cbn [fst fmap list_fmap].
      f_equal. do 2 f_equal; lia.
    + done.
    + by apply (lines_added_trans [] _ s s1 s2).
  - change (sends (Return b :: es)) with (sends es) in *.
    change (returned (Return b :: es)) with (b :: returned es). apply wp_bind.
    eapply wp_mono; [apply (return_step is_open b s Hl)|].
    intros out s1 (-> & Hl1 & Et & Ep & now & El).
    eapply wp_mono; [apply (IH _ s1 Hl1); lia|].
    intros out s2 (-> & smp & nows & Ep2 & En & Hn & El2). split; [done|]. cbn [results].
    rewrite Et in En. rewrite Ep in Ep2. pose proof (lines_added_trans _ _ _ _ _ El El2) as Ell.
    destruct (is_error (seqA b)); cbn [orb negb] in *.
    + rewrite andb_true_r in Hn, Ell. rewrite andb_false_r in Ell. by exists smp, nows.
    + rewrite andb_true_r in Ell. destruct is_open; cbn [andb] in *.
      * exists smp, (now :: nows). split; [done|]. split; [done|].
        split; [by simpl; rewrite Hn|]. exact Ell.
      * by exists smp, nows.
Qed.
End server_a.

(** ** Lemmas: server B *)

Section server_b.
Context {OS : ua_os}.
Implicit Types s : st ua_glob call.

Lemma work_snoc cs c s : work (cs ++ [c]) s = (work cs;; run_callback c tt) s.
Proof.
  unfold work. revert s. induction cs as [|c' cs IH]; intros s; cbn [app for_each];
    unfold mbind, M_bind in *.
  - cbn. by destruct (run_callback c tt s) as [[[]|?| |] s'].
  - by destruct (run_callback c' tt s) as [[[]|?| |] s'].
Qed.

(** B queues a sample. *)
Lemma arrive_step x s :
  ready 0 s →
  wp (run_callback (Store 0 (delivery (sample_words x))) tt)
     (λ out s', out = Done tt ∧ ready 0 s' ∧ counters (glob s') = counters (glob s) ∧
        published (trace s') = published (trace s) ∧
        stamps is_array (trace s') = stamps is_array (trace s) ∧
        received (trace s') = received (trace s) ∧ ∃ tr tr', queued (trace s') = queued (trace s) ++
          (if os_msgsnd tr' <? 0 then [] else [mk_msgq x.1 x.2 (as_nanoseconds (os_clock tr))])) s.
Proof.
  intros Hr. apply wp_bind, (wp_confined _ _ _ _ _ (store_frame 0 _)).
  eapply wp_mono; [by apply (store_one 0 x)|].
  intros out s' (-> & Hr' & tr & tr' & Eq) Hext Ec. apply wp_ret. split; [done|].
  split; [done|]. split; [done|]. split; [|split; [|split; [|by exists tr, tr']]].
  - apply no_array_published. eapply extends_weaken, Hext. by intros c [].
  - apply no_array_stamps. eapply extends_weaken, Hext. by intros c [].
  - apply no_receive_received. eapply extends_weaken, Hext. by intros c [].
Qed.

(** B sends back what is in the queue. *)
Lemma forward_step_run s :
  ready 0 s →
  wp (run_callback Publish_return tt)
     (λ out s', out = Done tt ∧ ready 0 s' ∧ queued (trace s') = queued (trace s) ∧ ∃ om,
        received (trace s') = received (trace s) ++ option_list om ∧
        (queue_keeps → om = queued (trace s) !! length (received (trace s))) ∧
        (-2 <= tx_sequence (glob s) < 2 ^ 62 → step_done om s s')) s.
Proof.
  intros Hr. apply wp_bind, (wp_confined _ _ _ _ _ pub_return_frame).
  eapply wp_mono; [apply pub_return_step|]. intros out s' (-> & H) Hext Ed. apply wp_ret.
  split; [done|]. split; [unfold ready; by rewrite Ed|]. split; [by apply no_send_queued|exact H].
Qed.

(** What B has queued of the samples [xs], at what times. *)
Definition stores (xs : list (Z * Z)) (ms : list msgq_buf) : Prop :=
  ∃ kept clocks, kept `sublist_of` xs ∧ length clocks = length kept ∧
    Forall (λ now, ∃ tr, now = as_nanoseconds (os_clock tr)) clocks ∧
    ms = zip_with (λ x now, mk_msgq x.1 x.2 now) kept clocks ∧
    ((∀ tr, 0 <= os_msgsnd tr) → kept = xs).

Lemma stores_snoc xs ms x tr tr' :
  stores xs ms →
  stores (xs ++ [x])
    (ms ++ if os_msgsnd tr' <? 0 then [] else [mk_msgq x.1 x.2 (as_nanoseconds (os_clock tr))]).
Proof.
  intros (kept & clocks & Hs & Hl & Hc & -> & Hall).
  destruct (Z.ltb_spec (os_msgsnd tr') 0) as [Hlt|_].
  - exists kept, clocks. rewrite app_nil_r. split; [by apply sublist_inserts_r|].
    do 3 (split; [done|]). intros Hok. specialize (Hok tr'). lia.
  - exists (kept ++ [x]), (clocks ++ [as_nanoseconds (os_clock tr)]).
    split; [by apply sublist_app|]. rewrite !length_app, Hl. split; [done|].
    split; [apply Forall_app_2; [done|]; constructor; [by eexists|constructor]|].
    split; [by rewrite zip_with_app|]. intros Hok. by rewrite Hall.
Qed.

(** The work of B's threads in any order: the queue gets what arrives, unless it
    is full, and each run of the return publisher is a step of the forwarder on
    what the queue delivers. *)
Lemma b_run es s :
  ready 0 s → -2 <= tx_sequence (glob s) →
  tx_sequence (glob s) + Z.of_nat (forwards es) < 2 ^ 62 →
  wp (work (b_callback <$> es))
     (λ out s', out = Done tt ∧ ready 0 s' ∧
        (∃ ms, queued (trace s') = queued (trace s) ++ ms ∧ stores (arrived es) ms) ∧
        ∃ inputs outs nows, length inputs = forwards es ∧
          received (trace s') = received (trace s) ++ omap id inputs ∧
          runs_done inputs outs nows s s') s.
Proof.
  intros Hr Hlo. induction es as [|e es IH] using rev_ind; intros Hhi.
  - split; [done|]. split; [done|]. split.
    + exists []. split; [by rewrite app_nil_r|]. by exists [], [].
    + exists [], [], []. unfold runs_done. rewrite !app_nil_r. by repeat (split; [done|]).
  - assert (arrived (es ++ [e]) = arrived es ++ match e with Arrive x => [x] | Forward => [] end)
      as -> by (unfold arrived; rewrite omap_app; by destruct e).
    rewrite fmap_app. eapply wp_same_run; [apply work_snoc|].
    assert (forwards (es ++ [e])
            = (forwards es + match e with Forward => 1 | Arrive _ => 0 end)%nat) as Ef
      by (unfold forwards; rewrite omap_app, length_app; by destruct e).
    rewrite Ef in *. apply wp_bind. eapply wp_mono; [apply IH; lia|].
    intros out s1 (-> & Hr1 & (ms & Eq & Hms) & inputs & outs & nows & Hl & Erc & Hd).
    destruct e as [x|].
    + eapply wp_mono; [by apply (arrive_step x)|].
      intros out s2 (-> & Hr2 & [= Et Epv] & Ep & Est & Erc2 & tr & tr' & Eq2). split; [done|].
      split; [done|]. split.
      * eexists. split; [by rewrite Eq2, Eq, <- app_assoc|]. by apply stores_snoc.
      * exists inputs, outs, nows. unfold runs_done. by rewrite Nat.add_0_r, Erc2, Ep, Et, Epv, Est.
    + eapply wp_mono; [by apply forward_step_run|].
      intros out s2 (-> & Hr2 & Eq2 & om & Erc2 & _ & Hd2). split; [done|]. split; [done|].
      split; [exists ms; by rewrite Eq2, app_nil_r|].
      pose proof (forward_counter (prev_rx_sequence (glob s)) (tx_sequence (glob s)) inputs) as Hc.
      pose proof Hd as (_ & Efw & _). rewrite Efw in Hc. cbn [snd] in Hc.
      specialize (Hd2 ltac:(lia)). destruct (runs_snoc _ _ _ _ _ _ _ Hd Hd2) as (w & now & Hd').
      exists (inputs ++ [om]), (outs ++ [w]), (nows ++ [now]). rewrite length_app. split; [simpl; lia|].
      split; [|done]. rewrite Erc2, Erc, <- app_assoc, omap_app. by destruct om.
Qed.

(** A queue that keeps what it is given, and is never full, holds the backlog in
    the end. *)
Lemma b_backlog es s :
  ready 0 s → queue_keeps → (∀ tr, 0 <= os_msgsnd tr) →
  length (queued (trace s)) = length (received (trace s)) →
  wp (work (b_callback <$> es))
     (λ out s', out = Done tt ∧ ready 0 s' ∧
        length (queued (trace s')) = (length (received (trace s')) + backlog es)%nat) s.
Proof.
  intros Hr Hkeep Hroom H0. induction es as [|e es IH] using rev_ind.
  - split; [done|]. split; [done|]. cbn [backlog foldl]. by rewrite Nat.add_0_r.
  - rewrite fmap_app. eapply wp_same_run; [apply work_snoc|]. apply wp_bind.
    eapply wp_mono; [apply IH|]. intros out s1 (-> & Hr1 & E1).
    unfold backlog. rewrite foldl_app. fold (backlog es). cbn [foldl]. destruct e as [x|].
    + eapply wp_mono; [by apply (arrive_step x)|].
      intros out s2 (-> & Hr2 & _ & _ & _ & Erc2 & tr & tr' & Eq2). split; [done|].
      split; [done|]. specialize (Hroom tr').
      rewrite Eq2, Erc2, (proj2 (Z.ltb_ge _ _)), length_app by done. simpl. lia.
    + eapply wp_mono; [by apply forward_step_run|].
      intros out s2 (-> & Hr2 & Eq2 & om & Erc2 & Hom & _). split; [done|]. split; [done|].
      rewrite Eq2, Erc2, (Hom Hkeep), length_app, E1.
      destruct (queued (trace s1) !! length (received (trace s1))) as [m|] eqn:E; simpl.
      * apply lookup_lt_Some in E. lia.
      * apply lookup_ge_None in E. lia.
Qed.
End server_b.

(** ** Lemmas: the two processes *)

(** The state in which a server starts, and the configuration it reads. *)
Definition fresh_server : st ua_glob call := mkSt init_ua_glob [].

Definition reads `{!ua_os, !json_api} (path : option (list Z)) (sd : ServerData) : Prop :=
  (parseArgs path fresh_server).1 = Done (Some sd).

(** The state in which the threads of a server begin to work. *)
Definition at_work `{!ua_os} (sd : ServerData) (s : st ua_glob call) : Prop :=
  unobserved fresh_server s ∧ counters (glob s) = (-2, 999) ∧
  ∃ start q, g_sData (glob s) = configured sd start q ∧
             if two_way sd then ∃ tr, q = os_msgget tr else q = -1.

Section process.
Context {OS : ua_os} {B : ua_build} {api : json_api} {laws : json_laws api}.
Implicit Types s : st ua_glob call.

Lemma unobserved_trans s1 s2 s3 : unobserved s1 s2 → unobserved s2 s3 → unobserved s1 s3.
Proof.
  intros (H1 & H2 & H3 & H4 & H5) (K1 & K2 & K3 & K4 & K5).
  split; [congruence|]. split; [congruence|].
  split; [intros p; by rewrite (proj1 (K3 p)), (proj2 (K3 p))|]. split; congruence.
Qed.

Lemma setup_call_sampleless c : setup_call c → sampleless c.
Proof. by destruct c. Qed.

Lemma acquisition_sampleless c : acquisition c → sampleless c.
Proof. by destruct c. Qed.

Lemma inactive_unobserved {A} (m : T A) s : inactive m → unobserved s (m s).2.
Proof.
  intros Hm. apply sampleless_unobserved. eapply extends_weaken; [apply setup_call_sampleless|].
  apply Hm.
Qed.

(** The parser leaves the globals alone and handles no sample. *)
Lemma free_resources_confined sd : confined sampleless (@id ua_glob) (free_resources sd).
Proof. unfold free_resources, first_entries, free_pub, free_sub, free_str. confine. Qed.

Lemma parseArgs_confined path : confined sampleless (@id ua_glob) (parseArgs path).
Proof.
  assert (∀ A (m : T A), confined acquisition (@id ua_glob) m → confined sampleless id m) as Hacq.
  { intros A m. apply confined_weaken; [apply acquisition_sampleless|done]. }
  assert (∀ x, confined sampleless id (alloc x)) as Halloc
    by (intros x; apply Hacq, acquires_alloc).
  assert (∀ xdp js n, confined sampleless (@id ua_glob)
    (parse_entries (parse_publisher xdp) zero_pub js n)) as Hpub
    by (intros; apply Hacq, acquires_entries, acquires_publisher).
  assert (∀ xdp js n, confined sampleless (@id ua_glob)
    (parse_entries (parse_subscriber xdp) zero_sub js n)) as Hsub
    by (intros; apply Hacq, acquires_entries, acquires_subscriber).
  pose proof free_resources_confined as Hfree.
  unfold parseArgs, parseJson, parse_server, parse_arrays, catch_err, getInt, getInt64, getBool,
    getString, countChildrenEntries, getValue, ensureType. confine.
Qed.

Lemma configureServer_result sd s :
  counts_ok sd →
  on_done (configureServer sd)
    (λ r _, r.1 = -1 ∨ ∃ start q, r.2 = configured sd start q ∧
              if two_way sd then ∃ tr, q = os_msgget tr else q = -1) s.
Proof.
  intros HC. set (start := start_time (tv_sec (os_clock (ClockGettime :: trace s)))).
  destruct (decide (0 <= start < 2 ^ 64)) as [Hr|Hr].
  - unfold on_done. eapply wp_mono; [by apply configureServer_ok|].
    intros [[r sd1]|c| |] s'; try done. cbn [fst snd]. intros (_ & H).
    destruct (_ =? -1); [left; tauto|right]. destruct H as (_ & q & -> & Hq).
    exists start, q. split; [done|]. by destruct (two_way sd); destruct Hq.
  - unfold configureServer. apply on_done_bind, wp_ask. destruct (_ =? -1); [by left|].
    fold (start_time (tv_sec (os_clock (ClockGettime :: trace s)))). fold start.
    replace ((start <? 0) || (start >=? 2 ^ 64)) with true; [done|].
    symmetry. rewrite orb_true_iff, Z.geb_leb. bool_to_prop. lia.
Qed.

Lemma inactive_at_work {A} (m : T A) sd s : inactive m → at_work sd s → at_work sd (m s).2.
Proof.
  intros Hm (U & Hc & start & q & Hg & Hq). pose proof (inactive_unobserved m s Hm) as U'.
  destruct (Hm s) as [_ E]. unfold sample_state in E. injection E as E1 E2 E3.
  split; [by eapply unobserved_trans|]. split; [unfold counters in *; congruence|].
  exists start, q. by rewrite E1.
Qed.

Lemma shutdown_confined (fuel : nat) (r : Z) :
  confined sampleless (λ _ : ua_glob, tt) (join_threads;; shutdown fuel;; mret r).
Proof.
  assert (∀ A (m : T A), inactive m → confined sampleless (λ _ : ua_glob, tt) m) as H.
  { intros A m. apply confined_weaken; [apply setup_call_sampleless|done]. }
  pose proof (H _ _ inactive_join). pose proof (H _ _ (inactive_logs fuel)).
  pose proof (λ q, H _ _ (inactive_queue q)) as Hq.
  assert (∀ sd, confined sampleless (λ _ : ua_glob, tt) (free_resources sd)) as Hfree
    by (intros sd; eapply confined_weaken, free_resources_confined; done).
  unfold shutdown. confine.
Qed.

(** main() around the work of the threads: nothing is observed before or after
    it, and a server that does not get as far does not return from main(). *)
Definition around_work (sd : ServerData) (cs : list callback) (out : outcome Z)
    (s' : st ua_glob call) : Prop :=
  (unobserved fresh_server s' ∧ ∀ r, out ≠ Done r) ∨
  ∃ s, at_work sd s ∧ unobserved (work cs s).2 s'.

Lemma run_server_work sd cs fuel config s :
  at_work sd s → wp (run_server_with (work cs) fuel config) (around_work sd cs) s.
Proof.
  intros Hs. unfold run_server_with. apply wp_bind, wp_ask. set (s1 := mkSt _ _).
  assert (at_work sd s1) as H1
    by (apply (inactive_at_work (ask (ServerRun config) (λ _, tt)) sd s); [by apply confined_ask|done]).
  cbv beta iota. set (groups := os_register _). apply wp_bind.
  pose proof (inactive_at_work _ sd s1 (inactive_hooks groups) H1) as H2.
  unfold wp at 1. destruct (run_hooks groups s1) as [[[]|c| |] s2]; cbn [fst snd] in *;
    try (left; split; [apply H2|done]).
  apply wp_bind. unfold wp at 1.
  destruct (work cs s2) as [[[]|c| |] s3] eqn:Ew; cbn [fst snd];
    try (right; exists s2; rewrite Ew; by split; [|repeat split]).
  apply (wp_confined_only _ _ _ _ _ (shutdown_confined fuel _)). intros out s4 He _.
  right. exists s2. split; [done|]. rewrite Ew. by apply sampleless_unobserved.
Qed.

Lemma process_work cs fuel path sd :
  reads path sd → wp (main_with (work cs) fuel path) (around_work sd cs) fresh_server.
Proof.
  intros Hreads. unfold main_with. apply wp_bind.
  apply (wp_confined _ _ _ _ _ (parseArgs_confined path)).
  pose proof (parseArgs_safely path fresh_server) as H.
  unfold safely in H. unfold reads in Hreads. unfold wp in H |- * at 1.
  destruct (parseArgs path fresh_server) as [out s1]. cbn [fst snd] in *. subst out.
  intros Hext Hg. apply sampleless_unobserved in Hext as U1.
  destruct H as (_ & _ & HC).
  { intros past x Hp. by apply suffix_nil_inv in Hp as ->. }
  unfold serve_with. apply wp_bind.
  pose proof (inactive_unobserved (configureServer sd) s1 (inactive_configure sd)) as U2.
  apply (unobserved_trans _ _ _ U1) in U2. destruct (inactive_configure sd s1) as [_ Hst].
  pose proof (configureServer_result sd s1 HC) as Hres. unfold on_done in Hres.
  unfold wp in Hres |- * at 1. destruct (configureServer sd s1) as [out s2]. cbn [fst snd] in *.
  destruct out as [[r sd1]|c| |]; try (left; by split). cbn [fst snd] in Hres.
  destruct (r =? -1) eqn:Er; [left; by split|]. destruct (_ >? _); [left; by split|].
  destruct Hres as [->|(start & q & -> & Hq)]; [done|].
  apply wp_bind. unfold modify at 1, wp at 1. cbn [fst snd]. set (s3 := mkSt _ _).
  assert (at_work sd s3) as H3.
  { split; [exact U2|]. unfold id in Hg. rewrite Hg in Hst. unfold sample_state in Hst.
    unfold s3, counters. destruct (glob s2). simpl in *. injection Hst as _ -> ->.
    split; [done|]. by exists start, q. }
  apply wp_bind.
  pose proof (inactive_at_work _ sd s3 (inactive_setup (configured sd start q)) H3) as H4.
  unfold wp at 1. destruct (setupOpcuaServer _ s3) as [[[config|]|c| |] s4]; cbn [fst snd] in *;
    try (left; split; [apply H4|done]).
  by apply run_server_work.
Qed.

Lemma reads_ok path sd : reads path sd → server_ok sd.
Proof.
  intros H. assert (on_done (parseArgs path)
    (λ r _, match r with Some sd => server_ok sd | None => True end) fresh_server) as Hok.
  { unfold parseArgs. destruct path as [file|]; [|done]. apply on_done_bind, wp_ask.
    destruct (json_object_from_file file) as [js|]; [|done]. apply on_done_bind, wp_getValue; [|done].
    intros j. apply on_done_bind. unfold on_done at 1. eapply wp_mono; [apply parseJson_ok|].
    intros [r|c| |] s1; try done. intros [_ Hr]. apply on_done_bind, wp_ask. exact Hr. }
  unfold on_done, wp in Hok. unfold reads in H. by rewrite H in Hok.
Qed.
End process.

(** ** Specification: the roles of the servers *)

(** A measuring server publishes of its own accord and has one subscriber, for
    what returns, that logs to [out]; a reflecting server has one subscriber and
    sends back what it receives. *)
Definition measuring (sd : ServerData) (out : list Z) (id : Z) : Prop :=
  Forall (λ pd, p_twoWayData pd = false) (default [] (pubData sd)) ∧
  ∃ sub, default [] (subData sd) = [sub] ∧ s_twoWayData sub = true ∧
         fpSubscriberOutput sub = Some out ∧ s_id sub = id.

Definition reflecting (sd : ServerData) : Prop :=
  default [] (pubData sd) ≠ [] ∧ Forall (λ pd, p_twoWayData pd = true) (default [] (pubData sd)) ∧
  ∃ sub, default [] (subData sd) = [sub] ∧ s_twoWayData sub = false.

(** The callbacks that configureServer() installs. *)
Definition installed (sd : ServerData) (c : callback) : Prop :=
  let reads_with f := Exists (λ pd, p_readFunc pd = f) (default [] (pubData sd)) in
  let writes_with i f := s_writeFunc <$> (default [] (subData sd) !! i) = Some f in
  match c with
  | Publish => reads_with pubGetDataToTransmit_f
  | Publish_return => reads_with pubReturnGetDataToTransmit_f
  | Store i _ => writes_with i subStoreDataReceived_f
  | Store_return i _ => writes_with i subReturnStoreDataReceived_f
  end.

Lemma configured_subs sd start q :
  default [] (subData (configured sd start q)) = configured_sub <$> default [] (subData sd).
Proof. destruct sd as [? ? ? ? ? ? ? ? ? ? subs ? ? ?]. by destruct subs. Qed.

Lemma configured_pubs sd start q :
  default [] (pubData (configured sd start q)) = configured_pub <$> default [] (pubData sd).
Proof. destruct sd as [? ? ? ? ? ? ? ? ? pubs ? ? ? ?]. by destruct pubs. Qed.

Lemma configured_read pd :
  p_readFunc (configured_pub pd)
  = if p_twoWayData pd then pubReturnGetDataToTransmit_f else pubGetDataToTransmit_f.
Proof. by destruct pd. Qed.

Lemma configured_write sub :
  s_writeFunc (configured_sub sub)
  = if s_twoWayData sub then subReturnStoreDataReceived_f else subStoreDataReceived_f.
Proof. by destruct sub. Qed.

Lemma no_reader (two : bool) f sd start q :
  Forall (λ pd, p_twoWayData pd = two) (default [] (pubData sd)) →
  f ≠ (if two then pubReturnGetDataToTransmit_f else pubGetDataToTransmit_f) →
  ¬ Exists (λ pd, p_readFunc pd = f) (default [] (pubData (configured sd start q))).
Proof.
  intros H Hf. rewrite configured_pubs, Exists_fmap, Exists_exists. intros (pd & Hin & E).
  eapply Forall_forall in H; [|exact Hin]. change (p_readFunc (configured_pub pd) = f) in E.
  rewrite configured_read, H in E. congruence.
Qed.

(** The threads of a measuring server do nothing but send and log what returns,
    those of a reflecting server nothing but queue and send back. *)
Lemma measuring_installed sd out id start q c :
  measuring sd out id → installed (configured sd start q) c →
  c = Publish ∨ ∃ data, c = Store_return 0 data.
Proof.
  intros [Hp (sub & Es & Htw & _)]. destruct c as [| |i data|i data]; cbn [installed];
    rewrite ?configured_subs, ?Es; [by left| | |].
  - intros H. exfalso. by eapply no_reader in H.
  - destruct i; [|done]. intros H. apply (inj Some) in H.
    by rewrite configured_write, Htw in H.
  - destruct i; [|done]. right. by eexists.
Qed.

Lemma reflecting_installed sd start q c :
  reflecting sd → installed (configured sd start q) c →
  c = Publish_return ∨ ∃ data, c = Store 0 data.
Proof.
  intros (_ & Hp & sub & Es & Htw). destruct c as [| |i data|i data]; cbn [installed];
    rewrite ?configured_subs, ?Es; [| by left| |].
  - intros H. exfalso. by eapply no_reader in H.
  - destruct i; [|done]. right. by eexists.
  - destruct i; [|done]. intros H. apply (inj Some) in H.
    by rewrite configured_write, Htw in H.
Qed.

(** ** Lemmas: what each server has done in the end *)

(** A's samples, and its log: each line is written with the clock reading before
    it. *)
Definition a_summary `{!ua_os} (es : list a_event) (out : list Z) (id count : Z)
    (t : list call) : Prop :=
  ∃ smp nows, let rs := results true count (returned es) in
    published t = sample_words <$> smp ∧
    fst <$> smp = u64 <$> seqZ (-1) (Z.of_nat (sends es)) ∧
    length nows = length rs ∧ logged out t = zip_with (result_line id) rs nows ∧
    stamps (is_line out) t = nows.

Lemma stamped_lines id (rs : list back) (nows : list Z) :
  length nows = length rs →
  (zip_with (λ b now, (result_line id b now, now)) rs nows).*1 = zip_with (result_line id) rs nows ∧
  (zip_with (λ b now, (result_line id b now, now)) rs nows).*2 = nows.
Proof.
  revert nows. induction rs as [|b rs IH]; intros [|now nows] Hl; try done.
  injection Hl as Hl. destruct (IH nows Hl) as [E1 E2]. cbn [zip_with fmap list_fmap fst snd].
  split; [f_equal; exact E1|f_equal; exact E2].
Qed.

Lemma a_process {OS : ua_os} {B : ua_build} {api : json_api} {laws : json_laws api}
  es fuel path sd out id :
  reads path sd → measuring sd out id → Z.of_nat (sends es) < 2 ^ 61 →
  let t := trace (main_with (work (a_callback <$> es)) fuel path fresh_server).2 in
  (published t = [] ∧ logged out t = [] ∧ stamps (is_line out) t = []) ∨
  a_summary es out id (packetCount sd) t.
Proof.
  intros Hr [_ (sub & Es & _ & Ef & Ei)] Hn t. pose proof (sv_count _ (reads_ok _ _ Hr)) as Hc.
  destruct (process_work (a_callback <$> es) fuel path sd Hr) as
    [[(U1 & _ & U2 & _) _]|(s & ((U1 & _ & U2 & _) & Hcnt & start & q & Hg & _) & K1 & _ & K2 & _)].
  { left. split; [exact U1|exact (U2 out)]. }
  right. injection Hcnt as Htx _.
  assert (logs_to 0 out id (packetCount sd) true s) as Hl.
  { split; [rewrite Hg; by destruct sd|]. exists (configured_sub sub).
    rewrite Hg, configured_subs, Es. split; [done|]. by destruct sub. }
  pose proof (a_run out id (packetCount sd) ltac:(lia) es true s Hl ltac:(lia) ltac:(lia)) as H.
  destruct H as (_ & smp & nows & Ep & En & Hlen & El & Est).
  destruct (K2 out) as [K3 K4]. destruct (U2 out) as [U3 U4].
  destruct (stamped_lines id _ _ Hlen) as [Z1 Z2].
  rewrite <- K1, U1 in Ep. rewrite <- K3, U3, Z1 in El. rewrite <- K4, U4, Z2 in Est.
  exists smp, nows. split; [exact Ep|]. split; [by rewrite En, Htx|]. by split.
Qed.

(** B's queue, and what it has sent back. *)
Definition b_summary `{!ua_os} (es : list b_event) (t : list call) : Prop :=
  stores (arrived es) (queued t) ∧
  (∃ inputs nows, length inputs = forwards es ∧ length nows = forwards es ∧
    received t = omap id inputs ∧
    published t = zip_with (λ w now, w ++ [now]) (forward 999 (-2) inputs).1.1 nows ∧
    stamps is_array t = nows) ∧
  (queue_keeps → (∀ tr, 0 <= os_msgsnd tr) →
   length (queued t) = (length (received t) + backlog es)%nat).

Lemma b_process {OS : ua_os} {B : ua_build} {api : json_api} {laws : json_laws api}
  es fuel path sd :
  reads path sd → reflecting sd → (∀ tr, 0 <= os_msgget tr) → Z.of_nat (forwards es) < 2 ^ 61 →
  let r := main_with (work (b_callback <$> es)) fuel path fresh_server in
  let t := trace r.2 in
  (published t = [] ∧ queued t = [] ∧ received t = [] ∧ ∀ code, r.1 ≠ Done code) ∨
  b_summary es t.
Proof.
  intros Hr (Hne & Htw & sub & Es & _) Hget Hn r t.
  destruct (process_work (b_callback <$> es) fuel path sd Hr) as
    [[(U1 & _ & _ & U3 & U4) Hend]
    |(s & ((U1 & U2 & _ & U3 & U4) & Hcnt & start & q & Hg & Hq) & K1 & K2 & _ & K3 & K4)];
    [by left|right]. injection Hcnt as Htx Hprev.
  assert (0 <= q) as Hq0.
  { unfold two_way in Hq. destruct (default [] (pubData sd)) as [|pd pds]; [done|].
    apply Forall_cons in Htw as [Hpd _]. simpl in Hq. rewrite Hpd in Hq. destruct Hq as [tr ->].
    apply Hget. }
  assert (ready 0 s) as Hrdy.
  { split; rewrite Hg; [|by destruct sd]. rewrite configured_subs, Es. by eexists. }
  destruct (b_run es s Hrdy ltac:(lia) ltac:(lia)) as
    (_ & _ & (ms & Eq & Hms) & inputs & outs & nows & Hl & Erc & Hnl & Ef & Ep & Est).
  rewrite <- K3, U3 in Eq. rewrite <- K4, U4 in Erc. rewrite <- K1, U1 in Ep.
  rewrite <- K2, U2 in Est. rewrite Htx, Hprev in Ef.
  split; [unfold t, r; by rewrite Eq|]. split.
  - exists inputs, nows. split; [done|]. split; [congruence|]. split; [done|]. by rewrite Ef.
  - intros Hkeep Hroom. destruct (b_backlog es s Hrdy Hkeep Hroom) as (_ & _ & E).
    { by rewrite U3, U4. }
    by rewrite <- K3, <- K4 in E.
Qed.

(** ** Lemmas: from the sample to its return *)

Lemma sample_numbers (smp : list (Z * Z)) n :
  0 <= n < 2 ^ 61 → fst <$> smp = u64 <$> seqZ (-1) n →
  (λ x, i64 x.1) <$> smp = seqZ (-1) n ∧ Forall (λ x, is_error x.1 = false) smp ∧
  ∀ k x, smp !! k = Some x → x.1 = u64 (-1 + Z.of_nat k).
Proof.
  intros Hn E.
  assert (∀ k x, smp !! k = Some x → x.1 = u64 (-1 + Z.of_nat k) ∧ Z.of_nat k < n) as Hx.
  { intros k x Hk. apply (f_equal (.!! k)) in E. rewrite !list_lookup_fmap, Hk in E.
    symmetry in E. apply fmap_Some in E as (z & Hz & ->). apply lookup_seqZ in Hz as [-> Hk']. done. }
  split; [|split; [|intros k x Hk; by apply Hx]].
  - change ((λ x, i64 x.1) <$> smp) with ((i64 ∘ fst) <$> smp).
    rewrite list_fmap_compose, E, <- list_fmap_compose. rewrite <- (list_fmap_id (seqZ (-1) n)) at 2.
    apply list_fmap_ext. intros k z Hz. apply lookup_seqZ in Hz. unfold compose, id.
    rewrite wrapS_wrapU by done. apply wrapS_small; lia.
  - apply Forall_lookup. intros k x Hk. destruct (Hx k x Hk) as [-> Hlt].
    unfold is_error, ERROR_DUPLICATE, ERROR_MSGQ_COPY, ERROR_NOTHING_TO_FORWARD, wrapU.
    rewrite !orb_false_iff, !Z.eqb_neq. zsolve.
Qed.

(** The clock reads more than a microsecond (the marks for no data are 888 and
    999). *)
Definition clock_runs `{!ua_os} : Prop := ∀ tr, 999 < as_nanoseconds (os_clock tr).

Definition sent_words (m : msgq_buf) : list Z := [rx_sequence m; txTime m].

Lemma stores_messages {OS : ua_os} xs ms :
  stores xs ms → clock_runs → Forall (λ x, is_error x.1 = false) xs →
  Forall genuine ms ∧ (sent_words <$> ms) `sublist_of` (sample_words <$> xs) ∧
  ((∀ tr, 0 <= os_msgsnd tr) → sent_words <$> ms = sample_words <$> xs).
Proof.
  intros (kept & clocks & Hs & Hl & Hc & -> & Hall) Hclock He.
  assert (sent_words <$> zip_with (λ x now, mk_msgq x.1 x.2 now) kept clocks
          = sample_words <$> kept) as ->.
  { clear -Hl. revert clocks Hl. induction kept as [|x kept IH]; intros [|now clocks] Hl; try done.
    cbn [zip_with fmap list_fmap]. f_equal. apply IH. by injection Hl. }
  split; [|split; [by apply sublist_fmap|intros Hok; by rewrite Hall]].
  assert (Forall (λ x, is_error x.1 = false) kept) as Hek by (by eapply Forall_sublist).
  clear -Hc Hek Hclock. revert clocks Hc.
  induction Hek as [|x kept Hx _ IH]; intros [|now clocks] Hc; try done.
  apply Forall_cons in Hc as [[tr ->] Hc]. simpl. constructor; [|by apply IH].
  specialize (Hclock tr). split; [simpl; lia|]. split; [simpl; lia|done].
Qed.

(** What the forwarder sends back of genuine messages. *)
Lemma forward_backs prev tx inputs (nows : list Z) :
  -2 <= tx → tx + Z.of_nat (length inputs) < 2 ^ 62 → Forall genuine (omap id inputs) →
  length nows = length inputs →
  ∃ fbs, zip_with (λ w now, w ++ [now]) (forward prev tx inputs).1.1 nows = back_words <$> fbs ∧
    (message_of <$> filter sample_back fbs) `sublist_of` omap id inputs ∧
    (λ b, i64 (seqB b)) <$> filter sample_back fbs
    = seqZ (tx + 1) (Z.of_nat (length (filter sample_back fbs))) ∧
    (length (filter sample_back fbs) ≤ length inputs)%nat ∧
    (fresh prev (omap id inputs) → message_of <$> filter sample_back fbs = omap id inputs).
Proof.
  intros Hlo Hhi Hg Hn. destruct (forward_samples prev tx inputs Hg) as (ms & Hs & Em & Hall).
  pose proof (forward_words prev tx inputs) as Hw. pose proof (forward_length prev tx inputs) as Hol.
  pose proof (omap_id_length inputs) as Hlen. pose proof (sublist_length _ _ Hs) as Hms.
  set (outs := (forward prev tx inputs).1.1) in *.
  destruct (zip_backs outs nows) as [Eb Efr]; [done|lia|]. rewrite Efr in Em.
  destruct (front_messages tx ms _ Em) as [E1 E2]; [done|lia|].
  exists (zip_with back_of outs nows).
  assert (length (filter sample_back (zip_with back_of outs nows)) = length ms) as ->
    by (by rewrite <- E1, length_fmap).
  split; [done|]. rewrite E1. split; [done|]. split; [done|]. split; [lia|exact Hall].
Qed.

(** B from the outside, when what arrives are samples and the queue keeps their
    order. *)
Lemma reflected {OS : ua_os} es t :
  b_summary es t → clock_runs → Z.of_nat (forwards es) < 2 ^ 61 →
  Forall (λ x, is_error x.1 = false) (arrived es) → received t `prefix_of` queued t →
  (sent_words <$> queued t) `sublist_of` (sample_words <$> arrived es) ∧
  ((∀ tr, 0 <= os_msgsnd tr) → sent_words <$> queued t = sample_words <$> arrived es) ∧
  ∃ fbs, published t = back_words <$> fbs ∧
    (message_of <$> filter sample_back fbs) `sublist_of` received t ∧
    ((λ b, i64 (seqB b)) <$> filter sample_back fbs) `sublist_of` seqZ (-1) (Z.of_nat (forwards es)) ∧
    (fresh 999 (received t) → message_of <$> filter sample_back fbs = received t).
Proof.
  intros (Hst & (inputs & nows & Hl & Hnl & Erc & Ep & _) & _) Hclock Hn He Hfifo.
  destruct (stores_messages _ _ Hst Hclock He) as (Hg & Hsub & Hall).
  split; [done|]. split; [done|].
  assert (Forall genuine (omap id inputs)) as Hgi.
  { rewrite <- Erc. eapply Forall_sublist; [|exact Hg]. by apply prefix_of_sublist. }
  destruct (forward_backs 999 (-2) inputs nows) as (fbs & Eb & Hm & Hnum & Hle & Hfresh);
    [lia|lia|done|congruence|].
  exists fbs. rewrite Ep, Erc. split; [done|]. split; [done|]. split; [|done]. rewrite Hnum.
  apply prefix_of_sublist. exists (seqZ (-1 + Z.of_nat (length (filter sample_back fbs)))
    (Z.of_nat (forwards es) - Z.of_nat (length (filter sample_back fbs)))).
  rewrite <- seqZ_app by lia. f_equal. lia.
Qed.

(** Once closed, the file stays closed; the first sample closes it. *)
Lemma no_results count bs : results false count bs = [].
Proof. induction bs as [|b bs IH]; simpl; [done|]. by destruct (is_error (seqA b)). Qed.

Lemma first_result count bs x rest :
  count < 2 ^ 62 → x.1 = u64 (-1) →
  (λ b, [seqA b; txPubA b]) <$> filter sample_back bs = sample_words x :: rest →
  ∃ b, seqA b = u64 (-1) ∧ results true count bs = [b].
Proof.
  intros Hcount Hx H. induction bs as [|b bs IH]; [done|]. cbn [results].
  destruct (is_error (seqA b)) eqn:Ee.
  { rewrite filter_cons_False in H by (unfold sample_back; by rewrite Ee). by apply IH. }
  rewrite filter_cons_True in H by done. injection H as E _ _. exists b.
  rewrite E, Hx. split; [done|]. change (u64 (-1)) with (2 ^ 64 - 1).
  rewrite Z.geb_leb, (proj2 (Z.leb_le _ _)) by lia. simpl. by rewrite no_results.
Qed.

(** ** Properties *)

Section two_servers.
Context {OSA OSB : ua_os} {BA BB : ua_build} {apiA apiB : json_api}.
Context {lawsA : json_laws apiA} {lawsB : json_laws apiB}.
Context (esA : list a_event) (esB : list b_event) (fuelA fuelB : nat).
Context (pathA pathB : option (list Z)) (sdA sdB : ServerData) (out : list Z) (id : Z).

(** The two processes, each with its configuration file. *)
Definition tA : list call :=
  trace (@main_with OSA BA apiA (@work OSA (a_callback <$> esA)) fuelA pathA fresh_server).2.

Definition tB : list call :=
  trace (@main_with OSB BB apiB (@work OSB (b_callback <$> esB)) fuelB pathB fresh_server).2.

(** How B ends. *)
Definition endB : outcome Z :=
  (@main_with OSB BB apiB (@work OSB (b_callback <$> esB)) fuelB pathB fresh_server).1.

Record two_servers : Prop := {
  ts_reads_a : @reads OSA apiA pathA sdA;
  ts_measuring : measuring sdA out id;
  ts_reads_b : @reads OSB apiB pathB sdB;
  ts_reflecting : reflecting sdB;
  ts_queue : ∀ tr, 0 <= @os_msgget OSB tr;
  ts_clock : @clock_runs OSB;
  ts_sends : Z.of_nat (sends esA) < 2 ^ 61;
  ts_forwards : Z.of_nat (forwards esB) < 2 ^ 61;
  ts_network_there : (sample_words <$> arrived esB) `sublist_of` published tA;
  ts_fifo : @received OSB tB `prefix_of` @queued OSB tB;
  ts_network_back : (back_words <$> returned esA) `sublist_of` published tB
}.

Lemma summary_a :
  two_servers →
  (published tA = [] ∧ logged out tA = [] ∧ @stamps OSA (is_line out) tA = []) ∨
  @a_summary OSA esA out id (packetCount sdA) tA.
Proof.
  intros [H1 H2 _ _ _ _ H3 _ _ _ _].
  exact (@a_process OSA BA apiA lawsA esA fuelA pathA sdA out id H1 H2 H3).
Qed.

Lemma summary_b :
  two_servers →
  (published tB = [] ∧ @queued OSB tB = [] ∧ @received OSB tB = [] ∧ ∀ code, endB ≠ Done code) ∨
  @b_summary OSB esB tB.
Proof.
  intros [_ _ H1 H2 H3 _ _ H4 _ _ _].
  exact (@b_process OSB BB apiB lawsB esB fuelB pathB sdB H1 H2 H3 H4).
Qed.

(** C3: the log of a round trip between two processes, from their configuration
    files on.  Whatever the order in which the callbacks of each process run, when
    the network keeps the order of the arrays it delivers (it may lose any of
    them) and B's queue is empty at the start and first in first out (it may be
    full), every line that
    A has logged belongs to one sample that A has sent: the lines carry the number
    and send time of distinct samples in the order of sending, B's receive time of
    the very message that it stored for that sample, and increasing own numbers
    of B; the time at which it has returned is the reading of A's clock right
    before the line.  No line is made up, repeated or out of order, and error
    arrays leave no result line. *)
Theorem two_servers_log :
  two_servers →
  ∃ trips nows, length nows = length trips ∧
    logged out tA = zip_with (result_line id) trips nows ∧ nows = @stamps OSA (is_line out) tA ∧
    trips `sublist_of` returned esA ∧
    ((λ b, [seqA b; txPubA b]) <$> trips) `sublist_of` published tA ∧
    (message_of <$> trips) `sublist_of` @queued OSB tB ∧
    ((λ b, i64 (seqA b)) <$> trips) `sublist_of` seqZ (-1) (Z.of_nat (sends esA)) ∧
    ((λ b, i64 (seqB b)) <$> trips) `sublist_of` seqZ (-1) (Z.of_nat (forwards esB)).
Proof.
  intros Hall. pose proof Hall as [_ _ _ _ _ Hclock Hns Hnf Hthere Hfifo Hback].
  destruct (summary_a Hall) as [(_ & El & Est)|(smp & nows & Ep & En & Hlen & El & Est)].
  { exists [], []. rewrite El, Est. repeat (split; [done || apply sublist_nil_l|]).
    apply sublist_nil_l. }
  set (rs := results true (packetCount sdA) (returned esA)) in *.
  destruct (sample_numbers smp (Z.of_nat (sends esA)) ltac:(lia) En) as (Enum & He & _).
  rewrite Ep in Hthere. apply sublist_fmap_inv in Hthere as Hxs; [|apply _].
  pose proof (results_sublist true (packetCount sdA) (returned esA)) as Hres. fold rs in Hres.
  destruct (summary_b Hall) as [(Epb & _ & _)|Hb].
  { rewrite Epb in Hback. apply sublist_nil_r in Hback. apply fmap_nil_inv in Hback.
    assert (rs = []) as Ers by (unfold rs; by rewrite Hback).
    rewrite Ers in *. destruct nows; [|done]. exists [], []. rewrite El, Est.
    repeat (split; [done || apply sublist_nil_l|]). apply sublist_nil_l. }
  assert (Forall (λ x, is_error x.1 = false) (arrived esB)) as Hea
    by (by eapply Forall_sublist).
  destruct (reflected esB tB Hb Hclock Hnf Hea Hfifo) as (Hsent & _ & fbs & Epb & Hmsg & Hnum & _).
  rewrite Epb in Hback. apply sublist_fmap_inv in Hback; [|apply _].
  assert (rs `sublist_of` filter sample_back fbs) as Hrf2.
  { etrans; [exact Hres|]. by apply sublist_filter_mono. }
  assert ((message_of <$> rs) `sublist_of` @queued OSB tB) as Hmq.
  { etrans; [by apply sublist_fmap|]. etrans; [exact Hmsg|]. by apply prefix_of_sublist. }
  assert (((λ b, [seqA b; txPubA b]) <$> rs) `sublist_of` published tA) as Hsam.
  { rewrite Ep. etrans; [|exact Hthere]. etrans; [|exact Hsent].
    apply (sublist_fmap sent_words) in Hmq. by rewrite <- list_fmap_compose in Hmq. }
  exists rs, nows. split; [done|]. split; [done|]. split; [done|].
  split; [etrans; [exact Hres|apply sublist_filter]|]. do 2 (split; [done|]). split.
  - rewrite <- Enum. apply (sublist_fmap (λ w, i64 (hd 0 w))) in Hsam. rewrite Ep in Hsam.
    by rewrite <- !list_fmap_compose in Hsam.
  - etrans; [by apply sublist_fmap|exact Hnum].
Qed.

(** Nothing is lost after the first [n] samples.  The network delivers all of the
    others to B and all of B's arrays to A; B's queue is first in, first out and
    never full; B gets through its start, runs the return publisher often enough
    that nothing is left to forward, and returns from main(). *)
Record lossless (n : nat) : Prop := {
  all_arrived : sample_words <$> arrived esB = drop n (published tA);
  all_returned : back_words <$> returned esA = published tB;
  queue_in_order : @queue_keeps OSB;
  queue_never_full : ∀ tr, 0 <= @os_msgsnd OSB tr;
  runs_through : ∃ code, endB = Done code;
  forwards_enough : backlog esB = 0%nat
}.

(** What B then queues is what arrives, and it takes all of it out again. *)
Lemma lossless_queue n :
  two_servers → lossless n → Forall (λ x, is_error x.1 = false) (arrived esB) →
  @b_summary OSB esB tB ∧ sent_words <$> @queued OSB tB = drop n (published tA) ∧
  @received OSB tB = @queued OSB tB.
Proof.
  intros Hall [Ha _ Hkeep Hroom [code Hend] Hlog] He.
  destruct (summary_b Hall) as [(_ & _ & _ & Hno)|Hb]; [by apply Hno in Hend|].
  pose proof Hb as (Hst & _ & Hlen). specialize (Hlen Hkeep Hroom).
  destruct (@stores_messages OSB _ _ Hst (ts_clock Hall) He) as (_ & _ & Hmsg).
  split; [exact Hb|]. split; [by rewrite (Hmsg Hroom), Ha|].
  destruct (ts_fifo Hall) as [rest Er]. rewrite Er, length_app, Hlog in Hlen.
  destruct rest; [by rewrite Er, app_nil_r|simpl in Hlen; lia].
Qed.

Lemma lossless_backs n :
  two_servers → lossless n → (n ≤ 1)%nat →
  message_of <$> filter sample_back (returned esA) = @queued OSB tB ∧
  (λ b, [seqA b; txPubA b]) <$> filter sample_back (returned esA) = drop n (published tA).
Proof.
  intros Hall Hll Hn1. pose proof Hall as [_ _ _ _ _ Hclock Hns Hnf Hthere Hfifo _].
  assert (∃ smp, published tA = sample_words <$> smp ∧ (length smp ≤ sends esA)%nat ∧
    Forall (λ x, is_error x.1 = false) smp ∧
    ∀ k x, smp !! k = Some x → x.1 = u64 (-1 + Z.of_nat k)) as (smp & Ep & Hl & He & Hx).
  { destruct (summary_a Hall) as [(Ep & _)|(smp & nows & Ep & En & _)].
    - exists []. split; [exact Ep|]. split; [simpl; lia|]. by split.
    - exists smp. destruct (sample_numbers smp (Z.of_nat (sends esA)) ltac:(lia) En) as (_ & He & Hx).
      apply (f_equal length) in En. rewrite !length_fmap, length_seqZ in En.
      split; [done|]. split; [lia|done]. }
  rewrite Ep in Hthere. apply sublist_fmap_inv in Hthere as Hxs; [|apply _].
  assert (Forall (λ x, is_error x.1 = false) (arrived esB)) as Hea by (by eapply Forall_sublist).
  destruct (lossless_queue n Hall Hll Hea) as (Hsum & Hq & Hr). pose proof (all_returned n Hll) as Hb.
  destruct (reflected esB tB Hsum Hclock Hnf Hea Hfifo) as (_ & _ & fbs & Epb & _ & _ & Hfresh).
  rewrite Epb in Hb. apply (inj (fmap back_words)) in Hb as ->. rewrite <- Hr in Hq |- *.
  rewrite <- Hq, <- Hfresh.
  { split; [done|]. rewrite <- list_fmap_compose. by apply list_fmap_ext. }
  rewrite Hr in Hq.
  rewrite Hr. apply (fresh_consecutive _ (-1 + Z.of_nat n)).
  - intros k m Em. apply (f_equal (.!! k)) in Hq.
    rewrite list_lookup_fmap, Em, lookup_drop, Ep, list_lookup_fmap in Hq.
    destruct (smp !! (n + k)%nat) as [x|] eqn:Ex; [|done]. injection Hq as E _.
    rewrite E, (Hx _ _ Ex). f_equal. lia.
  - lia.
  - apply (f_equal length) in Hq. rewrite length_fmap, length_drop, Ep, length_fmap in Hq. lia.
  - destruct n as [|[|n]]; [done..|lia].
Qed.

(** C11: when the network and the queue lose nothing after the first sample, which
    open62541 takes when the writer group is frozen, and B comes up, forwards as
    often as it has to and returns from main(), A logs every other sample that it has sent,
    once and in order, each with the receive time that B stored for it and with
    the reading of A's own clock right before the line, as long as the numbers stay
    below the packet count.  Both servers' callbacks may run in any order. *)
Theorem two_servers_complete :
  two_servers → lossless 1 → Z.of_nat (sends esA) <= packetCount sdA + 1 →
  ∃ trips nows, length nows = length trips ∧
    logged out tA = zip_with (result_line id) trips nows ∧ nows = @stamps OSA (is_line out) tA ∧
    (λ b, [seqA b; txPubA b]) <$> trips = drop 1 (published tA) ∧
    (message_of <$> trips) = @queued OSB tB.
Proof.
  intros Hall Hll Hcount. pose proof (lossless_backs 1 Hall Hll ltac:(lia)) as [Hmsg Hbs].
  pose proof (ts_sends Hall) as Hns.
  destruct (summary_a Hall) as [(Ep & El & Est)|(smp & nows & Ep & En & Hlen & El & Est)].
  { exists [], []. rewrite Ep in Hbs. apply fmap_nil_inv in Hbs. rewrite Hbs in Hmsg.
    by rewrite El, Est, Ep. }
  destruct (sample_numbers smp (Z.of_nat (sends esA)) ltac:(lia) En) as (_ & _ & Hx).
  assert (results true (packetCount sdA) (returned esA) = filter sample_back (returned esA)) as Hres.
  { apply results_all, Forall_lookup. intros k b Eb. apply (f_equal (.!! k)) in Hbs.
    rewrite list_lookup_fmap, Eb, lookup_drop, Ep, list_lookup_fmap in Hbs.
    destruct (smp !! (1 + k)%nat) as [x|] eqn:Ex; [|done]. injection Hbs as E _.
    rewrite E, (Hx _ _ Ex). apply lookup_lt_Some in Ex.
    apply (f_equal length) in En. rewrite !length_fmap, length_seqZ in En.
    rewrite wrapU_small by lia. lia. }
  rewrite Hres in *. by exists (filter sample_back (returned esA)), nows.
Qed.

(** The numbers of a publisher start at -1, which is the largest unsigned word:
    when that sample makes the round trip it counts as having reached the packet
    count, so A's log ends after its line, whatever is sent later. *)
Theorem first_sample_ends_log :
  two_servers → lossless 0 → published tA ≠ [] →
  ∃ b now, i64 (seqA b) = -1 ∧ logged out tA = [result_line id b now].
Proof.
  intros Hall Hll Hne. pose proof (lossless_backs 0 Hall Hll ltac:(lia)) as [_ Hbs].
  pose proof (ts_sends Hall) as Hns.
  pose proof (sv_count _ (@reads_ok OSA apiA lawsA _ _ (ts_reads_a Hall))) as Hcount.
  destruct (summary_a Hall) as [(Ep & _)|(smp & nows & Ep & En & Hlen & El & _)]; [done|].
  destruct (sample_numbers smp (Z.of_nat (sends esA)) ltac:(lia) En) as (_ & _ & Hx).
  rewrite Ep in Hbs, Hne. destruct smp as [|x smp]; [done|]. specialize (Hx 0%nat x eq_refl).
  destruct (first_result (packetCount sdA) (returned esA) x (sample_words <$> smp))
    as (b & Hb & Hres); [lia|exact Hx|exact Hbs|].
  rewrite Hres in *. destruct nows as [|now [|]]; try done. exists b, now. by rewrite Hb.
Qed.
End two_servers.

(** ** Witnesses *)

(** A queue that is first in, first out and never full; otherwise as [make_ua_os]. *)
Fixpoint in_queue (tr : list call) : list msgq_buf :=
  match tr with
  | [] => []
  | Msgsnd _ m :: older => in_queue older ++ [m]
  | Msgrcv _ :: older => tail (in_queue older)
  | _ :: older => in_queue older
  end.

Definition fifo_os : ua_os := {|
  os_clock := λ _, mk_timespec 1000 7; os_clock_ret := λ _, 0; os_flags := λ _, (false, None);
  os_calloc := λ _, true; os_fopen := λ _, true; os_msgget := λ _, 4; os_msgctl := λ _, 0;
  os_msgsnd := λ _, 0; os_msgrcv := λ tr, head (in_queue (tail tr));
  os_sched := λ _, 0; os_thread := λ _, (0, 0); os_node := λ _, 0; os_random := λ _, 0;
  os_server_run := λ _, 0; os_register := λ _, []; os_log_fopen := λ _, false; os_fgetc := λ _, None
|}.

Lemma in_queue_drop tr :
  (length (@received fifo_os tr) ≤ length (@queued fifo_os tr))%nat ∧
  in_queue tr = drop (length (@received fifo_os tr)) (@queued fifo_os tr).
Proof.
  induction tr as [|c tr [Hl IH]]; [done|].
  destruct c; cbn [in_queue queued received]; try (by split).
  - change (@os_msgsnd fifo_os _ <? 0) with false. cbv iota. rewrite IH, length_app.
    split; [simpl; lia|]. by rewrite drop_app_le.
  - change (@os_msgrcv fifo_os (Msgrcv qid :: tr)) with (head (in_queue tr)). rewrite IH.
    rewrite length_app. destruct (drop _ _) as [|m rest] eqn:E; cbn [tail head option_list length].
    + rewrite Nat.add_0_r. by rewrite E.
    + split.
      * apply (f_equal length) in E. rewrite length_drop in E. simpl in E |- *. lia.
      * by rewrite <- drop_drop, E.
Qed.

Lemma fifo_keeps : @queue_keeps fifo_os.
Proof.
  intros q tr. change (head (in_queue tr) = @queued fifo_os tr !! length (@received fifo_os tr)).
  rewrite (proj2 (in_queue_drop tr)). rewrite <- (Nat.add_0_r (length _)) at 2.
  rewrite <- lookup_drop. by destruct (drop _ _).
Qed.

(** The configurations of the two servers: the directions of their publisher and
    subscriber are what differs. *)
Definition demo_two_way_file (publisher subscriber : bool) : option js :=
  Some (JObj [("opcua_server", JObj [
    ("publisher_interface", JStr "eth0"); ("subscriber_interface", JStr "eth0");
    ("use_xdp", JBool false); ("polling_duration_ns", JInt 0);
    ("packet_count", JInt 1000); ("cycle_time_ns", JInt 1000000);
    ("publishers", JObj [("pub1", JObj [
       ("early_offset_ns", JInt 100000); ("publish_offset_ns", JInt 5000);
       ("publish_delay_sec", JInt 5); ("socket_prio", JInt 3);
       ("url", JStr "opc.eth://22-bb-22-bb-22-bb:3.3"); ("pub_id", JInt 2234);
       ("dataset_writer_id", JInt 62541); ("writer_group_id", JInt 101);
       ("two_way_data", JBool publisher); ("iperf_cpu_affinity", JInt 1)])]);
    ("subscribers", JObj [("sub1", JObj [
       ("offset_ns", JInt 30000); ("url", JStr "opc.eth://22-bb-22-bb-22-bb:3.3");
       ("sub_id", JInt 11); ("subscribed_pub_id", JInt 2234);
       ("subscribed_dataset_writer_id", JInt 62541); ("subscribed_writer_group_id", JInt 101);
       ("two_way_data", JBool subscriber); ("iperf_cpu_affinity", JInt 1);
       ("subscriber_output_file", JStr "sub.log")])])])]%string).

Definition demo_config_path : option (list Z) := Some (bytes_of_string "config.json").

Definition demo_parsed (publisher subscriber : bool) : ServerData :=
  match (@parseArgs demo_ua_os (demo_json (demo_two_way_file publisher subscriber))
           demo_config_path fresh_server).1 with
  | Done (Some sd) => sd
  | _ => zero_server
  end.

Definition demo_b_events : list b_event :=
  [Arrive (0, demo_now); Forward; Arrive (1, demo_now); Forward].

Abbreviation demo_two_servers es :=
  (@two_servers demo_ua_os fifo_os demo_ua_build demo_ua_build
     (demo_json (demo_two_way_file false true)) (demo_json (demo_two_way_file true false))
     es demo_b_events 1 1 demo_config_path demo_config_path
     (demo_parsed false true) (demo_parsed true false) demo_path 11).

Abbreviation demo_tA es :=
  (@tA demo_ua_os demo_ua_build (demo_json (demo_two_way_file false true)) es 1 demo_config_path).

Lemma demo_two_servers_ok es :
  sends es = 3%nat → returned es `sublist_of` demo_backs →
  published (demo_tA es) = [[2 ^ 64 - 1; demo_now]; [0; demo_now]; [1; demo_now]] →
  demo_two_servers es.
Proof.
  intros Hs Hr Hp. split.
  - vm_compute. reflexivity.
  - split; [by repeat constructor|]. eexists. vm_compute. repeat split; reflexivity.
  - vm_compute. reflexivity.
  - split; [vm_compute; discriminate|]. split; [by repeat constructor|].
    eexists. vm_compute. repeat split; reflexivity.
  - intros tr. discriminate.
  - intros tr. vm_compute. reflexivity.
  - rewrite Hs. reflexivity.
  - vm_compute. reflexivity.
  - rewrite Hp. vm_compute. repeat constructor.
  - exists []. vm_compute. reflexivity.
  - assert (published (@tB fifo_os demo_ua_build
      (demo_json (demo_two_way_file true false)) demo_b_events 1 demo_config_path)
      = back_words <$> demo_backs) as -> by (vm_compute; reflexivity).
    by apply sublist_fmap.
Qed.

(** The second array is lost on its way back. *)
Lemma two_servers_log_witness :
  let es := [Send; Send; Return (mk_back 0 demo_now demo_now (2 ^ 64 - 1) demo_now); Send] in
  ∃ trips nows, length nows = length trips ∧
    logged demo_path (demo_tA es) = zip_with (result_line 11) trips nows ∧
    ((λ b, i64 (seqA b)) <$> trips) `sublist_of` [-1; 0; 1].
Proof.
  intros es. destruct (@two_servers_log demo_ua_os fifo_os
    demo_ua_build demo_ua_build (demo_json (demo_two_way_file false true))
    (demo_json (demo_two_way_file true false)) (demo_json_laws _) (demo_json_laws _) es demo_b_events
    1 1 demo_config_path demo_config_path (demo_parsed false true) (demo_parsed true false)
    demo_path 11) as (trips & nows & H1 & H2 & _ & _ & _ & _ & H3 & _).
  - apply demo_two_servers_ok; [reflexivity|vm_compute; repeat constructor|vm_compute; reflexivity].
  - exists trips, nows. split; [exact H1|]. split; [exact H2|exact H3].
Defined.

Lemma two_servers_complete_witness :
  let es := [Send; Send; Return (mk_back 0 demo_now demo_now (2 ^ 64 - 1) demo_now); Send;
             Return (mk_back 1 demo_now demo_now 0 demo_now)] in
  ∃ trips nows, length nows = length trips ∧
    logged demo_path (demo_tA es) = zip_with (result_line 11) trips nows ∧
    (λ b, [seqA b; txPubA b]) <$> trips = [[0; demo_now]; [1; demo_now]].
Proof.
  intros es. destruct (@two_servers_complete demo_ua_os fifo_os
    demo_ua_build demo_ua_build (demo_json (demo_two_way_file false true))
    (demo_json (demo_two_way_file true false)) (demo_json_laws _) (demo_json_laws _) es demo_b_events
    1 1 demo_config_path demo_config_path (demo_parsed false true) (demo_parsed true false)
    demo_path 11) as (trips & nows & H1 & H2 & _ & H3 & _).
  - apply demo_two_servers_ok; [reflexivity|vm_compute; repeat constructor|vm_compute; reflexivity].
  - split; [vm_compute; reflexivity|vm_compute; reflexivity|exact fifo_keeps|intros tr; discriminate
           |exists 0; vm_compute; reflexivity|reflexivity].
  - vm_compute. discriminate.
  - exists trips, nows. split; [exact H1|]. split; [exact H2|exact H3].
Defined.
